(* ===== verification/_CoqProject ===== *)
-Q . S2P
Prelude.v
GoNum.v
GoStrings.v
Config.v
Cloud.v
Model.v
Store.v
K8s.v
ConvertHelpers.v
ConvertNode.v
ConvertPod.v
Dcgm.v
AgentErrors.v
Transport.v
Ownership.v
Aggregation.v
ConvertWorkload.v
ConvertCluster.v
ConvertNetwork.v
ConvertAutoscaling.v
ConvertDynamic.v
Targets.v
Pipeline.v
Summary.v
SnapshotBuilder.v
PodEquiv.v
Built.v
Registry.v
Recovery.v
Polling.v
Pollers.v
Collectors.v
Informers.v
Cluster.v
ClusterLinks.v
Http.v
CloudMetadata.v
Discovery.v
Scraper.v
StateMachine.v
Monitor.v
Agent.v
HealthServer.v
Main.v
System.v
Usage.v
Lifecycle.v
ReportedErrors.v
Metrics.v
