(* ===== verification/Prelude.v ===== *)
(** * kubeadapt-agent: a verification library

    The agent (src/cmd/agent, src/internal, src/pkg/model) watches a Kubernetes
    cluster, keeps what it sees in in-memory stores, builds a snapshot of them
    at every tick, enriches it, and posts it compressed to a backend.  This
    library is a shallow embedding of that program: pure functions are Rocq
    functions, objects with state are records and their methods functions on
    them, errors are values.

    ** How the parts interact

    [main] loads the configuration, detects the cluster's capabilities and the
    cloud metadata, registers the collectors these call for and starts the
    health server.  Collectors write the typed stores (internal/store); the
    metrics-server and GPU pollers keep usage and devices.  [Agent.Run] starts the collectors
    through the registry, waits for their caches, and then at every tick calls
    [doSnapshot]: [Build] reads the stores, merges metrics, resolves ownership,
    runs the enrichment pipeline and computes the summary; [populateHealth]
    adds the agent's counters and errors; the transport client encodes and
    posts the snapshot and reports failures to the error collector.  A signal
    ends the loop; the collectors are stopped one after the other, then the
    memory monitor and the health server.

    ** Files

    - Prelude.v (this file): notations, record update, Go maps, shared lemmas
      on lists, options and maps.
    - GoNum.v: int64/uint64 arithmetic with its wrap-around, IEEE double
      arithmetic on the Standard Library's [spec_float], Duration and Time.
    - GoStrings.v: the functions of the Go packages strings, strconv and time
      the sources call ([Split], [TrimSpace], [ParseBool], [ParseDuration], ...).
    - Config.v: internal/config/config.go ([Load]) and validate.go
      ([Validate]).  The environment is a function.
    - Cloud.v: internal/convert/cloud.go (provider ids, capacity type, node
      group).
    - Model.v: pkg/model, one record per struct.
    - Store.v: internal/store ([TypedStore], [Store], [MetricsStore]) and the
      class [StoreField], the typed store of each resource.
    - K8s.v: the fields of the Kubernetes API objects the sources read.
      ConvertHelpers.v, ConvertNode.v, ConvertPod.v, ConvertWorkload.v:
      internal/convert/{helpers,node,pod,workload}.go.  ConvertCluster.v:
      scheduling.go and storage.go.  ConvertNetwork.v: network.go.
      ConvertAutoscaling.v: autoscaling.go without the VPA.  ConvertDynamic.v:
      the unstructured objects, VPAs (autoscaling.go) and node pools
      (internal/collector/resource/nodepools.go).
    - Dcgm.v: internal/collector/gpu: the Prometheus text parser, the device
      fold, the scrape over endpoints and the poller's state.
    - AgentErrors.v: internal/errors ([ErrorCollector]).
    - Transport.v: internal/transport (client.go, middleware.go, counting.go).
    - Ownership.v, Aggregation.v, Targets.v, Pipeline.v: internal/enrichment,
      one file per enricher and the pipeline, with the mounts no-op and the
      pipeline cmd/agent/main.go builds.
    - Summary.v, SnapshotBuilder.v: internal/snapshot.  PodEquiv.v: pods up to
      their measurements, the equivalence a build's writes into the stored
      containers stay in.  Built.v: a snapshot, its nodes and its summary against
      the stores the build read.
    - Registry.v: internal/collector (the Collector interface and the
      registry) and internal/collector/resource/runner.go, health.go.
      Recovery.v: the goroutine of runner.go as a step relation.
    - Polling.v: the goroutine of the two polling collectors, a step relation
      over the class [Poller].  Pollers.v: internal/collector/metrics/server.go
      and the two instances.
    - Collectors.v: internal/collector/resource: the informer handlers, defined
      once against the class [InformedResource], with an instance for each of
      the twenty-one collectors.  Informers.v: the collectors as one family
      indexed by the kind of resource, their calls in any interleaving, and what
      each store mirrors of them.
    - Cluster.v, ClusterLinks.v: the interface between the collectors and the
      builder ([mirrors]) and the theorems that cross them.
    - Http.v: HTTP clients as trees of requests, run against any server, and the
      redirections [http.Client.Do] follows.  CloudMetadata.v: internal/cloud/metadata.go.  Scraper.v:
      internal/collector/gpu/scraper.go.
    - Discovery.v: internal/discovery (provider.go, capabilities.go, rbac.go).
    - StateMachine.v: internal/agent/state.go and the check of
      memorypressure.go.  Monitor.v: the memory monitor and its goroutine.
    - Agent.v: internal/agent/agent.go.
    - HealthServer.v: internal/health/server.go, against the classes
      [ReadinessChecker], [SnapshotProvider] and [StoreStats].
    - Main.v: cmd/agent/main.go up to [ag.Run].
    - System.v: what runs from there to the end of [main], as one step relation
      ([sys_step]) over a stage (where [main] is) and the state of every
      goroutine: the start of the collectors, the informers and their handlers,
      the polls, the builds, the agent loop, the memory monitor, the signal, the
      stops, the shutdown, the panic of a ticker.  Usage.v: where the usage a
      snapshot reports comes from.  Lifecycle.v: what snapshots say of the
      collectors, which ticker can panic, whether the process ends.
      ReportedErrors.v: where the error codes of a snapshot come from.
    - Metrics.v: internal/observability/metrics.go and every call the program
      makes on it, collected over the runs of System.v.

    ** State and operations

    A Go struct with a mutex is a record and each method one function from
    state to state: a method holds the lock while it touches the state, so a run of
    the program is a sequence of these functions ([TypedStore]'s writes store
    their time just after the lock; the model makes write and time one step).  Where a method's result
    depends on something outside the state, that is an argument: the clock
    reading ([now]), the order of a range over a map ([RangeOrder], any
    enumeration), the order in which goroutines finish ([StartAll]), the
    network ([World.t], one answer per attempt), and what one build or one tick
    reads ([Reads.t], [Round.t]).  Theorems quantify over these, so they hold
    for every interleaving that the locks allow.  In System.v a build is a step
    that takes the informer calls arriving while it reads, and reads each typed
    store at an instant of its own among them; a poll is one step, so a build
    sees the metrics stores between polls.  The container slices a
    snapshot's pods share with the stores are modelled: [Build] returns the
    store after its writes through them.

    ** What the theorems show

    - The whole process (System.v, Usage.v): whatever the interleaving, the
      snapshot of a round has for every kind exactly the conversions of the
      objects live at an instant of the build, and no usage in it is anything
      else than what the metrics API answered for that container.
    - The life of the process (Lifecycle.v, Recovery.v, Monitor.v): from wherever
      it is the process can come to its end exactly when no collector it has left
      to stop failed to start; a snapshot names as stale exactly the collectors
      whose goroutine returned, which takes an informer four crashes; only the
      interval of the GPU polls can make a ticker panic.  The liveness is of the
      kind that the end stays reachable from every state, through steps in
      which no informer crashes; no scheduler is assumed.
    - The errors of a run (ReportedErrors.v): a code in a snapshot is that of a
      wait for the caches or of an earlier send that failed within the five
      minutes; the ten other codes are never reported.
    - The agent's metrics (Metrics.v): every call fits its descriptor, the series
      are a fixed number, and the counters agree with the state of the agent and
      of the handlers.
    - From the cluster to the snapshot (Collectors.v, Cluster.v, Convert*.v): a
      store mirrors what its informer reports; conversion keeps containers,
      statuses and owners; a pod of a Deployment is reported and counted as that
      Deployment's, and one of a CronJob's Job as that CronJob's; a Service's
      targets are exactly the Deployments it selects; the totals of a snapshot
      are those of its own pods, and requests computed from pods and from their
      template agree; a node pool or VPA object is read as it was written.
    - Polling and HTTP (Polling.v, Pollers.v, CloudMetadata.v, Scraper.v): what
      the registry is told of a polling collector is what its goroutine did,
      and Stop ends; the metrics stores are the history of the lists; the
      detection of the cloud always ends and hands only the well-known requests to
      its client, in order; everything else on the wire is a redirection of one of
      them, which takes the AWS session token along; a GPU poll has the
      devices of the exporters that answered.
    - Process (Discovery.v, Main.v, HealthServer.v): capabilities follow the API
      groups and the nodes; the process exits or comes up for the reason it
      says, with a registry that fits its store; what no collector feeds stays
      empty; the probes follow the agent's state, and a path that is not clean is
      redirected.
    - Snapshot (SnapshotBuilder.v, Built.v, Summary.v, Store.v): a build loses and
      invents nothing against the stores, its nodes included; the merges of metrics
      write exactly the usage reported; the backfill closes the node references;
      staleness is the age threshold; every integer of the summary is a count or a
      sum over the stores, and two builds that range over the maps in different
      orders agree on all of them; a store is the history of its writes.
    - Enrichment (Ownership.v, Aggregation.v, Targets.v, Pipeline.v): the owner
      is the end of the recorded chain; totals are those of exactly the owned
      pods; targets are exactly the selected workloads; every enricher runs.
    - Sending (Transport.v, AgentErrors.v): attempts, delays, retryable
      classes, identical requests, error reports with their time to live.
    - Life cycle (Registry.v, StateMachine.v, Agent.v): partial starts, stops,
      health partition, crash recovery, transitions and backoff windows; the
      counters a snapshot carries account for every snapshot before it.
    - Parsing (Dcgm.v, Config.v, Cloud.v): label text round trip, precedence of
      profiling metrics, durations, validation, provider ids.
    - Behaviour that surprises is stated as it is: status codes never reach the
      state machine, a build's staleness list is overwritten, usage outlives
      its metrics, the metrics store never forgets, Jobs of CronJobs get
      template totals, no GPU poll ever fails, an agent is ready after a sync
      that timed out, the documented exporter endpoints get a second port,
      MaxRetries at its largest value sends nothing, a collector that failed to
      start is healthy and can never be stopped, a GPU interval of zero kills the
      process, four metrics are never written, no metric counts a snapshot that
      is refused before it is sent, and ten of the twelve error codes are never
      reported.

    ** Bounds and fuel

    Machine integers are [Z] with the wrap written out where a result can leave
    the type; floats are 53-bit [spec_float].  Loops over text ([parseLabels],
    [Split], [ParseDuration]) take the length of the text as fuel; each
    iteration consumes a byte, and the round-trip theorems show the fuel is
    enough on what they parse.  [resolveOwner] has the ten iterations of the
    source.  [send_loop] has MaxRetries + 1 attempts, the count the source
    computes, wrap included.  [run_attempts] has the four runs of an informer.
    The step relations have no fuel: what must end is proved to be able to.

    ** Parameters

    The JSON encoders and decoders, zstd, the parser of quantities, URL parsing,
    the HTTP network, the API server, the metrics API, the kubeconfig and the
    clients made from it ([Kube.t]), Prometheus's buckets and [MustRegister],
    [net.Listen], the resolution of a redirection's URL and its domain, and what
    [Build] reads from the uuid generator and the runtime are arguments, and so
    are the calls a client-go informer makes.  No law is assumed of them, except
    that they are functions of what they are given ([server] is one of all the
    requests sent so far).  A Kubernetes quantity is the readings the sources
    take of it; the zero quantity reads as zero.

    ** Not modelled

    The parts of net/http's ServeMux that depend on percent escapes in the path,
    and its CONNECT requests; the redirections of the clients that post snapshots
    and scrape exporters (the theorems are about what is handed to the client);
    client-go itself (an informer is the calls of its handlers and the return of
    its [Run]), Prometheus itself, logging, and the replies of promhttp and pprof:
    library calls and I/O without decisions of this program.  [StartAll] is one
    step, so no handler is called while another collector starts; a poll is one
    step; a shutdown of the health server that times out is only logged and
    ends like any other.  A signal before [ag.Run] is not a case of its own: the
    stage [Booted] already has it. *)

From stdpp Require Export base gmap strings list fin_maps numbers pretty.
From Stdlib Require Export ZArith Lia.



(** ** Notations *)

Declare Scope agent_scope.
Delimit Scope agent_scope with agent.
Open Scope agent_scope.
Open Scope Z_scope.

(** The Go integer types.  Every value is a [Z]; the definitions wrap the
    result of an operation at the width of its type where it can leave it. *)
Abbreviation int := Z (only parsing).
Abbreviation int32 := Z (only parsing).
Abbreviation int64 := Z (only parsing).
Abbreviation uint64 := Z (only parsing).

(** A Go [map[string]V]: [None] is the nil map, which reads as empty. *)
Abbreviation gomap V := (option (gmap string V)) (only parsing).

(** ** Functional record update

    [r <| f := v |>] is [r] with the field [f] replaced.  Every record of the
    development declares an [Eta] instance, its constructor applied to its
    projections; the setter of a field is that term with the projection
    abstracted. *)
Class Eta (R : Type) := eta_of : R -> R.
Class Setter {R T : Type} (proj : R -> T) := set_with : (T -> T) -> R -> R.

Ltac build_setter :=
  match goal with
  | |- @Setter ?R ?T ?p =>
      let e := constr:(_ : Eta R) in
      let b := eval hnf in e in
      let b := eval pattern p in b in
      match b with
      | ?g _ => exact (fun (f : T -> T) (r : R) => g (fun x => f (p x)) r)
      end
  end.

#[export] Hint Extern 1 (Setter _) => build_setter : typeclass_instances.

Notation "r <| p := v |>" := (set_with (proj := p) (fun _ => v) r)
  (at level 1, left associativity, format "r  <| p  :=  v |>") : agent_scope.

(** ** Reading Go maps *)

Section GoMaps.
Context {V : Type}.

(** [v, ok := m[k]] *)
Definition mlookup (m : gomap V) (k : string) : option V :=
  match m with Some m => m !! k | None => None end.

(** [m[k]], the zero value of [V] when the key is absent. *)
Definition mget (zero : V) (m : gomap V) (k : string) : V :=
  default zero (mlookup m k).

(** [len(m)] *)
Definition mlen (m : gomap V) : Z :=
  match m with Some m => Z.of_nat (size m) | None => 0 end.

(** The entries of a map, the nil map being empty. *)
Definition mentries (m : gomap V) : gmap string V := default ∅ m.
End GoMaps.

(** A Go [map[string]T] filled by a loop over a slice, [for _, x := range l {
    m[key(x)] = x }]: a later element replaces an earlier one of its key. *)
Definition index_by {A} (key : A -> string) (l : list A) : gmap string A :=
  foldl (fun m x => <[key x := x]> m) ∅ l.

(** The store and lookup key of a namespaced object, "namespace/name". *)
Definition ns_name (ns name : string) : string := ns +:+ "/" +:+ name.

(** ** Tactics *)

(** Split on the first [decide], [if] or [match] of the goal. *)
Ltac step_case := first [ case_decide | case_match ]; simplify_eq/=.

(** Close a goal that is decided by computation or by the hypotheses. *)
Ltac crush := repeat (progress (simplify_eq/=) || case_match || case_decide); try done; try lia.

Create HintDb agent discriminated.
Create Rewrite HintDb agent.

(** ** Lemmas on loops *)

Section Loops.
Context {A S X : Type}.

(** A loop over several variables, seen through one of them. *)
Lemma foldl_proj (g : S -> X) (f : S -> A -> S) (h : X -> A -> X) (l : list A) (s : S) :
  (forall s a, g (f s a) = h (g s) a) -> g (foldl f s l) = foldl h (g s) l.
Proof.
  intros H. revert s. induction l as [|a l IH]; intros s; simpl; [done|]. by rewrite IH, H.
Qed.

Lemma foldl_ext_in (f h : S -> A -> S) (l : list A) (s : S) :
  (forall s a, a ∈ l -> f s a = h s a) -> foldl f s l = foldl h s l.
Proof.
  revert s. induction l as [|a l IH]; intros s H; simpl; [done|].
  rewrite H by (by left). apply IH. intros s' a' Hin. apply H. by right.
Qed.

(** A loop whose body only acts on the elements that pass a test. *)
Lemma foldl_omap (p : A -> option X) (f : S -> X -> S) (l : list A) (s : S) :
  foldl (fun s a => match p a with Some x => f s x | None => s end) s l = foldl f s (omap p l).
Proof.
  revert s. induction l as [|a l IH]; intros s; simpl; [done|].
  rewrite IH. by destruct (p a).
Qed.

Lemma foldl_orb (p : A -> bool) (l : list A) (b : bool) :
  foldl (fun b a => if p a then true else b) b l = b || existsb p l.
Proof.
  revert b. induction l as [|a l IH]; intros b; simpl; [by rewrite orb_false_r|].
  rewrite IH. by destruct (p a), b.
Qed.
End Loops.

Lemma length_omap_le {A B} (f : A -> option B) (l : list A) : (length (omap f l) <= length l)%nat.
Proof.
  induction l as [|x l IH]; [done|]. cbn [omap list_omap length].
  destruct (f x); cbn [length]; [apply le_n_S, IH|apply le_S, IH].
Qed.

Lemma omap_id_fmap {A B} (f : A -> option B) (l : list A) : omap id (f <$> l) = omap f l.
Proof.
  induction l as [|x l IH]; [done|]. cbn [omap list_omap fmap list_fmap id].
  destruct (f x); [f_equal|]; apply IH.
Qed.

(** A filter that keeps the length keeps the list. *)
Lemma filter_all_length {A} (P : A -> Prop) `{forall x, Decision (P x)} (l : list A) :
  (length l <= length (filter P l))%nat -> filter P l = l.
Proof.
  induction l as [|x l IH]; [done|]. rewrite filter_cons.
  pose proof (length_filter P l). case_decide; cbn [length]; intros Hl; [f_equal; apply IH|]; lia.
Qed.

Lemma filter_none {A} (P : A -> Prop) `{forall x, Decision (P x)} (l : list A) :
  Forall (fun x => ~ P x) l -> filter P l = [].
Proof. induction 1 as [|x l Hx _ IH]; [done|]. rewrite filter_cons. by rewrite decide_False. Qed.

(** A loop that rewrites every element keeps the fields it does not write. *)
Lemma fmap_kept {A X} (g : A -> A) (f : A -> X) (l : list A) :
  (forall x, f (g x) = f x) -> f <$> (g <$> l) = f <$> l.
Proof. intros H. rewrite <- list_fmap_compose. apply list_fmap_ext. intros i x _. apply H. Qed.

(** ** Lemmas on indexes *)

Lemma index_by_snoc {A} (key : A -> string) l x :
  index_by key (l ++ [x]) = <[key x := x]> (index_by key l).
Proof. unfold index_by. by rewrite foldl_app. Qed.

Lemma index_by_Some {A} (key : A -> string) l k x :
  index_by key l !! k = Some x -> x ∈ l /\ key x = k.
Proof.
  induction l as [|y l IH] using rev_ind; [done|].
  rewrite index_by_snoc, lookup_insert, elem_of_app, list_elem_of_singleton.
  case_decide; [intros [= ->]; auto|]. intros [? ?]%IH; auto.
Qed.

Lemma index_by_is_Some {A} (key : A -> string) l x :
  x ∈ l -> exists y, index_by key l !! key x = Some y.
Proof.
  induction l as [|y l IH] using rev_ind; [by intros ?%not_elem_of_nil|].
  rewrite index_by_snoc, lookup_insert, elem_of_app, list_elem_of_singleton.
  case_decide; [eauto|]. intros [?| ->]; [by apply IH|done].
Qed.

(** With distinct keys, an element is found under its own key. *)
Lemma index_by_NoDup {A} (key : A -> string) l x :
  NoDup (key <$> l) -> x ∈ l -> index_by key l !! key x = Some x.
Proof.
  intros Hnd Hx. destruct (index_by_is_Some key l x Hx) as [y Hy].
  destruct (index_by_Some _ _ _ _ Hy) as [Hyl Hk]. rewrite Hy. f_equal.
  apply list_elem_of_lookup in Hx as [i Hi], Hyl as [j Hj].
  assert (i = j) as ->; [|congruence].
  eapply (NoDup_lookup (key <$> l)); [done| |]; rewrite list_lookup_fmap.
  - by rewrite Hi.
  - by rewrite Hj, <- Hk.
Qed.


(** The element found under a key is the last one with that key. *)
Lemma index_by_last {A} (key : A -> string) l k :
  index_by key l !! k = last (filter (fun x => key x = k) l).
Proof.
  induction l as [|x l IH] using rev_ind; [done|].
  rewrite index_by_snoc, lookup_insert, filter_app, filter_cons, filter_nil.
  case_decide; [by rewrite last_snoc|]. by rewrite app_nil_r.
Qed.

Lemma index_by_None {A} (key : A -> string) l k :
  index_by key l !! k = None <-> k ∉ key <$> l.
Proof.
  rewrite list_elem_of_fmap. split.
  - intros Hn (x & -> & Hx). destruct (index_by_is_Some key l x Hx) as [y Hy]. congruence.
  - intros Hn. destruct (index_by key l !! k) as [x|] eqn:Hx; [|done].
    exfalso. apply index_by_Some in Hx as [Hx <-]. apply Hn. eauto.
Qed.

#[export] Hint Resolve index_by_NoDup : agent.
