(* ===== verification/GoNum.v ===== *)
(** * Go numbers and time

    Machine-width integers as [Z] with the wrap-around written out, IEEE 754
    binary64 values as [spec_float] with the operations of the standard
    library's executable specification, and the [time.Duration] and
    [time.Time] operations the agent uses. *)

From S2P Require Import Prelude.
From Stdlib Require Export SpecFloat.

(** ** Integers *)

(** A signed 64-bit result: Go's [int64] and, on the agent's 64-bit targets,
    [int] arithmetic wraps around. *)
Definition wrap64 (z : Z) : int64 := (z + 2 ^ 63) mod 2 ^ 64 - 2 ^ 63.

(** A [uint64] result. *)
Definition uwrap64 (z : Z) : uint64 := z mod 2 ^ 64.

Definition in_int64 (z : Z) : Prop := - 2 ^ 63 <= z < 2 ^ 63.

Definition add64 (a b : int64) : int64 := wrap64 (a + b).

Definition sub64 (a b : int64) : int64 := wrap64 (a - b).

Definition mul64 (a b : int64) : int64 := wrap64 (a * b).

Definition max_int64 : int64 := 2 ^ 63 - 1.

Definition min_int64 : int64 := - 2 ^ 63.

(** [len(l)] *)
Definition golen {A} (l : list A) : int := Z.of_nat (length l).

(** The running sum of a Go loop [for ... { acc += f(x) }] over [int64]. *)
Definition sum64 {A} (f : A -> int64) (l : list A) : int64 :=
  foldl (fun acc x => add64 acc (f x)) 0 l.

(** The mathematical sum the loop would compute without overflow. *)
Definition sumZ {A} (f : A -> Z) (l : list A) : Z :=
  foldr (fun x acc => f x + acc) 0 l.

(** [for ... { if p(x) { n++ } }] counts the elements that pass [p]. *)
Definition count64 {A} (p : A -> bool) (l : list A) : int :=
  foldl (fun n x => if p x then add64 n 1 else n) 0 l.

(** ** float64 *)

Abbreviation float64 := spec_float.

Definition f64_prec : Z := 53.

Definition f64_emax : Z := 1024.

Definition f64_zero : float64 := S754_zero false.

(** [float64(z)] for an integer [z]: round to nearest even. *)
Definition f64_of_Z (z : Z) : float64 := binary_normalize f64_prec f64_emax z 0 false.

Definition f64_add (a b : float64) : float64 := SFadd f64_prec f64_emax a b.

Definition f64_mul (a b : float64) : float64 := SFmul f64_prec f64_emax a b.

Definition f64_div (a b : float64) : float64 := SFdiv f64_prec f64_emax a b.

(** [a < b], [a == b]: false when an operand is NaN. *)
Definition f64_ltb (a b : float64) : bool := SFltb a b.

Definition f64_eqb (a b : float64) : bool := SFeqb a b.

(** [sum += f(x)] over a slice of floats, from [0.0]. *)
Definition sumf {A} (f : A -> float64) (l : list A) : float64 :=
  foldl (fun acc x => f64_add acc (f x)) f64_zero l.

(** The integer part, truncated towards zero; [None] for NaN and infinities. *)
Definition f64_trunc (a : float64) : option Z :=
  match a with
  | S754_zero _ => Some 0
  | S754_finite s m e =>
      let mag := if 0 <=? e then Z.pos m * 2 ^ e else Z.pos m / 2 ^ (- e) in
      Some (if s then - mag else mag)
  | _ => None
  end.

(** [int64(a)].  The conversion of a value [int64] cannot represent is
    implementation-specific in Go; amd64 gives the minimum. *)
Definition int64_of_f64 (a : float64) : int64 :=
  match f64_trunc a with
  | Some z => if (min_int64 <=? z) && (z <=? max_int64) then z else min_int64
  | None => min_int64
  end.

#[export] Instance spec_float_eq_dec : EqDecision spec_float.
Proof. solve_decision. Defined.

(** ** time.Duration and time.Time *)

(** A [time.Duration] is an [int64] of nanoseconds, a [time.Time] the instant
    in nanoseconds since the Unix epoch. *)
Abbreviation Duration := Z.
Abbreviation Time := Z.

Definition Nanosecond : Duration := 1.

Definition Millisecond : Duration := 1000000.

Definition Second : Duration := 1000000000.

Definition Minute : Duration := 60 * Second.

(** [t.Add(d)] *)
Definition time_add (t : Time) (d : Duration) : Time := t + d.

(** [t.Sub(u)]: saturates at the bounds of a Duration. *)
Definition time_sub (t u : Time) : Duration := Z.max min_int64 (Z.min max_int64 (t - u)).

(** [t.After(u)] *)
Definition time_after (t u : Time) : bool := u <? t.

(** [t.UnixMilli()] *)
Definition unix_milli (t : Time) : int64 := t / Millisecond.

(** ** Lemmas *)

Lemma wrap64_id z : in_int64 z -> wrap64 z = z.
Proof. unfold in_int64, wrap64. intros. rewrite Z.mod_small; lia. Qed.

Lemma wrap64_range z : in_int64 (wrap64 z).
Proof.
  unfold in_int64, wrap64.
  pose proof (Z.mod_pos_bound (z + 2 ^ 63) (2 ^ 64) ltac:(lia)). lia.
Qed.

Lemma wrap64_idemp z : wrap64 (wrap64 z) = wrap64 z.
Proof. apply wrap64_id, wrap64_range. Qed.

Lemma wrap64_eq a b k : a = b + k * 2 ^ 64 -> wrap64 a = wrap64 b.
Proof.
  intros ->. unfold wrap64. f_equal.
  replace (b + k * 2 ^ 64 + 2 ^ 63) with (b + 2 ^ 63 + k * 2 ^ 64) by lia.
  apply Z.mod_add; lia.
Qed.

Lemma wrap64_spec z : exists k, wrap64 z = z + k * 2 ^ 64.
Proof.
  unfold wrap64. exists (- ((z + 2 ^ 63) / 2 ^ 64)).
  pose proof (Z.div_mod (z + 2 ^ 63) (2 ^ 64) ltac:(lia)). lia.
Qed.

Lemma wrap64_add_l a b : wrap64 (wrap64 a + b) = wrap64 (a + b).
Proof.
  destruct (wrap64_spec a) as [k Hk]. rewrite Hk. apply wrap64_eq with k. lia.
Qed.

Lemma wrap64_add_r a b : wrap64 (a + wrap64 b) = wrap64 (a + b).
Proof. rewrite Z.add_comm, wrap64_add_l. f_equal. lia. Qed.

Lemma uwrap64_add_l a b : uwrap64 (uwrap64 a + b) = uwrap64 (a + b).
Proof. unfold uwrap64. by rewrite Zplus_mod_idemp_l. Qed.

Lemma uwrap64_add_r a b : uwrap64 (a + uwrap64 b) = uwrap64 (a + b).
Proof. unfold uwrap64. by rewrite Zplus_mod_idemp_r. Qed.

(** A counter's increment since its last reading, wrap-around included. *)
Lemma uwrap64_diff_1 x : uwrap64 (uwrap64 (x + 1) - x) = 1.
Proof.
  unfold uwrap64. rewrite Zminus_mod_idemp_l. by replace (x + 1 - x) with 1 by lia.
Qed.

Lemma add64_comm a b : add64 a b = add64 b a.
Proof. unfold add64. f_equal. lia. Qed.

Lemma add64_assoc a b c : add64 (add64 a b) c = add64 a (add64 b c).
Proof. unfold add64. rewrite wrap64_add_l, wrap64_add_r. f_equal. lia. Qed.

Section Sums.
Context {A : Type}.
Implicit Types (f : A -> Z) (l : list A).

Lemma sum64_foldl f l acc :
  foldl (fun acc x => add64 acc (f x)) (wrap64 acc) l = wrap64 (acc + sumZ f l).
Proof.
  revert acc. induction l as [|x l IH]; intros acc; simpl.
  - by rewrite Z.add_0_r.
  - unfold add64 at 2. rewrite wrap64_add_l, IH. f_equal. lia.
Qed.

(** The Go loop computes the mathematical sum modulo 2^64. *)
Lemma sum64_wrap f l : sum64 f l = wrap64 (sumZ f l).
Proof.
  unfold sum64. replace 0 with (wrap64 0) by reflexivity.
  rewrite sum64_foldl. f_equal.
Qed.

Lemma sumZ_app f l1 l2 : sumZ f (l1 ++ l2) = sumZ f l1 + sumZ f l2.
Proof. induction l1; simpl; lia. Qed.

#[export] Instance sumZ_perm f : Proper ((≡ₚ) ==> eq) (sumZ f).
Proof. induction 1; simpl; lia. Qed.

#[export] Instance sum64_perm f : Proper ((≡ₚ) ==> eq) (sum64 f).
Proof. intros l1 l2 Hp. by rewrite !sum64_wrap, Hp. Qed.

Lemma sumZ_nonneg f l : (forall x, x ∈ l -> 0 <= f x) -> 0 <= sumZ f l.
Proof.
  induction l as [|x l IH]; intros H; simpl; [lia|].
  pose proof (H x ltac:(left)). assert (0 <= sumZ f l); [|lia].
  apply IH. intros y Hy. apply H. by right.
Qed.
End Sums.

Lemma sumZ_fmap {A} (f : A -> Z) (l : list A) : sumZ f l = sumZ id (f <$> l).
Proof. induction l; simpl; [done|]. by f_equal. Qed.

Lemma sumf_fmap {A} (f : A -> float64) (l : list A) : sumf f l = sumf id (f <$> l).
Proof. unfold sumf. generalize f64_zero. induction l; intros acc; simpl; [done|]. by rewrite IHl. Qed.

Lemma count64_foldl {A} (p : A -> bool) (l : list A) (n : nat) :
  foldl (fun n x => if p x then add64 n 1 else n) (wrap64 (Z.of_nat n)) l =
    wrap64 (Z.of_nat (n + length (filter (fun x => p x = true) l))).
Proof.
  revert n. induction l as [|x l IH]; intros n; simpl; [by rewrite Nat.add_0_r|].
  rewrite filter_cons. destruct (p x); simpl; [|apply IH].
  unfold add64 at 2. rewrite wrap64_add_l.
  replace (Z.of_nat n + 1) with (Z.of_nat (S n)) by lia. rewrite IH. do 2 f_equal. lia.
Qed.

Lemma count64_spec {A} (p : A -> bool) (l : list A) :
  count64 p l = wrap64 (Z.of_nat (length (filter (fun x => p x = true) l))).
Proof. apply (count64_foldl p l 0). Qed.

Lemma length_filter_fmap {A B} (f : A -> B) (P : B -> Prop) `{!forall y, Decision (P y)} (l : list A) :
  length (filter P (f <$> l)) = length (filter (fun x => P (f x)) l).
Proof.
  induction l as [|x l IH]; [done|]. cbn [fmap list_fmap]. rewrite !filter_cons.
  case_decide; cbn [length]; by rewrite IH.
Qed.

Lemma count64_fmap {A B} (f : A -> B) (p : B -> bool) (l : list A) : count64 p (f <$> l) = count64 (fun x => p (f x)) l.
Proof. by rewrite !count64_spec, length_filter_fmap. Qed.

Lemma sum64_fmap {A B} (f : A -> B) (g : B -> int64) (l : list A) : sum64 g (f <$> l) = sum64 (fun x => g (f x)) l.
Proof.
  rewrite !sum64_wrap. f_equal. induction l; simpl; [done|]. by f_equal.
Qed.

#[export] Instance golen_perm {A} : Proper ((≡ₚ) ==> eq) (@golen A).
Proof. intros l1 l2 H. unfold golen. by rewrite H. Qed.

#[export] Instance count64_perm {A} (p : A -> bool) : Proper ((≡ₚ) ==> eq) (count64 p).
Proof. intros l1 l2 H. by rewrite !count64_spec, H. Qed.

Lemma time_sub_gt t u d :
  0 <= d < max_int64 -> (time_sub t u >? d) = (t - u >? d).
Proof.
  unfold time_sub, max_int64, min_int64. intros Hd.
  rewrite !Z.gtb_ltb. apply eq_true_iff_eq. rewrite !Z.ltb_lt. lia.
Qed.

#[export] Hint Rewrite @sum64_wrap wrap64_idemp wrap64_add_l wrap64_add_r : agent.
#[export] Hint Resolve wrap64_range wrap64_id : agent.

(** A whole number that is not negative is not below zero. *)
Lemma f64_of_nonneg n : 0 <= n -> f64_ltb (f64_of_Z n) f64_zero = false.
Proof.
  intros Hn. unfold f64_ltb, f64_of_Z, binary_normalize. destruct n as [|m|m]; [reflexivity| |lia].
  unfold binary_round. destruct (shl_align _ _ _) as [mz ez]. unfold binary_round_aux.
  destruct (shr_fexp _ _ (Z.pos mz) _ _) as [mrs e]. destruct (shr_fexp _ _ (round_nearest_even _ _) _ _) as [mrs' e'].
  destruct (shr_m mrs') as [|m'|m']; [reflexivity| |reflexivity]. by destruct (e' <=? _).
Qed.
