(* ===== verification/GoStrings.v ===== *)
(** * Go strings, strconv and time.ParseDuration

    A Go string is its bytes, a Rocq [string].  The functions of the packages
    [strings], [strconv] and [time] the agent calls, as the standard library
    defines them; the separators of the calls are single bytes.  A result with
    an error is [None]. *)

From S2P Require Import Prelude GoNum.
From Stdlib Require Export Ascii.
Open Scope char_scope.
Open Scope string_scope.
Open Scope list_scope.
Open Scope Z_scope.

(** ** strings *)

Definition strlen (s : string) : int := Z.of_nat (String.length s).

Fixpoint HasPrefix (s prefix : string) {struct prefix} : bool :=
  match prefix, s with
  | EmptyString, _ => true
  | String c prefix, String d s => bool_decide (c = d) && HasPrefix s prefix
  | _, _ => false
  end.

(** [s[i:]] and [s[:i]] for [0 <= i <= len(s)]. *)
Fixpoint drop_str (i : nat) (s : string) : string :=
  match i, s with
  | S i, String _ s => drop_str i s
  | _, _ => s
  end.

Fixpoint take_str (i : nat) (s : string) : string :=
  match i, s with
  | S i, String c s => String c (take_str i s)
  | _, _ => EmptyString
  end.

Definition slice_from (s : string) (i : int) : string := drop_str (Z.to_nat i) s.

Definition slice_to (s : string) (i : int) : string := take_str (Z.to_nat i) s.

Definition TrimPrefix (s prefix : string) : string :=
  if HasPrefix s prefix then slice_from s (strlen prefix) else s.

(** [strings.IndexByte(s, c)] and [strings.LastIndex(s, string(c))]: -1 when
    absent. *)
Fixpoint IndexByte (s : string) (c : ascii) : int :=
  match s with
  | EmptyString => -1
  | String d s =>
      if decide (d = c) then 0
      else let i := IndexByte s c in if i =? -1 then -1 else i + 1
  end.

Fixpoint LastIndex (s : string) (c : ascii) : int :=
  match s with
  | EmptyString => -1
  | String d s =>
      let i := LastIndex s c in
      if i =? -1 then (if decide (d = c) then 0 else -1) else i + 1
  end.

(** [strings.Split(s, string(c))] *)
Fixpoint Split (s : string) (c : ascii) : list string :=
  match s with
  | EmptyString => [""]
  | String d s =>
      if decide (d = c) then "" :: Split s c
      else match Split s c with
           | p :: ps => String d p :: ps
           | [] => [String d ""]
           end
  end.

(** [strings.SplitN(s, string(c), 2)] *)
Definition SplitN2 (s : string) (c : ascii) : list string :=
  let i := IndexByte s c in
  if i =? -1 then [s] else [slice_to s i; slice_from s (i + 1)].

(** [strings.Contains(s, sub)] *)
Fixpoint Contains (s sub : string) : bool :=
  HasPrefix s sub ||
  match s with
  | EmptyString => false
  | String _ s => Contains s sub
  end.

(** The characters [unicode.IsSpace] accepts, in UTF-8. *)
Definition byte_str (l : list nat) : string := String.string_of_list_ascii (ascii_of_nat <$> l).

Definition spaces : list string :=
  byte_str <$> [[9]; [10]; [11]; [12]; [13]; [32]; [194; 133]; [194; 160]; [225; 154; 128];
    [226; 128; 128]; [226; 128; 129]; [226; 128; 130]; [226; 128; 131]; [226; 128; 132];
    [226; 128; 133]; [226; 128; 134]; [226; 128; 135]; [226; 128; 136]; [226; 128; 137];
    [226; 128; 138]; [226; 128; 168]; [226; 128; 169]; [226; 128; 175]; [226; 129; 159];
    [227; 128; 128]]%nat.

(** Remove the words of [ws] from the front, as long as one is there. *)
Fixpoint trim_front (fuel : nat) (ws : list string) (s : string) : string :=
  match fuel with
  | O => s
  | S fuel =>
      match List.find (HasPrefix s) ws with
      | Some w => trim_front fuel ws (drop_str (String.length w) s)
      | None => s
      end
  end.

Definition rev_str (s : string) : string := String.string_of_list_ascii (reverse (String.list_ascii_of_string s)).

(** [strings.TrimSpace(s)]; every step removes at least one byte. *)
Definition TrimSpace (s : string) : string :=
  let s := trim_front (String.length s) spaces s in
  rev_str (trim_front (String.length s) (rev_str <$> spaces) (rev_str s)).

Definition map_str (f : ascii -> ascii) (s : string) : string :=
  String.string_of_list_ascii (f <$> String.list_ascii_of_string s).

Definition in_range (lo hi : nat) (c : ascii) : bool :=
  (lo <=? nat_of_ascii c)%nat && (nat_of_ascii c <=? hi)%nat.

(** [strings.ToLower] and [strings.ToUpper] on ASCII strings, which label
    values are. *)
Definition ToLower : string -> string :=
  map_str (fun c => if in_range 65 90 c then ascii_of_nat (nat_of_ascii c + 32) else c).

Definition ToUpper : string -> string :=
  map_str (fun c => if in_range 97 122 c then ascii_of_nat (nat_of_ascii c - 32) else c).

(** ** strconv *)

(** [fmt.Sprintf("%d", z)] *)
Definition itoa (z : Z) : string := pretty z.

Definition is_digit (c : ascii) : bool := in_range 48 57 c.

Definition digit_val (c : ascii) : Z := Z.of_nat (nat_of_ascii c) - 48.

(** The value of a string of decimal digits. *)
Fixpoint digits_val (acc : Z) (s : string) : option Z :=
  match s with
  | EmptyString => Some acc
  | String c s => if is_digit c then digits_val (acc * 10 + digit_val c) s else None
  end.

(** [strconv.ParseInt(s, 10, 64)], and [strconv.Atoi(s)]: an optional sign,
    digits, the value in range. *)
Definition ParseInt64 (s : string) : option int64 :=
  let '(neg, ds) := match s with
    | String "-"%char r => (true, r)
    | String "+"%char r => (false, r)
    | _ => (false, s)
    end in
  match ds with
  | EmptyString => None
  | _ => match digits_val 0 ds with
         | Some n => let z := if neg then - n else n in
                     if (min_int64 <=? z) && (z <=? max_int64) then Some z else None
         | None => None
         end
  end.

Definition Atoi (s : string) : option int := ParseInt64 s.

Definition ParseBool (s : string) : option bool :=
  if decide (s ∈ ["1"; "t"; "T"; "TRUE"; "true"; "True"]) then Some true
  else if decide (s ∈ ["0"; "f"; "F"; "FALSE"; "false"; "False"]) then Some false
  else None.

(** ** time.ParseDuration *)

(** [leadingInt]: the leading digits as a uint64 of at most 2^63, and the rest. *)
Fixpoint leadingInt (x : Z) (s : string) : option (Z * string) :=
  match s with
  | String c r =>
      if is_digit c then
        if 2 ^ 63 / 10 <? x then None
        else let x := x * 10 + digit_val c in
             if 2 ^ 63 <? x then None else leadingInt x r
      else Some (x, s)
  | EmptyString => Some (x, s)
  end.

(** [leadingFraction]: digits past the precision of a uint64 are skipped. *)
Fixpoint leadingFraction (x : Z) (scale : float64) (overflow : bool) (s : string) :
    Z * float64 * string :=
  match s with
  | String c r =>
      if is_digit c then
        if overflow || ((2 ^ 63 - 1) / 10 <? x) then leadingFraction x scale true r
        else let y := x * 10 + digit_val c in
             if 2 ^ 63 <? y then leadingFraction x scale true r
             else leadingFraction y (f64_mul scale (f64_of_Z 10)) false r
      else (x, scale, s)
  | EmptyString => (x, scale, s)
  end.

Definition unitMap (u : string) : option Z :=
  if decide (u = "ns") then Some Nanosecond
  else if decide (u = "us" \/ u = byte_str [194; 181; 115]%nat \/ u = byte_str [206; 188; 115]%nat)
       then Some 1000
  else if decide (u = "ms") then Some Millisecond
  else if decide (u = "s") then Some Second
  else if decide (u = "m") then Some Minute
  else if decide (u = "h") then Some (60 * Minute)
  else None.

(** The unit: everything up to a digit or a period. *)
Fixpoint span_unit (s : string) : string * string :=
  match s with
  | String c r =>
      if is_digit c || bool_decide (c = "."%char) then (EmptyString, s)
      else let '(u, r) := span_unit r in (String c u, r)
  | EmptyString => (EmptyString, EmptyString)
  end.

(** One iteration: the term's nanoseconds and the rest of the string. *)
Definition duration_term (s : string) : option (Z * string) :=
  match s with
  | EmptyString => None
  | String c _ =>
      if is_digit c || bool_decide (c = "."%char) then
        match leadingInt 0 s with
        | None => None
        | Some (v, s1) =>
            let pre := negb (String.length s =? String.length s1)%nat in
            let '(f, scale, s2, post) := match s1 with
              | String "."%char r =>
                  let '(f, scale, s2) := leadingFraction 0 (f64_of_Z 1) false r in
                  (f, scale, s2, negb (String.length r =? String.length s2)%nat)
              | _ => (0, f64_of_Z 1, s1, false)
              end in
            if negb pre && negb post then None else
            let '(u, s3) := span_unit s2 in
            match u with EmptyString => None | _ =>
              match unitMap u with
              | None => None
              | Some unit =>
                  if 2 ^ 63 / unit <? v then None else
                  let v := v * unit in
                  let frac := f64_mul (f64_of_Z f) (f64_div (f64_of_Z unit) scale) in
                  let v := if 0 <? f then v + default 0 (f64_trunc frac) else v in
                  if 2 ^ 63 <? v then None else Some (v, s3)
              end
            end
        end
      else None
  end.

Fixpoint duration_terms (fuel : nat) (d : Z) (s : string) : option Z :=
  match s with
  | EmptyString => Some d
  | _ => match fuel with
         | O => None
         | S fuel =>
             match duration_term s with
             | None => None
             | Some (v, r) => let d := uwrap64 (d + v) in
                              if 2 ^ 63 <? d then None else duration_terms fuel d r
             end
         end
  end.

(** [time.ParseDuration(s)]; each term has at least one byte, so the length of
    the string is enough fuel. *)
Definition ParseDuration (s : string) : option Duration :=
  let '(neg, s) := match s with
    | String "-"%char r => (true, r)
    | String "+"%char r => (false, r)
    | _ => (false, s)
    end in
  if decide (s = "0") then Some 0
  else if decide (s = "") then None
  else match duration_terms (String.length s) 0 s with
       | None => None
       | Some d => if neg then Some (wrap64 (- wrap64 d))
                   else if max_int64 <? d then None else Some d
       end.

(** ** strconv.ParseFloat *)

(** The digits at the front of a string: the number they continue from [acc],
    how many there are, and the rest. *)
Fixpoint span_digits (acc : Z) (n : Z) (s : string) : Z * Z * string :=
  match s with
  | String c r => if is_digit c then span_digits (acc * 10 + digit_val c) (n + 1) r else (acc, n, s)
  | EmptyString => (acc, n, s)
  end.

(** The float64 nearest to [m * 10^e], ties to even. *)
Definition f64_of_decimal (neg : bool) (m e : Z) : float64 :=
  if m =? 0 then S754_zero neg
  else let '(num, den) := if 0 <=? e then (m * 10 ^ e, 1) else (m, 10 ^ (- e)) in
       let '(q, ex, loc) := SFdiv_core_binary f64_prec f64_emax num 0 den 0 in
       binary_round_aux f64_prec f64_emax neg q ex loc.

(** The exponent part: absent, or a letter, a sign and at least one digit. *)
Definition parse_exponent (s : string) : option Z :=
  match s with
  | EmptyString => Some 0
  | String c r =>
      if decide (c = "e"%char \/ c = "E"%char) then
        let '(neg, ds) := match r with
          | String "-"%char r => (true, r)
          | String "+"%char r => (false, r)
          | _ => (false, r)
          end in
        let '(e, n, rest) := span_digits 0 0 ds in
        if (n =? 0) || negb (bool_decide (rest = "")) then None
        else Some (if neg then - e else e)
      else None
  end.

(** [strconv.ParseFloat(s, 64)] on decimal numbers, infinities and NaN; a value
    past the range of a float64 is an error.  Hexadecimal floats and digit
    separators, which no exporter writes, are not accepted. *)
Definition ParseFloat (s : string) : option float64 :=
  let '(neg, u) := match s with
    | String "-"%char r => (true, r)
    | String "+"%char r => (false, r)
    | _ => (false, s)
    end in
  if decide (ToLower s = "nan") then Some S754_nan
  else if decide (ToLower u = "inf" \/ ToLower u = "infinity") then Some (S754_infinity neg)
  else
    let '(ip, n, r) := span_digits 0 0 u in
    let '(m, nf, r) := match r with
      | String "."%char r => let '(m, k, r) := span_digits ip 0 r in (m, k, r)
      | _ => (ip, 0, r)
      end in
    if n + nf =? 0 then None
    else match parse_exponent r with
         | None => None
         | Some e => match f64_of_decimal neg m (e - nf) with
                     | S754_infinity _ => None
                     | f => Some f
                     end
         end.

(** [strings.Fields(s)]: the maximal runs without white space; [w] is the run
    read so far. *)
Fixpoint Fields_go (fuel : nat) (w s : string) : list string :=
  let flush := if decide (w = "") then [] else [w] in
  match fuel with
  | O => flush
  | S fuel =>
      match List.find (HasPrefix s) spaces with
      | Some sp => flush ++ Fields_go fuel "" (drop_str (String.length sp) s)
      | None => match s with
                | EmptyString => flush
                | String c r => Fields_go fuel (w +:+ String c "") r
                end
      end
  end.

Definition Fields (s : string) : list string := Fields_go (S (String.length s)) "" s.

Example parse_90s : ParseDuration "1m30s" = Some (90 * Second).
Proof. reflexivity. Qed.

Example parse_frac : ParseDuration "-1.5h" = Some (- (5400 * Second)).
Proof. vm_compute. reflexivity. Qed.

Example parse_plain : ParseDuration "60" = None.
Proof. reflexivity. Qed.

Example trim_ex : TrimSpace "  10.0.0.1	" = "10.0.0.1".
Proof. vm_compute. reflexivity. Qed.

Example float_ex : ParseFloat "0.1" = Some (S754_finite false 7205759403792794 (-56)).
Proof. vm_compute. reflexivity. Qed.

Example float_exp_ex : ParseFloat "-2.5e3" = Some (f64_of_Z (- 2500)).
Proof. vm_compute. reflexivity. Qed.

Example float_range_ex : ParseFloat "1e400" = None.
Proof. vm_compute. reflexivity. Qed.

Example fields_ex : Fields "  up  1.5	9" = ["up"; "1.5"; "9"].
Proof. vm_compute. reflexivity. Qed.

(** ** Lemmas on separators *)

Lemma IndexByte_ge s c : -1 <= IndexByte s c.
Proof. induction s as [|d s IH]; simpl; [lia|]. repeat case_match; try case_decide; lia. Qed.

Lemma LastIndex_ge s c : -1 <= LastIndex s c.
Proof. induction s as [|d s IH]; simpl; [lia|]. repeat case_match; try case_decide; lia. Qed.

Lemma index_succ {A} (z : Z) (a b : A) : 0 <= z -> (if z =? -1 then a else b) = b.
Proof. intros. by rewrite (proj2 (Z.eqb_neq z (-1))) by lia. Qed.

Lemma strlen_cons d s : strlen (String d s) = strlen s + 1.
Proof. unfold strlen. cbn [String.length]. lia. Qed.

Lemma strlen_nonneg s : 0 <= strlen s.
Proof. unfold strlen. lia. Qed.

(** A string without [c], one byte longer. *)
Lemma IndexByte_cons_none d s c :
  IndexByte (String d s) c = -1 -> d ≠ c /\ IndexByte s c = -1.
Proof.
  simpl. pose proof (IndexByte_ge s c). case_decide; [done|].
  intros Hi. split; [done|]. destruct (IndexByte s c =? -1) eqn:E; lia.
Qed.

Lemma IndexByte_app a b c :
  IndexByte a c = -1 -> IndexByte (a +:+ String c b) c = strlen a.
Proof.
  induction a as [|d a IH]; intros Ha; simpl.
  - by rewrite decide_True.
  - apply IndexByte_cons_none in Ha as [Hd Ha]. rewrite decide_False, IH by done.
    pose proof (strlen_nonneg a). by rewrite index_succ, strlen_cons.
Qed.

Lemma Split_none a c : IndexByte a c = -1 -> Split a c = [a].
Proof.
  induction a as [|d a IH]; intros Ha; simpl; [done|].
  apply IndexByte_cons_none in Ha as [Hd Ha]. by rewrite decide_False, IH.
Qed.

Lemma Split_app a b c : IndexByte a c = -1 -> Split (a +:+ String c b) c = a :: Split b c.
Proof.
  induction a as [|d a IH]; intros Ha; simpl; [by rewrite decide_True|].
  apply IndexByte_cons_none in Ha as [Hd Ha]. by rewrite decide_False, IH.
Qed.

Lemma LastIndex_none a c : IndexByte a c = -1 -> LastIndex a c = -1.
Proof.
  induction a as [|d a IH]; intros Ha; simpl; [done|].
  apply IndexByte_cons_none in Ha as [Hd Ha]. by rewrite IH, decide_False.
Qed.

Lemma LastIndex_app a b c :
  IndexByte b c = -1 -> LastIndex (a +:+ String c b) c = strlen a.
Proof.
  intros Hb. induction a as [|d a IH]; simpl.
  - by rewrite LastIndex_none, decide_True.
  - pose proof (strlen_nonneg a). by rewrite IH, index_succ, strlen_cons.
Qed.

Lemma slice_to_app a b : slice_to (a +:+ b) (strlen a) = a.
Proof.
  unfold slice_to, strlen. rewrite Nat2Z.id. induction a; simpl; [by destruct b|]. by f_equal.
Qed.

Lemma slice_from_app a c b : slice_from (a +:+ String c b) (strlen a + 1) = b.
Proof.
  unfold slice_from, strlen. replace (Z.to_nat _) with (S (String.length a)) by lia.
  induction a as [|d a IH]; [by destruct b|done].
Qed.

Lemma SplitN2_app a b c : IndexByte a c = -1 -> SplitN2 (a +:+ String c b) c = [a; b].
Proof.
  intros Ha. unfold SplitN2. rewrite IndexByte_app, slice_to_app, slice_from_app by done.
  by rewrite index_succ by apply strlen_nonneg.
Qed.

Lemma slice_to_but_last a x : slice_to (a +:+ String x "") (strlen (a +:+ String x "") - 1) = a.
Proof.
  rewrite <- (slice_to_app a (String x "")) at 3. f_equal.
  unfold strlen. induction a; simpl in *; lia.
Qed.

Lemma length_append s1 s2 : String.length (s1 +:+ s2) = (String.length s1 + String.length s2)%nat.
Proof. induction s1 as [|c s1 IH]; [done|]. exact (f_equal S IH). Qed.

Lemma append_assoc s1 s2 s3 : (s1 +:+ s2) +:+ s3 = s1 +:+ (s2 +:+ s3).
Proof. induction s1 as [|c s1 IH]; [done|]. exact (f_equal (String c) IH). Qed.

(** ** Lemmas on decimal strings *)

Lemma pretty_digit_ok (n : N) :
  (n < 10)%N -> is_digit (pretty_N_char n) = true /\ digit_val (pretty_N_char n) = Z.of_N n.
Proof.
  intros H.
  destruct n as [|p]; [by vm_compute|].
  do 4 (destruct p as [p|p|]; try lia; try by vm_compute).
Qed.

Lemma pretty_N_go_digits x s : digits_val 0 (pretty_N_go x s) = digits_val (Z.of_N x) s.
Proof.
  revert s. induction (N.lt_wf_0 x) as [x _ IH]; intros s.
  destruct (decide (x = 0%N)) as [->|]; [by rewrite pretty_N_go_0|].
  rewrite pretty_N_go_step by lia. rewrite IH by (apply N.div_lt; lia). cbn.
  pose proof (N.mod_lt x 10 ltac:(done)) as Hm.
  destruct (pretty_digit_ok _ Hm) as [-> ->]. f_equal.
  pose proof (N.div_mod x 10 ltac:(done)). lia.
Qed.

Lemma digits_val_pretty (n : N) : digits_val 0 (pretty n) = Some (Z.of_N n).
Proof.
  unfold pretty, pretty_N. case_decide as H; [by subst|]. apply pretty_N_go_digits.
Qed.

Lemma pretty_N_nonempty (n : N) : pretty n ≠ "".
Proof.
  intros H. pose proof (digits_val_pretty n) as Hv. rewrite H in Hv. simplify_eq/=.
  by destruct n.
Qed.

Lemma pretty_Z_cases (n : Z) :
  pretty n = if n <? 0 then "-" +:+ pretty (Z.to_N (- n)) else pretty (Z.to_N n).
Proof.
  destruct n; [done|done|]. by unfold pretty at 1, pretty_Z.
Qed.

(** A string whose first byte is a digit starts with neither sign. *)
Lemma digits_no_sign acc n s :
  digits_val acc s = Some n ->
  match s with String "-"%char r => (true, r) | String "+"%char r => (false, r) | _ => (false, s) end
    = (false, s).
Proof.
  destruct s as [|c s]; [done|]. cbn. destruct (is_digit c) eqn:E; [|done].
  destruct c as [[] [] [] [] [] [] [] []]; by try discriminate E.
Qed.

Lemma ParseInt64_digits (neg : bool) ds n :
  digits_val 0 ds = Some n -> ds ≠ "" ->
  ParseInt64 (if neg then "-" +:+ ds else ds) =
    let z := if neg then - n else n in
    if (min_int64 <=? z) && (z <=? max_int64) then Some z else None.
Proof.
  intros Hd Hne. unfold ParseInt64. destruct neg.
  - change ("-" +:+ ds) with (String "-"%char ds). cbv beta iota.
    rewrite Hd. by destruct ds.
  - rewrite (digits_no_sign _ _ _ Hd), Hd. by destruct ds.
Qed.

Lemma ParseInt64_itoa (z : Z) : in_int64 z -> ParseInt64 (itoa z) = Some z.
Proof.
  unfold in_int64, itoa. intros Hz. rewrite pretty_Z_cases.
  destruct (z <? 0) eqn:E.
  - rewrite (ParseInt64_digits true _ _ (digits_val_pretty _) (pretty_N_nonempty _)).
    cbv zeta. unfold min_int64, max_int64. rewrite Z2N.id, Z.opp_involutive by lia.
    by rewrite !(proj2 (Z.leb_le _ _)) by lia.
  - rewrite (ParseInt64_digits false _ _ (digits_val_pretty _) (pretty_N_nonempty _)).
    cbv zeta. unfold min_int64, max_int64. rewrite Z2N.id by lia.
    by rewrite !(proj2 (Z.leb_le _ _)) by lia.
Qed.

(** ** Lemmas on searching *)

(** No byte of [b] occurs in [sub]. *)
Fixpoint disjoint_str (b sub : string) : bool :=
  match b with
  | EmptyString => true
  | String c b => (IndexByte sub c =? -1) && disjoint_str b sub
  end.

Lemma disjoint_str_cons b c sub :
  disjoint_str b (String c sub) = true -> disjoint_str b sub = true.
Proof.
  induction b as [|d b IH]; [done|]. cbn [disjoint_str].
  intros [Hd Hb]%andb_true_iff. rewrite IH by done. apply Z.eqb_eq in Hd.
  by apply IndexByte_cons_none in Hd as [_ ->].
Qed.

Lemma disjoint_str_app b1 b2 sub :
  disjoint_str (b1 +:+ b2) sub = disjoint_str b1 sub && disjoint_str b2 sub.
Proof.
  induction b1 as [|c b1 IH]; [done|].
  change (String c b1 +:+ b2) with (String c (b1 +:+ b2)). cbn [disjoint_str].
  by rewrite IH, andb_assoc.
Qed.

Lemma HasPrefix_app_disjoint a b sub :
  disjoint_str b sub = true -> HasPrefix (a +:+ b) sub = HasPrefix a sub.
Proof.
  revert sub. induction a as [|x a IH]; intros [|c sub] H; [by destruct b| |done|].
  - destruct b as [|d b]; [done|]. cbn [disjoint_str] in H. apply andb_true_iff in H as [H _].
    apply Z.eqb_eq, IndexByte_cons_none in H as [H _].
    change (bool_decide (c = d) && HasPrefix b sub = false). by rewrite bool_decide_eq_false_2.
  - change (String x a +:+ b) with (String x (a +:+ b)). cbn [HasPrefix].
    by rewrite IH by (by apply disjoint_str_cons in H).
Qed.

Lemma Contains_app_disjoint a b sub :
  sub ≠ "" -> disjoint_str b sub = true -> Contains (a +:+ b) sub = Contains a sub.
Proof.
  intros Hne H. induction a as [|x a IH].
  - change ("" +:+ b) with b. destruct sub as [|c sub]; [done|]. clear Hne.
    induction b as [|d b IH]; [done|]. cbn [disjoint_str] in H. apply andb_true_iff in H as [Hd Hb].
    apply Z.eqb_eq, IndexByte_cons_none in Hd as [Hd _].
    change ((bool_decide (c = d) && HasPrefix b sub) || Contains b (String c sub) = false).
    rewrite bool_decide_eq_false_2 by done. by apply IH.
  - change (String x a +:+ b) with (String x (a +:+ b)). cbn [Contains].
    change (String x (a +:+ b)) with (String x a +:+ b).
    by rewrite HasPrefix_app_disjoint, IH.
Qed.

Lemma HasPrefix_app_l a b sub : HasPrefix a sub = true -> HasPrefix (a +:+ b) sub = true.
Proof.
  revert a. induction sub as [|c sub IH]; intros [|x a] H; try done.
  change (String x a +:+ b) with (String x (a +:+ b)). cbn [HasPrefix] in *.
  apply andb_true_iff in H as [-> H]. by rewrite IH.
Qed.

Lemma Contains_app_l a b sub : Contains a sub = true -> Contains (a +:+ b) sub = true.
Proof.
  induction a as [|x a IH]; cbn [Contains]; intros H.
  - rewrite orb_false_r in H. destruct sub; [|done]. by destruct b.
  - change (String x a +:+ b) with (String x (a +:+ b)). cbn [Contains].
    change (String x (a +:+ b)) with (String x a +:+ b).
    apply orb_true_iff in H as [H|H]; [by rewrite HasPrefix_app_l|].
    by rewrite IH, orb_true_r.
Qed.

(** The bytes of a decimal number. *)
Definition number_bytes : list ascii :=
  ["-"; "0"; "1"; "2"; "3"; "4"; "5"; "6"; "7"; "8"; "9"]%char.

Lemma is_digit_number_byte c : is_digit c = true -> In c number_bytes.
Proof.
  destruct c as [[] [] [] [] [] [] [] []]; intros H; try discriminate H; vm_compute; tauto.
Qed.

Lemma digits_disjoint sub acc s n :
  forallb (fun c => IndexByte sub c =? -1) number_bytes = true ->
  digits_val acc s = Some n -> disjoint_str s sub = true.
Proof.
  intros Hf. revert acc. induction s as [|c s IH]; intros acc H; [done|].
  cbn in H |- *. destruct (is_digit c) eqn:E; [|done]. rewrite (IH _ H), andb_true_r.
  rewrite forallb_forall in Hf. apply Hf. by apply is_digit_number_byte.
Qed.

Lemma itoa_disjoint sub z :
  forallb (fun c => IndexByte sub c =? -1) number_bytes = true -> disjoint_str (itoa z) sub = true.
Proof.
  intros Hf. unfold itoa. rewrite pretty_Z_cases.
  pose proof (fun n => digits_disjoint sub 0 _ _ Hf (digits_val_pretty n)) as Hd.
  destruct (z <? 0); [|apply Hd]. rewrite disjoint_str_app, Hd, andb_true_r.
  rewrite forallb_forall in Hf. cbn. rewrite andb_true_r. apply Hf. by left.
Qed.
