(* ===== verification/Config.v ===== *)
(** * Configuration: internal/config

    [Load] reads the environment, a function from variable names to values
    (the empty string for an unset variable, as [os.Getenv] has it), and
    [Validate] checks the result.  A validation error is a constructor that
    names the message and carries the value it prints. *)

From S2P Require Import Prelude GoNum GoStrings.
Open Scope string_scope.
Open Scope list_scope.
Open Scope Z_scope.

Module Config.

Record t := mk {
  APIKey : string;
  BackendURL : string;
  SnapshotInterval : Duration;
  MetricsInterval : Duration;
  InformerResyncPeriod : Duration;
  InformerSyncTimeout : Duration;
  CompressionLevel : int;
  MaxRetries : int;
  RequestTimeout : Duration;
  BufferMaxBytes : int64;
  HealthPort : int;
  AgentVersion : string;
  KubernetesVersion : string;
  MaxCompressedBodyBytes : int64;
  ChartVersion : string;
  HelmReleaseName : string;
  PodName : string;
  PodNamespace : string;
  NodeName : string;
  AllowInsecure : bool;
  DebugEndpoints : bool;
  GPUMetricsEnabled : bool;
  DCGMExporterPort : int;
  DCGMExporterNamespace : string;
  DCGMExporterEndpoints : list string;
  GPUMetricsInterval : Duration
}.
#[export] Instance eta : Eta t := fun r => mk r.(APIKey) r.(BackendURL) r.(SnapshotInterval)
    r.(MetricsInterval) r.(InformerResyncPeriod) r.(InformerSyncTimeout) r.(CompressionLevel)
    r.(MaxRetries) r.(RequestTimeout) r.(BufferMaxBytes) r.(HealthPort) r.(AgentVersion)
    r.(KubernetesVersion) r.(MaxCompressedBodyBytes) r.(ChartVersion) r.(HelmReleaseName)
    r.(PodName) r.(PodNamespace) r.(NodeName) r.(AllowInsecure) r.(DebugEndpoints)
    r.(GPUMetricsEnabled) r.(DCGMExporterPort) r.(DCGMExporterNamespace)
    r.(DCGMExporterEndpoints) r.(GPUMetricsInterval).

Inductive error :=
  | APIKeyRequired
  | BackendURLRequired
  | BackendURLNotHTTPS (got : string)
  | SnapshotIntervalTooShort (got : Duration)
  | MetricsIntervalTooShort (got : Duration)
  | CompressionLevelRange (got : int)
  | MaxRetriesNegative (got : int)
  | HealthPortRange (got : int).

(** ** Reading one variable *)

Section Env.
Context (Getenv : string -> string).

Definition envOrDefault (key defaultVal : string) : string :=
  let v := Getenv key in
  if decide (v ≠ "") then v else defaultVal.

Definition envOrFallback (primary fallback : string) : string :=
  let v := Getenv primary in
  if decide (v ≠ "") then v else Getenv fallback.

Definition envOrFallbackOrDefault (primary fallback defaultVal : string) : string :=
  let v := Getenv primary in
  if decide (v ≠ "") then v else
  let v := Getenv fallback in
  if decide (v ≠ "") then v else defaultVal.

Definition parseDuration (key : string) (defaultVal : Duration) : Duration :=
  let v := Getenv key in
  if decide (v = "") then defaultVal else
  match ParseDuration v with
  | Some d => d
  | None => match Atoi v with
            | Some secs => mul64 secs Second
            | None => defaultVal
            end
  end.

Definition parseBool (key : string) (defaultVal : bool) : bool :=
  let v := Getenv key in
  if decide (v = "") then defaultVal else default defaultVal (ParseBool v).

Definition parseInt (key : string) (defaultVal : int) : int :=
  let v := Getenv key in
  if decide (v = "") then defaultVal else default defaultVal (Atoi v).

Definition parseInt64 (key : string) (defaultVal : int64) : int64 :=
  let v := Getenv key in
  if decide (v = "") then defaultVal else default defaultVal (ParseInt64 v).

Definition parseStringSlice (key : string) : list string :=
  let v := Getenv key in
  if decide (v = "") then [] else
  foldl (fun result s =>
           let s := TrimSpace s in
           if decide (s ≠ "") then result ++ [s] else result)
        [] (Split v ",").

Definition Load : t :=
  let MetricsInterval := parseDuration "KUBEADAPT_METRICS_INTERVAL" (60 * Second) in
  {| APIKey := envOrFallback "KUBEADAPT_API_KEY" "KUBEADAPT_AGENT_TOKEN";
     BackendURL := envOrFallbackOrDefault "KUBEADAPT_BACKEND_URL"
       "KUBEADAPT_BACKEND_API_ENDPOINT" "https://agent.kubeadapt.io";
     SnapshotInterval := parseDuration "KUBEADAPT_SNAPSHOT_INTERVAL" (60 * Second);
     MetricsInterval := MetricsInterval;
     InformerResyncPeriod := parseDuration "KUBEADAPT_INFORMER_RESYNC" (300 * Second);
     InformerSyncTimeout := parseDuration "KUBEADAPT_INFORMER_SYNC_TIMEOUT" (5 * Minute);
     CompressionLevel := parseInt "KUBEADAPT_COMPRESSION_LEVEL" 3;
     MaxRetries := parseInt "KUBEADAPT_MAX_RETRIES" 5;
     RequestTimeout := parseDuration "KUBEADAPT_REQUEST_TIMEOUT" (30 * Second);
     BufferMaxBytes := parseInt64 "KUBEADAPT_BUFFER_MAX_BYTES" 52428800;
     HealthPort := parseInt "KUBEADAPT_HEALTH_PORT" 8080;
     AgentVersion := "";
     KubernetesVersion := "";
     MaxCompressedBodyBytes := parseInt64 "KUBEADAPT_MAX_COMPRESSED_BODY_BYTES" 52428800;
     ChartVersion := Getenv "KUBEADAPT_CHART_VERSION";
     HelmReleaseName := Getenv "HELM_RELEASE_NAME";
     PodName := Getenv "POD_NAME";
     PodNamespace := Getenv "POD_NAMESPACE";
     NodeName := Getenv "NODE_NAME";
     AllowInsecure := parseBool "KUBEADAPT_ALLOW_INSECURE" false;
     DebugEndpoints := parseBool "KUBEADAPT_DEBUG_ENDPOINTS" false;
     GPUMetricsEnabled := parseBool "KUBEADAPT_GPU_METRICS_ENABLED" true;
     DCGMExporterPort := parseInt "KUBEADAPT_DCGM_PORT" 9400;
     DCGMExporterNamespace := envOrDefault "KUBEADAPT_DCGM_NAMESPACE" "";
     DCGMExporterEndpoints := parseStringSlice "KUBEADAPT_DCGM_ENDPOINTS";
     GPUMetricsInterval := parseDuration "KUBEADAPT_GPU_METRICS_INTERVAL" MetricsInterval |}.

Definition ResolveAgentVersion (buildVersion : string) : string :=
  if decide (buildVersion ≠ "" /\ buildVersion ≠ "dev") then buildVersion else
  let v := Getenv "KUBEADAPT_AGENT_VERSION" in
  if decide (v ≠ "") then v else
  if decide (buildVersion ≠ "") then buildVersion else "dev".
End Env.

Definition Validate (c : t) : option error :=
  if decide (APIKey c = "") then Some APIKeyRequired
  else if decide (BackendURL c = "") then Some BackendURLRequired
  else if negb (AllowInsecure c) && negb (HasPrefix (BackendURL c) "https://")
       then Some (BackendURLNotHTTPS (BackendURL c))
  else if SnapshotInterval c <? 10 * Second then Some (SnapshotIntervalTooShort (SnapshotInterval c))
  else if MetricsInterval c <? 10 * Second then Some (MetricsIntervalTooShort (MetricsInterval c))
  else if (CompressionLevel c <? 1) || (4 <? CompressionLevel c)
       then Some (CompressionLevelRange (CompressionLevel c))
  else if MaxRetries c <? 0 then Some (MaxRetriesNegative (MaxRetries c))
  else if (HealthPort c <? 1) || (65535 <? HealthPort c) then Some (HealthPortRange (HealthPort c))
  else None.

(** ** What a valid configuration promises *)

Record valid (c : t) : Prop := {
  valid_key : APIKey c ≠ "";
  valid_url : BackendURL c ≠ "" /\ (AllowInsecure c = false -> HasPrefix (BackendURL c) "https://" = true);
  valid_snapshot : 10 * Second <= SnapshotInterval c;
  valid_metrics : 10 * Second <= MetricsInterval c;
  valid_level : 1 <= CompressionLevel c <= 4;
  valid_retries : 0 <= MaxRetries c;
  valid_port : 1 <= HealthPort c <= 65535
}.

End Config.
Export (hints) Config.

(** ** Lemmas on durations without a unit *)

Lemma leadingInt_digits acc n s x :
  digits_val acc s = Some n -> leadingInt x s = None \/ exists v, leadingInt x s = Some (v, "").
Proof.
  revert acc x. induction s as [|c s IH]; intros acc x H; cbn in *; [by eauto|].
  destruct (is_digit c); [|done]. repeat case_match; eauto.
Qed.

Lemma duration_term_digits acc n s : digits_val acc s = Some n -> duration_term s = None.
Proof.
  intros H. destruct s as [|c s]; [done|].
  pose proof H as H'. cbn in H'. destruct (is_digit c) eqn:E; [|done]. clear H'.
  unfold duration_term. rewrite E. cbn -[leadingInt].
  destruct (leadingInt_digits _ _ _ 0 H) as [->|[v ->]]; [done|].
  done.
Qed.

Lemma ParseDuration_digits (sign : bool) acc n s :
  s ≠ "0" -> s ≠ "" -> digits_val acc s = Some n ->
  (if sign then ParseDuration ("-" +:+ s) else ParseDuration s) = None.
Proof.
  intros H0 Hne H. pose proof (duration_term_digits _ _ _ H) as Ht.
  assert (duration_terms (String.length s) 0 s = None) as Hts.
  { destruct s; [done|]. cbn -[duration_term]. by rewrite Ht. }
  unfold ParseDuration.
  destruct sign; [change ("-" +:+ s) with (String "-"%char s); cbv beta iota|
    rewrite (digits_no_sign _ _ _ H)];
    rewrite !decide_False by done; by rewrite Hts.
Qed.

Lemma ParseDuration_itoa (z : Z) : z ≠ 0 -> ParseDuration (itoa z) = None.
Proof.
  intros Hz. unfold itoa. rewrite pretty_Z_cases.
  assert (pretty (Z.to_N (Z.abs z)) ≠ "0") as H0.
  { intros H. pose proof (digits_val_pretty (Z.to_N (Z.abs z))) as Hv.
    rewrite H in Hv. injection Hv as Hv.
    change (0 = Z.of_N (Z.to_N (Z.abs z))) in Hv. lia. }
  assert (forall neg : bool, (if neg then ParseDuration ("-" +:+ pretty (Z.to_N (Z.abs z)))
            else ParseDuration (pretty (Z.to_N (Z.abs z)))) = None) as Hn.
  { intros neg. apply (ParseDuration_digits neg 0 _ _ H0 (pretty_N_nonempty _) (digits_val_pretty _)). }
  destruct (z <? 0) eqn:E.
  - replace (- z) with (Z.abs z) by lia. apply (Hn true).
  - replace z with (Z.abs z) by lia. apply (Hn false).
Qed.

(** ** Properties *)

(** A variable that holds a plain integer is read as that many seconds,
    whatever the default: [parseDuration] fails on every integer but "0" and the
    fallback multiplies in 64 bits. *)
Theorem parseDuration_seconds (Getenv : string -> string) key d (n : Z) :
  in_int64 n -> Getenv key = itoa n ->
  Config.parseDuration Getenv key d = mul64 n Second.
Proof.
  intros Hn Hv. unfold Config.parseDuration. rewrite Hv.
  destruct (decide (n = 0)) as [->|Hz]; [by rewrite decide_False by done|].
  rewrite decide_False.
  - unfold Atoi. by rewrite ParseDuration_itoa, ParseInt64_itoa by done.
  - intros H. pose proof (ParseInt64_itoa n Hn) as Hp. by rewrite H in Hp.
Qed.

Lemma parseDuration_seconds_witness :
  Config.parseDuration (fun _ => "90") "KUBEADAPT_SNAPSHOT_INTERVAL" 0 = 90 * Second.
Proof.
  apply (parseDuration_seconds (fun _ => "90") _ 0 90); [by split|reflexivity].
Defined.

(** [Validate] accepts exactly the configurations that satisfy the documented
    bounds: no rule is skipped and none is added. *)
Theorem Validate_valid c : Config.Validate c = None <-> Config.valid c.
Proof.
  unfold Config.Validate. split.
  - intros H. repeat case_decide; repeat case_match; simplify_eq.
    rewrite ?andb_false_iff, ?orb_false_iff, ?negb_false_iff, ?Z.ltb_ge in *.
    split; try done; try lia. split; [done|]. intros Ha. destruct_or!; congruence.
  - intros [Hk [Hu Hs] Hsn Hm Hl Hr Hp].
    rewrite !decide_False by done.
    assert (negb (Config.AllowInsecure c) && negb (HasPrefix (Config.BackendURL c) "https://") = false)
      as ->.
    { destruct (Config.AllowInsecure c); [done|]. by rewrite Hs. }
    rewrite !(proj2 (Z.ltb_ge _ _)) by lia. done.
Qed.

(** With only the API key set, [Load] gives the documented defaults and
    [Validate] accepts them. *)
Theorem Load_defaults_valid (Getenv : string -> string) key :
  key ≠ "" -> Getenv "KUBEADAPT_API_KEY" = key ->
  (forall k, k ≠ "KUBEADAPT_API_KEY" -> Getenv k = "") ->
  let c := Config.Load Getenv in
  Config.Validate c = None /\ Config.APIKey c = key /\
  Config.SnapshotInterval c = 60 * Second /\ Config.GPUMetricsInterval c = 60 * Second /\
  Config.MaxRetries c = 5 /\ Config.DCGMExporterEndpoints c = [].
Proof.
  intros Hk Hg Hu c.
  assert (Config.APIKey c = key) as Hkey.
  { unfold c, Config.Load, Config.envOrFallback. cbn [Config.APIKey]. rewrite Hg.
    by rewrite decide_True. }
  assert (c = Config.Load (fun k => if decide (k = "KUBEADAPT_API_KEY") then key else "")) as Hc.
  { unfold c, Config.Load, Config.envOrFallback, Config.envOrFallbackOrDefault, Config.envOrDefault,
      Config.parseDuration, Config.parseInt, Config.parseInt64, Config.parseBool,
      Config.parseStringSlice.
    rewrite Hg. by rewrite !Hu. }
  rewrite Hc in *. split_and!; try done.
  unfold Config.Validate. rewrite Hkey. by rewrite decide_False by done.
Qed.

Lemma Load_defaults_valid_witness :
  Config.Validate (Config.Load (fun k => if decide (k = "KUBEADAPT_API_KEY") then "tok" else "")) = None.
Proof.
  apply (Load_defaults_valid (fun k => if decide (k = "KUBEADAPT_API_KEY") then "tok" else "") "tok").
  - done.
  - reflexivity.
  - intros k Hk. by rewrite decide_False.
Defined.
