(* ===== verification/Cloud.v ===== *)
(** * Cloud identity of a node: internal/convert/cloud.go

    Provider ids are parsed as strings; capacity type and node group come from
    well-known labels, tried in a fixed order. *)

From S2P Require Import Prelude GoNum GoStrings.
Open Scope string_scope.
Open Scope list_scope.
Open Scope Z_scope.

(** ** Provider ids *)

Definition parseAWSProviderID (providerID : string) : string * string * string :=
  let trimmed := TrimPrefix providerID "aws:///" in
  match SplitN2 trimmed "/" with
  | [az; instanceID] =>
      let region := if 0 <? strlen az then slice_to az (strlen az - 1) else "" in
      (instanceID, az, region)
  | _ => (providerID, "", "")
  end.

Definition parseGCEProviderID (providerID : string) : string * string * string :=
  let trimmed := TrimPrefix providerID "gce://" in
  match Split trimmed "/" with
  | _ :: az :: instanceID :: _ =>
      let idx := LastIndex az "-" in
      let region := if 0 <? idx then slice_to az idx else "" in
      (instanceID, az, region)
  | _ => (providerID, "", "")
  end.

Definition parseAzureProviderID (providerID : string) : string * string * string :=
  let trimmed := TrimPrefix providerID "azure:///" in
  let idx := LastIndex trimmed "/" in
  let instanceID := if 0 <=? idx then slice_from trimmed (idx + 1) else trimmed in
  (instanceID, "", "").

(** [(instanceID, az, region)] *)
Definition ParseProviderID (providerID : string) : string * string * string :=
  if decide (providerID = "") then ("", "", "")
  else if HasPrefix providerID "aws://" then parseAWSProviderID providerID
  else if HasPrefix providerID "gce://" then parseGCEProviderID providerID
  else if HasPrefix providerID "azure://" then parseAzureProviderID providerID
  else (providerID, "", "").

(** ** Labels *)

Definition ExtractCapacityType (labels : gomap string) : string :=
  match labels with
  | None => ""
  | Some labels =>
  if decide (labels !! "eks.amazonaws.com/compute-type" = Some "fargate") then "fargate" else
  match labels !! "eks.amazonaws.com/capacityType" with
  | Some v =>
      if decide (ToUpper v = "ON_DEMAND") then "on-demand"
      else if decide (ToUpper v = "SPOT") then "spot"
      else ToLower v
  | None =>
  match labels !! "karpenter.sh/capacity-type" with
  | Some v => ToLower v
  | None =>
  if decide (ToLower <$> labels !! "kubernetes.azure.com/scalesetpriority" = Some "spot") then "spot" else
  match labels !! "cloud.google.com/gke-preemptible" with
  | Some _ => "preemptible"
  | None =>
  if decide (ToLower <$> labels !! "cloud.google.com/gke-spot" = Some "true") then "spot" else
  match labels !! "node.kubernetes.io/lifecycle" with
  | Some v =>
      if decide (ToLower v = "spot") then "spot"
      else if decide (ToLower v = "normal") then "on-demand"
      else ToLower v
  | None => ""
  end end end end end.

Definition ExtractNodeGroup (labels : gomap string) : string :=
  match labels with
  | None => ""
  | Some labels =>
      match labels !! "eks.amazonaws.com/nodegroup" with Some v => v | None =>
      match labels !! "karpenter.sh/nodepool" with Some v => v | None =>
      match labels !! "cloud.google.com/gke-nodepool" with Some v => v | None =>
      match labels !! "kubernetes.azure.com/agentpool" with Some v => v | None => ""
      end end end end
  end.

Example capacity_spot :
  ExtractCapacityType (Some {[ "eks.amazonaws.com/capacityType" := "Spot" ]}) = "spot".
Proof. reflexivity. Qed.

Example azure_vm :
  ParseProviderID "azure:///subscriptions/s/virtualMachines/vm-1" = ("vm-1", "", "").
Proof. reflexivity. Qed.

Lemma ParseProviderID_aws region letter instance :
  IndexByte (region +:+ String letter "") "/" = -1 ->
  ParseProviderID ("aws:///" +:+ (region +:+ String letter "") +:+ "/" +:+ instance) =
    (instance, region +:+ String letter "", region).
Proof.
  intros Hz.
  change (parseAWSProviderID ("aws:///" +:+ (region +:+ String letter "") +:+ "/" +:+ instance) =
    (instance, region +:+ String letter "", region)).
  unfold parseAWSProviderID.
  change (TrimPrefix _ _) with ((region +:+ String letter "") +:+ String "/" instance).
  rewrite SplitN2_app, slice_to_but_last by done.
  rewrite (proj2 (Z.ltb_lt _ _)); [done|]. unfold strlen. destruct region; simpl; lia.
Qed.

Lemma ParseProviderID_gce project region zone instance :
  IndexByte project "/" = -1 -> IndexByte (region +:+ "-" +:+ zone) "/" = -1 ->
  IndexByte instance "/" = -1 -> IndexByte zone "-" = -1 -> region ≠ "" ->
  ParseProviderID ("gce://" +:+ project +:+ "/" +:+ (region +:+ "-" +:+ zone) +:+ "/" +:+ instance) =
    (instance, region +:+ "-" +:+ zone, region).
Proof.
  intros Hp Hz Hi Hd Hr.
  change (parseGCEProviderID ("gce://" +:+ project +:+ "/" +:+ (region +:+ "-" +:+ zone) +:+
    "/" +:+ instance) = (instance, region +:+ "-" +:+ zone, region)).
  unfold parseGCEProviderID.
  change (TrimPrefix _ _) with
    (project +:+ String "/" ((region +:+ "-" +:+ zone) +:+ String "/" instance)).
  rewrite !Split_app, Split_none by done.
  change ("-" +:+ zone) with (String "-" zone). rewrite LastIndex_app, slice_to_app by done.
  rewrite (proj2 (Z.ltb_lt _ _)); [done|]. unfold strlen. destruct region; [done|]. simpl; lia.
Qed.

Lemma ParseProviderID_azure path vm :
  IndexByte vm "/" = -1 ->
  ParseProviderID ("azure:///" +:+ path +:+ "/" +:+ vm) = (vm, "", "").
Proof.
  intros Hv.
  change (parseAzureProviderID ("azure:///" +:+ path +:+ "/" +:+ vm) = (vm, "", "")).
  unfold parseAzureProviderID.
  change (TrimPrefix _ _) with (path +:+ String "/" vm).
  rewrite LastIndex_app, slice_from_app by done.
  by rewrite (proj2 (Z.leb_le _ _)) by apply strlen_nonneg.
Qed.

(** ** Properties *)

(** The provider ids the three cloud controllers write are read back: the
    instance id and, where the id encodes them, the zone and the region that is
    the zone without its last letter (AWS) or its last segment (GCE). *)
Theorem ParseProviderID_roundtrip :
  (forall region letter instance, IndexByte (region +:+ String letter "") "/" = -1 ->
     ParseProviderID ("aws:///" +:+ (region +:+ String letter "") +:+ "/" +:+ instance) =
       (instance, region +:+ String letter "", region)) /\
  (forall project region zone instance,
     IndexByte project "/" = -1 -> IndexByte (region +:+ "-" +:+ zone) "/" = -1 ->
     IndexByte instance "/" = -1 -> IndexByte zone "-" = -1 -> region ≠ "" ->
     ParseProviderID ("gce://" +:+ project +:+ "/" +:+ (region +:+ "-" +:+ zone) +:+ "/" +:+ instance) =
       (instance, region +:+ "-" +:+ zone, region)) /\
  (forall path vm, IndexByte vm "/" = -1 ->
     ParseProviderID ("azure:///" +:+ path +:+ "/" +:+ vm) = (vm, "", "")).
Proof.
  split_and!; [apply ParseProviderID_aws|apply ParseProviderID_gce|apply ParseProviderID_azure].
Qed.
