(* ===== verification/Model.v ===== *)
(** * The data model (pkg/model)

    One module per struct of pkg/model, a record [t] with the struct's fields in
    the struct's order and the Go zero value [zero].  A pointer field is an
    [option] ([None] for nil), a slice a [list] (nil and empty slices are
    identified), a map a [gomap] ([None] for the nil map), [float64] an IEEE
    binary64 value.  The Go field [Type] is [Type_] here. *)

From S2P Require Import Prelude GoNum.

Open Scope Z_scope.

(** A value of Go's [interface{}] as decoded from an unstructured Kubernetes
    object: JSON values, an object being its key/value pairs. *)
Inductive any : Type :=
  | ANil
  | ABool (b : bool)
  | AInt64 (z : int64)
  | AInt (z : int)
  | AFloat64 (f : float64)
  | AString (s : string)
  | ASlice (l : list any)
  | AMap (m : list (string * any)).

(** GPUDeviceInfo holds information about a single GPU device on a node. (gpu.go) *)
Module GPUDeviceInfo.
Record t := mk {
  UUID : string;
  DeviceIndex : string;
  ModelName : string;
  UtilizationPercent : option float64;
  TensorActivePercent : option float64;
  MemoryUtilPercent : option float64;
  MemoryUsedBytes : option int64;
  MemoryTotalBytes : option int64;
  TemperatureCelsius : option float64;
  PowerWatts : option float64;
  MIGProfile : string;
  MIGInstanceID : string }.
Definition zero : t := mk "" "" "" None None None None None None None "" "".
#[export] Instance eta : Eta t := fun r => mk r.(UUID) r.(DeviceIndex) r.(ModelName)
    r.(UtilizationPercent) r.(TensorActivePercent) r.(MemoryUtilPercent)
    r.(MemoryUsedBytes) r.(MemoryTotalBytes) r.(TemperatureCelsius) r.(PowerWatts)
    r.(MIGProfile) r.(MIGInstanceID).
End GPUDeviceInfo.
Export (hints) GPUDeviceInfo.

(** TaintInfo represents a Kubernetes node taint. (node.go) *)
Module TaintInfo.
Record t := mk {
  Key : string;
  Value : string;
  Effect : string }.
Definition zero : t := mk "" "" "".
#[export] Instance eta : Eta t := fun r => mk r.(Key) r.(Value) r.(Effect).
End TaintInfo.
Export (hints) TaintInfo.

(** NodeConditionInfo represents a node condition (Ready, MemoryPressure, etc.). (node.go) *)
Module NodeConditionInfo.
Record t := mk {
  Type_ : string;
  Status : string;
  Reason : string;
  Message : string }.
Definition zero : t := mk "" "" "" "".
#[export] Instance eta : Eta t := fun r => mk r.(Type_) r.(Status) r.(Reason)
    r.(Message).
End NodeConditionInfo.
Export (hints) NodeConditionInfo.

(** NodeInfo represents a Kubernetes node with capacity, allocatable resources, usage metrics, and cloud provider metadata. (node.go) *)
Module NodeInfo.
Record t := mk {
  Name : string;
  UID : string;
  ProviderID : string;
  InstanceID : string;
  InstanceType : string;
  Region : string;
  Zone : string;
  CapacityType : string;
  NodeGroup : string;
  Architecture : string;
  OS : string;
  KubeletVersion : string;
  ContainerRuntime : string;
  PodCIDR : string;
  PodCIDRs : list string;
  OSImage : string;
  KernelVersion : string;
  KubeProxyVersion : string;
  CPUCapacityCores : float64;
  MemoryCapacityBytes : int64;
  EphemeralStorageBytes : int64;
  EphemeralStorageAllocatable : int64;
  PodCapacity : int;
  GPUCapacity : int;
  CPUAllocatable : float64;
  MemoryAllocatable : int64;
  PodAllocatable : int;
  GPUAllocatable : int;
  GPUModel : string;
  GPUDriverVersion : string;
  MIGEnabled : bool;
  MIGDevices : gomap int;
  GPUUtilizationPercent : option float64;
  GPUTensorActivePercent : option float64;
  GPUMemoryUtilPercent : option float64;
  GPUMemoryUsedBytes : option int64;
  GPUMemoryTotalBytes : option int64;
  GPUTemperatureCelsius : option float64;
  GPUPowerWatts : option float64;
  GPUDevices : list GPUDeviceInfo.t;
  CPUUsageCores : option float64;
  MemoryUsageBytes : option int64;
  Ready : bool;
  Unschedulable : bool;
  Taints : list TaintInfo.t;
  Conditions : list NodeConditionInfo.t;
  Labels : gomap string;
  Annotations : gomap string;
  CreationTimestamp : int64 }.
Definition zero : t := mk "" "" "" "" "" "" "" "" "" "" "" "" "" "" [] "" "" "" f64_zero
    0 0 0 0 0 f64_zero 0 0 0 "" "" false None None None None None None None None [] None
    None false false [] [] None None 0.
#[export] Instance eta : Eta t := fun r => mk r.(Name) r.(UID) r.(ProviderID)
    r.(InstanceID) r.(InstanceType) r.(Region) r.(Zone) r.(CapacityType) r.(NodeGroup)
    r.(Architecture) r.(OS) r.(KubeletVersion) r.(ContainerRuntime) r.(PodCIDR)
    r.(PodCIDRs) r.(OSImage) r.(KernelVersion) r.(KubeProxyVersion) r.(CPUCapacityCores)
    r.(MemoryCapacityBytes) r.(EphemeralStorageBytes) r.(EphemeralStorageAllocatable)
    r.(PodCapacity) r.(GPUCapacity) r.(CPUAllocatable) r.(MemoryAllocatable)
    r.(PodAllocatable) r.(GPUAllocatable) r.(GPUModel) r.(GPUDriverVersion)
    r.(MIGEnabled) r.(MIGDevices) r.(GPUUtilizationPercent) r.(GPUTensorActivePercent)
    r.(GPUMemoryUtilPercent) r.(GPUMemoryUsedBytes) r.(GPUMemoryTotalBytes)
    r.(GPUTemperatureCelsius) r.(GPUPowerWatts) r.(GPUDevices) r.(CPUUsageCores)
    r.(MemoryUsageBytes) r.(Ready) r.(Unschedulable) r.(Taints) r.(Conditions)
    r.(Labels) r.(Annotations) r.(CreationTimestamp).
End NodeInfo.
Export (hints) NodeInfo.

(** NodeMetrics represents metrics-server data for a node. (node.go) *)
Module NodeMetrics.
Record t := mk {
  Name : string;
  CPUUsageCores : float64;
  MemoryUsageBytes : int64;
  Timestamp : int64 }.
Definition zero : t := mk "" f64_zero 0 0.
#[export] Instance eta : Eta t := fun r => mk r.(Name) r.(CPUUsageCores)
    r.(MemoryUsageBytes) r.(Timestamp).
End NodeMetrics.
Export (hints) NodeMetrics.

(** ContainerPortInfo represents a port exposed by a container. (pod.go) *)
Module ContainerPortInfo.
Record t := mk {
  Name : string;
  ContainerPort : int32;
  Protocol : string }.
Definition zero : t := mk "" 0 "".
#[export] Instance eta : Eta t := fun r => mk r.(Name) r.(ContainerPort) r.(Protocol).
End ContainerPortInfo.
Export (hints) ContainerPortInfo.

(** ContainerInfo represents a container within a pod including spec, status, and metrics. (pod.go) *)
Module ContainerInfo.
Record t := mk {
  Name : string;
  Image : string;
  ImageID : string;
  CPURequestCores : float64;
  MemoryRequestBytes : int64;
  CPULimitCores : float64;
  MemoryLimitBytes : int64;
  EphemeralStorageRequest : int64;
  EphemeralStorageLimit : int64;
  GPURequest : int;
  GPULimit : int;
  CPUUsageCores : option float64;
  MemoryUsageBytes : option int64;
  GPUUtilizationPercent : option float64;
  GPUMemoryUsedBytes : option int64;
  Ready : bool;
  Started : option bool;
  RestartCount : int32;
  State : string;
  StateReason : string;
  StateMessage : string;
  LastTerminationReason : string;
  ExitCode : option int32;
  Ports : list ContainerPortInfo.t }.
Definition zero : t := mk "" "" "" f64_zero 0 f64_zero 0 0 0 0 0 None None None None
    false None 0 "" "" "" "" None [].
#[export] Instance eta : Eta t := fun r => mk r.(Name) r.(Image) r.(ImageID)
    r.(CPURequestCores) r.(MemoryRequestBytes) r.(CPULimitCores) r.(MemoryLimitBytes)
    r.(EphemeralStorageRequest) r.(EphemeralStorageLimit) r.(GPURequest) r.(GPULimit)
    r.(CPUUsageCores) r.(MemoryUsageBytes) r.(GPUUtilizationPercent)
    r.(GPUMemoryUsedBytes) r.(Ready) r.(Started) r.(RestartCount) r.(State)
    r.(StateReason) r.(StateMessage) r.(LastTerminationReason) r.(ExitCode) r.(Ports).
End ContainerInfo.
Export (hints) ContainerInfo.

(** PodConditionInfo represents a pod condition (Ready, PodScheduled, etc.). (pod.go) *)
Module PodConditionInfo.
Record t := mk {
  Type_ : string;
  Status : string;
  Reason : string;
  Message : string }.
Definition zero : t := mk "" "" "" "".
#[export] Instance eta : Eta t := fun r => mk r.(Type_) r.(Status) r.(Reason)
    r.(Message).
End PodConditionInfo.
Export (hints) PodConditionInfo.

(** PodInfo represents a Kubernetes pod with ownership, containers, and scheduling info. (pod.go) *)
Module PodInfo.
Record t := mk {
  Name : string;
  UID : string;
  Namespace : string;
  NodeName : string;
  Phase : string;
  Reason : string;
  QoSClass : string;
  OwnerKind : string;
  OwnerName : string;
  OwnerUID : string;
  Containers : list ContainerInfo.t;
  InitContainers : list ContainerInfo.t;
  Labels : gomap string;
  Annotations : gomap string;
  CreationTimestamp : int64;
  PriorityClassName : string;
  Priority : option int32;
  SchedulerName : string;
  ServiceAccountName : string;
  PodIP : string;
  HostIP : string;
  HostNetwork : bool;
  HasHostPath : bool;
  HasEmptyDir : bool;
  Conditions : list PodConditionInfo.t }.
Definition zero : t := mk "" "" "" "" "" "" "" "" "" "" [] [] None None 0 "" None "" ""
    "" "" false false false [].
#[export] Instance eta : Eta t := fun r => mk r.(Name) r.(UID) r.(Namespace)
    r.(NodeName) r.(Phase) r.(Reason) r.(QoSClass) r.(OwnerKind) r.(OwnerName)
    r.(OwnerUID) r.(Containers) r.(InitContainers) r.(Labels) r.(Annotations)
    r.(CreationTimestamp) r.(PriorityClassName) r.(Priority) r.(SchedulerName)
    r.(ServiceAccountName) r.(PodIP) r.(HostIP) r.(HostNetwork) r.(HasHostPath)
    r.(HasEmptyDir) r.(Conditions).
End PodInfo.
Export (hints) PodInfo.

(** ContainerMetrics represents metrics-server data for a single container. (pod.go) *)
Module ContainerMetrics.
Record t := mk {
  Name : string;
  CPUUsageCores : float64;
  MemoryUsageBytes : int64 }.
Definition zero : t := mk "" f64_zero 0.
#[export] Instance eta : Eta t := fun r => mk r.(Name) r.(CPUUsageCores)
    r.(MemoryUsageBytes).
End ContainerMetrics.
Export (hints) ContainerMetrics.

(** PodMetrics represents metrics-server data for a pod. (pod.go) *)
Module PodMetrics.
Record t := mk {
  Name : string;
  Namespace : string;
  Containers : list ContainerMetrics.t;
  Timestamp : int64 }.
Definition zero : t := mk "" "" [] 0.
#[export] Instance eta : Eta t := fun r => mk r.(Name) r.(Namespace) r.(Containers)
    r.(Timestamp).
End PodMetrics.
Export (hints) PodMetrics.

(** ContainerSpecInfo represents a container spec from a workload's pod template. (workload.go) *)
Module ContainerSpecInfo.
Record t := mk {
  Name : string;
  Image : string;
  CPURequestCores : float64;
  MemoryRequestBytes : int64;
  CPULimitCores : float64;
  MemoryLimitBytes : int64;
  GPURequest : int;
  GPULimit : int }.
Definition zero : t := mk "" "" f64_zero 0 f64_zero 0 0 0.
#[export] Instance eta : Eta t := fun r => mk r.(Name) r.(Image) r.(CPURequestCores)
    r.(MemoryRequestBytes) r.(CPULimitCores) r.(MemoryLimitBytes) r.(GPURequest)
    r.(GPULimit).
End ContainerSpecInfo.
Export (hints) ContainerSpecInfo.

(** WorkloadConditionInfo represents a workload condition (Available, Progressing, etc.). (workload.go) *)
Module WorkloadConditionInfo.
Record t := mk {
  Type_ : string;
  Status : string;
  Reason : string;
  Message : string }.
Definition zero : t := mk "" "" "" "".
#[export] Instance eta : Eta t := fun r => mk r.(Type_) r.(Status) r.(Reason)
    r.(Message).
End WorkloadConditionInfo.
Export (hints) WorkloadConditionInfo.

(** DeploymentInfo represents a Kubernetes Deployment. (workload.go) *)
Module DeploymentInfo.
Record t := mk {
  Name : string;
  UID : string;
  Namespace : string;
  Replicas : int32;
  ReadyReplicas : int32;
  AvailableReplicas : int32;
  UnavailableReplicas : int32;
  UpdatedReplicas : int32;
  Strategy : string;
  MaxSurge : string;
  MaxUnavailable : string;
  TotalCPURequest : float64;
  TotalMemoryRequest : int64;
  TotalCPULimit : float64;
  TotalMemoryLimit : int64;
  TotalCPUUsage : option float64;
  TotalMemoryUsage : option int64;
  ContainerSpecs : list ContainerSpecInfo.t;
  Selector : gomap string;
  Labels : gomap string;
  Annotations : gomap string;
  CreationTimestamp : int64;
  Conditions : list WorkloadConditionInfo.t;
  Paused : bool }.
Definition zero : t := mk "" "" "" 0 0 0 0 0 "" "" "" f64_zero 0 f64_zero 0 None None []
    None None None 0 [] false.
#[export] Instance eta : Eta t := fun r => mk r.(Name) r.(UID) r.(Namespace)
    r.(Replicas) r.(ReadyReplicas) r.(AvailableReplicas) r.(UnavailableReplicas)
    r.(UpdatedReplicas) r.(Strategy) r.(MaxSurge) r.(MaxUnavailable) r.(TotalCPURequest)
    r.(TotalMemoryRequest) r.(TotalCPULimit) r.(TotalMemoryLimit) r.(TotalCPUUsage)
    r.(TotalMemoryUsage) r.(ContainerSpecs) r.(Selector) r.(Labels) r.(Annotations)
    r.(CreationTimestamp) r.(Conditions) r.(Paused).
End DeploymentInfo.
Export (hints) DeploymentInfo.

(** StatefulSetInfo represents a Kubernetes StatefulSet. (workload.go) *)
Module StatefulSetInfo.
Record t := mk {
  Name : string;
  UID : string;
  Namespace : string;
  Replicas : int32;
  ReadyReplicas : int32;
  AvailableReplicas : int32;
  UpdatedReplicas : int32;
  Strategy : string;
  ServiceName : string;
  PodManagementPolicy : string;
  VolumeClaimTemplates : list string;
  TotalCPURequest : float64;
  TotalMemoryRequest : int64;
  TotalCPULimit : float64;
  TotalMemoryLimit : int64;
  TotalCPUUsage : option float64;
  TotalMemoryUsage : option int64;
  ContainerSpecs : list ContainerSpecInfo.t;
  Selector : gomap string;
  Labels : gomap string;
  Annotations : gomap string;
  CreationTimestamp : int64;
  Partition : option int32;
  Conditions : list WorkloadConditionInfo.t }.
Definition zero : t := mk "" "" "" 0 0 0 0 "" "" "" [] f64_zero 0 f64_zero 0 None None
    [] None None None 0 None [].
#[export] Instance eta : Eta t := fun r => mk r.(Name) r.(UID) r.(Namespace)
    r.(Replicas) r.(ReadyReplicas) r.(AvailableReplicas) r.(UpdatedReplicas)
    r.(Strategy) r.(ServiceName) r.(PodManagementPolicy) r.(VolumeClaimTemplates)
    r.(TotalCPURequest) r.(TotalMemoryRequest) r.(TotalCPULimit) r.(TotalMemoryLimit)
    r.(TotalCPUUsage) r.(TotalMemoryUsage) r.(ContainerSpecs) r.(Selector) r.(Labels)
    r.(Annotations) r.(CreationTimestamp) r.(Partition) r.(Conditions).
End StatefulSetInfo.
Export (hints) StatefulSetInfo.

(** DaemonSetInfo represents a Kubernetes DaemonSet. (workload.go) *)
Module DaemonSetInfo.
Record t := mk {
  Name : string;
  UID : string;
  Namespace : string;
  DesiredNumberScheduled : int32;
  CurrentNumberScheduled : int32;
  NumberReady : int32;
  NumberMisscheduled : int32;
  UpdatedNumberScheduled : int32;
  NumberUnavailable : int32;
  NumberAvailable : int32;
  Strategy : string;
  TotalCPURequest : float64;
  TotalMemoryRequest : int64;
  TotalCPULimit : float64;
  TotalMemoryLimit : int64;
  TotalCPUUsage : option float64;
  TotalMemoryUsage : option int64;
  ContainerSpecs : list ContainerSpecInfo.t;
  Selector : gomap string;
  Labels : gomap string;
  Annotations : gomap string;
  CreationTimestamp : int64;
  Conditions : list WorkloadConditionInfo.t }.
Definition zero : t := mk "" "" "" 0 0 0 0 0 0 0 "" f64_zero 0 f64_zero 0 None None []
    None None None 0 [].
#[export] Instance eta : Eta t := fun r => mk r.(Name) r.(UID) r.(Namespace)
    r.(DesiredNumberScheduled) r.(CurrentNumberScheduled) r.(NumberReady)
    r.(NumberMisscheduled) r.(UpdatedNumberScheduled) r.(NumberUnavailable)
    r.(NumberAvailable) r.(Strategy) r.(TotalCPURequest) r.(TotalMemoryRequest)
    r.(TotalCPULimit) r.(TotalMemoryLimit) r.(TotalCPUUsage) r.(TotalMemoryUsage)
    r.(ContainerSpecs) r.(Selector) r.(Labels) r.(Annotations) r.(CreationTimestamp)
    r.(Conditions).
End DaemonSetInfo.
Export (hints) DaemonSetInfo.

(** ReplicaSetInfo represents a Kubernetes ReplicaSet (used internally for ownership resolution). (workload.go) *)
Module ReplicaSetInfo.
Record t := mk {
  Name : string;
  Namespace : string;
  Replicas : int32;
  ReadyReplicas : int32;
  OwnerKind : string;
  OwnerName : string;
  OwnerUID : string;
  Selector : gomap string;
  Labels : gomap string;
  CreationTimestamp : int64 }.
Definition zero : t := mk "" "" 0 0 "" "" "" None None 0.
#[export] Instance eta : Eta t := fun r => mk r.(Name) r.(Namespace) r.(Replicas)
    r.(ReadyReplicas) r.(OwnerKind) r.(OwnerName) r.(OwnerUID) r.(Selector) r.(Labels)
    r.(CreationTimestamp).
End ReplicaSetInfo.
Export (hints) ReplicaSetInfo.

(** JobConditionInfo represents a job condition (Complete, Failed, etc.). (job.go) *)
Module JobConditionInfo.
Record t := mk {
  Type_ : string;
  Status : string;
  Reason : string;
  Message : string }.
Definition zero : t := mk "" "" "" "".
#[export] Instance eta : Eta t := fun r => mk r.(Type_) r.(Status) r.(Reason)
    r.(Message).
End JobConditionInfo.
Export (hints) JobConditionInfo.

(** JobInfo represents a Kubernetes Job. (job.go) *)
Module JobInfo.
Record t := mk {
  Name : string;
  UID : string;
  Namespace : string;
  OwnerCronJob : string;
  Completions : option int32;
  Parallelism : option int32;
  BackoffLimit : option int32;
  ActiveDeadlineSeconds : option int64;
  TTLSecondsAfterFinished : option int32;
  Active : int32;
  Succeeded : int32;
  Failed : int32;
  StartTime : option int64;
  CompletionTime : option int64;
  DurationSeconds : option float64;
  TotalCPURequest : float64;
  TotalMemoryRequest : int64;
  TotalCPUUsage : option float64;
  TotalMemoryUsage : option int64;
  ContainerSpecs : list ContainerSpecInfo.t;
  Labels : gomap string;
  Annotations : gomap string;
  CreationTimestamp : int64;
  Conditions : list JobConditionInfo.t }.
Definition zero : t := mk "" "" "" "" None None None None None 0 0 0 None None None
    f64_zero 0 None None [] None None 0 [].
#[export] Instance eta : Eta t := fun r => mk r.(Name) r.(UID) r.(Namespace)
    r.(OwnerCronJob) r.(Completions) r.(Parallelism) r.(BackoffLimit)
    r.(ActiveDeadlineSeconds) r.(TTLSecondsAfterFinished) r.(Active) r.(Succeeded)
    r.(Failed) r.(StartTime) r.(CompletionTime) r.(DurationSeconds) r.(TotalCPURequest)
    r.(TotalMemoryRequest) r.(TotalCPUUsage) r.(TotalMemoryUsage) r.(ContainerSpecs)
    r.(Labels) r.(Annotations) r.(CreationTimestamp) r.(Conditions).
End JobInfo.
Export (hints) JobInfo.

(** CronJobInfo represents a Kubernetes CronJob. (job.go) *)
Module CronJobInfo.
Record t := mk {
  Name : string;
  UID : string;
  Namespace : string;
  Schedule : string;
  Suspend : bool;
  ConcurrencyPolicy : string;
  LastScheduleTime : option int64;
  LastSuccessfulTime : option int64;
  ActiveJobs : list string;
  ContainerSpecs : list ContainerSpecInfo.t;
  Labels : gomap string;
  Annotations : gomap string;
  CreationTimestamp : int64 }.
Definition zero : t := mk "" "" "" "" false "" None None [] [] None None 0.
#[export] Instance eta : Eta t := fun r => mk r.(Name) r.(UID) r.(Namespace)
    r.(Schedule) r.(Suspend) r.(ConcurrencyPolicy) r.(LastScheduleTime)
    r.(LastSuccessfulTime) r.(ActiveJobs) r.(ContainerSpecs) r.(Labels) r.(Annotations)
    r.(CreationTimestamp).
End CronJobInfo.
Export (hints) CronJobInfo.

(** CustomWorkloadInfo represents a CRD-based workload that owns pods. (custom.go) *)
Module CustomWorkloadInfo.
Record t := mk {
  APIVersion : string;
  Kind : string;
  Name : string;
  Namespace : string;
  Replicas : option int32;
  ReadyReplicas : option int32;
  Status : gomap any;
  PodCount : int;
  TotalCPURequest : float64;
  TotalMemoryRequest : int64;
  TotalCPUUsage : option float64;
  TotalMemoryUsage : option int64;
  Labels : gomap string;
  Annotations : gomap string;
  CreationTimestamp : int64 }.
Definition zero : t := mk "" "" "" "" None None None 0 f64_zero 0 None None None None 0.
#[export] Instance eta : Eta t := fun r => mk r.(APIVersion) r.(Kind) r.(Name)
    r.(Namespace) r.(Replicas) r.(ReadyReplicas) r.(Status) r.(PodCount)
    r.(TotalCPURequest) r.(TotalMemoryRequest) r.(TotalCPUUsage) r.(TotalMemoryUsage)
    r.(Labels) r.(Annotations) r.(CreationTimestamp).
End CustomWorkloadInfo.
Export (hints) CustomWorkloadInfo.

(** NodeSelectorRequirement is a selector requirement with key, operator, and values. (custom.go) *)
Module NodeSelectorRequirement.
Record t := mk {
  Key : string;
  Operator : string;
  Values : list string }.
Definition zero : t := mk "" "" [].
#[export] Instance eta : Eta t := fun r => mk r.(Key) r.(Operator) r.(Values).
End NodeSelectorRequirement.
Export (hints) NodeSelectorRequirement.

(** NodePoolInfo represents a Karpenter NodePool. (custom.go) *)
Module NodePoolInfo.
Record t := mk {
  Name : string;
  UID : string;
  MinReplicas : option int;
  MaxReplicas : option int;
  NodeClassName : string;
  Labels : gomap string;
  Annotations : gomap string;
  Taints : list TaintInfo.t;
  Requirements : list NodeSelectorRequirement.t;
  CreationTimestamp : int64 }.
Definition zero : t := mk "" "" None None "" None None [] [] 0.
#[export] Instance eta : Eta t := fun r => mk r.(Name) r.(UID) r.(MinReplicas)
    r.(MaxReplicas) r.(NodeClassName) r.(Labels) r.(Annotations) r.(Taints)
    r.(Requirements) r.(CreationTimestamp).
End NodePoolInfo.
Export (hints) NodePoolInfo.

(** HPAMetricInfo describes a metric that the HPA watches. (autoscaling.go) *)
Module HPAMetricInfo.
Record t := mk {
  Type_ : string;
  ResourceName : string;
  ContainerName : string;
  MetricName : string;
  TargetType : string;
  TargetValue : string }.
Definition zero : t := mk "" "" "" "" "" "".
#[export] Instance eta : Eta t := fun r => mk r.(Type_) r.(ResourceName)
    r.(ContainerName) r.(MetricName) r.(TargetType) r.(TargetValue).
End HPAMetricInfo.
Export (hints) HPAMetricInfo.

(** HPACurrentMetricInfo describes the current value of a metric. (autoscaling.go) *)
Module HPACurrentMetricInfo.
Record t := mk {
  Type_ : string;
  ResourceName : string;
  CurrentValue : string;
  CurrentAverageValue : string;
  CurrentUtilization : option int32 }.
Definition zero : t := mk "" "" "" "" None.
#[export] Instance eta : Eta t := fun r => mk r.(Type_) r.(ResourceName)
    r.(CurrentValue) r.(CurrentAverageValue) r.(CurrentUtilization).
End HPACurrentMetricInfo.
Export (hints) HPACurrentMetricInfo.

(** HPAScalingPolicy defines a single scaling policy. (autoscaling.go) *)
Module HPAScalingPolicy.
Record t := mk {
  Type_ : string;
  Value : int32;
  PeriodSeconds : int32 }.
Definition zero : t := mk "" 0 0.
#[export] Instance eta : Eta t := fun r => mk r.(Type_) r.(Value) r.(PeriodSeconds).
End HPAScalingPolicy.
Export (hints) HPAScalingPolicy.

(** HPAScalingBehavior defines the scaling behavior for scale up or scale down. (autoscaling.go) *)
Module HPAScalingBehavior.
Record t := mk {
  StabilizationWindowSeconds : option int32;
  Policies : list HPAScalingPolicy.t;
  SelectPolicy : string }.
Definition zero : t := mk None [] "".
#[export] Instance eta : Eta t := fun r => mk r.(StabilizationWindowSeconds)
    r.(Policies) r.(SelectPolicy).
End HPAScalingBehavior.
Export (hints) HPAScalingBehavior.

(** HPAConditionInfo represents an HPA condition. (autoscaling.go) *)
Module HPAConditionInfo.
Record t := mk {
  Type_ : string;
  Status : string;
  Reason : string;
  Message : string }.
Definition zero : t := mk "" "" "" "".
#[export] Instance eta : Eta t := fun r => mk r.(Type_) r.(Status) r.(Reason)
    r.(Message).
End HPAConditionInfo.
Export (hints) HPAConditionInfo.

(** HPAInfo represents a Kubernetes HorizontalPodAutoscaler (v2). (autoscaling.go) *)
Module HPAInfo.
Record t := mk {
  Name : string;
  UID : string;
  Namespace : string;
  TargetKind : string;
  TargetName : string;
  TargetAPIVersion : string;
  MinReplicas : option int32;
  MaxReplicas : int32;
  CurrentReplicas : int32;
  DesiredReplicas : int32;
  Metrics : list HPAMetricInfo.t;
  CurrentMetrics : list HPACurrentMetricInfo.t;
  ScaleUpBehavior : option HPAScalingBehavior.t;
  ScaleDownBehavior : option HPAScalingBehavior.t;
  Conditions : list HPAConditionInfo.t;
  Labels : gomap string;
  Annotations : gomap string;
  CreationTimestamp : int64;
  LastScaleTime : option int64 }.
Definition zero : t := mk "" "" "" "" "" "" None 0 0 0 [] [] None None [] None None 0
    None.
#[export] Instance eta : Eta t := fun r => mk r.(Name) r.(UID) r.(Namespace)
    r.(TargetKind) r.(TargetName) r.(TargetAPIVersion) r.(MinReplicas) r.(MaxReplicas)
    r.(CurrentReplicas) r.(DesiredReplicas) r.(Metrics) r.(CurrentMetrics)
    r.(ScaleUpBehavior) r.(ScaleDownBehavior) r.(Conditions) r.(Labels) r.(Annotations)
    r.(CreationTimestamp) r.(LastScaleTime).
End HPAInfo.
Export (hints) HPAInfo.

(** LabelSelectorRequirement is a selector requirement with key, operator, and values. (autoscaling.go) *)
Module LabelSelectorRequirement.
Record t := mk {
  Key : string;
  Operator : string;
  Values : list string }.
Definition zero : t := mk "" "" [].
#[export] Instance eta : Eta t := fun r => mk r.(Key) r.(Operator) r.(Values).
End LabelSelectorRequirement.
Export (hints) LabelSelectorRequirement.

(** WorkloadReference identifies a workload by kind, name, and namespace. (autoscaling.go) *)
Module WorkloadReference.
Record t := mk {
  Kind : string;
  Name : string;
  Namespace : string }.
Definition zero : t := mk "" "" "".
#[export] Instance eta : Eta t := fun r => mk r.(Kind) r.(Name) r.(Namespace).
End WorkloadReference.
Export (hints) WorkloadReference.

(** PDBConditionInfo represents a PDB condition. (autoscaling.go) *)
Module PDBConditionInfo.
Record t := mk {
  Type_ : string;
  Status : string;
  Reason : string;
  Message : string }.
Definition zero : t := mk "" "" "" "".
#[export] Instance eta : Eta t := fun r => mk r.(Type_) r.(Status) r.(Reason)
    r.(Message).
End PDBConditionInfo.
Export (hints) PDBConditionInfo.

(** PDBInfo represents a Kubernetes PodDisruptionBudget. (autoscaling.go) *)
Module PDBInfo.
Record t := mk {
  Name : string;
  UID : string;
  Namespace : string;
  MatchLabels : gomap string;
  MatchExpressions : list LabelSelectorRequirement.t;
  TargetWorkloads : list WorkloadReference.t;
  MinAvailable : string;
  MaxUnavailable : string;
  CurrentHealthy : int32;
  DesiredHealthy : int32;
  DisruptionsAllowed : int32;
  ExpectedPods : int32;
  Conditions : list PDBConditionInfo.t;
  Labels : gomap string;
  Annotations : gomap string;
  CreationTimestamp : int64 }.
Definition zero : t := mk "" "" "" None [] [] "" "" 0 0 0 0 [] None None 0.
#[export] Instance eta : Eta t := fun r => mk r.(Name) r.(UID) r.(Namespace)
    r.(MatchLabels) r.(MatchExpressions) r.(TargetWorkloads) r.(MinAvailable)
    r.(MaxUnavailable) r.(CurrentHealthy) r.(DesiredHealthy) r.(DisruptionsAllowed)
    r.(ExpectedPods) r.(Conditions) r.(Labels) r.(Annotations) r.(CreationTimestamp).
End PDBInfo.
Export (hints) PDBInfo.

(** ResourceValues holds CPU and memory resource values. (autoscaling.go) *)
Module ResourceValues.
Record t := mk {
  CPUCores : float64;
  MemoryBytes : int64 }.
Definition zero : t := mk f64_zero 0.
#[export] Instance eta : Eta t := fun r => mk r.(CPUCores) r.(MemoryBytes).
End ResourceValues.
Export (hints) ResourceValues.

(** VPAContainerRecommendation holds resource recommendations for a single container. (autoscaling.go) *)
Module VPAContainerRecommendation.
Record t := mk {
  ContainerName : string;
  LowerBound : ResourceValues.t;
  Target : ResourceValues.t;
  UncappedTarget : ResourceValues.t;
  UpperBound : ResourceValues.t }.
Definition zero : t := mk "" ResourceValues.zero ResourceValues.zero ResourceValues.zero
    ResourceValues.zero.
#[export] Instance eta : Eta t := fun r => mk r.(ContainerName) r.(LowerBound)
    r.(Target) r.(UncappedTarget) r.(UpperBound).
End VPAContainerRecommendation.
Export (hints) VPAContainerRecommendation.

(** VPAConditionInfo represents a VPA condition. (autoscaling.go) *)
Module VPAConditionInfo.
Record t := mk {
  Type_ : string;
  Status : string;
  Reason : string;
  Message : string }.
Definition zero : t := mk "" "" "" "".
#[export] Instance eta : Eta t := fun r => mk r.(Type_) r.(Status) r.(Reason)
    r.(Message).
End VPAConditionInfo.
Export (hints) VPAConditionInfo.

(** VPAInfo represents a Kubernetes VerticalPodAutoscaler. (autoscaling.go) *)
Module VPAInfo.
Record t := mk {
  Name : string;
  Namespace : string;
  TargetKind : string;
  TargetName : string;
  TargetAPIVersion : string;
  UpdateMode : string;
  ContainerRecommendations : list VPAContainerRecommendation.t;
  Conditions : list VPAConditionInfo.t;
  Labels : gomap string;
  CreationTimestamp : int64 }.
Definition zero : t := mk "" "" "" "" "" "" [] [] None 0.
#[export] Instance eta : Eta t := fun r => mk r.(Name) r.(Namespace) r.(TargetKind)
    r.(TargetName) r.(TargetAPIVersion) r.(UpdateMode) r.(ContainerRecommendations)
    r.(Conditions) r.(Labels) r.(CreationTimestamp).
End VPAInfo.
Export (hints) VPAInfo.

(** LoadBalancerIngress represents a single load balancer ingress point. (network.go) *)
Module LoadBalancerIngress.
Record t := mk {
  IP : string;
  Hostname : string }.
Definition zero : t := mk "" "".
#[export] Instance eta : Eta t := fun r => mk r.(IP) r.(Hostname).
End LoadBalancerIngress.
Export (hints) LoadBalancerIngress.

(** LoadBalancerInfo holds load balancer details for LoadBalancer-type services. (network.go) *)
Module LoadBalancerInfo.
Record t := mk {
  Ingress : list LoadBalancerIngress.t;
  Class : string;
  AWSLoadBalancerType : string;
  AWSScheme : string;
  AWSARNAnnotation : string }.
Definition zero : t := mk [] "" "" "" "".
#[export] Instance eta : Eta t := fun r => mk r.(Ingress) r.(Class)
    r.(AWSLoadBalancerType) r.(AWSScheme) r.(AWSARNAnnotation).
End LoadBalancerInfo.
Export (hints) LoadBalancerInfo.

(** ServicePortInfo represents a port on a service. (network.go) *)
Module ServicePortInfo.
Record t := mk {
  Name : string;
  Protocol : string;
  Port : int32;
  TargetPort : string;
  NodePort : int32 }.
Definition zero : t := mk "" "" 0 "" 0.
#[export] Instance eta : Eta t := fun r => mk r.(Name) r.(Protocol) r.(Port)
    r.(TargetPort) r.(NodePort).
End ServicePortInfo.
Export (hints) ServicePortInfo.

(** ServiceInfo represents a Kubernetes Service. (network.go) *)
Module ServiceInfo.
Record t := mk {
  Name : string;
  Namespace : string;
  Type_ : string;
  ClusterIP : string;
  ClusterIPs : list string;
  ExternalIPs : list string;
  LoadBalancer : option LoadBalancerInfo.t;
  Ports : list ServicePortInfo.t;
  Selector : gomap string;
  TargetWorkloads : list WorkloadReference.t;
  Labels : gomap string;
  Annotations : gomap string;
  CreationTimestamp : int64;
  SessionAffinity : string }.
Definition zero : t := mk "" "" "" "" [] [] None [] None [] None None 0 "".
#[export] Instance eta : Eta t := fun r => mk r.(Name) r.(Namespace) r.(Type_)
    r.(ClusterIP) r.(ClusterIPs) r.(ExternalIPs) r.(LoadBalancer) r.(Ports) r.(Selector)
    r.(TargetWorkloads) r.(Labels) r.(Annotations) r.(CreationTimestamp)
    r.(SessionAffinity).
End ServiceInfo.
Export (hints) ServiceInfo.

(** IngressPathInfo represents a single path within an ingress rule. (network.go) *)
Module IngressPathInfo.
Record t := mk {
  Path : string;
  PathType : string;
  BackendService : string;
  BackendPort : string }.
Definition zero : t := mk "" "" "" "".
#[export] Instance eta : Eta t := fun r => mk r.(Path) r.(PathType) r.(BackendService)
    r.(BackendPort).
End IngressPathInfo.
Export (hints) IngressPathInfo.

(** IngressRuleInfo represents a single ingress rule. (network.go) *)
Module IngressRuleInfo.
Record t := mk {
  Host : string;
  Paths : list IngressPathInfo.t }.
Definition zero : t := mk "" [].
#[export] Instance eta : Eta t := fun r => mk r.(Host) r.(Paths).
End IngressRuleInfo.
Export (hints) IngressRuleInfo.

(** IngressTLSInfo represents TLS configuration for an ingress. (network.go) *)
Module IngressTLSInfo.
Record t := mk {
  Hosts : list string;
  SecretName : string }.
Definition zero : t := mk [] "".
#[export] Instance eta : Eta t := fun r => mk r.(Hosts) r.(SecretName).
End IngressTLSInfo.
Export (hints) IngressTLSInfo.

(** IngressBackendInfo represents a default backend for an ingress. (network.go) *)
Module IngressBackendInfo.
Record t := mk {
  ServiceName : string;
  ServicePort : string }.
Definition zero : t := mk "" "".
#[export] Instance eta : Eta t := fun r => mk r.(ServiceName) r.(ServicePort).
End IngressBackendInfo.
Export (hints) IngressBackendInfo.

(** IngressInfo represents a Kubernetes Ingress. (network.go) *)
Module IngressInfo.
Record t := mk {
  Name : string;
  Namespace : string;
  IngressClassName : string;
  Rules : list IngressRuleInfo.t;
  TLS : list IngressTLSInfo.t;
  DefaultBackend : option IngressBackendInfo.t;
  Labels : gomap string;
  Annotations : gomap string;
  CreationTimestamp : int64;
  LoadBalancerHostnames : list string }.
Definition zero : t := mk "" "" "" [] [] None None None 0 [].
#[export] Instance eta : Eta t := fun r => mk r.(Name) r.(Namespace)
    r.(IngressClassName) r.(Rules) r.(TLS) r.(DefaultBackend) r.(Labels) r.(Annotations)
    r.(CreationTimestamp) r.(LoadBalancerHostnames).
End IngressInfo.
Export (hints) IngressInfo.

(** PVSourceInfo describes the storage source of a PV. (storage.go) *)
Module PVSourceInfo.
Record t := mk {
  Type_ : string;
  CSIDriver : string;
  CSIVolumeHandle : string;
  CSIFSType : string;
  AWSVolumeID : string;
  AWSPartition : int;
  NFSServer : string;
  NFSPath : string }.
Definition zero : t := mk "" "" "" "" "" 0 "" "".
#[export] Instance eta : Eta t := fun r => mk r.(Type_) r.(CSIDriver)
    r.(CSIVolumeHandle) r.(CSIFSType) r.(AWSVolumeID) r.(AWSPartition) r.(NFSServer)
    r.(NFSPath).
End PVSourceInfo.
Export (hints) PVSourceInfo.

(** PVClaimRefInfo identifies the PVC a PV is bound to. (storage.go) *)
Module PVClaimRefInfo.
Record t := mk {
  Namespace : string;
  Name : string;
  UID : string }.
Definition zero : t := mk "" "" "".
#[export] Instance eta : Eta t := fun r => mk r.(Namespace) r.(Name) r.(UID).
End PVClaimRefInfo.
Export (hints) PVClaimRefInfo.

(** PVInfo represents a Kubernetes PersistentVolume. (storage.go) *)
Module PVInfo.
Record t := mk {
  Name : string;
  Capacity : int64;
  AccessModes : list string;
  ReclaimPolicy : string;
  StorageClassName : string;
  VolumeMode : string;
  Phase : string;
  MountOptions : list string;
  Source : PVSourceInfo.t;
  ClaimRef : option PVClaimRefInfo.t;
  Labels : gomap string;
  Annotations : gomap string;
  CreationTimestamp : int64 }.
Definition zero : t := mk "" 0 [] "" "" "" "" [] PVSourceInfo.zero None None None 0.
#[export] Instance eta : Eta t := fun r => mk r.(Name) r.(Capacity) r.(AccessModes)
    r.(ReclaimPolicy) r.(StorageClassName) r.(VolumeMode) r.(Phase) r.(MountOptions)
    r.(Source) r.(ClaimRef) r.(Labels) r.(Annotations) r.(CreationTimestamp).
End PVInfo.
Export (hints) PVInfo.

(** PVCConditionInfo represents a PVC condition. (storage.go) *)
Module PVCConditionInfo.
Record t := mk {
  Type_ : string;
  Status : string;
  Reason : string;
  Message : string }.
Definition zero : t := mk "" "" "" "".
#[export] Instance eta : Eta t := fun r => mk r.(Type_) r.(Status) r.(Reason)
    r.(Message).
End PVCConditionInfo.
Export (hints) PVCConditionInfo.

(** PVCInfo represents a Kubernetes PersistentVolumeClaim. (storage.go) *)
Module PVCInfo.
Record t := mk {
  Name : string;
  Namespace : string;
  Phase : string;
  AccessModes : list string;
  StorageClassName : string;
  VolumeMode : string;
  VolumeName : string;
  RequestedBytes : int64;
  CapacityBytes : int64;
  MountedByPods : list string;
  Labels : gomap string;
  Annotations : gomap string;
  CreationTimestamp : int64;
  Conditions : list PVCConditionInfo.t }.
Definition zero : t := mk "" "" "" [] "" "" "" 0 0 [] None None 0 [].
#[export] Instance eta : Eta t := fun r => mk r.(Name) r.(Namespace) r.(Phase)
    r.(AccessModes) r.(StorageClassName) r.(VolumeMode) r.(VolumeName)
    r.(RequestedBytes) r.(CapacityBytes) r.(MountedByPods) r.(Labels) r.(Annotations)
    r.(CreationTimestamp) r.(Conditions).
End PVCInfo.
Export (hints) PVCInfo.

(** StorageClassInfo represents a Kubernetes StorageClass. (storage.go) *)
Module StorageClassInfo.
Record t := mk {
  Name : string;
  Provisioner : string;
  ReclaimPolicy : string;
  VolumeBindingMode : string;
  AllowVolumeExpansion : bool;
  Parameters : gomap string;
  MountOptions : list string;
  Labels : gomap string;
  Annotations : gomap string;
  IsDefault : bool }.
Definition zero : t := mk "" "" "" "" false None [] None None false.
#[export] Instance eta : Eta t := fun r => mk r.(Name) r.(Provisioner) r.(ReclaimPolicy)
    r.(VolumeBindingMode) r.(AllowVolumeExpansion) r.(Parameters) r.(MountOptions)
    r.(Labels) r.(Annotations) r.(IsDefault).
End StorageClassInfo.
Export (hints) StorageClassInfo.

(** NamespaceInfo represents a Kubernetes Namespace. (scheduling.go) *)
Module NamespaceInfo.
Record t := mk {
  Name : string;
  Phase : string;
  Labels : gomap string;
  Annotations : gomap string;
  CreationTimestamp : int64 }.
Definition zero : t := mk "" "" None None 0.
#[export] Instance eta : Eta t := fun r => mk r.(Name) r.(Phase) r.(Labels)
    r.(Annotations) r.(CreationTimestamp).
End NamespaceInfo.
Export (hints) NamespaceInfo.

(** PriorityClassInfo represents a Kubernetes PriorityClass. (scheduling.go) *)
Module PriorityClassInfo.
Record t := mk {
  Name : string;
  Value : int32;
  GlobalDefault : bool;
  PreemptionPolicy : string;
  Description : string }.
Definition zero : t := mk "" 0 false "" "".
#[export] Instance eta : Eta t := fun r => mk r.(Name) r.(Value) r.(GlobalDefault)
    r.(PreemptionPolicy) r.(Description).
End PriorityClassInfo.
Export (hints) PriorityClassInfo.

(** LimitRangeItemInfo represents a single limit within a LimitRange. (scheduling.go) *)
Module LimitRangeItemInfo.
Record t := mk {
  Type_ : string;
  Default : gomap string;
  DefaultRequest : gomap string;
  Max : gomap string;
  Min : gomap string;
  MaxLimitRequestRatio : gomap string }.
Definition zero : t := mk "" None None None None None.
#[export] Instance eta : Eta t := fun r => mk r.(Type_) r.(Default) r.(DefaultRequest)
    r.(Max) r.(Min) r.(MaxLimitRequestRatio).
End LimitRangeItemInfo.
Export (hints) LimitRangeItemInfo.

(** LimitRangeInfo represents a Kubernetes LimitRange. (scheduling.go) *)
Module LimitRangeInfo.
Record t := mk {
  Name : string;
  Namespace : string;
  Limits : list LimitRangeItemInfo.t }.
Definition zero : t := mk "" "" [].
#[export] Instance eta : Eta t := fun r => mk r.(Name) r.(Namespace) r.(Limits).
End LimitRangeInfo.
Export (hints) LimitRangeInfo.

(** ResourceQuotaInfo represents a Kubernetes ResourceQuota. (scheduling.go) *)
Module ResourceQuotaInfo.
Record t := mk {
  Name : string;
  Namespace : string;
  Hard : gomap string;
  Used : gomap string;
  Labels : gomap string }.
Definition zero : t := mk "" "" None None None.
#[export] Instance eta : Eta t := fun r => mk r.(Name) r.(Namespace) r.(Hard) r.(Used)
    r.(Labels).
End ResourceQuotaInfo.
Export (hints) ResourceQuotaInfo.

(** QuotaStatus represents the organization's quota state. (response.go) *)
Module QuotaStatus.
Record t := mk {
  PlanType : string;
  CPULimit : float64;
  CurrentCPUUsage : float64;
  RemainingCPU : float64;
  IsWithinQuota : bool;
  ClusterCPU : float64;
  GracePeriodActive : bool;
  GracePeriodEndsAt : option int64;
  MetricsBlocked : bool }.
Definition zero : t := mk "" f64_zero f64_zero f64_zero false f64_zero false None false.
#[export] Instance eta : Eta t := fun r => mk r.(PlanType) r.(CPULimit)
    r.(CurrentCPUUsage) r.(RemainingCPU) r.(IsWithinQuota) r.(ClusterCPU)
    r.(GracePeriodActive) r.(GracePeriodEndsAt) r.(MetricsBlocked).
End QuotaStatus.
Export (hints) QuotaStatus.

(** Directives tell the agent what to do next. (response.go) *)
Module Directives.
Record t := mk {
  NextSnapshotInSeconds : int;
  RetryAfterSeconds : option int;
  CollectVPAs : bool;
  CollectKarpenter : bool }.
Definition zero : t := mk 0 None false false.
#[export] Instance eta : Eta t := fun r => mk r.(NextSnapshotInSeconds)
    r.(RetryAfterSeconds) r.(CollectVPAs) r.(CollectKarpenter).
End Directives.
Export (hints) Directives.

(** IngestStats returned after successful processing. (response.go) *)
Module IngestStats.
Record t := mk {
  NodesProcessed : int;
  PodsProcessed : int;
  WorkloadsProcessed : int;
  ProcessingTimeMs : int64 }.
Definition zero : t := mk 0 0 0 0.
#[export] Instance eta : Eta t := fun r => mk r.(NodesProcessed) r.(PodsProcessed)
    r.(WorkloadsProcessed) r.(ProcessingTimeMs).
End IngestStats.
Export (hints) IngestStats.

(** SnapshotResponse is returned by backend on successful snapshot ingestion. (response.go) *)
Module SnapshotResponse.
Record t := mk {
  Success : bool;
  Message : string;
  ClusterID : string;
  ReceivedAt : int64;
  ProcessedAt : int64;
  Quota : QuotaStatus.t;
  Directives : Directives.t;
  Stats : IngestStats.t }.
Definition zero : t := mk false "" "" 0 0 QuotaStatus.zero Directives.zero
    IngestStats.zero.
#[export] Instance eta : Eta t := fun r => mk r.(Success) r.(Message) r.(ClusterID)
    r.(ReceivedAt) r.(ProcessedAt) r.(Quota) r.(Directives) r.(Stats).
End SnapshotResponse.
Export (hints) SnapshotResponse.

(** SnapshotErrorResponse is returned on rejection (4xx errors). (response.go) *)
Module SnapshotErrorResponse.
Record t := mk {
  Success : bool;
  Error : string;
  Message : string;
  Quota : option QuotaStatus.t;
  RetryAfterSeconds : option int }.
Definition zero : t := mk false "" "" None None.
#[export] Instance eta : Eta t := fun r => mk r.(Success) r.(Error) r.(Message)
    r.(Quota) r.(RetryAfterSeconds).
End SnapshotErrorResponse.
Export (hints) SnapshotErrorResponse.

(** ClusterSummary holds computed counts and resource totals. (snapshot.go) *)
Module ClusterSummary.
Record t := mk {
  NodeCount : int;
  PodCount : int;
  RunningPodCount : int;
  PendingPodCount : int;
  FailedPodCount : int;
  SucceededPodCount : int;
  NamespaceCount : int;
  DeploymentCount : int;
  StatefulSetCount : int;
  DaemonSetCount : int;
  JobCount : int;
  CronJobCount : int;
  CustomWorkloadCount : int;
  HPACount : int;
  ServiceCount : int;
  IngressCount : int;
  PVCount : int;
  PVCCount : int;
  ContainerCount : int;
  TotalCPUCapacity : float64;
  TotalCPUAllocatable : float64;
  TotalCPURequested : float64;
  TotalCPUUsage : option float64;
  TotalMemoryCapacity : int64;
  TotalMemoryAllocatable : int64;
  TotalMemoryRequested : int64;
  TotalMemoryUsage : option int64;
  TotalGPUCapacity : int;
  TotalGPURequested : int;
  TotalGPUUsage : option float64;
  TotalGPUTensorActive : option float64;
  TotalGPUMemoryUtil : option float64;
  TotalGPUMemoryUsed : option int64;
  TotalGPUMemoryTotal : option int64;
  GPUMetricsAvailable : bool;
  TotalStorageCapacity : int64;
  TotalStorageRequested : int64;
  MetricsAvailable : bool }.
Definition zero : t := mk 0 0 0 0 0 0 0 0 0 0 0 0 0 0 0 0 0 0 0 f64_zero f64_zero
    f64_zero None 0 0 0 None 0 0 None None None None None false 0 0 false.
#[export] Instance eta : Eta t := fun r => mk r.(NodeCount) r.(PodCount)
    r.(RunningPodCount) r.(PendingPodCount) r.(FailedPodCount) r.(SucceededPodCount)
    r.(NamespaceCount) r.(DeploymentCount) r.(StatefulSetCount) r.(DaemonSetCount)
    r.(JobCount) r.(CronJobCount) r.(CustomWorkloadCount) r.(HPACount) r.(ServiceCount)
    r.(IngressCount) r.(PVCount) r.(PVCCount) r.(ContainerCount) r.(TotalCPUCapacity)
    r.(TotalCPUAllocatable) r.(TotalCPURequested) r.(TotalCPUUsage)
    r.(TotalMemoryCapacity) r.(TotalMemoryAllocatable) r.(TotalMemoryRequested)
    r.(TotalMemoryUsage) r.(TotalGPUCapacity) r.(TotalGPURequested) r.(TotalGPUUsage)
    r.(TotalGPUTensorActive) r.(TotalGPUMemoryUtil) r.(TotalGPUMemoryUsed)
    r.(TotalGPUMemoryTotal) r.(GPUMetricsAvailable) r.(TotalStorageCapacity)
    r.(TotalStorageRequested) r.(MetricsAvailable).
End ClusterSummary.
Export (hints) ClusterSummary.

(** AgentHealth is sent with every snapshot for ClickHouse storage. (snapshot.go) *)
Module AgentHealth.
Record t := mk {
  SnapshotsSentTotal : uint64;
  SnapshotsFailedTotal : uint64;
  SnapshotsTotalCount : uint64;
  SnapshotsSentDelta : uint64;
  SnapshotsFailedDelta : uint64;
  State : string;
  StateReason : string;
  LastBuildDurationMs : int64;
  LastMetricsCollectDurationMs : int64;
  LastSendDurationMs : int64;
  EncodeDurationMs : int64;
  OriginalSizeBytes : int64;
  CompressedSizeBytes : int64;
  CompressionFactor : float64;
  NodeCount : int;
  PodCount : int;
  ContainerCount : int;
  WorkloadCount : int;
  ServiceCount : int;
  HPACount : int;
  PDBCount : int;
  PVCount : int;
  MetricsServerAvailable : bool;
  VPAAvailable : bool;
  KarpenterAvailable : bool;
  GPUMetricsAvailable : bool;
  DCGMExporterTargets : int;
  DCGMExporterUpTargets : int;
  InformersSynced : bool;
  InformersHealthy : int;
  InformersTotal : int;
  StaleResources : list string;
  APICallsTotal : int;
  APICallsFailedCount : int;
  ActiveErrorsCount : int;
  ErrorCodes : list string;
  UptimeSeconds : int64;
  StartedAt : int64;
  CollectedAt : int64;
  ChartVersion : string;
  HelmReleaseName : string;
  PodName : string;
  PodNamespace : string;
  NodeName : string }.
Definition zero : t := mk 0 0 0 0 0 "" "" 0 0 0 0 0 0 f64_zero 0 0 0 0 0 0 0 0 false
    false false false 0 0 false 0 0 [] 0 0 0 [] 0 0 0 "" "" "" "" "".
#[export] Instance eta : Eta t := fun r => mk r.(SnapshotsSentTotal)
    r.(SnapshotsFailedTotal) r.(SnapshotsTotalCount) r.(SnapshotsSentDelta)
    r.(SnapshotsFailedDelta) r.(State) r.(StateReason) r.(LastBuildDurationMs)
    r.(LastMetricsCollectDurationMs) r.(LastSendDurationMs) r.(EncodeDurationMs)
    r.(OriginalSizeBytes) r.(CompressedSizeBytes) r.(CompressionFactor) r.(NodeCount)
    r.(PodCount) r.(ContainerCount) r.(WorkloadCount) r.(ServiceCount) r.(HPACount)
    r.(PDBCount) r.(PVCount) r.(MetricsServerAvailable) r.(VPAAvailable)
    r.(KarpenterAvailable) r.(GPUMetricsAvailable) r.(DCGMExporterTargets)
    r.(DCGMExporterUpTargets) r.(InformersSynced) r.(InformersHealthy)
    r.(InformersTotal) r.(StaleResources) r.(APICallsTotal) r.(APICallsFailedCount)
    r.(ActiveErrorsCount) r.(ErrorCodes) r.(UptimeSeconds) r.(StartedAt) r.(CollectedAt)
    r.(ChartVersion) r.(HelmReleaseName) r.(PodName) r.(PodNamespace) r.(NodeName).
End AgentHealth.
Export (hints) AgentHealth.

(** ClusterSnapshot is the complete payload sent to the backend every 60 seconds. (snapshot.go) *)
Module ClusterSnapshot.
Record t := mk {
  SnapshotID : string;
  ClusterID : string;
  Timestamp : int64;
  AgentVersion : string;
  Provider : string;
  Region : string;
  CloudAccountID : string;
  KubernetesVersion : string;
  Nodes : list NodeInfo.t;
  Pods : list PodInfo.t;
  Namespaces : list NamespaceInfo.t;
  Deployments : list DeploymentInfo.t;
  StatefulSets : list StatefulSetInfo.t;
  DaemonSets : list DaemonSetInfo.t;
  Jobs : list JobInfo.t;
  CronJobs : list CronJobInfo.t;
  CustomWorkloads : list CustomWorkloadInfo.t;
  HPAs : list HPAInfo.t;
  VPAs : list VPAInfo.t;
  PDBs : list PDBInfo.t;
  Services : list ServiceInfo.t;
  Ingresses : list IngressInfo.t;
  PVs : list PVInfo.t;
  PVCs : list PVCInfo.t;
  StorageClasses : list StorageClassInfo.t;
  PriorityClasses : list PriorityClassInfo.t;
  LimitRanges : list LimitRangeInfo.t;
  ResourceQuotas : list ResourceQuotaInfo.t;
  NodePools : list NodePoolInfo.t;
  Summary : ClusterSummary.t;
  Health : AgentHealth.t }.
Definition zero : t := mk "" "" 0 "" "" "" "" "" [] [] [] [] [] [] [] [] [] [] [] [] []
    [] [] [] [] [] [] [] [] ClusterSummary.zero AgentHealth.zero.
#[export] Instance eta : Eta t := fun r => mk r.(SnapshotID) r.(ClusterID) r.(Timestamp)
    r.(AgentVersion) r.(Provider) r.(Region) r.(CloudAccountID) r.(KubernetesVersion)
    r.(Nodes) r.(Pods) r.(Namespaces) r.(Deployments) r.(StatefulSets) r.(DaemonSets)
    r.(Jobs) r.(CronJobs) r.(CustomWorkloads) r.(HPAs) r.(VPAs) r.(PDBs) r.(Services)
    r.(Ingresses) r.(PVs) r.(PVCs) r.(StorageClasses) r.(PriorityClasses)
    r.(LimitRanges) r.(ResourceQuotas) r.(NodePools) r.(Summary) r.(Health).
End ClusterSnapshot.
Export (hints) ClusterSnapshot.
