(* ===== verification/Store.v ===== *)
(** * The in-memory stores (internal/store)

    [TypedStore] (typed.go) is the generic keyed store every collector writes
    and the snapshot builder reads; [Store] (store.go) and [MetricsStore]
    (metrics.go) are the two composites.  Each operation holds the store's
    lock when it touches the map, so the model is a state and one function per
    operation; an operation
    that reads the clock takes its value [now].  A loop [for k, v := range m]
    visits a Go map in an unspecified order: the operations that do so take a
    [RangeOrder], any enumeration of the map. *)

From S2P Require Import Prelude GoNum Model.
Open Scope string_scope.
Open Scope list_scope.
Open Scope Z_scope.

(** ** The order of a range loop over a map *)
Record RangeOrder := {
  range : forall T : Type, gmap string T -> list (string * T);
  range_perm : forall T (m : gmap string T), range T m ≡ₚ map_to_list m }.
Arguments range _ {_} _.
Arguments range_perm _ {_} _.

Definition canonical_order : RangeOrder :=
  {| range _ m := map_to_list m; range_perm _ _ := Permutation_refl _ |}.

(** The reverse enumeration, a second order for concrete checks. *)
Definition reverse_order : RangeOrder :=
  {| range _ m := reverse (map_to_list m); range_perm _ _ := reverse_Permutation _ |}.

(** ** TypedStore *)
Module TypedStore.
Record t (T : Type) := mk {
  items : gmap string T;
  lastUpdated : int64 }.
Arguments mk {T} _ _.
Arguments items {T} _.
Arguments lastUpdated {T} _.
#[export] Instance eta {T} : Eta (t T) := fun r => mk r.(items) r.(lastUpdated).

Section Ops.
Context {T : Type}.

Definition NewTypedStore (now : Time) : t T := mk ∅ (unix_milli now).

(** [Set] and [Delete] write the map under the lock and store the time after
    they release it (typed.go).  The model makes the two one step: a reader
    between them would see the new map with the previous time, which only
    [LastUpdated] returns and the staleness of a build compares. *)
Definition Set_ (now : Time) (key : string) (value : T) (s : t T) : t T :=
  mk (<[key := value]> s.(items)) (unix_milli now).

Definition Delete (now : Time) (key : string) (s : t T) : t T :=
  mk (delete key s.(items)) (unix_milli now).

Definition LastUpdated (s : t T) : int64 := s.(lastUpdated).

(** [v, ok := s.Get(key)]: [None] is [ok = false]. *)
Definition Get (key : string) (s : t T) : option T := s.(items) !! key.

Definition Len (s : t T) : int := Z.of_nat (size s.(items)).

(** A copy of the map: with immutable maps, the map itself. *)
Definition Snapshot (s : t T) : gmap string T := s.(items).

Definition Values (o : RangeOrder) (s : t T) : list T := (range o s.(items)).*2.

Definition Clear (s : t T) : t T := mk ∅ s.(lastUpdated).
End Ops.
End TypedStore.
Export (hints) TypedStore.

(** A write of the store, and a run of writes with their clock readings. *)
Inductive StoreOp (T : Type) : Type :=
  | OpSet (key : string) (value : T)
  | OpDelete (key : string)
  | OpClear.
Arguments OpSet {T} _ _.
Arguments OpDelete {T} _.
Arguments OpClear {T}.

Definition store_op {T} (now : Time) (op : StoreOp T) (s : TypedStore.t T) : TypedStore.t T :=
  match op with
  | OpSet k v => TypedStore.Set_ now k v s
  | OpDelete k => TypedStore.Delete now k s
  | OpClear => TypedStore.Clear s
  end.

Definition store_run {T} (ops : list (Time * StoreOp T)) (s : TypedStore.t T) : TypedStore.t T :=
  foldl (fun s '(now, op) => store_op now op s) s ops.

(** ** Store: the 22 typed stores *)
Module Store.
Record t := mk {
  Nodes : TypedStore.t NodeInfo.t;
  Pods : TypedStore.t PodInfo.t;
  Namespaces : TypedStore.t NamespaceInfo.t;
  Deployments : TypedStore.t DeploymentInfo.t;
  StatefulSets : TypedStore.t StatefulSetInfo.t;
  DaemonSets : TypedStore.t DaemonSetInfo.t;
  ReplicaSets : TypedStore.t ReplicaSetInfo.t;
  Jobs : TypedStore.t JobInfo.t;
  CronJobs : TypedStore.t CronJobInfo.t;
  CustomWorkloads : TypedStore.t CustomWorkloadInfo.t;
  HPAs : TypedStore.t HPAInfo.t;
  VPAs : TypedStore.t VPAInfo.t;
  PDBs : TypedStore.t PDBInfo.t;
  Services : TypedStore.t ServiceInfo.t;
  Ingresses : TypedStore.t IngressInfo.t;
  PVs : TypedStore.t PVInfo.t;
  PVCs : TypedStore.t PVCInfo.t;
  StorageClasses : TypedStore.t StorageClassInfo.t;
  PriorityClasses : TypedStore.t PriorityClassInfo.t;
  LimitRanges : TypedStore.t LimitRangeInfo.t;
  ResourceQuotas : TypedStore.t ResourceQuotaInfo.t;
  NodePools : TypedStore.t NodePoolInfo.t }.
#[export] Instance eta : Eta t := fun r => mk r.(Nodes) r.(Pods) r.(Namespaces)
    r.(Deployments) r.(StatefulSets) r.(DaemonSets) r.(ReplicaSets) r.(Jobs)
    r.(CronJobs) r.(CustomWorkloads) r.(HPAs) r.(VPAs) r.(PDBs) r.(Services)
    r.(Ingresses) r.(PVs) r.(PVCs) r.(StorageClasses) r.(PriorityClasses)
    r.(LimitRanges) r.(ResourceQuotas) r.(NodePools).

Definition NewStore (now : Time) : t := {|
  Nodes := TypedStore.NewTypedStore now;
  Pods := TypedStore.NewTypedStore now;
  Namespaces := TypedStore.NewTypedStore now;
  Deployments := TypedStore.NewTypedStore now;
  StatefulSets := TypedStore.NewTypedStore now;
  DaemonSets := TypedStore.NewTypedStore now;
  ReplicaSets := TypedStore.NewTypedStore now;
  Jobs := TypedStore.NewTypedStore now;
  CronJobs := TypedStore.NewTypedStore now;
  CustomWorkloads := TypedStore.NewTypedStore now;
  HPAs := TypedStore.NewTypedStore now;
  VPAs := TypedStore.NewTypedStore now;
  PDBs := TypedStore.NewTypedStore now;
  Services := TypedStore.NewTypedStore now;
  Ingresses := TypedStore.NewTypedStore now;
  PVs := TypedStore.NewTypedStore now;
  PVCs := TypedStore.NewTypedStore now;
  StorageClasses := TypedStore.NewTypedStore now;
  PriorityClasses := TypedStore.NewTypedStore now;
  LimitRanges := TypedStore.NewTypedStore now;
  ResourceQuotas := TypedStore.NewTypedStore now;
  NodePools := TypedStore.NewTypedStore now |}.

(** The map literals of LastUpdatedTimes and ItemCounts, in their order. *)
Definition LastUpdatedTimes_entries (s : t) : list (string * int64) := [
  ("nodes", TypedStore.LastUpdated s.(Nodes));
  ("pods", TypedStore.LastUpdated s.(Pods));
  ("namespaces", TypedStore.LastUpdated s.(Namespaces));
  ("deployments", TypedStore.LastUpdated s.(Deployments));
  ("statefulsets", TypedStore.LastUpdated s.(StatefulSets));
  ("daemonsets", TypedStore.LastUpdated s.(DaemonSets));
  ("replicasets", TypedStore.LastUpdated s.(ReplicaSets));
  ("jobs", TypedStore.LastUpdated s.(Jobs));
  ("cronjobs", TypedStore.LastUpdated s.(CronJobs));
  ("custom_workloads", TypedStore.LastUpdated s.(CustomWorkloads));
  ("hpas", TypedStore.LastUpdated s.(HPAs));
  ("vpas", TypedStore.LastUpdated s.(VPAs));
  ("pdbs", TypedStore.LastUpdated s.(PDBs));
  ("services", TypedStore.LastUpdated s.(Services));
  ("ingresses", TypedStore.LastUpdated s.(Ingresses));
  ("pvs", TypedStore.LastUpdated s.(PVs));
  ("pvcs", TypedStore.LastUpdated s.(PVCs));
  ("storageclasses", TypedStore.LastUpdated s.(StorageClasses));
  ("priorityclasses", TypedStore.LastUpdated s.(PriorityClasses));
  ("limitranges", TypedStore.LastUpdated s.(LimitRanges));
  ("resourcequotas", TypedStore.LastUpdated s.(ResourceQuotas));
  ("nodepools", TypedStore.LastUpdated s.(NodePools))].

Definition LastUpdatedTimes (s : t) : gmap string int64 :=
  list_to_map (LastUpdatedTimes_entries s).

Definition ItemCounts_entries (s : t) : list (string * int) := [
  ("nodes", TypedStore.Len s.(Nodes));
  ("pods", TypedStore.Len s.(Pods));
  ("namespaces", TypedStore.Len s.(Namespaces));
  ("deployments", TypedStore.Len s.(Deployments));
  ("statefulsets", TypedStore.Len s.(StatefulSets));
  ("daemonsets", TypedStore.Len s.(DaemonSets));
  ("replicasets", TypedStore.Len s.(ReplicaSets));
  ("jobs", TypedStore.Len s.(Jobs));
  ("cronjobs", TypedStore.Len s.(CronJobs));
  ("custom_workloads", TypedStore.Len s.(CustomWorkloads));
  ("hpas", TypedStore.Len s.(HPAs));
  ("vpas", TypedStore.Len s.(VPAs));
  ("pdbs", TypedStore.Len s.(PDBs));
  ("services", TypedStore.Len s.(Services));
  ("ingresses", TypedStore.Len s.(Ingresses));
  ("pvs", TypedStore.Len s.(PVs));
  ("pvcs", TypedStore.Len s.(PVCs));
  ("storageclasses", TypedStore.Len s.(StorageClasses));
  ("priorityclasses", TypedStore.Len s.(PriorityClasses));
  ("limitranges", TypedStore.Len s.(LimitRanges));
  ("resourcequotas", TypedStore.Len s.(ResourceQuotas));
  ("nodepools", TypedStore.Len s.(NodePools))].

Definition ItemCounts (s : t) : gmap string int := list_to_map (ItemCounts_entries s).
End Store.
Export (hints) Store.

(** ** MetricsStore *)
Module MetricsStore.
Record t := mk {
  NodeMetrics : TypedStore.t NodeMetrics.t;
  PodMetrics : TypedStore.t PodMetrics.t }.
#[export] Instance eta : Eta t := fun r => mk r.(NodeMetrics) r.(PodMetrics).

Definition NewMetricsStore (now : Time) : t :=
  mk (TypedStore.NewTypedStore now) (TypedStore.NewTypedStore now).
End MetricsStore.
Export (hints) MetricsStore.

(** ** A typed store of the composite, as a pair of accessors

    What a collector needs of the [Store]: the typed store of its resource,
    with the laws of a field that shares nothing with the others. *)
Class StoreField (T : Type) := {
  sf_get : Store.t -> TypedStore.t T;
  sf_set : TypedStore.t T -> Store.t -> Store.t;
  sf_get_set : forall ts st, sf_get (sf_set ts st) = ts;
  sf_set_set : forall ts ts' st, sf_set ts (sf_set ts' st) = sf_set ts st;
  sf_set_get : forall st, sf_set (sf_get st) st = st }.
#[export] Hint Mode StoreField ! : typeclass_instances.

Ltac store_field p :=
  refine {| sf_get := p; sf_set := fun ts st => st <| p := ts |> |};
  [reflexivity|reflexivity|by intros []].

#[export] Instance Nodes_field : StoreField NodeInfo.t.
Proof. store_field Store.Nodes. Defined.

#[export] Instance Pods_field : StoreField PodInfo.t.
Proof. store_field Store.Pods. Defined.

#[export] Instance Namespaces_field : StoreField NamespaceInfo.t.
Proof. store_field Store.Namespaces. Defined.

#[export] Instance Deployments_field : StoreField DeploymentInfo.t.
Proof. store_field Store.Deployments. Defined.

#[export] Instance StatefulSets_field : StoreField StatefulSetInfo.t.
Proof. store_field Store.StatefulSets. Defined.

#[export] Instance DaemonSets_field : StoreField DaemonSetInfo.t.
Proof. store_field Store.DaemonSets. Defined.

#[export] Instance ReplicaSets_field : StoreField ReplicaSetInfo.t.
Proof. store_field Store.ReplicaSets. Defined.

#[export] Instance Jobs_field : StoreField JobInfo.t.
Proof. store_field Store.Jobs. Defined.

#[export] Instance CronJobs_field : StoreField CronJobInfo.t.
Proof. store_field Store.CronJobs. Defined.

#[export] Instance CustomWorkloads_field : StoreField CustomWorkloadInfo.t.
Proof. store_field Store.CustomWorkloads. Defined.

#[export] Instance HPAs_field : StoreField HPAInfo.t.
Proof. store_field Store.HPAs. Defined.

#[export] Instance VPAs_field : StoreField VPAInfo.t.
Proof. store_field Store.VPAs. Defined.

#[export] Instance PDBs_field : StoreField PDBInfo.t.
Proof. store_field Store.PDBs. Defined.

#[export] Instance Services_field : StoreField ServiceInfo.t.
Proof. store_field Store.Services. Defined.

#[export] Instance Ingresses_field : StoreField IngressInfo.t.
Proof. store_field Store.Ingresses. Defined.

#[export] Instance PVs_field : StoreField PVInfo.t.
Proof. store_field Store.PVs. Defined.

#[export] Instance PVCs_field : StoreField PVCInfo.t.
Proof. store_field Store.PVCs. Defined.

#[export] Instance StorageClasses_field : StoreField StorageClassInfo.t.
Proof. store_field Store.StorageClasses. Defined.

#[export] Instance PriorityClasses_field : StoreField PriorityClassInfo.t.
Proof. store_field Store.PriorityClasses. Defined.

#[export] Instance LimitRanges_field : StoreField LimitRangeInfo.t.
Proof. store_field Store.LimitRanges. Defined.

#[export] Instance ResourceQuotas_field : StoreField ResourceQuotaInfo.t.
Proof. store_field Store.ResourceQuotas. Defined.

#[export] Instance NodePools_field : StoreField NodePoolInfo.t.
Proof. store_field Store.NodePools. Defined.

(** ** Lemmas *)

Section TypedStoreLemmas.
Context {T : Type}.
Implicit Types (s : TypedStore.t T) (k : string) (v : T).

Lemma Get_Set now k k' v s :
  TypedStore.Get k' (TypedStore.Set_ now k v s) =
    if decide (k = k') then Some v else TypedStore.Get k' s.
Proof. apply lookup_insert. Qed.

Lemma Get_Delete now k k' s :
  TypedStore.Get k' (TypedStore.Delete now k s) =
    if decide (k = k') then None else TypedStore.Get k' s.
Proof. apply lookup_delete. Qed.

Lemma Values_perm o s : TypedStore.Values o s ≡ₚ (map_to_list s.(TypedStore.items)).*2.
Proof. unfold TypedStore.Values. by rewrite range_perm. Qed.

Lemma elem_of_Values o s v :
  v ∈ TypedStore.Values o s <-> exists k, TypedStore.Get k s = Some v.
Proof.
  rewrite Values_perm, list_elem_of_fmap. unfold TypedStore.Get. split.
  - intros ([k v'] & -> & H). exists k. by apply elem_of_map_to_list in H.
  - intros [k H]. exists (k, v). split; [done|]. by apply elem_of_map_to_list.
Qed.

Lemma length_Values o s : golen (TypedStore.Values o s) = TypedStore.Len s.
Proof.
  unfold golen, TypedStore.Len. f_equal.
  rewrite (Permutation_length (Values_perm o s)), length_fmap. apply length_map_to_list.
Qed.

Lemma store_run_app ops1 ops2 s :
  store_run (ops1 ++ ops2) s = store_run ops2 (store_run ops1 s).
Proof. apply foldl_app. Qed.

Lemma store_run_snoc ops now op s :
  store_run (ops ++ [(now, op)]) s = store_op now op (store_run ops s).
Proof. apply store_run_app. Qed.
End TypedStoreLemmas.

#[export] Hint Rewrite @Get_Set @Get_Delete @store_run_app @store_run_snoc : agent.

(** ** The stores implement a history *)

(** What a history of writes, the latest first, leaves under a key. *)
Fixpoint latest {T} (k : string) (ops : list (Time * StoreOp T)) : option T :=
  match ops with
  | [] => None
  | (_, OpSet k' v) :: ops => if decide (k' = k) then Some v else latest k ops
  | (_, OpDelete k') :: ops => if decide (k' = k) then None else latest k ops
  | (_, OpClear) :: _ => None
  end.

(** The time of the latest write that is not a Clear. *)
Fixpoint latest_time {T} (created : Time) (ops : list (Time * StoreOp T)) : Time :=
  match ops with
  | [] => created
  | (_, OpClear) :: ops => latest_time created ops
  | (now, _) :: _ => now
  end.

Lemma Get_store_run {T} created (ops : list (Time * StoreOp T)) k :
  TypedStore.Get k (store_run ops (TypedStore.NewTypedStore created)) = latest k (reverse ops).
Proof.
  induction ops as [|[now op] ops IH] using rev_ind; [apply lookup_empty|].
  rewrite store_run_snoc, reverse_snoc.
  destruct op as [k' v|k'|]; simpl; [| |apply lookup_empty].
  - by rewrite Get_Set, IH.
  - by rewrite Get_Delete, IH.
Qed.

Lemma LastUpdated_store_run {T} created (ops : list (Time * StoreOp T)) :
  TypedStore.LastUpdated (store_run ops (TypedStore.NewTypedStore created)) =
    unix_milli (latest_time created (reverse ops)).
Proof.
  induction ops as [|[now op] ops IH] using rev_ind; [done|].
  rewrite store_run_snoc, reverse_snoc. by destruct op.
Qed.

(** C23 A store is its history: after any writes [Get] returns what the latest
    write of the key left, [Values] lists those values, each under one key and
    in any order, [Len] is their number, and [LastUpdated] is the time of the
    latest Set or Delete (a Clear does not touch it). *)
Theorem store_implements_history {T} (o : RangeOrder) created (ops : list (Time * StoreOp T)) :
  let s := store_run ops (TypedStore.NewTypedStore created) in
  (forall k, TypedStore.Get k s = latest k (reverse ops)) /\
  (exists keys, NoDup keys /\ (forall k, k ∈ keys <-> is_Some (latest k (reverse ops))) /\
     Some <$> TypedStore.Values o s = (fun k => latest k (reverse ops)) <$> keys /\
     TypedStore.Len s = golen keys) /\
  TypedStore.LastUpdated s = unix_milli (latest_time created (reverse ops)).
Proof.
  intros s. pose proof (Get_store_run created ops) as HG. fold s in HG.
  split_and!; [done| |apply LastUpdated_store_run].
  pose proof (range_perm o s.(TypedStore.items)) as HP.
  assert (Hin : forall k v, (k, v) ∈ range o s.(TypedStore.items) <-> latest k (reverse ops) = Some v).
  { intros k v. rewrite HP, elem_of_map_to_list, <- HG. done. }
  exists (range o s.(TypedStore.items)).*1. split_and!.
  - rewrite HP. apply NoDup_fst_map_to_list.
  - intros k. rewrite list_elem_of_fmap. split.
    + intros ([k' v] & -> & H). apply Hin in H. by exists v.
    + intros [v H]. exists (k, v). split; [done|by apply Hin].
  - unfold TypedStore.Values. rewrite <- !list_fmap_compose. apply list_fmap_ext.
    intros i [k v] H. apply list_elem_of_lookup_2, Hin in H. by simpl.
  - rewrite <- (length_Values o). unfold TypedStore.Values, golen. by rewrite !length_fmap.
Qed.
