(* ===== verification/K8s.v ===== *)
(** * The Kubernetes objects the agent reads

    The API types of client-go are not part of the repository.  A record here
    holds the fields of an API type that the sources read, under their API
    names, and nothing else; a pointer field is an [option].  A quantity is what
    the sources see of it, the results of its methods [Value],
    [AsApproximateFloat64] and [String]; an IntOrString is the text of its
    method [String]. *)

From S2P Require Import Prelude GoNum.
Open Scope string_scope.
Open Scope list_scope.
Open Scope Z_scope.

(** ** apimachinery *)

Module Quantity.
Record t := mk {
  Value : int64;
  AsApproximateFloat64 : float64;
  String_ : string }.

(** [resource.Quantity{}] reads as zero. *)
Definition zero : t := mk 0 f64_zero "0".
End Quantity.

Abbreviation ResourceList := (gomap Quantity.t) (only parsing).
Abbreviation IntOrString := string (only parsing).

Module OwnerReference.
Record t := mk {
  Kind : string;
  Name : string;
  UID : string;
  Controller : option bool }.
End OwnerReference.

(** The metadata every object embeds. *)
Module ObjectMeta.
Record t := mk {
  Name : string;
  Namespace : string;
  UID : string;
  Labels : gomap string;
  Annotations : gomap string;
  CreationTimestamp : Time;
  OwnerReferences : list OwnerReference.t }.
End ObjectMeta.

Module LabelSelector.
Record t := mk { MatchLabels : gomap string }.
End LabelSelector.

(** The conditions of nodes, pods and workloads have these four fields. *)
Module Condition.
Record t := mk {
  Type_ : string;
  Status : string;
  Reason : string;
  Message : string }.
End Condition.

(** ** core/v1 *)

Module Taint.
Record t := mk { Key : string; Value : string; Effect : string }.
End Taint.

Module NodeSystemInfo.
Record t := mk {
  KernelVersion : string;
  OSImage : string;
  ContainerRuntimeVersion : string;
  KubeletVersion : string;
  KubeProxyVersion : string }.
End NodeSystemInfo.

Module NodeSpec.
Record t := mk {
  PodCIDR : string;
  PodCIDRs : list string;
  ProviderID : string;
  Unschedulable : bool;
  Taints : list Taint.t }.
End NodeSpec.

Module NodeStatus.
Record t := mk {
  Capacity : ResourceList;
  Allocatable : ResourceList;
  Conditions : list Condition.t;
  NodeInfo : NodeSystemInfo.t }.
End NodeStatus.

Module Node.
Record t := mk { Meta : ObjectMeta.t; Spec : NodeSpec.t; Status : NodeStatus.t }.
End Node.

Module ContainerPort.
Record t := mk { Name : string; ContainerPort : int32; Protocol : string }.
End ContainerPort.

Module Container.
Record t := mk {
  Name : string;
  Image : string;
  Requests : ResourceList;              (* Resources.Requests *)
  Limits : ResourceList;                (* Resources.Limits *)
  Ports : list ContainerPort.t }.
End Container.

Module ContainerStateWaiting.
Record t := mk { Reason : string; Message : string }.
End ContainerStateWaiting.

Module ContainerStateTerminated.
Record t := mk { ExitCode : int32; Reason : string; Message : string }.
End ContainerStateTerminated.

(** [Running] is whether the pointer of that name is set. *)
Module ContainerState.
Record t := mk {
  Waiting : option ContainerStateWaiting.t;
  Running : bool;
  Terminated : option ContainerStateTerminated.t }.
End ContainerState.

Module ContainerStatus.
Record t := mk {
  Name : string;
  State : ContainerState.t;
  LastTerminationState : ContainerState.t;
  Ready : bool;
  RestartCount : int32;
  ImageID : string;
  Started : option bool }.

(** [corev1.ContainerStatus{}] *)
Definition zero : t :=
  mk "" (ContainerState.mk None false None) (ContainerState.mk None false None) false 0 "" None.
End ContainerStatus.

(** [HostPath] and [EmptyDir] are whether the pointers are set. *)
Module Volume.
Record t := mk { HostPath : bool; EmptyDir : bool }.
End Volume.

Module PodSpec.
Record t := mk {
  Volumes : list Volume.t;
  InitContainers : list Container.t;
  Containers : list Container.t;
  ServiceAccountName : string;
  NodeName : string;
  HostNetwork : bool;
  SchedulerName : string;
  PriorityClassName : string;
  Priority : option int32 }.
End PodSpec.

Module PodStatus.
Record t := mk {
  Phase : string;
  Conditions : list Condition.t;
  Reason : string;
  HostIP : string;
  PodIP : string;
  InitContainerStatuses : list ContainerStatus.t;
  ContainerStatuses : list ContainerStatus.t;
  QOSClass : string }.
End PodStatus.

Module Pod.
Record t := mk { Meta : ObjectMeta.t; Spec : PodSpec.t; Status : PodStatus.t }.
End Pod.

(** ** apps/v1 *)

Module RollingUpdateDeployment.
Record t := mk { MaxUnavailable : option IntOrString; MaxSurge : option IntOrString }.
End RollingUpdateDeployment.

Module DeploymentStrategy.
Record t := mk { Type_ : string; RollingUpdate : option RollingUpdateDeployment.t }.
End DeploymentStrategy.

(** [Template] is [Spec.Template.Spec.Containers]. *)
Module DeploymentSpec.
Record t := mk {
  Replicas : option int32;
  Selector : option LabelSelector.t;
  Template : list Container.t;
  Strategy : DeploymentStrategy.t;
  Paused : bool }.
End DeploymentSpec.

Module DeploymentStatus.
Record t := mk {
  UpdatedReplicas : int32;
  ReadyReplicas : int32;
  AvailableReplicas : int32;
  UnavailableReplicas : int32;
  Conditions : list Condition.t }.
End DeploymentStatus.

Module Deployment.
Record t := mk { Meta : ObjectMeta.t; Spec : DeploymentSpec.t; Status : DeploymentStatus.t }.
End Deployment.

Module StatefulSetUpdateStrategy.
Record t := mk {
  Type_ : string;
  RollingUpdate : option (option int32) }.   (* RollingUpdate.Partition *)
End StatefulSetUpdateStrategy.

(** [VolumeClaimTemplates] are the templates' names. *)
Module StatefulSetSpec.
Record t := mk {
  Replicas : option int32;
  Selector : option LabelSelector.t;
  Template : list Container.t;
  VolumeClaimTemplates : list string;
  ServiceName : string;
  PodManagementPolicy : string;
  UpdateStrategy : StatefulSetUpdateStrategy.t }.
End StatefulSetSpec.

Module StatefulSetStatus.
Record t := mk {
  ReadyReplicas : int32;
  UpdatedReplicas : int32;
  AvailableReplicas : int32;
  Conditions : list Condition.t }.
End StatefulSetStatus.

Module StatefulSet.
Record t := mk { Meta : ObjectMeta.t; Spec : StatefulSetSpec.t; Status : StatefulSetStatus.t }.
End StatefulSet.

Module DaemonSetSpec.
Record t := mk {
  Selector : option LabelSelector.t;
  Template : list Container.t;
  UpdateStrategyType : string }.         (* UpdateStrategy.Type *)
End DaemonSetSpec.

Module DaemonSetStatus.
Record t := mk {
  CurrentNumberScheduled : int32;
  NumberMisscheduled : int32;
  DesiredNumberScheduled : int32;
  NumberReady : int32;
  UpdatedNumberScheduled : int32;
  NumberAvailable : int32;
  NumberUnavailable : int32;
  Conditions : list Condition.t }.
End DaemonSetStatus.

Module DaemonSet.
Record t := mk { Meta : ObjectMeta.t; Spec : DaemonSetSpec.t; Status : DaemonSetStatus.t }.
End DaemonSet.

Module ReplicaSet.
Record t := mk {
  Meta : ObjectMeta.t;
  Replicas : option int32;               (* Spec.Replicas *)
  Selector : option LabelSelector.t;     (* Spec.Selector *)
  ReadyReplicas : int32 }.               (* Status.ReadyReplicas *)
End ReplicaSet.

(** ** scheduling/v1 and the quotas of core/v1 *)

Module PriorityClass.
Record t := mk {
  Meta : ObjectMeta.t;
  Value : int32;
  GlobalDefault : bool;
  Description : string;
  PreemptionPolicy : option string }.
End PriorityClass.

Module LimitRangeItem.
Record t := mk {
  Type_ : string;
  Max : ResourceList;
  Min : ResourceList;
  Default : ResourceList;
  DefaultRequest : ResourceList;
  MaxLimitRequestRatio : ResourceList }.
End LimitRangeItem.

(** [Limits] is [Spec.Limits]. *)
Module LimitRange.
Record t := mk { Meta : ObjectMeta.t; Limits : list LimitRangeItem.t }.
End LimitRange.

Module ResourceQuota.
Record t := mk {
  Meta : ObjectMeta.t;
  Hard : ResourceList;                   (* Spec.Hard *)
  Used : ResourceList }.                 (* Status.Used *)
End ResourceQuota.

Module Namespace.
Record t := mk { Meta : ObjectMeta.t; Phase : string }.   (* Status.Phase *)
End Namespace.

(** ** Storage: core/v1 and storage/v1 *)

Module CSIPersistentVolumeSource.
Record t := mk { Driver : string; VolumeHandle : string; FSType : string }.
End CSIPersistentVolumeSource.

Module AWSElasticBlockStoreVolumeSource.
Record t := mk { VolumeID : string; Partition : int32 }.
End AWSElasticBlockStoreVolumeSource.

Module NFSVolumeSource.
Record t := mk { Server : string; Path : string }.
End NFSVolumeSource.

Module ObjectReference.
Record t := mk { Namespace : string; Name : string; UID : string }.
End ObjectReference.

(** Of the sources below [HostPath] only whether the pointer is set is read. *)
Module PersistentVolumeSpec.
Record t := mk {
  Capacity : ResourceList;
  CSI : option CSIPersistentVolumeSource.t;
  AWSElasticBlockStore : option AWSElasticBlockStoreVolumeSource.t;
  NFS : option NFSVolumeSource.t;
  HostPath : bool;
  GCEPersistentDisk : bool;
  AzureDisk : bool;
  AzureFile : bool;
  FC : bool;
  ISCSI : bool;
  Local : bool;
  AccessModes : list string;
  ClaimRef : option ObjectReference.t;
  PersistentVolumeReclaimPolicy : string;
  StorageClassName : string;
  MountOptions : list string;
  VolumeMode : option string }.
End PersistentVolumeSpec.

Module PersistentVolume.
Record t := mk { Meta : ObjectMeta.t; Spec : PersistentVolumeSpec.t; Phase : string }.   (* Status.Phase *)
End PersistentVolume.

Module PersistentVolumeClaim.
Record t := mk {
  Meta : ObjectMeta.t;
  AccessModes : list string;
  Requests : ResourceList;               (* Spec.Resources.Requests *)
  VolumeName : string;
  StorageClassName : option string;
  VolumeMode : option string;
  Phase : string;                        (* Status.Phase *)
  Capacity : ResourceList;               (* Status.Capacity *)
  Conditions : list Condition.t }.       (* Status.Conditions *)
End PersistentVolumeClaim.

Module StorageClass.
Record t := mk {
  Meta : ObjectMeta.t;
  Provisioner : string;
  Parameters : gomap string;
  ReclaimPolicy : option string;
  MountOptions : list string;
  AllowVolumeExpansion : option bool;
  VolumeBindingMode : option string }.
End StorageClass.

(** ** Network: core/v1 and networking/v1 *)

Module ServicePort.
Record t := mk {
  Name : string;
  Protocol : string;
  Port : int32;
  TargetPort : IntOrString;
  NodePort : int32 }.
End ServicePort.

(** The ingress points of a load balancer, of Services and of Ingresses. *)
Module LoadBalancerPoint.
Record t := mk { IP : string; Hostname : string }.
End LoadBalancerPoint.

Module ServiceSpec.
Record t := mk {
  Ports : list ServicePort.t;
  Selector : gomap string;
  ClusterIP : string;
  ClusterIPs : list string;
  Type_ : string;
  ExternalIPs : list string;
  SessionAffinity : string;
  LoadBalancerClass : option string }.
End ServiceSpec.

(** [LoadBalancer] is [Status.LoadBalancer.Ingress]. *)
Module Service.
Record t := mk { Meta : ObjectMeta.t; Spec : ServiceSpec.t; LoadBalancer : list LoadBalancerPoint.t }.
End Service.

(** A port of a Service by number, or by name when the number is 0. *)
Module IngressServiceBackend.
Record t := mk { Name : string; PortName : string; PortNumber : int32 }.
End IngressServiceBackend.

(** [Backend] is [Backend.Service]. *)
Module HTTPIngressPath.
Record t := mk {
  Path : string;
  PathType : option string;
  Backend : option IngressServiceBackend.t }.
End HTTPIngressPath.

(** [HTTP] is the paths of the pointer of that name. *)
Module IngressRule.
Record t := mk { Host : string; HTTP : option (list HTTPIngressPath.t) }.
End IngressRule.

Module IngressTLS.
Record t := mk { Hosts : list string; SecretName : string }.
End IngressTLS.

Module IngressSpec.
Record t := mk {
  IngressClassName : option string;
  DefaultBackend : option (option IngressServiceBackend.t);   (* DefaultBackend.Service *)
  TLS : list IngressTLS.t;
  Rules : list IngressRule.t }.
End IngressSpec.

Module Ingress.
Record t := mk { Meta : ObjectMeta.t; Spec : IngressSpec.t; LoadBalancer : list LoadBalancerPoint.t }.
End Ingress.

(** ** autoscaling/v2 and policy/v1 *)

Module MetricTarget.
Record t := mk {
  Type_ : string;
  Value : option Quantity.t;
  AverageValue : option Quantity.t;
  AverageUtilization : option int32 }.
End MetricTarget.

(** A resource metric has the resource's name and a target, a container resource
    metric a container too; pods, object and external metrics have a name. *)
Module MetricSource.
Record t := mk { Container : string; Name : string; Target : MetricTarget.t }.
End MetricSource.

Module MetricSpec.
Record t := mk {
  Type_ : string;
  Object_ : option MetricSource.t;
  Pods : option MetricSource.t;
  Resource : option MetricSource.t;
  ContainerResource : option MetricSource.t;
  External : option MetricSource.t }.
End MetricSpec.

Module MetricValueStatus.
Record t := mk {
  Value : option Quantity.t;
  AverageValue : option Quantity.t;
  AverageUtilization : option int32 }.
End MetricValueStatus.

(** Of the sources other than [Resource] only the current values are read. *)
Module MetricStatus.
Record t := mk {
  Type_ : string;
  Object_ : option MetricValueStatus.t;
  Pods : option MetricValueStatus.t;
  Resource : option (string * MetricValueStatus.t);   (* Name, Current *)
  External : option MetricValueStatus.t }.
End MetricStatus.

Module ScalingPolicy.
Record t := mk { Type_ : string; Value : int32; PeriodSeconds : int32 }.
End ScalingPolicy.

Module HPAScalingRules.
Record t := mk {
  StabilizationWindowSeconds : option int32;
  SelectPolicy : option string;
  Policies : list ScalingPolicy.t }.
End HPAScalingRules.

Module CrossVersionObjectReference.
Record t := mk { Kind : string; Name : string; APIVersion : string }.
End CrossVersionObjectReference.

Module HPABehavior.
Record t := mk { ScaleUp : option HPAScalingRules.t; ScaleDown : option HPAScalingRules.t }.
End HPABehavior.

Module HPASpec.
Record t := mk {
  ScaleTargetRef : CrossVersionObjectReference.t;
  MinReplicas : option int32;
  MaxReplicas : int32;
  Metrics : list MetricSpec.t;
  Behavior : option HPABehavior.t }.
End HPASpec.

Module HPAStatus.
Record t := mk {
  LastScaleTime : option Time;
  CurrentReplicas : int32;
  DesiredReplicas : int32;
  CurrentMetrics : list MetricStatus.t;
  Conditions : list Condition.t }.
End HPAStatus.

Module HorizontalPodAutoscaler.
Record t := mk { Meta : ObjectMeta.t; Spec : HPASpec.t; Status : HPAStatus.t }.
End HorizontalPodAutoscaler.

Module SelectorRequirement.
Record t := mk { Key : string; Operator : string; Values : list string }.
End SelectorRequirement.

(** [Selector] is the labels and the expressions of [Spec.Selector]. *)
Module PodDisruptionBudget.
Record t := mk {
  Meta : ObjectMeta.t;
  MinAvailable : option IntOrString;
  MaxUnavailable : option IntOrString;
  Selector : option (gomap string * list SelectorRequirement.t);
  DisruptionsAllowed : int32;            (* of the Status, like the rest *)
  CurrentHealthy : int32;
  DesiredHealthy : int32;
  ExpectedPods : int32;
  Conditions : list Condition.t }.
End PodDisruptionBudget.

(** ** batch/v1 *)

Module JobSpec.
Record t := mk {
  Parallelism : option int32;
  Completions : option int32;
  ActiveDeadlineSeconds : option int64;
  BackoffLimit : option int32;
  Template : list Container.t;
  TTLSecondsAfterFinished : option int32 }.
End JobSpec.

Module JobStatus.
Record t := mk {
  Conditions : list Condition.t;
  StartTime : option Time;
  CompletionTime : option Time;
  Active : int32;
  Succeeded : int32;
  Failed : int32 }.
End JobStatus.

Module Job.
Record t := mk { Meta : ObjectMeta.t; Spec : JobSpec.t; Status : JobStatus.t }.
End Job.

(** [Active] are the names of [Status.Active]. *)
Module CronJob.
Record t := mk {
  Meta : ObjectMeta.t;
  Schedule : string;
  ConcurrencyPolicy : string;
  Suspend : option bool;
  JobTemplate : list Container.t;        (* Spec.JobTemplate.Spec.Template.Spec.Containers *)
  Active : list string;
  LastScheduleTime : option Time;
  LastSuccessfulTime : option Time }.
End CronJob.
