(* ===== verification/ConvertHelpers.v ===== *)
(** * Conversion helpers: internal/convert/helpers.go and node.go

    Annotations are filtered, quantities read. *)

From S2P Require Import Prelude GoNum GoStrings K8s.
Open Scope string_scope.
Open Scope list_scope.
Open Scope Z_scope.

Definition last_applied := "kubectl.kubernetes.io/last-applied-configuration".

(** The value a kept annotation gets. *)
Definition truncated (v : string) : string :=
  if 1024 <? strlen v then slice_to v 1024 else v.

(** One iteration of the loop of [FilterAnnotations]. *)
Definition filter_annotation (filtered : gmap string string) (kv : string * string) : gmap string string :=
  let '(k, v) := kv in
  if decide (k = last_applied) then filtered else <[k := truncated v]> filtered.

(** The loop visits the annotations in any order: [map_to_list] is one. *)
Definition FilterAnnotations (annotations : gomap string) : gomap string :=
  match annotations with
  | None => None
  | Some annotations => Some (foldl filter_annotation ∅ (map_to_list annotations))
  end.

Definition ParseQuantity (q : Quantity.t) : float64 := q.(Quantity.AsApproximateFloat64).

(** [parse] is [resource.ParseQuantity]. *)
Definition ParseQuantityString (parse : string -> option Quantity.t) (s : string) : float64 :=
  match parse s with Some q => ParseQuantity q | None => f64_zero end.

Definition quantityValue (rl : ResourceList) (name : string) : int64 :=
  match mlookup rl name with Some q => q.(Quantity.Value) | None => 0 end.

Definition resourceQuantity (rl : ResourceList) (name : string) : Quantity.t :=
  match rl with
  | None => Quantity.zero
  | Some rl => match rl !! name with Some q => q | None => Quantity.zero end
  end.

(** ** The resource names of core/v1 *)

Definition ResourceCPU := "cpu".
Definition ResourceMemory := "memory".
Definition ResourceEphemeralStorage := "ephemeral-storage".
Definition ResourcePods := "pods".

(** The first condition of a type. *)
Definition find_condition (ty : string) (cs : list Condition.t) : option Condition.t :=
  List.find (fun c => bool_decide (c.(Condition.Type_) = ty)) cs.

(** ** Lemmas *)

Lemma lookup_filter_loop l (acc : gmap string string) k :
  NoDup l.*1 ->
  foldl filter_annotation acc l !! k =
    if decide (k = last_applied) then acc !! k
    else match (list_to_map l : gmap string string) !! k with
         | Some v => Some (truncated v)
         | None => acc !! k
         end.
Proof.
  revert acc. induction l as [|[k' v] l IH]; intros acc Hnd; simpl.
  { rewrite lookup_empty. by case_decide. }
  apply NoDup_cons in Hnd as [Hnotin Hnd]. rewrite IH by done. clear IH.
  case_decide as Hk.
  - case_decide; [done|]. rewrite lookup_insert_ne by congruence. done.
  - destruct (decide (k' = k)) as [->|Hne].
    + rewrite lookup_insert_eq. rewrite (decide_False (P := k = last_applied)) by done.
      rewrite (not_elem_of_list_to_map_1 (M := gmap string)) by done. by rewrite lookup_insert_eq.
    + rewrite (lookup_insert_ne (M := gmap string) (list_to_map l)) by done.
      destruct ((list_to_map l : gmap string string) !! k); [done|].
      case_decide; [done|]. by rewrite lookup_insert_ne.
Qed.

(** Whatever the order of the loop, an annotation is kept unless it is the last
    applied configuration, with its value cut to 1024 bytes. *)
Lemma filter_loop_spec l (m : gmap string string) k :
  l ≡ₚ map_to_list m ->
  foldl filter_annotation ∅ l !! k =
    if decide (k = last_applied) then None else truncated <$> m !! k.
Proof.
  intros Hp. assert (NoDup l.*1) as Hnd by (rewrite Hp; apply NoDup_fst_map_to_list).
  rewrite lookup_filter_loop by done.
  assert ((list_to_map l : gmap string string) = m) as -> by (rewrite <- (list_to_map_to_list m);
    by apply list_to_map_proper).
  rewrite lookup_empty. case_decide; [done|]. by destruct (m !! k).
Qed.

Lemma mlookup_FilterAnnotations a k :
  mlookup (FilterAnnotations a) k =
    if decide (k = last_applied) then None else truncated <$> mlookup a k.
Proof.
  destruct a as [m|]; simpl; [by apply filter_loop_spec|by case_decide].
Qed.

Lemma strlen_take_str n s : strlen (take_str n s) = Z.min (Z.of_nat n) (strlen s).
Proof.
  revert s. induction n as [|n IH]; intros [|c s]; unfold strlen in *; simpl; try lia.
  specialize (IH s). lia.
Qed.

Lemma strlen_truncated v : strlen (truncated v) = Z.min 1024 (strlen v).
Proof.
  unfold truncated, slice_to. destruct (Z.ltb_spec 1024 (strlen v)); [|lia].
  rewrite strlen_take_str. lia.
Qed.

Lemma truncated_idemp v : truncated (truncated v) = truncated v.
Proof.
  pose proof (strlen_truncated v). unfold truncated at 1.
  destruct (Z.ltb_spec 1024 (strlen (truncated v))); [lia|done].
Qed.

Lemma truncated_short v : strlen v <= 1024 -> truncated v = v.
Proof. intros. unfold truncated. by destruct (Z.ltb_spec 1024 (strlen v)); [lia|]. Qed.

Lemma approx_resourceQuantity rl name :
  ParseQuantity (resourceQuantity rl name) =
    match mlookup rl name with Some q => q.(Quantity.AsApproximateFloat64) | None => f64_zero end.
Proof. unfold resourceQuantity. destruct rl as [rl|]; simpl; [by destruct (rl !! name)|done]. Qed.

(** ** Properties *)

(** Filtering annotations drops the last applied configuration and nothing
    else, cuts values to 1024 bytes, leaves shorter ones alone, keeps a nil map
    nil, does not depend on the order the map is visited in, and changes nothing
    the second time. *)
Theorem FilterAnnotations_spec (a : gomap string) :
  (forall k, mlookup (FilterAnnotations a) k =
     if decide (k = last_applied) then None else truncated <$> mlookup a k) /\
  (forall k v, mlookup (FilterAnnotations a) k = Some v -> strlen v <= 1024) /\
  (forall k v, k ≠ last_applied -> mlookup a k = Some v -> strlen v <= 1024 ->
     mlookup (FilterAnnotations a) k = Some v) /\
  (FilterAnnotations a = None <-> a = None) /\
  (forall m l, a = Some m -> l ≡ₚ map_to_list m ->
     FilterAnnotations a = Some (foldl filter_annotation ∅ l)) /\
  FilterAnnotations (FilterAnnotations a) = FilterAnnotations a.
Proof.
  split_and!.
  - apply mlookup_FilterAnnotations.
  - intros k v. rewrite mlookup_FilterAnnotations. case_decide; [done|].
    intros (v' & _ & ->)%fmap_Some. rewrite strlen_truncated. lia.
  - intros k v Hk Hv Hl. rewrite mlookup_FilterAnnotations. case_decide; [done|].
    destruct (mlookup a k); [|done]. injection Hv as ->. simpl. by rewrite truncated_short.
  - by destruct a.
  - intros m l -> Hp. simpl. f_equal. apply map_eq. intros k.
    by rewrite (filter_loop_spec l m), (filter_loop_spec (map_to_list m) m).
  - destruct a as [m|]; [|done]. simpl. f_equal. apply map_eq. intros k.
    rewrite (filter_loop_spec _ _ k (Permutation_refl _)), (filter_loop_spec _ m k (Permutation_refl _)).
    case_decide; [done|]. destruct (m !! k); simpl; [|done]. by rewrite truncated_idemp.
Qed.
