(* ===== verification/ConvertNode.v ===== *)
(** * Conversion of nodes: internal/convert/node.go *)

From S2P Require Import Prelude GoNum GoStrings Cloud Model K8s ConvertHelpers.
Open Scope string_scope.
Open Scope list_scope.
Open Scope Z_scope.

(** The Ready condition decides; without one the node is not ready. *)
Fixpoint nodeReady (conditions : list Condition.t) : bool :=
  match conditions with
  | [] => false
  | c :: cs =>
      if decide (c.(Condition.Type_) = "Ready") then bool_decide (c.(Condition.Status) = "True")
      else nodeReady cs
  end.

Definition convertTaints (taints : list Taint.t) : list TaintInfo.t :=
  (fun t => TaintInfo.mk t.(Taint.Key) t.(Taint.Value) t.(Taint.Effect)) <$> taints.

Definition convertConditions (conditions : list Condition.t) : list NodeConditionInfo.t :=
  (fun c => NodeConditionInfo.mk c.(Condition.Type_) c.(Condition.Status)
              c.(Condition.Reason) c.(Condition.Message)) <$> conditions.

(** The result and the MIG devices found, [None] while there is none. *)
Definition DetectMIGResources (node : Node.t) : bool * gomap int :=
  foldl (fun '((migEnabled, migDevices) : bool * gomap int) '(rName, q) =>
           if HasPrefix rName "nvidia.com/mig-"
           then (true, Some (<[rName := q.(Quantity.Value)]> (mentries migDevices)))
           else (migEnabled, migDevices))
        (false, None) (map_to_list (mentries node.(Node.Status).(NodeStatus.Allocatable))).

Definition nvidia_gpu := "nvidia.com/gpu".
Definition region_label := "topology.kubernetes.io/region".
Definition zone_label := "topology.kubernetes.io/zone".

Definition NodeToModel (node : Node.t) : NodeInfo.t :=
  let meta := node.(Node.Meta) in
  let spec := node.(Node.Spec) in
  let status := node.(Node.Status) in
  let capacity := status.(NodeStatus.Capacity) in
  let allocatable := status.(NodeStatus.Allocatable) in
  let system := status.(NodeStatus.NodeInfo) in
  let labels := meta.(ObjectMeta.Labels) in
  let providerID := spec.(NodeSpec.ProviderID) in
  let '(instanceID, az, region) := ParseProviderID providerID in
  let region := match mlookup labels region_label with Some v => v | None => region end in
  let az := match mlookup labels zone_label with Some v => v | None => az end in
  {| NodeInfo.Name := meta.(ObjectMeta.Name);
     NodeInfo.UID := meta.(ObjectMeta.UID);
     NodeInfo.ProviderID := providerID;
     NodeInfo.InstanceID := instanceID;
     NodeInfo.InstanceType := mget "" labels "node.kubernetes.io/instance-type";
     NodeInfo.Region := region;
     NodeInfo.Zone := az;
     NodeInfo.CapacityType := ExtractCapacityType labels;
     NodeInfo.NodeGroup := ExtractNodeGroup labels;
     NodeInfo.Architecture := mget "" labels "kubernetes.io/arch";
     NodeInfo.OS := mget "" labels "kubernetes.io/os";
     NodeInfo.KubeletVersion := system.(NodeSystemInfo.KubeletVersion);
     NodeInfo.ContainerRuntime := system.(NodeSystemInfo.ContainerRuntimeVersion);
     NodeInfo.PodCIDR := spec.(NodeSpec.PodCIDR);
     NodeInfo.PodCIDRs := spec.(NodeSpec.PodCIDRs);
     NodeInfo.OSImage := system.(NodeSystemInfo.OSImage);
     NodeInfo.KernelVersion := system.(NodeSystemInfo.KernelVersion);
     NodeInfo.KubeProxyVersion := system.(NodeSystemInfo.KubeProxyVersion);
     NodeInfo.CPUCapacityCores := ParseQuantity (mget Quantity.zero capacity ResourceCPU);
     NodeInfo.MemoryCapacityBytes := quantityValue capacity ResourceMemory;
     NodeInfo.EphemeralStorageBytes := quantityValue capacity ResourceEphemeralStorage;
     NodeInfo.EphemeralStorageAllocatable := quantityValue allocatable ResourceEphemeralStorage;
     NodeInfo.PodCapacity := quantityValue capacity ResourcePods;
     NodeInfo.GPUCapacity := quantityValue capacity nvidia_gpu;
     NodeInfo.CPUAllocatable := ParseQuantity (mget Quantity.zero allocatable ResourceCPU);
     NodeInfo.MemoryAllocatable := quantityValue allocatable ResourceMemory;
     NodeInfo.PodAllocatable := quantityValue allocatable ResourcePods;
     NodeInfo.GPUAllocatable := quantityValue allocatable nvidia_gpu;
     NodeInfo.GPUModel := "";
     NodeInfo.GPUDriverVersion := "";
     NodeInfo.MIGEnabled := false;
     NodeInfo.MIGDevices := None;
     NodeInfo.GPUUtilizationPercent := None;
     NodeInfo.GPUTensorActivePercent := None;
     NodeInfo.GPUMemoryUtilPercent := None;
     NodeInfo.GPUMemoryUsedBytes := None;
     NodeInfo.GPUMemoryTotalBytes := None;
     NodeInfo.GPUTemperatureCelsius := None;
     NodeInfo.GPUPowerWatts := None;
     NodeInfo.GPUDevices := [];
     NodeInfo.CPUUsageCores := None;
     NodeInfo.MemoryUsageBytes := None;
     NodeInfo.Ready := nodeReady status.(NodeStatus.Conditions);
     NodeInfo.Unschedulable := spec.(NodeSpec.Unschedulable);
     NodeInfo.Taints := convertTaints spec.(NodeSpec.Taints);
     NodeInfo.Conditions := convertConditions status.(NodeStatus.Conditions);
     NodeInfo.Labels := labels;
     NodeInfo.Annotations := FilterAnnotations meta.(ObjectMeta.Annotations);
     NodeInfo.CreationTimestamp := unix_milli meta.(ObjectMeta.CreationTimestamp) |}.

(** ** Lemmas *)

Lemma nodeReady_spec cs :
  nodeReady cs = match find_condition "Ready" cs with
                 | Some c => bool_decide (c.(Condition.Status) = "True")
                 | None => false
                 end.
Proof.
  unfold find_condition. induction cs as [|c cs IH]; [done|]. cbn [nodeReady List.find].
  destruct (decide (Condition.Type_ c = "Ready")) as [E|E].
  - by rewrite (bool_decide_eq_true_2 _ E).
  - by rewrite (bool_decide_eq_false_2 _ E).
Qed.

(** The region and zone a node reports: its topology labels first, then what its
    provider id encodes. *)
Lemma NodeToModel_location node :
  let labels := node.(Node.Meta).(ObjectMeta.Labels) in
  let '(instanceID, az, region) := ParseProviderID node.(Node.Spec).(NodeSpec.ProviderID) in
  let info := NodeToModel node in
  info.(NodeInfo.InstanceID) = instanceID /\
  info.(NodeInfo.Zone) = default az (mlookup labels zone_label) /\
  info.(NodeInfo.Region) = default region (mlookup labels region_label).
Proof.
  intros labels. unfold NodeToModel. fold labels.
  destruct (ParseProviderID _) as [[instanceID az] region].
  cbn [NodeInfo.InstanceID NodeInfo.Region NodeInfo.Zone].
  split_and!; [done| |]; by destruct (mlookup labels _).
Qed.

(** The metadata of the object is that of its model. *)
Lemma NodeToModel_meta node :
  (NodeToModel node).(NodeInfo.Name) = node.(Node.Meta).(ObjectMeta.Name) /\
  (NodeToModel node).(NodeInfo.UID) = node.(Node.Meta).(ObjectMeta.UID).
Proof. unfold NodeToModel. by destruct (ParseProviderID _) as [[??]?]. Qed.

(** ** Properties *)

(** A node is located by its topology labels, and by its provider id where a
    label is missing (an AWS id gives zone and region, an id of no known cloud
    neither); it is ready exactly when its first Ready condition is True, and
    its usage is left to the metrics merge. *)
Theorem NodeToModel_spec (node : Node.t) :
  let labels := node.(Node.Meta).(ObjectMeta.Labels) in
  let info := NodeToModel node in
  (forall region l i, node.(Node.Spec).(NodeSpec.ProviderID) =
       "aws:///" +:+ (region +:+ String l "") +:+ "/" +:+ i ->
     IndexByte (region +:+ String l "") "/" = -1 ->
     info.(NodeInfo.InstanceID) = i /\
     info.(NodeInfo.Zone) = default (region +:+ String l "") (mlookup labels zone_label) /\
     info.(NodeInfo.Region) = default region (mlookup labels region_label)) /\
  (node.(Node.Spec).(NodeSpec.ProviderID) = "" ->
     info.(NodeInfo.InstanceID) = "" /\
     info.(NodeInfo.Zone) = mget "" labels zone_label /\
     info.(NodeInfo.Region) = mget "" labels region_label) /\
  info.(NodeInfo.Ready) =
    match find_condition "Ready" node.(Node.Status).(NodeStatus.Conditions) with
    | Some c => bool_decide (c.(Condition.Status) = "True")
    | None => false
    end /\
  info.(NodeInfo.CPUUsageCores) = None /\ info.(NodeInfo.MemoryUsageBytes) = None.
Proof.
  intros labels info. pose proof (NodeToModel_location node) as H. fold labels info in H.
  split_and!.
  - intros region l i Hid Hz. rewrite Hid, ParseProviderID_aws in H by done. exact H.
  - intros Hid. rewrite Hid in H. exact H.
  - rewrite <- nodeReady_spec. unfold info, NodeToModel. by destruct (ParseProviderID _) as [[??]?].
  - unfold info, NodeToModel. by destruct (ParseProviderID _) as [[??]?].
  - unfold info, NodeToModel. by destruct (ParseProviderID _) as [[??]?].
Qed.
