(* ===== verification/ConvertPod.v ===== *)
(** * Conversion of pods: internal/convert/pod.go

    The spec lists the containers, the statuses are matched to it by name. *)

From S2P Require Import Prelude GoNum GoStrings Model K8s ConvertHelpers ConvertNode.
Open Scope string_scope.
Open Scope list_scope.
Open Scope Z_scope.

Definition buildStatusMap (statuses : list ContainerStatus.t) : gmap string ContainerStatus.t :=
  index_by ContainerStatus.Name statuses.

Definition convertContainerPorts (ports : list ContainerPort.t) : list ContainerPortInfo.t :=
  (fun p => ContainerPortInfo.mk p.(ContainerPort.Name) p.(ContainerPort.ContainerPort)
              p.(ContainerPort.Protocol)) <$> ports.

(** State, reason, message and exit code of a status: the switch over the
    pointers of [status.State], in its order. *)
Definition container_state (s : ContainerState.t) : string * string * string * option int32 :=
  if s.(ContainerState.Running) then ("running", "", "", None)
  else match s.(ContainerState.Waiting) with
       | Some w => ("waiting", w.(ContainerStateWaiting.Reason), w.(ContainerStateWaiting.Message), None)
       | None =>
           match s.(ContainerState.Terminated) with
           | Some t => ("terminated", t.(ContainerStateTerminated.Reason),
                        t.(ContainerStateTerminated.Message), Some t.(ContainerStateTerminated.ExitCode))
           | None => ("", "", "", None)
           end
       end.

Definition containerToModel (status : ContainerStatus.t) (spec : Container.t) (hasStatus : bool) :
    ContainerInfo.t :=
  let requests := spec.(Container.Requests) in
  let limits := spec.(Container.Limits) in
  let '(state, reason, message, exitCode) :=
    if hasStatus then container_state status.(ContainerStatus.State) else ("waiting", "", "", None) in
  {| ContainerInfo.Name := spec.(Container.Name);
     ContainerInfo.Image := spec.(Container.Image);
     ContainerInfo.ImageID := if hasStatus then status.(ContainerStatus.ImageID) else "";
     ContainerInfo.CPURequestCores := ParseQuantity (resourceQuantity requests ResourceCPU);
     ContainerInfo.MemoryRequestBytes := quantityValue requests ResourceMemory;
     ContainerInfo.CPULimitCores := ParseQuantity (resourceQuantity limits ResourceCPU);
     ContainerInfo.MemoryLimitBytes := quantityValue limits ResourceMemory;
     ContainerInfo.EphemeralStorageRequest := quantityValue requests ResourceEphemeralStorage;
     ContainerInfo.EphemeralStorageLimit := quantityValue limits ResourceEphemeralStorage;
     ContainerInfo.GPURequest := quantityValue requests nvidia_gpu;
     ContainerInfo.GPULimit := quantityValue limits nvidia_gpu;
     ContainerInfo.CPUUsageCores := None;
     ContainerInfo.MemoryUsageBytes := None;
     ContainerInfo.GPUUtilizationPercent := None;
     ContainerInfo.GPUMemoryUsedBytes := None;
     ContainerInfo.Ready := hasStatus && status.(ContainerStatus.Ready);
     ContainerInfo.Started := if hasStatus then status.(ContainerStatus.Started) else None;
     ContainerInfo.RestartCount := if hasStatus then status.(ContainerStatus.RestartCount) else 0;
     ContainerInfo.State := state;
     ContainerInfo.StateReason := reason;
     ContainerInfo.StateMessage := message;
     ContainerInfo.LastTerminationReason :=
       if hasStatus then
         match status.(ContainerStatus.LastTerminationState).(ContainerState.Terminated) with
         | Some t => t.(ContainerStateTerminated.Reason)
         | None => ""
         end
       else "";
     ContainerInfo.ExitCode := exitCode;
     ContainerInfo.Ports := convertContainerPorts spec.(Container.Ports) |}.

Definition convertContainers (specs : list Container.t) (statusMap : gmap string ContainerStatus.t) :
    list ContainerInfo.t :=
  (fun spec => match statusMap !! spec.(Container.Name) with
               | Some status => containerToModel status spec true
               | None => containerToModel ContainerStatus.zero spec false
               end) <$> specs.

Definition hasHostPathVolume (volumes : list Volume.t) : bool := existsb Volume.HostPath volumes.

Definition hasEmptyDirVolume (volumes : list Volume.t) : bool := existsb Volume.EmptyDir volumes.

Definition convertPodConditions (conditions : list Condition.t) : list PodConditionInfo.t :=
  (fun c => PodConditionInfo.mk c.(Condition.Type_) c.(Condition.Status)
              c.(Condition.Reason) c.(Condition.Message)) <$> conditions.

(** Kind, name and UID of the first owner reference, empty without one. *)
Definition first_owner (owners : list OwnerReference.t) : string * string * string :=
  match owners with
  | o :: _ => (o.(OwnerReference.Kind), o.(OwnerReference.Name), o.(OwnerReference.UID))
  | [] => ("", "", "")
  end.

Definition PodToModel (pod : Pod.t) : PodInfo.t :=
  let meta := pod.(Pod.Meta) in
  let spec := pod.(Pod.Spec) in
  let status := pod.(Pod.Status) in
  let '(ownerKind, ownerName, ownerUID) := first_owner meta.(ObjectMeta.OwnerReferences) in
  let statusMap := buildStatusMap status.(PodStatus.ContainerStatuses) in
  let initStatusMap := buildStatusMap status.(PodStatus.InitContainerStatuses) in
  {| PodInfo.Name := meta.(ObjectMeta.Name);
     PodInfo.UID := meta.(ObjectMeta.UID);
     PodInfo.Namespace := meta.(ObjectMeta.Namespace);
     PodInfo.NodeName := spec.(PodSpec.NodeName);
     PodInfo.Phase := status.(PodStatus.Phase);
     PodInfo.Reason := status.(PodStatus.Reason);
     PodInfo.QoSClass := status.(PodStatus.QOSClass);
     PodInfo.OwnerKind := ownerKind;
     PodInfo.OwnerName := ownerName;
     PodInfo.OwnerUID := ownerUID;
     PodInfo.Containers := convertContainers spec.(PodSpec.Containers) statusMap;
     PodInfo.InitContainers := convertContainers spec.(PodSpec.InitContainers) initStatusMap;
     PodInfo.Labels := meta.(ObjectMeta.Labels);
     PodInfo.Annotations := FilterAnnotations meta.(ObjectMeta.Annotations);
     PodInfo.CreationTimestamp := unix_milli meta.(ObjectMeta.CreationTimestamp);
     PodInfo.PriorityClassName := spec.(PodSpec.PriorityClassName);
     PodInfo.Priority := spec.(PodSpec.Priority);
     PodInfo.SchedulerName := spec.(PodSpec.SchedulerName);
     PodInfo.ServiceAccountName := spec.(PodSpec.ServiceAccountName);
     PodInfo.PodIP := status.(PodStatus.PodIP);
     PodInfo.HostIP := status.(PodStatus.HostIP);
     PodInfo.HostNetwork := spec.(PodSpec.HostNetwork);
     PodInfo.HasHostPath := hasHostPathVolume spec.(PodSpec.Volumes);
     PodInfo.HasEmptyDir := hasEmptyDirVolume spec.(PodSpec.Volumes);
     PodInfo.Conditions := convertPodConditions status.(PodStatus.Conditions) |}.

(** ** Reference definitions *)

(** The status of a container: the last one under its name. *)
Definition status_of (statuses : list ContainerStatus.t) (spec : Container.t) : option ContainerStatus.t :=
  last (filter (fun s => s.(ContainerStatus.Name) = spec.(Container.Name)) statuses).

(** ** Lemmas *)

Lemma PodToModel_meta pod :
  (PodToModel pod).(PodInfo.Name) = pod.(Pod.Meta).(ObjectMeta.Name) /\
  (PodToModel pod).(PodInfo.Namespace) = pod.(Pod.Meta).(ObjectMeta.Namespace) /\
  (PodToModel pod).(PodInfo.UID) = pod.(Pod.Meta).(ObjectMeta.UID).
Proof. unfold PodToModel. by destruct (first_owner _) as [[??]?]. Qed.

Lemma PodToModel_containers pod :
  (PodToModel pod).(PodInfo.Containers) =
    convertContainers pod.(Pod.Spec).(PodSpec.Containers)
      (buildStatusMap pod.(Pod.Status).(PodStatus.ContainerStatuses)).
Proof. unfold PodToModel. by destruct (first_owner _) as [[??]?]. Qed.

(** The resources of a converted container are its spec's, whatever its status. *)
Lemma containerToModel_resources status spec hasStatus :
  let c := containerToModel status spec hasStatus in
  c.(ContainerInfo.Name) = spec.(Container.Name) /\
  c.(ContainerInfo.CPURequestCores) = ParseQuantity (resourceQuantity spec.(Container.Requests) ResourceCPU) /\
  c.(ContainerInfo.MemoryRequestBytes) = quantityValue spec.(Container.Requests) ResourceMemory /\
  c.(ContainerInfo.CPUUsageCores) = None /\ c.(ContainerInfo.MemoryUsageBytes) = None.
Proof. unfold containerToModel. by destruct (if hasStatus then _ else _) as [[[??]?]?]. Qed.

Lemma container_state_running s : (container_state s).1.1.1 = "running" <-> s.(ContainerState.Running) = true.
Proof.
  unfold container_state. destruct (ContainerState.Running s); [done|].
  destruct (ContainerState.Waiting s); [done|]. by destruct (ContainerState.Terminated s).
Qed.

Lemma container_state_exit s code :
  (container_state s).2 = Some code <->
    s.(ContainerState.Running) = false /\ s.(ContainerState.Waiting) = None /\
    ContainerStateTerminated.ExitCode <$> s.(ContainerState.Terminated) = Some code.
Proof.
  unfold container_state.
  destruct (ContainerState.Running s), (ContainerState.Waiting s), (ContainerState.Terminated s);
    simpl; split; (by intros [= <-]) || by intros (? & ? & ?).
Qed.

(** ** Properties *)

(** C15 A converted pod has one container per container of its spec, in order,
    under the spec's name and image, with the last status reported under that
    name: running exactly when the status says so, an exit code exactly when it
    is terminated and neither running nor waiting.  A container without a status
    is waiting, not ready, with no restarts; no container has usage yet.  The
    owner is the first owner reference. *)
Theorem PodToModel_spec (pod : Pod.t) :
  let info := PodToModel pod in
  let statuses := pod.(Pod.Status).(PodStatus.ContainerStatuses) in
  length info.(PodInfo.Containers) = length pod.(Pod.Spec).(PodSpec.Containers) /\
  (forall i spec, pod.(Pod.Spec).(PodSpec.Containers) !! i = Some spec ->
     exists c, info.(PodInfo.Containers) !! i = Some c /\
       c.(ContainerInfo.Name) = spec.(Container.Name) /\
       c.(ContainerInfo.Image) = spec.(Container.Image) /\
       c.(ContainerInfo.CPUUsageCores) = None /\ c.(ContainerInfo.MemoryUsageBytes) = None /\
       match status_of statuses spec with
       | None => c.(ContainerInfo.State) = "waiting" /\ c.(ContainerInfo.Ready) = false /\
           c.(ContainerInfo.RestartCount) = 0 /\ c.(ContainerInfo.ExitCode) = None
       | Some s =>
           let state := s.(ContainerStatus.State) in
           c.(ContainerInfo.Ready) = s.(ContainerStatus.Ready) /\
           c.(ContainerInfo.RestartCount) = s.(ContainerStatus.RestartCount) /\
           (c.(ContainerInfo.State) = "running" <-> state.(ContainerState.Running) = true) /\
           (forall code, c.(ContainerInfo.ExitCode) = Some code <->
              state.(ContainerState.Running) = false /\ state.(ContainerState.Waiting) = None /\
              ContainerStateTerminated.ExitCode <$> state.(ContainerState.Terminated) = Some code)
       end) /\
  match pod.(Pod.Meta).(ObjectMeta.OwnerReferences) with
  | o :: _ => info.(PodInfo.OwnerKind) = o.(OwnerReference.Kind) /\
              info.(PodInfo.OwnerName) = o.(OwnerReference.Name) /\
              info.(PodInfo.OwnerUID) = o.(OwnerReference.UID)
  | [] => info.(PodInfo.OwnerKind) = "" /\ info.(PodInfo.OwnerName) = "" /\ info.(PodInfo.OwnerUID) = ""
  end.
Proof.
  intros info statuses. unfold info. rewrite PodToModel_containers. split_and!.
  - apply length_fmap.
  - intros i spec Hi. unfold convertContainers. rewrite list_lookup_fmap, Hi. eexists. split; [done|].
    unfold buildStatusMap. rewrite index_by_last. fold statuses. fold (status_of statuses spec).
    destruct (status_of statuses spec) as [s|]; unfold containerToModel; [|done].
    pose proof (container_state_running s.(ContainerStatus.State)) as Hr.
    pose proof (container_state_exit s.(ContainerStatus.State)) as He.
    by destruct (container_state _) as [[[??]?]?].
  - unfold PodToModel. by destruct (ObjectMeta.OwnerReferences _).
Qed.
