(* ===== verification/Dcgm.v ===== *)
(** * GPU metrics: internal/collector/gpu/{types,parser,api,collector}.go

    The parser of the Prometheus text a dcgm-exporter serves, the client that
    scrapes a list of endpoints, and the polling collector's state.  Text is a
    string of bytes; scraping one endpoint over HTTP is a parameter here and the
    function of Scraper.v in the whole. *)

From S2P Require Import Prelude GoNum GoStrings Model Store.
Open Scope string_scope.
Open Scope list_scope.
Open Scope Z_scope.

Module GPUDeviceMetrics.
Record t := mk {
  GPU : string;
  UUID : string;
  Device : string;
  ModelName : string;
  DriverVersion : string;
  Hostname : string;
  PodName : string;
  Namespace : string;
  ContainerName : string;
  MIGEnabled : option bool;
  GPUInstanceID : string;
  GPUProfile : string;
  GPUUtilization : option float64;
  TensorActivePercent : option float64;
  MemCopyUtilPercent : option float64;
  MemoryUsedBytes : option int64;
  MemoryFreeBytes : option int64;
  MemoryTotalBytes : option int64;
  Temperature : option float64;
  PowerUsage : option float64;
  Timestamp : int64 }.
#[export] Instance eta : Eta t := fun r => mk r.(GPU) r.(UUID) r.(Device) r.(ModelName)
  r.(DriverVersion) r.(Hostname) r.(PodName) r.(Namespace) r.(ContainerName) r.(MIGEnabled)
  r.(GPUInstanceID) r.(GPUProfile) r.(GPUUtilization) r.(TensorActivePercent)
  r.(MemCopyUtilPercent) r.(MemoryUsedBytes) r.(MemoryFreeBytes) r.(MemoryTotalBytes)
  r.(Temperature) r.(PowerUsage) r.(Timestamp).
End GPUDeviceMetrics.
Export (hints) GPUDeviceMetrics.

Definition sentinelThreshold : float64 := f64_of_Z (10 ^ 15).

Definition mibToBytes : float64 := f64_of_Z 1048576.

Definition metricProfGrEngineActive := "DCGM_FI_PROF_GR_ENGINE_ACTIVE".

Definition metricProfTensorActive := "DCGM_FI_PROF_PIPE_TENSOR_ACTIVE".

Definition metricDevMemCopyUtil := "DCGM_FI_DEV_MEM_COPY_UTIL".

Definition metricDevGPUUtil := "DCGM_FI_DEV_GPU_UTIL".

Definition metricDevFBUsed := "DCGM_FI_DEV_FB_USED".

Definition metricDevFBFree := "DCGM_FI_DEV_FB_FREE".

Definition metricDevFBTotal := "DCGM_FI_DEV_FB_TOTAL".

Definition metricDevGPUTemp := "DCGM_FI_DEV_GPU_TEMP".

Definition metricDevPowerUsage := "DCGM_FI_DEV_POWER_USAGE".

Definition metricDevMIGMode := "DCGM_FI_DEV_MIG_MODE".

Module dcgmLabels.
Record t := mk {
  gpu : string;
  uuid : string;
  device : string;
  modelName : string;
  driverVersion : string;
  hostname : string;
  podName : string;
  namespace : string;
  containerName : string;
  gpuInstanceID : string;
  gpuProfile : string }.
#[export] Instance eta : Eta t := fun r => mk r.(gpu) r.(uuid) r.(device) r.(modelName)
  r.(driverVersion) r.(hostname) r.(podName) r.(namespace) r.(containerName)
  r.(gpuInstanceID) r.(gpuProfile).
Definition zero : t := mk "" "" "" "" "" "" "" "" "" "" "".
End dcgmLabels.
Export (hints) dcgmLabels.

Module parsedSample.
Record t := mk { name : string; labels : dcgmLabels.t; value : float64 }.
End parsedSample.

(** ** Lines and labels *)

Definition dquote : ascii := "034"%char.

Definition newline : ascii := "010"%char.

Definition backslash : ascii := "\"%char.

(** A quoted value up to its closing quote, escapes resolved, and the text
    after the quote; without a closing quote, everything. *)
Fixpoint label_value (s : string) : string * string :=
  match s with
  | EmptyString => ("", "")
  | String c r =>
      if decide (c = backslash) then
        match r with
        | String e r' =>
            let '(v, rest) := label_value r' in
            (if decide (e = dquote) then String dquote v
             else if decide (e = backslash) then String backslash v
             else if decide (e = "n"%char) then String newline v
             else String backslash (String e v), rest)
        | EmptyString => (String c "", "")
        end
      else if decide (c = dquote) then ("", r)
      else let '(v, rest) := label_value r in (String c v, rest)
  end.

(** The switch that maps a label to a field of the sample. *)
Definition set_label (l : dcgmLabels.t) (key value : string) : dcgmLabels.t :=
  if decide (key = "gpu") then l <| dcgmLabels.gpu := value |>
  else if decide (key = "UUID" \/ key = "uuid") then l <| dcgmLabels.uuid := value |>
  else if decide (key = "device") then l <| dcgmLabels.device := value |>
  else if decide (key = "modelName") then l <| dcgmLabels.modelName := value |>
  else if decide (key = "DCGM_FI_DRIVER_VERSION") then l <| dcgmLabels.driverVersion := value |>
  else if decide (key = "Hostname") then l <| dcgmLabels.hostname := value |>
  else if decide (key = "pod") then l <| dcgmLabels.podName := value |>
  else if decide (key = "namespace") then l <| dcgmLabels.namespace := value |>
  else if decide (key = "container") then l <| dcgmLabels.containerName := value |>
  else if decide (key = "pod_name") then
    if decide (dcgmLabels.podName l = "") then l <| dcgmLabels.podName := value |> else l
  else if decide (key = "pod_namespace") then
    if decide (dcgmLabels.namespace l = "") then l <| dcgmLabels.namespace := value |> else l
  else if decide (key = "container_name") then
    if decide (dcgmLabels.containerName l = "") then l <| dcgmLabels.containerName := value |> else l
  else if decide (key = "GPU_I_ID") then l <| dcgmLabels.gpuInstanceID := value |>
  else if decide (key = "GPU_I_PROFILE") then l <| dcgmLabels.gpuProfile := value |>
  else l.

(** The loop of [parseLabels]; every round consumes at least the ['=']. *)
Fixpoint parseLabels_loop (fuel : nat) (l : dcgmLabels.t) (s : string) : dcgmLabels.t :=
  match fuel with
  | O => l
  | S fuel =>
      if decide (s = "") then l else
      let eq := IndexByte s "=" in
      if eq <? 0 then l else
      let key := slice_to s eq in
      match slice_from s (eq + 1) with
      | String q r =>
          if decide (q = dquote) then
            let '(value, s) := label_value r in
            let s := match s with String ","%char s => s | _ => s end in
            parseLabels_loop fuel (set_label l key value) s
          else l
      | EmptyString => l
      end
  end.

Definition parseLabels (s : string) : dcgmLabels.t :=
  parseLabels_loop (String.length s) dcgmLabels.zero s.

(** [None] is [ok = false]. *)
Definition parseSampleLine (line : string) : option parsedSample.t :=
  let braceStart := IndexByte line "{" in
  if braceStart <? 0 then
    match Fields line with
    | name :: v :: _ =>
        match ParseFloat v with
        | Some v => Some (parsedSample.mk name dcgmLabels.zero v)
        | None => None
        end
    | _ => None
    end
  else
    let name := slice_to line braceStart in
    let braceEnd := LastIndex line "}" in
    if braceEnd <=? braceStart then None else
    let labels := parseLabels (slice_to (slice_from line (braceStart + 1)) (braceEnd - (braceStart + 1))) in
    match Fields (TrimSpace (slice_from line (braceEnd + 1))) with
    | v :: _ =>
        match ParseFloat v with
        | Some v => Some (parsedSample.mk name labels v)
        | None => None
        end
    | [] => None
    end.

(** [bufio.Scanner] on lines: the text after the last newline counts when it is
    not empty, and a line of 64 KiB or more ends the scan. *)
Definition maxLine : int := 65536.

Fixpoint scan_lines (ps : list string) : list string :=
  match ps with
  | [] => []
  | [p] => if decide (p = "") then [] else if strlen p <? maxLine then [p] else []
  | p :: ps => if strlen p <? maxLine then p :: scan_lines ps else []
  end.

Definition parsePrometheusText (data : string) : list parsedSample.t :=
  foldl (fun samples text =>
           let line := TrimSpace text in
           match line with
           | EmptyString | String "#"%char _ => samples
           | _ => match parseSampleLine line with
                  | Some s => samples ++ [s]
                  | None => samples
                  end
           end)
        [] (scan_lines (Split data newline)).

(** ** Samples to devices *)

Definition isSentinel (v : float64) : bool := f64_ltb sentinelThreshold v.

Definition newGPU (l : dcgmLabels.t) : GPUDeviceMetrics.t :=
  GPUDeviceMetrics.mk l.(dcgmLabels.gpu) l.(dcgmLabels.uuid) l.(dcgmLabels.device)
    l.(dcgmLabels.modelName) l.(dcgmLabels.driverVersion) l.(dcgmLabels.hostname)
    l.(dcgmLabels.podName) l.(dcgmLabels.namespace) l.(dcgmLabels.containerName) None
    l.(dcgmLabels.gpuInstanceID) l.(dcgmLabels.gpuProfile) None None None None None None None None 0.

(** The device of a key, created from the sample's labels when there is none;
    the caller stores the device it updates under the key. *)
Definition getOrCreateGPU (gpus : gmap string GPUDeviceMetrics.t) (key : string)
    (labels : dcgmLabels.t) : GPUDeviceMetrics.t :=
  match gpus !! key with Some g => g | None => newGPU labels end.

Definition mib (v : float64) : int64 := int64_of_f64 (f64_mul v mibToBytes).

(** The switch on the metric's name: the device, and whether the sample is a
    profiling one ([hasProf[key] = true]). *)
Definition apply_sample (prof : bool) (name : string) (v : float64) (g : GPUDeviceMetrics.t) :
    GPUDeviceMetrics.t * bool :=
  if isSentinel v then (g, prof)
  else if decide (name = metricProfGrEngineActive) then
    (g <| GPUDeviceMetrics.GPUUtilization := Some (f64_mul v (f64_of_Z 100)) |>, true)
  else if decide (name = metricDevGPUUtil) then
    (if prof then g else g <| GPUDeviceMetrics.GPUUtilization := Some v |>, prof)
  else if decide (name = metricProfTensorActive) then
    (g <| GPUDeviceMetrics.TensorActivePercent := Some (f64_mul v (f64_of_Z 100)) |>, prof)
  else if decide (name = metricDevMemCopyUtil) then
    (g <| GPUDeviceMetrics.MemCopyUtilPercent := Some v |>, prof)
  else if decide (name = metricDevFBUsed) then
    (g <| GPUDeviceMetrics.MemoryUsedBytes := Some (mib v) |>, prof)
  else if decide (name = metricDevFBFree) then
    (g <| GPUDeviceMetrics.MemoryFreeBytes := Some (mib v) |>, prof)
  else if decide (name = metricDevFBTotal) then
    (g <| GPUDeviceMetrics.MemoryTotalBytes := Some (mib v) |>, prof)
  else if decide (name = metricDevGPUTemp) then
    (g <| GPUDeviceMetrics.Temperature := Some v |>, prof)
  else if decide (name = metricDevPowerUsage) then
    (g <| GPUDeviceMetrics.PowerUsage := Some v |>, prof)
  else if decide (name = metricDevMIGMode) then
    (g <| GPUDeviceMetrics.MIGEnabled := Some (f64_eqb v (f64_of_Z 1)) |>, prof)
  else (g, prof).

(** The key of a sample's device: the UUID, or the index without one. *)
Definition sample_key (s : parsedSample.t) : string :=
  let l := s.(parsedSample.labels) in
  if decide (l.(dcgmLabels.uuid) = "") then l.(dcgmLabels.gpu) else l.(dcgmLabels.uuid).

Definition device_state : Type := gmap string GPUDeviceMetrics.t * gmap string bool.

(** One round of the loop over the samples. *)
Definition sample_step (st : device_state) (s : parsedSample.t) : device_state :=
  let '(gpus, hasProf) := st in
  let l := s.(parsedSample.labels) in
  if decide (l.(dcgmLabels.uuid) = "" /\ l.(dcgmLabels.gpu) = "") then st else
  let key := sample_key s in
  let '(g, prof) := apply_sample (default false (hasProf !! key)) s.(parsedSample.name)
                      s.(parsedSample.value) (getOrCreateGPU gpus key l) in
  (<[key := g]> gpus, if prof then <[key := true]> hasProf else hasProf).

(** Without a total, the total is what is used plus what is free. *)
Definition fill_total (g : GPUDeviceMetrics.t) : GPUDeviceMetrics.t :=
  match g.(GPUDeviceMetrics.MemoryTotalBytes), g.(GPUDeviceMetrics.MemoryUsedBytes),
        g.(GPUDeviceMetrics.MemoryFreeBytes) with
  | None, Some used, Some free => g <| GPUDeviceMetrics.MemoryTotalBytes := Some (add64 used free) |>
  | _, _, _ => g
  end.

(** The error [ParseDCGMMetrics] returns is always nil. *)
Definition ParseDCGMMetrics (o : RangeOrder) (data : string) : list GPUDeviceMetrics.t :=
  let '(gpus, _) := foldl sample_step (∅, ∅) (parsePrometheusText data) in
  fill_total <$> (range o gpus).*2.

(** ** Scraping and polling *)

Section Scraping.
Context (scrapeEndpoint : string -> option string) (o : RangeOrder).

(** [dcgmExporterClient.ScrapeGPUMetrics]: an endpoint that fails is skipped. *)
Definition ScrapeGPUMetrics (endpoints : list string) : option (list GPUDeviceMetrics.t) :=
  Some (foldl (fun allMetrics endpoint =>
                 match scrapeEndpoint endpoint with
                 | None => allMetrics
                 | Some body => allMetrics ++ ParseDCGMMetrics o body
                 end) [] endpoints).
End Scraping.

Module GPUMetricsCollector.
Record t := mk {
  metrics : list GPUDeviceMetrics.t;
  scrapeTotal : int64;
  scrapeFailed : int64;
  lastTargets : int64;
  lastUpTargets : int64 }.
#[export] Instance eta : Eta t := fun r => mk r.(metrics) r.(scrapeTotal) r.(scrapeFailed)
  r.(lastTargets) r.(lastUpTargets).

Definition NewGPUMetricsCollector : t := mk [] 0 0 0 0.

Definition GetGPUMetrics (c : t) : list GPUDeviceMetrics.t := c.(metrics).

(** [c.poll]: [endpoints] is what [endpointsFn] returns, [api] the metrics API
    ([None] for an error), [now] the clock after a successful scrape. *)
Definition poll (api : list string -> option (list GPUDeviceMetrics.t)) (endpoints : list string)
    (now : Time) (c : t) : t :=
  if golen endpoints =? 0 then c <| lastTargets := 0 |> <| lastUpTargets := 0 |>
  else
    let c := c <| lastTargets := golen endpoints |>
               <| scrapeTotal := add64 c.(scrapeTotal) (golen endpoints) |> in
    match api endpoints with
    | None => c <| scrapeFailed := add64 c.(scrapeFailed) (golen endpoints) |>
                <| lastUpTargets := 0 |>
    | Some ms =>
        c <| lastUpTargets := golen endpoints |>
          <| metrics := (fun m => m <| GPUDeviceMetrics.Timestamp := unix_milli now |>) <$> ms |>
    end.

Definition APICallStats (c : t) : int64 * int64 := (c.(scrapeTotal), c.(scrapeFailed)).

Definition DCGMTargetStats (c : t) : int * int := (c.(lastTargets), c.(lastUpTargets)).

(** [IsHealthy]: unhealthy when [done] is closed and [stopCh] is not. *)
Definition IsHealthy (done_closed stop_closed : bool) : bool * string :=
  if done_closed && negb stop_closed
  then (false, "GPU metrics polling goroutine exited unexpectedly")
  else (true, "").
End GPUMetricsCollector.
Export (hints) GPUMetricsCollector.

(** ** The text an exporter writes *)

(** The escaping of the exposition format. *)
Fixpoint escape_value (v : string) : string :=
  match v with
  | EmptyString => ""
  | String c v =>
      if decide (c = dquote) then String backslash (String dquote (escape_value v))
      else if decide (c = backslash) then String backslash (String backslash (escape_value v))
      else if decide (c = newline) then String backslash (String "n"%char (escape_value v))
      else String c (escape_value v)
  end.

Definition render_label (kv : string * string) : string :=
  kv.1 +:+ String "="%char (String dquote (escape_value kv.2 +:+ String dquote "")).

Fixpoint render_labels (kvs : list (string * string)) : string :=
  match kvs with
  | [] => ""
  | [kv] => render_label kv
  | kv :: kvs => render_label kv +:+ String ","%char (render_labels kvs)
  end.

Example parse_line_ex :
  parseSampleLine ("DCGM_FI_DEV_FB_USED{" +:+ render_labels [("gpu", "0"); ("modelName", "A\B")] +:+ "} 2 1700") =
    Some (parsedSample.mk metricDevFBUsed
            (dcgmLabels.zero <| dcgmLabels.gpu := "0" |> <| dcgmLabels.modelName := "A\B" |>)
            (f64_of_Z 2)).
Proof. vm_compute. reflexivity. Qed.

(** ** Lemmas on labels *)

Lemma label_value_escape v r : label_value (escape_value v +:+ String dquote r) = (v, r).
Proof.
  induction v as [|c v IH]; [done|]. simpl escape_value.
  destruct (decide (c = dquote)) as [->|Hq].
  - change (label_value (String backslash (String dquote (escape_value v +:+ String dquote r)))
      = (String dquote v, r)). simpl. by rewrite IH.
  - destruct (decide (c = backslash)) as [->|Hb].
    + change (label_value (String backslash (String backslash (escape_value v +:+ String dquote r)))
        = (String backslash v, r)). simpl. by rewrite IH.
    + destruct (decide (c = newline)) as [->|Hn].
      * change (label_value (String backslash (String "n"%char (escape_value v +:+ String dquote r)))
          = (String newline v, r)). simpl. by rewrite IH.
      * simpl. rewrite (decide_False (P := c = backslash)), (decide_False (P := c = dquote)) by done.
        by rewrite IH.
Qed.

Lemma parseLabels_step fuel l k v rest :
  IndexByte k "=" = -1 ->
  parseLabels_loop (S fuel) l (k +:+ String "="%char (String dquote (escape_value v +:+ String dquote rest))) =
    parseLabels_loop fuel (set_label l k v) (match rest with String ","%char s => s | s => s end).
Proof.
  intros Hk. cbn [parseLabels_loop].
  rewrite decide_False by (by destruct k).
  rewrite IndexByte_app by done.
  rewrite (proj2 (Z.ltb_ge _ _)) by (unfold strlen; lia).
  rewrite slice_to_app, slice_from_app, decide_True, label_value_escape by done.
  by destruct rest.
Qed.

Lemma length_render_labels kvs : (length kvs <= String.length (render_labels kvs))%nat.
Proof.
  assert (forall kv, 1 <= String.length (render_label kv))%nat as H1.
  { intros kv. unfold render_label. rewrite length_append. cbn [String.length]. lia. }
  induction kvs as [|kv [|kv' kvs] IH]; [done|apply H1|].
  change (render_labels (kv :: kv' :: kvs)) with
    (render_label kv +:+ String ","%char (render_labels (kv' :: kvs))).
  rewrite length_append. specialize (H1 kv). cbn [length String.length] in *. lia.
Qed.

Lemma parseLabels_loop_render fuel l kvs :
  (length kvs <= fuel)%nat -> Forall (fun kv => IndexByte kv.1 "=" = -1) kvs ->
  parseLabels_loop fuel l (render_labels kvs) = foldl (fun l kv => set_label l kv.1 kv.2) l kvs.
Proof.
  revert fuel l. induction kvs as [|[k v] kvs IH]; intros fuel l Hf Hk.
  { by destruct fuel. }
  apply Forall_cons in Hk as [Hk Hks]. destruct fuel as [|fuel]; [simpl in Hf; lia|].
  specialize (IH fuel (set_label l k v) ltac:(simpl in Hf; lia) Hks). simpl foldl. rewrite <- IH.
  destruct kvs as [|kv' kvs].
  - change (render_labels [(k, v)]) with
      (k +:+ String "="%char (String dquote (escape_value v +:+ String dquote ""))).
    by rewrite parseLabels_step.
  - change (render_labels ((k, v) :: kv' :: kvs)) with
      ((k +:+ String "="%char (String dquote (escape_value v +:+ String dquote "")))
         +:+ String ","%char (render_labels (kv' :: kvs))).
    replace ((k +:+ _) +:+ _) with (k +:+ String "="%char (String dquote
      (escape_value v +:+ String dquote (String ","%char (render_labels (kv' :: kvs)))))).
    + by rewrite parseLabels_step.
    + rewrite append_assoc. apply (f_equal (fun x => k +:+ String "="%char (String dquote x))).
      symmetry. apply append_assoc.
Qed.

(** ** Lemmas on devices *)

(** The values of the non-sentinel samples of one metric of one device. *)
Definition values_of (name key : string) (ss : list parsedSample.t) : list float64 :=
  omap (fun s => if decide (sample_key s = key /\ s.(parsedSample.name) = name) then
                   if isSentinel s.(parsedSample.value) then None else Some s.(parsedSample.value)
                 else None) ss.

Lemma values_of_snoc name key ss s :
  values_of name key (ss ++ [s]) =
    values_of name key ss ++
      (if decide (sample_key s = key /\ s.(parsedSample.name) = name) then
         if isSentinel s.(parsedSample.value) then [] else [s.(parsedSample.value)] else []).
Proof.
  unfold values_of. rewrite omap_app. f_equal. cbn [omap list_omap].
  destruct (decide _); [|done]. by destruct (isSentinel _).
Qed.

#[global] Opaque f64_of_Z f64_mul f64_ltb f64_eqb int64_of_f64.

(** What the loop knows of one device after the samples [ss]. *)
Definition utilization (key : string) (ss : list parsedSample.t) : option float64 :=
  match last (values_of metricProfGrEngineActive key ss) with
  | Some v => Some (f64_mul v (f64_of_Z 100))
  | None => last (values_of metricDevGPUUtil key ss)
  end.

Lemma apply_sample_util prof name v g :
  GPUDeviceMetrics.GPUUtilization (apply_sample prof name v g).1 =
    (if isSentinel v then GPUDeviceMetrics.GPUUtilization g
     else if decide (name = metricProfGrEngineActive) then Some (f64_mul v (f64_of_Z 100))
     else if decide (name = metricDevGPUUtil) then
       if prof then GPUDeviceMetrics.GPUUtilization g else Some v
     else GPUDeviceMetrics.GPUUtilization g) /\
  (apply_sample prof name v g).2 =
    (if isSentinel v then prof else if decide (name = metricProfGrEngineActive) then true else prof).
Proof.
  unfold apply_sample. destruct (isSentinel v); [done|].
  destruct (decide (name = metricProfGrEngineActive)); [done|].
  destruct (decide (name = metricDevGPUUtil)); [by destruct prof|].
  by repeat destruct (decide (name = _)).
Qed.

Lemma utilization_snoc key ss s :
  utilization key (ss ++ [s]) =
    if decide (sample_key s = key) then
      let v := s.(parsedSample.value) in
      if isSentinel v then utilization key ss
      else if decide (s.(parsedSample.name) = metricProfGrEngineActive) then
        Some (f64_mul v (f64_of_Z 100))
      else if decide (s.(parsedSample.name) = metricDevGPUUtil) then
        if decide (values_of metricProfGrEngineActive key ss = []) then Some v
        else utilization key ss
      else utilization key ss
    else utilization key ss.
Proof.
  unfold utilization. rewrite !values_of_snoc.
  destruct (decide (sample_key s = key)) as [Hk|Hk].
  2: { rewrite !(decide_False (P := sample_key s = key /\ _)) by tauto. by rewrite !app_nil_r. }
  cbv zeta. destruct (isSentinel _).
  { by repeat case_decide; rewrite !app_nil_r. }
  destruct (decide (parsedSample.name s = metricProfGrEngineActive)) as [Hp|Hp].
  { by rewrite decide_True, last_snoc. }
  rewrite (decide_False (P := _ /\ parsedSample.name s = metricProfGrEngineActive)), app_nil_r by tauto.
  destruct (decide (parsedSample.name s = metricDevGPUUtil)) as [Hd|Hd].
  - rewrite decide_True, last_snoc by done. case_decide as He; [by rewrite He|].
    apply last_is_Some in He as [x ->]. done.
  - rewrite decide_False, app_nil_r by tauto. done.
Qed.

Lemma sample_step_inv key ss (st : device_state) s :
  key ≠ "" ->
  (default false (st.2 !! key) = bool_decide (values_of metricProfGrEngineActive key ss ≠ []) /\
   (st.1 !! key) ≫= GPUDeviceMetrics.GPUUtilization = utilization key ss) ->
  default false ((sample_step st s).2 !! key) =
    bool_decide (values_of metricProfGrEngineActive key (ss ++ [s]) ≠ []) /\
  ((sample_step st s).1 !! key) ≫= GPUDeviceMetrics.GPUUtilization = utilization key (ss ++ [s]).
Proof.
  destruct st as [gpus hasProf]. cbn [fst snd]. intros Hne [Hprof Hutil].
  rewrite utilization_snoc, values_of_snoc. unfold sample_step.
  case_decide as Hskip.
  { assert (sample_key s ≠ key) as Hk.
    { unfold sample_key. destruct Hskip as [-> ->]. by rewrite decide_True. }
    rewrite decide_False, app_nil_r, decide_False by tauto. done. }
  destruct (apply_sample _ _ _ _) as [g prof] eqn:Ha.
  pose proof (apply_sample_util (default false (hasProf !! sample_key s)) (parsedSample.name s)
    (parsedSample.value s) (getOrCreateGPU gpus (sample_key s) (parsedSample.labels s))) as [Hu Hp].
  rewrite Ha in Hu, Hp. cbn [fst snd] in *.
  destruct (decide (sample_key s = key)) as [<-|Hk].
  2: { rewrite decide_False, app_nil_r by tauto.
       rewrite lookup_insert_ne by done. split; [|done].
       by destruct prof; rewrite ?lookup_insert_ne by done. }
  rewrite lookup_insert_eq. cbn [mbind option_bind].
  assert (GPUDeviceMetrics.GPUUtilization (getOrCreateGPU gpus (sample_key s) (parsedSample.labels s))
    = utilization (sample_key s) ss) as Hg.
  { rewrite <- Hutil. unfold getOrCreateGPU. by destruct (gpus !! sample_key s). }
  rewrite Hg, Hprof in Hu. rewrite Hprof in Hp. split.
  - trans prof.
    + destruct prof; [by rewrite lookup_insert_eq|]. rewrite Hprof.
      destruct (isSentinel _); [done|]. by case_decide.
    + rewrite Hp. destruct (isSentinel _); [by case_decide; rewrite app_nil_r|].
      case_decide as Hn.
      * rewrite (decide_True (P := sample_key s = sample_key s /\ _)) by (split; [reflexivity|exact Hn]).
        symmetry. apply bool_decide_eq_true. intros [_ H]%app_nil. discriminate H.
      * rewrite (decide_False (P := sample_key s = sample_key s /\ _)) by tauto.
        by rewrite app_nil_r.
  - rewrite Hu. destruct (isSentinel _); [reflexivity|].
    destruct (decide (parsedSample.name s = metricProfGrEngineActive)); [reflexivity|].
    destruct (decide (parsedSample.name s = metricDevGPUUtil)); [|reflexivity].
    destruct (decide (values_of metricProfGrEngineActive (sample_key s) ss = [])) as [->|Hv];
      [reflexivity|]. by rewrite bool_decide_eq_true_2.
Qed.

(** ** Properties *)

(** C32 Label text is read back: whatever the values hold (quotes, backslashes and
    newlines are escaped), [parseLabels] applies every label of the rendered
    text, in order. *)
Theorem parseLabels_render kvs :
  Forall (fun kv => IndexByte kv.1 "=" = -1) kvs ->
  parseLabels (render_labels kvs) = foldl (fun l kv => set_label l kv.1 kv.2) dcgmLabels.zero kvs.
Proof. intros H. apply parseLabels_loop_render; [apply length_render_labels|done]. Qed.

Lemma parseLabels_render_witness :
  parseLabels (render_labels [("pod_name", "old"); ("pod", "a" +:+ String dquote "b")]) =
    dcgmLabels.zero <| dcgmLabels.podName := "a" +:+ String dquote "b" |>.
Proof.
  rewrite (parseLabels_render [("pod_name", "old"); ("pod", "a" +:+ String dquote "b")]).
  - reflexivity.
  - repeat constructor.
Defined.

(** The utilization reported for a device is the last profiling sample's
    (times 100) whenever there is one, in whatever order the samples come, and
    the last plain utilization sample's otherwise; sentinels never count. *)
Theorem gpu_utilization_profiling_wins key ss :
  key ≠ "" ->
  ((foldl sample_step (∅, ∅) ss).1 !! key) ≫= GPUDeviceMetrics.GPUUtilization =
    match last (values_of metricProfGrEngineActive key ss) with
    | Some v => Some (f64_mul v (f64_of_Z 100))
    | None => last (values_of metricDevGPUUtil key ss)
    end.
Proof.
  intros Hk. change (match last _ with Some _ => _ | None => _ end) with (utilization key ss).
  enough (default false ((foldl sample_step (∅, ∅) ss).2 !! key) =
            bool_decide (values_of metricProfGrEngineActive key ss ≠ []) /\
          ((foldl sample_step (∅, ∅) ss).1 !! key) ≫= GPUDeviceMetrics.GPUUtilization =
            utilization key ss) as H by apply H.
  induction ss as [|s ss IH] using rev_ind; [done|].
  rewrite foldl_app. cbn [foldl]. by apply sample_step_inv.
Qed.

Lemma gpu_utilization_profiling_wins_witness :
  let sample name v := parsedSample.mk name (dcgmLabels.zero <| dcgmLabels.uuid := "GPU-1" |>) v in
  ((foldl sample_step (∅, ∅)
      [sample metricProfGrEngineActive (f64_of_Z 1); sample metricDevGPUUtil (f64_of_Z 7)]).1
    !! "GPU-1") ≫= GPUDeviceMetrics.GPUUtilization = Some (f64_mul (f64_of_Z 1) (f64_of_Z 100)).
Proof.
  cbv zeta. rewrite (gpu_utilization_profiling_wins "GPU-1"); [|done]. vm_compute. reflexivity.
Defined.

(** With the dcgm-exporter client no scrape ever counts as failed: over any
    polls the failure counter stays 0 and the targets reported up are all the
    targets, however many endpoints did not answer. *)
Theorem gpu_polls_never_fail o (polls : list ((string -> option string) * list string * Time)) :
  let c := foldl (fun c '(scrape, endpoints, now) =>
                    GPUMetricsCollector.poll (ScrapeGPUMetrics scrape o) endpoints now c)
                 GPUMetricsCollector.NewGPUMetricsCollector polls in
  (GPUMetricsCollector.APICallStats c).2 = 0 /\
  (GPUMetricsCollector.DCGMTargetStats c).1 = (GPUMetricsCollector.DCGMTargetStats c).2.
Proof.
  induction polls as [|[[scrape endpoints] now] polls IH] using rev_ind; [done|].
  rewrite foldl_app. cbn [foldl]. cbv zeta in *. destruct IH as [IH1 IH2].
  unfold GPUMetricsCollector.poll. destruct (golen endpoints =? 0); cbn; done.
Qed.
