(* ===== verification/AgentErrors.v ===== *)
(** * Active errors: internal/errors/errors.go

    The collector of reported errors, keyed by code and component, with the
    five-minute expiry applied when it is read.  Each method holds the lock, so
    an operation is a function of the state and the clock. *)

From S2P Require Import Prelude GoNum GoStrings Store.
From stdpp Require Import sorting.
Open Scope string_scope.
Open Scope list_scope.
Open Scope Z_scope.

Abbreviation Code := string (only parsing).

Definition ErrMetricsUnavailable : Code := "METRICS_UNAVAILABLE".

Definition ErrInformerSyncFailed : Code := "INFORMER_SYNC_FAILED".

Definition ErrInformerSyncTimeout : Code := "INFORMER_SYNC_TIMEOUT".

Definition ErrBackendUnreachable : Code := "BACKEND_UNREACHABLE".

Definition ErrSnapshotBuildFailed : Code := "SNAPSHOT_BUILD_FAILED".

Definition ErrCompressionFailed : Code := "COMPRESSION_FAILED".

Definition ErrAuthFailed : Code := "AUTH_FAILED".

Definition ErrBufferFull : Code := "BUFFER_FULL".

Definition ErrCRDNotFound : Code := "CRD_NOT_FOUND".

Definition ErrDiscoveryFailed : Code := "DISCOVERY_FAILED".

Definition ErrTimeout : Code := "TIMEOUT".

Definition ErrPartialData : Code := "PARTIAL_DATA".

(** The codes, in the order they are declared in. *)
Definition Codes : list Code :=
  [ErrMetricsUnavailable; ErrInformerSyncFailed; ErrInformerSyncTimeout; ErrBackendUnreachable;
   ErrSnapshotBuildFailed; ErrCompressionFailed; ErrAuthFailed; ErrBufferFull; ErrCRDNotFound;
   ErrDiscoveryFailed; ErrTimeout; ErrPartialData].

Definition defaultTTL : Duration := 5 * Minute.

Module AgentError.
(** [Err] is the wrapped error, seen through its message. *)
Record t := mk {
  Code_ : Code;
  Message : string;
  Component : string;
  Timestamp : int64;
  Err : option string }.
End AgentError.

(** [Error()] and [Unwrap()]. *)
Definition Error (e : AgentError.t) : string := e.(AgentError.Message).

Definition Unwrap (e : AgentError.t) : option string := e.(AgentError.Err).

Module ErrorCollector.
Record entry := mk_entry { err : AgentError.t; lastReport : Time }.

Record t := mk { entries : gmap string entry }.

Definition NewErrorCollector : t := mk ∅.

(** The dedup key. *)
Definition key (code : Code) (component : string) : string := code +:+ "|" +:+ component.

Definition Report (now : Time) (e : AgentError.t) (ec : t) : t :=
  mk (<[key e.(AgentError.Code_) e.(AgentError.Component) := mk_entry e now]> ec.(entries)).

Definition expired (now : Time) (e : entry) : bool := defaultTTL <? time_sub now e.(lastReport).

(** The loop deletes the expired entries of the map it ranges over and
    collects the others. *)
Definition GetActiveErrors (o : RangeOrder) (now : Time) (ec : t) : list AgentError.t * t :=
  let '(result, es) :=
    foldl (fun '(result, es) '(k, e) =>
             if expired now e then (result, delete k es) else (result ++ [e.(err)], es))
          ([], ec.(entries)) (range o ec.(entries)) in
  (result, mk es).

Definition GetActiveErrorCodes (o : RangeOrder) (now : Time) (ec : t) : list string * t :=
  let '(codes, _, es) :=
    foldl (fun '(codes, seen, es) '(k, e) =>
             if expired now e then (codes, seen, delete k es)
             else let c := e.(err).(AgentError.Code_) in
                  if decide (c ∈ seen) then (codes, seen, es)
                  else (codes ++ [c], {[c]} ∪ seen, es))
          ([], (∅ : gset string), ec.(entries)) (range o ec.(entries)) in
  (codes, mk es).

Definition Clear (ec : t) : t := mk ∅.
End ErrorCollector.

(** ** Runs of operations *)

Inductive ErrorOp :=
  | EReport (e : AgentError.t)
  | EGetErrors (o : RangeOrder)
  | EGetCodes (o : RangeOrder)
  | EClear.

Definition error_op (now : Time) (op : ErrorOp) (ec : ErrorCollector.t) : ErrorCollector.t :=
  match op with
  | EReport e => ErrorCollector.Report now e ec
  | EGetErrors o => (ErrorCollector.GetActiveErrors o now ec).2
  | EGetCodes o => (ErrorCollector.GetActiveErrorCodes o now ec).2
  | EClear => ErrorCollector.Clear ec
  end.

Definition error_run (ops : list (Time * ErrorOp)) : ErrorCollector.t :=
  foldl (fun ec '(now, op) => error_op now op ec) ErrorCollector.NewErrorCollector ops.

(** What was last reported under a key, and when, from the history alone. *)
Definition last_report (k : string) (ops : list (Time * ErrorOp)) : option ErrorCollector.entry :=
  foldl (fun r '(now, op) =>
           match op with
           | EReport e =>
               if decide (ErrorCollector.key e.(AgentError.Code_) e.(AgentError.Component) = k)
               then Some (ErrorCollector.mk_entry e now) else r
           | EClear => None
           | _ => r
           end) None ops.

(** ** Lemmas *)

Section Purge.
Context (now : Time).
Implicit Types (m es : gmap string ErrorCollector.entry).

Definition purge m : gmap string ErrorCollector.entry :=
  filter (fun p : string * ErrorCollector.entry => ErrorCollector.expired now p.2 = false) m.

Lemma purge_lookup m k :
  purge m !! k = (m !! k) ≫= fun e => if ErrorCollector.expired now e then None else Some e.
Proof.
  unfold purge. rewrite map_lookup_filter. destruct (m !! k) as [e|]; [|done]. cbn.
  by destruct (ErrorCollector.expired now e) eqn:E; case_guard.
Qed.

Lemma delete_loop_lookup (l : list (string * ErrorCollector.entry)) es k :
  foldl (fun es '(k, e) => if ErrorCollector.expired now e then delete k es else es) es l !! k =
    if existsb (fun '(k', e) => bool_decide (k' = k) && ErrorCollector.expired now e) l
    then None else es !! k.
Proof.
  revert es. induction l as [|[k' e'] l IH]; intros es; cbn [foldl existsb]; [done|].
  rewrite IH. destruct (existsb _ l); [by rewrite orb_true_r|]. rewrite orb_false_r.
  destruct (ErrorCollector.expired now e'); [|by rewrite andb_false_r].
  rewrite andb_true_r, lookup_delete. by repeat case_bool_decide; case_decide.
Qed.

(** Deleting the expired entries of an enumeration of the map purges it. *)
Lemma delete_expired m (l : list (string * ErrorCollector.entry)) :
  l ≡ₚ map_to_list m ->
  foldl (fun es '(k, e) => if ErrorCollector.expired now e then delete k es else es) m l = purge m.
Proof.
  intros Hl. apply map_eq. intros k. rewrite purge_lookup, delete_loop_lookup.
  destruct (existsb _ l) eqn:E.
  - apply existsb_exists in E as ([k' e] & Hin & [Hk He]%andb_true_iff).
    apply bool_decide_eq_true in Hk as ->.
    apply list_elem_of_In in Hin. rewrite Hl, elem_of_map_to_list in Hin. rewrite Hin. cbn.
    by rewrite He.
  - destruct (m !! k) as [e|] eqn:Hk; [|done]. cbn.
    destruct (ErrorCollector.expired now e) eqn:He; [|done].
    assert (existsb (fun '(k', e) => bool_decide (k' = k) && ErrorCollector.expired now e) l = true)
      as Ht; [|congruence].
    apply existsb_exists. exists (k, e). split.
    + apply list_elem_of_In. by rewrite Hl, elem_of_map_to_list.
    + by rewrite bool_decide_eq_true_2, He.
Qed.
End Purge.

Lemma GetActiveErrors_spec o now ec :
  ErrorCollector.GetActiveErrors o now ec =
    (ErrorCollector.err <$> (filter (fun p : string * ErrorCollector.entry => ErrorCollector.expired now p.2 = false)
        (range o ec.(ErrorCollector.entries))).*2,
     ErrorCollector.mk (purge now ec.(ErrorCollector.entries))).
Proof.
  unfold ErrorCollector.GetActiveErrors.
  rewrite <- (delete_expired now _ (range o ec.(ErrorCollector.entries))) by apply range_perm.
  assert (forall l r (es : gmap string ErrorCollector.entry),
    foldl (fun '((result, es) : list AgentError.t * gmap string ErrorCollector.entry) '(k, e) =>
             if ErrorCollector.expired now e then (result, delete k es)
             else (result ++ [e.(ErrorCollector.err)], es)) (r, es) l =
      (r ++ (ErrorCollector.err <$> (filter (fun p : string * ErrorCollector.entry =>
               ErrorCollector.expired now p.2 = false) l).*2),
       foldl (fun es '(k, e) => if ErrorCollector.expired now e then delete k es else es) es l)) as H.
  { induction l as [|[k e] l IH]; intros r es; cbn [foldl]; [by rewrite app_nil_r|].
    rewrite filter_cons. cbn [snd]. destruct (ErrorCollector.expired now e) eqn:E; rewrite IH.
    - by rewrite decide_False.
    - rewrite decide_True by done. cbn. by rewrite <- (assoc_L (++)). }
  rewrite H. by rewrite app_nil_l.
Qed.

(** The loop of [GetActiveErrorCodes], seen through the codes it has emitted. *)
Lemma codes_loop now l (codes : list string) (seen : gset string) (es : gmap string ErrorCollector.entry) :
  NoDup codes -> (forall c, c ∈ seen <-> c ∈ codes) ->
  let '(codes', _, es') :=
    foldl (fun '((codes, seen, es) : list string * gset string * gmap string ErrorCollector.entry) '(k, e) =>
             if ErrorCollector.expired now e then (codes, seen, delete k es)
             else let c := e.(ErrorCollector.err).(AgentError.Code_) in
                  if decide (c ∈ seen) then (codes, seen, es)
                  else (codes ++ [c], {[c]} ∪ seen, es)) (codes, seen, es) l in
  NoDup codes' /\
  (forall c, c ∈ codes' <-> c ∈ codes \/ exists k e, (k, e) ∈ l /\
     ErrorCollector.expired now e = false /\ e.(ErrorCollector.err).(AgentError.Code_) = c) /\
  es' = foldl (fun es '(k, e) => if ErrorCollector.expired now e then delete k es else es) es l.
Proof.
  revert codes seen es. induction l as [|[k e] l IH]; intros codes seen es Hnd Hseen; cbn [foldl].
  { split_and!; [done| |done]. intros c. split; [by left|].
    intros [H|(k & e & H & _)]; [done|by apply not_elem_of_nil in H]. }
  assert (forall codes0 : list string, (forall c, c ∈ codes0 <-> c ∈ codes \/
            (ErrorCollector.expired now e = false /\ e.(ErrorCollector.err).(AgentError.Code_) = c)) ->
          forall c, (c ∈ codes0 \/ exists k e, (k, e) ∈ l /\ ErrorCollector.expired now e = false /\
             e.(ErrorCollector.err).(AgentError.Code_) = c) <->
          (c ∈ codes \/ exists k0 e0, (k0, e0) ∈ (k, e) :: l /\ ErrorCollector.expired now e0 = false /\
             e0.(ErrorCollector.err).(AgentError.Code_) = c)) as Hstep.
  { intros codes0 H0 c. rewrite H0. split.
    - intros [[?|[? ?]]|(k0 & e0 & ? & ?)]; [by left| |]; right.
      + exists k, e. split; [by left|done].
      + exists k0, e0. split; [by right|done].
    - intros [?|(k0 & e0 & [[= -> ->]|?]%elem_of_cons & ? & ?)]; [by left; left|by left; right|].
      right. by exists k0, e0. }
  cbv zeta. destruct (ErrorCollector.expired now e) eqn:E; [|case_decide as Hc].
  - specialize (IH codes seen (delete k es) Hnd Hseen). destruct (foldl _ _ l) as [[codes' seen'] es'].
    destruct IH as (? & Hin & ?). split_and!; [done| |done]. intros c. rewrite Hin. apply Hstep.
    intros c'. split; [by left|by intros [?|[? ?]]].
  - specialize (IH codes seen es Hnd Hseen). destruct (foldl _ _ l) as [[codes' seen'] es'].
    destruct IH as (? & Hin & ?). split_and!; [done| |done]. intros c. rewrite Hin. apply Hstep.
    intros c'. split; [by left|]. intros [?|[_ <-]]; [done|]. by apply Hseen.
  - specialize (IH (codes ++ [AgentError.Code_ (ErrorCollector.err e)])
      ({[AgentError.Code_ (ErrorCollector.err e)]} ∪ seen) es).
    destruct (foldl _ _ l) as [[codes' seen'] es'].
    destruct IH as (? & Hin & ?).
    + apply NoDup_app. split_and!; [done| |apply NoDup_singleton].
      intros c Hc' ->%list_elem_of_singleton. by apply Hc, Hseen.
    + intros c. rewrite elem_of_union, elem_of_singleton, elem_of_app, list_elem_of_singleton, Hseen.
      tauto.
    + split_and!; [done| |done]. intros c. rewrite Hin. apply Hstep.
      intros c'. rewrite elem_of_app, list_elem_of_singleton.
      split; [intros [?| ->]; auto|intros [?|[_ <-]]; auto].
Qed.

Lemma GetActiveErrorCodes_spec o now ec :
  let '(codes, ec') := ErrorCollector.GetActiveErrorCodes o now ec in
  NoDup codes /\
  (forall c, c ∈ codes <-> exists k e, ec.(ErrorCollector.entries) !! k = Some e /\
     ErrorCollector.expired now e = false /\ e.(ErrorCollector.err).(AgentError.Code_) = c) /\
  ec' = ErrorCollector.mk (purge now ec.(ErrorCollector.entries)).
Proof.
  unfold ErrorCollector.GetActiveErrorCodes.
  pose proof (codes_loop now (range o ec.(ErrorCollector.entries)) [] ∅ ec.(ErrorCollector.entries)
    ltac:(constructor) ltac:(set_solver)) as H.
  destruct (foldl _ _ _) as [[codes seen] es]. destruct H as (? & Hin & ->).
  split_and!; [done| |by rewrite delete_expired by apply range_perm].
  intros c. rewrite Hin. split.
  - intros [?%not_elem_of_nil|(k & e & He & ?)]; [done|]. exists k, e. split; [|done].
    by rewrite range_perm, elem_of_map_to_list in He.
  - intros (k & e & He & ?). right. exists k, e. split; [|done].
    by rewrite range_perm, elem_of_map_to_list.
Qed.

Lemma expired_iff now e :
  ErrorCollector.expired now e = false <-> now - e.(ErrorCollector.lastReport) <= defaultTTL.
Proof.
  unfold ErrorCollector.expired. rewrite <- Z.gtb_ltb, time_sub_gt by (split; by vm_compute).
  rewrite Z.gtb_ltb. apply Z.ltb_ge.
Qed.

Lemma expired_later t now e :
  t <= now -> ErrorCollector.expired t e = true -> ErrorCollector.expired now e = true.
Proof.
  intros Ht He. apply not_false_iff_true. rewrite expired_iff. intros H.
  apply not_false_iff_true in He. apply He, expired_iff. lia.
Qed.

Lemma error_op_entries now op ec k :
  (error_op now op ec).(ErrorCollector.entries) !! k =
    match op with
    | EReport e => if decide (ErrorCollector.key e.(AgentError.Code_) e.(AgentError.Component) = k)
                   then Some (ErrorCollector.mk_entry e now) else ec.(ErrorCollector.entries) !! k
    | EClear => None
    | _ => purge now ec.(ErrorCollector.entries) !! k
    end.
Proof.
  destruct op as [e|o|o|]; cbn [error_op].
  - apply lookup_insert.
  - by rewrite GetActiveErrors_spec.
  - pose proof (GetActiveErrorCodes_spec o now ec) as H.
    destruct (ErrorCollector.GetActiveErrorCodes o now ec). by destruct H as (_ & _ & ->).
  - done.
Qed.

(** The store agrees with the history, but for entries purged when they had
    expired. *)
Lemma error_run_history ops k :
  StronglySorted Z.le ops.*1 ->
  (error_run ops).(ErrorCollector.entries) !! k = last_report k ops \/
  ((error_run ops).(ErrorCollector.entries) !! k = None /\
   exists r t, last_report k ops = Some r /\ t ∈ ops.*1 /\ ErrorCollector.expired t r = true).
Proof.
  induction ops as [|[now op] ops IH] using rev_ind; intros Hs; [by left|].
  rewrite fmap_app, StronglySorted_app in Hs. destruct Hs as (Hle & Hs & _).
  unfold error_run, last_report. rewrite !foldl_app. cbn [foldl].
  fold (error_run ops) (last_report k ops). rewrite error_op_entries.
  destruct op as [e|o|o|]; [case_decide as Hk; [by left|]| | |by left];
    (destruct (IH Hs) as [H|(Hn & r & t & Hr & Ht & He)];
     [|right; rewrite ?purge_lookup, Hn; split; [done|]; exists r, t;
       rewrite fmap_app, elem_of_app; by auto]).
  { by left. }
  all: rewrite purge_lookup, H; destruct (last_report k ops) as [r|] eqn:Hr; cbn; [|by left];
    destruct (ErrorCollector.expired now r) eqn:E; [right|by left];
    (split; [done|]); exists r, now; rewrite fmap_app, elem_of_app; split_and!; [done| |done];
    right; by left.
Qed.

(** ** Properties *)

(** C22 With a clock that does not go back, the errors that are active are exactly
    the last reports of their code and component made within the last five
    minutes (since the last Clear): reads that purge in between change nothing,
    and a fresh report restarts the five minutes. *)
Theorem active_errors_of_history o ops now e :
  StronglySorted Z.le (ops.*1 ++ [now]) ->
  e ∈ (ErrorCollector.GetActiveErrors o now (error_run ops)).1 <->
  exists k t, last_report k ops = Some (ErrorCollector.mk_entry e t) /\ now - t <= defaultTTL.
Proof.
  intros (Hle & Hs & _)%StronglySorted_app. rewrite GetActiveErrors_spec. cbn [fst].
  rewrite list_elem_of_fmap. split.
  - intros (r & -> & Hin). apply list_elem_of_fmap in Hin as ([k r'] & -> & Hin).
    apply list_elem_of_filter in Hin as [He Hin].
    rewrite range_perm, elem_of_map_to_list in Hin. exists k, r'.(ErrorCollector.lastReport).
    split; [|by apply expired_iff].
    destruct (error_run_history ops k Hs) as [H|[H _]]; rewrite Hin in H; [|done].
    by destruct r'.
  - intros (k & t & Hr & Ht). exists (ErrorCollector.mk_entry e t). split; [done|].
    apply list_elem_of_fmap. exists (k, ErrorCollector.mk_entry e t). split; [done|].
    apply list_elem_of_filter. split; [by apply expired_iff|].
    rewrite range_perm, elem_of_map_to_list.
    destruct (error_run_history ops k Hs) as [H|(_ & r & t' & Hr' & Ht' & He)]; [by rewrite H|].
    rewrite Hr in Hr'. injection Hr' as <-.
    assert (ErrorCollector.expired now (ErrorCollector.mk_entry e t) = true) as Hx.
    { apply (expired_later t'); [|done]. apply Hle; [done|by left]. }
    apply not_false_iff_true in Hx. exfalso. apply Hx. by apply expired_iff.
Qed.

Definition sample_error : AgentError.t :=
  AgentError.mk ErrBackendUnreachable "snapshot send failed" "transport" 0 None.

Lemma active_errors_of_history_witness :
  sample_error ∈ (ErrorCollector.GetActiveErrors canonical_order (6 * Minute)
    (error_run [(0, EReport sample_error); (2 * Minute, EReport sample_error);
                (3 * Minute, EGetErrors canonical_order)])).1.
Proof.
  rewrite (active_errors_of_history canonical_order
    [(0, EReport sample_error); (2 * Minute, EReport sample_error);
     (3 * Minute, EGetErrors canonical_order)] (6 * Minute) sample_error).
  - exists "BACKEND_UNREACHABLE|transport", (2 * Minute). split; [reflexivity|by vm_compute].
  - repeat constructor; by vm_compute.
Defined.

(** The active codes are reported once each, and are the codes of the active
    errors. *)
Theorem active_codes_of_errors o o' now ec :
  let codes := (ErrorCollector.GetActiveErrorCodes o now ec).1 in
  NoDup codes /\
  forall c, c ∈ codes <->
    exists e, e ∈ (ErrorCollector.GetActiveErrors o' now ec).1 /\ e.(AgentError.Code_) = c.
Proof.
  pose proof (GetActiveErrorCodes_spec o now ec) as H.
  destruct (ErrorCollector.GetActiveErrorCodes o now ec) as [codes ec']. cbn [fst].
  destruct H as (Hnd & Hin & _). split; [done|]. intros c. rewrite Hin, GetActiveErrors_spec.
  cbn [fst]. split.
  - intros (k & e & He & Hx & Hc). exists e.(ErrorCollector.err). split; [|done].
    apply list_elem_of_fmap. exists e. split; [done|]. apply list_elem_of_fmap. exists (k, e).
    split; [done|]. apply list_elem_of_filter. by rewrite range_perm, elem_of_map_to_list.
  - intros (e & He & Hc). apply list_elem_of_fmap in He as (r & -> & He).
    apply list_elem_of_fmap in He as ([k r'] & -> & He). apply list_elem_of_filter in He as [Hx He].
    rewrite range_perm, elem_of_map_to_list in He. by exists k, r'.
Qed.
