(* ===== verification/Transport.v ===== *)
(** * Sending snapshots: internal/transport

    [Client.Send] encodes once, checks the size cap and posts with retries;
    [ParseResponse] classifies the reply and [isNonRetryableError] reads the
    class back from the message; the middleware adds the token and, in
    [WithRetry], retries at the HTTP level.  The network, the JSON codec, the
    zstd encoder and the clock are parameters; what the code does with them is
    recorded as a list of events. *)

From S2P Require Import Prelude GoNum GoStrings Config Model Store AgentErrors.
Open Scope string_scope.
Open Scope list_scope.
Open Scope Z_scope.

(** ** Requests and responses *)

(** [textproto.CanonicalMIMEHeaderKey]: upper case at the start and after a
    hyphen, lower case elsewhere. *)
Fixpoint canonical_key (upper : bool) (s : string) : string :=
  match s with
  | EmptyString => ""
  | String c s =>
      (if upper then ToUpper (String c "") else ToLower (String c "")) +:+
        canonical_key (bool_decide (c = "-"%char)) s
  end.

Abbreviation Header := (gmap string string) (only parsing).

Definition header_set (k v : string) (h : Header) : Header := <[canonical_key true k := v]> h.

Definition header_get (k : string) (h : Header) : string := default "" (h !! canonical_key true k).

Module Request.
Record t := mk {
  Method : string;
  URL : string;
  Headers : Header;
  ContentLength : int64;
  Body : string }.
#[export] Instance eta : Eta t := fun r => mk r.(Method) r.(URL) r.(Headers) r.(ContentLength) r.(Body).
End Request.
Export (hints) Request.

Module Response.
Record t := mk { StatusCode : int; RetryAfter : string; Body : option string }.
End Response.

(** An [error]: its message and whether it wraps [ErrPayloadTooLarge]. *)
Module err.
Record t := mk { msg : string; tooLarge : bool }.
End err.

Definition Errorf (msg : string) : err.t := err.mk msg false.

(** The zstd library: the error of creating an encoder, if any, and what is left
    in the buffer after writing a text and closing, or the error. *)
Module Zstd.
Record t := mk { NewWriter : option string; Compress : string -> string + string }.
End Zstd.

(** What the code does to the world, in order.  An [EvPost] is a request handed
    to the HTTP client; what the client does with it (connections, redirects it
    follows on its own) is part of the network. *)
Inductive event :=
  | EvPost (req : Request.t)
  | EvRetry
  | EvSleep (d : Duration).

(** The reply of a round trip: a network error's text or a response. *)
Abbreviation reply := (string + Response.t)%type (only parsing).

(** ** Constants *)

Definition ProtocolHeader := "X-Kubeadapt-Protocol".

Definition ProtocolVersion := "v1".

Definition ContentEncoding := "zstd".

Definition DefaultMaxCompressedBodyBytes : int64 := 52428800.

Definition IngestPath := "/api/v1/metrics/ingest".

(** ** CountingWriter *)

Module CountingWriter.
Record t := mk { count : int64 }.

Definition NewCountingWriter : t := mk 0.

(** [n] is what the wrapped writer reports as written. *)
Definition Write (n : int) (cw : t) : t := mk (add64 cw.(count) n).

Definition Count (cw : t) : int64 := cw.(count).
End CountingWriter.

(** ** Delays *)

(** [math.Pow(2, float64(n))] for [n >= 0]: a power of two, or infinity. *)
Definition pow2 (n : int) : float64 :=
  if n <? 1024 then f64_of_Z (2 ^ n) else S754_infinity false.

Definition sleepWithBackoff (attempt : int) : Duration :=
  mul64 (int64_of_f64 (pow2 attempt)) Second.

(** ** The client *)

Module SendStats.
Record t := mk { OriginalBytes : int64; CompressedBytes : int64; EncodeDurationMs : int64 }.
Definition zero : t := mk 0 0 0.
End SendStats.

Module Client.
Record t := mk {
  config : Config.t;
  maxCompressedBodyBytes : int64;
  lastSendStats : SendStats.t }.
#[export] Instance eta : Eta t := fun r => mk r.(config) r.(maxCompressedBodyBytes) r.(lastSendStats).

(** [NewClient]; the transport it builds is [WithAuth cfg.APIKey] over the
    network. *)
Definition NewClient (cfg : Config.t) : t :=
  let maxCompressed := cfg.(Config.MaxCompressedBodyBytes) in
  mk cfg (if maxCompressed <=? 0 then DefaultMaxCompressedBodyBytes else maxCompressed) SendStats.zero.

Definition LastSendStats (c : t) : SendStats.t := c.(lastSendStats).
End Client.
Export (hints) Client.

(** The world of one Send: the context's error when attempt [i] starts, the
    error of an invalid URL, and the network's reply to the i-th post. *)
Module World.
Record t := mk {
  ctxErr : nat -> option string;
  urlErr : string -> option string;
  network : nat -> Request.t -> reply }.
End World.

(** ** Responses to results *)

Section Codec.
(** [json.NewDecoder(body).Decode(&v)]: [None] for an error; the text of the
    error of a failed decode. *)
Context (decodeResponse : string -> option SnapshotResponse.t)
        (decodeErrorResponse : string -> option SnapshotErrorResponse.t)
        (decodeErrorText : string -> string).

Definition body_of (r : Response.t) : string := default "" r.(Response.Body).

Definition ParseResponse (resp : Response.t) : SnapshotResponse.t + err.t :=
  let s := resp.(Response.StatusCode) in
  if s =? 200 then
    match decodeResponse (body_of resp) with
    | Some r => inl r
    | None => inr (Errorf ("transport: failed to decode 200 response: " +:+
                           decodeErrorText (body_of resp)))
    end
  else if (s =? 401) || (s =? 403) then
    inr (Errorf ("transport: authentication failed (HTTP " +:+ itoa s +:+ ")"))
  else if s =? 402 then
    match decodeErrorResponse (body_of resp) with
    | Some e =>
        let msg := e.(SnapshotErrorResponse.Message) in
        let msg := match e.(SnapshotErrorResponse.RetryAfterSeconds) with
          | Some secs => msg +:+ " (retry after " +:+ itoa secs +:+ "s)"
          | None => msg
          end in
        inr (Errorf ("transport: quota exceeded: " +:+ msg))
    | None => inr (Errorf "transport: quota exceeded (HTTP 402)")
    end
  else if s =? 404 then
    inr (Errorf "transport: protocol mismatch (HTTP 404) — check X-Kubeadapt-Protocol header and backend URL")
  else if s =? 410 then
    inr (Errorf "transport: agent deprecated (HTTP 410)")
  else if s =? 411 then
    inr (Errorf "transport: length required (HTTP 411) — agent misconfigured, Content-Length missing")
  else if s =? 413 then
    inr (Errorf "transport: payload too large (HTTP 413) — snapshot exceeds server compressed-body cap")
  else if s =? 415 then
    inr (Errorf "transport: unsupported encoding (HTTP 415) — server requires Content-Encoding: zstd")
  else if s =? 429 then
    inr (Errorf "transport: rate limited (HTTP 429)")
  else if 500 <=? s then
    inr (Errorf ("transport: server error (HTTP " +:+ itoa s +:+ ")"))
  else inr (Errorf ("transport: unexpected status (HTTP " +:+ itoa s +:+ ")")).

Definition nonRetryableTexts : list string :=
  ["authentication failed"; "quota exceeded"; "agent deprecated"; "protocol mismatch";
   "unsupported encoding"; "length required"; "payload too large"].

Definition isNonRetryableError (e : err.t) : bool :=
  e.(err.tooLarge) || existsb (Contains e.(err.msg)) nonRetryableTexts.

(** [retryAfterDelay]: the header, then the body, then 5 s.  It consumes the body
    it decodes: see [read_delay]. *)
Definition retryAfterDelay (resp : Response.t) : Duration :=
  let from_body :=
    match resp.(Response.Body) with
    | None => 5 * Second
    | Some b =>
        match decodeErrorResponse b with
        | Some e => match e.(SnapshotErrorResponse.RetryAfterSeconds) with
                    | Some secs => if 0 <? secs then mul64 secs Second else 5 * Second
                    | None => 5 * Second
                    end
        | None => 5 * Second
        end
    end in
  if decide (resp.(Response.RetryAfter) = "") then from_body
  else match Atoi resp.(Response.RetryAfter) with
       | Some secs => if 0 <? secs then mul64 secs Second else from_body
       | None => from_body
       end.

(** What a decode leaves unread of a body. *)
Context (unread : string -> string).

(** The response after [retryAfterDelay]: its body is decoded unless the header
    gives the delay. *)
Definition read_delay (resp : Response.t) : Response.t :=
  let from_header :=
    if decide (resp.(Response.RetryAfter) = "") then false
    else match Atoi resp.(Response.RetryAfter) with Some secs => 0 <? secs | None => false end in
  if from_header then resp
  else Response.mk resp.(Response.StatusCode) resp.(Response.RetryAfter) (unread <$> resp.(Response.Body)).

(** ** Middleware *)

(** A round tripper: what it does and what it returns for a request. *)
Definition RoundTripper : Type := Request.t -> list event * reply.

Definition WithAuth (token : string) (next : RoundTripper) : RoundTripper :=
  fun req => next (req <| Request.Headers := header_set "Authorization" ("Bearer " +:+ token) req.(Request.Headers) |>).

(** The loop of [retryTransport.RoundTrip]: [more] attempts follow this one;
    the i-th round trip is [next i]. *)
Fixpoint retry_loop (next : nat -> RoundTripper) (req : Request.t) (attempt more : nat) :
    list event * reply :=
  let '(evs, r) := next attempt req in
  match r with
  | inl _ =>
      match more with
      | O => (evs, r)
      | S more => let '(evs', r') := retry_loop next req (S attempt) more in
                  (evs ++ EvSleep (sleepWithBackoff (Z.of_nat attempt)) :: evs', r')
      end
  | inr resp =>
      let s := resp.(Response.StatusCode) in
      if (s <? 500) && negb (s =? 429) then (evs, r)
      else match more with
           | O => (evs, if s =? 429 then inr (read_delay resp) else r)
           | S more =>
               let delay := if s =? 429 then retryAfterDelay resp
                            else sleepWithBackoff (Z.of_nat attempt) in
               let '(evs', r') := retry_loop next req (S attempt) more in
               (evs ++ EvSleep delay :: evs', r')
           end
  end.

(** [retryTransport.RoundTrip] with a non-negative [maxRetries]. *)
Definition WithRetry (maxRetries : nat) (next : nat -> RoundTripper) : RoundTripper :=
  fun req => retry_loop next req 0 maxRetries.

(** ** Sending *)

(** [encodeSnapshot]: the JSON text through a counting writer into the zstd
    encoder. *)
Definition encodeSnapshot (json : ClusterSnapshot.t -> string + string) (zstd : Zstd.t)
    (snapshot : ClusterSnapshot.t) : (string * int64) + err.t :=
  match zstd.(Zstd.NewWriter) with
  | Some e => inr (Errorf ("transport: failed to create zstd encoder: " +:+ e))
  | None =>
      match json snapshot with
      | inr e => inr (Errorf ("transport: JSON encode failed: " +:+ e))
      | inl text =>
          match zstd.(Zstd.Compress) text with
          | inr e => inr (Errorf ("transport: zstd close failed: " +:+ e))
          | inl compressed =>
              let orig := CountingWriter.Write (strlen text) CountingWriter.NewCountingWriter in
              inl (compressed, CountingWriter.Count orig)
          end
      end
  end.

(** The request of one attempt, before the authorization middleware. *)
Definition build_request (cfg : Config.t) (snapshotID compressed : string) : Request.t :=
  {| Request.Method := "POST";
     Request.URL := cfg.(Config.BackendURL) +:+ IngestPath;
     Request.Headers :=
       header_set "User-Agent" ("kubeadapt-agent/" +:+ cfg.(Config.AgentVersion))
       (header_set "Idempotency-Key" snapshotID
       (header_set "X-Snapshot-ID" snapshotID
       (header_set "X-Agent-Version" cfg.(Config.AgentVersion)
       (header_set "Content-Encoding" ContentEncoding
       (header_set "Content-Type" "application/json"
       (header_set ProtocolHeader ProtocolVersion ∅))))));
     Request.ContentLength := strlen compressed;
     Request.Body := compressed |}.

Definition http_transport (w : World.t) (i : nat) : RoundTripper :=
  fun req => ([EvPost req], w.(World.network) i req).

Definition doSend (c : Client.t) (w : World.t) (i : nat) (snapshotID compressed : string) :
    list event * (SnapshotResponse.t + err.t) :=
  let cfg := c.(Client.config) in
  let url := cfg.(Config.BackendURL) +:+ IngestPath in
  match w.(World.urlErr) url with
  | Some e => ([], inr (Errorf ("transport: failed to create request: " +:+ e)))
  | None =>
      let '(evs, r) := WithAuth cfg.(Config.APIKey) (http_transport w i)
                         (build_request cfg snapshotID compressed) in
      match r with
      | inl e => (evs, inr (Errorf ("transport: HTTP request failed: " +:+ e)))
      | inr resp => (evs, ParseResponse resp)
      end
  end.

(** The attempts: [fuel] of them are left, [attempt] is the next one's index,
    [lastErr] the last error.  The result is [(result, lastErr)]. *)
Fixpoint send_loop (c : Client.t) (w : World.t) (snapshotID compressed : string)
    (fuel attempt : nat) (lastErr : option err.t) :
    list event * (option SnapshotResponse.t * option err.t) :=
  match fuel with
  | O => ([], (None, lastErr))
  | S fuel =>
      let pre := if (0 <? attempt)%nat
                 then [EvRetry; EvSleep (sleepWithBackoff (Z.of_nat attempt - 1))] else [] in
      match w.(World.ctxErr) attempt with
      | Some e =>
          (pre, (None, Some (Errorf ("transport: context canceled before attempt " +:+
                   itoa (Z.of_nat attempt + 1) +:+ ": " +:+ e))))
      | None =>
          let '(evs, r) := doSend c w attempt snapshotID compressed in
          match r with
          | inl resp => (pre ++ evs, (Some resp, None))
          | inr e =>
              if isNonRetryableError e then (pre ++ evs, (None, Some e))
              else let '(evs', r') := send_loop c w snapshotID compressed fuel (S attempt) (Some e) in
                   (pre ++ evs ++ evs', r')
          end
      end
  end.

Definition maxAttempts (cfg : Config.t) : int := add64 cfg.(Config.MaxRetries) 1.

(** [Client.Send]: the events, the response and the error ([nil, nil] is
    possible), the client and the error collector afterwards.  [encodeMs] is the
    measured encoding time, [now] the clock when the failure is reported. *)
Definition Send (json : ClusterSnapshot.t -> string + string) (zstd : Zstd.t)
    (w : World.t) (encodeMs : int64) (now : Time) (snapshot : ClusterSnapshot.t)
    (c : Client.t) (ec : ErrorCollector.t) :
    list event * (option SnapshotResponse.t * option err.t) * Client.t * ErrorCollector.t :=
  match encodeSnapshot json zstd snapshot with
  | inr e => ([], (None, Some e), c, ec)
  | inl (compressed, originalBytes) =>
      let compressedBytes := strlen compressed in
      let cap := c.(Client.maxCompressedBodyBytes) in
      if (0 <? cap) && (cap <? compressedBytes) then
        ([], (None, Some (err.mk ("transport: compressed snapshot exceeds server limit (compressed=" +:+
            itoa compressedBytes +:+ ", limit=" +:+ itoa cap +:+ ")") true)), c, ec)
      else
        let '(evs, (result, lastErr)) :=
          send_loop c w snapshot.(ClusterSnapshot.SnapshotID) compressed
            (Z.to_nat (maxAttempts c.(Client.config))) 0 None in
        match lastErr with
        | Some e =>
            (evs, (None, Some e), c,
             ErrorCollector.Report now
               (AgentError.mk ErrBackendUnreachable ("snapshot send failed: " +:+ e.(err.msg))
                  "transport" (unix_milli now) (Some e.(err.msg))) ec)
        | None =>
            (evs, (result, None),
             c <| Client.lastSendStats := SendStats.mk originalBytes compressedBytes encodeMs |>, ec)
        end
  end.
End Codec.

(** ** Lemmas on error texts *)

Lemma isNonRetryable_number prefix z :
  isNonRetryableError (Errorf (prefix +:+ itoa z +:+ ")")) = isNonRetryableError (Errorf prefix).
Proof.
  unfold isNonRetryableError. cbn [err.tooLarge err.msg Errorf orb]. unfold nonRetryableTexts.
  cbn [existsb].
  by rewrite !(Contains_app_disjoint prefix) by
    first [discriminate | rewrite disjoint_str_app, itoa_disjoint by reflexivity; reflexivity].
Qed.

Lemma isNonRetryable_prefix prefix rest :
  isNonRetryableError (Errorf prefix) = true -> isNonRetryableError (Errorf (prefix +:+ rest)) = true.
Proof.
  unfold isNonRetryableError. cbn [err.tooLarge err.msg Errorf orb].
  rewrite !existsb_exists. intros (t & Ht & Hc). exists t. split; [done|]. by apply Contains_app_l.
Qed.

(** ** Lemmas on the attempts *)

Definition posts (evs : list event) : list Request.t :=
  omap (fun ev => match ev with EvPost r => Some r | _ => None end) evs.

Definition sleeps (evs : list event) : list Duration :=
  omap (fun ev => match ev with EvSleep d => Some d | _ => None end) evs.

Lemma posts_app e1 e2 : posts (e1 ++ e2) = posts e1 ++ posts e2.
Proof. apply omap_app. Qed.

Lemma sleeps_app e1 e2 : sleeps (e1 ++ e2) = sleeps e1 ++ sleeps e2.
Proof. apply omap_app. Qed.

(** The request that reaches the network: the built request with the token. *)
Definition signed_request (cfg : Config.t) (snapshotID compressed : string) : Request.t :=
  let req := build_request cfg snapshotID compressed in
  req <| Request.Headers := header_set "Authorization" ("Bearer " +:+ cfg.(Config.APIKey))
                              req.(Request.Headers) |>.

Section Loop.
Context (decodeResponse : string -> option SnapshotResponse.t)
        (decodeErrorResponse : string -> option SnapshotErrorResponse.t)
        (decodeErrorText : string -> string).
Context (c : Client.t) (w : World.t) (snapshotID compressed : string).

Let run_loop := send_loop decodeResponse decodeErrorResponse decodeErrorText c w snapshotID compressed.
Let attempt i := doSend decodeResponse decodeErrorResponse decodeErrorText c w i snapshotID compressed.

(** An attempt that ends the loop: a response, or an error not worth a retry. *)
Definition decisive (r : SnapshotResponse.t + err.t) : bool :=
  match r with inl _ => true | inr e => isNonRetryableError e end.

(** What Send returns when an attempt is the last. *)
Definition final (r : SnapshotResponse.t + err.t) : option SnapshotResponse.t * option err.t :=
  match r with inl resp => (Some resp, None) | inr e => (None, Some e) end.

Lemma doSend_posts i : World.urlErr w (Config.BackendURL (Client.config c) +:+ IngestPath) = None ->
  (attempt i).1 = [EvPost (signed_request (Client.config c) snapshotID compressed)].
Proof.
  intros Hu. unfold attempt, doSend. rewrite Hu. cbn. by destruct (World.network w i _).
Qed.

Lemma doSend_posts_le i : (attempt i).1 = [] \/
  (attempt i).1 = [EvPost (signed_request (Client.config c) snapshotID compressed)].
Proof.
  destruct (World.urlErr w (Config.BackendURL (Client.config c) +:+ IngestPath)) eqn:Hu.
  - left. unfold attempt, doSend. by rewrite Hu.
  - right. by apply doSend_posts.
Qed.

(** The events before attempt [i]. *)
Definition before (i : nat) : list event :=
  if (0 <? i)%nat then [EvRetry; EvSleep (sleepWithBackoff (Z.of_nat i - 1))] else [].

(** Attempts [a .. a+k-1] fail and are retried, attempt [a+k] is decisive or the
    last: the loop runs exactly these and returns the last one's result. *)
Lemma send_loop_run k fuel a lastErr :
  (forall i, World.ctxErr w i = None) ->
  (k < fuel)%nat ->
  (forall i, (i < k)%nat -> decisive (attempt (a + i)).2 = false) ->
  (decisive (attempt (a + k)).2 = true \/ fuel = S k) ->
  run_loop fuel a lastErr =
    (concat ((fun i => before i ++ (attempt i).1) <$> seq a (S k)), final (attempt (a + k)).2).
Proof.
  intros Hctx. unfold run_loop. revert fuel a lastErr.
  induction k as [|k IH]; intros [|fuel] a lastErr Hk Hnd Hd; try lia;
    cbn [Transport.send_loop]; rewrite Hctx; fold (attempt a); fold (before a).
  - rewrite Nat.add_0_r in *. cbn. rewrite app_nil_r.
    destruct (attempt a) as [evs [resp|e]]; cbn in *; [done|].
    destruct (isNonRetryableError e); [done|]. destruct Hd as [?|[= ->]]; [done|].
    cbn. by rewrite app_nil_r.
  - assert (decisive (attempt a).2 = false) as Ha.
    { specialize (Hnd 0%nat ltac:(lia)). by rewrite Nat.add_0_r in Hnd. }
    specialize (IH fuel (S a)). replace (a + S k)%nat with (S a + k)%nat in * by lia.
    cbn [seq fmap list_fmap concat]. destruct (attempt a) as [evs [resp|e]] eqn:He; [done|].
    cbn [decisive snd] in Ha. rewrite Ha, IH; [|lia| |].
    + cbn [fst]. by rewrite <- (assoc_L (++)).
    + intros i Hi. replace (S a + i)%nat with (a + S i)%nat by lia. apply Hnd. lia.
    + destruct Hd as [?|[= ->]]; [by left|by right].
Qed.

Lemma send_loop_posts fuel a lastErr :
  exists n, (n <= fuel)%nat /\
    posts (run_loop fuel a lastErr).1 =
      replicate n (signed_request (Client.config c) snapshotID compressed).
Proof.
  unfold run_loop. revert a lastErr.
  induction fuel as [|fuel IH]; intros a lastErr; cbn [Transport.send_loop];
    [by exists 0%nat|]. fold (before a). fold (attempt a).
  assert (posts (before a) = []) as Hb by (unfold before; by destruct (0 <? a)%nat).
  destruct (World.ctxErr w a); [exists 0%nat; split; [lia|done]|].
  assert (exists m, (m <= 1)%nat /\ posts (attempt a).1 =
    replicate m (signed_request (Client.config c) snapshotID compressed)) as (m & Hm & Hp).
  { destruct (doSend_posts_le a) as [->| ->]; [by exists 0%nat; split; [lia|]|by exists 1%nat]. }
  destruct (attempt a) as [evs [resp|e]]; cbn [fst] in *.
  - exists m. split; [lia|]. by rewrite posts_app, Hb.
  - destruct (isNonRetryableError e).
    + exists m. split; [lia|]. cbn [fst]. by rewrite posts_app, Hb.
    + destruct (IH (S a) (Some e)) as (n & Hn & Hpn).
      destruct (Transport.send_loop _ _ _ _ _ _ _ fuel (S a) (Some e)) as [evs' r']. cbn [fst] in *.
      exists (m + n)%nat. split; [lia|]. by rewrite !posts_app, Hb, Hp, Hpn, replicate_add.
Qed.
End Loop.

(** What a send comes to does not depend on the errors reported before it. *)
Lemma Send_error_ec dec decE errText json zstd w ms now snap c ec ec' :
  (Send dec decE errText json zstd w ms now snap c ec).1.1.2.2 =
    (Send dec decE errText json zstd w ms now snap c ec').1.1.2.2.
Proof.
  unfold Send. destruct (encodeSnapshot json zstd snap) as [[compressed orig]|]; [|done].
  cbv zeta. destruct (_ && _); [done|].
  by destruct (send_loop _ _ _ _ _ _ _ _ _ _) as [evs [result [e|]]].
Qed.

(** A failure past the encoding is reported; the report names the error. *)
Lemma Send_failure_reports dec decE errText json zstd w ms now snap c ec compressed orig e :
  encodeSnapshot json zstd snap = inl (compressed, orig) ->
  strlen compressed <= c.(Client.maxCompressedBodyBytes) ->
  (Send dec decE errText json zstd w ms now snap c ec).1.1.2.2 = Some e ->
  exists ae, (Send dec decE errText json zstd w ms now snap c ec).2 = ErrorCollector.Report now ae ec /\
    ae.(AgentError.Code_) = ErrBackendUnreachable /\ ae.(AgentError.Component) = "transport".
Proof.
  intros He Hcap. unfold Send. rewrite He.
  replace ((0 <? _) && _) with false
    by (symmetry; apply andb_false_iff; right; by apply Z.ltb_ge).
  destruct (send_loop _ _ _ _ _ _ _ _ _ _) as [evs [result [e'|]]]; [|done].
  intros _. by eexists.
Qed.

(** ** Properties *)

(** The class of a reply survives the round trip through the error's text: of
    all statuses but 200, exactly authentication (401, 403), quota (402),
    protocol (404), deprecation (410), length (411), size (413) and encoding
    (415) errors are final, whatever message the server sends; every other
    status, 400 and the 3xx included, is retried. *)
Theorem nonretryable_statuses decode decodeErr errText resp e :
  resp.(Response.StatusCode) ≠ 200 ->
  ParseResponse decode decodeErr errText resp = inr e ->
  isNonRetryableError e =
    bool_decide (resp.(Response.StatusCode) ∈ [401; 403; 402; 404; 410; 411; 413; 415]).
Proof.
  destruct resp as [s ra body]. cbn [Response.StatusCode]. intros Hs.
  unfold ParseResponse. cbn [Response.StatusCode]. rewrite (proj2 (Z.eqb_neq s 200) Hs).
  destruct ((s =? 401) || (s =? 403)) eqn:E1.
  { intros [= <-]. rewrite isNonRetryable_number. apply orb_true_iff in E1.
    destruct E1 as [->%Z.eqb_eq| ->%Z.eqb_eq]; by vm_compute. }
  destruct (s =? 402) eqn:E2.
  { apply Z.eqb_eq in E2 as ->. destruct (decodeErr _); intros [= <-]; [|by vm_compute].
    rewrite isNonRetryable_prefix; by vm_compute. }
  apply orb_false_iff in E1 as [E1%Z.eqb_neq E1'%Z.eqb_neq]. apply Z.eqb_neq in E2.
  repeat match goal with
    | |- (if s =? ?n then _ else _) = _ -> _ =>
        destruct (s =? n) eqn:?E;
        [match goal with H : (s =? n) = true |- _ => apply Z.eqb_eq in H as ->;
           intros [= <-]; by vm_compute end|]
    end.
  rewrite bool_decide_eq_false_2
    by (rewrite !elem_of_cons, elem_of_nil; lia).
  destruct (500 <=? s); intros [= <-]; rewrite isNonRetryable_number; by vm_compute.
Qed.

Definition no_codec {A} (_ : string) : option A := None.

Lemma nonretryable_statuses_witness :
  exists e, ParseResponse no_codec no_codec (fun _ => "") (Response.mk 503 "" None) = inr e /\
    isNonRetryableError e = false.
Proof.
  eexists. split; [reflexivity|].
  rewrite (nonretryable_statuses no_codec no_codec (fun _ => "") (Response.mk 503 "" None));
    [reflexivity|done|reflexivity].
Defined.

(** The delays before the retries of [k] failed attempts. *)
Definition backoff_delays (k : nat) : list Duration :=
  (fun i => sleepWithBackoff (Z.of_nat i)) <$> seq 0 k.

(** The k-th retry waits 2^k seconds, exactly, for the first 34 retries;
    the next delay leaves the range of a Duration and is no delay at all. *)
Theorem backoff_doubles :
  (forall k : Z, 0 <= k <= 33 -> sleepWithBackoff k = 2 ^ k * Second) /\
  sleepWithBackoff 34 < 0 /\ sleepWithBackoff 55 = 0.
Proof.
  split; [|by vm_compute]. intros k Hk.
  assert (forallb (fun n => sleepWithBackoff (Z.of_nat n) =? 2 ^ Z.of_nat n * Second) (seq 0 34) = true)
    as Hall by (vm_compute; reflexivity).
  rewrite forallb_forall in Hall. specialize (Hall (Z.to_nat k)). rewrite Z2Nat.id in Hall by lia.
  apply Z.eqb_eq, Hall, in_seq. lia.
Qed.

(** The delays in seconds: exact for the first 34 retries, at 64 bits as long as
    the seconds are an int64. *)
Lemma backoff_delays_lookup k i :
  (i < k)%nat ->
  ((i < 34)%nat -> backoff_delays k !! i = Some (2 ^ Z.of_nat i * Second)) /\
  ((i < 63)%nat -> backoff_delays k !! i = Some (wrap64 (2 ^ Z.of_nat i * Second))).
Proof.
  intros Hi. assert (backoff_delays k !! i = Some (sleepWithBackoff (Z.of_nat i))) as ->
    by (unfold backoff_delays; by rewrite list_lookup_fmap, lookup_seq_lt by done).
  split; intros H; f_equal.
  - apply (proj1 backoff_doubles). lia.
  - assert (forallb (fun n => sleepWithBackoff (Z.of_nat n) =? wrap64 (2 ^ Z.of_nat n * Second)) (seq 0 63) = true)
      as Hall by (vm_compute; reflexivity).
    rewrite forallb_forall in Hall. apply Z.eqb_eq, Hall, in_seq. lia.
Qed.

Lemma length_backoff_delays k : length (backoff_delays k) = k.
Proof. unfold backoff_delays. by rewrite length_fmap, length_seq. Qed.

Section SendProperties.
Context (decodeResponse : string -> option SnapshotResponse.t)
        (decodeErrorResponse : string -> option SnapshotErrorResponse.t)
        (decodeErrorText : string -> string).

Let run_send := Send decodeResponse decodeErrorResponse decodeErrorText.
Let post_attempt := doSend decodeResponse decodeErrorResponse decodeErrorText.

(** C21 However the network behaves, Send hands at most MaxRetries + 1 requests to
    the HTTP client, all the same: the encoded body with its length, the bearer token, the
    protocol version, zstd encoding and the snapshot id as idempotency key. *)
Theorem Send_posts_identical json zstd w ms now snap c ec :
  0 <= c.(Client.config).(Config.MaxRetries) < max_int64 ->
  let evs := (run_send json zstd w ms now snap c ec).1.1.1 in
  golen (posts evs) <= c.(Client.config).(Config.MaxRetries) + 1 /\
  Forall (fun req =>
      (exists orig, encodeSnapshot json zstd snap = inl (req.(Request.Body), orig)) /\
      req.(Request.ContentLength) = strlen req.(Request.Body) /\
      req.(Request.URL) = c.(Client.config).(Config.BackendURL) +:+ IngestPath /\
      header_get "Authorization" req.(Request.Headers) =
        "Bearer " +:+ c.(Client.config).(Config.APIKey) /\
      header_get ProtocolHeader req.(Request.Headers) = "v1" /\
      header_get "Content-Encoding" req.(Request.Headers) = "zstd" /\
      header_get "Idempotency-Key" req.(Request.Headers) = snap.(ClusterSnapshot.SnapshotID))
    (posts evs).
Proof.
  intros Hr evs. unfold evs, run_send, Send. clear evs.
  destruct (encodeSnapshot json zstd snap) as [[compressed orig]|e] eqn:He; cbn [fst];
    [|split; [unfold golen; simpl; lia|constructor]].
  destruct (_ && _); [split; [unfold golen; simpl; lia|constructor]|].
  destruct (send_loop_posts decodeResponse decodeErrorResponse decodeErrorText c w
    (ClusterSnapshot.SnapshotID snap) compressed (Z.to_nat (maxAttempts (Client.config c))) 0 None)
    as (n & Hn & Hp).
  destruct (send_loop _ _ _ _ _ _ _ _ _ _) as [evs [result lastErr]]. cbn [fst] in Hp.
  assert (golen (posts evs) <= Config.MaxRetries (Client.config c) + 1) as Hle.
  { unfold golen. rewrite Hp, length_replicate. unfold maxAttempts, add64 in Hn.
    rewrite wrap64_id in Hn by (unfold in_int64, max_int64 in *; lia). lia. }
  destruct lastErr; cbn [fst]; (split; [done|]); rewrite Hp; apply Forall_replicate;
    (split; [by exists orig|]); repeat split.
Qed.

(** C20 Send stops at the first decisive attempt, a response or an error that a
    retry cannot cure, and returns it; when every attempt may be retried it
    returns the last error after MaxRetries + 1 posts.  Between attempts it
    waits 1, 2, 4, ... seconds, up to the 34th retry; from there to the 63rd the
    seconds no longer fit a Duration and the wait is what is left of them at 64
    bits.  Reports: a failure is reported to the error
    collector and leaves the send statistics; a success updates them. *)
Theorem Send_first_decisive json zstd w ms now snap c ec compressed orig (k : nat) :
  encodeSnapshot json zstd snap = inl (compressed, orig) ->
  strlen compressed <= c.(Client.maxCompressedBodyBytes) ->
  0 <= c.(Client.config).(Config.MaxRetries) < max_int64 ->
  (forall i, World.ctxErr w i = None) ->
  World.urlErr w (c.(Client.config).(Config.BackendURL) +:+ IngestPath) = None ->
  let attempt i := (post_attempt c w i snap.(ClusterSnapshot.SnapshotID) compressed).2 in
  Z.of_nat k <= c.(Client.config).(Config.MaxRetries) ->
  (forall i, (i < k)%nat -> decisive (attempt i) = false) ->
  (decisive (attempt k) = true \/ Z.of_nat k = c.(Client.config).(Config.MaxRetries)) ->
  let '(evs, r, c', ec') := run_send json zstd w ms now snap c ec in
  r = final (attempt k) /\ length (posts evs) = S k /\ length (sleeps evs) = k /\
  (forall i, (i < k)%nat -> (i < 34)%nat -> sleeps evs !! i = Some (2 ^ Z.of_nat i * Second)) /\
  (forall i, (i < k)%nat -> (i < 63)%nat -> sleeps evs !! i = Some (wrap64 (2 ^ Z.of_nat i * Second))) /\
  match attempt k with
  | inl _ => c'.(Client.lastSendStats) = SendStats.mk orig (strlen compressed) ms /\ ec' = ec
  | inr e => c' = c /\ exists ae, ec' = ErrorCollector.Report now ae ec /\
      ae.(AgentError.Code_) = ErrBackendUnreachable /\ ae.(AgentError.Err) = Some e.(err.msg)
  end.
Proof.
  intros He Hcap Hr Hctx Hurl attempt Hk Hnd Hd. unfold run_send, Send. rewrite He.
  replace ((0 <? _) && _) with false
    by (symmetry; apply andb_false_iff; right; by apply Z.ltb_ge).
  rewrite (send_loop_run decodeResponse decodeErrorResponse decodeErrorText c w
    (ClusterSnapshot.SnapshotID snap) compressed k); [|done| |done|].
  2,3: unfold maxAttempts, add64; rewrite wrap64_id by (unfold in_int64, max_int64 in *; lia).
  2: lia. 2: destruct Hd as [?|?]; [by left|right; lia].
  change (doSend _ _ _ c w (0 + k) _ _).2 with (attempt k).
  set (evs := concat _).
  assert (posts evs = replicate (S k) (signed_request (Client.config c)
            (ClusterSnapshot.SnapshotID snap) compressed) /\ sleeps evs = backoff_delays k)
    as [Hp Hs].
  { unfold evs, backoff_delays. clear -Hurl. split.
    - generalize (S k). intros n. generalize 0%nat. induction n as [|n IH]; intros a; [done|].
      cbn [seq fmap list_fmap concat replicate]. rewrite !posts_app, IH, doSend_posts by done.
      unfold before. by destruct (0 <? a)%nat.
    - induction k as [|k IH].
      + cbn [seq fmap list_fmap concat]. by rewrite app_nil_r, sleeps_app, doSend_posts.
      + rewrite (seq_S (S k) 0), fmap_app, concat_app, sleeps_app, IH, (seq_S k 0), fmap_app.
        f_equal. cbn [fmap list_fmap concat]. rewrite app_nil_r, sleeps_app, doSend_posts by done.
        unfold before. cbn. do 2 f_equal. lia. }
  clearbody evs. unfold final. destruct (attempt k) as [resp|e]; cbv beta iota;
    rewrite Hp, Hs, length_replicate, length_backoff_delays;
    split_and!; try done; try (intros; by apply backoff_delays_lookup). by eexists.
Qed.

(** At the largest MaxRetries the attempt count wraps to a negative number:
    Send posts nothing, returns neither a response nor an error and counts the
    snapshot as sent. *)
Theorem Send_overflow_sends_nothing json zstd w ms now snap c ec compressed orig :
  c.(Client.config).(Config.MaxRetries) = max_int64 ->
  encodeSnapshot json zstd snap = inl (compressed, orig) ->
  strlen compressed <= c.(Client.maxCompressedBodyBytes) ->
  let '(evs, r, c', ec') := run_send json zstd w ms now snap c ec in
  evs = [] /\ r = (None, None) /\ ec' = ec /\
  c'.(Client.lastSendStats) = SendStats.mk orig (strlen compressed) ms.
Proof.
  intros Hr He Hcap. unfold run_send, Send. rewrite He.
  replace ((0 <? _) && _) with false
    by (symmetry; apply andb_false_iff; right; by apply Z.ltb_ge).
  unfold maxAttempts. rewrite Hr. by vm_compute (Z.to_nat _).
Qed.
End SendProperties.

(** ** Witnesses *)

Definition sample_config : Config.t :=
  Config.Load (fun k => if decide (k = "KUBEADAPT_API_KEY") then "tok" else "").

Definition sample_client : Client.t := Client.NewClient sample_config.

(** A network that answers 503 first and 200 afterwards. *)
Definition flaky : World.t :=
  World.mk (fun _ => None) (fun _ => None)
    (fun i _ => inr (Response.mk (if (i =? 0)%nat then 503 else 200) "" (Some "{}"))).

Definition accept_all (_ : string) : option SnapshotResponse.t := Some SnapshotResponse.zero.

(** An encoder that stores the text as it is. *)
Definition stored_zstd : Zstd.t := Zstd.mk None inl.

Definition empty_json (_ : ClusterSnapshot.t) : string + string := inl "{}".

Lemma Send_posts_identical_witness :
  let evs := (Send accept_all no_codec (fun _ => "") empty_json stored_zstd flaky 3 0 ClusterSnapshot.zero
                sample_client ErrorCollector.NewErrorCollector).1.1.1 in
  golen (posts evs) <= 6.
Proof.
  apply (Send_posts_identical accept_all no_codec (fun _ => "") empty_json stored_zstd flaky 3 0
    ClusterSnapshot.zero sample_client ErrorCollector.NewErrorCollector).
  by vm_compute.
Defined.

Lemma Send_first_decisive_witness :
  exists evs r c' ec',
    Send accept_all no_codec (fun _ => "") empty_json stored_zstd flaky 3 0 ClusterSnapshot.zero
      sample_client ErrorCollector.NewErrorCollector = (evs, r, c', ec') /\
    length (posts evs) = 2%nat /\ sleeps evs !! 0%nat = Some Second.
Proof.
  pose proof (Send_first_decisive accept_all no_codec (fun _ => "") empty_json stored_zstd flaky 3 0
    ClusterSnapshot.zero sample_client ErrorCollector.NewErrorCollector "{}" 2 1) as H.
  destruct (Send _ _ _ _ _ _ _ _ _ _ _) as [[[evs r] c'] ec'].
  exists evs, r, c', ec'. split; [reflexivity|].
  destruct H as (_ & Hp & _ & Hs & _); try reflexivity; try by vm_compute.
  3: { split; [exact Hp|]. by rewrite (Hs 0%nat) by lia. }
  - intros i Hi. replace i with 0%nat by lia. by vm_compute.
  - by left.
Defined.

Lemma Send_overflow_sends_nothing_witness :
  let c := Client.NewClient (Config.Load (fun k =>
    if decide (k = "KUBEADAPT_MAX_RETRIES") then "9223372036854775807" else "")) in
  let '(evs, r, _, _) := Send accept_all no_codec (fun _ => "") empty_json stored_zstd flaky 3 0
    ClusterSnapshot.zero c ErrorCollector.NewErrorCollector in
  evs = [] /\ r = (None, None).
Proof.
  cbv zeta. pose proof (Send_overflow_sends_nothing accept_all no_codec (fun _ => "") empty_json stored_zstd
    flaky 3 0 ClusterSnapshot.zero (Client.NewClient (Config.Load (fun k =>
      if decide (k = "KUBEADAPT_MAX_RETRIES") then "9223372036854775807" else "")))
    ErrorCollector.NewErrorCollector "{}" 2) as H.
  destruct (Send _ _ _ _ _ _ _ _ _ _ _) as [[[evs r] c'] ec'].
  destruct H as (? & ? & _); [by vm_compute|reflexivity|by vm_compute|done].
Defined.
