(* ===== verification/Ownership.v ===== *)
(** * Ownership resolution (internal/enrichment/ownership.go)

    Step 4 of a snapshot build: each pod's owner is replaced by its top-level
    owner, following Pod -> ReplicaSet -> Deployment and Pod -> Job -> CronJob
    through indexes of the ReplicaSets, Jobs and CronJobs of the snapshot. *)

From S2P Require Import Prelude GoNum Model.
Open Scope string_scope.
Open Scope list_scope.
Open Scope Z_scope.

Definition maxOwnerDepth : nat := 10.

Definition kindReplicaSet : string := "ReplicaSet".

(** The three variables [kind], [name], [uid] of [resolveOwner]. *)
Record Owner := mkOwner { o_kind : string; o_name : string; o_uid : string }.

#[export] Instance Owner_eq_dec : EqDecision Owner.
Proof. solve_decision. Defined.

(** The indexes [Enrich] builds and passes to [resolveOwner]. *)
Record OwnerMaps := mkOwnerMaps {
  rsMap : gmap string ReplicaSetInfo.t;
  jobMap : gmap string JobInfo.t;
  cronJobMap : gmap string CronJobInfo.t }.

Definition buildReplicaSetMap (replicaSets : list ReplicaSetInfo.t) : gmap string ReplicaSetInfo.t :=
  index_by (fun rs => ns_name rs.(ReplicaSetInfo.Namespace) rs.(ReplicaSetInfo.Name)) replicaSets.

Definition buildJobMap (jobs : list JobInfo.t) : gmap string JobInfo.t :=
  index_by (fun j => ns_name j.(JobInfo.Namespace) j.(JobInfo.Name)) jobs.

Definition buildCronJobMap (cronJobs : list CronJobInfo.t) : gmap string CronJobInfo.t :=
  index_by (fun cj => ns_name cj.(CronJobInfo.Namespace) cj.(CronJobInfo.Name)) cronJobs.

(** One iteration of the loop: [Some] of the new variables when it sets
    [resolved], [None] when it breaks out of the loop. *)
Definition resolve_hop (m : OwnerMaps) (ns : string) (o : Owner) : option Owner :=
  if decide (o.(o_kind) = kindReplicaSet) then
    match m.(rsMap) !! ns_name ns o.(o_name) with
    | None => None
    | Some rs =>
        if decide (rs.(ReplicaSetInfo.OwnerKind) = "") then None
        else Some (mkOwner rs.(ReplicaSetInfo.OwnerKind) rs.(ReplicaSetInfo.OwnerName)
                     rs.(ReplicaSetInfo.OwnerUID))
    end
  else if decide (o.(o_kind) = "Job") then
    match m.(jobMap) !! ns_name ns o.(o_name) with
    | None => None
    | Some job =>
        if decide (job.(JobInfo.OwnerCronJob) = "") then None
        else
          let uid := match m.(cronJobMap) !! ns_name ns job.(JobInfo.OwnerCronJob) with
                     | Some cj => cj.(CronJobInfo.UID)
                     | None => o.(o_uid)
                     end in
          Some (mkOwner "CronJob" job.(JobInfo.OwnerCronJob) uid)
    end
  else None.

(** [for depth := 0; depth < maxOwnerDepth; depth++ { ... }] *)
Fixpoint resolve_loop (m : OwnerMaps) (ns : string) (depth : nat) (o : Owner) : Owner :=
  match depth with
  | O => o
  | S d => match resolve_hop m ns o with
           | Some o' => resolve_loop m ns d o'
           | None => o
           end
  end.

Definition pod_owner (pod : PodInfo.t) : Owner :=
  mkOwner pod.(PodInfo.OwnerKind) pod.(PodInfo.OwnerName) pod.(PodInfo.OwnerUID).

Definition resolveOwner (m : OwnerMaps) (pod : PodInfo.t) : PodInfo.t :=
  if decide (pod.(PodInfo.OwnerKind) = "") then pod          (* orphan pod *)
  else if decide (pod.(PodInfo.OwnerKind) = "Node") then pod  (* static pod *)
  else
    let o := resolve_loop m pod.(PodInfo.Namespace) maxOwnerDepth (pod_owner pod) in
    pod <| PodInfo.OwnerKind := o.(o_kind) |>
        <| PodInfo.OwnerName := o.(o_name) |>
        <| PodInfo.OwnerUID := o.(o_uid) |>.

Definition owner_maps (replicaSets : list ReplicaSetInfo.t) (snapshot : ClusterSnapshot.t) : OwnerMaps :=
  mkOwnerMaps (buildReplicaSetMap replicaSets) (buildJobMap snapshot.(ClusterSnapshot.Jobs))
    (buildCronJobMap snapshot.(ClusterSnapshot.CronJobs)).

(** [OwnershipEnricher.Enrich]: it never fails. *)
Definition OwnershipEnrich (replicaSets : list ReplicaSetInfo.t) (snapshot : ClusterSnapshot.t) :
    ClusterSnapshot.t :=
  let m := owner_maps replicaSets snapshot in
  snapshot <| ClusterSnapshot.Pods := resolveOwner m <$> snapshot.(ClusterSnapshot.Pods) |>.

(** ** Reference: the ownership relation *)

(** [owns m ns o o']: in namespace [ns], [o'] is the owner recorded for [o]. *)
Inductive owns (m : OwnerMaps) (ns : string) : Owner -> Owner -> Prop :=
  | owns_replicaset name uid rs :
      m.(rsMap) !! ns_name ns name = Some rs ->
      rs.(ReplicaSetInfo.OwnerKind) <> "" ->
      owns m ns (mkOwner kindReplicaSet name uid)
        (mkOwner rs.(ReplicaSetInfo.OwnerKind) rs.(ReplicaSetInfo.OwnerName)
           rs.(ReplicaSetInfo.OwnerUID))
  | owns_job name uid job cj :
      m.(jobMap) !! ns_name ns name = Some job ->
      job.(JobInfo.OwnerCronJob) <> "" ->
      m.(cronJobMap) !! ns_name ns job.(JobInfo.OwnerCronJob) = Some cj ->
      owns m ns (mkOwner "Job" name uid)
        (mkOwner "CronJob" job.(JobInfo.OwnerCronJob) cj.(CronJobInfo.UID))
  | owns_job_unknown name uid job :
      m.(jobMap) !! ns_name ns name = Some job ->
      job.(JobInfo.OwnerCronJob) <> "" ->
      m.(cronJobMap) !! ns_name ns job.(JobInfo.OwnerCronJob) = None ->
      owns m ns (mkOwner "Job" name uid)
        (mkOwner "CronJob" job.(JobInfo.OwnerCronJob) uid).

(** ** Lemmas *)

Section Resolve.
Context (m : OwnerMaps) (ns : string).
Implicit Types o : Owner.

(** The loop body computes the ownership relation. *)
Lemma resolve_hop_owns o o' : resolve_hop m ns o = Some o' <-> owns m ns o o'.
Proof.
  split.
  - destruct o as [k n u]. unfold resolve_hop; simpl. intros H.
    repeat (case_decide || case_match); simplify_eq/=; by econstructor.
  - destruct 1; unfold resolve_hop; simpl; by repeat (case_decide || case_match; simplify_eq/=).
Qed.

Lemma resolve_hop_None o : resolve_hop m ns o = None <-> nf (owns m ns) o.
Proof.
  rewrite eq_None_not_Some. split; intros H [x Hx]; apply H; exists x; by apply resolve_hop_owns.
Qed.

Lemma owns_det o o1 o2 : owns m ns o o1 -> owns m ns o o2 -> o1 = o2.
Proof. rewrite <- !resolve_hop_owns. congruence. Qed.

Lemma resolve_loop_steps d o :
  exists n, (n <= d)%nat /\ nsteps (owns m ns) n o (resolve_loop m ns d o) /\
    (n = d \/ nf (owns m ns) (resolve_loop m ns d o)).
Proof.
  revert o. induction d as [|d IH]; intros o; simpl.
  - exists O. split; [done|]. split; [constructor|by left].
  - destruct (resolve_hop m ns o) as [o'|] eqn:E.
    + destruct (IH o') as (n & Hn & Hs & Hor). exists (S n).
      split; [lia|]. split.
      * econstructor; [by apply resolve_hop_owns|done].
      * destruct Hor; [left; lia|by right].
    + exists O. split; [lia|]. split; [constructor|right; by apply resolve_hop_None].
Qed.

Lemma nsteps_det n o o1 o2 :
  nsteps (owns m ns) n o o1 -> nsteps (owns m ns) n o o2 -> o1 = o2.
Proof.
  intros H. revert o2. induction H as [|n x y z Hxy Hyz IH]; intros o2 H2.
  - by inv H2.
  - inv H2. apply IH. by erewrite (owns_det x y) by done.
Qed.

(** A chain that ends within the bound is followed to its end. *)
Lemma resolve_loop_complete d n o o' :
  (n <= d)%nat -> nsteps (owns m ns) n o o' -> nf (owns m ns) o' -> resolve_loop m ns d o = o'.
Proof.
  intros Hn Hs Hnf. revert d Hn. induction Hs as [|n x y z Hxy Hyz IH]; intros d Hd.
  - destruct d; simpl; [done|]. by apply resolve_hop_None in Hnf as ->.
  - destruct d; [lia|]. simpl. apply resolve_hop_owns in Hxy as ->. apply IH; [done|lia].
Qed.

(** The owner of a Job with a CronJob is that CronJob, whatever was there. *)
Lemma owns_job_cronjob name uid job :
  m.(jobMap) !! ns_name ns name = Some job -> job.(JobInfo.OwnerCronJob) <> "" ->
  exists uid', owns m ns (mkOwner "Job" name uid) (mkOwner "CronJob" job.(JobInfo.OwnerCronJob) uid').
Proof.
  intros H1 H2. destruct (m.(cronJobMap) !! ns_name ns job.(JobInfo.OwnerCronJob)) eqn:E;
    eexists; [by eapply owns_job|by eapply owns_job_unknown].
Qed.

Lemma owns_cronjob_nf name uid : nf (owns m ns) (mkOwner "CronJob" name uid).
Proof. apply resolve_hop_None. done. Qed.

Lemma owns_deployment_nf name uid : nf (owns m ns) (mkOwner "Deployment" name uid).
Proof. apply resolve_hop_None. done. Qed.
End Resolve.

(** The owner a resolved pod carries is the result of the loop. *)
Lemma pod_owner_resolveOwner (m : OwnerMaps) (pod : PodInfo.t) :
  pod.(PodInfo.OwnerKind) <> "" -> pod.(PodInfo.OwnerKind) <> "Node" ->
  pod_owner (resolveOwner m pod) =
    resolve_loop m pod.(PodInfo.Namespace) maxOwnerDepth (pod_owner pod).
Proof.
  intros H1 H2. unfold resolveOwner. rewrite !decide_False by done.
  by destruct (resolve_loop _ _ _ _).
Qed.

#[export] Hint Resolve owns_cronjob_nf owns_deployment_nf : agent.

(** A pod of a ReplicaSet that a Deployment owns ends up owned by that
    Deployment, with its name and UID, and nothing but the pod's three owner
    fields changes. *)
Lemma resolveOwner_replicaset_deployment (m : OwnerMaps) (pod : PodInfo.t) (rs : ReplicaSetInfo.t)
  (Hkind : pod.(PodInfo.OwnerKind) = kindReplicaSet)
  (Hrs : m.(rsMap) !! ns_name pod.(PodInfo.Namespace) pod.(PodInfo.OwnerName) = Some rs)
  (Hdep : rs.(ReplicaSetInfo.OwnerKind) = "Deployment") :
  resolveOwner m pod =
    pod <| PodInfo.OwnerKind := "Deployment" |>
        <| PodInfo.OwnerName := rs.(ReplicaSetInfo.OwnerName) |>
        <| PodInfo.OwnerUID := rs.(ReplicaSetInfo.OwnerUID) |>.
Proof.
  unfold resolveOwner. rewrite !decide_False by (rewrite Hkind; discriminate).
  rewrite (resolve_loop_complete _ _ _ 1 _
    (mkOwner "Deployment" rs.(ReplicaSetInfo.OwnerName) rs.(ReplicaSetInfo.OwnerUID))); [done| |..].
  - unfold maxOwnerDepth. lia.
  - eapply nsteps_once. unfold pod_owner. rewrite Hkind, <- Hdep.
    constructor; [done|]. by rewrite Hdep.
  - apply owns_deployment_nf.
Qed.

(** ** Properties *)

(** C16 resolveOwner gives a pod the owner reached by following the recorded
    ownership relation from its immediate owner: at most ten steps, and fewer
    only when the owner reached has no recorded owner. *)
Theorem resolveOwner_follows_chain (m : OwnerMaps) (pod : PodInfo.t)
  (Howned : pod.(PodInfo.OwnerKind) <> "") (Hpod : pod.(PodInfo.OwnerKind) <> "Node") :
  exists n, (n <= maxOwnerDepth)%nat /\
    nsteps (owns m pod.(PodInfo.Namespace)) n (pod_owner pod) (pod_owner (resolveOwner m pod)) /\
    (n = maxOwnerDepth \/ nf (owns m pod.(PodInfo.Namespace)) (pod_owner (resolveOwner m pod))).
Proof. rewrite pod_owner_resolveOwner by done. apply resolve_loop_steps. Qed.

Definition ex_rs : ReplicaSetInfo.t :=
  ReplicaSetInfo.zero <| ReplicaSetInfo.Name := "web-7d4" |> <| ReplicaSetInfo.Namespace := "shop" |>
    <| ReplicaSetInfo.OwnerKind := "Deployment" |> <| ReplicaSetInfo.OwnerName := "web" |>
    <| ReplicaSetInfo.OwnerUID := "u-web" |>.

Definition ex_pod : PodInfo.t :=
  PodInfo.zero <| PodInfo.Name := "web-7d4-x" |> <| PodInfo.Namespace := "shop" |>
    <| PodInfo.OwnerKind := kindReplicaSet |> <| PodInfo.OwnerName := "web-7d4" |>
    <| PodInfo.OwnerUID := "u-rs" |>.

Definition ex_maps : OwnerMaps := mkOwnerMaps (buildReplicaSetMap [ex_rs]) ∅ ∅.

Lemma resolveOwner_follows_chain_witness :
  pod_owner (resolveOwner ex_maps ex_pod) = mkOwner "Deployment" "web" "u-web" /\
  exists n, (n <= maxOwnerDepth)%nat /\
    nsteps (owns ex_maps "shop") n (pod_owner ex_pod) (pod_owner (resolveOwner ex_maps ex_pod)) /\
    (n = maxOwnerDepth \/ nf (owns ex_maps "shop") (pod_owner (resolveOwner ex_maps ex_pod))).
Proof.
  split; [vm_compute; reflexivity|].
  apply (resolveOwner_follows_chain ex_maps ex_pod); vm_compute; discriminate.
Defined.
