(* ===== verification/Aggregation.v ===== *)
(** * Aggregation (internal/enrichment/aggregation.go)

    The first enricher of the pipeline: the resource requests, limits and usage
    of the pods of each Deployment, StatefulSet, DaemonSet and Job, summed. *)

From S2P Require Import Prelude GoNum Model.
Open Scope string_scope.
Open Scope list_scope.
Open Scope Z_scope.

(** workloadKey: namespace, kind, name. *)
Abbreviation workloadKey := (string * string * string)%type.

Definition isBatchOwnerKind (ownerKind : string) : bool :=
  bool_decide (ownerKind = "Job") || bool_decide (ownerKind = "CronJob").

(** The pods the loop of [Enrich] does not skip. *)
Definition counted_pod (pod : PodInfo.t) : bool :=
  if bool_decide (pod.(PodInfo.OwnerKind) = "") then false
  else if negb (isBatchOwnerKind pod.(PodInfo.OwnerKind)) &&
          (bool_decide (pod.(PodInfo.Phase) = "Succeeded") || bool_decide (pod.(PodInfo.Phase) = "Failed"))
       then false
  else true.

Definition pod_key (pod : PodInfo.t) : workloadKey :=
  (pod.(PodInfo.Namespace), pod.(PodInfo.OwnerKind), pod.(PodInfo.OwnerName)).

(** [podsByWorkload[key] = append(podsByWorkload[key], pod)] over the pods. *)
Definition podsByWorkload (pods : list PodInfo.t) : gmap workloadKey (list PodInfo.t) :=
  foldl (fun (m : gmap workloadKey (list PodInfo.t)) pod =>
    if counted_pod pod then <[pod_key pod := default [] (m !! pod_key pod) ++ [pod]]> m else m)
    ∅ pods.

(** The six results of sumPodResources. *)
Record PodSums := mkPodSums {
  cpuReq : float64;
  memReq : int64;
  cpuLim : float64;
  memLim : int64;
  cpuUsage : option float64;
  memUsage : option int64 }.

(** Its local variables while it ranges over the containers. *)
Record SumState := mkSumState {
  a_cpuReq : float64; a_memReq : int64; a_cpuLim : float64; a_memLim : int64;
  a_cpuUse : float64; a_memUse : int64; a_hasUsage : bool }.

Definition sum_init : SumState := mkSumState f64_zero 0 f64_zero 0 f64_zero 0 false.

(** The body of the inner loop, for one container. *)
Definition sum_container (a : SumState) (c : ContainerInfo.t) : SumState :=
  let '(cpuUse, has1) := match c.(ContainerInfo.CPUUsageCores) with
    | Some u => (f64_add a.(a_cpuUse) u, true)
    | None => (a.(a_cpuUse), a.(a_hasUsage)) end in
  let '(memUse, has2) := match c.(ContainerInfo.MemoryUsageBytes) with
    | Some u => (add64 a.(a_memUse) u, true)
    | None => (a.(a_memUse), has1) end in
  mkSumState
    (f64_add a.(a_cpuReq) c.(ContainerInfo.CPURequestCores))
    (add64 a.(a_memReq) c.(ContainerInfo.MemoryRequestBytes))
    (f64_add a.(a_cpuLim) c.(ContainerInfo.CPULimitCores))
    (add64 a.(a_memLim) c.(ContainerInfo.MemoryLimitBytes))
    cpuUse memUse has2.

Definition sumPodResources (pods : list PodInfo.t) : PodSums :=
  let a := foldl (fun a pod => foldl sum_container a pod.(PodInfo.Containers)) sum_init pods in
  mkPodSums a.(a_cpuReq) a.(a_memReq) a.(a_cpuLim) a.(a_memLim)
    (if a.(a_hasUsage) then Some a.(a_cpuUse) else None)
    (if a.(a_hasUsage) then Some a.(a_memUse) else None).

Definition sumContainerSpecRequests (specs : list ContainerSpecInfo.t) : float64 * int64 :=
  foldl (fun '(cpu, mem) c =>
    (f64_add cpu c.(ContainerSpecInfo.CPURequestCores),
     add64 mem c.(ContainerSpecInfo.MemoryRequestBytes))) (f64_zero, 0) specs.

Section Enrich.
(** [podsByWorkload[key]], nil for an absent key. *)
Context (lookup_pods : workloadKey -> list PodInfo.t).

Definition aggregate_deployment (d : DeploymentInfo.t) : DeploymentInfo.t :=
  let r := sumPodResources (lookup_pods (d.(DeploymentInfo.Namespace), "Deployment", d.(DeploymentInfo.Name))) in
  d <| DeploymentInfo.TotalCPURequest := r.(cpuReq) |>
    <| DeploymentInfo.TotalMemoryRequest := r.(memReq) |>
    <| DeploymentInfo.TotalCPULimit := r.(cpuLim) |>
    <| DeploymentInfo.TotalMemoryLimit := r.(memLim) |>
    <| DeploymentInfo.TotalCPUUsage := r.(cpuUsage) |>
    <| DeploymentInfo.TotalMemoryUsage := r.(memUsage) |>.

Definition aggregate_statefulset (s : StatefulSetInfo.t) : StatefulSetInfo.t :=
  let r := sumPodResources (lookup_pods (s.(StatefulSetInfo.Namespace), "StatefulSet", s.(StatefulSetInfo.Name))) in
  s <| StatefulSetInfo.TotalCPURequest := r.(cpuReq) |>
    <| StatefulSetInfo.TotalMemoryRequest := r.(memReq) |>
    <| StatefulSetInfo.TotalCPULimit := r.(cpuLim) |>
    <| StatefulSetInfo.TotalMemoryLimit := r.(memLim) |>
    <| StatefulSetInfo.TotalCPUUsage := r.(cpuUsage) |>
    <| StatefulSetInfo.TotalMemoryUsage := r.(memUsage) |>.

Definition aggregate_daemonset (ds : DaemonSetInfo.t) : DaemonSetInfo.t :=
  let r := sumPodResources (lookup_pods (ds.(DaemonSetInfo.Namespace), "DaemonSet", ds.(DaemonSetInfo.Name))) in
  ds <| DaemonSetInfo.TotalCPURequest := r.(cpuReq) |>
    <| DaemonSetInfo.TotalMemoryRequest := r.(memReq) |>
    <| DaemonSetInfo.TotalCPULimit := r.(cpuLim) |>
    <| DaemonSetInfo.TotalMemoryLimit := r.(memLim) |>
    <| DaemonSetInfo.TotalCPUUsage := r.(cpuUsage) |>
    <| DaemonSetInfo.TotalMemoryUsage := r.(memUsage) |>.

Definition aggregate_job (j : JobInfo.t) : JobInfo.t :=
  let r := sumPodResources (lookup_pods (j.(JobInfo.Namespace), "Job", j.(JobInfo.Name))) in
  let '(cpu, mem) :=
    if f64_eqb r.(cpuReq) f64_zero && (r.(memReq) =? 0) && (0 <? golen j.(JobInfo.ContainerSpecs))
    then sumContainerSpecRequests j.(JobInfo.ContainerSpecs)
    else (r.(cpuReq), r.(memReq)) in
  j <| JobInfo.TotalCPURequest := cpu |>
    <| JobInfo.TotalMemoryRequest := mem |>
    <| JobInfo.TotalCPUUsage := r.(cpuUsage) |>
    <| JobInfo.TotalMemoryUsage := r.(memUsage) |>.
End Enrich.

Definition pods_of (pods : list PodInfo.t) (k : workloadKey) : list PodInfo.t :=
  default [] (podsByWorkload pods !! k).

(** [AggregationEnricher.Enrich]: it never fails. *)
Definition AggregationEnrich (snapshot : ClusterSnapshot.t) : ClusterSnapshot.t :=
  let look := pods_of snapshot.(ClusterSnapshot.Pods) in
  snapshot
    <| ClusterSnapshot.Deployments := aggregate_deployment look <$> snapshot.(ClusterSnapshot.Deployments) |>
    <| ClusterSnapshot.StatefulSets := aggregate_statefulset look <$> snapshot.(ClusterSnapshot.StatefulSets) |>
    <| ClusterSnapshot.DaemonSets := aggregate_daemonset look <$> snapshot.(ClusterSnapshot.DaemonSets) |>
    <| ClusterSnapshot.Jobs := aggregate_job look <$> snapshot.(ClusterSnapshot.Jobs) |>.

(** ** Reference definitions *)

(** A pod counts for the workload of a namespace, kind and name when these are
    its namespace and owner and, unless it is a batch pod, it has not finished. *)
Definition owned_by (k : workloadKey) (pod : PodInfo.t) : Prop :=
  k = (pod.(PodInfo.Namespace), pod.(PodInfo.OwnerKind), pod.(PodInfo.OwnerName)) /\
  pod.(PodInfo.OwnerKind) ≠ "" /\
  (pod.(PodInfo.OwnerKind) ∈ ["Job"; "CronJob"] \/ ~ pod.(PodInfo.Phase) ∈ ["Succeeded"; "Failed"]).

#[export] Instance owned_by_dec k pod : Decision (owned_by k pod).
Proof. unfold owned_by. solve_decision. Defined.

(** The pods of a workload, in snapshot order. *)
Definition owned_pods (pods : list PodInfo.t) (k : workloadKey) : list PodInfo.t :=
  filter (owned_by k) pods.

(** Every container of the given pods, in order. *)
Definition pod_containers (pods : list PodInfo.t) : list ContainerInfo.t :=
  pods ≫= PodInfo.Containers.

Definition has_usage (c : ContainerInfo.t) : bool :=
  match c.(ContainerInfo.CPUUsageCores), c.(ContainerInfo.MemoryUsageBytes) with
  | None, None => false
  | _, _ => true
  end.

(** The totals of a list of containers, with mathematical sums. *)
Definition container_totals (cs : list ContainerInfo.t) : PodSums := {|
  cpuReq := sumf ContainerInfo.CPURequestCores cs;
  memReq := wrap64 (sumZ ContainerInfo.MemoryRequestBytes cs);
  cpuLim := sumf ContainerInfo.CPULimitCores cs;
  memLim := wrap64 (sumZ ContainerInfo.MemoryLimitBytes cs);
  cpuUsage := if existsb has_usage cs
              then Some (sumf id (omap ContainerInfo.CPUUsageCores cs)) else None;
  memUsage := if existsb has_usage cs
              then Some (wrap64 (sumZ id (omap ContainerInfo.MemoryUsageBytes cs))) else None |}.

(** What the enricher owes a workload: the totals of the containers of its
    counted pods. *)
Definition workload_totals (pods : list PodInfo.t) (k : workloadKey) : PodSums :=
  container_totals (pod_containers (owned_pods pods k)).

(** ** Lemmas *)

Lemma podsByWorkload_snoc pods pod :
  podsByWorkload (pods ++ [pod]) =
    let m := podsByWorkload pods in
    if counted_pod pod then <[pod_key pod := default [] (m !! pod_key pod) ++ [pod]]> m else m.
Proof. unfold podsByWorkload. by rewrite foldl_app. Qed.

(** The guards of the loop are those of the definition of ownership. *)
Lemma counted_pod_owned pod k : owned_by k pod <-> counted_pod pod = true /\ pod_key pod = k.
Proof.
  unfold owned_by, counted_pod, pod_key, isBatchOwnerKind. rewrite !elem_of_cons, !elem_of_nil.
  destruct (bool_decide_reflect (PodInfo.OwnerKind pod = "")) as [E0|E0],
    (bool_decide_reflect (PodInfo.OwnerKind pod = "Job")) as [E1|E1],
    (bool_decide_reflect (PodInfo.OwnerKind pod = "CronJob")) as [E2|E2],
    (bool_decide_reflect (PodInfo.Phase pod = "Succeeded")) as [E3|E3],
    (bool_decide_reflect (PodInfo.Phase pod = "Failed")) as [E4|E4]; cbn [orb andb negb];
    intuition (congruence || auto).
Qed.

(** Grouping by key is filtering by key. *)
Lemma pods_of_owned pods k : pods_of pods k = owned_pods pods k.
Proof.
  unfold pods_of, owned_pods. induction pods as [|pod pods IH] using rev_ind; [done|].
  rewrite podsByWorkload_snoc, filter_app, <- IH. cbv zeta.
  destruct (counted_pod pod) eqn:Hc.
  - rewrite lookup_insert. destruct (decide (pod_key pod = k)) as [<-|Hk]; simpl.
    + rewrite filter_cons_True by (by apply counted_pod_owned). done.
    + rewrite filter_cons_False by (by intros [_ ?]%counted_pod_owned). by rewrite app_nil_r.
  - rewrite filter_cons_False by (rewrite counted_pod_owned, Hc; by intros [? _]). by rewrite app_nil_r.
Qed.

Lemma foldl_containers {A} (f : A -> ContainerInfo.t -> A) pods a :
  foldl (fun a pod => foldl f a pod.(PodInfo.Containers)) a pods = foldl f a (pod_containers pods).
Proof.
  revert a. induction pods as [|pod pods IH]; intros a; simpl; [done|].
  by rewrite IH, foldl_app.
Qed.

(** The invariant of the summing loop. *)
Lemma sum_container_foldl cs a :
  let r := foldl sum_container a cs in
  r.(a_cpuReq) = foldl (fun x c => f64_add x c.(ContainerInfo.CPURequestCores)) a.(a_cpuReq) cs /\
  r.(a_memReq) = foldl (fun x c => add64 x c.(ContainerInfo.MemoryRequestBytes)) a.(a_memReq) cs /\
  r.(a_cpuLim) = foldl (fun x c => f64_add x c.(ContainerInfo.CPULimitCores)) a.(a_cpuLim) cs /\
  r.(a_memLim) = foldl (fun x c => add64 x c.(ContainerInfo.MemoryLimitBytes)) a.(a_memLim) cs /\
  r.(a_cpuUse) = foldl f64_add a.(a_cpuUse) (omap ContainerInfo.CPUUsageCores cs) /\
  r.(a_memUse) = foldl add64 a.(a_memUse) (omap ContainerInfo.MemoryUsageBytes cs) /\
  r.(a_hasUsage) = a.(a_hasUsage) || existsb has_usage cs.
Proof.
  revert a. induction cs as [|c cs IH]; intros a; simpl.
  - by rewrite orb_false_r.
  - specialize (IH (sum_container a c)). simpl in IH.
    destruct IH as (-> & -> & -> & -> & -> & -> & ->).
    unfold sum_container, has_usage.
    destruct (ContainerInfo.CPUUsageCores c), (ContainerInfo.MemoryUsageBytes c); simpl;
      repeat split; by rewrite ?orb_true_r.
Qed.

Lemma sumPodResources_spec pods : sumPodResources pods = container_totals (pod_containers pods).
Proof.
  unfold sumPodResources, container_totals. rewrite foldl_containers, <- !sum64_wrap.
  destruct (sum_container_foldl (pod_containers pods) sum_init) as (-> & -> & -> & -> & -> & -> & ->).
  done.
Qed.

Lemma PodSums_eta (r : PodSums) :
  r = mkPodSums r.(cpuReq) r.(memReq) r.(cpuLim) r.(memLim) r.(cpuUsage) r.(memUsage).
Proof. by destruct r. Qed.

Lemma sumContainerSpecRequests_spec specs :
  sumContainerSpecRequests specs =
    (sumf ContainerSpecInfo.CPURequestCores specs, sum64 ContainerSpecInfo.MemoryRequestBytes specs).
Proof.
  unfold sumContainerSpecRequests, sumf, sum64. generalize f64_zero 0.
  induction specs as [|c specs IH]; intros cpu mem; simpl; [done|]. apply IH.
Qed.

Lemma sumPodResources_pods_of pods k : sumPodResources (pods_of pods k) = workload_totals pods k.
Proof. by rewrite pods_of_owned, sumPodResources_spec. Qed.

Lemma container_totals_no_usage cs :
  existsb has_usage cs = false ->
  cpuUsage (container_totals cs) = None /\ memUsage (container_totals cs) = None.
Proof. unfold container_totals; simpl. by intros ->. Qed.

#[export] Instance owned_pods_perm :
  Proper ((≡ₚ) ==> eq ==> (≡ₚ)) owned_pods.
Proof. intros l1 l2 Hl k ? <-. unfold owned_pods. by rewrite Hl. Qed.

#[export] Instance pod_containers_perm : Proper ((≡ₚ) ==> (≡ₚ)) pod_containers.
Proof. intros l1 l2 Hl. unfold pod_containers. by rewrite Hl. Qed.

Lemma existsb_perm {A} (f : A -> bool) l1 l2 : l1 ≡ₚ l2 -> existsb f l1 = existsb f l2.
Proof.
  induction 1; simpl; [done|congruence| |congruence].
  by rewrite !orb_assoc, (orb_comm (f y)).
Qed.

(** A Job none of whose pods is left: its totals. *)
Lemma job_fallback_spec (pods : list PodInfo.t) (j : JobInfo.t)
  (Hnone : owned_pods pods (j.(JobInfo.Namespace), "Job", j.(JobInfo.Name)) = [])
  (Hspecs : j.(JobInfo.ContainerSpecs) <> []) :
  let j' := aggregate_job (pods_of pods) j in
  j'.(JobInfo.TotalCPURequest) = sumf ContainerSpecInfo.CPURequestCores j.(JobInfo.ContainerSpecs) /\
  j'.(JobInfo.TotalMemoryRequest) =
    wrap64 (sumZ ContainerSpecInfo.MemoryRequestBytes j.(JobInfo.ContainerSpecs)) /\
  j'.(JobInfo.TotalCPUUsage) = None /\ j'.(JobInfo.TotalMemoryUsage) = None.
Proof.
  cbv zeta. unfold aggregate_job. rewrite pods_of_owned, Hnone.
  replace (0 <? golen j.(JobInfo.ContainerSpecs)) with true
    by (destruct (JobInfo.ContainerSpecs j); [done|]; symmetry; by apply Z.ltb_lt).
  simpl. rewrite sumContainerSpecRequests_spec. simpl. by rewrite sum64_wrap.
Qed.

#[export] Hint Rewrite pods_of_owned sumPodResources_pods_of : agent.

(** ** Properties *)

(** C17 After aggregation every Deployment, StatefulSet and DaemonSet carries
    the totals of the containers of exactly its own pods: same namespace, owner
    kind and owner name, and neither Succeeded nor Failed.  Byte totals are the
    mathematical sums at 64 bits, cores are summed in pod order, and usage is
    present exactly when one of those containers has a metric. *)
Theorem AggregationEnrich_totals (snapshot : ClusterSnapshot.t) (i : nat) :
  let pods := snapshot.(ClusterSnapshot.Pods) in
  let out := AggregationEnrich snapshot in
  (forall d, snapshot.(ClusterSnapshot.Deployments) !! i = Some d ->
     exists d', out.(ClusterSnapshot.Deployments) !! i = Some d' /\
       mkPodSums d'.(DeploymentInfo.TotalCPURequest) d'.(DeploymentInfo.TotalMemoryRequest)
         d'.(DeploymentInfo.TotalCPULimit) d'.(DeploymentInfo.TotalMemoryLimit)
         d'.(DeploymentInfo.TotalCPUUsage) d'.(DeploymentInfo.TotalMemoryUsage) =
       workload_totals pods (d.(DeploymentInfo.Namespace), "Deployment", d.(DeploymentInfo.Name))) /\
  (forall s, snapshot.(ClusterSnapshot.StatefulSets) !! i = Some s ->
     exists s', out.(ClusterSnapshot.StatefulSets) !! i = Some s' /\
       mkPodSums s'.(StatefulSetInfo.TotalCPURequest) s'.(StatefulSetInfo.TotalMemoryRequest)
         s'.(StatefulSetInfo.TotalCPULimit) s'.(StatefulSetInfo.TotalMemoryLimit)
         s'.(StatefulSetInfo.TotalCPUUsage) s'.(StatefulSetInfo.TotalMemoryUsage) =
       workload_totals pods (s.(StatefulSetInfo.Namespace), "StatefulSet", s.(StatefulSetInfo.Name))) /\
  (forall ds, snapshot.(ClusterSnapshot.DaemonSets) !! i = Some ds ->
     exists ds', out.(ClusterSnapshot.DaemonSets) !! i = Some ds' /\
       mkPodSums ds'.(DaemonSetInfo.TotalCPURequest) ds'.(DaemonSetInfo.TotalMemoryRequest)
         ds'.(DaemonSetInfo.TotalCPULimit) ds'.(DaemonSetInfo.TotalMemoryLimit)
         ds'.(DaemonSetInfo.TotalCPUUsage) ds'.(DaemonSetInfo.TotalMemoryUsage) =
       workload_totals pods (ds.(DaemonSetInfo.Namespace), "DaemonSet", ds.(DaemonSetInfo.Name))).
Proof.
  cbv zeta. split_and!; intros w Hw; eexists; simpl;
    (split; [by rewrite list_lookup_fmap, Hw|]);
    rewrite <- sumPodResources_pods_of; symmetry; apply PodSums_eta.
Qed.

(** A Deployment of one pod with one container, next to a finished pod. *)
Definition ex_container : ContainerInfo.t :=
  ContainerInfo.zero <| ContainerInfo.MemoryRequestBytes := 1024 |>
    <| ContainerInfo.MemoryUsageBytes := Some 512 |>.

Definition ex_web_pod (phase : string) : PodInfo.t :=
  PodInfo.zero <| PodInfo.Namespace := "shop" |> <| PodInfo.Phase := phase |>
    <| PodInfo.OwnerKind := "Deployment" |> <| PodInfo.OwnerName := "web" |>
    <| PodInfo.Containers := [ex_container] |>.

Definition ex_web : DeploymentInfo.t :=
  DeploymentInfo.zero <| DeploymentInfo.Namespace := "shop" |> <| DeploymentInfo.Name := "web" |>.

Definition ex_snapshot : ClusterSnapshot.t :=
  ClusterSnapshot.zero <| ClusterSnapshot.Pods := [ex_web_pod "Running"; ex_web_pod "Failed"] |>
    <| ClusterSnapshot.Deployments := [ex_web] |>.

Lemma AggregationEnrich_totals_witness :
  exists d', (AggregationEnrich ex_snapshot).(ClusterSnapshot.Deployments) !! 0%nat = Some d' /\
    d'.(DeploymentInfo.TotalMemoryRequest) = 1024 /\
    d'.(DeploymentInfo.TotalMemoryUsage) = Some 512.
Proof.
  destruct (AggregationEnrich_totals ex_snapshot 0) as [H _].
  destruct (H ex_web eq_refl) as (d' & Hd & Ht). exists d'. split; [exact Hd|].
  assert (Hv : workload_totals (ClusterSnapshot.Pods ex_snapshot) ("shop", "Deployment", "web") =
    mkPodSums f64_zero 1024 f64_zero 0 (Some f64_zero) (Some 512)) by (vm_compute; reflexivity).
  split; [exact (f_equal memReq (eq_trans Ht Hv))|exact (f_equal memUsage (eq_trans Ht Hv))].
Defined.

(** A Job none of whose pods is left gets the requests of its pod template
    and no usage. *)
Theorem aggregate_job_fallback (pods : list PodInfo.t) (j : JobInfo.t)
  (Hnone : owned_pods pods (j.(JobInfo.Namespace), "Job", j.(JobInfo.Name)) = [])
  (Hspecs : j.(JobInfo.ContainerSpecs) <> []) :
  let j' := aggregate_job (pods_of pods) j in
  j'.(JobInfo.TotalCPURequest) = sumf ContainerSpecInfo.CPURequestCores j.(JobInfo.ContainerSpecs) /\
  j'.(JobInfo.TotalMemoryRequest) =
    wrap64 (sumZ ContainerSpecInfo.MemoryRequestBytes j.(JobInfo.ContainerSpecs)) /\
  j'.(JobInfo.TotalCPUUsage) = None /\ j'.(JobInfo.TotalMemoryUsage) = None.
Proof. by apply job_fallback_spec. Qed.

Definition ex_job : JobInfo.t :=
  JobInfo.zero <| JobInfo.Namespace := "shop" |> <| JobInfo.Name := "backup-1" |>
    <| JobInfo.ContainerSpecs :=
      [ContainerSpecInfo.zero <| ContainerSpecInfo.MemoryRequestBytes := 2048 |>] |>.

Lemma aggregate_job_fallback_witness :
  (aggregate_job (pods_of []) ex_job).(JobInfo.TotalMemoryRequest) = 2048.
Proof.
  destruct (aggregate_job_fallback [] ex_job eq_refl ltac:(discriminate)) as (_ & -> & _).
  vm_compute. reflexivity.
Defined.

(** The order in which the stores enumerate the pods does not matter for
    a workload's byte totals, nor for whether it has usage. *)
Theorem workload_bytes_order_independent (pods pods' : list PodInfo.t) (k : workloadKey)
  (Hperm : pods ≡ₚ pods') :
  memReq (sumPodResources (pods_of pods k)) = memReq (sumPodResources (pods_of pods' k)) /\
  memLim (sumPodResources (pods_of pods k)) = memLim (sumPodResources (pods_of pods' k)) /\
  memUsage (sumPodResources (pods_of pods k)) = memUsage (sumPodResources (pods_of pods' k)) /\
  (cpuUsage (sumPodResources (pods_of pods k)) = None <->
   cpuUsage (sumPodResources (pods_of pods' k)) = None).
Proof.
  rewrite !sumPodResources_pods_of. unfold workload_totals.
  assert (Hc : pod_containers (owned_pods pods k) ≡ₚ pod_containers (owned_pods pods' k))
    by by rewrite Hperm.
  unfold container_totals; simpl. rewrite (existsb_perm _ _ _ Hc).
  split_and!; [by rewrite Hc..| |by destruct (existsb _ _)].
  destruct (existsb _ _); [|done]. by rewrite Hc.
Qed.

Lemma workload_bytes_order_independent_witness :
  memReq (sumPodResources (pods_of [ex_web_pod "Failed"; ex_web_pod "Running"] ("shop", "Deployment", "web")))
    = 1024.
Proof.
  destruct (workload_bytes_order_independent
    [ex_web_pod "Running"; ex_web_pod "Failed"] [ex_web_pod "Failed"; ex_web_pod "Running"]
    ("shop", "Deployment", "web") (perm_swap _ _ _)) as [H _].
  rewrite <- H. vm_compute. reflexivity.
Defined.
