(* ===== verification/ConvertWorkload.v ===== *)
(** * Conversion of workloads: internal/convert/workload.go

    Deployments, StatefulSets, DaemonSets and ReplicaSets.  The totals are left
    to the aggregation enricher. *)

From S2P Require Import Prelude GoNum GoStrings Model K8s ConvertHelpers ConvertNode ConvertPod.
From S2P Require Import Aggregation.
Open Scope string_scope.
Open Scope list_scope.
Open Scope Z_scope.

Definition extractContainerSpecs (containers : list Container.t) : list ContainerSpecInfo.t :=
  (fun c => {|
     ContainerSpecInfo.Name := c.(Container.Name);
     ContainerSpecInfo.Image := c.(Container.Image);
     ContainerSpecInfo.CPURequestCores := ParseQuantity (resourceQuantity c.(Container.Requests) ResourceCPU);
     ContainerSpecInfo.MemoryRequestBytes := quantityValue c.(Container.Requests) ResourceMemory;
     ContainerSpecInfo.CPULimitCores := ParseQuantity (resourceQuantity c.(Container.Limits) ResourceCPU);
     ContainerSpecInfo.MemoryLimitBytes := quantityValue c.(Container.Limits) ResourceMemory;
     ContainerSpecInfo.GPURequest := quantityValue c.(Container.Requests) nvidia_gpu;
     ContainerSpecInfo.GPULimit := quantityValue c.(Container.Limits) nvidia_gpu |}) <$> containers.

(** [convertDeploymentConditions], [convertStatefulSetConditions] and
    [convertDaemonSetConditions]: the same loop over three types. *)
Definition convertWorkloadConditions (conditions : list Condition.t) : list WorkloadConditionInfo.t :=
  (fun c => WorkloadConditionInfo.mk c.(Condition.Type_) c.(Condition.Status)
              c.(Condition.Reason) c.(Condition.Message)) <$> conditions.

(** The replicas asked for: one when the spec does not say. *)
Definition replicas_of (replicas : option int32) : int32 := default 1 replicas.

(** [if spec.Selector != nil { info.Selector = spec.Selector.MatchLabels }] *)
Definition selector_of (s : option LabelSelector.t) : gomap string :=
  match s with Some s => s.(LabelSelector.MatchLabels) | None => None end.

Definition DeploymentToModel (dep : Deployment.t) : DeploymentInfo.t :=
  let meta := dep.(Deployment.Meta) in
  let spec := dep.(Deployment.Spec) in
  let status := dep.(Deployment.Status) in
  let strategy := spec.(DeploymentSpec.Strategy) in
  let '(maxSurge, maxUnavailable) :=
    match strategy.(DeploymentStrategy.RollingUpdate) with
    | Some ru => (default "" ru.(RollingUpdateDeployment.MaxSurge),
                  default "" ru.(RollingUpdateDeployment.MaxUnavailable))
    | None => ("", "")
    end in
  {| DeploymentInfo.Name := meta.(ObjectMeta.Name);
     DeploymentInfo.UID := meta.(ObjectMeta.UID);
     DeploymentInfo.Namespace := meta.(ObjectMeta.Namespace);
     DeploymentInfo.Replicas := replicas_of spec.(DeploymentSpec.Replicas);
     DeploymentInfo.ReadyReplicas := status.(DeploymentStatus.ReadyReplicas);
     DeploymentInfo.AvailableReplicas := status.(DeploymentStatus.AvailableReplicas);
     DeploymentInfo.UnavailableReplicas := status.(DeploymentStatus.UnavailableReplicas);
     DeploymentInfo.UpdatedReplicas := status.(DeploymentStatus.UpdatedReplicas);
     DeploymentInfo.Strategy := strategy.(DeploymentStrategy.Type_);
     DeploymentInfo.MaxSurge := maxSurge;
     DeploymentInfo.MaxUnavailable := maxUnavailable;
     DeploymentInfo.TotalCPURequest := f64_zero;
     DeploymentInfo.TotalMemoryRequest := 0;
     DeploymentInfo.TotalCPULimit := f64_zero;
     DeploymentInfo.TotalMemoryLimit := 0;
     DeploymentInfo.TotalCPUUsage := None;
     DeploymentInfo.TotalMemoryUsage := None;
     DeploymentInfo.ContainerSpecs := extractContainerSpecs spec.(DeploymentSpec.Template);
     DeploymentInfo.Selector := selector_of spec.(DeploymentSpec.Selector);
     DeploymentInfo.Labels := meta.(ObjectMeta.Labels);
     DeploymentInfo.Annotations := FilterAnnotations meta.(ObjectMeta.Annotations);
     DeploymentInfo.CreationTimestamp := unix_milli meta.(ObjectMeta.CreationTimestamp);
     DeploymentInfo.Conditions := convertWorkloadConditions status.(DeploymentStatus.Conditions);
     DeploymentInfo.Paused := spec.(DeploymentSpec.Paused) |}.

Definition StatefulSetToModel (ss : StatefulSet.t) : StatefulSetInfo.t :=
  let meta := ss.(StatefulSet.Meta) in
  let spec := ss.(StatefulSet.Spec) in
  let status := ss.(StatefulSet.Status) in
  let strategy := spec.(StatefulSetSpec.UpdateStrategy) in
  {| StatefulSetInfo.Name := meta.(ObjectMeta.Name);
     StatefulSetInfo.UID := meta.(ObjectMeta.UID);
     StatefulSetInfo.Namespace := meta.(ObjectMeta.Namespace);
     StatefulSetInfo.Replicas := replicas_of spec.(StatefulSetSpec.Replicas);
     StatefulSetInfo.ReadyReplicas := status.(StatefulSetStatus.ReadyReplicas);
     StatefulSetInfo.AvailableReplicas := status.(StatefulSetStatus.AvailableReplicas);
     StatefulSetInfo.UpdatedReplicas := status.(StatefulSetStatus.UpdatedReplicas);
     StatefulSetInfo.Strategy := strategy.(StatefulSetUpdateStrategy.Type_);
     StatefulSetInfo.ServiceName := spec.(StatefulSetSpec.ServiceName);
     StatefulSetInfo.PodManagementPolicy := spec.(StatefulSetSpec.PodManagementPolicy);
     StatefulSetInfo.VolumeClaimTemplates := spec.(StatefulSetSpec.VolumeClaimTemplates);
     StatefulSetInfo.TotalCPURequest := f64_zero;
     StatefulSetInfo.TotalMemoryRequest := 0;
     StatefulSetInfo.TotalCPULimit := f64_zero;
     StatefulSetInfo.TotalMemoryLimit := 0;
     StatefulSetInfo.TotalCPUUsage := None;
     StatefulSetInfo.TotalMemoryUsage := None;
     StatefulSetInfo.ContainerSpecs := extractContainerSpecs spec.(StatefulSetSpec.Template);
     StatefulSetInfo.Selector := selector_of spec.(StatefulSetSpec.Selector);
     StatefulSetInfo.Labels := meta.(ObjectMeta.Labels);
     StatefulSetInfo.Annotations := FilterAnnotations meta.(ObjectMeta.Annotations);
     StatefulSetInfo.CreationTimestamp := unix_milli meta.(ObjectMeta.CreationTimestamp);
     StatefulSetInfo.Partition := mjoin strategy.(StatefulSetUpdateStrategy.RollingUpdate);
     StatefulSetInfo.Conditions := convertWorkloadConditions status.(StatefulSetStatus.Conditions) |}.

Definition DaemonSetToModel (ds : DaemonSet.t) : DaemonSetInfo.t :=
  let meta := ds.(DaemonSet.Meta) in
  let spec := ds.(DaemonSet.Spec) in
  let status := ds.(DaemonSet.Status) in
  {| DaemonSetInfo.Name := meta.(ObjectMeta.Name);
     DaemonSetInfo.UID := meta.(ObjectMeta.UID);
     DaemonSetInfo.Namespace := meta.(ObjectMeta.Namespace);
     DaemonSetInfo.DesiredNumberScheduled := status.(DaemonSetStatus.DesiredNumberScheduled);
     DaemonSetInfo.CurrentNumberScheduled := status.(DaemonSetStatus.CurrentNumberScheduled);
     DaemonSetInfo.NumberReady := status.(DaemonSetStatus.NumberReady);
     DaemonSetInfo.NumberMisscheduled := status.(DaemonSetStatus.NumberMisscheduled);
     DaemonSetInfo.UpdatedNumberScheduled := status.(DaemonSetStatus.UpdatedNumberScheduled);
     DaemonSetInfo.NumberUnavailable := status.(DaemonSetStatus.NumberUnavailable);
     DaemonSetInfo.NumberAvailable := status.(DaemonSetStatus.NumberAvailable);
     DaemonSetInfo.Strategy := spec.(DaemonSetSpec.UpdateStrategyType);
     DaemonSetInfo.TotalCPURequest := f64_zero;
     DaemonSetInfo.TotalMemoryRequest := 0;
     DaemonSetInfo.TotalCPULimit := f64_zero;
     DaemonSetInfo.TotalMemoryLimit := 0;
     DaemonSetInfo.TotalCPUUsage := None;
     DaemonSetInfo.TotalMemoryUsage := None;
     DaemonSetInfo.ContainerSpecs := extractContainerSpecs spec.(DaemonSetSpec.Template);
     DaemonSetInfo.Selector := selector_of spec.(DaemonSetSpec.Selector);
     DaemonSetInfo.Labels := meta.(ObjectMeta.Labels);
     DaemonSetInfo.Annotations := FilterAnnotations meta.(ObjectMeta.Annotations);
     DaemonSetInfo.CreationTimestamp := unix_milli meta.(ObjectMeta.CreationTimestamp);
     DaemonSetInfo.Conditions := convertWorkloadConditions status.(DaemonSetStatus.Conditions) |}.

Definition ReplicaSetToModel (rs : ReplicaSet.t) : ReplicaSetInfo.t :=
  let meta := rs.(ReplicaSet.Meta) in
  let '(ownerKind, ownerName, ownerUID) := first_owner meta.(ObjectMeta.OwnerReferences) in
  {| ReplicaSetInfo.Name := meta.(ObjectMeta.Name);
     ReplicaSetInfo.Namespace := meta.(ObjectMeta.Namespace);
     ReplicaSetInfo.Replicas := replicas_of rs.(ReplicaSet.Replicas);
     ReplicaSetInfo.ReadyReplicas := rs.(ReplicaSet.ReadyReplicas);
     ReplicaSetInfo.OwnerKind := ownerKind;
     ReplicaSetInfo.OwnerName := ownerName;
     ReplicaSetInfo.OwnerUID := ownerUID;
     ReplicaSetInfo.Selector := selector_of rs.(ReplicaSet.Selector);
     ReplicaSetInfo.Labels := meta.(ObjectMeta.Labels);
     ReplicaSetInfo.CreationTimestamp := unix_milli meta.(ObjectMeta.CreationTimestamp) |}.

(** ** Lemmas *)

Lemma DeploymentToModel_meta dep :
  (DeploymentToModel dep).(DeploymentInfo.Name) = dep.(Deployment.Meta).(ObjectMeta.Name) /\
  (DeploymentToModel dep).(DeploymentInfo.Namespace) = dep.(Deployment.Meta).(ObjectMeta.Namespace) /\
  (DeploymentToModel dep).(DeploymentInfo.UID) = dep.(Deployment.Meta).(ObjectMeta.UID).
Proof.
  unfold DeploymentToModel. by destruct (DeploymentStrategy.RollingUpdate _) as [[??]|].
Qed.

Lemma ReplicaSetToModel_meta rs :
  (ReplicaSetToModel rs).(ReplicaSetInfo.Name) = rs.(ReplicaSet.Meta).(ObjectMeta.Name) /\
  (ReplicaSetToModel rs).(ReplicaSetInfo.Namespace) = rs.(ReplicaSet.Meta).(ObjectMeta.Namespace).
Proof. unfold ReplicaSetToModel. by destruct (first_owner _) as [[??]?]. Qed.

(** The containers of pods made from a template, all of them. *)
Lemma pod_containers_template (pods : list Pod.t) (cs : list Container.t) :
  (forall p, p ∈ pods -> p.(Pod.Spec).(PodSpec.Containers) = cs) ->
  pod_containers (PodToModel <$> pods) =
    concat ((fun p => convertContainers cs (buildStatusMap p.(Pod.Status).(PodStatus.ContainerStatuses))) <$> pods).
Proof.
  unfold pod_containers. induction pods as [|p pods IH]; intros Hcs; [done|].
  rewrite !fmap_cons, bind_cons, PodToModel_containers, (Hcs p), IH; [done| |by left].
  intros p' Hp'. apply Hcs. by right.
Qed.

(** A converted container asks for what its template's spec says, and has no
    usage. *)
Lemma convertContainers_spec cs statuses :
  ContainerInfo.CPURequestCores <$> convertContainers cs statuses =
    ContainerSpecInfo.CPURequestCores <$> extractContainerSpecs cs /\
  ContainerInfo.MemoryRequestBytes <$> convertContainers cs statuses =
    ContainerSpecInfo.MemoryRequestBytes <$> extractContainerSpecs cs /\
  existsb has_usage (convertContainers cs statuses) = false.
Proof.
  unfold convertContainers, extractContainerSpecs. induction cs as [|c cs IH]; [done|].
  destruct IH as (IH1 & IH2 & IH3). cbn [fmap list_fmap existsb].
  assert (forall st has, let c' := containerToModel st c has in
    c'.(ContainerInfo.CPURequestCores) = ParseQuantity (resourceQuantity c.(Container.Requests) ResourceCPU) /\
    c'.(ContainerInfo.MemoryRequestBytes) = quantityValue c.(Container.Requests) ResourceMemory /\
    has_usage c' = false) as Hc.
  { intros st has. destruct (containerToModel_resources st c has) as (_ & H1 & H2 & H3 & H4).
    cbv zeta. unfold has_usage. by rewrite H1, H2, H3, H4. }
  destruct (statuses !! Container.Name c) as [st|];
    [destruct (Hc st true) as (H1 & H2 & H3)|destruct (Hc ContainerStatus.zero false) as (H1 & H2 & H3)];
    rewrite H1, H2, H3; split_and!; [by f_equal|by f_equal|done|by f_equal|by f_equal|done].
Qed.

(** ** Properties *)

(** C39 The requests aggregated from live pods agree with the template's: pods
    made from one template ask together for their number times the template's
    bytes (at 64 bits), a single pod for exactly the template's cores and bytes,
    and they have no usage before metrics are merged. *)
Theorem template_requests_agree (pods : list Pod.t) (cs : list Container.t) :
  (forall p, p ∈ pods -> p.(Pod.Spec).(PodSpec.Containers) = cs) ->
  let r := sumPodResources (PodToModel <$> pods) in
  let '(cpu, mem) := sumContainerSpecRequests (extractContainerSpecs cs) in
  r.(memReq) = wrap64 (golen pods * mem) /\
  (length pods = 1%nat -> r.(cpuReq) = cpu /\ r.(memReq) = mem) /\
  r.(cpuUsage) = None /\ r.(memUsage) = None.
Proof.
  intros Hcs r. rewrite sumContainerSpecRequests_spec, sum64_wrap.
  subst r. rewrite sumPodResources_spec, (pod_containers_template pods cs Hcs).
  set (conv := fun p => convertContainers cs (buildStatusMap p.(Pod.Status).(PodStatus.ContainerStatuses))).
  set (mem := sumZ _ _).
  assert (forall p, sumZ ContainerInfo.MemoryRequestBytes (conv p) = mem) as Hm.
  { intros p. unfold mem, conv. rewrite sumZ_fmap, (sumZ_fmap ContainerSpecInfo.MemoryRequestBytes).
    by destruct (convertContainers_spec cs (buildStatusMap p.(Pod.Status).(PodStatus.ContainerStatuses)))
      as (_ & -> & _). }
  assert (sumZ ContainerInfo.MemoryRequestBytes (concat (conv <$> pods)) = golen pods * mem) as Hsum.
  { clear -Hm. unfold golen. induction pods as [|p pods IH]; [done|].
    cbn [fmap list_fmap concat]. rewrite sumZ_app, Hm, IH. simpl length. lia. }
  assert (existsb has_usage (concat (conv <$> pods)) = false) as Hu.
  { clear. induction pods as [|p pods IH]; [done|]. cbn [fmap list_fmap concat].
    rewrite existsb_app, IH, orb_false_r. unfold conv. by destruct (convertContainers_spec cs
      (buildStatusMap p.(Pod.Status).(PodStatus.ContainerStatuses))) as (_ & _ & ?). }
  split_and!.
  - cbn [container_totals memReq]. rewrite Hsum. symmetry. rewrite Z.mul_comm.
    destruct (wrap64_spec mem) as [k ->]. apply wrap64_eq with (k * golen pods). lia.
  - destruct pods as [|p [|??]]; try done. intros _. cbn [container_totals memReq cpuReq].
    rewrite Hsum. cbn [fmap list_fmap concat]. rewrite app_nil_r. split.
    + unfold conv. rewrite sumf_fmap, (sumf_fmap ContainerSpecInfo.CPURequestCores).
      by destruct (convertContainers_spec cs (buildStatusMap p.(Pod.Status).(PodStatus.ContainerStatuses)))
        as (-> & _).
    + f_equal. unfold golen. simpl length. lia.
  - by apply container_totals_no_usage.
  - by apply container_totals_no_usage.
Qed.

(** ** Witnesses *)

Definition ex_template : list Container.t := [
  Container.mk "app" "app:1"
    (Some {[ ResourceCPU := Quantity.mk 1 (f64_div (f64_of_Z 1) (f64_of_Z 2)) "500m";
             ResourceMemory := Quantity.mk 1048576 (f64_of_Z 1048576) "1Mi" ]}) None [];
  Container.mk "sidecar" "proxy:2" None None [] ].

Definition ex_k8s_pod (name : string) : Pod.t := {|
  Pod.Meta := ObjectMeta.mk name "shop" ("uid-" +:+ name) None None 0 [];
  Pod.Spec := PodSpec.mk [] [] ex_template "" "" false "" "" None;
  Pod.Status := PodStatus.mk "Running" [] "" "" "" []
    [ContainerStatus.mk "app" (ContainerState.mk None true None) (ContainerState.mk None false None)
       true 0 "sha" None] "" |}.

Lemma template_requests_agree_witness :
  (sumPodResources (PodToModel <$> [ex_k8s_pod "a"; ex_k8s_pod "b"])).(memReq) = 2097152.
Proof.
  destruct (template_requests_agree [ex_k8s_pod "a"; ex_k8s_pod "b"] ex_template) as (H & _).
  - intros p Hp. by repeat (apply elem_of_cons in Hp as [->|Hp]; [reflexivity|]);
      apply not_elem_of_nil in Hp.
  - rewrite H. by vm_compute.
Defined.
