(* ===== verification/ConvertCluster.v ===== *)
(** * Conversion of scheduling and storage objects: internal/convert/scheduling.go, storage.go

    Priority classes, limit ranges, quotas and namespaces; volumes, claims and
    storage classes. *)

From S2P Require Import Prelude GoNum GoStrings Model K8s ConvertHelpers.
Open Scope string_scope.
Open Scope list_scope.
Open Scope Z_scope.

(** ** scheduling.go *)

Definition PriorityClassToModel (pc : PriorityClass.t) : PriorityClassInfo.t :=
  {| PriorityClassInfo.Name := pc.(PriorityClass.Meta).(ObjectMeta.Name);
     PriorityClassInfo.Value := pc.(PriorityClass.Value);
     PriorityClassInfo.GlobalDefault := pc.(PriorityClass.GlobalDefault);
     PriorityClassInfo.PreemptionPolicy := default "" pc.(PriorityClass.PreemptionPolicy);
     PriorityClassInfo.Description := pc.(PriorityClass.Description) |}.

(** An empty list gives the nil map; otherwise the loop copies every entry. *)
Definition resourceListToStringMap (rl : ResourceList) : gomap string :=
  if mlen rl =? 0 then None else Some (Quantity.String_ <$> mentries rl).

Definition limit_item (l : LimitRangeItem.t) : LimitRangeItemInfo.t :=
  {| LimitRangeItemInfo.Type_ := l.(LimitRangeItem.Type_);
     LimitRangeItemInfo.Default := resourceListToStringMap l.(LimitRangeItem.Default);
     LimitRangeItemInfo.DefaultRequest := resourceListToStringMap l.(LimitRangeItem.DefaultRequest);
     LimitRangeItemInfo.Max := resourceListToStringMap l.(LimitRangeItem.Max);
     LimitRangeItemInfo.Min := resourceListToStringMap l.(LimitRangeItem.Min);
     LimitRangeItemInfo.MaxLimitRequestRatio :=
       resourceListToStringMap l.(LimitRangeItem.MaxLimitRequestRatio) |}.

Definition LimitRangeToModel (lr : LimitRange.t) : LimitRangeInfo.t :=
  {| LimitRangeInfo.Name := lr.(LimitRange.Meta).(ObjectMeta.Name);
     LimitRangeInfo.Namespace := lr.(LimitRange.Meta).(ObjectMeta.Namespace);
     LimitRangeInfo.Limits := limit_item <$> lr.(LimitRange.Limits) |}.

Definition ResourceQuotaToModel (rq : ResourceQuota.t) : ResourceQuotaInfo.t :=
  {| ResourceQuotaInfo.Name := rq.(ResourceQuota.Meta).(ObjectMeta.Name);
     ResourceQuotaInfo.Namespace := rq.(ResourceQuota.Meta).(ObjectMeta.Namespace);
     ResourceQuotaInfo.Hard := resourceListToStringMap rq.(ResourceQuota.Hard);
     ResourceQuotaInfo.Used := resourceListToStringMap rq.(ResourceQuota.Used);
     ResourceQuotaInfo.Labels := rq.(ResourceQuota.Meta).(ObjectMeta.Labels) |}.

Definition NamespaceToModel (ns : Namespace.t) : NamespaceInfo.t :=
  let meta := ns.(Namespace.Meta) in
  {| NamespaceInfo.Name := meta.(ObjectMeta.Name);
     NamespaceInfo.Phase := ns.(Namespace.Phase);
     NamespaceInfo.Labels := meta.(ObjectMeta.Labels);
     NamespaceInfo.Annotations := FilterAnnotations meta.(ObjectMeta.Annotations);
     NamespaceInfo.CreationTimestamp := unix_milli meta.(ObjectMeta.CreationTimestamp) |}.

(** ** storage.go *)

Definition ResourceStorage := "storage".

(** The first source that is set, in the order of the switch. *)
Definition extractPVSource (spec : PersistentVolumeSpec.t) : PVSourceInfo.t :=
  let src ty := PVSourceInfo.mk ty "" "" "" "" 0 "" "" in
  match spec.(PersistentVolumeSpec.CSI), spec.(PersistentVolumeSpec.AWSElasticBlockStore),
        spec.(PersistentVolumeSpec.NFS) with
  | Some csi, _, _ =>
      PVSourceInfo.mk "csi" csi.(CSIPersistentVolumeSource.Driver)
        csi.(CSIPersistentVolumeSource.VolumeHandle) csi.(CSIPersistentVolumeSource.FSType) "" 0 "" ""
  | None, Some ebs, _ =>
      PVSourceInfo.mk "awsElasticBlockStore" "" "" "" ebs.(AWSElasticBlockStoreVolumeSource.VolumeID)
        ebs.(AWSElasticBlockStoreVolumeSource.Partition) "" ""
  | None, None, Some nfs =>
      PVSourceInfo.mk "nfs" "" "" "" "" 0 nfs.(NFSVolumeSource.Server) nfs.(NFSVolumeSource.Path)
  | None, None, None =>
      if spec.(PersistentVolumeSpec.HostPath) then src "hostPath"
      else if spec.(PersistentVolumeSpec.GCEPersistentDisk) then src "gcePersistentDisk"
      else if spec.(PersistentVolumeSpec.AzureDisk) then src "azureDisk"
      else if spec.(PersistentVolumeSpec.AzureFile) then src "azureFile"
      else if spec.(PersistentVolumeSpec.FC) then src "fc"
      else if spec.(PersistentVolumeSpec.ISCSI) then src "iscsi"
      else if spec.(PersistentVolumeSpec.Local) then src "local"
      else src ""
  end.

Definition PVToModel (pv : PersistentVolume.t) : PVInfo.t :=
  let meta := pv.(PersistentVolume.Meta) in
  let spec := pv.(PersistentVolume.Spec) in
  {| PVInfo.Name := meta.(ObjectMeta.Name);
     PVInfo.Capacity := quantityValue spec.(PersistentVolumeSpec.Capacity) ResourceStorage;
     PVInfo.AccessModes := spec.(PersistentVolumeSpec.AccessModes);
     PVInfo.ReclaimPolicy := spec.(PersistentVolumeSpec.PersistentVolumeReclaimPolicy);
     PVInfo.StorageClassName := spec.(PersistentVolumeSpec.StorageClassName);
     PVInfo.VolumeMode := default "Filesystem" spec.(PersistentVolumeSpec.VolumeMode);
     PVInfo.Phase := pv.(PersistentVolume.Phase);
     PVInfo.MountOptions := spec.(PersistentVolumeSpec.MountOptions);
     PVInfo.Source := extractPVSource spec;
     PVInfo.ClaimRef :=
       (fun c => PVClaimRefInfo.mk c.(ObjectReference.Namespace) c.(ObjectReference.Name)
                   c.(ObjectReference.UID)) <$> spec.(PersistentVolumeSpec.ClaimRef);
     PVInfo.Labels := meta.(ObjectMeta.Labels);
     PVInfo.Annotations := FilterAnnotations meta.(ObjectMeta.Annotations);
     PVInfo.CreationTimestamp := unix_milli meta.(ObjectMeta.CreationTimestamp) |}.

Definition convertPVCConditions (conditions : list Condition.t) : list PVCConditionInfo.t :=
  (fun c => PVCConditionInfo.mk c.(Condition.Type_) c.(Condition.Status)
              c.(Condition.Reason) c.(Condition.Message)) <$> conditions.

Definition PVCToModel (pvc : PersistentVolumeClaim.t) : PVCInfo.t :=
  let meta := pvc.(PersistentVolumeClaim.Meta) in
  {| PVCInfo.Name := meta.(ObjectMeta.Name);
     PVCInfo.Namespace := meta.(ObjectMeta.Namespace);
     PVCInfo.Phase := pvc.(PersistentVolumeClaim.Phase);
     PVCInfo.AccessModes := pvc.(PersistentVolumeClaim.AccessModes);
     PVCInfo.StorageClassName := default "" pvc.(PersistentVolumeClaim.StorageClassName);
     PVCInfo.VolumeMode := default "Filesystem" pvc.(PersistentVolumeClaim.VolumeMode);
     PVCInfo.VolumeName := pvc.(PersistentVolumeClaim.VolumeName);
     PVCInfo.RequestedBytes := quantityValue pvc.(PersistentVolumeClaim.Requests) ResourceStorage;
     PVCInfo.CapacityBytes := quantityValue pvc.(PersistentVolumeClaim.Capacity) ResourceStorage;
     PVCInfo.MountedByPods := [];
     PVCInfo.Labels := meta.(ObjectMeta.Labels);
     PVCInfo.Annotations := FilterAnnotations meta.(ObjectMeta.Annotations);
     PVCInfo.CreationTimestamp := unix_milli meta.(ObjectMeta.CreationTimestamp);
     PVCInfo.Conditions := convertPVCConditions pvc.(PersistentVolumeClaim.Conditions) |}.

Definition is_default_class := "storageclass.kubernetes.io/is-default-class".

(** Annotations are copied unfiltered. *)
Definition StorageClassToModel (sc : StorageClass.t) : StorageClassInfo.t :=
  let meta := sc.(StorageClass.Meta) in
  {| StorageClassInfo.Name := meta.(ObjectMeta.Name);
     StorageClassInfo.Provisioner := sc.(StorageClass.Provisioner);
     StorageClassInfo.ReclaimPolicy := default "" sc.(StorageClass.ReclaimPolicy);
     StorageClassInfo.VolumeBindingMode := default "" sc.(StorageClass.VolumeBindingMode);
     StorageClassInfo.AllowVolumeExpansion := default false sc.(StorageClass.AllowVolumeExpansion);
     StorageClassInfo.Parameters := sc.(StorageClass.Parameters);
     StorageClassInfo.MountOptions := sc.(StorageClass.MountOptions);
     StorageClassInfo.Labels := meta.(ObjectMeta.Labels);
     StorageClassInfo.Annotations := meta.(ObjectMeta.Annotations);
     StorageClassInfo.IsDefault :=
       bool_decide (mget "" meta.(ObjectMeta.Annotations) is_default_class = "true") |}.
