(* ===== verification/ConvertNetwork.v ===== *)
(** * Conversion of network objects: internal/convert/network.go

    Services and Ingresses.  The targets of a Service are left to the
    enrichment. *)

From S2P Require Import Prelude GoNum GoStrings Model K8s ConvertHelpers.
Open Scope string_scope.
Open Scope list_scope.
Open Scope Z_scope.

(** ** Services *)

Definition convert_service_port (p : ServicePort.t) : ServicePortInfo.t :=
  ServicePortInfo.mk p.(ServicePort.Name) p.(ServicePort.Protocol) p.(ServicePort.Port)
    p.(ServicePort.TargetPort) p.(ServicePort.NodePort).

Definition aws_lb_type := "service.beta.kubernetes.io/aws-load-balancer-type".
Definition aws_lb_scheme := "service.beta.kubernetes.io/aws-load-balancer-scheme".
Definition aws_lb_arn := "service.beta.kubernetes.io/aws-load-balancer-arn".

(** The load balancer of a Service of that type. *)
Definition load_balancer (svc : Service.t) : LoadBalancerInfo.t :=
  let annotations := svc.(Service.Meta).(ObjectMeta.Annotations) in
  {| LoadBalancerInfo.Ingress :=
       (fun i => LoadBalancerIngress.mk i.(LoadBalancerPoint.IP) i.(LoadBalancerPoint.Hostname))
         <$> svc.(Service.LoadBalancer);
     LoadBalancerInfo.Class := default "" svc.(Service.Spec).(ServiceSpec.LoadBalancerClass);
     LoadBalancerInfo.AWSLoadBalancerType := mget "" annotations aws_lb_type;
     LoadBalancerInfo.AWSScheme := mget "" annotations aws_lb_scheme;
     LoadBalancerInfo.AWSARNAnnotation := mget "" annotations aws_lb_arn |}.

Definition ServiceToModel (svc : Service.t) : ServiceInfo.t :=
  let meta := svc.(Service.Meta) in
  let spec := svc.(Service.Spec) in
  {| ServiceInfo.Name := meta.(ObjectMeta.Name);
     ServiceInfo.Namespace := meta.(ObjectMeta.Namespace);
     ServiceInfo.Type_ := spec.(ServiceSpec.Type_);
     ServiceInfo.ClusterIP := spec.(ServiceSpec.ClusterIP);
     ServiceInfo.ClusterIPs := spec.(ServiceSpec.ClusterIPs);
     ServiceInfo.ExternalIPs := spec.(ServiceSpec.ExternalIPs);
     ServiceInfo.LoadBalancer :=
       if decide (spec.(ServiceSpec.Type_) = "LoadBalancer") then Some (load_balancer svc) else None;
     ServiceInfo.Ports := convert_service_port <$> spec.(ServiceSpec.Ports);
     ServiceInfo.Selector := spec.(ServiceSpec.Selector);
     ServiceInfo.TargetWorkloads := [];
     ServiceInfo.Labels := meta.(ObjectMeta.Labels);
     ServiceInfo.Annotations := FilterAnnotations meta.(ObjectMeta.Annotations);
     ServiceInfo.CreationTimestamp := unix_milli meta.(ObjectMeta.CreationTimestamp);
     ServiceInfo.SessionAffinity := spec.(ServiceSpec.SessionAffinity) |}.

(** ** Ingresses *)

(** The port of a backend, for paths and for the default backend: its number
    unless that is 0, then its name. *)
Definition backend_port (b : IngressServiceBackend.t) : string :=
  if b.(IngressServiceBackend.PortNumber) =? 0 then b.(IngressServiceBackend.PortName)
  else itoa b.(IngressServiceBackend.PortNumber).

Definition convert_ingress_path (p : HTTPIngressPath.t) : IngressPathInfo.t :=
  let '(service, port) :=
    match p.(HTTPIngressPath.Backend) with
    | Some b => (b.(IngressServiceBackend.Name), backend_port b)
    | None => ("", "")
    end in
  IngressPathInfo.mk p.(HTTPIngressPath.Path) (default "" p.(HTTPIngressPath.PathType)) service port.

Definition convert_ingress_rule (r : IngressRule.t) : IngressRuleInfo.t :=
  IngressRuleInfo.mk r.(IngressRule.Host)
    match r.(IngressRule.HTTP) with
    | Some paths => convert_ingress_path <$> paths
    | None => []
    end.

(** What the loop appends for an ingress point. *)
Definition lb_hostname (lbi : LoadBalancerPoint.t) : option string :=
  if decide (lbi.(LoadBalancerPoint.Hostname) = "") then
    if decide (lbi.(LoadBalancerPoint.IP) = "") then None else Some lbi.(LoadBalancerPoint.IP)
  else Some lbi.(LoadBalancerPoint.Hostname).

Definition IngressToModel (ing : Ingress.t) : IngressInfo.t :=
  let meta := ing.(Ingress.Meta) in
  let spec := ing.(Ingress.Spec) in
  {| IngressInfo.Name := meta.(ObjectMeta.Name);
     IngressInfo.Namespace := meta.(ObjectMeta.Namespace);
     IngressInfo.IngressClassName := default "" spec.(IngressSpec.IngressClassName);
     IngressInfo.Rules := convert_ingress_rule <$> spec.(IngressSpec.Rules);
     IngressInfo.TLS :=
       (fun t => IngressTLSInfo.mk t.(IngressTLS.Hosts) t.(IngressTLS.SecretName)) <$> spec.(IngressSpec.TLS);
     IngressInfo.DefaultBackend :=
       (fun b => IngressBackendInfo.mk b.(IngressServiceBackend.Name) (backend_port b))
         <$> mjoin spec.(IngressSpec.DefaultBackend);
     IngressInfo.Labels := meta.(ObjectMeta.Labels);
     IngressInfo.Annotations := FilterAnnotations meta.(ObjectMeta.Annotations);
     IngressInfo.CreationTimestamp := unix_milli meta.(ObjectMeta.CreationTimestamp);
     IngressInfo.LoadBalancerHostnames := omap lb_hostname ing.(Ingress.LoadBalancer) |}.
