(* ===== verification/ConvertAutoscaling.v ===== *)
(** * Conversion of autoscalers, budgets and jobs: internal/convert/autoscaling.go

    HorizontalPodAutoscalers, PodDisruptionBudgets, Jobs and CronJobs.  The
    VerticalPodAutoscaler, an unstructured object, is in ConvertDynamic.v. *)

From S2P Require Import Prelude GoNum GoStrings Model K8s ConvertHelpers ConvertWorkload.
Open Scope string_scope.
Open Scope list_scope.
Open Scope Z_scope.

(** ** HorizontalPodAutoscalers *)

(** The value of the target's own type, as text; nothing if it is not set. *)
Definition metricTargetValue (target : MetricTarget.t) : string :=
  let ty := target.(MetricTarget.Type_) in
  if decide (ty = "Utilization") then
    match target.(MetricTarget.AverageUtilization) with Some u => itoa u | None => "" end
  else if decide (ty = "AverageValue") then
    match target.(MetricTarget.AverageValue) with Some q => q.(Quantity.String_) | None => "" end
  else if decide (ty = "Value") then
    match target.(MetricTarget.Value) with Some q => q.(Quantity.String_) | None => "" end
  else "".

(** One iteration of the loop of [convertHPAMetrics]. *)
Definition convert_hpa_metric (m : MetricSpec.t) : HPAMetricInfo.t :=
  let ty := m.(MetricSpec.Type_) in
  let filled resource container metric (s : MetricSource.t) :=
    HPAMetricInfo.mk ty resource container metric s.(MetricSource.Target).(MetricTarget.Type_)
      (metricTargetValue s.(MetricSource.Target)) in
  let or_bare (o : option MetricSource.t) f :=
    match o with Some s => f s | None => HPAMetricInfo.mk ty "" "" "" "" "" end in
  let named s := filled "" "" s.(MetricSource.Name) s in
  if decide (ty = "Resource") then
    or_bare m.(MetricSpec.Resource) (fun s => filled s.(MetricSource.Name) "" "" s)
  else if decide (ty = "ContainerResource") then
    or_bare m.(MetricSpec.ContainerResource)
      (fun s => filled s.(MetricSource.Name) s.(MetricSource.Container) "" s)
  else if decide (ty = "Pods") then or_bare m.(MetricSpec.Pods) named
  else if decide (ty = "Object") then or_bare m.(MetricSpec.Object_) named
  else if decide (ty = "External") then or_bare m.(MetricSpec.External) named
  else or_bare None named.

Definition convertHPAMetrics (metrics : list MetricSpec.t) : list HPAMetricInfo.t :=
  convert_hpa_metric <$> metrics.

(** [if q != nil { x = q.String() }] *)
Definition quantity_text (q : option Quantity.t) : string :=
  match q with Some q => q.(Quantity.String_) | None => "" end.

(** One iteration of the loop of [convertHPACurrentMetrics]; the status of a
    container resource has no case. *)
Definition convert_hpa_current (m : MetricStatus.t) : HPACurrentMetricInfo.t :=
  let ty := m.(MetricStatus.Type_) in
  let bare := HPACurrentMetricInfo.mk ty "" "" "" None in
  if decide (ty = "Resource") then
    match m.(MetricStatus.Resource) with
    | Some (name, c) =>
        HPACurrentMetricInfo.mk ty name (quantity_text c.(MetricValueStatus.Value))
          (quantity_text c.(MetricValueStatus.AverageValue)) c.(MetricValueStatus.AverageUtilization)
    | None => bare
    end
  else if decide (ty = "Pods") then
    match m.(MetricStatus.Pods) with
    | Some c => HPACurrentMetricInfo.mk ty "" "" (quantity_text c.(MetricValueStatus.AverageValue)) None
    | None => bare
    end
  else if decide (ty = "Object") then
    match m.(MetricStatus.Object_) with
    | Some c => HPACurrentMetricInfo.mk ty "" (quantity_text c.(MetricValueStatus.Value)) "" None
    | None => bare
    end
  else if decide (ty = "External") then
    match m.(MetricStatus.External) with
    | Some c =>
        HPACurrentMetricInfo.mk ty "" (quantity_text c.(MetricValueStatus.Value))
          (quantity_text c.(MetricValueStatus.AverageValue)) None
    | None => bare
    end
  else bare.

Definition convertHPACurrentMetrics (metrics : list MetricStatus.t) : list HPACurrentMetricInfo.t :=
  convert_hpa_current <$> metrics.

Definition convertHPAScalingRules (rules : HPAScalingRules.t) : HPAScalingBehavior.t :=
  {| HPAScalingBehavior.StabilizationWindowSeconds := rules.(HPAScalingRules.StabilizationWindowSeconds);
     HPAScalingBehavior.Policies :=
       (fun p => HPAScalingPolicy.mk p.(ScalingPolicy.Type_) p.(ScalingPolicy.Value)
                   p.(ScalingPolicy.PeriodSeconds)) <$> rules.(HPAScalingRules.Policies);
     HPAScalingBehavior.SelectPolicy := default "" rules.(HPAScalingRules.SelectPolicy) |}.

Definition convertHPAConditions (conditions : list Condition.t) : list HPAConditionInfo.t :=
  (fun c => HPAConditionInfo.mk c.(Condition.Type_) c.(Condition.Status)
              c.(Condition.Reason) c.(Condition.Message)) <$> conditions.

Definition HPAToModel (hpa : HorizontalPodAutoscaler.t) : HPAInfo.t :=
  let meta := hpa.(HorizontalPodAutoscaler.Meta) in
  let spec := hpa.(HorizontalPodAutoscaler.Spec) in
  let status := hpa.(HorizontalPodAutoscaler.Status) in
  let target := spec.(HPASpec.ScaleTargetRef) in
  let rules side := match spec.(HPASpec.Behavior) with
                    | Some b => convertHPAScalingRules <$> side b
                    | None => None
                    end in
  {| HPAInfo.Name := meta.(ObjectMeta.Name);
     HPAInfo.UID := meta.(ObjectMeta.UID);
     HPAInfo.Namespace := meta.(ObjectMeta.Namespace);
     HPAInfo.TargetKind := target.(CrossVersionObjectReference.Kind);
     HPAInfo.TargetName := target.(CrossVersionObjectReference.Name);
     HPAInfo.TargetAPIVersion := target.(CrossVersionObjectReference.APIVersion);
     HPAInfo.MinReplicas := spec.(HPASpec.MinReplicas);
     HPAInfo.MaxReplicas := spec.(HPASpec.MaxReplicas);
     HPAInfo.CurrentReplicas := status.(HPAStatus.CurrentReplicas);
     HPAInfo.DesiredReplicas := status.(HPAStatus.DesiredReplicas);
     HPAInfo.Metrics := convertHPAMetrics spec.(HPASpec.Metrics);
     HPAInfo.CurrentMetrics := convertHPACurrentMetrics status.(HPAStatus.CurrentMetrics);
     HPAInfo.ScaleUpBehavior := rules HPABehavior.ScaleUp;
     HPAInfo.ScaleDownBehavior := rules HPABehavior.ScaleDown;
     HPAInfo.Conditions := convertHPAConditions status.(HPAStatus.Conditions);
     HPAInfo.Labels := meta.(ObjectMeta.Labels);
     HPAInfo.Annotations := FilterAnnotations meta.(ObjectMeta.Annotations);
     HPAInfo.CreationTimestamp := unix_milli meta.(ObjectMeta.CreationTimestamp);
     HPAInfo.LastScaleTime := unix_milli <$> status.(HPAStatus.LastScaleTime) |}.

(** ** PodDisruptionBudgets *)

Definition convertPDBConditions (conditions : list Condition.t) : list PDBConditionInfo.t :=
  (fun c => PDBConditionInfo.mk c.(Condition.Type_) c.(Condition.Status)
              c.(Condition.Reason) c.(Condition.Message)) <$> conditions.

Definition PDBToModel (pdb : PodDisruptionBudget.t) : PDBInfo.t :=
  let meta := pdb.(PodDisruptionBudget.Meta) in
  let '(labels, expressions) := default (None, []) pdb.(PodDisruptionBudget.Selector) in
  {| PDBInfo.Name := meta.(ObjectMeta.Name);
     PDBInfo.UID := meta.(ObjectMeta.UID);
     PDBInfo.Namespace := meta.(ObjectMeta.Namespace);
     PDBInfo.MatchLabels := labels;
     PDBInfo.MatchExpressions :=
       (fun e => LabelSelectorRequirement.mk e.(SelectorRequirement.Key)
                   e.(SelectorRequirement.Operator) e.(SelectorRequirement.Values)) <$> expressions;
     PDBInfo.TargetWorkloads := [];
     PDBInfo.MinAvailable := default "" pdb.(PodDisruptionBudget.MinAvailable);
     PDBInfo.MaxUnavailable := default "" pdb.(PodDisruptionBudget.MaxUnavailable);
     PDBInfo.CurrentHealthy := pdb.(PodDisruptionBudget.CurrentHealthy);
     PDBInfo.DesiredHealthy := pdb.(PodDisruptionBudget.DesiredHealthy);
     PDBInfo.DisruptionsAllowed := pdb.(PodDisruptionBudget.DisruptionsAllowed);
     PDBInfo.ExpectedPods := pdb.(PodDisruptionBudget.ExpectedPods);
     PDBInfo.Conditions := convertPDBConditions pdb.(PodDisruptionBudget.Conditions);
     PDBInfo.Labels := meta.(ObjectMeta.Labels);
     PDBInfo.Annotations := FilterAnnotations meta.(ObjectMeta.Annotations);
     PDBInfo.CreationTimestamp := unix_milli meta.(ObjectMeta.CreationTimestamp) |}.

(** ** Jobs and CronJobs *)

(** The loop over the owner references, left at the first CronJob. *)
Fixpoint owner_cronjob (refs : list OwnerReference.t) : string :=
  match refs with
  | [] => ""
  | ref :: refs =>
      if decide (ref.(OwnerReference.Kind) = "CronJob") then ref.(OwnerReference.Name)
      else owner_cronjob refs
  end.

Definition convertJobConditions (conditions : list Condition.t) : list JobConditionInfo.t :=
  (fun c => JobConditionInfo.mk c.(Condition.Type_) c.(Condition.Status)
              c.(Condition.Reason) c.(Condition.Message)) <$> conditions.

(** The difference of the milliseconds, as a float, by 1000. *)
Definition duration_seconds (start completion : int64) : float64 :=
  f64_div (f64_of_Z (sub64 completion start)) (f64_of_Z 1000).

Definition JobToModel (job : Job.t) : JobInfo.t :=
  let meta := job.(Job.Meta) in
  let spec := job.(Job.Spec) in
  let status := job.(Job.Status) in
  let startTime := unix_milli <$> status.(JobStatus.StartTime) in
  let completionTime := unix_milli <$> status.(JobStatus.CompletionTime) in
  {| JobInfo.Name := meta.(ObjectMeta.Name);
     JobInfo.UID := meta.(ObjectMeta.UID);
     JobInfo.Namespace := meta.(ObjectMeta.Namespace);
     JobInfo.OwnerCronJob := owner_cronjob meta.(ObjectMeta.OwnerReferences);
     JobInfo.Completions := spec.(JobSpec.Completions);
     JobInfo.Parallelism := spec.(JobSpec.Parallelism);
     JobInfo.BackoffLimit := spec.(JobSpec.BackoffLimit);
     JobInfo.ActiveDeadlineSeconds := spec.(JobSpec.ActiveDeadlineSeconds);
     JobInfo.TTLSecondsAfterFinished := spec.(JobSpec.TTLSecondsAfterFinished);
     JobInfo.Active := status.(JobStatus.Active);
     JobInfo.Succeeded := status.(JobStatus.Succeeded);
     JobInfo.Failed := status.(JobStatus.Failed);
     JobInfo.StartTime := startTime;
     JobInfo.CompletionTime := completionTime;
     JobInfo.DurationSeconds :=
       match startTime, completionTime with
       | Some s, Some c => Some (duration_seconds s c)
       | _, _ => None
       end;
     JobInfo.TotalCPURequest := f64_zero;
     JobInfo.TotalMemoryRequest := 0;
     JobInfo.TotalCPUUsage := None;
     JobInfo.TotalMemoryUsage := None;
     JobInfo.ContainerSpecs := extractContainerSpecs spec.(JobSpec.Template);
     JobInfo.Labels := meta.(ObjectMeta.Labels);
     JobInfo.Annotations := FilterAnnotations meta.(ObjectMeta.Annotations);
     JobInfo.CreationTimestamp := unix_milli meta.(ObjectMeta.CreationTimestamp);
     JobInfo.Conditions := convertJobConditions status.(JobStatus.Conditions) |}.

Definition CronJobToModel (cj : CronJob.t) : CronJobInfo.t :=
  let meta := cj.(CronJob.Meta) in
  {| CronJobInfo.Name := meta.(ObjectMeta.Name);
     CronJobInfo.UID := meta.(ObjectMeta.UID);
     CronJobInfo.Namespace := meta.(ObjectMeta.Namespace);
     CronJobInfo.Schedule := cj.(CronJob.Schedule);
     CronJobInfo.Suspend := default false cj.(CronJob.Suspend);
     CronJobInfo.ConcurrencyPolicy := cj.(CronJob.ConcurrencyPolicy);
     CronJobInfo.LastScheduleTime := unix_milli <$> cj.(CronJob.LastScheduleTime);
     CronJobInfo.LastSuccessfulTime := unix_milli <$> cj.(CronJob.LastSuccessfulTime);
     CronJobInfo.ActiveJobs := cj.(CronJob.Active);
     CronJobInfo.ContainerSpecs := extractContainerSpecs cj.(CronJob.JobTemplate);
     CronJobInfo.Labels := meta.(ObjectMeta.Labels);
     CronJobInfo.Annotations := FilterAnnotations meta.(ObjectMeta.Annotations);
     CronJobInfo.CreationTimestamp := unix_milli meta.(ObjectMeta.CreationTimestamp) |}.
