(* ===== verification/ConvertDynamic.v ===== *)
(** * Conversion of unstructured objects: internal/convert/autoscaling.go, internal/collector/resource/nodepools.go

    VerticalPodAutoscalers and NodePools come from the dynamic client as JSON
    values ([any]); a field of another type than the code expects reads as the
    zero value, an ill-typed element of a list is skipped. *)

From S2P Require Import Prelude GoNum GoStrings Model K8s ConvertHelpers.
Open Scope string_scope.
Open Scope list_scope.
Open Scope Z_scope.

(** An unstructured object: its metadata, as the accessors of apimachinery read
    it, and the object itself. *)
Module Unstructured.
Record t := mk { Meta : ObjectMeta.t; Object_ : list (string * any) }.
End Unstructured.

(** ** Reading JSON values *)

(** [m[key]]: the keys of a JSON object are distinct. *)
Fixpoint field (m : list (string * any)) (key : string) : option any :=
  match m with
  | [] => None
  | (k, v) :: m => if decide (k = key) then Some v else field m key
  end.

(** [m, ok := v.(map[string]interface{})] and [l, ok := v.([]interface{})],
    where an absent [v] is nil. *)
Definition as_map (v : option any) : option (list (string * any)) :=
  match v with Some (AMap m) => Some m | _ => None end.

Definition as_slice (v : option any) : option (list any) :=
  match v with Some (ASlice l) => Some l | _ => None end.

(** [s, _ := v.(string)] *)
Definition as_string (v : option any) : string :=
  match v with Some (AString s) => s | _ => "" end.

Definition nestedMap (obj : list (string * any)) (key : string) : option (list (string * any)) :=
  as_map (field obj key).

(** [stringVal] and [stringField] *)
Definition stringVal (m : list (string * any)) (key : string) : string := as_string (field m key).

(** ** VerticalPodAutoscalers *)

Section Quantities.
(** [resource.ParseQuantity] *)
Context (parse : string -> option Quantity.t).

Definition parseResourceValues (m : list (string * any)) (key : string) : ResourceValues.t :=
  match as_map (field m key) with
  | None => ResourceValues.zero
  | Some bound =>
      {| ResourceValues.CPUCores :=
           match field bound "cpu" with
           | Some (AString s) => ParseQuantityString parse s
           | _ => f64_zero
           end;
         ResourceValues.MemoryBytes :=
           match field bound "memory" with
           | Some (AString s) => int64_of_f64 (ParseQuantityString parse s)
           | _ => 0
           end |}
  end.

Definition parse_recommendation (c : any) : option VPAContainerRecommendation.t :=
  match c with
  | AMap cm => Some
      {| VPAContainerRecommendation.ContainerName := stringVal cm "containerName";
         VPAContainerRecommendation.LowerBound := parseResourceValues cm "lowerBound";
         VPAContainerRecommendation.Target := parseResourceValues cm "target";
         VPAContainerRecommendation.UncappedTarget := parseResourceValues cm "uncappedTarget";
         VPAContainerRecommendation.UpperBound := parseResourceValues cm "upperBound" |}
  | _ => None
  end.

Definition parseVPAContainerRecommendations (containers : list any) : list VPAContainerRecommendation.t :=
  omap parse_recommendation containers.

Definition parse_condition (c : any) : option VPAConditionInfo.t :=
  match c with
  | AMap cm => Some (VPAConditionInfo.mk (stringVal cm "type") (stringVal cm "status")
                       (stringVal cm "reason") (stringVal cm "message"))
  | _ => None
  end.

Definition parseVPAConditions (conditions : list any) : list VPAConditionInfo.t :=
  omap parse_condition conditions.

Definition VPAToModel (obj : Unstructured.t) : VPAInfo.t :=
  let meta := obj.(Unstructured.Meta) in
  let spec := nestedMap obj.(Unstructured.Object_) "spec" in
  let status := nestedMap obj.(Unstructured.Object_) "status" in
  let targetRef := (s ← spec; nestedMap s "targetRef") in
  let read m key := match m with Some m => stringVal m key | None => "" end in
  {| VPAInfo.Name := meta.(ObjectMeta.Name);
     VPAInfo.Namespace := meta.(ObjectMeta.Namespace);
     VPAInfo.TargetKind := read targetRef "kind";
     VPAInfo.TargetName := read targetRef "name";
     VPAInfo.TargetAPIVersion := read targetRef "apiVersion";
     VPAInfo.UpdateMode := read (s ← spec; nestedMap s "updatePolicy") "updateMode";
     VPAInfo.ContainerRecommendations :=
       match s ← status; r ← nestedMap s "recommendation"; as_slice (field r "containerRecommendations") with
       | Some containers => parseVPAContainerRecommendations containers
       | None => []
       end;
     VPAInfo.Conditions :=
       match s ← status; as_slice (field s "conditions") with
       | Some conditions => parseVPAConditions conditions
       | None => []
       end;
     VPAInfo.Labels := meta.(ObjectMeta.Labels);
     VPAInfo.CreationTimestamp := unix_milli meta.(ObjectMeta.CreationTimestamp) |}.
End Quantities.

(** ** NodePools *)

Definition toInt (v : any) : option int :=
  match v with
  | AInt64 n => Some n
  | AFloat64 f => Some (int64_of_f64 f)
  | AInt n => Some n
  | _ => None
  end.

(** The strings of a list, the rest skipped. *)
Definition string_elems (l : list any) : list string :=
  omap (fun v => match v with AString s => Some s | _ => None end) l.

Definition parse_requirement (r : any) : option NodeSelectorRequirement.t :=
  match r with
  | AMap rm => Some (NodeSelectorRequirement.mk (stringVal rm "key") (stringVal rm "operator")
                       match as_slice (field rm "values") with
                       | Some vals => string_elems vals
                       | None => []
                       end)
  | _ => None
  end.

Definition parse_taint (t : any) : option TaintInfo.t :=
  match t with
  | AMap tm => Some (TaintInfo.mk (stringVal tm "key") (stringVal tm "value") (stringVal tm "effect"))
  | _ => None
  end.

Definition nodePoolToModel (obj : Unstructured.t) : NodePoolInfo.t :=
  let meta := obj.(Unstructured.Meta) in
  let spec := nestedMap obj.(Unstructured.Object_) "spec" in
  let tmplSpec := (s ← spec; t ← nestedMap s "template"; nestedMap t "spec") in
  let limits := (s ← spec; nestedMap s "limits") in
  let elems key := default [] (t ← tmplSpec; as_slice (field t key)) in
  {| NodePoolInfo.Name := meta.(ObjectMeta.Name);
     NodePoolInfo.UID := meta.(ObjectMeta.UID);
     NodePoolInfo.MinReplicas := l ← limits; v ← field l "minReplicas"; toInt v;
     NodePoolInfo.MaxReplicas := l ← limits; v ← field l "maxReplicas"; toInt v;
     NodePoolInfo.NodeClassName :=
       match t ← tmplSpec; nestedMap t "nodeClassRef" with
       | Some ncRef => stringVal ncRef "name"
       | None => ""
       end;
     NodePoolInfo.Labels := meta.(ObjectMeta.Labels);
     NodePoolInfo.Annotations := meta.(ObjectMeta.Annotations);
     NodePoolInfo.Taints := omap parse_taint (elems "taints");
     NodePoolInfo.Requirements := omap parse_requirement (elems "requirements");
     NodePoolInfo.CreationTimestamp := unix_milli meta.(ObjectMeta.CreationTimestamp) |}.

(** The objects of the two informers: each has its own resource. *)
Module VerticalPodAutoscaler.
Record t := mk { Obj : Unstructured.t }.
Definition Meta (o : t) : ObjectMeta.t := o.(Obj).(Unstructured.Meta).
End VerticalPodAutoscaler.

Module NodePool.
Record t := mk { Obj : Unstructured.t }.
Definition Meta (o : t) : ObjectMeta.t := o.(Obj).(Unstructured.Meta).
End NodePool.

(** ** The objects of the custom resources *)

(** What a field of an object means does not depend on the order of its fields. *)
Lemma field_perm m m' key :
  NoDup m.*1 -> m ≡ₚ m' -> field m key = field m' key.
Proof.
  intros Hnd Hp. induction Hp as [|[k v] m m' Hp IH|[k v] [k' v'] m|m1 m2 m3 H12 IH1 H23 IH2]; [done| | |].
  - apply NoDup_cons in Hnd as [_ Hnd]. simpl. by rewrite IH.
  - apply NoDup_cons in Hnd as [Hk _]. simpl. repeat case_decide; try done. subst. set_solver.
  - rewrite IH1 by done. apply IH2. by rewrite <- H12.
Qed.

Lemma field_app m m' key :
  field (m ++ m') key = match field m key with Some v => Some v | None => field m' key end.
Proof. induction m as [|[k v] m IH]; simpl; [done|]. by case_decide. Qed.

(** What is known of a JSON value: a scalar, the elements of a list, and of an
    object some of its fields, each with whether it has to be there.  The other
    fields of an object, and the order of its fields, are free. *)
Inductive shape :=
  | Scalar (v : any)
  | Elements (l : list shape)
  | Fields (fs : list (string * (bool * shape))).

Fixpoint has_shape (s : shape) (v : any) {struct s} : Prop :=
  match s, v with
  | Scalar w, _ => v = w
  | Elements ss, ASlice l =>
      (fix elements (ss : list shape) (l : list any) {struct ss} : Prop :=
         match ss, l with
         | [], [] => True
         | s :: ss, v :: l => has_shape s v /\ elements ss l
         | _, _ => False
         end) ss l
  | Fields fs, AMap m =>
      (fix fields (fs : list (string * (bool * shape))) : Prop :=
         match fs with
         | [] => True
         | (k, (required, s)) :: fs =>
             match field m k with
             | Some v => has_shape s v
             | None => required = false
             end /\ fields fs
         end) fs
  | _, _ => False
  end.

(** A string that may be left out when it is empty, and a list likewise. *)
Definition string_shape (s : string) : bool * shape := (bool_decide (s <> ""), Scalar (AString s)).

Definition list_shape {A} (f : A -> shape) (l : list A) : bool * shape :=
  (bool_decide (l <> []), Elements (f <$> l)).

(** The NodePool that a model describes, as its resource is written. *)
Definition taint_shape (t : TaintInfo.t) : shape :=
  Fields [("key", string_shape t.(TaintInfo.Key)); ("value", string_shape t.(TaintInfo.Value));
          ("effect", string_shape t.(TaintInfo.Effect))].

Definition requirement_shape (r : NodeSelectorRequirement.t) : shape :=
  Fields [("key", string_shape r.(NodeSelectorRequirement.Key));
          ("operator", string_shape r.(NodeSelectorRequirement.Operator));
          ("values", list_shape (fun v => Scalar (AString v)) r.(NodeSelectorRequirement.Values))].

(** A replica limit: absent, or null, when there is none. *)
Definition replicas_shape (n : option int) : bool * shape :=
  (bool_decide (n <> None), Scalar match n with Some n => AInt64 n | None => ANil end).

Definition limits_shape (mn mx : option int) : bool * shape :=
  (bool_decide (mn <> None \/ mx <> None),
   Fields [("minReplicas", replicas_shape mn); ("maxReplicas", replicas_shape mx)]).

Definition nodepool_shape (p : NodePoolInfo.t) : shape :=
  Fields [("spec", (true, Fields
    [("template", (true, Fields
       [("spec", (true, Fields
          [("nodeClassRef", (true, Fields [("name", string_shape p.(NodePoolInfo.NodeClassName))]));
           ("requirements", list_shape requirement_shape p.(NodePoolInfo.Requirements));
           ("taints", list_shape taint_shape p.(NodePoolInfo.Taints))]))]));
     ("limits", limits_shape p.(NodePoolInfo.MinReplicas) p.(NodePoolInfo.MaxReplicas))]))].

Definition nodepool_meta (p : NodePoolInfo.t) : ObjectMeta.t :=
  {| ObjectMeta.Name := p.(NodePoolInfo.Name);
     ObjectMeta.Namespace := "";
     ObjectMeta.UID := p.(NodePoolInfo.UID);
     ObjectMeta.Labels := p.(NodePoolInfo.Labels);
     ObjectMeta.Annotations := p.(NodePoolInfo.Annotations);
     ObjectMeta.CreationTimestamp := p.(NodePoolInfo.CreationTimestamp) * Millisecond;
     ObjectMeta.OwnerReferences := [] |}.

(** A VerticalPodAutoscaler as its resource writes it: quantities are text, for
    CPU and memory. *)
Module VPARecommendation.
Record t := mk {
  ContainerName : string;
  LowerBound : string * string;
  Target : string * string;
  UncappedTarget : string * string;
  UpperBound : string * string }.
End VPARecommendation.

Definition values_json (v : string * string) : any :=
  AMap [("cpu", AString v.1); ("memory", AString v.2)].

Definition recommendation_json (r : VPARecommendation.t) : any :=
  AMap [("containerName", AString r.(VPARecommendation.ContainerName));
        ("lowerBound", values_json r.(VPARecommendation.LowerBound));
        ("target", values_json r.(VPARecommendation.Target));
        ("uncappedTarget", values_json r.(VPARecommendation.UncappedTarget));
        ("upperBound", values_json r.(VPARecommendation.UpperBound))].

Definition condition_json (c : VPAConditionInfo.t) : any :=
  AMap [("type", AString c.(VPAConditionInfo.Type_)); ("status", AString c.(VPAConditionInfo.Status));
        ("reason", AString c.(VPAConditionInfo.Reason)); ("message", AString c.(VPAConditionInfo.Message))].

(** The object of a VPA with the target reference [kind], [name], [api], the
    update mode [mode], recommendations and conditions. *)
Definition vpa_json (kind name api mode : string) (recs : list VPARecommendation.t)
    (conds : list VPAConditionInfo.t) : list (string * any) :=
  [("spec", AMap
     [("targetRef", AMap [("kind", AString kind); ("name", AString name); ("apiVersion", AString api)]);
      ("updatePolicy", AMap [("updateMode", AString mode)])]);
   ("status", AMap
     [("recommendation", AMap [("containerRecommendations", ASlice (recommendation_json <$> recs))]);
      ("conditions", ASlice (condition_json <$> conds))])].

(** ** Lemmas *)

(** A list written element by element is read element by element. *)
Lemma omap_encoded {A B} (read : any -> option B) (write : A -> any) (f : A -> B) (l : list A) :
  (forall x, read (write x) = Some (f x)) -> omap read (write <$> l) = f <$> l.
Proof.
  intros H. induction l as [|x l IH]; [done|].
  change (omap read (write x :: (write <$> l)) = f x :: (f <$> l)).
  rewrite <- IH. change (omap read (write x :: (write <$> l)))
    with (match read (write x) with Some y => y :: omap read (write <$> l) | None => omap read (write <$> l) end).
  by rewrite H.
Qed.

(** What is read of a field whose shape is known. *)
Section Shapes.
Implicit Types (m : list (string * any)).

(** The condition [has_shape] puts on one field. *)
Definition field_has m (k : string) (o : bool * shape) : Prop :=
  match field m k with Some v => has_shape o.2 v | None => o.1 = false end.

Lemma stringVal_shape m k s : field_has m k (string_shape s) -> stringVal m k = s.
Proof.
  unfold field_has, string_shape, stringVal. cbn [fst snd]. destruct (field m k) as [v|].
  - by cbn; intros ->.
  - intros H%bool_decide_eq_false. cbn. by destruct (decide (s = "")) as [->|].
Qed.

Lemma replicas_of_shape m k n : field_has m k (replicas_shape n) -> (v ← field m k; toInt v) = n.
Proof. unfold field_has, replicas_shape. by destruct n, (field m k) as [v|]; cbn; try intros ->. Qed.

(** A list read element by element. *)
Lemma elements_shape {A B} (f : A -> shape) (read : any -> option B) (g : A -> B) (l : list A) vs :
  (forall x v, has_shape (f x) v -> read v = Some (g x)) ->
  has_shape (Elements (f <$> l)) (ASlice vs) -> omap read vs = g <$> l.
Proof.
  intros Hr. revert vs. induction l as [|x l IH]; intros [|v vs]; try done.
  intros [Hx Hl]. cbn [omap list_omap fmap list_fmap]. rewrite (Hr x v Hx). f_equal. by apply IH.
Qed.

Lemma list_of_shape {A B} (f : A -> shape) (read : any -> option B) (g : A -> B) (l : list A) m k :
  (forall x v, has_shape (f x) v -> read v = Some (g x)) ->
  field_has m k (list_shape f l) -> omap read (default [] (as_slice (field m k))) = g <$> l.
Proof.
  intros Hr. unfold field_has, list_shape. cbn [fst snd]. destruct (field m k) as [v|].
  - destruct v; try done. by apply elements_shape.
  - intros H%bool_decide_eq_false. by destruct (decide (l = [])) as [->|].
Qed.

Lemma limits_of_shape m mn mx :
  field_has m "limits" (limits_shape mn mx) ->
  (l ← as_map (field m "limits"); v ← field l "minReplicas"; toInt v) = mn /\
  (l ← as_map (field m "limits"); v ← field l "maxReplicas"; toInt v) = mx.
Proof.
  unfold field_has at 1, limits_shape. cbn [fst snd]. destruct (field m "limits") as [v|].
  - destruct v as [| | | | | | |l]; try done. intros (Hmn & Hmx & _). split; by apply replicas_of_shape.
  - intros H%bool_decide_eq_false. cbn. by destruct mn, mx; auto; destruct H; (left; discriminate) || (right; discriminate).
Qed.

Lemma parse_taint_shape t v : has_shape (taint_shape t) v -> parse_taint v = Some t.
Proof.
  destruct v as [| | | | | | |m]; try done. intros (Hk & Hv & He & _).
  change (field_has m "key" (string_shape t.(TaintInfo.Key))) in Hk.
  change (field_has m "value" (string_shape t.(TaintInfo.Value))) in Hv.
  change (field_has m "effect" (string_shape t.(TaintInfo.Effect))) in He.
  cbn [parse_taint]. rewrite (stringVal_shape _ _ _ Hk), (stringVal_shape _ _ _ Hv), (stringVal_shape _ _ _ He).
  by destruct t.
Qed.

Lemma parse_requirement_shape r v : has_shape (requirement_shape r) v -> parse_requirement v = Some r.
Proof.
  destruct v as [| | | | | | |m]; try done. intros (Hk & Ho & Hv & _).
  change (field_has m "key" (string_shape r.(NodeSelectorRequirement.Key))) in Hk.
  change (field_has m "operator" (string_shape r.(NodeSelectorRequirement.Operator))) in Ho.
  change (field_has m "values" (list_shape (fun v => Scalar (AString v)) r.(NodeSelectorRequirement.Values))) in Hv.
  cbn [parse_requirement]. rewrite (stringVal_shape _ _ _ Hk), (stringVal_shape _ _ _ Ho).
  apply (list_of_shape _ (fun v => match v with AString s => Some s | _ => None end) id) in Hv; [|by intros x v ->].
  rewrite list_fmap_id in Hv. unfold string_elems.
  match goal with |- Some (NodeSelectorRequirement.mk _ _ ?l) = _ =>
    assert (l = r.(NodeSelectorRequirement.Values)) as -> by (by destruct (as_slice (field m "values"))) end.
  by destruct r.
Qed.
End Shapes.

Lemma parse_condition_json c : parse_condition (condition_json c) = Some c.
Proof. by destruct c. Qed.

(** The values of a resource as the agent reports them. *)
Definition values_of (parse : string -> option Quantity.t) (v : string * string) : ResourceValues.t :=
  ResourceValues.mk (ParseQuantityString parse v.1) (int64_of_f64 (ParseQuantityString parse v.2)).

Definition recommendation_of (parse : string -> option Quantity.t) (r : VPARecommendation.t) :
    VPAContainerRecommendation.t :=
  VPAContainerRecommendation.mk r.(VPARecommendation.ContainerName)
    (values_of parse r.(VPARecommendation.LowerBound)) (values_of parse r.(VPARecommendation.Target))
    (values_of parse r.(VPARecommendation.UncappedTarget)) (values_of parse r.(VPARecommendation.UpperBound)).

Lemma parse_recommendation_json parse r :
  parse_recommendation parse (recommendation_json r) = Some (recommendation_of parse r).
Proof. by destruct r as [n [? ?] [? ?] [? ?] [? ?]]. Qed.

Lemma unix_milli_ms z : unix_milli (z * Millisecond) = z.
Proof. apply Z.div_mul. done. Qed.

(** ** Properties *)

(** C34 A NodePool object is read back as written: the model holds the class, the
    requirements with their values, the taints and the replica limits that the
    object was written from, whatever other fields the object and each of its
    parts have (a disruption policy, limits of CPU, the kind of the class), in
    whatever order the fields come, and whether or not it writes the empty
    strings, the empty lists and the limits it does not set. *)
Theorem nodePool_roundtrip (p : NodePoolInfo.t) (obj : list (string * any)) :
  has_shape (nodepool_shape p) (AMap obj) ->
  nodePoolToModel (Unstructured.mk (nodepool_meta p) obj) = p.
Proof.
  unfold nodePoolToModel, nestedMap. cbn [Unstructured.Object_ Unstructured.Meta].
  unfold nodepool_shape. cbn [has_shape]. intros [Hspec _].
  destruct (field obj "spec") as [[| | | | | | |spec]|]; try done. destruct Hspec as (Htmpl & Hlim & _).
  change (field_has spec "limits" (limits_shape p.(NodePoolInfo.MinReplicas) p.(NodePoolInfo.MaxReplicas))) in Hlim.
  cbn [as_map option_bind mbind].
  destruct (field spec "template") as [[| | | | | | |tmpl]|]; try done. destruct Htmpl as [Hts _].
  cbn [as_map option_bind mbind].
  destruct (field tmpl "spec") as [[| | | | | | |ts]|]; try done. destruct Hts as (Hnc & Hreq & Htaint & _).
  change (field_has ts "requirements" (list_shape requirement_shape p.(NodePoolInfo.Requirements))) in Hreq.
  change (field_has ts "taints" (list_shape taint_shape p.(NodePoolInfo.Taints))) in Htaint.
  cbn [as_map option_bind mbind].
  rewrite (list_of_shape _ _ id _ _ _ parse_requirement_shape Hreq), (list_of_shape _ _ id _ _ _ parse_taint_shape Htaint).
  destruct (field ts "nodeClassRef") as [[| | | | | | |nc]|]; try done. destruct Hnc as [Hname _].
  change (field_has nc "name" (string_shape p.(NodePoolInfo.NodeClassName))) in Hname.
  cbn [as_map option_bind mbind]. rewrite (stringVal_shape _ _ _ Hname), !list_fmap_id.
  destruct (limits_of_shape _ _ _ Hlim) as [-> ->].
  unfold nodepool_meta. cbn. rewrite unix_milli_ms. by destruct p.
Qed.

(** A VerticalPodAutoscaler object is read as written: target reference,
    update mode, every recommendation with its quantities parsed (0 where one
    does not parse), every condition, whatever other fields the object has and
    in whatever order they come. *)
Theorem VPAToModel_reads parse meta kind name api mode recs conds (extra obj : list (string * any)) :
  NoDup (vpa_json kind name api mode recs conds ++ extra).*1 ->
  vpa_json kind name api mode recs conds ++ extra ≡ₚ obj ->
  VPAToModel parse (Unstructured.mk meta obj) =
    VPAInfo.mk meta.(ObjectMeta.Name) meta.(ObjectMeta.Namespace) kind name api mode
      (recommendation_of parse <$> recs) conds meta.(ObjectMeta.Labels)
      (unix_milli meta.(ObjectMeta.CreationTimestamp)).
Proof.
  intros Hnd Hp. unfold VPAToModel, nestedMap. cbn [Unstructured.Object_ Unstructured.Meta].
  rewrite <- !(field_perm _ _ _ Hnd Hp), !field_app. unfold vpa_json.
  transitivity (VPAInfo.mk meta.(ObjectMeta.Name) meta.(ObjectMeta.Namespace) kind name api mode
    (omap (parse_recommendation parse) (recommendation_json <$> recs))
    (omap parse_condition (condition_json <$> conds)) meta.(ObjectMeta.Labels)
    (unix_milli meta.(ObjectMeta.CreationTimestamp))); [done|].
  rewrite (omap_encoded _ _ _ _ (parse_recommendation_json parse)).
  rewrite (omap_encoded parse_condition condition_json id) by apply parse_condition_json.
  by rewrite list_fmap_id.
Qed.

(** ** Witnesses *)

Definition sample_pool : NodePoolInfo.t :=
  NodePoolInfo.mk "general" "u1" None (Some 10) "default" None None [TaintInfo.mk "dedicated" "" "NoSchedule"]
    [NodeSelectorRequirement.mk "arch" "In" ["amd64"; "arm64"]] 1700000000000.

(** An object as a cluster holds it. *)
Definition sample_pool_object : list (string * any) := [
  ("apiVersion", AString "karpenter.sh/v1"); ("kind", AString "NodePool");
  ("spec", AMap [
     ("disruption", AMap [("consolidationPolicy", AString "WhenEmpty")]);
     ("limits", AMap [("cpu", AString "1000"); ("maxReplicas", AInt64 10)]);
     ("template", AMap [
        ("metadata", AMap []);
        ("spec", AMap [
           ("expireAfter", AString "720h");
           ("taints", ASlice [AMap [("effect", AString "NoSchedule"); ("key", AString "dedicated")]]);
           ("nodeClassRef", AMap [("group", AString "karpenter.k8s.aws"); ("kind", AString "EC2NodeClass");
                                  ("name", AString "default")]);
           ("requirements", ASlice [AMap [("key", AString "arch"); ("minValues", AInt64 1); ("operator", AString "In");
                                          ("values", ASlice [AString "amd64"; AString "arm64"])]])])])])].

Lemma nodePool_roundtrip_witness :
  nodePoolToModel (Unstructured.mk (nodepool_meta sample_pool) sample_pool_object) = sample_pool.
Proof. apply (nodePool_roundtrip sample_pool). vm_compute. by repeat split. Defined.

Lemma VPAToModel_reads_witness :
  let parse s := if decide (s = "250m") then Some (Quantity.mk 1 (f64_div (f64_of_Z 1) (f64_of_Z 4)) s)
                 else if decide (s = "1Ki") then Some (Quantity.mk 1024 (f64_of_Z 1024) s) else None in
  VPAToModel parse (Unstructured.mk (nodepool_meta sample_pool)
    (vpa_json "Deployment" "web" "apps/v1" "Auto"
       [VPARecommendation.mk "app" ("250m", "1Ki") ("250m", "1Ki") ("bad", "1Ki") ("250m", "")] [] ++ [])) =
  VPAInfo.mk "general" "" "Deployment" "web" "apps/v1" "Auto"
    [VPAContainerRecommendation.mk "app"
       (ResourceValues.mk (f64_div (f64_of_Z 1) (f64_of_Z 4)) 1024)
       (ResourceValues.mk (f64_div (f64_of_Z 1) (f64_of_Z 4)) 1024)
       (ResourceValues.mk f64_zero 1024)
       (ResourceValues.mk (f64_div (f64_of_Z 1) (f64_of_Z 4)) 0)] [] None 1700000000000.
Proof.
  intros parse.
  refine (eq_trans (VPAToModel_reads parse (nodepool_meta sample_pool) "Deployment" "web" "apps/v1" "Auto"
    [VPARecommendation.mk "app" ("250m", "1Ki") ("250m", "1Ki") ("bad", "1Ki") ("250m", "")] [] [] _ _ _) _).
  - vm_compute. repeat constructor; set_solver.
  - reflexivity.
  - vm_compute. reflexivity.
Defined.
