(* ===== verification/Targets.v ===== *)
(** * Target resolution (internal/enrichment/targets.go)

    The second enricher of the pipeline: the workloads a PodDisruptionBudget or
    a Service selects, by comparing its label selector with the selectors of
    the workloads of its namespace. *)

From S2P Require Import Prelude GoNum Model.
Open Scope string_scope.
Open Scope list_scope.
Open Scope Z_scope.

Module workloadEntry.
Record t := mk {
  kind : string;
  name : string;
  namespace : string;
  selector : gomap string }.
End workloadEntry.

(** [for k, v := range selector { if target[k] != v { return false } }; return
    true]: the order of the range does not show. *)
Definition labelsMatch (selector target : gomap string) : bool :=
  forallb (fun '(k, v) => bool_decide (mget "" target k = v)) (map_to_list (mentries selector)).

Definition matchWorkloads (selector : gomap string) (workloads : list workloadEntry.t) :
    list WorkloadReference.t :=
  foldl (fun refs w =>
    if labelsMatch selector w.(workloadEntry.selector)
    then refs ++ [WorkloadReference.mk w.(workloadEntry.kind) w.(workloadEntry.name)
                    w.(workloadEntry.namespace)]
    else refs) [] workloads.

Definition collectWorkloads (snapshot : ClusterSnapshot.t) : list workloadEntry.t :=
  let entries := foldl (fun entries d =>
    if 0 <? mlen d.(DeploymentInfo.Selector)
    then entries ++ [workloadEntry.mk "Deployment" d.(DeploymentInfo.Name)
                       d.(DeploymentInfo.Namespace) d.(DeploymentInfo.Selector)]
    else entries) [] snapshot.(ClusterSnapshot.Deployments) in
  let entries := foldl (fun entries s =>
    if 0 <? mlen s.(StatefulSetInfo.Selector)
    then entries ++ [workloadEntry.mk "StatefulSet" s.(StatefulSetInfo.Name)
                       s.(StatefulSetInfo.Namespace) s.(StatefulSetInfo.Selector)]
    else entries) entries snapshot.(ClusterSnapshot.StatefulSets) in
  foldl (fun entries ds =>
    if 0 <? mlen ds.(DaemonSetInfo.Selector)
    then entries ++ [workloadEntry.mk "DaemonSet" ds.(DaemonSetInfo.Name)
                       ds.(DaemonSetInfo.Namespace) ds.(DaemonSetInfo.Selector)]
    else entries) entries snapshot.(ClusterSnapshot.DaemonSets).

(** [byNamespace[w.namespace] = append(byNamespace[w.namespace], w)] *)
Definition byNamespace (workloads : list workloadEntry.t) : gmap string (list workloadEntry.t) :=
  foldl (fun (m : gmap string (list workloadEntry.t)) w =>
    <[w.(workloadEntry.namespace) := default [] (m !! w.(workloadEntry.namespace)) ++ [w]]> m)
    ∅ workloads.

Definition target_pdb (ix : gmap string (list workloadEntry.t)) (pdb : PDBInfo.t) : PDBInfo.t :=
  if mlen pdb.(PDBInfo.MatchLabels) =? 0 then pdb
  else pdb <| PDBInfo.TargetWorkloads :=
    matchWorkloads pdb.(PDBInfo.MatchLabels) (default [] (ix !! pdb.(PDBInfo.Namespace))) |>.

Definition target_service (ix : gmap string (list workloadEntry.t)) (svc : ServiceInfo.t) : ServiceInfo.t :=
  if mlen svc.(ServiceInfo.Selector) =? 0 then svc
  else svc <| ServiceInfo.TargetWorkloads :=
    matchWorkloads svc.(ServiceInfo.Selector) (default [] (ix !! svc.(ServiceInfo.Namespace))) |>.

(** [TargetsEnricher.Enrich]: it never fails. *)
Definition TargetsEnrich (snapshot : ClusterSnapshot.t) : ClusterSnapshot.t :=
  let ix := byNamespace (collectWorkloads snapshot) in
  snapshot
    <| ClusterSnapshot.PDBs := target_pdb ix <$> snapshot.(ClusterSnapshot.PDBs) |>
    <| ClusterSnapshot.Services := target_service ix <$> snapshot.(ClusterSnapshot.Services) |>.

(** ** Reference definitions *)

(** The pairs of [selector] are labels of [target]. *)
Definition selects (selector target : gomap string) : Prop :=
  mentries selector ⊆ mentries target.

(** What the comparison of the code decides: an absent key reads as "". *)
Definition selects_go (selector target : gomap string) : Prop :=
  forall k v, mentries selector !! k = Some v -> mget "" target k = v.

Definition workload_ref (w : workloadEntry.t) : WorkloadReference.t :=
  WorkloadReference.mk w.(workloadEntry.kind) w.(workloadEntry.name) w.(workloadEntry.namespace).

(** ** Lemmas *)

Lemma mlookup_entries {V} (m : gomap V) k : mlookup m k = mentries m !! k.
Proof. by destruct m. Qed.

Lemma labelsMatch_spec selector target : labelsMatch selector target = true <-> selects_go selector target.
Proof.
  unfold labelsMatch, selects_go. rewrite forallb_forall. split.
  - intros H k v Hk. specialize (H (k, v)). simpl in H.
    eapply bool_decide_eq_true_1, H. rewrite <- list_elem_of_In. by apply elem_of_map_to_list.
  - intros H [k v] Hin. apply bool_decide_eq_true_2, H.
    rewrite <- list_elem_of_In in Hin. by apply elem_of_map_to_list in Hin.
Qed.

#[export] Instance selects_go_dec selector target : Decision (selects_go selector target).
Proof.
  destruct (labelsMatch selector target) eqn:E;
    [left; by apply labelsMatch_spec|right; rewrite <- labelsMatch_spec; congruence].
Defined.

(** Without empty label values the comparison is map inclusion. *)
Lemma selects_go_selects selector target :
  (forall k, mentries selector !! k <> Some "") -> (selects_go selector target <-> selects selector target).
Proof.
  unfold selects_go, selects. rewrite map_subseteq_spec. intros Hne. split; intros H k v Hk.
  - specialize (H k v Hk). unfold mget in H. rewrite mlookup_entries in H.
    destruct (mentries target !! k) eqn:E; simpl in H; [congruence|].
    subst v. by destruct (Hne k).
  - unfold mget. rewrite mlookup_entries. by rewrite (H k v Hk).
Qed.

Section AppendLoops.
Context {A B : Type}.

(** [for x := range l { if p(x) { acc = append(acc, f(x)) } }] *)
Lemma foldl_append_filter (p : A -> bool) (f : A -> B) (l : list A) acc :
  foldl (fun acc x => if p x then acc ++ [f x] else acc) acc l =
    acc ++ (f <$> filter (fun x => p x = true) l).
Proof.
  revert acc. induction l as [|x l IH]; intros acc; simpl; [by rewrite app_nil_r|].
  rewrite IH, filter_cons. destruct (p x); simpl.
  - by rewrite <- app_assoc.
  - done.
Qed.
End AppendLoops.

Lemma matchWorkloads_spec selector ws :
  matchWorkloads selector ws =
    workload_ref <$> filter (fun w => labelsMatch selector w.(workloadEntry.selector) = true) ws.
Proof.
  unfold matchWorkloads.
  by rewrite (foldl_append_filter (fun w => labelsMatch selector w.(workloadEntry.selector)) workload_ref).
Qed.

Lemma byNamespace_lookup ws ns :
  default [] (byNamespace ws !! ns) = filter (fun w => w.(workloadEntry.namespace) = ns) ws.
Proof.
  induction ws as [|w ws IH] using rev_ind; [done|].
  unfold byNamespace in *. rewrite foldl_app, filter_app, <- IH. simpl.
  rewrite lookup_insert. destruct (decide (w.(workloadEntry.namespace) = ns)) as [<-|Hne]; simpl.
  - by rewrite filter_cons_True.
  - rewrite filter_cons_False by done. by rewrite app_nil_r.
Qed.

Lemma matchWorkloads_byNamespace selector ws ns :
  matchWorkloads selector (default [] (byNamespace ws !! ns)) =
    workload_ref <$> filter (fun w => w.(workloadEntry.namespace) = ns /\
                                      selects_go selector w.(workloadEntry.selector)) ws.
Proof.
  rewrite matchWorkloads_spec, byNamespace_lookup, list_filter_filter. f_equal.
  apply list_filter_iff. intros w. rewrite labelsMatch_spec. tauto.
Qed.

(** The entries of a kind, each loop of [collectWorkloads] for itself. *)
Definition entries_of {A} (kind : string) (name ns : A -> string) (sel : A -> gomap string) (l : list A) :
    list workloadEntry.t :=
  (fun x => workloadEntry.mk kind (name x) (ns x) (sel x)) <$> filter (fun x => (0 <? mlen (sel x)) = true) l.

Lemma collectWorkloads_eq s :
  collectWorkloads s =
    entries_of "Deployment" DeploymentInfo.Name DeploymentInfo.Namespace DeploymentInfo.Selector s.(ClusterSnapshot.Deployments) ++
    entries_of "StatefulSet" StatefulSetInfo.Name StatefulSetInfo.Namespace StatefulSetInfo.Selector s.(ClusterSnapshot.StatefulSets) ++
    entries_of "DaemonSet" DaemonSetInfo.Name DaemonSetInfo.Namespace DaemonSetInfo.Selector s.(ClusterSnapshot.DaemonSets).
Proof.
  unfold collectWorkloads.
  rewrite (foldl_append_filter (fun d => 0 <? mlen d.(DaemonSetInfo.Selector)) (fun d => workloadEntry.mk "DaemonSet"
    d.(DaemonSetInfo.Name) d.(DaemonSetInfo.Namespace) d.(DaemonSetInfo.Selector))).
  rewrite (foldl_append_filter (fun d => 0 <? mlen d.(StatefulSetInfo.Selector)) (fun d => workloadEntry.mk "StatefulSet"
    d.(StatefulSetInfo.Name) d.(StatefulSetInfo.Namespace) d.(StatefulSetInfo.Selector))).
  rewrite (foldl_append_filter (fun d => 0 <? mlen d.(DeploymentInfo.Selector)) (fun d => workloadEntry.mk "Deployment"
    d.(DeploymentInfo.Name) d.(DeploymentInfo.Namespace) d.(DeploymentInfo.Selector))).
  by rewrite <- app_assoc.
Qed.

Lemma mlen_nonneg {V} (m : gomap V) : 0 <= mlen m.
Proof. destruct m; simpl; lia. Qed.

(** Those a selector of a namespace chooses. *)
Lemma chosen_entries {A} kind (name ns : A -> string) (sel : A -> gomap string) l n selector :
  workload_ref <$> filter (fun w => w.(workloadEntry.namespace) = n /\ selects_go selector w.(workloadEntry.selector))
      (entries_of kind name ns sel l) =
    (fun x => WorkloadReference.mk kind (name x) n) <$>
      filter (fun x => ns x = n /\ mlen (sel x) <> 0 /\ selects_go selector (sel x)) l.
Proof.
  unfold entries_of. induction l as [|x l IH]; [done|]. rewrite !filter_cons.
  pose proof (mlen_nonneg (sel x)). destruct (0 <? mlen (sel x)) eqn:E; cbn [fmap list_fmap].
  - apply Z.ltb_lt in E. rewrite decide_True by done. cbn [fmap list_fmap]. rewrite filter_cons.
    cbn [workloadEntry.namespace workloadEntry.selector].
    destruct (decide (ns x = n /\ selects_go selector (sel x))) as [[Hn Hs]|Hno].
    + rewrite decide_True by (split_and!; [done|lia|done]). cbn [fmap list_fmap]. rewrite IH.
      unfold workload_ref at 1. cbn. by rewrite Hn.
    + rewrite (decide_False (P := _ /\ _ /\ _)) by tauto. exact IH.
  - apply Z.ltb_ge in E. rewrite decide_False by done.
    rewrite (decide_False (P := _ /\ _ /\ _)) by lia. exact IH.
Qed.

#[export] Hint Rewrite @foldl_append_filter matchWorkloads_byNamespace : agent.

(** ** Properties *)

(** C18 After target resolution a PodDisruptionBudget or Service with a
    non-empty selector lists exactly the Deployments, then the StatefulSets, then
    the DaemonSets of its namespace whose own selector is not empty and has every
    one of its labels (an absent label reading as the empty string), each under
    its kind and name and in snapshot order; with an empty selector it is left as
    it was. *)
Theorem TargetsEnrich_targets (snapshot : ClusterSnapshot.t) (i : nat) :
  let chosen ns sel wns wsel := wns = ns /\ mlen wsel <> 0 /\ selects_go sel wsel in
  let targets ns sel :=
    ((fun d => WorkloadReference.mk "Deployment" d.(DeploymentInfo.Name) ns) <$>
       filter (fun d => chosen ns sel d.(DeploymentInfo.Namespace) d.(DeploymentInfo.Selector))
         snapshot.(ClusterSnapshot.Deployments)) ++
    ((fun s => WorkloadReference.mk "StatefulSet" s.(StatefulSetInfo.Name) ns) <$>
       filter (fun s => chosen ns sel s.(StatefulSetInfo.Namespace) s.(StatefulSetInfo.Selector))
         snapshot.(ClusterSnapshot.StatefulSets)) ++
    ((fun d => WorkloadReference.mk "DaemonSet" d.(DaemonSetInfo.Name) ns) <$>
       filter (fun d => chosen ns sel d.(DaemonSetInfo.Namespace) d.(DaemonSetInfo.Selector))
         snapshot.(ClusterSnapshot.DaemonSets)) in
  (forall pdb, snapshot.(ClusterSnapshot.PDBs) !! i = Some pdb ->
     (TargetsEnrich snapshot).(ClusterSnapshot.PDBs) !! i = Some
       (if decide (mlen pdb.(PDBInfo.MatchLabels) = 0) then pdb
        else pdb <| PDBInfo.TargetWorkloads :=
               targets pdb.(PDBInfo.Namespace) pdb.(PDBInfo.MatchLabels) |>)) /\
  (forall svc, snapshot.(ClusterSnapshot.Services) !! i = Some svc ->
     (TargetsEnrich snapshot).(ClusterSnapshot.Services) !! i = Some
       (if decide (mlen svc.(ServiceInfo.Selector) = 0) then svc
        else svc <| ServiceInfo.TargetWorkloads :=
               targets svc.(ServiceInfo.Namespace) svc.(ServiceInfo.Selector) |>)).
Proof.
  cbv zeta. split; intros x Hx; simpl; rewrite list_lookup_fmap, Hx; simpl; f_equal;
    [unfold target_pdb|unfold target_service];
    case_decide as Hl; [by rewrite Hl| |by rewrite Hl|];
    rewrite (proj2 (Z.eqb_neq _ _) Hl), matchWorkloads_byNamespace, collectWorkloads_eq, !filter_app, !fmap_app,
      !chosen_entries; reflexivity.
Qed.

Definition ex_labels (l : list (string * string)) : gomap string := Some (list_to_map l).

Definition ex_dep : DeploymentInfo.t :=
  DeploymentInfo.zero <| DeploymentInfo.Name := "web" |> <| DeploymentInfo.Namespace := "shop" |>
    <| DeploymentInfo.Selector := ex_labels [("app", "web"); ("tier", "front")] |>.

Definition ex_svc (sel : list (string * string)) : ServiceInfo.t :=
  ServiceInfo.zero <| ServiceInfo.Name := "svc" |> <| ServiceInfo.Namespace := "shop" |>
    <| ServiceInfo.Selector := ex_labels sel |>.

Definition ex_cluster (sel : list (string * string)) : ClusterSnapshot.t :=
  ClusterSnapshot.zero <| ClusterSnapshot.Deployments := [ex_dep] |>
    <| ClusterSnapshot.Services := [ex_svc sel] |>.

Lemma TargetsEnrich_targets_witness :
  ServiceInfo.TargetWorkloads <$> (TargetsEnrich (ex_cluster [("app", "web")])).(ClusterSnapshot.Services) !! 0%nat
    = Some [WorkloadReference.mk "Deployment" "web" "shop"].
Proof.
  destruct (TargetsEnrich_targets (ex_cluster [("app", "web")]) 0) as [_ H].
  rewrite (H (ex_svc [("app", "web")]) eq_refl). vm_compute. reflexivity.
Defined.

(** The comparison is inclusion of the selector in the target's labels when
    no selected value is empty, and is not in general: a label required to be
    the empty string is also satisfied by a target that does not have it. *)
Theorem labelsMatch_inclusion :
  (forall selector target, (forall k, mentries selector !! k <> Some "") ->
     (labelsMatch selector target = true <-> selects selector target)) /\
  (exists selector target, labelsMatch selector target = true /\ ~ selects selector target).
Proof.
  split.
  - intros selector target Hne. by rewrite labelsMatch_spec, selects_go_selects.
  - exists (ex_labels [("canary", "")]), (ex_labels [("app", "web")]). split; [done|].
    unfold selects. rewrite map_subseteq_spec. intros H.
    specialize (H "canary" "" eq_refl). discriminate H.
Qed.
