(* ===== verification/Pipeline.v ===== *)
(** * The enrichment pipeline (internal/enrichment/pipeline.go, mounts.go)

    The [Enricher] interface with its four implementations, the pipeline that
    runs a list of them, and how the steps of a build interact: what ownership
    resolution leaves for aggregation to find. *)

From S2P Require Import Prelude GoNum Model Ownership Aggregation Targets.
Open Scope string_scope.
Open Scope list_scope.
Open Scope Z_scope.

(** The [Enricher] interface.  [Enrich] works in place: it gives the snapshot
    as it leaves it, and the error it returns, if any. *)
Record Enricher := {
  Name : string;
  Enrich : ClusterSnapshot.t -> ClusterSnapshot.t * option string }.

Definition OwnershipEnricher (replicaSets : list ReplicaSetInfo.t) : Enricher :=
  {| Name := "ownership"; Enrich s := (OwnershipEnrich replicaSets s, None) |}.

Definition AggregationEnricher : Enricher :=
  {| Name := "aggregation"; Enrich s := (AggregationEnrich s, None) |}.

Definition TargetsEnricher : Enricher :=
  {| Name := "targets"; Enrich s := (TargetsEnrich s, None) |}.

(** A no-op: PodInfo holds no volume data. *)
Definition MountsEnricher : Enricher :=
  {| Name := "mounts"; Enrich s := (s, None) |}.

(** [metrics != nil] and the labels of the EnricherDuration observations. *)
Record Pipeline := mkPipeline {
  enrichers : list Enricher;
  has_metrics : bool }.

Record RunResult := mkRunResult {
  snapshot : ClusterSnapshot.t;
  warnings : list (string * string);   (* slog.Warn: enricher, error *)
  observed : list string }.            (* EnricherDuration labels *)

(** The body of [Pipeline.Run]'s loop. *)
Definition run_enricher (metrics : bool) (r : RunResult) (e : Enricher) : RunResult :=
  let '(s, err) := e.(Enrich) r.(snapshot) in
  {| snapshot := s;
     warnings := match err with
                 | Some msg => r.(warnings) ++ [(e.(Name), msg)]
                 | None => r.(warnings)
                 end;
     observed := if metrics then r.(observed) ++ [e.(Name)] else r.(observed) |}.

Definition Run (p : Pipeline) (s : ClusterSnapshot.t) : RunResult :=
  foldl (run_enricher p.(has_metrics)) (mkRunResult s [] []) p.(enrichers).

(** The pipeline cmd/agent/main.go builds (step 7 of [main]). *)
Definition agent_pipeline : Pipeline :=
  mkPipeline [AggregationEnricher; TargetsEnricher; MountsEnricher] true.

(** Step 4 and step 5 of a build. *)
Definition own_and_run (replicaSets : list ReplicaSetInfo.t) (p : Pipeline) (s : ClusterSnapshot.t) :
    ClusterSnapshot.t :=
  (Run p ((OwnershipEnricher replicaSets).(Enrich) s).1).(snapshot).

(** The effect of the enrichers of a list, one after the other. *)
Definition enrich_all (es : list Enricher) (s : ClusterSnapshot.t) : ClusterSnapshot.t :=
  foldl (fun s e => (e.(Enrich) s).1) s es.

(** ** Lemmas *)

Lemma Run_foldl metrics es r :
  let r' := foldl (run_enricher metrics) r es in
  r'.(snapshot) = enrich_all es r.(snapshot) /\
  r'.(observed) = r.(observed) ++ (if metrics then Name <$> es else []).
Proof.
  revert r. induction es as [|e es IH]; intros r; simpl.
  - by destruct metrics; rewrite app_nil_r.
  - specialize (IH (run_enricher metrics r e)). simpl in IH. destruct IH as [-> ->].
    unfold run_enricher. destruct (Enrich e (snapshot r)) as [s' err] eqn:E; simpl.
    split; [done|]. destruct metrics; [by rewrite <- app_assoc|done].
Qed.

Lemma Run_warnings_mono metrics es r x :
  x ∈ r.(warnings) -> x ∈ (foldl (run_enricher metrics) r es).(warnings).
Proof.
  revert r. induction es as [|e es IH]; intros r Hx; simpl; [done|].
  apply IH. unfold run_enricher. destruct (Enrich e (snapshot r)) as [s' [msg|]]; simpl; [|done].
  apply elem_of_app. by left.
Qed.

Lemma own_and_run_agent rss s :
  own_and_run rss agent_pipeline s = TargetsEnrich (AggregationEnrich (OwnershipEnrich rss s)).
Proof. done. Qed.

(** After ownership resolution no pod is owned by a Job that has a CronJob. *)
Lemma no_pod_of_cronjob_job rss s j pod :
  NoDup ((fun j => ns_name j.(JobInfo.Namespace) j.(JobInfo.Name)) <$> s.(ClusterSnapshot.Jobs)) ->
  j ∈ s.(ClusterSnapshot.Jobs) -> j.(JobInfo.OwnerCronJob) <> "" ->
  pod ∈ (OwnershipEnrich rss s).(ClusterSnapshot.Pods) ->
  pod.(PodInfo.Namespace) = j.(JobInfo.Namespace) ->
  pod.(PodInfo.OwnerName) = j.(JobInfo.Name) ->
  pod.(PodInfo.OwnerKind) = "Job" ->
  exists pod0, pod0 ∈ s.(ClusterSnapshot.Pods) /\ pod = resolveOwner (owner_maps rss s) pod0 /\
    ~ nf (owns (owner_maps rss s) pod0.(PodInfo.Namespace)) (pod_owner pod).
Proof.
  intros Hnd Hj Hcj Hpod Hns Hname Hkind. simpl in Hpod.
  apply list_elem_of_fmap in Hpod as (pod0 & -> & Hpod0). exists pod0. split_and!; [done..|].
  assert (Hns0 : pod0.(PodInfo.Namespace) = j.(JobInfo.Namespace)).
  { revert Hns. unfold resolveOwner. by repeat case_decide. }
  intros Hnf. apply Hnf.
  edestruct (owns_job_cronjob (owner_maps rss s) (PodInfo.Namespace pod0) j.(JobInfo.Name)) as [u Hu];
    [|exact Hcj|].
  - simpl. rewrite Hns0.
    by apply (index_by_NoDup (fun j => ns_name j.(JobInfo.Namespace) j.(JobInfo.Name))).
  - unfold pod_owner. rewrite Hkind, Hname. eexists. apply Hu.
Qed.

(** When no ReplicaSet is owned by a ReplicaSet, ownership chains are short. *)
Section ShortChains.
Context (m : OwnerMaps) (ns : string).
Context (Hrs : forall k rs, m.(rsMap) !! k = Some rs -> rs.(ReplicaSetInfo.OwnerKind) <> kindReplicaSet).

Lemma owns_target_kind o o' : owns m ns o o' -> o'.(o_kind) <> kindReplicaSet.
Proof. destruct 1; simpl; [by eapply Hrs|done..]. Qed.

Lemma owns_from_other o o' :
  owns m ns o o' -> o.(o_kind) <> kindReplicaSet -> nf (owns m ns) o'.
Proof. destruct 1; simpl; [done|intros _; apply owns_cronjob_nf..]. Qed.

Lemma chain_length n o o' : nsteps (owns m ns) n o o' -> (n <= 2)%nat.
Proof.
  intros H. inversion H as [|? ? y ? H1 H']; subst; [lia|].
  inversion H' as [|? ? z ? H2 H'']; subst; [lia|].
  inversion H'' as [|? ? w ? H3 ?]; subst; [lia|].
  exfalso. apply (owns_from_other y z H2); [by eapply owns_target_kind|]. eexists; apply H3.
Qed.

Lemma resolve_loop_nf o : nf (owns m ns) (resolve_loop m ns maxOwnerDepth o).
Proof.
  destruct (resolve_loop_steps m ns maxOwnerDepth o) as (n & _ & Hn & [->|Hnf]); [|done].
  apply chain_length in Hn. unfold maxOwnerDepth in Hn. lia.
Qed.
End ShortChains.

Lemma owned_pods_nil pods k : (forall pod, pod ∈ pods -> pod_key pod <> k) -> owned_pods pods k = [].
Proof.
  intros H. unfold owned_pods. induction pods as [|pod pods IH]; [done|].
  rewrite filter_cons_False, IH; [done|..].
  - intros pod' Hin. apply H. by right.
  - intros [-> _]. apply (H pod); [by left|done].
Qed.

(** ** Properties *)

(** C19 Pipeline.Run applies every enricher in order to the snapshot the
    previous one left, failing enrichers included: a failure only adds its
    warning, and each run is timed under the enricher's name. *)
Theorem Run_all_enrichers (p : Pipeline) (s : ClusterSnapshot.t) :
  (Run p s).(snapshot) = enrich_all p.(enrichers) s /\
  (Run p s).(observed) = (if p.(has_metrics) then Name <$> p.(enrichers) else []) /\
  (forall e es1 es2 msg, p.(enrichers) = es1 ++ e :: es2 ->
     (e.(Enrich) (enrich_all es1 s)).2 = Some msg -> (e.(Name), msg) ∈ (Run p s).(warnings)).
Proof.
  destruct p as [es metrics]. unfold Run; simpl.
  destruct (Run_foldl metrics es (mkRunResult s [] [])) as [H1 H2].
  split_and!; [done|done|]. intros e es1 es2 msg -> He.
  rewrite foldl_app. simpl.
  apply Run_warnings_mono. unfold run_enricher at 1.
  destruct (Run_foldl metrics es1 (mkRunResult s [] [])) as [-> _]. simpl.
  destruct (Enrich e _) as [s' err]. simpl in He. subst err. simpl.
  apply elem_of_app. right. by left.
Qed.

(** A Job created by a CronJob never gets the usage of its pods, nor their
    requests: ownership resolution has already handed those pods to the
    CronJob when aggregation looks for pods owned by the Job.  Its requests are
    those of its pod template. *)
Theorem cronjob_job_totals_from_template (rss : list ReplicaSetInfo.t) (s : ClusterSnapshot.t)
  (j : JobInfo.t) (i : nat)
  (Hrs : forall rs, rs ∈ rss -> rs.(ReplicaSetInfo.OwnerKind) <> kindReplicaSet)
  (Hnd : NoDup ((fun j => ns_name j.(JobInfo.Namespace) j.(JobInfo.Name)) <$> s.(ClusterSnapshot.Jobs)))
  (Hj : s.(ClusterSnapshot.Jobs) !! i = Some j)
  (Hcj : j.(JobInfo.OwnerCronJob) <> "")
  (Hspecs : j.(JobInfo.ContainerSpecs) <> []) :
  exists j', (own_and_run rss agent_pipeline s).(ClusterSnapshot.Jobs) !! i = Some j' /\
    j'.(JobInfo.TotalCPUUsage) = None /\ j'.(JobInfo.TotalMemoryUsage) = None /\
    j'.(JobInfo.TotalMemoryRequest) =
      wrap64 (sumZ ContainerSpecInfo.MemoryRequestBytes j.(JobInfo.ContainerSpecs)).
Proof.
  rewrite own_and_run_agent.
  assert (Hnone : owned_pods (OwnershipEnrich rss s).(ClusterSnapshot.Pods)
    (j.(JobInfo.Namespace), "Job", j.(JobInfo.Name)) = []).
  { apply owned_pods_nil. intros pod Hpod [= H1 H2 H3].
    destruct (no_pod_of_cronjob_job rss s j pod) as (pod0 & _ & -> & Hnf); try done.
    { by eapply list_elem_of_lookup_2. }
    apply Hnf. rewrite pod_owner_resolveOwner.
    - apply resolve_loop_nf. intros k rs [Hin _]%index_by_Some. by apply Hrs.
    - intros H0. revert H2. unfold resolveOwner. by rewrite decide_True, H0 by done.
    - intros H0. revert H2. unfold resolveOwner.
      rewrite decide_False by (by rewrite H0). by rewrite decide_True, H0 by done. }
  destruct (job_fallback_spec _ j Hnone Hspecs) as (_ & Hm & Hu1 & Hu2).
  eexists. split; [|split_and!; [exact Hu1|exact Hu2|exact Hm]].
  simpl. by rewrite list_lookup_fmap, Hj.
Qed.

Definition ex_cron_job : JobInfo.t := ex_job <| JobInfo.OwnerCronJob := "backup" |>.

(** A running pod of that Job, with metrics. *)
Definition ex_job_pod : PodInfo.t :=
  PodInfo.zero <| PodInfo.Namespace := "shop" |> <| PodInfo.Phase := "Running" |>
    <| PodInfo.OwnerKind := "Job" |> <| PodInfo.OwnerName := "backup-1" |>
    <| PodInfo.Containers := [ex_container] |>.

Definition ex_cron_snapshot : ClusterSnapshot.t :=
  ClusterSnapshot.zero <| ClusterSnapshot.Jobs := [ex_cron_job] |>
    <| ClusterSnapshot.Pods := [ex_job_pod] |>.

Lemma cronjob_job_totals_from_template_witness :
  exists j', (own_and_run [] agent_pipeline ex_cron_snapshot).(ClusterSnapshot.Jobs) !! 0%nat = Some j' /\
    j'.(JobInfo.TotalMemoryUsage) = None /\ j'.(JobInfo.TotalMemoryRequest) = 2048.
Proof.
  destruct (cronjob_job_totals_from_template [] ex_cron_snapshot ex_cron_job 0) as (j' & H1 & _ & H2 & H3).
  - by intros rs ?%not_elem_of_nil.
  - apply NoDup_singleton.
  - reflexivity.
  - discriminate.
  - discriminate.
  - exists j'. split; [exact H1|]. split; [exact H2|]. rewrite H3. vm_compute. reflexivity.
Defined.
