(* ===== verification/Summary.v ===== *)
(** * The cluster summary (internal/snapshot/summary.go)

    Step 6 of a build: entity counts and resource totals of a snapshot. *)

From S2P Require Import Prelude GoNum Model Aggregation.
Open Scope string_scope.
Open Scope list_scope.
Open Scope Z_scope.

Import ClusterSnapshot (Nodes, Pods, PVs, PVCs).

(** ** The loops *)

(** The counters the first loop over the pods updates. *)
Record PodCounts := mkPodCounts {
  p_running : int; p_pending : int; p_failed : int; p_succeeded : int; p_containers : int }.

Definition count_pod (a : PodCounts) (pod : PodInfo.t) : PodCounts :=
  let ph := pod.(PodInfo.Phase) in
  let cs := add64 a.(p_containers) (golen pod.(PodInfo.Containers)) in
  if decide (ph = "Running") then
    mkPodCounts (add64 a.(p_running) 1) a.(p_pending) a.(p_failed) a.(p_succeeded) cs
  else if decide (ph = "Pending") then
    mkPodCounts a.(p_running) (add64 a.(p_pending) 1) a.(p_failed) a.(p_succeeded) cs
  else if decide (ph = "Failed") then
    mkPodCounts a.(p_running) a.(p_pending) (add64 a.(p_failed) 1) a.(p_succeeded) cs
  else if decide (ph = "Succeeded") then
    mkPodCounts a.(p_running) a.(p_pending) a.(p_failed) (add64 a.(p_succeeded) 1) cs
  else mkPodCounts a.(p_running) a.(p_pending) a.(p_failed) a.(p_succeeded) cs.

(** A float total with the number of terms, as the loop keeps them. *)
Definition acc_opt (a : float64 * int) (v : option float64) : float64 * int :=
  match v with Some x => (f64_add a.1 x, add64 a.2 1) | None => a end.

(** An int64 total over the nodes that have a value. *)
Definition acc_opt64 (a : int64) (v : option int64) : int64 :=
  match v with Some x => add64 a x | None => a end.

(** The variables of the loop over the nodes. *)
Record NodeTotals := mkNodeTotals {
  n_cpuCap : float64; n_cpuAlloc : float64;
  n_memCap : int64; n_memAlloc : int64; n_gpuCap : int;
  n_cpuUse : float64; n_memUse : int64; n_hasCPU : bool; n_hasMem : bool;
  n_gpuUse : float64 * int; n_tensor : float64 * int; n_memUtil : float64 * int;
  n_gpuMemUsed : int64; n_gpuMemTotal : int64; n_hasGPU : bool }.

Definition sum_node (a : NodeTotals) (n : NodeInfo.t) : NodeTotals := {|
  n_cpuCap := f64_add a.(n_cpuCap) n.(NodeInfo.CPUCapacityCores);
  n_cpuAlloc := f64_add a.(n_cpuAlloc) n.(NodeInfo.CPUAllocatable);
  n_memCap := add64 a.(n_memCap) n.(NodeInfo.MemoryCapacityBytes);
  n_memAlloc := add64 a.(n_memAlloc) n.(NodeInfo.MemoryAllocatable);
  n_gpuCap := add64 a.(n_gpuCap) n.(NodeInfo.GPUCapacity);
  n_cpuUse := match n.(NodeInfo.CPUUsageCores) with Some u => f64_add a.(n_cpuUse) u | None => a.(n_cpuUse) end;
  n_memUse := acc_opt64 a.(n_memUse) n.(NodeInfo.MemoryUsageBytes);
  n_hasCPU := match n.(NodeInfo.CPUUsageCores) with Some _ => true | None => a.(n_hasCPU) end;
  n_hasMem := match n.(NodeInfo.MemoryUsageBytes) with Some _ => true | None => a.(n_hasMem) end;
  n_gpuUse := acc_opt a.(n_gpuUse) n.(NodeInfo.GPUUtilizationPercent);
  n_tensor := acc_opt a.(n_tensor) n.(NodeInfo.GPUTensorActivePercent);
  n_memUtil := acc_opt a.(n_memUtil) n.(NodeInfo.GPUMemoryUtilPercent);
  n_gpuMemUsed := acc_opt64 a.(n_gpuMemUsed) n.(NodeInfo.GPUMemoryUsedBytes);
  n_gpuMemTotal := acc_opt64 a.(n_gpuMemTotal) n.(NodeInfo.GPUMemoryTotalBytes);
  n_hasGPU := match n.(NodeInfo.GPUUtilizationPercent) with Some _ => true | None => a.(n_hasGPU) end |}.

Definition node_init : NodeTotals := {|
  n_cpuCap := f64_zero; n_cpuAlloc := f64_zero; n_memCap := 0; n_memAlloc := 0; n_gpuCap := 0;
  n_cpuUse := f64_zero; n_memUse := 0; n_hasCPU := false; n_hasMem := false;
  n_gpuUse := (f64_zero, 0); n_tensor := (f64_zero, 0); n_memUtil := (f64_zero, 0);
  n_gpuMemUsed := 0; n_gpuMemTotal := 0; n_hasGPU := false |}.

(** [avg := sum / float64(count)], when [count > 0]. *)
Definition average (a : float64 * int) : option float64 :=
  if 0 <? a.2 then Some (f64_div a.1 (f64_of_Z a.2)) else None.

(** The requests of the last loop over the pods' containers. *)
Record RequestTotals := mkRequestTotals { q_cpu : float64; q_mem : int64; q_gpu : int }.

Definition sum_requests (a : RequestTotals) (c : ContainerInfo.t) : RequestTotals := {|
  q_cpu := f64_add a.(q_cpu) c.(ContainerInfo.CPURequestCores);
  q_mem := add64 a.(q_mem) c.(ContainerInfo.MemoryRequestBytes);
  q_gpu := add64 a.(q_gpu) c.(ContainerInfo.GPURequest) |}.

Definition ComputeSummary (snapshot : ClusterSnapshot.t) : ClusterSummary.t :=
  let pc := foldl count_pod (mkPodCounts 0 0 0 0 0) snapshot.(Pods) in
  let nt := foldl sum_node node_init snapshot.(Nodes) in
  let rq := foldl (fun a pod => foldl sum_requests a pod.(PodInfo.Containers))
              (mkRequestTotals f64_zero 0 0) snapshot.(Pods) in
  let gpu := nt.(n_hasGPU) && (0 <? nt.(n_gpuUse).2) in
  {| ClusterSummary.NodeCount := golen snapshot.(Nodes);
     ClusterSummary.PodCount := golen snapshot.(Pods);
     ClusterSummary.RunningPodCount := pc.(p_running);
     ClusterSummary.PendingPodCount := pc.(p_pending);
     ClusterSummary.FailedPodCount := pc.(p_failed);
     ClusterSummary.SucceededPodCount := pc.(p_succeeded);
     ClusterSummary.NamespaceCount := golen snapshot.(ClusterSnapshot.Namespaces);
     ClusterSummary.DeploymentCount := golen snapshot.(ClusterSnapshot.Deployments);
     ClusterSummary.StatefulSetCount := golen snapshot.(ClusterSnapshot.StatefulSets);
     ClusterSummary.DaemonSetCount := golen snapshot.(ClusterSnapshot.DaemonSets);
     ClusterSummary.JobCount := golen snapshot.(ClusterSnapshot.Jobs);
     ClusterSummary.CronJobCount := golen snapshot.(ClusterSnapshot.CronJobs);
     ClusterSummary.CustomWorkloadCount := golen snapshot.(ClusterSnapshot.CustomWorkloads);
     ClusterSummary.HPACount := golen snapshot.(ClusterSnapshot.HPAs);
     ClusterSummary.ServiceCount := golen snapshot.(ClusterSnapshot.Services);
     ClusterSummary.IngressCount := golen snapshot.(ClusterSnapshot.Ingresses);
     ClusterSummary.PVCount := golen snapshot.(PVs);
     ClusterSummary.PVCCount := golen snapshot.(PVCs);
     ClusterSummary.ContainerCount := pc.(p_containers);
     ClusterSummary.TotalCPUCapacity := nt.(n_cpuCap);
     ClusterSummary.TotalCPUAllocatable := nt.(n_cpuAlloc);
     ClusterSummary.TotalCPURequested := rq.(q_cpu);
     ClusterSummary.TotalCPUUsage := if nt.(n_hasCPU) then Some nt.(n_cpuUse) else None;
     ClusterSummary.TotalMemoryCapacity := nt.(n_memCap);
     ClusterSummary.TotalMemoryAllocatable := nt.(n_memAlloc);
     ClusterSummary.TotalMemoryRequested := rq.(q_mem);
     ClusterSummary.TotalMemoryUsage := if nt.(n_hasMem) then Some nt.(n_memUse) else None;
     ClusterSummary.TotalGPUCapacity := nt.(n_gpuCap);
     ClusterSummary.TotalGPURequested := rq.(q_gpu);
     ClusterSummary.TotalGPUUsage :=
       if gpu then Some (f64_div nt.(n_gpuUse).1 (f64_of_Z nt.(n_gpuUse).2)) else None;
     ClusterSummary.TotalGPUTensorActive := average nt.(n_tensor);
     ClusterSummary.TotalGPUMemoryUtil := average nt.(n_memUtil);
     ClusterSummary.TotalGPUMemoryUsed := if gpu then Some nt.(n_gpuMemUsed) else None;
     ClusterSummary.TotalGPUMemoryTotal := if gpu then Some nt.(n_gpuMemTotal) else None;
     ClusterSummary.GPUMetricsAvailable := nt.(n_hasGPU);
     ClusterSummary.TotalStorageCapacity := sum64 PVInfo.Capacity snapshot.(PVs);
     ClusterSummary.TotalStorageRequested := sum64 PVCInfo.RequestedBytes snapshot.(PVCs);
     ClusterSummary.MetricsAvailable := nt.(n_hasCPU) |}.

(** ** Reference definitions *)

Definition has {A B} (f : A -> option B) (x : A) : bool := bool_decide (is_Some (f x)).

Definition phase_is (ph : string) (pod : PodInfo.t) : bool := bool_decide (pod.(PodInfo.Phase) = ph).

(** Every field of a summary that is not a float. *)
Definition summary_integers (s : ClusterSummary.t) : list int * list (option int64) * list bool :=
  ([s.(ClusterSummary.NodeCount); s.(ClusterSummary.PodCount); s.(ClusterSummary.RunningPodCount);
    s.(ClusterSummary.PendingPodCount); s.(ClusterSummary.FailedPodCount);
    s.(ClusterSummary.SucceededPodCount); s.(ClusterSummary.NamespaceCount);
    s.(ClusterSummary.DeploymentCount); s.(ClusterSummary.StatefulSetCount);
    s.(ClusterSummary.DaemonSetCount); s.(ClusterSummary.JobCount); s.(ClusterSummary.CronJobCount);
    s.(ClusterSummary.CustomWorkloadCount); s.(ClusterSummary.HPACount); s.(ClusterSummary.ServiceCount);
    s.(ClusterSummary.IngressCount); s.(ClusterSummary.PVCount); s.(ClusterSummary.PVCCount);
    s.(ClusterSummary.ContainerCount); s.(ClusterSummary.TotalMemoryCapacity);
    s.(ClusterSummary.TotalMemoryAllocatable); s.(ClusterSummary.TotalMemoryRequested);
    s.(ClusterSummary.TotalGPUCapacity); s.(ClusterSummary.TotalGPURequested);
    s.(ClusterSummary.TotalStorageCapacity); s.(ClusterSummary.TotalStorageRequested)],
   [s.(ClusterSummary.TotalMemoryUsage); s.(ClusterSummary.TotalGPUMemoryUsed);
    s.(ClusterSummary.TotalGPUMemoryTotal)],
   [s.(ClusterSummary.GPUMetricsAvailable); s.(ClusterSummary.MetricsAvailable)]).

(** What the integers of a summary read of a pod: its phase, and the requests of
    its containers. *)
Definition pod_reading (p : PodInfo.t) : string * list (int64 * int) :=
  (p.(PodInfo.Phase),
   (fun c => (c.(ContainerInfo.MemoryRequestBytes), c.(ContainerInfo.GPURequest))) <$> p.(PodInfo.Containers)).

(** ** Lemmas *)

Lemma existsb_has {A B} (f : A -> option B) l :
  existsb (has f) l = true <-> exists x, x ∈ l /\ is_Some (f x).
Proof.
  rewrite existsb_exists. unfold has. split; intros (x & Hx & Hf); exists x;
    (split; [by apply list_elem_of_In|]).
  - by eapply bool_decide_eq_true_1.
  - by eapply bool_decide_eq_true_2.
Qed.

Lemma acc_opt64_sum {A} (f : A -> option int64) l :
  foldl (fun a n => acc_opt64 a (f n)) 0 l = sum64 id (omap f l).
Proof. apply (foldl_omap f add64). Qed.

Lemma acc_opt_fst {A} (f : A -> option float64) l :
  (foldl (fun a n => acc_opt a (f n)) (f64_zero, 0) l).1 = sumf id (omap f l).
Proof.
  rewrite (foldl_proj fst _ (fun a n => match f n with Some x => f64_add a x | None => a end)).
  - apply (foldl_omap f f64_add).
  - intros a n. unfold acc_opt. by destruct (f n).
Qed.

Lemma acc_opt_snd {A} (f : A -> option float64) l :
  (foldl (fun a n => acc_opt a (f n)) (f64_zero, 0) l).2 = count64 (has f) l.
Proof.
  rewrite (foldl_proj snd _ (fun n x => if has f x then add64 n 1 else n)); [done|].
  intros a n. unfold acc_opt, has. by destruct (f n).
Qed.

Lemma has_orb {A B} (f : A -> option B) l b :
  foldl (fun b n => match f n with Some _ => true | None => b end) b l = b || existsb (has f) l.
Proof.
  rewrite <- foldl_orb. apply foldl_ext_in. intros b' n _. unfold has.
  by destruct (f n).
Qed.

(** The loops, variable by variable. *)
Lemma count_pod_eq a pod :
  let inc ph n := if phase_is ph pod then add64 n 1 else n in
  count_pod a pod =
    mkPodCounts (inc "Running" a.(p_running)) (inc "Pending" a.(p_pending)) (inc "Failed" a.(p_failed))
      (inc "Succeeded" a.(p_succeeded)) (add64 a.(p_containers) (golen pod.(PodInfo.Containers))).
Proof.
  cbv zeta. unfold count_pod, phase_is. generalize (PodInfo.Phase pod). intros ph.
  do 4 (case_decide; [subst ph; reflexivity|]). by rewrite !bool_decide_false.
Qed.

Lemma pods_loop_acc pods a b c d e :
  let cnt ph n := foldl (fun n x => if phase_is ph x then add64 n 1 else n) n pods in
  foldl count_pod (mkPodCounts a b c d e) pods =
    mkPodCounts (cnt "Running" a) (cnt "Pending" b) (cnt "Failed" c) (cnt "Succeeded" d)
      (foldl (fun n pod => add64 n (golen pod.(PodInfo.Containers))) e pods).
Proof.
  revert a b c d e. induction pods as [|pod pods IH]; intros; simpl; [done|].
  by rewrite count_pod_eq, IH.
Qed.

Lemma pods_loop pods :
  foldl count_pod (mkPodCounts 0 0 0 0 0) pods =
    mkPodCounts (count64 (phase_is "Running") pods) (count64 (phase_is "Pending") pods)
      (count64 (phase_is "Failed") pods) (count64 (phase_is "Succeeded") pods)
      (sum64 (fun pod => golen pod.(PodInfo.Containers)) pods).
Proof. apply pods_loop_acc. Qed.

Lemma nodes_loop nodes :
  let r := foldl sum_node node_init nodes in
  r.(n_cpuCap) = sumf NodeInfo.CPUCapacityCores nodes /\
  r.(n_cpuAlloc) = sumf NodeInfo.CPUAllocatable nodes /\
  r.(n_memCap) = sum64 NodeInfo.MemoryCapacityBytes nodes /\
  r.(n_memAlloc) = sum64 NodeInfo.MemoryAllocatable nodes /\
  r.(n_gpuCap) = sum64 NodeInfo.GPUCapacity nodes /\
  r.(n_cpuUse) = sumf id (omap NodeInfo.CPUUsageCores nodes) /\
  r.(n_memUse) = sum64 id (omap NodeInfo.MemoryUsageBytes nodes) /\
  r.(n_hasCPU) = existsb (has NodeInfo.CPUUsageCores) nodes /\
  r.(n_hasMem) = existsb (has NodeInfo.MemoryUsageBytes) nodes /\
  r.(n_gpuUse).1 = sumf id (omap NodeInfo.GPUUtilizationPercent nodes) /\
  r.(n_gpuUse).2 = count64 (has NodeInfo.GPUUtilizationPercent) nodes /\
  r.(n_gpuMemUsed) = sum64 id (omap NodeInfo.GPUMemoryUsedBytes nodes) /\
  r.(n_gpuMemTotal) = sum64 id (omap NodeInfo.GPUMemoryTotalBytes nodes) /\
  r.(n_hasGPU) = existsb (has NodeInfo.GPUUtilizationPercent) nodes.
Proof.
  cbv zeta. split_and!.
  1-5: by apply foldl_proj.
  - rewrite (foldl_proj n_cpuUse _ (fun a n =>
      match n.(NodeInfo.CPUUsageCores) with Some u => f64_add a u | None => a end)) by done.
    apply (foldl_omap NodeInfo.CPUUsageCores f64_add).
  - rewrite <- acc_opt64_sum. by apply foldl_proj.
  - rewrite <- (orb_false_l (existsb _ _)), <- has_orb. by apply (foldl_proj n_hasCPU).
  - rewrite <- (orb_false_l (existsb _ _)), <- has_orb. by apply (foldl_proj n_hasMem).
  - rewrite <- acc_opt_fst. f_equal. by apply (foldl_proj n_gpuUse).
  - rewrite <- acc_opt_snd. f_equal. by apply (foldl_proj n_gpuUse).
  - rewrite <- acc_opt64_sum. by apply foldl_proj.
  - rewrite <- acc_opt64_sum. by apply foldl_proj.
  - rewrite <- (orb_false_l (existsb _ _)), <- has_orb. by apply (foldl_proj n_hasGPU).
Qed.

Lemma requests_loop pods :
  let r := foldl (fun a pod => foldl sum_requests a pod.(PodInfo.Containers))
             (mkRequestTotals f64_zero 0 0) pods in
  r.(q_cpu) = sumf ContainerInfo.CPURequestCores (pod_containers pods) /\
  r.(q_mem) = sum64 ContainerInfo.MemoryRequestBytes (pod_containers pods) /\
  r.(q_gpu) = sum64 ContainerInfo.GPURequest (pod_containers pods).
Proof. cbv zeta. rewrite foldl_containers. split_and!; by apply foldl_proj. Qed.

(** At most one of the four counted phases applies to a pod. *)
Lemma phases_length pods :
  let n ph := length (filter (fun pod => phase_is ph pod = true) pods) in
  (n "Running" + n "Pending" + n "Failed" + n "Succeeded" <= length pods)%nat.
Proof.
  cbv zeta. induction pods as [|pod pods IH]; [done|].
  rewrite !filter_cons. unfold phase_is in *.
  repeat case_decide; simpl; try lia;
    repeat match goal with H : bool_decide _ = true |- _ => apply bool_decide_eq_true in H end;
    congruence.
Qed.

Lemma sum64_omap_perm {A} (f : A -> option int64) l1 l2 :
  l1 ≡ₚ l2 -> sum64 id (omap f l1) = sum64 id (omap f l2).
Proof. by intros ->. Qed.

Lemma sumZ_containers pods :
  sumZ (fun pod => golen pod.(PodInfo.Containers)) pods = golen (pod_containers pods).
Proof.
  unfold golen. induction pods as [|pod pods IH]; simpl; [done|].
  rewrite IH, length_app. lia.
Qed.

(** A counter that counted something is positive, short of overflow. *)
Lemma count64_pos {A} (p : A -> bool) l :
  golen l < 2 ^ 63 -> existsb p l = true -> (0 <? count64 p l) = true.
Proof.
  intros Hl (x & Hx & Hp)%existsb_exists. apply Z.ltb_lt. rewrite count64_spec.
  pose proof (length_filter (fun x => p x = true) l). unfold golen in Hl.
  rewrite wrap64_id by (unfold in_int64; lia).
  assert (Hin : x ∈ filter (fun x => p x = true) l).
  { apply list_elem_of_filter. by rewrite list_elem_of_In. }
  destruct (filter _ l); [by apply not_elem_of_nil in Hin|simpl; lia].
Qed.

Lemma requests_reading {A} (f : ContainerInfo.t -> A) (g : int64 * int -> A) pods :
  (forall c, g (c.(ContainerInfo.MemoryRequestBytes), c.(ContainerInfo.GPURequest)) = f c) ->
  f <$> pod_containers pods = g <$> ((pod_reading <$> pods) ≫= snd).
Proof.
  intros H. unfold pod_containers. induction pods as [|p pods IH]; [done|].
  rewrite fmap_cons, !bind_cons, !fmap_app, IH. f_equal. cbn [pod_reading snd].
  rewrite <- list_fmap_compose. apply list_fmap_ext. intros i c _. by rewrite <- H.
Qed.

(** The readings, in terms of the pods. *)
Lemma phase_reading ph l : golen l < 2 ^ 63 ->
  count64 (fun x : string * list (int64 * int) => bool_decide (x.1 = ph)) (pod_reading <$> l) =
  golen (filter (fun p => p.(PodInfo.Phase) = ph) l).
Proof.
  intros Hl. rewrite count64_fmap, count64_spec. unfold golen in *.
  rewrite wrap64_id.
  - do 2 f_equal. apply list_filter_iff. intros p. apply bool_decide_eq_true.
  - pose proof (length_filter (fun x => bool_decide ((pod_reading x).1 = ph) = true) l). unfold in_int64. lia.
Qed.

Lemma containers_reading l : golen (pod_containers l) < 2 ^ 63 ->
  sum64 (fun x : string * list (int64 * int) => golen x.2) (pod_reading <$> l) = golen (pod_containers l).
Proof.
  intros Hl. rewrite sum64_fmap, sum64_wrap, <- sumZ_containers.
  assert (sumZ (fun p => golen (pod_reading p).2) l = sumZ (fun p => golen p.(PodInfo.Containers)) l) as ->.
  { rewrite (sumZ_fmap (fun p => golen (pod_reading p).2)), (sumZ_fmap (fun p => golen (PodInfo.Containers p))). f_equal.
    apply list_fmap_ext. intros i p _. unfold golen, pod_reading. cbn [snd]. by rewrite length_fmap. }
  apply wrap64_id. unfold in_int64. rewrite sumZ_containers in *. unfold golen in *. lia.
Qed.

Lemma totals_reading (f : ContainerInfo.t -> int64) (g : int64 * int -> int64) l :
  (forall c, g (c.(ContainerInfo.MemoryRequestBytes), c.(ContainerInfo.GPURequest)) = f c) ->
  sum64 g ((pod_reading <$> l) ≫= snd) = wrap64 (sumZ f (pod_containers l)).
Proof. intros H. by rewrite sum64_wrap, (sumZ_fmap g), (sumZ_fmap f), (requests_reading f g _ H). Qed.

(** Every integer of a summary, from the nodes, the volumes, the lengths of the
    lists and the readings of the pods. *)
Lemma ComputeSummary_integers s :
  let ps := pod_reading <$> s.(Pods) in
  let phase ph := count64 (fun x : string * list (int64 * int) => bool_decide (x.1 = ph)) ps in
  let gpu := existsb (has NodeInfo.GPUUtilizationPercent) s.(Nodes) &&
             (0 <? count64 (has NodeInfo.GPUUtilizationPercent) s.(Nodes)) in
  summary_integers (ComputeSummary s) =
  ([golen s.(Nodes); golen ps; phase "Running"; phase "Pending"; phase "Failed"; phase "Succeeded";
    golen s.(ClusterSnapshot.Namespaces); golen s.(ClusterSnapshot.Deployments); golen s.(ClusterSnapshot.StatefulSets);
    golen s.(ClusterSnapshot.DaemonSets); golen s.(ClusterSnapshot.Jobs); golen s.(ClusterSnapshot.CronJobs);
    golen s.(ClusterSnapshot.CustomWorkloads); golen s.(ClusterSnapshot.HPAs); golen s.(ClusterSnapshot.Services);
    golen s.(ClusterSnapshot.Ingresses); golen s.(PVs); golen s.(PVCs); sum64 (fun x => golen x.2) ps;
    sum64 NodeInfo.MemoryCapacityBytes s.(Nodes); sum64 NodeInfo.MemoryAllocatable s.(Nodes); sum64 fst (ps ≫= snd);
    sum64 NodeInfo.GPUCapacity s.(Nodes); sum64 snd (ps ≫= snd); sum64 PVInfo.Capacity s.(PVs);
    sum64 PVCInfo.RequestedBytes s.(PVCs)],
   [if existsb (has NodeInfo.MemoryUsageBytes) s.(Nodes) then Some (sum64 id (omap NodeInfo.MemoryUsageBytes s.(Nodes))) else None;
    if gpu then Some (sum64 id (omap NodeInfo.GPUMemoryUsedBytes s.(Nodes))) else None;
    if gpu then Some (sum64 id (omap NodeInfo.GPUMemoryTotalBytes s.(Nodes))) else None],
   [existsb (has NodeInfo.GPUUtilizationPercent) s.(Nodes); existsb (has NodeInfo.CPUUsageCores) s.(Nodes)]).
Proof.
  cbv zeta. unfold ComputeSummary, summary_integers; simpl. rewrite !pods_loop; simpl.
  destruct (nodes_loop s.(Nodes)) as (_ & _ & -> & -> & -> & _ & -> & -> & -> & _ & -> & -> & -> & ->).
  destruct (requests_loop s.(Pods)) as (_ & -> & ->).
  assert (golen (pod_reading <$> s.(Pods)) = golen s.(Pods)) as -> by (unfold golen; by rewrite length_fmap).
  rewrite !count64_fmap, (sum64_fmap pod_reading).
  assert (sum64 (fun x => golen (pod_reading x).2) s.(Pods) = sum64 (fun p => golen p.(PodInfo.Containers)) s.(Pods)) as ->.
  { rewrite !sum64_wrap. f_equal. unfold sumZ. induction s.(Pods) as [|p l IH]; [done|]. cbn [foldr]. rewrite IH.
    f_equal. unfold golen, pod_reading. cbn [snd]. by rewrite length_fmap. }
  rewrite (totals_reading ContainerInfo.MemoryRequestBytes), (totals_reading ContainerInfo.GPURequest) by done.
  by rewrite !sum64_wrap.
Qed.

(** They are the same when those are, in any order. *)
Lemma summary_integers_perm s s' :
  s.(Nodes) ≡ₚ s'.(Nodes) -> pod_reading <$> s.(Pods) ≡ₚ pod_reading <$> s'.(Pods) ->
  s.(PVs) ≡ₚ s'.(PVs) -> s.(PVCs) ≡ₚ s'.(PVCs) ->
  golen s.(ClusterSnapshot.Namespaces) = golen s'.(ClusterSnapshot.Namespaces) ->
  golen s.(ClusterSnapshot.Deployments) = golen s'.(ClusterSnapshot.Deployments) ->
  golen s.(ClusterSnapshot.StatefulSets) = golen s'.(ClusterSnapshot.StatefulSets) ->
  golen s.(ClusterSnapshot.DaemonSets) = golen s'.(ClusterSnapshot.DaemonSets) ->
  golen s.(ClusterSnapshot.Jobs) = golen s'.(ClusterSnapshot.Jobs) ->
  golen s.(ClusterSnapshot.CronJobs) = golen s'.(ClusterSnapshot.CronJobs) ->
  golen s.(ClusterSnapshot.CustomWorkloads) = golen s'.(ClusterSnapshot.CustomWorkloads) ->
  golen s.(ClusterSnapshot.HPAs) = golen s'.(ClusterSnapshot.HPAs) ->
  golen s.(ClusterSnapshot.Services) = golen s'.(ClusterSnapshot.Services) ->
  golen s.(ClusterSnapshot.Ingresses) = golen s'.(ClusterSnapshot.Ingresses) ->
  summary_integers (ComputeSummary s) = summary_integers (ComputeSummary s').
Proof.
  intros Hn Hp Hv Hc L1 L2 L3 L4 L5 L6 L7 L8 L9 L10. rewrite !ComputeSummary_integers. cbv zeta.
  rewrite L1, L2, L3, L4, L5, L6, L7, L8, L9, L10. rewrite !(existsb_perm _ _ _ Hn), (golen_perm _ _ Hn), (golen_perm _ _ Hp), (golen_perm _ _ Hv),
    (golen_perm _ _ Hc).
  rewrite !(count64_perm _ _ _ Hp), (count64_perm _ _ _ Hn), !(sum64_perm _ _ _ Hn), !(sum64_perm _ _ _ Hp),
    (sum64_perm _ _ _ Hv), (sum64_perm _ _ _ Hc).
  assert ((pod_reading <$> s.(Pods)) ≫= snd ≡ₚ (pod_reading <$> s'.(Pods)) ≫= snd) as Hb by (by rewrite Hp).
  rewrite !(sum64_perm _ _ _ Hb), !(sum64_omap_perm _ _ _ Hn). done.
Qed.

(** ** Properties *)

(** The pod counters of a summary count the pods of each phase, the four
    together never exceed the number of pods, and the container counter adds up
    the containers (on lists no machine-width counter can overflow). *)
Theorem ComputeSummary_pod_counts (s : ClusterSnapshot.t)
  (Hlen : golen s.(Pods) < 2 ^ 63) (Hcs : golen (pod_containers s.(Pods)) < 2 ^ 63) :
  let r := ComputeSummary s in
  let n ph := golen (filter (fun pod => pod.(PodInfo.Phase) = ph) s.(Pods)) in
  r.(ClusterSummary.RunningPodCount) = n "Running" /\
  r.(ClusterSummary.PendingPodCount) = n "Pending" /\
  r.(ClusterSummary.FailedPodCount) = n "Failed" /\
  r.(ClusterSummary.SucceededPodCount) = n "Succeeded" /\
  r.(ClusterSummary.ContainerCount) = golen (pod_containers s.(Pods)) /\
  r.(ClusterSummary.RunningPodCount) + r.(ClusterSummary.PendingPodCount) +
    r.(ClusterSummary.FailedPodCount) + r.(ClusterSummary.SucceededPodCount)
    <= r.(ClusterSummary.PodCount).
Proof.
  cbv zeta. unfold ComputeSummary; simpl. rewrite pods_loop; simpl.
  pose proof (phases_length s.(Pods)) as Hph. cbv zeta in Hph.
  assert (Hf : forall ph, filter (fun pod => pod.(PodInfo.Phase) = ph) s.(Pods) =
    filter (fun pod => phase_is ph pod = true) s.(Pods)).
  { intros ph. apply list_filter_iff. intros x. unfold phase_is. by rewrite bool_decide_eq_true. }
  rewrite !Hf, !count64_spec, sum64_wrap, sumZ_containers. unfold golen in *.
  rewrite !wrap64_id by (unfold in_int64; lia). lia.
Qed.

Definition ex_phase_pod (ph : string) : PodInfo.t :=
  PodInfo.zero <| PodInfo.Phase := ph |> <| PodInfo.Containers := [ex_container] |>.

Definition ex_pods : ClusterSnapshot.t :=
  ClusterSnapshot.zero <| Pods := [ex_phase_pod "Running"; ex_phase_pod "Unknown"; ex_phase_pod "Running"] |>.

Lemma ComputeSummary_pod_counts_witness :
  (ComputeSummary ex_pods).(ClusterSummary.RunningPodCount) = 2 /\
  (ComputeSummary ex_pods).(ClusterSummary.ContainerCount) = 3.
Proof.
  destruct (ComputeSummary_pod_counts ex_pods ltac:(vm_compute; reflexivity) ltac:(vm_compute; reflexivity))
    as (H1 & _ & _ & _ & H2 & _).
  split; [rewrite H1|rewrite H2]; vm_compute; reflexivity.
Defined.

Definition ex_nodes : ClusterSnapshot.t :=
  ClusterSnapshot.zero <| Nodes :=
    [NodeInfo.zero <| NodeInfo.MemoryUsageBytes := Some 5 |>;
     NodeInfo.zero <| NodeInfo.MemoryCapacityBytes := 7 |>] |>.

(** Byte totals are the mathematical sums at 64 bits, and a usage total is
    present exactly when some node reports it; the GPU memory totals are present
    exactly when some node reports GPU utilisation, even if only other nodes
    report GPU memory. *)
Theorem ComputeSummary_node_totals (s : ClusterSnapshot.t) (Hlen : golen s.(Nodes) < 2 ^ 63) :
  let r := ComputeSummary s in
  let reports {B} (f : NodeInfo.t -> option B) := exists n, n ∈ s.(Nodes) /\ is_Some (f n) in
  r.(ClusterSummary.TotalMemoryCapacity) = wrap64 (sumZ NodeInfo.MemoryCapacityBytes s.(Nodes)) /\
  r.(ClusterSummary.TotalMemoryRequested) =
    wrap64 (sumZ ContainerInfo.MemoryRequestBytes (pod_containers s.(Pods))) /\
  (is_Some r.(ClusterSummary.TotalCPUUsage) <-> reports NodeInfo.CPUUsageCores) /\
  (forall u, r.(ClusterSummary.TotalMemoryUsage) = Some u ->
     u = wrap64 (sumZ id (omap NodeInfo.MemoryUsageBytes s.(Nodes)))) /\
  (is_Some r.(ClusterSummary.TotalMemoryUsage) <-> reports NodeInfo.MemoryUsageBytes) /\
  (r.(ClusterSummary.MetricsAvailable) = true <-> reports NodeInfo.CPUUsageCores) /\
  (is_Some r.(ClusterSummary.TotalGPUMemoryUsed) <-> reports NodeInfo.GPUUtilizationPercent).
Proof.
  cbv zeta. unfold ComputeSummary; simpl.
  destruct (nodes_loop s.(Nodes)) as (_ & _ & -> & _ & _ & _ & -> & -> & -> & _ & -> & -> & _ & ->).
  destruct (requests_loop s.(Pods)) as (_ & -> & _).
  rewrite !sum64_wrap, <- !existsb_has. split_and!; try done.
  - by destruct (existsb _ _); split; [|intros _|intros [? ?]|].
  - destruct (existsb _ _); [by intros u [= <-]|done].
  - by destruct (existsb _ _); split; [|intros _|intros [? ?]|].
  - destruct (existsb (has NodeInfo.GPUUtilizationPercent) s.(Nodes)) eqn:E; simpl.
    + rewrite count64_pos by done. by split; intros _.
    + by split; [intros [? ?]|].
Qed.

Lemma ComputeSummary_node_totals_witness :
  is_Some (ComputeSummary ex_nodes).(ClusterSummary.TotalMemoryUsage).
Proof.
  destruct (ComputeSummary_node_totals ex_nodes ltac:(vm_compute; reflexivity))
    as (_ & _ & _ & _ & H & _).
  apply H. eexists. split; [left|]. by eexists.
Defined.
