(* ===== verification/SnapshotBuilder.v ===== *)
(** * Building a snapshot: internal/snapshot/builder.go

    [Build] reads the stores, merges the metrics-server and GPU metrics, backfills
    nodes, resolves owners, runs the enrichment pipeline and computes the summary
    and the identity fields.

    The stores change while a build runs, so a build is given what each of its
    reads sees ([Reads]).  A pod the store hands out shares its containers with
    the stored one: the merges write the usage through to the store, which a
    build therefore returns as well. *)

From S2P Require Import Prelude GoNum GoStrings Config Model Store Dcgm.
From S2P Require Import Ownership Aggregation Targets Pipeline Summary.
Open Scope string_scope.
Open Scope list_scope.
Open Scope Z_scope.

(** ** metrics-server metrics *)

Definition mergeNodeMetrics (nodes : list NodeInfo.t) (metrics : list NodeMetrics.t) :
    list NodeInfo.t :=
  if golen metrics =? 0 then nodes else
  let lookup := index_by NodeMetrics.Name metrics in
  (fun n => match lookup !! n.(NodeInfo.Name) with
            | Some m => n <| NodeInfo.CPUUsageCores := Some m.(NodeMetrics.CPUUsageCores) |>
                          <| NodeInfo.MemoryUsageBytes := Some m.(NodeMetrics.MemoryUsageBytes) |>
            | None => n
            end) <$> nodes.

Definition merge_container (cmLookup : gmap string ContainerMetrics.t) (c : ContainerInfo.t) :
    ContainerInfo.t :=
  match cmLookup !! c.(ContainerInfo.Name) with
  | Some cm => c <| ContainerInfo.CPUUsageCores := Some cm.(ContainerMetrics.CPUUsageCores) |>
                 <| ContainerInfo.MemoryUsageBytes := Some cm.(ContainerMetrics.MemoryUsageBytes) |>
  | None => c
  end.

Definition podmetrics_key (m : PodMetrics.t) : string :=
  ns_name m.(PodMetrics.Namespace) m.(PodMetrics.Name).

(** The body of [mergePodMetrics]'s loop over the pods. *)
Definition merge_pod (lookup : gmap string PodMetrics.t) (pod : PodInfo.t) : PodInfo.t :=
  match lookup !! ns_name pod.(PodInfo.Namespace) pod.(PodInfo.Name) with
  | None => pod
  | Some pm =>
      let cmLookup := index_by ContainerMetrics.Name pm.(PodMetrics.Containers) in
      pod <| PodInfo.Containers := merge_container cmLookup <$> pod.(PodInfo.Containers) |>
  end.

Definition mergePodMetrics (pods : list PodInfo.t) (metrics : list PodMetrics.t) : list PodInfo.t :=
  if golen metrics =? 0 then pods else merge_pod (index_by podmetrics_key metrics) <$> pods.

(** ** GPU metrics *)

(** The devices of each host, in the order of the metrics. *)
Definition byNode (metrics : list GPUDeviceMetrics.t) : gmap string (list GPUDeviceMetrics.t) :=
  foldl (fun (m : gmap string (list GPUDeviceMetrics.t)) d =>
           let h := d.(GPUDeviceMetrics.Hostname) in
           if decide (h ≠ "") then <[h := default [] (m !! h) ++ [d]]> m else m) ∅ metrics.

(** The accumulators of one node's devices; a float sum carries its count. *)
Record GPUSums := mkGPUSums {
  g_util : float64 * int;
  g_tensor : float64 * int;
  g_memUtil : float64 * int;
  g_memUsed : int64;
  g_memTotal : int64;
  g_maxTemp : float64;
  g_power : float64;
  g_hasTemp : bool;
  g_hasPower : bool;
  g_mig : bool;
  g_devices : list GPUDeviceInfo.t }.

Definition gpu_sums_init : GPUSums :=
  mkGPUSums (f64_zero, 0) (f64_zero, 0) (f64_zero, 0) 0 0 f64_zero f64_zero false false false [].

Definition device_info (d : GPUDeviceMetrics.t) : GPUDeviceInfo.t := {|
  GPUDeviceInfo.UUID := d.(GPUDeviceMetrics.UUID);
  GPUDeviceInfo.DeviceIndex := d.(GPUDeviceMetrics.GPU);
  GPUDeviceInfo.ModelName := d.(GPUDeviceMetrics.ModelName);
  GPUDeviceInfo.UtilizationPercent := d.(GPUDeviceMetrics.GPUUtilization);
  GPUDeviceInfo.TensorActivePercent := d.(GPUDeviceMetrics.TensorActivePercent);
  GPUDeviceInfo.MemoryUtilPercent := d.(GPUDeviceMetrics.MemCopyUtilPercent);
  GPUDeviceInfo.MemoryUsedBytes := d.(GPUDeviceMetrics.MemoryUsedBytes);
  GPUDeviceInfo.MemoryTotalBytes := d.(GPUDeviceMetrics.MemoryTotalBytes);
  GPUDeviceInfo.TemperatureCelsius := d.(GPUDeviceMetrics.Temperature);
  GPUDeviceInfo.PowerWatts := d.(GPUDeviceMetrics.PowerUsage);
  GPUDeviceInfo.MIGProfile := d.(GPUDeviceMetrics.GPUProfile);
  GPUDeviceInfo.MIGInstanceID := d.(GPUDeviceMetrics.GPUInstanceID) |}.

(** [if d.X != nil { sum += *d.X; count++ }], and the same for a byte count. *)
Definition add_opt (a : float64 * int) (v : option float64) : float64 * int :=
  match v with Some v => (f64_add a.1 v, add64 a.2 1) | None => a end.

Definition add_opt64 (a : int64) (v : option int64) : int64 :=
  match v with Some v => add64 a v | None => a end.

Definition sum_device (a : GPUSums) (d : GPUDeviceMetrics.t) : GPUSums := {|
  g_util := add_opt a.(g_util) d.(GPUDeviceMetrics.GPUUtilization);
  g_tensor := add_opt a.(g_tensor) d.(GPUDeviceMetrics.TensorActivePercent);
  g_memUtil := add_opt a.(g_memUtil) d.(GPUDeviceMetrics.MemCopyUtilPercent);
  g_memUsed := add_opt64 a.(g_memUsed) d.(GPUDeviceMetrics.MemoryUsedBytes);
  g_memTotal := add_opt64 a.(g_memTotal) d.(GPUDeviceMetrics.MemoryTotalBytes);
  g_maxTemp := match d.(GPUDeviceMetrics.Temperature) with
    | Some v => if f64_ltb a.(g_maxTemp) v then v else a.(g_maxTemp)
    | None => a.(g_maxTemp)
    end;
  g_power := match d.(GPUDeviceMetrics.PowerUsage) with
    | Some v => f64_add a.(g_power) v
    | None => a.(g_power)
    end;
  g_hasTemp := match d.(GPUDeviceMetrics.Temperature) with Some _ => true | None => a.(g_hasTemp) end;
  g_hasPower := match d.(GPUDeviceMetrics.PowerUsage) with Some _ => true | None => a.(g_hasPower) end;
  g_mig := if decide (d.(GPUDeviceMetrics.MIGEnabled) = Some true) then true else a.(g_mig);
  g_devices := a.(g_devices) ++ [device_info d] |}.

Definition mean (a : float64 * int) (old : option float64) : option float64 :=
  if 0 <? a.2 then Some (f64_div a.1 (f64_of_Z a.2)) else old.

(** The body of [mergeGPUNodeMetrics]'s loop over the nodes. *)
Definition merge_gpu_node (byNode : gmap string (list GPUDeviceMetrics.t)) (n : NodeInfo.t) :
    NodeInfo.t :=
  match byNode !! n.(NodeInfo.Name) with
  | None | Some [] => n
  | Some ((d0 :: _) as devs) =>
      let a := foldl sum_device gpu_sums_init devs in
      n <| NodeInfo.GPUDevices := a.(g_devices) |>
        <| NodeInfo.GPUModel := if decide (d0.(GPUDeviceMetrics.ModelName) ≠ "")
                                then d0.(GPUDeviceMetrics.ModelName) else n.(NodeInfo.GPUModel) |>
        <| NodeInfo.GPUDriverVersion := if decide (d0.(GPUDeviceMetrics.DriverVersion) ≠ "")
                                        then d0.(GPUDeviceMetrics.DriverVersion)
                                        else n.(NodeInfo.GPUDriverVersion) |>
        <| NodeInfo.MIGEnabled := a.(g_mig) |>
        <| NodeInfo.GPUUtilizationPercent := mean a.(g_util) n.(NodeInfo.GPUUtilizationPercent) |>
        <| NodeInfo.GPUTensorActivePercent := mean a.(g_tensor) n.(NodeInfo.GPUTensorActivePercent) |>
        <| NodeInfo.GPUMemoryUtilPercent := mean a.(g_memUtil) n.(NodeInfo.GPUMemoryUtilPercent) |>
        <| NodeInfo.GPUMemoryUsedBytes := if 0 <? a.(g_memUsed) then Some a.(g_memUsed)
                                          else n.(NodeInfo.GPUMemoryUsedBytes) |>
        <| NodeInfo.GPUMemoryTotalBytes := if 0 <? a.(g_memTotal) then Some a.(g_memTotal)
                                           else n.(NodeInfo.GPUMemoryTotalBytes) |>
        <| NodeInfo.GPUTemperatureCelsius := if a.(g_hasTemp) then Some a.(g_maxTemp)
                                             else n.(NodeInfo.GPUTemperatureCelsius) |>
        <| NodeInfo.GPUPowerWatts := if a.(g_hasPower) then Some a.(g_power)
                                     else n.(NodeInfo.GPUPowerWatts) |>
  end.

Definition mergeGPUNodeMetrics (nodes : list NodeInfo.t) (metrics : list GPUDeviceMetrics.t) :
    list NodeInfo.t :=
  if golen metrics =? 0 then nodes else merge_gpu_node (byNode metrics) <$> nodes.

(** [containerKey]: namespace, pod, container. *)
Abbreviation containerKey := (string * string * string)%type (only parsing).

Record containerGPU := mkContainerGPU {
  c_utilSum : float64;
  c_utilCount : int;
  c_memUsed : int64;
  c_hasUtil : bool;
  c_hasMem : bool }.

Definition add_container_gpu (a : containerGPU) (m : GPUDeviceMetrics.t) : containerGPU :=
  let a := match m.(GPUDeviceMetrics.GPUUtilization) with
    | Some v => mkContainerGPU (f64_add a.(c_utilSum) v) (add64 a.(c_utilCount) 1) a.(c_memUsed)
                  true a.(c_hasMem)
    | None => a
    end in
  match m.(GPUDeviceMetrics.MemoryUsedBytes) with
  | Some v => mkContainerGPU a.(c_utilSum) a.(c_utilCount) (add64 a.(c_memUsed) v) a.(c_hasUtil) true
  | None => a
  end.

Definition gpuByContainer (metrics : list GPUDeviceMetrics.t) : gmap containerKey containerGPU :=
  foldl (fun (lookup : gmap containerKey containerGPU) m =>
           if decide (m.(GPUDeviceMetrics.PodName) = "" \/ m.(GPUDeviceMetrics.Namespace) = "" \/
                      m.(GPUDeviceMetrics.ContainerName) = "") then lookup
           else
             let key := (m.(GPUDeviceMetrics.Namespace), m.(GPUDeviceMetrics.PodName),
                         m.(GPUDeviceMetrics.ContainerName)) in
             let cg := default (mkContainerGPU f64_zero 0 0 false false) (lookup !! key) in
             <[key := add_container_gpu cg m]> lookup) ∅ metrics.

Definition merge_gpu_container (lookup : gmap containerKey containerGPU) (pod : PodInfo.t)
    (c : ContainerInfo.t) : ContainerInfo.t :=
  match lookup !! (pod.(PodInfo.Namespace), pod.(PodInfo.Name), c.(ContainerInfo.Name)) with
  | None => c
  | Some cg =>
      c <| ContainerInfo.GPUUtilizationPercent :=
             if cg.(c_hasUtil) && (0 <? cg.(c_utilCount))
             then Some (f64_div cg.(c_utilSum) (f64_of_Z cg.(c_utilCount)))
             else c.(ContainerInfo.GPUUtilizationPercent) |>
        <| ContainerInfo.GPUMemoryUsedBytes :=
             if cg.(c_hasMem) then Some cg.(c_memUsed) else c.(ContainerInfo.GPUMemoryUsedBytes) |>
  end.

Definition merge_gpu_pod (lookup : gmap containerKey containerGPU) (pod : PodInfo.t) : PodInfo.t :=
  pod <| PodInfo.Containers := merge_gpu_container lookup pod <$> pod.(PodInfo.Containers) |>.

Definition mergeGPUContainerMetrics (pods : list PodInfo.t) (metrics : list GPUDeviceMetrics.t) :
    list PodInfo.t :=
  if golen metrics =? 0 then pods else merge_gpu_pod (gpuByContainer metrics) <$> pods.

(** ** Identity *)

Definition deriveProvider (providerID : string) : string :=
  if HasPrefix providerID "aws://" then "aws"
  else if HasPrefix providerID "gce://" then "gcp"
  else if HasPrefix providerID "azure://" then "azure"
  else "".

(** ** Backfill *)

(** [struct{}]-valued maps are sets. *)
Definition present_names (nodes : list NodeInfo.t) : gset string :=
  list_to_set (NodeInfo.Name <$> nodes).

Definition referenced_names (present : gset string) (pods : list PodInfo.t) : gmap string unit :=
  foldl (fun (r : gmap string unit) p =>
           let n := p.(PodInfo.NodeName) in
           if decide (n = "") then r else if decide (n ∈ present) then r else <[n := tt]> r) ∅ pods.

(** The nodes with the appended ones, and the names still orphan.  [storeNodes]
    is the second read of the node store, [o] the order of the range over the
    referenced names. *)
Definition backfillReferencedNodes (o : RangeOrder) (storeNodes : list NodeInfo.t)
    (nodes : list NodeInfo.t) (pods : list PodInfo.t) : list NodeInfo.t * list string :=
  if golen pods =? 0 then (nodes, []) else
  let referenced := referenced_names (present_names nodes) pods in
  if mlen (Some referenced) =? 0 then (nodes, []) else
  let storeIndex := index_by NodeInfo.Name storeNodes in
  foldl (fun '((nodes, stillOrphan) : list NodeInfo.t * list string) '(name, _) =>
           match storeIndex !! name with
           | Some n => (nodes ++ [n], stillOrphan)
           | None => (nodes, stillOrphan ++ [name])
           end) (nodes, []) (range o referenced).

(** ** Build *)

(** What the reads of one build see. *)
Module Reads.
Record t := mk {
  store : Store.t;                              (* step 1: each typed store when it is read *)
  order : RangeOrder;
  nodeMetrics : TypedStore.t NodeMetrics.t;     (* step 2 *)
  podMetrics : TypedStore.t PodMetrics.t;
  gpu : option (list GPUDeviceMetrics.t);       (* step 3b; None without a GPU collector *)
  laterNodes : TypedStore.t NodeInfo.t;         (* step 3c: the second read of the nodes *)
  uuid : string;                                (* step 7 *)
  now : Time;
  lastUpdated : gmap string int64;              (* step 8 *)
  staleNow : Time }.
End Reads.

(** Step 1.  The replica sets are returned apart. *)
Definition readStores (o : RangeOrder) (st : Store.t) (snap : ClusterSnapshot.t) :
    ClusterSnapshot.t * list ReplicaSetInfo.t :=
  ({| ClusterSnapshot.SnapshotID := snap.(ClusterSnapshot.SnapshotID);
     ClusterSnapshot.ClusterID := snap.(ClusterSnapshot.ClusterID);
     ClusterSnapshot.Timestamp := snap.(ClusterSnapshot.Timestamp);
     ClusterSnapshot.AgentVersion := snap.(ClusterSnapshot.AgentVersion);
     ClusterSnapshot.Provider := snap.(ClusterSnapshot.Provider);
     ClusterSnapshot.Region := snap.(ClusterSnapshot.Region);
     ClusterSnapshot.CloudAccountID := snap.(ClusterSnapshot.CloudAccountID);
     ClusterSnapshot.KubernetesVersion := snap.(ClusterSnapshot.KubernetesVersion);
     ClusterSnapshot.Nodes := TypedStore.Values o st.(Store.Nodes);
     ClusterSnapshot.Pods := TypedStore.Values o st.(Store.Pods);
     ClusterSnapshot.Namespaces := TypedStore.Values o st.(Store.Namespaces);
     ClusterSnapshot.Deployments := TypedStore.Values o st.(Store.Deployments);
     ClusterSnapshot.StatefulSets := TypedStore.Values o st.(Store.StatefulSets);
     ClusterSnapshot.DaemonSets := TypedStore.Values o st.(Store.DaemonSets);
     ClusterSnapshot.Jobs := TypedStore.Values o st.(Store.Jobs);
     ClusterSnapshot.CronJobs := TypedStore.Values o st.(Store.CronJobs);
     ClusterSnapshot.CustomWorkloads := TypedStore.Values o st.(Store.CustomWorkloads);
     ClusterSnapshot.HPAs := TypedStore.Values o st.(Store.HPAs);
     ClusterSnapshot.VPAs := TypedStore.Values o st.(Store.VPAs);
     ClusterSnapshot.PDBs := TypedStore.Values o st.(Store.PDBs);
     ClusterSnapshot.Services := TypedStore.Values o st.(Store.Services);
     ClusterSnapshot.Ingresses := TypedStore.Values o st.(Store.Ingresses);
     ClusterSnapshot.PVs := TypedStore.Values o st.(Store.PVs);
     ClusterSnapshot.PVCs := TypedStore.Values o st.(Store.PVCs);
     ClusterSnapshot.StorageClasses := TypedStore.Values o st.(Store.StorageClasses);
     ClusterSnapshot.PriorityClasses := TypedStore.Values o st.(Store.PriorityClasses);
     ClusterSnapshot.LimitRanges := TypedStore.Values o st.(Store.LimitRanges);
     ClusterSnapshot.ResourceQuotas := TypedStore.Values o st.(Store.ResourceQuotas);
     ClusterSnapshot.NodePools := TypedStore.Values o st.(Store.NodePools);
     ClusterSnapshot.Summary := snap.(ClusterSnapshot.Summary);
     ClusterSnapshot.Health := snap.(ClusterSnapshot.Health) |},
   TypedStore.Values o st.(Store.ReplicaSets)).

(** Step 3 on the pods: the metrics-server merge, then the GPU merge. *)
Definition merge_pods (r : Reads.t) (pods : list PodInfo.t) : list PodInfo.t :=
  let pods := mergePodMetrics pods (TypedStore.Values r.(Reads.order) r.(Reads.podMetrics)) in
  match r.(Reads.gpu) with
  | Some gpuMetrics => mergeGPUContainerMetrics pods gpuMetrics
  | None => pods
  end.

Definition merge_nodes (r : Reads.t) (nodes : list NodeInfo.t) : list NodeInfo.t :=
  let nodes := mergeNodeMetrics nodes (TypedStore.Values r.(Reads.order) r.(Reads.nodeMetrics)) in
  match r.(Reads.gpu) with
  | Some gpuMetrics => mergeGPUNodeMetrics nodes gpuMetrics
  | None => nodes
  end.

(** The merges write to the containers of the pods the store holds: those of
    the stored pod and of its copy in the snapshot are one slice. *)
Definition write_through (r : Reads.t) (st : Store.t) : Store.t :=
  let merged p := match merge_pods r [p] with
                  | p' :: _ => p <| PodInfo.Containers := p'.(PodInfo.Containers) |>
                  | [] => p
                  end in
  st <| Store.Pods := TypedStore.mk (merged <$> TypedStore.items st.(Store.Pods))
                        (TypedStore.lastUpdated st.(Store.Pods)) |>.

(** Step 8: the resources not updated for more than three intervals. *)
Definition stale_resources (o : RangeOrder) (cfg : Config.t) (staleNow : Time)
    (lastUpdated : gmap string int64) : list string :=
  let stalenessThreshold := mul64 3 cfg.(Config.SnapshotInterval) in
  foldl (fun stale '(resource, lu) =>
           let age := mul64 (sub64 (unix_milli staleNow) lu) Millisecond in
           if stalenessThreshold <? age then stale ++ [resource] else stale)
        [] (range o lastUpdated).

Module BuildResult.
Record t := mk {
  snapshot : ClusterSnapshot.t;
  store : Store.t;
  orphans : list string }.
End BuildResult.

(** Steps 7 and 8. *)
Definition set_identity (cfg : Config.t) (cloudAccountID : string) (r : Reads.t)
    (snap : ClusterSnapshot.t) : ClusterSnapshot.t :=
  let snap := snap <| ClusterSnapshot.SnapshotID := r.(Reads.uuid) |>
                   <| ClusterSnapshot.Timestamp := unix_milli r.(Reads.now) |>
                   <| ClusterSnapshot.AgentVersion := cfg.(Config.AgentVersion) |>
                   <| ClusterSnapshot.KubernetesVersion := cfg.(Config.KubernetesVersion) |> in
  let snap := match snap.(ClusterSnapshot.Nodes) with
    | n :: _ => snap <| ClusterSnapshot.Provider := deriveProvider n.(NodeInfo.ProviderID) |>
                     <| ClusterSnapshot.Region := n.(NodeInfo.Region) |>
    | [] => snap
    end in
  let snap := snap <| ClusterSnapshot.CloudAccountID := cloudAccountID |> in
  let stale := stale_resources r.(Reads.order) cfg r.(Reads.staleNow) r.(Reads.lastUpdated) in
  snap <| ClusterSnapshot.Health :=
    snap.(ClusterSnapshot.Health) <| AgentHealth.StaleResources :=
      snap.(ClusterSnapshot.Health).(AgentHealth.StaleResources) ++ stale |> |>.

Definition Build (cfg : Config.t) (pipeline : option Pipeline) (cloudAccountID : string)
    (r : Reads.t) : BuildResult.t :=
  let o := r.(Reads.order) in
  let '(snap, replicaSets) := readStores o r.(Reads.store) ClusterSnapshot.zero in
  let nodes := merge_nodes r snap.(ClusterSnapshot.Nodes) in
  let pods := merge_pods r snap.(ClusterSnapshot.Pods) in
  let '(nodes, orphans) := backfillReferencedNodes o (TypedStore.Values o r.(Reads.laterNodes)) nodes pods in
  let snap := snap <| ClusterSnapshot.Nodes := nodes |> <| ClusterSnapshot.Pods := pods |> in
  let snap := ((OwnershipEnricher replicaSets).(Enrich) snap).1 in
  let snap := match pipeline with Some p => (Run p snap).(Pipeline.snapshot) | None => snap end in
  let snap := snap <| ClusterSnapshot.Summary := ComputeSummary snap |> in
  BuildResult.mk (set_identity cfg cloudAccountID r snap) (write_through r r.(Reads.store)) orphans.

(** ** Reference definitions *)

(** The usage the metrics report for a container of a pod, the last report of a
    key counting. *)
Definition reported_usage (ms : list PodMetrics.t) (pod : PodInfo.t) (c : ContainerInfo.t) :
    option ContainerMetrics.t :=
  pm ← last (filter (fun m => podmetrics_key m = ns_name pod.(PodInfo.Namespace) pod.(PodInfo.Name)) ms);
  last (filter (fun cm => cm.(ContainerMetrics.Name) = c.(ContainerInfo.Name)) pm.(PodMetrics.Containers)).

Definition with_usage (u : option ContainerMetrics.t) (c : ContainerInfo.t) : ContainerInfo.t :=
  match u with
  | Some cm => c <| ContainerInfo.CPUUsageCores := Some cm.(ContainerMetrics.CPUUsageCores) |>
                 <| ContainerInfo.MemoryUsageBytes := Some cm.(ContainerMetrics.MemoryUsageBytes) |>
  | None => c
  end.

(** The devices of a node: those whose host has its name. *)
Definition node_devices (ms : list GPUDeviceMetrics.t) (n : NodeInfo.t) : list GPUDeviceMetrics.t :=
  filter (fun d => d.(GPUDeviceMetrics.Hostname) = n.(NodeInfo.Name) /\ d.(GPUDeviceMetrics.Hostname) ≠ "") ms.

Definition mean_of (vs : list float64) (old : option float64) : option float64 :=
  match vs with [] => old | _ => Some (f64_div (sumf id vs) (f64_of_Z (golen vs))) end.

(** The objects of a typed store, in some order. *)
Definition stored {T} (ts : TypedStore.t T) : list T := (map_to_list ts.(TypedStore.items)).*2.

(** ** Lemmas *)

Lemma golen_0 {A} (l : list A) : (golen l =? 0) = bool_decide (l = []).
Proof. by destruct l. Qed.

Lemma byNode_lookup ms h :
  byNode ms !! h =
    match filter (fun d => d.(GPUDeviceMetrics.Hostname) = h /\ d.(GPUDeviceMetrics.Hostname) ≠ "") ms with
    | [] => None
    | ds => Some ds
    end.
Proof.
  induction ms as [|d ms IH] using rev_ind; [done|].
  unfold byNode in *. rewrite foldl_app, filter_app, filter_cons, filter_nil. cbn [foldl].
  case_decide as Hd.
  - rewrite lookup_insert. case_decide as He.
    + rewrite decide_True by done. rewrite He, IH. by destruct (filter _ ms).
    + rewrite decide_False, app_nil_r by tauto. apply IH.
  - rewrite decide_False, app_nil_r by tauto. apply IH.
Qed.

(** The accumulators after the devices [ds], from any start. *)
Lemma sum_device_foldl ds a :
  let r := foldl sum_device a ds in
  r.(g_devices) = a.(g_devices) ++ (device_info <$> ds) /\
  r.(g_util) = foldl add_opt a.(g_util) (GPUDeviceMetrics.GPUUtilization <$> ds) /\
  r.(g_memUsed) = foldl add_opt64 a.(g_memUsed) (GPUDeviceMetrics.MemoryUsedBytes <$> ds).
Proof.
  revert a. induction ds as [|d ds IH]; intros a; [by rewrite app_nil_r|].
  destruct (IH (sum_device a d)) as (H1 & H2 & H3). cbn [foldl fmap list_fmap]. cbv zeta in *.
  rewrite H1, H2, H3. split_and!; [|done..]. cbn. by rewrite <- (assoc_L (++)).
Qed.

Lemma add_opt_foldl vs s k :
  foldl add_opt (s, wrap64 (Z.of_nat k)) vs =
    (foldl f64_add s (omap id vs), wrap64 (Z.of_nat (k + length (omap id vs)))).
Proof.
  revert s k. induction vs as [|[v|] vs IH]; intros s k; cbn [foldl omap list_omap id].
  - by rewrite Nat.add_0_r.
  - unfold add_opt at 2. cbn [fst snd]. unfold add64. rewrite wrap64_add_l.
    replace (Z.of_nat k + 1) with (Z.of_nat (S k)) by lia. rewrite IH. cbn [foldl length].
    do 3 f_equal. lia.
  - apply IH.
Qed.

Lemma mean_add_opt vs old :
  golen (omap id vs) < 2 ^ 63 ->
  mean (foldl add_opt (f64_zero, 0) vs) old = mean_of (omap id vs) old.
Proof.
  intros Hl. change 0 with (wrap64 (Z.of_nat 0)). rewrite add_opt_foldl. unfold mean, mean_of. cbn [fst snd].
  rewrite wrap64_id by (unfold in_int64, golen in *; lia). unfold golen, sumf, id.
  destruct (omap (fun x => x) vs) as [|v l] eqn:E; [done|].
  rewrite (proj2 (Z.ltb_lt _ _)) by (simpl; lia). done.
Qed.

Lemma add_opt64_sum vs a :
  foldl add_opt64 (wrap64 a) vs = wrap64 (a + sumZ (default 0) vs).
Proof.
  revert a. induction vs as [|[v|] vs IH]; intros a; cbn [foldl sumZ foldr add_opt64 default].
  - by rewrite Z.add_0_r.
  - unfold add64. rewrite wrap64_add_l, IH. f_equal. cbn. unfold sumZ. lia.
  - rewrite IH. f_equal.
Qed.

Lemma merge_pod_usage ms pod :
  merge_pod (index_by podmetrics_key ms) pod =
    pod <| PodInfo.Containers :=
      (fun c => with_usage (reported_usage ms pod c) c) <$> pod.(PodInfo.Containers) |>.
Proof.
  unfold merge_pod, reported_usage. rewrite index_by_last.
  destruct (last _) as [pm|]; cbn.
  - unfold set_with. f_equal. apply list_fmap_ext. intros i c _. unfold merge_container, with_usage.
    by rewrite index_by_last.
  - destruct pod. unfold set_with. cbn. f_equal. symmetry. apply list_fmap_id.
Qed.

Lemma mergePodMetrics_eq pods ms :
  mergePodMetrics pods ms =
    (fun pod => pod <| PodInfo.Containers :=
       (fun c => with_usage (reported_usage ms pod c) c) <$> pod.(PodInfo.Containers) |>) <$> pods.
Proof.
  unfold mergePodMetrics. rewrite golen_0. case_bool_decide as Hm.
  - subst ms. rewrite <- (list_fmap_id pods) at 1. apply list_fmap_ext. intros i pod _.
    destruct pod. unfold set_with. cbn. f_equal. symmetry. apply list_fmap_id.
  - apply list_fmap_ext. intros i pod _. apply merge_pod_usage.
Qed.

(** Merges act on each pod alone, and only on its containers. *)
Lemma merge_pods_pointwise r :
  exists f : PodInfo.t -> list ContainerInfo.t,
    forall ps, merge_pods r ps = (fun p => p <| PodInfo.Containers := f p |>) <$> ps.
Proof.
  set (ms := TypedStore.Values (Reads.order r) (Reads.podMetrics r)).
  set (f1 := fun pod : PodInfo.t => (fun c => with_usage (reported_usage ms pod c) c) <$> pod.(PodInfo.Containers)).
  set (f2 := fun pod : PodInfo.t =>
    match Reads.gpu r with
    | Some g => if golen g =? 0 then f1 pod
                else merge_gpu_container (gpuByContainer g) pod <$> f1 pod
    | None => f1 pod
    end).
  exists f2. intros ps. unfold merge_pods. fold ms. rewrite mergePodMetrics_eq. unfold f2.
  destruct (Reads.gpu r) as [g|]; [|done]. unfold mergeGPUContainerMetrics.
  destruct (golen g =? 0); [done|]. by rewrite <- list_fmap_compose.
Qed.

Lemma write_through_values r st :
  TypedStore.Values (Reads.order r) (write_through r st).(Store.Pods) ≡ₚ
    merge_pods r (TypedStore.Values (Reads.order r) st.(Store.Pods)).
Proof.
  destruct (merge_pods_pointwise r) as [f Hf]. rewrite Hf, !Values_perm.
  rewrite <- list_fmap_compose. unfold write_through.
  change (Store.Pods (st <| Store.Pods := ?x |>)) with x. cbn [TypedStore.items].
  rewrite map_to_list_fmap, <- list_fmap_compose.
  apply reflexive_eq, list_fmap_ext. intros i [k p] _. cbn. by rewrite Hf.
Qed.

Lemma backfill_loop (ix : gmap string NodeInfo.t) (l : list (string * unit)) nodes orphans :
  foldl (fun '((nodes, stillOrphan) : list NodeInfo.t * list string) '(name, _) =>
           match ix !! name with
           | Some n => (nodes ++ [n], stillOrphan)
           | None => (nodes, stillOrphan ++ [name])
           end) (nodes, orphans) l =
    (nodes ++ omap (fun p : string * unit => ix !! p.1) l,
     orphans ++ filter (fun name => ix !! name = None) l.*1).
Proof.
  revert nodes orphans. induction l as [|[name []] l IH]; intros nodes orphans;
    [by rewrite !app_nil_r|].
  cbn [foldl omap list_omap fmap list_fmap fst]. rewrite filter_cons.
  destruct (ix !! name) as [n|]; rewrite IH.
  - rewrite decide_False by done. by rewrite <- (assoc_L (++)).
  - rewrite decide_True by done. by rewrite <- (assoc_L (++)).
Qed.

Lemma referenced_names_lookup present pods n :
  referenced_names present pods !! n = Some tt <->
  n ≠ "" /\ ~ n ∈ present /\ (exists p, p ∈ pods /\ p.(PodInfo.NodeName) = n).
Proof.
  unfold referenced_names. induction pods as [|p pods IH] using rev_ind.
  { split; [done|]. by intros (_ & _ & p & ?%not_elem_of_nil & _). }
  rewrite foldl_app. cbn [foldl].
  assert ((exists q, q ∈ pods ++ [p] /\ q.(PodInfo.NodeName) = n) <->
    (exists q, q ∈ pods /\ q.(PodInfo.NodeName) = n) \/ p.(PodInfo.NodeName) = n) as ->.
  { setoid_rewrite elem_of_app. setoid_rewrite list_elem_of_singleton. split.
    - intros (q & [?| ->] & ?); eauto.
    - intros [(q & ? & ?)|?]; eauto 10. }
  repeat case_decide; rewrite ?lookup_insert; try case_decide; rewrite ?IH; intuition congruence.
Qed.

Lemma backfilled_NoDup (ix : gmap string NodeInfo.t) (l : list (string * unit)) :
  (forall k n, ix !! k = Some n -> n.(NodeInfo.Name) = k) -> NoDup l.*1 ->
  NoDup (NodeInfo.Name <$> omap (fun p : string * unit => ix !! p.1) l).
Proof.
  intros Hix. induction l as [|[k []] l IH]; [constructor|].
  cbn [fmap list_fmap omap list_omap fst]. intros [Hk Hl]%NoDup_cons.
  destruct (ix !! k) as [n|] eqn:Hn; [|by apply IH].
  cbn [fmap list_fmap]. apply NoDup_cons. split; [|by apply IH].
  rewrite (Hix k n Hn). intros (n' & Hkn & ([k' []] & Hk' & Hn')%list_elem_of_omap)%list_elem_of_fmap.
  cbn in Hn'. rewrite (Hix _ _ Hn') in Hkn. subst k'. apply Hk. by apply (list_elem_of_fmap_2 fst) in Hk'.
Qed.

(** The lists of a snapshot. *)
Module Lists.
Record t := mk {
  Nodes : list NodeInfo.t;
  Pods : list PodInfo.t;
  Namespaces : list NamespaceInfo.t;
  Deployments : list DeploymentInfo.t;
  StatefulSets : list StatefulSetInfo.t;
  DaemonSets : list DaemonSetInfo.t;
  Jobs : list JobInfo.t;
  CronJobs : list CronJobInfo.t;
  CustomWorkloads : list CustomWorkloadInfo.t;
  HPAs : list HPAInfo.t;
  VPAs : list VPAInfo.t;
  PDBs : list PDBInfo.t;
  Services : list ServiceInfo.t;
  Ingresses : list IngressInfo.t;
  PVs : list PVInfo.t;
  PVCs : list PVCInfo.t;
  StorageClasses : list StorageClassInfo.t;
  PriorityClasses : list PriorityClassInfo.t;
  LimitRanges : list LimitRangeInfo.t;
  ResourceQuotas : list ResourceQuotaInfo.t;
  NodePools : list NodePoolInfo.t }.
#[export] Instance eta : Eta t := fun r => mk r.(Nodes) r.(Pods) r.(Namespaces) r.(Deployments) r.(StatefulSets) r.(DaemonSets) r.(Jobs) r.(CronJobs) r.(CustomWorkloads) r.(HPAs) r.(VPAs) r.(PDBs) r.(Services) r.(Ingresses) r.(PVs) r.(PVCs) r.(StorageClasses) r.(PriorityClasses) r.(LimitRanges) r.(ResourceQuotas) r.(NodePools).
End Lists.
Export (hints) Lists.

Definition lists_of (s : ClusterSnapshot.t) : Lists.t := {|
  Lists.Nodes := s.(ClusterSnapshot.Nodes);
  Lists.Pods := s.(ClusterSnapshot.Pods);
  Lists.Namespaces := s.(ClusterSnapshot.Namespaces);
  Lists.Deployments := s.(ClusterSnapshot.Deployments);
  Lists.StatefulSets := s.(ClusterSnapshot.StatefulSets);
  Lists.DaemonSets := s.(ClusterSnapshot.DaemonSets);
  Lists.Jobs := s.(ClusterSnapshot.Jobs);
  Lists.CronJobs := s.(ClusterSnapshot.CronJobs);
  Lists.CustomWorkloads := s.(ClusterSnapshot.CustomWorkloads);
  Lists.HPAs := s.(ClusterSnapshot.HPAs);
  Lists.VPAs := s.(ClusterSnapshot.VPAs);
  Lists.PDBs := s.(ClusterSnapshot.PDBs);
  Lists.Services := s.(ClusterSnapshot.Services);
  Lists.Ingresses := s.(ClusterSnapshot.Ingresses);
  Lists.PVs := s.(ClusterSnapshot.PVs);
  Lists.PVCs := s.(ClusterSnapshot.PVCs);
  Lists.StorageClasses := s.(ClusterSnapshot.StorageClasses);
  Lists.PriorityClasses := s.(ClusterSnapshot.PriorityClasses);
  Lists.LimitRanges := s.(ClusterSnapshot.LimitRanges);
  Lists.ResourceQuotas := s.(ClusterSnapshot.ResourceQuotas);
  Lists.NodePools := s.(ClusterSnapshot.NodePools) |}.

(** The lists a build reads, for the nodes and pods it ends step 3 with. *)
Definition read_lists (o : RangeOrder) (st : Store.t) (nodes : list NodeInfo.t) (pods : list PodInfo.t) :
    Lists.t := {|
  Lists.Nodes := nodes;
  Lists.Pods := pods;
  Lists.Namespaces := TypedStore.Values o st.(Store.Namespaces);
  Lists.Deployments := TypedStore.Values o st.(Store.Deployments);
  Lists.StatefulSets := TypedStore.Values o st.(Store.StatefulSets);
  Lists.DaemonSets := TypedStore.Values o st.(Store.DaemonSets);
  Lists.Jobs := TypedStore.Values o st.(Store.Jobs);
  Lists.CronJobs := TypedStore.Values o st.(Store.CronJobs);
  Lists.CustomWorkloads := TypedStore.Values o st.(Store.CustomWorkloads);
  Lists.HPAs := TypedStore.Values o st.(Store.HPAs);
  Lists.VPAs := TypedStore.Values o st.(Store.VPAs);
  Lists.PDBs := TypedStore.Values o st.(Store.PDBs);
  Lists.Services := TypedStore.Values o st.(Store.Services);
  Lists.Ingresses := TypedStore.Values o st.(Store.Ingresses);
  Lists.PVs := TypedStore.Values o st.(Store.PVs);
  Lists.PVCs := TypedStore.Values o st.(Store.PVCs);
  Lists.StorageClasses := TypedStore.Values o st.(Store.StorageClasses);
  Lists.PriorityClasses := TypedStore.Values o st.(Store.PriorityClasses);
  Lists.LimitRanges := TypedStore.Values o st.(Store.LimitRanges);
  Lists.ResourceQuotas := TypedStore.Values o st.(Store.ResourceQuotas);
  Lists.NodePools := TypedStore.Values o st.(Store.NodePools) |}.

(** The owner maps of a list of replica sets and of the jobs and cron jobs read. *)
Definition read_owner_maps (rss : list ReplicaSetInfo.t) (l : Lists.t) : OwnerMaps :=
  mkOwnerMaps (buildReplicaSetMap rss) (buildJobMap l.(Lists.Jobs)) (buildCronJobMap l.(Lists.CronJobs)).

(** What the three enrichers make of the lists read. *)
Definition enriched_lists (rss : list ReplicaSetInfo.t) ix (l : Lists.t) : Lists.t :=
  let pods := resolveOwner (read_owner_maps rss l) <$> l.(Lists.Pods) in
  let look := pods_of pods in
  l <| Lists.Pods := pods |>
    <| Lists.Deployments := aggregate_deployment look <$> l.(Lists.Deployments) |>
    <| Lists.StatefulSets := aggregate_statefulset look <$> l.(Lists.StatefulSets) |>
    <| Lists.DaemonSets := aggregate_daemonset look <$> l.(Lists.DaemonSets) |>
    <| Lists.Jobs := aggregate_job look <$> l.(Lists.Jobs) |>
    <| Lists.PDBs := target_pdb ix <$> l.(Lists.PDBs) |>
    <| Lists.Services := target_service ix <$> l.(Lists.Services) |>.

Section Stages.
Implicit Types s : ClusterSnapshot.t.

Lemma ComputeSummary_lists s s' : lists_of s = lists_of s' -> ComputeSummary s = ComputeSummary s'.
Proof.
  intros H. unfold lists_of in H. injection H. intros. unfold ComputeSummary.
  repeat match goal with E : _ = _ |- _ => rewrite E; clear E end. reflexivity.
Qed.

Lemma lists_of_set_identity cfg acct r s :
  lists_of (set_identity cfg acct r s) = lists_of s /\
  (set_identity cfg acct r s).(ClusterSnapshot.Summary) = s.(ClusterSnapshot.Summary) /\
  (set_identity cfg acct r s).(ClusterSnapshot.Health).(AgentHealth.StaleResources) =
    s.(ClusterSnapshot.Health).(AgentHealth.StaleResources) ++
      stale_resources r.(Reads.order) cfg r.(Reads.staleNow) r.(Reads.lastUpdated).
Proof.
  destruct s as [? ? ? ? ? ? ? ? [|n nodes]];
    cbv -[unix_milli stale_resources deriveProvider app]; split_and!; reflexivity.
Qed.

Lemma lists_of_set_summary x s : lists_of (s <| ClusterSnapshot.Summary := x |>) = lists_of s.
Proof. reflexivity. Qed.

Lemma lists_of_ownership rss s :
  lists_of (OwnershipEnrich rss s) =
    let l := lists_of s in
    l <| Lists.Pods := resolveOwner (read_owner_maps rss l) <$> l.(Lists.Pods) |>.
Proof.
  destruct s.
  cbv -[resolveOwner buildReplicaSetMap buildJobMap buildCronJobMap fmap]. reflexivity.
Qed.

Lemma lists_of_aggregation s :
  lists_of (AggregationEnrich s) =
    let l := lists_of s in
    let look := pods_of l.(Lists.Pods) in
    l <| Lists.Deployments := aggregate_deployment look <$> l.(Lists.Deployments) |>
      <| Lists.StatefulSets := aggregate_statefulset look <$> l.(Lists.StatefulSets) |>
      <| Lists.DaemonSets := aggregate_daemonset look <$> l.(Lists.DaemonSets) |>
      <| Lists.Jobs := aggregate_job look <$> l.(Lists.Jobs) |>.
Proof.
  destruct s.
  cbv -[aggregate_deployment aggregate_statefulset aggregate_daemonset aggregate_job pods_of fmap].
  reflexivity.
Qed.

Lemma collectWorkloads_lists s s' : lists_of s = lists_of s' -> collectWorkloads s = collectWorkloads s'.
Proof.
  intros H. pose proof (f_equal Lists.Deployments H) as Hd. pose proof (f_equal Lists.StatefulSets H) as Hs.
  pose proof (f_equal Lists.DaemonSets H) as Hds. cbn in Hd, Hs, Hds.
  unfold collectWorkloads. by rewrite Hd, Hs, Hds.
Qed.

Lemma lists_of_targets s :
  lists_of (TargetsEnrich s) =
    let l := lists_of s in
    let ix := byNamespace (collectWorkloads (TargetsEnrich s)) in
    l <| Lists.PDBs := target_pdb ix <$> l.(Lists.PDBs) |>
      <| Lists.Services := target_service ix <$> l.(Lists.Services) |>.
Proof.
  change (collectWorkloads (TargetsEnrich s)) with (collectWorkloads s). destruct s.
  cbv -[byNamespace collectWorkloads target_pdb target_service fmap]. reflexivity.
Qed.

(** The three enrichers, one after the other. *)
Lemma lists_of_enriched rss s E :
  E = TargetsEnrich (AggregationEnrich (OwnershipEnrich rss s)) ->
  lists_of E = enriched_lists rss (byNamespace (collectWorkloads E)) (lists_of s).
Proof.
  intros HE. rewrite HE at 1. rewrite lists_of_targets, <- HE, lists_of_aggregation, lists_of_ownership.
  generalize (byNamespace (collectWorkloads E)). intros ix. destruct (lists_of s).
  cbv -[resolveOwner aggregate_deployment aggregate_statefulset aggregate_daemonset aggregate_job
    target_pdb target_service pods_of buildReplicaSetMap buildJobMap buildCronJobMap fmap]. reflexivity.
Qed.
End Stages.

(** What a build with the agent's pipeline does to the lists it read. *)
Lemma Build_lists cfg acct r :
  let b := Build cfg (Some agent_pipeline) acct r in
  let snap := b.(BuildResult.snapshot) in
  let o := r.(Reads.order) in
  let pods := merge_pods r (TypedStore.Values o r.(Reads.store).(Store.Pods)) in
  let bf := backfillReferencedNodes o (TypedStore.Values o r.(Reads.laterNodes))
              (merge_nodes r (TypedStore.Values o r.(Reads.store).(Store.Nodes))) pods in
  let l := read_lists o r.(Reads.store) bf.1 pods in
  snap.(ClusterSnapshot.Summary) = ComputeSummary snap /\
  b.(BuildResult.orphans) = bf.2 /\
  snap.(ClusterSnapshot.Health).(AgentHealth.StaleResources) =
    stale_resources o cfg r.(Reads.staleNow) r.(Reads.lastUpdated) /\
  lists_of snap =
    enriched_lists (TypedStore.Values o r.(Reads.store).(Store.ReplicaSets))
      (byNamespace (collectWorkloads snap)) l.
Proof.
  intros b snap o pods bf l.
  set (rss := TypedStore.Values o r.(Reads.store).(Store.ReplicaSets)).
  set (s0 := (readStores o r.(Reads.store) ClusterSnapshot.zero).1 <| ClusterSnapshot.Nodes := bf.1 |>
               <| ClusterSnapshot.Pods := pods |>).
  set (E := TargetsEnrich (AggregationEnrich (OwnershipEnrich rss s0))).
  assert (snap = set_identity cfg acct r (E <| ClusterSnapshot.Summary := ComputeSummary E |>) /\
          b.(BuildResult.orphans) = bf.2) as [-> ->].
  { unfold snap, b, Build. cbn [readStores]. cbv zeta. unfold E, s0, bf, pods, rss, o.
    by destruct (backfillReferencedNodes _ _ _ _). }
  assert (lists_of s0 = l) as Hl by reflexivity.
  assert (E.(ClusterSnapshot.Health).(AgentHealth.StaleResources) = []) as Hh by reflexivity.
  pose proof (lists_of_enriched rss s0 E eq_refl) as HE. rewrite Hl in HE. clearbody E.
  destruct (lists_of_set_identity cfg acct r (E <| ClusterSnapshot.Summary := ComputeSummary E |>))
    as (H1 & H2 & H3). rewrite lists_of_set_summary in H1.
  split_and!; [|reflexivity| |].
  - rewrite H2. apply ComputeSummary_lists. by rewrite H1.
  - rewrite H3. change (E <| ClusterSnapshot.Summary := _ |>).(ClusterSnapshot.Health)
      with E.(ClusterSnapshot.Health). by rewrite Hh.
  - by rewrite (collectWorkloads_lists _ _ H1), H1.
Qed.

(** ** Properties *)

(** The metrics-server merge: every container carries the usage last reported
    under its pod's namespace and name and its own name, and keeps what it had
    when nothing is reported; nothing else of a pod changes. *)
Theorem mergePodMetrics_usage pods ms i pod :
  pods !! i = Some pod ->
  mergePodMetrics pods ms !! i = Some (pod <| PodInfo.Containers :=
    (fun c => with_usage (reported_usage ms pod c) c) <$> pod.(PodInfo.Containers) |>).
Proof. intros Hi. by rewrite mergePodMetrics_eq, list_lookup_fmap, Hi. Qed.

Definition ex_usage_pod : PodInfo.t :=
  PodInfo.zero <| PodInfo.Namespace := "ns" |> <| PodInfo.Name := "p" |>
    <| PodInfo.Containers := [ContainerInfo.zero <| ContainerInfo.Name := "app" |>] |>.

Definition ex_usage (mem : int64) : PodMetrics.t :=
  PodMetrics.mk "p" "ns" [ContainerMetrics.mk "app" f64_zero mem] 0.

Lemma mergePodMetrics_usage_witness :
  (fun p : PodInfo.t => ContainerInfo.MemoryUsageBytes <$> p.(PodInfo.Containers)) <$>
    mergePodMetrics [ex_usage_pod] [ex_usage 1; ex_usage 7] !! 0%nat = Some [Some 7].
Proof.
  rewrite (mergePodMetrics_usage [ex_usage_pod] [ex_usage 1; ex_usage 7] 0 ex_usage_pod).
  - reflexivity.
  - reflexivity.
Defined.

(** The GPU merge: a node gets the devices whose host has its name, in order;
    its utilization is their mean over the devices that report one, and its used
    memory their 64-bit sum; without a device the node does not change. *)
Theorem mergeGPUNodeMetrics_node nodes ms i n :
  nodes !! i = Some n -> golen ms < 2 ^ 63 ->
  exists n', mergeGPUNodeMetrics nodes ms !! i = Some n' /\
    n'.(NodeInfo.Name) = n.(NodeInfo.Name) /\
    match node_devices ms n with
    | [] => n' = n
    | ds =>
        n'.(NodeInfo.GPUDevices) = device_info <$> ds /\
        n'.(NodeInfo.GPUUtilizationPercent) =
          mean_of (omap GPUDeviceMetrics.GPUUtilization ds) n.(NodeInfo.GPUUtilizationPercent) /\
        let used := wrap64 (sumZ (default 0) (GPUDeviceMetrics.MemoryUsedBytes <$> ds)) in
        n'.(NodeInfo.GPUMemoryUsedBytes) =
          if 0 <? used then Some used else n.(NodeInfo.GPUMemoryUsedBytes)
    end.
Proof.
  intros Hi Hl. unfold mergeGPUNodeMetrics. rewrite golen_0. case_bool_decide as Hm.
  { subst ms. exists n. by rewrite Hi. }
  rewrite list_lookup_fmap, Hi. cbn. eexists. split; [reflexivity|].
  unfold merge_gpu_node, node_devices. rewrite byNode_lookup.
  set (ds := filter _ ms).
  assert (golen (omap GPUDeviceMetrics.GPUUtilization ds) < 2 ^ 63) as Hds.
  { unfold golen in *. pose proof (length_filter (fun d => d.(GPUDeviceMetrics.Hostname) =
      n.(NodeInfo.Name) /\ d.(GPUDeviceMetrics.Hostname) ≠ "") ms) as H1.
    pose proof (length_omap_le GPUDeviceMetrics.GPUUtilization ds). fold ds in H1. lia. }
  clearbody ds. destruct ds as [|d0 ds]; [done|].
  destruct (sum_device_foldl (d0 :: ds) gpu_sums_init) as (H1 & H2 & H3).
  set (a := foldl _ _ _) in *. clearbody a. split; [done|]. split_and!.
  - exact H1.
  - trans (mean a.(g_util) n.(NodeInfo.GPUUtilizationPercent)); [reflexivity|]. rewrite H2.
    cbn [g_util gpu_sums_init]. rewrite mean_add_opt; rewrite omap_id_fmap; [done|exact Hds].
  - cbv zeta. cbn [g_memUsed gpu_sums_init] in H3.
    pose proof (add_opt64_sum (GPUDeviceMetrics.MemoryUsedBytes <$> d0 :: ds) 0) as H4.
    change (wrap64 0) with 0 in H4. rewrite H4, Z.add_0_l in H3.
    trans (if 0 <? a.(g_memUsed) then Some a.(g_memUsed) else n.(NodeInfo.GPUMemoryUsedBytes));
      [reflexivity|]. rewrite H3. reflexivity.
Qed.

Definition ex_gpu (used : int64) : GPUDeviceMetrics.t :=
  (newGPU (dcgmLabels.zero <| dcgmLabels.uuid := "GPU-1" |> <| dcgmLabels.hostname := "n1" |>))
    <| GPUDeviceMetrics.MemoryUsedBytes := Some used |>.

Lemma mergeGPUNodeMetrics_node_witness :
  exists n', mergeGPUNodeMetrics [NodeInfo.zero <| NodeInfo.Name := "n1" |>] [ex_gpu 3; ex_gpu 4] !! 0%nat = Some n' /\
    n'.(NodeInfo.GPUMemoryUsedBytes) = Some 7.
Proof.
  destruct (mergeGPUNodeMetrics_node [NodeInfo.zero <| NodeInfo.Name := "n1" |>] [ex_gpu 3; ex_gpu 4] 0
    (NodeInfo.zero <| NodeInfo.Name := "n1" |>)) as (n' & Hn & _ & _ & _ & Hu);
    [reflexivity|by vm_compute|].
  exists n'. split; [exact Hn|]. by rewrite Hu.
Defined.

(** The names the backfill looks for, and what it finds. *)
Section Backfill.
Context (o : RangeOrder) (storeNodes nodes : list NodeInfo.t) (pods : list PodInfo.t).
Let ref : gmap string unit := referenced_names (present_names nodes) pods.

Lemma backfill_ref n :
  ref !! n = Some tt <-> n ≠ "" /\ ~ n ∈ NodeInfo.Name <$> nodes /\ (exists p, p ∈ pods /\ p.(PodInfo.NodeName) = n).
Proof. unfold ref. rewrite referenced_names_lookup. unfold present_names. by rewrite elem_of_list_to_set. Qed.

Lemma backfill_eq :
  backfillReferencedNodes o storeNodes nodes pods =
    (nodes ++ omap (fun p : string * unit => index_by NodeInfo.Name storeNodes !! p.1) (range o ref),
     filter (fun name => index_by NodeInfo.Name storeNodes !! name = None) (range o ref).*1).
Proof.
  unfold backfillReferencedNodes. rewrite golen_0. fold ref. rewrite backfill_loop, app_nil_l.
  assert (ref = ∅ -> range o ref = []) as Hempty.
  { intros ->. apply Permutation_nil_r. by rewrite range_perm, map_to_list_empty. }
  case_bool_decide as Hp.
  { rewrite Hempty; [by rewrite app_nil_r|]. unfold ref. by subst pods. }
  unfold mlen. destruct (Z.of_nat (size ref) =? 0) eqn:Hs; [|done].
  rewrite Hempty; [by rewrite app_nil_r|]. apply map_size_empty_iff. lia.
Qed.

Lemma elem_of_range_ref n : n ∈ (range o ref).*1 <-> ref !! n = Some tt.
Proof.
  rewrite list_elem_of_fmap. setoid_rewrite range_perm. split.
  - intros ([k []] & -> & H). by apply elem_of_map_to_list in H.
  - intros H. exists (n, tt). by rewrite elem_of_map_to_list.
Qed.

(** The nodes appended: stored ones that a pod is on and that were not there. *)
Lemma backfill_extra n :
  n ∈ omap (fun p : string * unit => index_by NodeInfo.Name storeNodes !! p.1) (range o ref) ->
  n ∈ storeNodes /\ n.(NodeInfo.Name) ≠ "" /\ ~ n.(NodeInfo.Name) ∈ NodeInfo.Name <$> nodes /\
  exists p, p ∈ pods /\ p.(PodInfo.NodeName) = n.(NodeInfo.Name).
Proof.
  intros ([k []] & Hk & Hn)%list_elem_of_omap. cbn in Hn. apply index_by_Some in Hn as [Hin <-].
  rewrite range_perm, elem_of_map_to_list in Hk. by apply backfill_ref in Hk as (? & ? & ?).
Qed.

Lemma backfill_extra_NoDup :
  NoDup (NodeInfo.Name <$> omap (fun p : string * unit => index_by NodeInfo.Name storeNodes !! p.1) (range o ref)).
Proof.
  apply (backfilled_NoDup (index_by NodeInfo.Name storeNodes)).
  - intros k n Hk. by apply index_by_Some in Hk as [_ ?].
  - rewrite range_perm. apply NoDup_fst_map_to_list.
Qed.
End Backfill.

(** The backfill keeps the nodes and appends stored ones: afterwards every
    node a pod runs on is in the snapshot, unless the second read of the store
    does not have it either; exactly those names are reported as orphans, and no
    node appears twice when none did before and the store holds a node under
    one name. *)
Theorem backfill_covers o storeNodes nodes pods :
  let '(nodes', orphans) := backfillReferencedNodes o storeNodes nodes pods in
  (exists extra, nodes' = nodes ++ extra /\ forall n, n ∈ extra -> n ∈ storeNodes) /\
  (forall p, p ∈ pods -> p.(PodInfo.NodeName) ≠ "" ->
     p.(PodInfo.NodeName) ∈ NodeInfo.Name <$> nodes' \/ p.(PodInfo.NodeName) ∈ orphans) /\
  (forall name, name ∈ orphans <->
     name ≠ "" /\ (exists p, p ∈ pods /\ p.(PodInfo.NodeName) = name) /\
     ~ name ∈ NodeInfo.Name <$> nodes /\ ~ name ∈ NodeInfo.Name <$> storeNodes) /\
  (NoDup (NodeInfo.Name <$> nodes) -> NoDup (NodeInfo.Name <$> nodes')).
Proof.
  rewrite backfill_eq. split_and!.
  - eexists. split; [reflexivity|]. intros n Hn. by apply backfill_extra in Hn as [? _].
  - intros p Hp Hne. rewrite fmap_app, elem_of_app.
    destruct (decide (p.(PodInfo.NodeName) ∈ NodeInfo.Name <$> nodes)) as [H|H]; [by left; left|].
    set (ref := referenced_names _ _). assert (ref !! p.(PodInfo.NodeName) = Some tt) as Hr by (apply backfill_ref; eauto).
    destruct (index_by NodeInfo.Name storeNodes !! p.(PodInfo.NodeName)) as [n|] eqn:Hn.
    + left; right. pose proof Hn as Hn'. apply index_by_Some in Hn' as [_ Hk].
      rewrite <- Hk in Hn, Hr |- *.
      apply list_elem_of_fmap_2, list_elem_of_omap. exists (n.(NodeInfo.Name), tt). split; [|done].
      by rewrite range_perm, elem_of_map_to_list.
    + right. apply list_elem_of_filter. split; [done|]. by apply elem_of_range_ref.
  - intros name. rewrite list_elem_of_filter, elem_of_range_ref, backfill_ref, index_by_None. tauto.
  - intros Hnd. rewrite fmap_app. apply NoDup_app. split_and!; [done| |apply backfill_extra_NoDup].
    intros name Hname (n & -> & Hn)%list_elem_of_fmap. by apply backfill_extra in Hn as (_ & _ & ? & _).
Qed.

Lemma stale_resources_elem o cfg now lus x :
  x ∈ stale_resources o cfg now lus <->
  exists lu, lus !! x = Some lu /\
    mul64 3 cfg.(Config.SnapshotInterval) < mul64 (sub64 (unix_milli now) lu) Millisecond.
Proof.
  unfold stale_resources.
  assert (forall l acc, x ∈ foldl (fun stale '(resource, lu) =>
      if mul64 3 cfg.(Config.SnapshotInterval) <? mul64 (sub64 (unix_milli now) lu) Millisecond
      then stale ++ [resource] else stale) acc l <->
    x ∈ acc \/ exists lu, (x, lu) ∈ l /\
      mul64 3 cfg.(Config.SnapshotInterval) < mul64 (sub64 (unix_milli now) lu) Millisecond) as H.
  { induction l as [|[k lu] l IH]; intros acc; cbn [foldl].
    - split; [by left|]. by intros [?|(lu & ?%not_elem_of_nil & _)].
    - rewrite IH. setoid_rewrite elem_of_cons. destruct (_ <? _) eqn:E.
      + apply Z.ltb_lt in E. rewrite elem_of_app, list_elem_of_singleton. split.
        * intros [[?| ->]|(lu' & ? & ?)]; eauto 10.
        * intros [?|(lu' & [[= -> ->]|?] & ?)]; eauto 10.
      + apply Z.ltb_ge in E. split.
        * intros [?|(lu' & ? & ?)]; eauto 10.
        * intros [?|(lu' & [[= -> ->]|?] & ?)]; eauto 10. lia. }
  rewrite H. setoid_rewrite range_perm. setoid_rewrite elem_of_map_to_list.
  split; [intros [?%not_elem_of_nil|?]; done|by right].
Qed.

(** A build lists a resource as stale exactly when its store was last written
    more than three snapshot intervals ago (ages and intervals in the range of
    a Duration). *)
Theorem Build_stale_resources cfg acct r x :
  in_int64 (3 * cfg.(Config.SnapshotInterval)) ->
  (forall k lu, r.(Reads.lastUpdated) !! k = Some lu ->
     in_int64 (unix_milli r.(Reads.staleNow) - lu) /\
     in_int64 ((unix_milli r.(Reads.staleNow) - lu) * Millisecond)) ->
  x ∈ (Build cfg (Some agent_pipeline) acct r).(BuildResult.snapshot).(ClusterSnapshot.Health).(AgentHealth.StaleResources) <->
  exists lu, r.(Reads.lastUpdated) !! x = Some lu /\
    3 * cfg.(Config.SnapshotInterval) < (unix_milli r.(Reads.staleNow) - lu) * Millisecond.
Proof.
  intros Hi Ha. destruct (Build_lists cfg acct r) as (_ & _ & -> & _).
  rewrite stale_resources_elem. unfold mul64, sub64. rewrite (wrap64_id _ Hi).
  split; intros (lu & Hlu & Hlt); exists lu; (split; [done|]);
    destruct (Ha _ _ Hlu) as [H1 H2]; by rewrite (wrap64_id _ H1), (wrap64_id _ H2) in *.
Qed.

Definition ex_reads (st : Store.t) (pm : TypedStore.t PodMetrics.t) (lus : gmap string int64)
    (now : Time) : Reads.t :=
  Reads.mk st canonical_order (TypedStore.NewTypedStore 0) pm None (TypedStore.NewTypedStore 0)
    "id" now lus now.

Definition ex_config : Config.t :=
  Config.Load (fun _ => "").

Lemma Build_stale_resources_witness :
  "pods" ∈ (Build ex_config (Some agent_pipeline) ""
    (ex_reads (Store.NewStore 0) (TypedStore.NewTypedStore 0) {[ "pods" := 0 ]} (10 * Minute)))
    .(BuildResult.snapshot).(ClusterSnapshot.Health).(AgentHealth.StaleResources).
Proof.
  apply (Build_stale_resources ex_config "" (ex_reads (Store.NewStore 0) (TypedStore.NewTypedStore 0)
    {[ "pods" := 0 ]} (10 * Minute)) "pods").
  - by vm_compute.
  - intros k lu Hlu. cbn in Hlu. apply lookup_singleton_Some in Hlu as [_ <-]. by vm_compute.
  - exists 0. by vm_compute.
Defined.

(** C40 Usage outlives its metrics: the merge writes into containers the store
    shares with the snapshot, so a later build without any metrics still reports
    the usage an earlier one merged, until the pod's informer replaces it.  (In
    builds without a GPU provider, whose merge is a second writer.) *)
Theorem usage_outlives_metrics cfg p acct r1 r2 key pod c cm :
  r1.(Reads.gpu) = None -> r2.(Reads.gpu) = None ->
  r2.(Reads.store) = (Build cfg p acct r1).(BuildResult.store) ->
  TypedStore.Values r2.(Reads.order) r2.(Reads.podMetrics) = [] ->
  TypedStore.Get key r1.(Reads.store).(Store.Pods) = Some pod ->
  c ∈ pod.(PodInfo.Containers) ->
  reported_usage (TypedStore.Values r1.(Reads.order) r1.(Reads.podMetrics)) pod c = Some cm ->
  exists pod', pod' ∈ (Build cfg (Some agent_pipeline) acct r2).(BuildResult.snapshot).(ClusterSnapshot.Pods) /\
    pod'.(PodInfo.Namespace) = pod.(PodInfo.Namespace) /\ pod'.(PodInfo.Name) = pod.(PodInfo.Name) /\
    with_usage (Some cm) c ∈ pod'.(PodInfo.Containers).
Proof.
  intros Hg1 Hg2 Hst Hnone Hpod Hc Hu.
  set (ms := TypedStore.Values r1.(Reads.order) r1.(Reads.podMetrics)) in *.
  set (pod1 := pod <| PodInfo.Containers :=
    (fun c => with_usage (reported_usage ms pod c) c) <$> pod.(PodInfo.Containers) |>).
  assert (pod1 ∈ TypedStore.Values r2.(Reads.order) r2.(Reads.store).(Store.Pods)) as Hin.
  { apply elem_of_Values. exists key. rewrite Hst. unfold Build. cbn [readStores]. cbv zeta.
    destruct (backfillReferencedNodes _ _ _ _). cbn [BuildResult.store].
    unfold write_through, TypedStore.Get in *.
    change (Store.Pods (_ <| Store.Pods := ?x |>)) with x. cbn [TypedStore.items].
    rewrite lookup_fmap, Hpod. cbn. unfold merge_pods. rewrite Hg1, mergePodMetrics_eq. done. }
  destruct (Build_lists cfg acct r2) as (_ & _ & _ & Hl).
  unfold enriched_lists in Hl. cbv zeta in Hl.
  set (m := read_owner_maps _ _) in Hl. set (look := pods_of _) in Hl.
  exists (resolveOwner m pod1).
  assert (forall q, PodInfo.Namespace (resolveOwner m q) = PodInfo.Namespace q /\
                    PodInfo.Name (resolveOwner m q) = PodInfo.Name q /\
                    PodInfo.Containers (resolveOwner m q) = PodInfo.Containers q) as Hkeep
    by (intros q; unfold resolveOwner; by repeat case_decide).
  destruct (Hkeep pod1) as (-> & -> & ->). split_and!; [|done|done|].
  - refine (eq_ind_r (fun l => _ ∈ l.(Lists.Pods)) _ Hl).
    change (resolveOwner m pod1 ∈ resolveOwner m <$>
      merge_pods r2 (TypedStore.Values (Reads.order r2) (Store.Pods (Reads.store r2)))).
    apply list_elem_of_fmap_2. unfold merge_pods. by rewrite Hg2, Hnone.
  - change (with_usage (Some cm) c ∈ (fun c => with_usage (reported_usage ms pod c) c) <$>
      pod.(PodInfo.Containers)).
    rewrite <- Hu. by apply (list_elem_of_fmap_2 (fun c => with_usage (reported_usage ms pod c) c)).
Qed.

Definition ex_store : Store.t :=
  (Store.NewStore 0) <| Store.Pods := TypedStore.Set_ 0 "ns/p" ex_usage_pod (TypedStore.NewTypedStore 0) |>.

Definition ex_reads1 : Reads.t :=
  ex_reads ex_store (TypedStore.Set_ 0 "ns/p" (ex_usage 7) (TypedStore.NewTypedStore 0)) ∅ 0.

(** The store after the first build, the pod metrics gone. *)
Definition ex_reads2 : Reads.t :=
  ex_reads (Build ex_config (Some agent_pipeline) "" ex_reads1).(BuildResult.store)
    (TypedStore.NewTypedStore 0) ∅ (10 * Minute).

Lemma usage_outlives_metrics_witness :
  exists pod', pod' ∈ (Build ex_config (Some agent_pipeline) "" ex_reads2).(BuildResult.snapshot).(ClusterSnapshot.Pods) /\
    pod'.(PodInfo.Name) = "p" /\
    exists c, c ∈ pod'.(PodInfo.Containers) /\ c.(ContainerInfo.MemoryUsageBytes) = Some 7.
Proof.
  destruct (usage_outlives_metrics ex_config (Some agent_pipeline) "" ex_reads1 ex_reads2 "ns/p"
    ex_usage_pod (ContainerInfo.zero <| ContainerInfo.Name := "app" |>) (ContainerMetrics.mk "app" f64_zero 7))
    as (pod' & Hin & _ & Hname & Hc); try reflexivity; [by left|].
  exists pod'. split; [exact Hin|]. split; [exact Hname|]. eexists. split; [exact Hc|reflexivity].
Defined.
