(* ===== verification/PodEquiv.v ===== *)
(** * Pods up to their measurements

    A build writes usage into the containers the store holds, so after the first
    build a stored pod is the conversion of its object only up to the four
    measured fields of its containers.  [≡] on pods is that equivalence: the
    merges stay in the class of a pod, and everything the ownership, the
    filtering by phase and the request totals look at respects it. *)

From S2P Require Import Prelude GoNum GoStrings Model Store Ownership Aggregation SnapshotBuilder.
Open Scope string_scope.
Open Scope list_scope.
Open Scope Z_scope.

Definition unmeasured_container (c : ContainerInfo.t) : ContainerInfo.t :=
  c <| ContainerInfo.CPUUsageCores := None |> <| ContainerInfo.MemoryUsageBytes := None |>
    <| ContainerInfo.GPUUtilizationPercent := None |> <| ContainerInfo.GPUMemoryUsedBytes := None |>.

Definition unmeasured (p : PodInfo.t) : PodInfo.t :=
  p <| PodInfo.Containers := unmeasured_container <$> p.(PodInfo.Containers) |>.

Record same_pod (p q : PodInfo.t) : Prop := { same_unmeasured : unmeasured p = unmeasured q }.

#[export] Instance pod_equiv : Equiv PodInfo.t := same_pod.

#[export] Instance pod_equivalence : Equivalence (≡@{PodInfo.t}).
Proof. split; [by intros p|by intros p q []|intros p q w [H] [H']; split; by rewrite H]. Qed.

Lemma unmeasured_idem p : unmeasured p ≡ p.
Proof.
  split. unfold unmeasured. destruct p. cbv -[unmeasured_container fmap list_fmap]. f_equal.
  rewrite <- list_fmap_compose. apply list_fmap_ext. intros i c _. done.
Qed.

(** ** What respects the equivalence *)

(** A reading of a pod that the measurements do not change. *)
Lemma proper_reading {A} (f : PodInfo.t -> A) :
  (forall p, f (unmeasured p) = f p) -> Proper ((≡) ==> (=)) f.
Proof. intros H p q [Hpq]. by rewrite <- (H p), <- (H q), Hpq. Qed.

#[export] Instance UID_proper : Proper ((≡) ==> (=)) PodInfo.UID.
Proof. by apply proper_reading. Qed.

#[export] Instance Name_proper : Proper ((≡) ==> (=)) PodInfo.Name.
Proof. by apply proper_reading. Qed.

#[export] Instance Namespace_proper : Proper ((≡) ==> (=)) PodInfo.Namespace.
Proof. by apply proper_reading. Qed.

#[export] Instance Phase_proper : Proper ((≡) ==> (=)) PodInfo.Phase.
Proof. by apply proper_reading. Qed.

#[export] Instance OwnerKind_proper : Proper ((≡) ==> (=)) PodInfo.OwnerKind.
Proof. by apply proper_reading. Qed.

#[export] Instance OwnerName_proper : Proper ((≡) ==> (=)) PodInfo.OwnerName.
Proof. by apply proper_reading. Qed.

#[export] Instance pod_owner_proper : Proper ((≡) ==> (=)) pod_owner.
Proof. by apply proper_reading. Qed.

#[export] Instance owned_by_proper k : Proper ((≡) ==> iff) (owned_by k).
Proof. intros p q Hpq. unfold owned_by. by rewrite Hpq. Qed.

#[export] Instance resolveOwner_proper m : Proper ((≡) ==> (≡)) (resolveOwner m).
Proof.
  intros p q Hpq. unfold resolveOwner. rewrite (OwnerKind_proper p q Hpq).
  case_decide; [done|]. case_decide; [done|].
  cbv zeta. rewrite (Namespace_proper p q Hpq), (pod_owner_proper p q Hpq). set (o := resolve_loop _ _ _ _).
  split. destruct Hpq as [Hpq]. unfold unmeasured in *.
  apply (f_equal (fun x : PodInfo.t => x <| PodInfo.OwnerKind := o.(o_kind) |> <| PodInfo.OwnerName := o.(o_name) |>
    <| PodInfo.OwnerUID := o.(o_uid) |>)) in Hpq. exact Hpq.
Qed.

(** The containers of equivalent pods are pairwise the same up to their usage. *)
Lemma equiv_containers p q :
  p ≡ q -> unmeasured_container <$> p.(PodInfo.Containers) = unmeasured_container <$> q.(PodInfo.Containers).
Proof. intros [H]. exact (f_equal PodInfo.Containers H). Qed.

(** ** What stays in the class *)

Lemma set_containers_equiv p l :
  unmeasured_container <$> l = unmeasured_container <$> p.(PodInfo.Containers) ->
  (p <| PodInfo.Containers := l |>) ≡ p.
Proof. intros H. split. unfold unmeasured. destruct p. cbv -[unmeasured_container fmap list_fmap] in *. by rewrite H. Qed.

(** What a build makes of one pod. *)
Definition merged (r : Reads.t) (p : PodInfo.t) : PodInfo.t :=
  match merge_pods r [p] with p' :: _ => p <| PodInfo.Containers := p'.(PodInfo.Containers) |> | [] => p end.

Lemma merge_pods_merged r ps : merge_pods r ps = merged r <$> ps.
Proof.
  destruct (merge_pods_pointwise r) as [f Hf]. rewrite Hf. apply list_fmap_ext. intros i p _.
  unfold merged. by rewrite Hf.
Qed.

Lemma merge_container_unmeasured ix c : unmeasured_container (merge_container ix c) = unmeasured_container c.
Proof. unfold merge_container. by destruct (ix !! _). Qed.

Lemma merge_gpu_container_unmeasured ix p c :
  unmeasured_container (merge_gpu_container ix p c) = unmeasured_container c.
Proof. unfold merge_gpu_container. by destruct (ix !! _). Qed.

Lemma mergePodMetrics_equiv ps ms : mergePodMetrics ps ms ≡ ps.
Proof.
  unfold mergePodMetrics. destruct (_ =? 0); [done|].
  induction ps as [|p ps IH]; constructor; [|exact IH].
  unfold merge_pod. destruct (_ !! _) as [pm|]; [|done]. apply set_containers_equiv.
  rewrite <- list_fmap_compose. apply list_fmap_ext. intros i c _. apply merge_container_unmeasured.
Qed.

Lemma mergeGPUContainerMetrics_equiv ps g : mergeGPUContainerMetrics ps g ≡ ps.
Proof.
  unfold mergeGPUContainerMetrics. destruct (_ =? 0); [done|].
  induction ps as [|p ps IH]; constructor; [|exact IH]. apply set_containers_equiv.
  rewrite <- list_fmap_compose. apply list_fmap_ext. intros i c _. apply merge_gpu_container_unmeasured.
Qed.

Lemma merge_pods_equiv r ps : merge_pods r ps ≡ ps.
Proof.
  unfold merge_pods. destruct (Reads.gpu r); [rewrite mergeGPUContainerMetrics_equiv|]; apply mergePodMetrics_equiv.
Qed.

Lemma merged_equiv r p : merged r p ≡ p.
Proof.
  pose proof (merge_pods_equiv r [p]) as H. rewrite merge_pods_merged in H. by inversion H.
Qed.

(** The store after the writes of a build. *)
Lemma Get_write_through r st key :
  TypedStore.Get key (write_through r st).(Store.Pods) = merged r <$> TypedStore.Get key st.(Store.Pods).
Proof. exact (lookup_fmap (merged r) (TypedStore.items st.(Store.Pods)) key). Qed.

Lemma Build_store cfg pipe acct r :
  (Build cfg pipe acct r).(BuildResult.store) = write_through r r.(Reads.store).
Proof. unfold Build. cbn [readStores]. cbv zeta. by destruct (backfillReferencedNodes _ _ _ _). Qed.
