(* ===== verification/Built.v ===== *)
(** * What a build makes of the stores

    The snapshot of a build with the agent's pipeline, against the stores it read:
    nothing is lost and nothing invented, and the summary accounts for the stores,
    whatever order their maps are ranged over in. *)

From S2P Require Import Prelude GoNum GoStrings Model Store Config Dcgm.
From S2P Require Import Ownership Aggregation Targets Pipeline Summary SnapshotBuilder PodEquiv.
Open Scope string_scope.
Open Scope list_scope.
Open Scope Z_scope.

(** ** Objects without what a build sets

    The merges write usage into nodes and containers, the enrichers the owner of
    a pod, the totals of a workload and the targets of a selector. *)

Definition bare_node (n : NodeInfo.t) : NodeInfo.t :=
  n <| NodeInfo.CPUUsageCores := None |> <| NodeInfo.MemoryUsageBytes := None |>
    <| NodeInfo.GPUDevices := [] |> <| NodeInfo.GPUModel := "" |> <| NodeInfo.GPUDriverVersion := "" |>
    <| NodeInfo.MIGEnabled := false |>
    <| NodeInfo.GPUUtilizationPercent := None |> <| NodeInfo.GPUTensorActivePercent := None |>
    <| NodeInfo.GPUMemoryUtilPercent := None |> <| NodeInfo.GPUMemoryUsedBytes := None |>
    <| NodeInfo.GPUMemoryTotalBytes := None |> <| NodeInfo.GPUTemperatureCelsius := None |>
    <| NodeInfo.GPUPowerWatts := None |>.

Definition bare_pod (p : PodInfo.t) : PodInfo.t :=
  unmeasured p <| PodInfo.OwnerKind := "" |> <| PodInfo.OwnerName := "" |> <| PodInfo.OwnerUID := "" |>.

Definition bare_deployment (d : DeploymentInfo.t) : DeploymentInfo.t :=
  d <| DeploymentInfo.TotalCPURequest := f64_zero |> <| DeploymentInfo.TotalMemoryRequest := 0 |>
    <| DeploymentInfo.TotalCPULimit := f64_zero |> <| DeploymentInfo.TotalMemoryLimit := 0 |>
    <| DeploymentInfo.TotalCPUUsage := None |> <| DeploymentInfo.TotalMemoryUsage := None |>.

Definition bare_statefulset (w : StatefulSetInfo.t) : StatefulSetInfo.t :=
  w <| StatefulSetInfo.TotalCPURequest := f64_zero |> <| StatefulSetInfo.TotalMemoryRequest := 0 |>
    <| StatefulSetInfo.TotalCPULimit := f64_zero |> <| StatefulSetInfo.TotalMemoryLimit := 0 |>
    <| StatefulSetInfo.TotalCPUUsage := None |> <| StatefulSetInfo.TotalMemoryUsage := None |>.

Definition bare_daemonset (w : DaemonSetInfo.t) : DaemonSetInfo.t :=
  w <| DaemonSetInfo.TotalCPURequest := f64_zero |> <| DaemonSetInfo.TotalMemoryRequest := 0 |>
    <| DaemonSetInfo.TotalCPULimit := f64_zero |> <| DaemonSetInfo.TotalMemoryLimit := 0 |>
    <| DaemonSetInfo.TotalCPUUsage := None |> <| DaemonSetInfo.TotalMemoryUsage := None |>.

Definition bare_job (j : JobInfo.t) : JobInfo.t :=
  j <| JobInfo.TotalCPURequest := f64_zero |> <| JobInfo.TotalMemoryRequest := 0 |>
    <| JobInfo.TotalCPUUsage := None |> <| JobInfo.TotalMemoryUsage := None |>.

Definition bare_pdb (b : PDBInfo.t) : PDBInfo.t := b <| PDBInfo.TargetWorkloads := [] |>.

Definition bare_service (v : ServiceInfo.t) : ServiceInfo.t := v <| ServiceInfo.TargetWorkloads := [] |>.





(** ** Lemmas *)

Lemma bare_pod_equiv p q : p ≡ q -> bare_pod p = bare_pod q.
Proof.
  intros [H]. exact (f_equal (fun p => p <| PodInfo.OwnerKind := "" |> <| PodInfo.OwnerName := "" |>
    <| PodInfo.OwnerUID := "" |>) H).
Qed.

Lemma resolveOwner_bare m p : bare_pod (resolveOwner m p) = bare_pod p.
Proof. unfold resolveOwner. repeat case_decide; reflexivity. Qed.

Lemma merge_nodes_bare r nodes : bare_node <$> merge_nodes r nodes = bare_node <$> nodes.
Proof.
  assert (forall ns ms, bare_node <$> mergeNodeMetrics ns ms = bare_node <$> ns) as H1.
  { intros ns ms. unfold mergeNodeMetrics. destruct (_ =? 0); [done|]. apply fmap_kept. intros n.
    destruct (_ !! _); reflexivity. }
  unfold merge_nodes. destruct (Reads.gpu r) as [g|]; [|apply H1]. unfold mergeGPUNodeMetrics.
  destruct (golen g =? 0); [apply H1|]. rewrite fmap_kept; [apply H1|]. intros n. unfold merge_gpu_node.
  destruct (_ !! _) as [[|]|]; reflexivity.
Qed.

Lemma merge_nodes_names r nodes : NodeInfo.Name <$> merge_nodes r nodes = NodeInfo.Name <$> nodes.
Proof.
  assert (forall l, NodeInfo.Name <$> l = NodeInfo.Name <$> (bare_node <$> l)) as H
    by (intros l; by rewrite <- list_fmap_compose).
  by rewrite H, merge_nodes_bare, <- H.
Qed.


(** The nodes of a build: those read, with what is merged, then those the backfill
    found; and its pods. *)
Section Lists.
Context (cfg : Config.t) (acct : string) (r : Reads.t).
Let snap := (Build cfg (Some agent_pipeline) acct r).(BuildResult.snapshot).
Let o := r.(Reads.order).
Let later := TypedStore.Values o r.(Reads.laterNodes).
Let read := merge_nodes r (TypedStore.Values o r.(Reads.store).(Store.Nodes)).
Let read_pods := merge_pods r (TypedStore.Values o r.(Reads.store).(Store.Pods)).
Let found := omap (fun p : string * unit => index_by NodeInfo.Name later !! p.1)
               (range o (referenced_names (present_names read) read_pods)).

Lemma built_nodes_eq : snap.(ClusterSnapshot.Nodes) = read ++ found.
Proof.
  destruct (Build_lists cfg acct r) as (_ & _ & _ & Hl). fold snap in Hl.
  etransitivity; [exact (f_equal Lists.Nodes Hl)|].
  change ((backfillReferencedNodes o later read read_pods).1 = read ++ found). by rewrite backfill_eq.
Qed.

Lemma built_pods_eq : exists m, snap.(ClusterSnapshot.Pods) = resolveOwner m <$> read_pods.
Proof.
  destruct (Build_lists cfg acct r) as (_ & _ & _ & Hl). fold snap in Hl.
  eexists. exact (f_equal Lists.Pods Hl).
Qed.

Lemma built_pods_bare : bare_pod <$> snap.(ClusterSnapshot.Pods) ≡ₚ bare_pod <$> stored r.(Reads.store).(Store.Pods).
Proof.
  destruct built_pods_eq as [m ->]. unfold read_pods. rewrite merge_pods_merged, !fmap_kept; [by rewrite Values_perm| |].
  - intros p. apply bare_pod_equiv, merged_equiv.
  - apply resolveOwner_bare.
Qed.

(** The names of nodes the pods are on. *)
Lemma built_pods_on n :
  (exists p, p ∈ snap.(ClusterSnapshot.Pods) /\ p.(PodInfo.NodeName) = n) <->
  exists p, p ∈ read_pods /\ p.(PodInfo.NodeName) = n.
Proof.
  assert (forall l : list PodInfo.t, (exists p, p ∈ l /\ p.(PodInfo.NodeName) = n) <-> n ∈ PodInfo.NodeName <$> l) as H.
  { intros l. rewrite list_elem_of_fmap. split; intros (p & ? & ?); by exists p. }
  rewrite !H. destruct built_pods_eq as [m ->].
  rewrite fmap_kept; [done|]. intros p. unfold resolveOwner. repeat case_decide; reflexivity.
Qed.

(** The nodes against the stores. *)
Lemma built_nodes_stored :
  exists extra,
    bare_node <$> snap.(ClusterSnapshot.Nodes) ≡ₚ bare_node <$> (stored r.(Reads.store).(Store.Nodes) ++ extra) /\
    NoDup (NodeInfo.Name <$> extra) /\
    (forall n, n ∈ extra ->
       n ∈ stored r.(Reads.laterNodes) /\ n.(NodeInfo.Name) <> "" /\
       n.(NodeInfo.Name) ∉ NodeInfo.Name <$> stored r.(Reads.store).(Store.Nodes) /\
       exists p, p ∈ snap.(ClusterSnapshot.Pods) /\ p.(PodInfo.NodeName) = n.(NodeInfo.Name)) /\
    (forall p, p ∈ snap.(ClusterSnapshot.Pods) -> p.(PodInfo.NodeName) <> "" ->
       p.(PodInfo.NodeName) ∈ NodeInfo.Name <$> stored r.(Reads.laterNodes) ->
       p.(PodInfo.NodeName) ∈ NodeInfo.Name <$> snap.(ClusterSnapshot.Nodes)).
Proof.
  exists found. split_and!.
  - rewrite built_nodes_eq, !fmap_app. unfold read. rewrite merge_nodes_bare. by rewrite Values_perm.
  - apply backfill_extra_NoDup.
  - intros n (Hin & Hne & Hno & Hp)%backfill_extra. split_and!; [|exact Hne| |].
    + revert Hin. unfold later. by rewrite Values_perm.
    + revert Hno. unfold read. rewrite merge_nodes_names. by rewrite Values_perm.
    + by apply built_pods_on.
  - intros p Hp Hne Hl. pose proof (backfill_covers o later read read_pods) as H. rewrite backfill_eq in H.
    destruct H as (_ & Hcov & Horph & _). rewrite built_nodes_eq.
    destruct (proj1 (built_pods_on p.(PodInfo.NodeName))) as (q & Hq & Hqn); [by eexists|].
    rewrite <- Hqn in *. destruct (Hcov q Hq Hne) as [H|H]; [exact H|]. exfalso.
    apply Horph in H as (_ & _ & _ & Hno). apply Hno. unfold later. by rewrite Values_perm.
Qed.
End Lists.













(** A list of the snapshot is the store's, or the store's with some fields set. *)
Ltac unenriched P o ts Hl :=
  refine (eq_ind_r (fun l => P l ≡ₚ stored _) _ Hl);
  exact (Values_perm o ts).

Ltac enriched P g key o ts Hl :=
  refine (eq_ind_r (fun l => key <$> P l ≡ₚ key <$> stored _) _ Hl);
  trans (key <$> (g <$> TypedStore.Values o ts)); [reflexivity|];
  rewrite (fmap_kept g key); [by rewrite Values_perm|];
  intros x;
  unfold aggregate_deployment, aggregate_statefulset, aggregate_daemonset, aggregate_job,
    target_pdb, target_service; cbv zeta;
  repeat case_match; reflexivity.

Lemma built_workloads cfg acct r :
  let st := r.(Reads.store) in
  let snap := (Build cfg (Some agent_pipeline) acct r).(BuildResult.snapshot) in
  bare_deployment <$> snap.(ClusterSnapshot.Deployments) ≡ₚ bare_deployment <$> stored st.(Store.Deployments) /\
  bare_statefulset <$> snap.(ClusterSnapshot.StatefulSets) ≡ₚ bare_statefulset <$> stored st.(Store.StatefulSets) /\
  bare_daemonset <$> snap.(ClusterSnapshot.DaemonSets) ≡ₚ bare_daemonset <$> stored st.(Store.DaemonSets) /\
  bare_job <$> snap.(ClusterSnapshot.Jobs) ≡ₚ bare_job <$> stored st.(Store.Jobs) /\
  bare_pdb <$> snap.(ClusterSnapshot.PDBs) ≡ₚ bare_pdb <$> stored st.(Store.PDBs) /\
  bare_service <$> snap.(ClusterSnapshot.Services) ≡ₚ bare_service <$> stored st.(Store.Services).
Proof.
  intros st snap. destruct (Build_lists cfg acct r) as (_ & _ & _ & Hl). fold snap in Hl.
  set (ix := byNamespace _) in Hl. unfold enriched_lists in Hl. cbv zeta in Hl. set (look := pods_of _) in Hl.
  split_and!.
  - enriched Lists.Deployments (aggregate_deployment look) bare_deployment (Reads.order r) (Store.Deployments st) Hl.
  - enriched Lists.StatefulSets (aggregate_statefulset look) bare_statefulset (Reads.order r) (Store.StatefulSets st) Hl.
  - enriched Lists.DaemonSets (aggregate_daemonset look) bare_daemonset (Reads.order r) (Store.DaemonSets st) Hl.
  - enriched Lists.Jobs (aggregate_job look) bare_job (Reads.order r) (Store.Jobs st) Hl.
  - enriched Lists.PDBs (target_pdb ix) bare_pdb (Reads.order r) (Store.PDBs st) Hl.
  - enriched Lists.Services (target_service ix) bare_service (Reads.order r) (Store.Services st) Hl.
Qed.

Lemma built_unenriched cfg acct r :
  let st := r.(Reads.store) in
  let snap := (Build cfg (Some agent_pipeline) acct r).(BuildResult.snapshot) in
  snap.(ClusterSnapshot.Namespaces) ≡ₚ stored st.(Store.Namespaces) /\
  snap.(ClusterSnapshot.CronJobs) ≡ₚ stored st.(Store.CronJobs) /\
  snap.(ClusterSnapshot.CustomWorkloads) ≡ₚ stored st.(Store.CustomWorkloads) /\
  snap.(ClusterSnapshot.HPAs) ≡ₚ stored st.(Store.HPAs) /\
  snap.(ClusterSnapshot.VPAs) ≡ₚ stored st.(Store.VPAs) /\
  snap.(ClusterSnapshot.Ingresses) ≡ₚ stored st.(Store.Ingresses) /\
  snap.(ClusterSnapshot.PVs) ≡ₚ stored st.(Store.PVs) /\
  snap.(ClusterSnapshot.PVCs) ≡ₚ stored st.(Store.PVCs) /\
  snap.(ClusterSnapshot.StorageClasses) ≡ₚ stored st.(Store.StorageClasses) /\
  snap.(ClusterSnapshot.PriorityClasses) ≡ₚ stored st.(Store.PriorityClasses) /\
  snap.(ClusterSnapshot.LimitRanges) ≡ₚ stored st.(Store.LimitRanges) /\
  snap.(ClusterSnapshot.ResourceQuotas) ≡ₚ stored st.(Store.ResourceQuotas) /\
  snap.(ClusterSnapshot.NodePools) ≡ₚ stored st.(Store.NodePools).
Proof.
  intros st snap. destruct (Build_lists cfg acct r) as (_ & _ & _ & Hl). fold snap in Hl.
  unfold enriched_lists in Hl. cbv zeta in Hl.
  split_and!.
  - unenriched Lists.Namespaces (Reads.order r) (Store.Namespaces st) Hl.
  - unenriched Lists.CronJobs (Reads.order r) (Store.CronJobs st) Hl.
  - unenriched Lists.CustomWorkloads (Reads.order r) (Store.CustomWorkloads st) Hl.
  - unenriched Lists.HPAs (Reads.order r) (Store.HPAs st) Hl.
  - unenriched Lists.VPAs (Reads.order r) (Store.VPAs st) Hl.
  - unenriched Lists.Ingresses (Reads.order r) (Store.Ingresses st) Hl.
  - unenriched Lists.PVs (Reads.order r) (Store.PVs st) Hl.
  - unenriched Lists.PVCs (Reads.order r) (Store.PVCs st) Hl.
  - unenriched Lists.StorageClasses (Reads.order r) (Store.StorageClasses st) Hl.
  - unenriched Lists.PriorityClasses (Reads.order r) (Store.PriorityClasses st) Hl.
  - unenriched Lists.LimitRanges (Reads.order r) (Store.LimitRanges st) Hl.
  - unenriched Lists.ResourceQuotas (Reads.order r) (Store.ResourceQuotas st) Hl.
  - unenriched Lists.NodePools (Reads.order r) (Store.NodePools st) Hl.
Qed.



(** ** Properties *)

(** C4 A build with the agent's pipeline loses and invents nothing.  The pods, the
    workloads, the PodDisruptionBudgets and the Services of the snapshot are
    those of the stores, each object once and with all its fields but the ones
    the merges and the enrichers set; the other kinds are the stored objects
    themselves.  The nodes are the stored ones with what is merged into them, and
    nodes of the second read of the store, each once, that were not in the first
    and that a pod of the snapshot is on; a pod is on a node of the snapshot
    unless the second read does not have it either.  The summary is that of the
    snapshot it is sent with. *)
Theorem Build_complete cfg acct r :
  let st := r.(Reads.store) in
  let snap := (Build cfg (Some agent_pipeline) acct r).(BuildResult.snapshot) in
  snap.(ClusterSnapshot.Summary) = ComputeSummary snap /\
  (exists extra,
     bare_node <$> snap.(ClusterSnapshot.Nodes) ≡ₚ bare_node <$> (stored st.(Store.Nodes) ++ extra) /\
     NoDup (NodeInfo.Name <$> extra) /\
     (forall n, n ∈ extra ->
        n ∈ stored r.(Reads.laterNodes) /\ n.(NodeInfo.Name) <> "" /\
        n.(NodeInfo.Name) ∉ NodeInfo.Name <$> stored st.(Store.Nodes) /\
        exists p, p ∈ snap.(ClusterSnapshot.Pods) /\ p.(PodInfo.NodeName) = n.(NodeInfo.Name)) /\
     (forall p, p ∈ snap.(ClusterSnapshot.Pods) -> p.(PodInfo.NodeName) <> "" ->
        p.(PodInfo.NodeName) ∈ NodeInfo.Name <$> stored r.(Reads.laterNodes) ->
        p.(PodInfo.NodeName) ∈ NodeInfo.Name <$> snap.(ClusterSnapshot.Nodes))) /\
  bare_pod <$> snap.(ClusterSnapshot.Pods) ≡ₚ bare_pod <$> stored st.(Store.Pods) /\
  bare_deployment <$> snap.(ClusterSnapshot.Deployments) ≡ₚ bare_deployment <$> stored st.(Store.Deployments) /\
  bare_statefulset <$> snap.(ClusterSnapshot.StatefulSets) ≡ₚ bare_statefulset <$> stored st.(Store.StatefulSets) /\
  bare_daemonset <$> snap.(ClusterSnapshot.DaemonSets) ≡ₚ bare_daemonset <$> stored st.(Store.DaemonSets) /\
  bare_job <$> snap.(ClusterSnapshot.Jobs) ≡ₚ bare_job <$> stored st.(Store.Jobs) /\
  bare_pdb <$> snap.(ClusterSnapshot.PDBs) ≡ₚ bare_pdb <$> stored st.(Store.PDBs) /\
  bare_service <$> snap.(ClusterSnapshot.Services) ≡ₚ bare_service <$> stored st.(Store.Services) /\
  snap.(ClusterSnapshot.Namespaces) ≡ₚ stored st.(Store.Namespaces) /\
  snap.(ClusterSnapshot.CronJobs) ≡ₚ stored st.(Store.CronJobs) /\
  snap.(ClusterSnapshot.CustomWorkloads) ≡ₚ stored st.(Store.CustomWorkloads) /\
  snap.(ClusterSnapshot.HPAs) ≡ₚ stored st.(Store.HPAs) /\
  snap.(ClusterSnapshot.VPAs) ≡ₚ stored st.(Store.VPAs) /\
  snap.(ClusterSnapshot.Ingresses) ≡ₚ stored st.(Store.Ingresses) /\
  snap.(ClusterSnapshot.PVs) ≡ₚ stored st.(Store.PVs) /\
  snap.(ClusterSnapshot.PVCs) ≡ₚ stored st.(Store.PVCs) /\
  snap.(ClusterSnapshot.StorageClasses) ≡ₚ stored st.(Store.StorageClasses) /\
  snap.(ClusterSnapshot.PriorityClasses) ≡ₚ stored st.(Store.PriorityClasses) /\
  snap.(ClusterSnapshot.LimitRanges) ≡ₚ stored st.(Store.LimitRanges) /\
  snap.(ClusterSnapshot.ResourceQuotas) ≡ₚ stored st.(Store.ResourceQuotas) /\
  snap.(ClusterSnapshot.NodePools) ≡ₚ stored st.(Store.NodePools).
Proof.
  intros st snap. destruct (Build_lists cfg acct r) as (Hsum & _). split; [exact Hsum|].
  split; [exact (built_nodes_stored cfg acct r)|]. split; [exact (built_pods_bare cfg acct r)|].
  destruct (built_workloads cfg acct r) as (? & ? & ? & ? & ? & ?).
  repeat (split; [assumption|]). exact (built_unenriched cfg acct r).
Qed.




