(* ===== verification/Registry.v ===== *)
(** * The collector registry: internal/collector/{registry,collector}.go and
      internal/collector/resource/{runner,health}.go

    A collector is seen through what its methods return when they are called.
    [Stop] waits for the collector's goroutine: it returns only when one was
    started and ends. *)

From S2P Require Import Prelude GoNum GoStrings.
Open Scope string_scope.
Open Scope list_scope.
Open Scope Z_scope.

(** ** The Collector interface and its optional interfaces

    [None] in [IsHealthy], [APICallStats] and [DCGMTargetStats] is a collector
    that does not implement HealthChecker, APICallCounter, DCGMTargetReporter. *)
Module Collector.
Record t := mk {
  Name : string;
  Start : option string;                 (* the error of Start *)
  WaitForSync : option string;           (* the error of WaitForSync *)
  StopReturns : bool;                    (* whether Stop returns *)
  IsHealthy : option (bool * string);
  APICallStats : option (int64 * int64);
  DCGMTargetStats : option (int * int) }.
End Collector.

(** ** The registry *)

Inductive StartError :=
  | AllFailed (n : int)
  | PartialStartError (Failed : list string) (Total : int).

Definition StartError_text (e : StartError) : string :=
  match e with
  | AllFailed n => "all " +:+ itoa n +:+ " collectors failed to start"
  | PartialStartError failed total =>
      itoa (golen failed) +:+ " of " +:+ itoa total +:+ " collectors failed to start: [" +:+
        String.concat " " failed +:+ "]"
  end.

Module Registry.
Record t := mk { collectors : list Collector.t; started : bool }.

Definition NewRegistry : t := mk [] false.

Definition Register (c : Collector.t) (r : t) : t := mk (r.(collectors) ++ [c]) r.(started).

(** [finished] is the collectors in the order their Start calls end. *)
Definition StartAll (finished : list Collector.t) (r : t) : option StartError * t :=
  let r' := mk r.(collectors) true in
  if golen r.(collectors) =? 0 then (None, r') else
  let failedNames :=
    foldl (fun failed c => match c.(Collector.Start) with
                           | Some _ => failed ++ [c.(Collector.Name)]
                           | None => failed
                           end) [] finished in
  if golen failedNames =? golen r.(collectors) then (Some (AllFailed (golen failedNames)), r')
  else if 0 <? golen failedNames then
    (Some (PartialStartError failedNames (golen r.(collectors))), r')
  else (None, r').

(** The first error in the order the waits end. *)
Definition WaitForSync (finished : list Collector.t) (r : t) : option string :=
  if golen r.(collectors) =? 0 then None else
  match omap Collector.WaitForSync finished with
  | [] => None
  | e :: _ => Some ("collector sync failed: " +:+ e)
  end.

(** The collectors stopped, in order; [false] when a Stop does not return, and
    the ones after it are not stopped. *)
Fixpoint stop_loop (cs : list Collector.t) : list string * bool :=
  match cs with
  | [] => ([], true)
  | c :: cs =>
      if c.(Collector.StopReturns)
      then let '(names, ok) := stop_loop cs in (c.(Collector.Name) :: names, ok)
      else ([], false)
  end.

Definition StopAll (r : t) : list string * bool * t :=
  if r.(started) then (stop_loop r.(collectors), mk r.(collectors) false)
  else ([], true, r).

Definition HealthReport (r : t) : int * int * list string :=
  let '(healthy, stale) :=
    foldl (fun '(healthy, stale) c =>
             match c.(Collector.IsHealthy) with
             | Some (h, _) => if h : bool then (add64 healthy 1, stale)
                              else (healthy, stale ++ [c.(Collector.Name)])
             | None => (add64 healthy 1, stale)
             end) (0, []) r.(collectors) in
  (healthy, golen r.(collectors), stale).

Definition APICallReport (r : t) : int64 * int64 :=
  foldl (fun '(total, failed) c =>
           match c.(Collector.APICallStats) with
           | Some (t, f) => (add64 total t, add64 failed f)
           | None => (total, failed)
           end) (0, 0) r.(collectors).

Definition DCGMTargetReport (r : t) : int * int :=
  match omap Collector.DCGMTargetStats r.(collectors) with
  | stats :: _ => stats
  | [] => (0, 0)
  end.
End Registry.

(** ** Running an informer *)

Definition informerMaxRetries : int := 3.

(** What the recovery goroutine does. *)
Inductive runner_event := RunInformer | Pause (d : Duration) | CloseDone.

(** [stopped i] is whether [stopCh] is closed when the i-th run returns. *)
Fixpoint run_attempts (stopped : nat -> bool) (fuel attempt : nat) : list runner_event :=
  match fuel with
  | O => []
  | S fuel =>
      (if (0 <? attempt)%nat then [Pause (mul64 (mul64 (Z.of_nat attempt) 5) Second)] else []) ++
      RunInformer ::
      (if stopped attempt then [] else run_attempts stopped fuel (S attempt))
  end.

(** The goroutine of [runInformerWithRecovery]; [done] is closed on every path. *)
Definition runInformerWithRecovery (stopped : nat -> bool) : list runner_event :=
  run_attempts stopped (Z.to_nat (informerMaxRetries + 1)) 0 ++ [CloseDone].

(** [informerHealthy(stopCh, done)] on the state of the two channels. *)
Definition informerHealthy (stop_closed done_closed : bool) : bool * string :=
  if done_closed then
    if stop_closed then (true, "") else (false, "informer goroutine exited unexpectedly")
  else (true, "").

(** ** Lemmas *)

Lemma stop_loop_all cs :
  forallb Collector.StopReturns cs = true ->
  Registry.stop_loop cs = (Collector.Name <$> cs, true).
Proof.
  induction cs as [|c cs IH]; [done|]. cbn [forallb Registry.stop_loop].
  intros [-> H]%andb_true_iff. by rewrite IH.
Qed.

Lemma stop_loop_hangs pre c post :
  forallb Collector.StopReturns pre = true -> c.(Collector.StopReturns) = false ->
  Registry.stop_loop (pre ++ c :: post) = (Collector.Name <$> pre, false).
Proof.
  intros Hp Hc. induction pre as [|c' pre IH]; cbn [app Registry.stop_loop fmap list_fmap].
  - by rewrite Hc.
  - cbn [forallb] in Hp. apply andb_true_iff in Hp as [-> Hp]. by rewrite IH.
Qed.

Lemma failed_names_spec cs acc :
  foldl (fun failed c => match c.(Collector.Start) with
                         | Some _ => failed ++ [c.(Collector.Name)]
                         | None => failed
                         end) acc cs =
    acc ++ (Collector.Name <$> filter (fun c => is_Some c.(Collector.Start)) cs).
Proof.
  revert acc. induction cs as [|c cs IH]; intros acc; [by rewrite app_nil_r|].
  cbn [foldl]. rewrite filter_cons. destruct (Collector.Start c) eqn:E; rewrite IH.
  - rewrite decide_True by done. by rewrite <- (assoc_L (++)).
  - by rewrite decide_False by (by intros []).
Qed.

Lemma StartAll_none finished r :
  (forall c, c ∈ finished -> c.(Collector.Start) = None) -> r.(Registry.collectors) <> [] ->
  (Registry.StartAll finished r).1 = None.
Proof.
  intros Hs Hne. unfold Registry.StartAll. rewrite failed_names_spec.
  assert (filter (fun c => is_Some c.(Collector.Start)) finished = []) as ->.
  { destruct (filter _ finished) as [|c l] eqn:E; [done|].
    assert (c ∈ filter (fun c => is_Some c.(Collector.Start)) finished) as [Hc Hin]%list_elem_of_filter
      by (rewrite E; by left). by destruct Hc; rewrite Hs in *. }
  destruct (Registry.collectors r) as [|c cs]; [done|]. cbn [golen length app fmap list_fmap].
  by destruct (golen (c :: cs) =? 0).
Qed.

Lemma health_loop cs n stale :
  foldl (fun '(healthy, stale) c =>
           match c.(Collector.IsHealthy) with
           | Some (h, _) => if h : bool then (add64 healthy 1, stale)
                            else (healthy, stale ++ [c.(Collector.Name)])
           | None => (add64 healthy 1, stale)
           end) (wrap64 n, stale) cs =
    let bad := filter (fun c => fst <$> c.(Collector.IsHealthy) = Some false) cs in
    (wrap64 (n + golen cs - golen bad), stale ++ (Collector.Name <$> bad)).
Proof.
  cbv zeta. revert n stale. induction cs as [|c cs IH]; intros n stale.
  { unfold golen. simpl. rewrite app_nil_r. do 2 f_equal. lia. }
  cbn [foldl]. rewrite filter_cons.
  assert (forall m, golen (c :: cs) - m = golen cs - m + 1) as Hl by (unfold golen; simpl; lia).
  destruct (Collector.IsHealthy c) as [[[] why]|]; cbn.
  - unfold add64. rewrite wrap64_add_l, IH. rewrite decide_False by done. do 2 f_equal.
    unfold golen; simpl; lia.
  - rewrite IH. rewrite decide_True by done. cbn. rewrite <- (assoc_L (++)). do 2 f_equal.
    unfold golen; simpl; lia.
  - unfold add64. rewrite wrap64_add_l, IH. rewrite decide_False by done. do 2 f_equal.
    unfold golen; simpl; lia.
Qed.

(** ** Properties *)

(** Starting the collectors succeeds when none fails, is a total failure when
    all fail, and otherwise names exactly the ones that failed. *)
Theorem StartAll_outcome finished r :
  finished ≡ₚ r.(Registry.collectors) -> r.(Registry.collectors) ≠ [] ->
  let failed := filter (fun c => is_Some c.(Collector.Start)) r.(Registry.collectors) in
  match (Registry.StartAll finished r).1 with
  | None => failed = []
  | Some (AllFailed n) => failed = r.(Registry.collectors) /\ n = golen r.(Registry.collectors)
  | Some (PartialStartError names total) =>
      names ≡ₚ Collector.Name <$> failed /\ total = golen r.(Registry.collectors) /\
      0 < golen failed < golen r.(Registry.collectors)
  end /\ (Registry.StartAll finished r).2.(Registry.started) = true.
Proof.
  intros Hp Hne. cbv zeta. unfold Registry.StartAll.
  destruct (golen (Registry.collectors r) =? 0) eqn:E0.
  { exfalso. apply Hne. apply Z.eqb_eq in E0. unfold golen in E0.
    destruct (Registry.collectors r); [done|]. simpl in E0. lia. }
  rewrite failed_names_spec, app_nil_l.
  set (P := fun c => is_Some c.(Collector.Start)).
  set (failed := filter P (Registry.collectors r)).
  assert (Hf : Collector.Name <$> filter P finished ≡ₚ Collector.Name <$> failed)
    by (unfold failed; by rewrite Hp).
  assert (Hl : golen (Collector.Name <$> filter P finished) = golen failed).
  { unfold golen. by rewrite (Permutation_length Hf), length_fmap. }
  pose proof (length_filter P (Registry.collectors r)) as Hle. fold failed in Hle.
  rewrite Hl. destruct (golen failed =? golen (Registry.collectors r)) eqn:E1.
  - apply Z.eqb_eq in E1. split; [|done]. split; [|done]. unfold golen in E1.
    unfold failed. apply filter_all_length. unfold failed in E1. lia.
  - apply Z.eqb_neq in E1. destruct (0 <? golen failed) eqn:E2; (split; [|done]).
    + split_and!; [done|done| |]; unfold golen in *; lia.
    + apply Z.ltb_ge in E2. unfold golen in E2. apply nil_length_inv. lia.
Qed.

Definition ex_collector (name : string) (err : option string) : Collector.t :=
  Collector.mk name err None (negb (bool_decide (is_Some err))) (Some (true, "")) None None.

Definition ex_registry : Registry.t :=
  Registry.Register (ex_collector "pods" (Some "forbidden"))
    (Registry.Register (ex_collector "nodes" None) Registry.NewRegistry).

Lemma StartAll_outcome_witness :
  exists names, (Registry.StartAll (reverse ex_registry.(Registry.collectors)) ex_registry).1 =
    Some (PartialStartError names 2) /\ names ≡ₚ ["pods"].
Proof.
  pose proof (StartAll_outcome (reverse ex_registry.(Registry.collectors)) ex_registry
    (reverse_Permutation _) ltac:(discriminate)) as [H _].
  exists ["pods"]. split; [reflexivity|]. exact (proj1 H).
Defined.

(** StopAll after a start in which a collector failed: the collectors before
    it are stopped, the call never returns from it and the ones after it are
    never stopped; when every Stop returns, all are stopped in order, once. *)
Theorem StopAll_order pre c post :
  forallb Collector.StopReturns pre = true ->
  let stop cs := Registry.StopAll (Registry.mk cs true) in
  stop pre = (Collector.Name <$> pre, true, Registry.mk pre false) /\
  Registry.StopAll (stop pre).2 = ([], true, Registry.mk pre false) /\
  (c.(Collector.StopReturns) = false ->
   (stop (pre ++ c :: post)).1 = (Collector.Name <$> pre, false)).
Proof.
  intros Hp stop. unfold stop, Registry.StopAll. cbn [Registry.started Registry.collectors].
  rewrite stop_loop_all by done. split_and!; [done..|].
  intros Hc. by rewrite stop_loop_hangs.
Qed.

Lemma StopAll_order_witness :
  (Registry.StopAll (Registry.mk (ex_registry.(Registry.collectors) ++ [ex_collector "jobs" None]) true)).1 =
    (["nodes"], false).
Proof.
  apply (StopAll_order [ex_collector "nodes" None] (ex_collector "pods" (Some "forbidden"))
    [ex_collector "jobs" None]); reflexivity.
Defined.

(** The health report counts every collector that is not known to be unhealthy
    and names, in order, exactly those that are: healthy plus stale is total. *)
Theorem HealthReport_partition r :
  golen r.(Registry.collectors) < 2 ^ 63 ->
  let '(healthy, total, stale) := Registry.HealthReport r in
  total = golen r.(Registry.collectors) /\ healthy + golen stale = total /\
  stale = Collector.Name <$>
    filter (fun c => fst <$> c.(Collector.IsHealthy) = Some false) r.(Registry.collectors).
Proof.
  intros Hl. unfold Registry.HealthReport. change 0 with (wrap64 0). rewrite health_loop.
  cbv zeta. rewrite app_nil_l, Z.add_0_l.
  pose proof (length_filter (fun c => fst <$> c.(Collector.IsHealthy) = Some false)
    (Registry.collectors r)) as Hf.
  split_and!; [done| |done]. rewrite wrap64_id.
  - unfold golen. rewrite length_fmap. lia.
  - unfold in_int64, golen in *. lia.
Qed.

Lemma HealthReport_partition_witness :
  Registry.HealthReport ex_registry = (2, 2, []).
Proof.
  pose proof (HealthReport_partition ex_registry ltac:(by vm_compute)) as H.
  destruct (Registry.HealthReport ex_registry) as [[h n] st] eqn:E.
  destruct H as (-> & Hs & ->). by vm_compute in E.
Defined.

(** Crash recovery: an informer is run at most four times, after pauses of 5,
    10 and 15 seconds, a run that ends because of Stop is the last one, and the
    goroutine always closes [done], so Stop returns. *)
Theorem runInformerWithRecovery_spec (stopped : nat -> bool) :
  runInformerWithRecovery stopped =
    match List.find stopped (seq 0 4) with
    | Some 0%nat => [RunInformer; CloseDone]
    | Some 1%nat => [RunInformer; Pause (5 * Second); RunInformer; CloseDone]
    | Some 2%nat => [RunInformer; Pause (5 * Second); RunInformer; Pause (10 * Second); RunInformer; CloseDone]
    | _ => [RunInformer; Pause (5 * Second); RunInformer; Pause (10 * Second); RunInformer;
            Pause (15 * Second); RunInformer; CloseDone]
    end.
Proof.
  cbn [seq List.find]. unfold runInformerWithRecovery.
  change (Z.to_nat (informerMaxRetries + 1)) with 4%nat. cbn [run_attempts].
  destruct (stopped 0%nat); [reflexivity|]. destruct (stopped 1%nat); [reflexivity|].
  destruct (stopped 2%nat); [reflexivity|]. by destruct (stopped 3%nat).
Qed.
