(* ===== verification/Recovery.v ===== *)
(** * The goroutine of an informer: runInformerWithRecovery as steps

    What [runInformerWithRecovery] of Registry.v gives as the list of what the
    goroutine does, step by step, next to the calls of [Stop]: this is what the
    process needs to interleave informers with everything else.  The two agree:
    the steps of a goroutine that has returned are such a list. *)

From S2P Require Import Prelude GoNum GoStrings Registry.
Open Scope string_scope.
Open Scope list_scope.
Open Scope Z_scope.

(** Where the goroutine is: not launched, in the n-th [informer.Run], asleep
    before it, returned. *)
Inductive informer_at := InfIdle | InfRunning (attempt : nat) | InfSleeping (attempt : nat) | InfExited.

#[export] Instance informer_at_eq_dec : EqDecision informer_at.
Proof. solve_decision. Defined.

(** A collector's [stopCh] and [done], closed or not. *)
Module Informer.
Record t := mk { at_ : informer_at; stopCh : bool; done : bool }.
#[export] Instance eta : Eta t := fun r => mk r.(at_) r.(stopCh) r.(done).
End Informer.
Export (hints) Informer.

Definition new_informer : Informer.t := Informer.mk InfIdle false false.

(** [Start] launches the goroutine; [informer.Run] returns, because [stopCh] is
    closed or because the informer crashed; the sleep ends; [Stop] closes
    [stopCh], at most once. *)
Inductive informer_go := Launch | RunReturns | Wakes | CallsStop.

Inductive informer_step : Informer.t -> informer_go -> Informer.t -> Prop :=
  | inf_launch s :
      s.(Informer.at_) = InfIdle -> informer_step s Launch (s <| Informer.at_ := InfRunning 0 |>)
  | inf_stopped s n :
      s.(Informer.at_) = InfRunning n -> s.(Informer.stopCh) = true ->
      informer_step s RunReturns (s <| Informer.at_ := InfExited |> <| Informer.done := true |>)
  | inf_retry s n :
      s.(Informer.at_) = InfRunning n -> s.(Informer.stopCh) = false -> Z.of_nat n < informerMaxRetries ->
      informer_step s RunReturns (s <| Informer.at_ := InfSleeping (S n) |>)
  | inf_gives_up s n :
      s.(Informer.at_) = InfRunning n -> s.(Informer.stopCh) = false -> informerMaxRetries <= Z.of_nat n ->
      informer_step s RunReturns (s <| Informer.at_ := InfExited |> <| Informer.done := true |>)
  | inf_wakes s n :
      s.(Informer.at_) = InfSleeping n -> informer_step s Wakes (s <| Informer.at_ := InfRunning n |>)
  | inf_stop s :
      informer_step s CallsStop (s <| Informer.stopCh := true |>).

(** The same as a function: [None] when the event cannot happen. *)
Definition informer_exec (ev : informer_go) (s : Informer.t) : option Informer.t :=
  match ev, s.(Informer.at_) with
  | Launch, InfIdle => Some (s <| Informer.at_ := InfRunning 0 |>)
  | RunReturns, InfRunning n =>
      if s.(Informer.stopCh) || (informerMaxRetries <=? Z.of_nat n)
      then Some (s <| Informer.at_ := InfExited |> <| Informer.done := true |>)
      else Some (s <| Informer.at_ := InfSleeping (S n) |>)
  | Wakes, InfSleeping n => Some (s <| Informer.at_ := InfRunning n |>)
  | CallsStop, _ => Some (s <| Informer.stopCh := true |>)
  | _, _ => None
  end.

(** What a step of the goroutine is in the list of Registry.v: the run begins
    when the goroutine is launched or wakes. *)
Definition did (s : Informer.t) (ev : informer_go) (s' : Informer.t) : list runner_event :=
  match ev with
  | Launch => [RunInformer]
  | Wakes => [RunInformer]
  | RunReturns =>
      match s'.(Informer.at_) with
      | InfSleeping n => [Pause (mul64 (mul64 (Z.of_nat n) 5) Second)]
      | _ => [CloseDone]
      end
  | CallsStop => []
  end.

(** A run from a new collector, the latest event last, and what it did. *)
Inductive informer_run : list informer_go -> list runner_event -> Informer.t -> Prop :=
  | inf_new : informer_run [] [] new_informer
  | inf_snoc evs tr s ev s' :
      informer_run evs tr s -> informer_step s ev s' -> informer_run (evs ++ [ev]) (tr ++ did s ev s') s'.

Definition goroutine_go (ev : informer_go) : bool := match ev with RunReturns | Wakes => true | _ => false end.

(** ** Lemmas *)

Lemma informer_step_exec s ev s' : informer_step s ev s' <-> informer_exec ev s = Some s'.
Proof.
  split.
  - destruct 1 as [s E|s n E E'|s n E E' Hn|s n E E' Hn|s n E|s]; unfold informer_exec; rewrite ?E, ?E'; try reflexivity.
    + rewrite (proj2 (Z.leb_gt _ _) Hn). reflexivity.
    + rewrite (proj2 (Z.leb_le _ _) Hn). reflexivity.
  - destruct ev; cbn [informer_exec]; destruct (Informer.at_ s) eqn:E; try done;
      try (intros [= <-]; by constructor).
    destruct (Informer.stopCh s) eqn:E'; cbn [orb]; [intros [= <-]; by eapply inf_stopped|].
    destruct (_ <=? _) eqn:Hn; intros [= <-].
    + apply Z.leb_le in Hn. by eapply inf_gives_up.
    + apply Z.leb_gt in Hn. by eapply inf_retry.
Qed.

(** [done] is closed exactly when the goroutine has returned, and the attempts
    stay within the retries. *)
Definition informer_inv (s : Informer.t) : Prop :=
  (s.(Informer.done) = true <-> s.(Informer.at_) = InfExited) /\
  match s.(Informer.at_) with
  | InfRunning n | InfSleeping n => Z.of_nat n <= informerMaxRetries
  | _ => True
  end.

Lemma informer_inv_step s ev s' : informer_inv s -> informer_step s ev s' -> informer_inv s'.
Proof.
  unfold informer_inv. intros [Hd Hn] Hstep.
  destruct Hstep as [s E|s n E E'|s n E E' Hlt|s n E E' Hle|s n E|s]; destruct s as [a st dn]; cbn in *; subst;
    (split; [first [by split|rewrite Hd; split; congruence|exact Hd]|try done; unfold informerMaxRetries in *; lia]).
Qed.

Lemma informer_inv_new : informer_inv new_informer.
Proof. by split. Qed.

(** The goroutine once launched is never idle again, and [stopCh] stays closed. *)
Lemma informer_step_mono s ev s' :
  informer_step s ev s' ->
  (s.(Informer.at_) <> InfIdle -> s'.(Informer.at_) <> InfIdle) /\
  (s.(Informer.stopCh) = true -> s'.(Informer.stopCh) = true).
Proof. destruct 1; by destruct s. Qed.

(** Before [Launch] nothing is done. *)
Lemma informer_idle s ev s' :
  s.(Informer.at_) = InfIdle -> informer_step s ev s' -> ev <> Launch -> s'.(Informer.at_) = InfIdle.
Proof. intros Hi. destruct 1; try congruence. by destruct s. Qed.

(** A goroutine that is told to stop can return, after at most one more sleep. *)
Lemma informer_returns s :
  informer_inv s -> s.(Informer.stopCh) = true -> s.(Informer.at_) <> InfIdle ->
  s.(Informer.done) = true \/
  (exists s', informer_step s RunReturns s' /\ s'.(Informer.done) = true) \/
  (exists s1 s', informer_step s Wakes s1 /\ informer_step s1 RunReturns s' /\ s'.(Informer.done) = true).
Proof.
  intros [Hd _] Hs Hi. destruct (Informer.at_ s) as [|n|n|] eqn:E; [done| | |left; by apply Hd].
  - right; left. eexists. split; [by eapply inf_stopped|done].
  - right; right. eexists _, _. split_and!; [by apply inf_wakes|by eapply inf_stopped|done].
Qed.

(** The list up to the n-th run, without a stop. *)
Definition attempts (n : nat) : list runner_event := run_attempts (fun _ => false) (S n) 0.
#[local] Arguments attempts : simpl never.

Lemma run_attempts_never k a :
  run_attempts (fun _ => false) (S k) a =
    run_attempts (fun _ => false) k a ++
      (if (0 <? a + k)%nat then [Pause (mul64 (mul64 (Z.of_nat (a + k)) 5) Second)] else []) ++ [RunInformer].
Proof.
  revert a. induction k as [|k IH]; intros a.
  - rewrite Nat.add_0_r. reflexivity.
  - change (run_attempts ?f (S (S k)) a) with
      ((if (0 <? a)%nat then [Pause (mul64 (mul64 (Z.of_nat a) 5) Second)] else []) ++
        RunInformer :: run_attempts f (S k) (S a)).
    rewrite IH. rewrite <- Nat.add_succ_comm. cbn [run_attempts]. by rewrite <- app_assoc.
Qed.

Lemma attempts_S n :
  attempts (S n) = attempts n ++ [Pause (mul64 (mul64 (Z.of_nat (S n)) 5) Second)] ++ [RunInformer].
Proof. unfold attempts. by rewrite run_attempts_never. Qed.

(** A list that stops at the n-th run. *)
Lemma stopped_at n :
  Z.of_nat n <= informerMaxRetries ->
  runInformerWithRecovery (fun i => bool_decide (i = n)) = attempts n ++ [CloseDone].
Proof.
  unfold informerMaxRetries. intros Hn.
  destruct n as [|[|[|[|n]]]]; [reflexivity..|lia].
Qed.

(** What has been done where the goroutine is, and how often it has moved. *)
Definition done_so_far (s : Informer.t) (tr : list runner_event) (moves : nat) : Prop :=
  match s.(Informer.at_) with
  | InfIdle => tr = [] /\ moves = 0%nat
  | InfRunning n => tr = attempts n /\ moves = (2 * n)%nat
  | InfSleeping O => False
  | InfSleeping (S n) =>
      tr = attempts n ++ [Pause (mul64 (mul64 (Z.of_nat (S n)) 5) Second)] /\ moves = (2 * n + 1)%nat
  | InfExited =>
      exists n, Z.of_nat n <= informerMaxRetries /\ tr = attempts n ++ [CloseDone] /\ moves = (2 * n + 1)%nat /\
        (s.(Informer.stopCh) = true \/ Z.of_nat n = informerMaxRetries)
  end.

Definition moves_of (evs : list informer_go) : nat := length (filter (fun ev => goroutine_go ev = true) evs).

Lemma moves_of_snoc evs ev : moves_of (evs ++ [ev]) = (moves_of evs + if goroutine_go ev then 1 else 0)%nat.
Proof. unfold moves_of. rewrite filter_app, length_app. by destruct ev. Qed.

(** The moves of the goroutine: its runs return and its sleeps end in turn. *)
Definition goes (evs : list informer_go) : list informer_go := filter (fun ev => goroutine_go ev = true) evs.

Definition in_turn (n : nat) : list informer_go := (fun i => if Nat.even i then RunReturns else Wakes) <$> seq 0 n.

Lemma in_turn_S n : in_turn (S n) = in_turn n ++ [if Nat.even n then RunReturns else Wakes].
Proof. unfold in_turn. by rewrite seq_S, fmap_app. Qed.

Lemma informer_run_inv evs tr s : informer_run evs tr s -> informer_inv s /\ done_so_far s tr (moves_of evs).
Proof.
  induction 1 as [|evs tr s ev s' _ [Hinv IH] Hstep]; [by split; [apply informer_inv_new|]|].
  split; [by eapply informer_inv_step|]. rewrite moves_of_snoc.
  unfold done_so_far in *. destruct Hinv as [_ Hn].
  destruct Hstep as [s E|s n E E'|s n E E' Hlt|s n E E' Hle|s n E|s]; rewrite ?E in *; cbn [did goroutine_go];
    destruct s as [a st dn]; cbn [Informer.at_ Informer.stopCh] in *; subst; cbn.
  - destruct IH as [-> ->]. done.
  - destruct IH as [-> ->]. exists n. split_and!; [done|done|lia|by left].
  - destruct IH as [-> ->]. split; [done|lia].
  - destruct IH as [-> ->]. exists n. split_and!; [done|done|lia|right; lia].
  - destruct n as [|n]; [done|]. destruct IH as [-> ->]. rewrite attempts_S, <- app_assoc. split; [done|lia].
  - rewrite app_nil_r, Nat.add_0_r. destruct a as [| |[|n]|]; try done.
    destruct IH as (n & ? & ? & ? & ?). exists n. split_and!; try done. by left.
Qed.

Lemma informer_run_turns evs tr s : informer_run evs tr s -> goes evs = in_turn (moves_of evs).
Proof.
  induction 1 as [|evs tr s ev s' Hr IH Hstep]; [done|].
  rewrite moves_of_snoc. unfold goes in *. rewrite filter_app, IH, filter_cons, filter_nil.
  destruct (informer_run_inv _ _ _ Hr) as [_ Hdone]. unfold done_so_far in Hdone.
  destruct Hstep as [s E|s n E E'|s n E E' Hlt|s n E E' Hle|s n E|s]; cbn [goroutine_go];
    rewrite ?Nat.add_0_r, ?Nat.add_1_r, ?in_turn_S; (case_decide; [|by rewrite ?app_nil_r]); try done;
    rewrite E in Hdone; [destruct Hdone as [_ ->]; by rewrite Nat.even_mul..|].
  destruct n as [|n]; [done|]. destruct Hdone as [_ ->]. by rewrite Nat.even_add, Nat.even_mul.
Qed.

Lemma attempts_begin n m :
  (n <= m)%nat -> exists rest, attempts m = attempts n ++ rest /\
    ((n < m)%nat -> exists rest', rest = Pause (mul64 (mul64 (Z.of_nat (S n)) 5) Second) :: rest').
Proof.
  induction 1 as [|m Hm [rest [IH IH']]]; [exists []; split; [by rewrite app_nil_r|lia]|].
  rewrite attempts_S, IH, <- app_assoc. eexists. split; [reflexivity|]. intros _.
  destruct (decide (n < m)%nat) as [Hlt|Hge].
  - destruct (IH' Hlt) as [rest' ->]. by eexists.
  - assert (n = m) as -> by lia. rewrite <- (app_nil_r (attempts m)) in IH at 1.
    apply app_inv_head in IH as <-. by eexists.
Qed.

(** What has been done begins what the recovery does. *)
Lemma begun s tr moves :
  informer_inv s -> done_so_far s tr moves ->
  exists stopped rest, runInformerWithRecovery stopped = tr ++ rest /\ (s.(Informer.at_) = InfExited -> rest = []).
Proof.
  intros [_ Hn] Hdone. unfold done_so_far, informerMaxRetries in *.
  assert (forall n, Z.of_nat n <= 3 -> exists rest, runInformerWithRecovery (fun i => bool_decide (i = 3%nat)) =
    attempts n ++ rest /\ (Z.of_nat n < 3 -> exists rest', rest = Pause (mul64 (mul64 (Z.of_nat (S n)) 5) Second) :: rest'))
    as Hbeg.
  { intros n Hle. rewrite stopped_at by done. destruct (attempts_begin n 3 ltac:(lia)) as (rest & -> & Hp).
    exists (rest ++ [CloseDone]). split; [by rewrite app_assoc|]. intros Hlt.
    destruct (Hp ltac:(lia)) as [rest' ->]. by eexists. }
  destruct (Informer.at_ s) as [|n|[|n]|].
  - destruct Hdone as [-> _]. exists (fun _ => true), (runInformerWithRecovery (fun _ => true)). by split.
  - destruct Hdone as [-> _]. destruct (Hbeg n Hn) as (rest & ? & _). by eexists _, rest.
  - done.
  - destruct Hdone as [-> _]. destruct (Hbeg n ltac:(lia)) as (rest & Hr & Hp).
    destruct (Hp ltac:(lia)) as [rest' ->]. exists (fun i => bool_decide (i = 3%nat)), rest'.
    split; [by rewrite Hr, <- app_assoc|done].
  - destruct Hdone as (n & Hle & -> & _). exists (fun i => bool_decide (i = n)), [].
    rewrite app_nil_r. split; [by apply stopped_at|done].
Qed.

(** ** Properties *)

(** C30 The goroutine of an informer ends: in any run it moves at most seven times
    (four runs of the informer, three sleeps between them), what it has done is
    a beginning of what [runInformerWithRecovery] does for some times at which
    Stop comes, all of it once it has returned; it is reported unhealthy exactly
    when it has returned without Stop, which takes four crashes; and while it
    has not returned it can go on. *)
Theorem informer_goroutine_ends evs tr s :
  informer_run evs tr s ->
  (moves_of evs <= 7)%nat /\
  (exists stopped rest, runInformerWithRecovery stopped = tr ++ rest /\
     (s.(Informer.at_) = InfExited -> rest = [])) /\
  ((informerHealthy s.(Informer.stopCh) s.(Informer.done)).1 = false <->
     s.(Informer.at_) = InfExited /\ s.(Informer.stopCh) = false) /\
  ((informerHealthy s.(Informer.stopCh) s.(Informer.done)).1 = false ->
     tr = [RunInformer; Pause (5 * Second); RunInformer; Pause (10 * Second); RunInformer; Pause (15 * Second);
           RunInformer; CloseDone]) /\
  (s.(Informer.at_) <> InfIdle -> s.(Informer.at_) <> InfExited ->
     exists ev s', goroutine_go ev = true /\ informer_step s ev s').
Proof.
  intros Hr. destruct (informer_run_inv _ _ _ Hr) as [[Hd Hn] Hdone].
  assert ((informerHealthy s.(Informer.stopCh) s.(Informer.done)).1 = false <->
     s.(Informer.at_) = InfExited /\ s.(Informer.stopCh) = false) as Hh.
  { rewrite <- Hd. unfold informerHealthy. by destruct (Informer.done s), (Informer.stopCh s); cbn; intuition. }
  split_and!.
  - unfold done_so_far in Hdone. unfold informerMaxRetries in *.
    destruct (Informer.at_ s) as [|n|[|n]|]; [lia|lia|done|lia|]. destruct Hdone as (n & ? & _ & -> & _). lia.
  - apply (begun s tr (moves_of evs)); [|exact Hdone]. by split.
  - exact Hh.
  - intros [E Hst]%Hh. unfold done_so_far in Hdone. rewrite E in Hdone.
    destruct Hdone as (n & _ & -> & _ & [Hc|Hc]); [congruence|].
    assert (n = 3)%nat as -> by (unfold informerMaxRetries in Hc; lia). reflexivity.
  - intros Hi He. destruct (Informer.at_ s) as [|n|n|] eqn:E; [done| | |done].
    + destruct (Informer.stopCh s) eqn:Est; [exists RunReturns; eexists; split; [done|by eapply inf_stopped]|].
      destruct (decide (Z.of_nat n < informerMaxRetries)); exists RunReturns; eexists; (split; [done|]);
        [by eapply inf_retry|eapply inf_gives_up; [done|done|lia]].
    + exists Wakes. eexists. split; [done|by eapply inf_wakes].
Qed.

(** ** Witness *)

(** Two crashes, then Stop. *)
Definition ex_go : list informer_go := [Launch; RunReturns; Wakes; RunReturns; CallsStop; Wakes; RunReturns].

Definition ex_did : list runner_event :=
  [RunInformer; Pause (5 * Second); RunInformer; Pause (10 * Second); RunInformer; CloseDone].

Lemma ex_go_run : informer_run ex_go ex_did (Informer.mk InfExited true true).
Proof.
  assert (forall evs tr s ev s', informer_run evs tr s -> informer_exec ev s = Some s' ->
    informer_run (evs ++ [ev]) (tr ++ did s ev s') s') as Hsnoc.
  { intros evs tr s ev s' Hr He. econstructor; [exact Hr|by apply informer_step_exec]. }
  pose proof (Hsnoc _ _ _ Launch _ inf_new eq_refl) as H1.
  pose proof (Hsnoc _ _ _ RunReturns _ H1 eq_refl) as H2. pose proof (Hsnoc _ _ _ Wakes _ H2 eq_refl) as H3.
  pose proof (Hsnoc _ _ _ RunReturns _ H3 eq_refl) as H4. pose proof (Hsnoc _ _ _ CallsStop _ H4 eq_refl) as H5.
  pose proof (Hsnoc _ _ _ Wakes _ H5 eq_refl) as H6. exact (Hsnoc _ _ _ RunReturns _ H6 eq_refl).
Qed.

Lemma informer_goroutine_ends_witness :
  (moves_of ex_go <= 7)%nat /\ (informerHealthy true true).1 <> false /\
  exists stopped rest, runInformerWithRecovery stopped = ex_did ++ rest.
Proof.
  destruct (informer_goroutine_ends ex_go ex_did _ ex_go_run) as (H1 & (stopped & rest & H2 & _) & H3 & _).
  split; [exact H1|]. split; [|by exists stopped, rest].
  intros H. destruct (proj1 H3 H) as [_ E]. discriminate E.
Defined.
