(* ===== verification/Polling.v ===== *)
(** * Polling collectors: the goroutine of internal/collector/metrics/server.go and gpu/collector.go

    The two collectors that poll have the same goroutine: [run] polls once,
    closes [synced], then polls at every tick until [stopCh] is closed or the
    context ends, and closes [done].  It is a step relation here, over the state
    of a collector given by the class [Poller]; [select] takes any branch that
    is ready. *)

From S2P Require Import Prelude GoNum GoStrings Registry.
Open Scope string_scope.
Open Scope list_scope.
Open Scope Z_scope.

(** What the goroutine needs of a collector: [poll], with what the outside
    answers to it, and the reports the registry asks for. *)
Class Poller (S A : Type) := {
  poller_name : string;
  poller_exited : string;                        (* the text of IsHealthy *)
  poll : A -> S -> S;
  call_stats : S -> int64 * int64;
  target_stats : S -> option (int * int) }.
#[export] Hint Mode Poller ! - : typeclass_instances.

(** Where the goroutine is: not launched, before its first poll, at the select,
    returned. *)
Inductive phase := NotStarted | Launched | Selecting | Exited.

#[export] Instance phase_eq_dec : EqDecision phase.
Proof. solve_decision. Defined.

(** A collector with its channels: closed or not. *)
Module Polling.
Record t (S : Type) := mk {
  at_ : phase;
  synced : bool;
  stopCh : bool;
  done : bool;
  ctx_done : bool;
  data : S }.
Arguments mk {S} _ _ _ _ _ _.
Arguments at_ {S} _.
Arguments synced {S} _.
Arguments stopCh {S} _.
Arguments done {S} _.
Arguments ctx_done {S} _.
Arguments data {S} _.
#[export] Instance eta {S} : Eta (t S) :=
  fun r => mk r.(at_) r.(synced) r.(stopCh) r.(done) r.(ctx_done) r.(data).
End Polling.
Export (hints) Polling.

Inductive poll_event (A : Type) : Type :=
  | CallStart
  | DoPoll (answer : A)
  | CallStop
  | ContextDone
  | Return.
Arguments CallStart {A}.
Arguments DoPoll {A} _.
Arguments CallStop {A}.
Arguments ContextDone {A}.
Arguments Return {A}.

Section PollLoop.
Context {S A : Type} `{Poller S A}.
Implicit Types (s : Polling.t S) (ev : poll_event A).

Definition new_poller (data : S) : Polling.t S := Polling.mk NotStarted false false false false data.

(** [Start] launches the goroutine, [Stop] closes [stopCh] (closing it twice
    panics: no step), and the goroutine polls or returns. *)
Inductive step : Polling.t S -> poll_event A -> Polling.t S -> Prop :=
  | step_start s :
      s.(Polling.at_) = NotStarted -> step s CallStart (s <| Polling.at_ := Launched |>)
  | step_first s a :
      s.(Polling.at_) = Launched ->
      step s (DoPoll a) (s <| Polling.data := poll a s.(Polling.data) |>
                           <| Polling.synced := true |> <| Polling.at_ := Selecting |>)
  | step_tick s a :
      s.(Polling.at_) = Selecting ->
      step s (DoPoll a) (s <| Polling.data := poll a s.(Polling.data) |>)
  | step_stop s :
      s.(Polling.stopCh) = false -> step s CallStop (s <| Polling.stopCh := true |>)
  | step_context s :
      step s ContextDone (s <| Polling.ctx_done := true |>)
  | step_return s :
      s.(Polling.at_) = Selecting -> s.(Polling.stopCh) || s.(Polling.ctx_done) = true ->
      step s Return (s <| Polling.done := true |> <| Polling.at_ := Exited |>).

(** The same as a function: [None] when the event cannot happen. *)
Definition exec ev s : option (Polling.t S) :=
  match ev with
  | CallStart => if decide (s.(Polling.at_) = NotStarted) then Some (s <| Polling.at_ := Launched |>) else None
  | DoPoll a =>
      let s' := s <| Polling.data := poll a s.(Polling.data) |> in
      match s.(Polling.at_) with
      | Launched => Some (s' <| Polling.synced := true |> <| Polling.at_ := Selecting |>)
      | Selecting => Some s'
      | _ => None
      end
  | CallStop => if s.(Polling.stopCh) then None else Some (s <| Polling.stopCh := true |>)
  | ContextDone => Some (s <| Polling.ctx_done := true |>)
  | Return =>
      if decide (s.(Polling.at_) = Selecting) then
        if s.(Polling.stopCh) || s.(Polling.ctx_done)
        then Some (s <| Polling.done := true |> <| Polling.at_ := Exited |>) else None
      else None
  end.

(** A run: the events in order. *)
Inductive run : Polling.t S -> list (poll_event A) -> Polling.t S -> Prop :=
  | run_nil s : run s [] s
  | run_cons s ev s' evs s'' : step s ev s' -> run s' evs s'' -> run s (ev :: evs) s''.

(** The events of the goroutine itself. *)
Definition goroutine_event ev : bool := match ev with DoPoll _ | Return => true | _ => false end.

(** [WaitForSync] returns nil once [synced] is closed; [IsHealthy]. *)
Definition poller_healthy s : bool * string :=
  if s.(Polling.done) then if s.(Polling.stopCh) then (true, "") else (false, poller_exited (S := S))
  else (true, "").

(** What the registry sees: [wait_err] is the context's error when it ends
    before [synced]; Stop returns when the goroutine does. *)
Definition poller_collector (wait_err : string) s : Collector.t := {|
  Collector.Name := poller_name (S := S);
  Collector.Start := None;
  Collector.WaitForSync := if s.(Polling.synced) then None else Some wait_err;
  Collector.StopReturns := bool_decide (s.(Polling.at_) <> NotStarted);
  Collector.IsHealthy := Some (poller_healthy s);
  Collector.APICallStats := Some (call_stats s.(Polling.data));
  Collector.DCGMTargetStats := target_stats s.(Polling.data) |}.

(** The answers of the polls of a run. *)
Definition polled (evs : list (poll_event A)) : list A :=
  omap (fun ev => match ev with DoPoll a => Some a | _ => None end) evs.

(** ** Lemmas *)

Lemma step_exec s ev s' : step s ev s' <-> exec ev s = Some s'.
Proof.
  split.
  - destruct 1 as [s E|s a E|s a E|s E|s|s E E']; cbn [exec].
    + by rewrite decide_True.
    + by rewrite E.
    + by rewrite E.
    + by rewrite E.
    + done.
    + by rewrite decide_True, E'.
  - destruct ev; cbn [exec]; intros Hs.
    + case_decide; [|done]. injection Hs as <-. by constructor.
    + destruct (Polling.at_ s) eqn:E; try done; injection Hs as <-; by constructor.
    + destruct (Polling.stopCh s) eqn:E; [done|]. injection Hs as <-. by constructor.
    + injection Hs as <-. constructor.
    + case_decide; [|done]. destruct (_ || _) eqn:E; [|done]. injection Hs as <-. by constructor.
Qed.

Lemma run_snoc s evs s' ev s'' : run s evs s' -> step s' ev s'' -> run s (evs ++ [ev]) s''.
Proof. induction 1; intros; simpl; econstructor; eauto using run. Qed.

(** What a collector's channels say of where its goroutine is. *)
Definition poll_inv s : Prop :=
  s.(Polling.done) = bool_decide (s.(Polling.at_) = Exited) /\
  s.(Polling.synced) = bool_decide (s.(Polling.at_) = Selecting \/ s.(Polling.at_) = Exited) /\
  (s.(Polling.at_) = Exited -> s.(Polling.stopCh) || s.(Polling.ctx_done) = true).

Lemma poll_inv_step s ev s' : poll_inv s -> step s ev s' -> poll_inv s'.
Proof.
  unfold poll_inv. intros (Hd & Hs & Hx) Hstep.
  destruct Hstep as [s E|s a E|s a E|s E|s|s E E']; destruct s as [p sy st dn cx d]; cbn in *; subst;
    split_and!; try done.
  by rewrite orb_true_r.
Qed.

Lemma poll_inv_run s evs s' : poll_inv s -> run s evs s' -> poll_inv s'.
Proof. intros Hi Hr. induction Hr; [done|]. eauto using poll_inv_step. Qed.

Lemma poll_inv_new data : poll_inv (new_poller data).
Proof. split_and!; done. Qed.

(** The data is that of the polls, in order. *)
Lemma run_data s evs s' :
  run s evs s' -> s'.(Polling.data) = foldl (fun d a => poll a d) s.(Polling.data) (polled evs).
Proof.
  induction 1 as [|s ev s' evs s'' Hs _ IH]; [done|]. rewrite IH.
  destruct Hs; reflexivity.
Qed.

(** [synced] is closed by the first poll. *)
Lemma run_synced s evs s' :
  run s evs s' -> poll_inv s ->
  s'.(Polling.synced) = s.(Polling.synced) || match polled evs with [] => false | _ => true end.
Proof.
  induction 1 as [|s ev s' evs s'' Hs Hr IH]; intros Hi; [by rewrite orb_false_r|].
  rewrite (IH (poll_inv_step _ _ _ Hi Hs)). destruct Hi as (_ & Hsy & _).
  destruct Hs as [s E|s a E|s a E|s E|s|s E E']; cbn; try reflexivity.
  - by rewrite orb_true_r.
  - rewrite Hsy, E. done.
Qed.

(** Where the goroutine goes on its own: it is not relaunched, and closed
    channels stay closed. *)
Lemma goroutine_step s ev s' :
  step s ev s' -> goroutine_event ev = true ->
  s'.(Polling.stopCh) = s.(Polling.stopCh) /\ s.(Polling.at_) <> NotStarted /\ s'.(Polling.at_) <> NotStarted.
Proof. destruct 1; try done; intros _; cbn; by destruct s; cbn in *; subst. Qed.

Lemma goroutine_run s evs s' :
  run s evs s' -> forallb goroutine_event evs = true -> s.(Polling.at_) <> NotStarted ->
  s'.(Polling.stopCh) = s.(Polling.stopCh) /\ s'.(Polling.at_) <> NotStarted.
Proof.
  induction 1 as [|s ev s' evs s'' Hs _ IH]; [done|]. cbn [forallb].
  intros [He Hes]%andb_true_iff _. destruct (goroutine_step _ _ _ Hs He) as (<- & _ & Hn). by apply IH.
Qed.

(** A goroutine that is told to stop can return, after at most one more poll. *)
Lemma stop_path s (a : A) :
  s.(Polling.stopCh) = true -> s.(Polling.at_) <> NotStarted ->
  exists evs' s', run s evs' s' /\ (length (polled evs') <= 1)%nat /\
    forallb goroutine_event evs' = true /\ s'.(Polling.at_) = Exited.
Proof.
  intros Hst Hns.
  assert (forall s1, s1.(Polling.at_) = Selecting -> s1.(Polling.stopCh) = true ->
    step s1 Return (s1 <| Polling.done := true |> <| Polling.at_ := Exited |>)) as Hret
    by (intros s1 E1 E2; constructor; [done|by rewrite E2]).
  destruct (Polling.at_ s) eqn:E; [done| | |].
  - eexists [DoPoll a; Return], _. split_and!; [|done|done|].
    + econstructor; [by apply step_first|]. econstructor; [by apply Hret|constructor].
    + done.
  - eexists [Return], _. split_and!; [|simpl; lia|done|].
    + econstructor; [by apply Hret|constructor].
    + done.
  - exists [], s. split_and!; [constructor|simpl; lia|done..].
Qed.

(** ** Properties *)

(** What the registry learns of a polling collector is what its goroutine
    did, in every run: its data is that of its polls in order; it counts as
    synced from the end of its first poll on, whatever the poll was answered;
    it is unhealthy exactly when the goroutine has returned without Stop, which
    only the end of the context explains; after it has returned no event
    changes the data. *)
Theorem polling_reports data evs s :
  run (new_poller data) evs s ->
  s.(Polling.data) = foldl (fun d a => poll a d) data (polled evs) /\
  (s.(Polling.synced) = true <-> polled evs <> []) /\
  ((poller_healthy s).1 = false <-> s.(Polling.at_) = Exited /\ s.(Polling.stopCh) = false) /\
  ((poller_healthy s).1 = false -> s.(Polling.ctx_done) = true) /\
  (s.(Polling.at_) = Exited -> forall ev s', step s ev s' -> s'.(Polling.data) = s.(Polling.data)).
Proof.
  intros Hr. destruct (poll_inv_run _ _ _ (poll_inv_new data) Hr) as (Hd & Hs & Hx).
  assert ((poller_healthy s).1 = false <-> s.(Polling.at_) = Exited /\ s.(Polling.stopCh) = false) as Hh.
  { unfold poller_healthy. rewrite Hd.
    destruct (decide (s.(Polling.at_) = Exited)) as [E|E];
      [rewrite bool_decide_eq_true_2 by done|rewrite bool_decide_eq_false_2 by done];
      destruct (Polling.stopCh s); cbn; (split; [intros ?|intros [? ?]]); try split; done. }
  split_and!; [exact (run_data _ _ _ Hr)| |exact Hh| |].
  - rewrite (run_synced _ _ _ Hr (poll_inv_new data)). by destruct (polled evs).
  - intros Hf. apply Hh in Hf as [Ha Hst]. specialize (Hx Ha). by rewrite Hst in Hx.
  - intros Ha ev s' Hst. destruct Hst; cbn in *; congruence.
Qed.

(** Stop comes to an end: once a started collector has been told to stop, its
    goroutine can reach its return in at most one more poll, and whatever it
    does on its own, it is never stuck before it: a run of polls and returns
    that cannot be continued has returned, with [done], which Stop waits for,
    closed. *)
Theorem polling_stop_ends data evs s (a : A) :
  run (new_poller data) evs s -> s.(Polling.stopCh) = true -> s.(Polling.at_) <> NotStarted ->
  (exists evs' s', run s evs' s' /\ (length (polled evs') <= 1)%nat /\
     forallb goroutine_event evs' = true /\ s'.(Polling.at_) = Exited) /\
  (forall evs' s', run s evs' s' -> forallb goroutine_event evs' = true ->
     (forall ev s'', goroutine_event ev = true -> ~ step s' ev s'') ->
     s'.(Polling.at_) = Exited /\ s'.(Polling.done) = true).
Proof.
  intros Hr Hst Hns. split; [by apply stop_path|].
  intros evs' s' Hr' Hg Hstuck. destruct (goroutine_run _ _ _ Hr' Hg Hns) as (Hst' & Hns').
  destruct (poll_inv_run _ _ _ (poll_inv_run _ _ _ (poll_inv_new data) Hr) Hr') as (Hd & _ & _).
  destruct (Polling.at_ s') eqn:E; [done| | |].
  - destruct (Hstuck (DoPoll a) _ eq_refl (step_first s' a E)).
  - exfalso. eapply (Hstuck Return); [done|]. apply step_return; [done|]. by rewrite Hst', Hst.
  - by rewrite Hd.
Qed.
End PollLoop.
