(* ===== verification/Pollers.v ===== *)
(** * The polling collectors: internal/collector/metrics/server.go, and gpu/collector.go

    The poll of the metrics-server and its stores, and the two instances of
    [Poller]. *)

From S2P Require Import Prelude GoNum GoStrings Model Store K8s ConvertHelpers.
From S2P Require Import Dcgm Registry Polling.
Open Scope string_scope.
Open Scope list_scope.
Open Scope Z_scope.

(** ** What the metrics API lists *)

Module NodeUsage.
Record t := mk { Name : string; Timestamp : Time; Usage : ResourceList }.
End NodeUsage.

Module ContainerUsage.
Record t := mk { Name : string; Usage : ResourceList }.
End ContainerUsage.

Module PodUsage.
Record t := mk {
  Name : string;
  Namespace : string;
  Timestamp : Time;
  Containers : list ContainerUsage.t }.
End PodUsage.

(** ** The collector *)

Module MetricsCollector.
Record t := mk {
  metricsStore : MetricsStore.t;
  LastMetricsCollectMs : int64;
  pollTotal : int64;
  pollFailed : int64 }.
#[export] Instance eta : Eta t := fun r => mk r.(metricsStore) r.(LastMetricsCollectMs)
  r.(pollTotal) r.(pollFailed).

Definition NewMetricsCollector (ms : MetricsStore.t) : t := mk ms 0 0 0.

Definition node_metrics (nm : NodeUsage.t) : NodeMetrics.t :=
  NodeMetrics.mk nm.(NodeUsage.Name) (ParseQuantity (mget Quantity.zero nm.(NodeUsage.Usage) "cpu"))
    (mget Quantity.zero nm.(NodeUsage.Usage) "memory").(Quantity.Value)
    (unix_milli nm.(NodeUsage.Timestamp)).

Definition container_metrics (cm : ContainerUsage.t) : ContainerMetrics.t :=
  ContainerMetrics.mk cm.(ContainerUsage.Name)
    (ParseQuantity (mget Quantity.zero cm.(ContainerUsage.Usage) "cpu"))
    (mget Quantity.zero cm.(ContainerUsage.Usage) "memory").(Quantity.Value).

Definition pod_metrics (pm : PodUsage.t) : PodMetrics.t :=
  PodMetrics.mk pm.(PodUsage.Name) pm.(PodUsage.Namespace)
    (container_metrics <$> pm.(PodUsage.Containers)) (unix_milli pm.(PodUsage.Timestamp)).

Definition pod_metrics_key (pm : PodUsage.t) : string := ns_name pm.(PodUsage.Namespace) pm.(PodUsage.Name).

(** [ListNodeMetrics] answers the items, each with the clock reading its Set
    takes, or an error. *)
Definition pollNodeMetrics (answer : option (list (Time * NodeUsage.t))) (c : t) : t :=
  let c := c <| pollTotal := add64 c.(pollTotal) 1 |> in
  match answer with
  | None => c <| pollFailed := add64 c.(pollFailed) 1 |>
  | Some items =>
      let ms := c.(metricsStore) in
      let nodes := foldl (fun ts '(now, nm) => TypedStore.Set_ now nm.(NodeUsage.Name) (node_metrics nm) ts)
                     ms.(MetricsStore.NodeMetrics) items in
      c <| metricsStore := ms <| MetricsStore.NodeMetrics := nodes |> |>
  end.

Definition pollPodMetrics (answer : option (list (Time * PodUsage.t))) (c : t) : t :=
  let c := c <| pollTotal := add64 c.(pollTotal) 1 |> in
  match answer with
  | None => c <| pollFailed := add64 c.(pollFailed) 1 |>
  | Some items =>
      let ms := c.(metricsStore) in
      let pods := foldl (fun ts '(now, pm) => TypedStore.Set_ now (pod_metrics_key pm) (pod_metrics pm) ts)
                    ms.(MetricsStore.PodMetrics) items in
      c <| metricsStore := ms <| MetricsStore.PodMetrics := pods |> |>
  end.

(** What one poll meets: the clock before and after, the two answers. *)
Record answers := mkAnswers {
  start : Time;
  nodes : option (list (Time * NodeUsage.t));
  pods : option (list (Time * PodUsage.t));
  finish : Time }.

(** [elapsed.Milliseconds()] truncates. *)
Definition poll (a : answers) (c : t) : t :=
  let c := pollPodMetrics a.(pods) (pollNodeMetrics a.(nodes) c) in
  c <| LastMetricsCollectMs := Z.quot (time_sub a.(finish) a.(start)) Millisecond |>.

Definition APICallStats (c : t) : int64 * int64 := (c.(pollTotal), c.(pollFailed)).
End MetricsCollector.
Export (hints) MetricsCollector.

(** ** The instances *)

#[export] Instance MetricsPoller : Poller MetricsCollector.t MetricsCollector.answers := {|
  poller_name := "metrics";
  poller_exited := "metrics polling goroutine exited unexpectedly";
  poll := MetricsCollector.poll;
  call_stats := MetricsCollector.APICallStats;
  target_stats := fun _ => None |}.

(** A poll of the GPU collector is answered the endpoints, the scrape and the
    clock after it. *)
#[export] Instance GPUPoller :
    Poller GPUMetricsCollector.t ((list string -> option (list GPUDeviceMetrics.t)) * list string * Time) := {|
  poller_name := "gpu";
  poller_exited := "GPU metrics polling goroutine exited unexpectedly";
  poll := fun '(api, endpoints, now) => GPUMetricsCollector.poll api endpoints now;
  call_stats := GPUMetricsCollector.APICallStats;
  target_stats := fun c => Some (GPUMetricsCollector.DCGMTargetStats c) |}.

(** ** Lemmas *)

Section SetAll.
Context {X T : Type} (key : X -> string) (value : X -> T).

(** A loop of Sets leaves under a key the value of the last item of that key. *)
Lemma Get_set_all (items : list (Time * X)) (ts : TypedStore.t T) k :
  TypedStore.Get k (foldl (fun ts '(now, x) => TypedStore.Set_ now (key x) (value x) ts) ts items) =
    match last (filter (fun x => key x = k) items.*2) with
    | Some x => Some (value x)
    | None => TypedStore.Get k ts
    end.
Proof.
  induction items as [|[now x] items IH] using rev_ind; [done|].
  rewrite foldl_app, fmap_app, filter_app. cbn [foldl fmap list_fmap snd]. rewrite Get_Set, IH.
  rewrite filter_cons, filter_nil. destruct (decide (key x = k)).
  - by rewrite last_snoc.
  - by rewrite app_nil_r.
Qed.
End SetAll.

(** The items of the answered lists, oldest first. *)
Definition listed {X} (as_ : list (option (list (Time * X)))) : list X := ((concat (omap id as_)).*2).

Lemma listed_snoc {X} as_ (a : option (list (Time * X))) :
  listed (as_ ++ [a]) = listed as_ ++ match a with Some l => l.*2 | None => [] end.
Proof.
  unfold listed. rewrite omap_app, concat_app, fmap_app. f_equal. destruct a; cbn; [by rewrite app_nil_r|done].
Qed.

(** The failures of a list of answers. *)
Definition failures {X} (as_ : list (option (list (Time * X)))) : Z :=
  sumZ (fun a => match a with Some _ => 0 | None => 1 end) as_.

(** The history of a run of polls. *)
Definition nodes_of (as_ : list MetricsCollector.answers) := MetricsCollector.nodes <$> as_.
Definition pods_of_polls (as_ : list MetricsCollector.answers) := MetricsCollector.pods <$> as_.

Lemma nodes_of_snoc as_ a : nodes_of (as_ ++ [a]) = nodes_of as_ ++ [a.(MetricsCollector.nodes)].
Proof. exact (fmap_app _ as_ [a]). Qed.

Lemma pods_of_polls_snoc as_ a :
  pods_of_polls (as_ ++ [a]) = pods_of_polls as_ ++ [a.(MetricsCollector.pods)].
Proof. exact (fmap_app _ as_ [a]). Qed.

Section History.
Context (now : Time).

Definition new_metrics : MetricsCollector.t :=
  MetricsCollector.NewMetricsCollector (MetricsStore.NewMetricsStore now).

Definition after_polls (as_ : list MetricsCollector.answers) : MetricsCollector.t :=
  foldl (fun c a => MetricsCollector.poll a c) new_metrics as_.

Lemma after_polls_snoc as_ a :
  after_polls (as_ ++ [a]) = MetricsCollector.poll a (after_polls as_).
Proof. unfold after_polls. by rewrite foldl_app. Qed.

(** One poll, store by store and counter by counter. *)
Lemma poll_nodes a c k :
  TypedStore.Get k (MetricsCollector.poll a c).(MetricsCollector.metricsStore).(MetricsStore.NodeMetrics) =
    match a.(MetricsCollector.nodes) with
    | Some items =>
        match last (filter (fun nm => nm.(NodeUsage.Name) = k) items.*2) with
        | Some nm => Some (MetricsCollector.node_metrics nm)
        | None => TypedStore.Get k c.(MetricsCollector.metricsStore).(MetricsStore.NodeMetrics)
        end
    | None => TypedStore.Get k c.(MetricsCollector.metricsStore).(MetricsStore.NodeMetrics)
    end.
Proof.
  destruct a as [s0 [ns|] [ps|] f0]; cbn [MetricsCollector.nodes]; try reflexivity;
    exact (Get_set_all NodeUsage.Name MetricsCollector.node_metrics ns _ k).
Qed.

Lemma poll_pods a c k :
  TypedStore.Get k (MetricsCollector.poll a c).(MetricsCollector.metricsStore).(MetricsStore.PodMetrics) =
    match a.(MetricsCollector.pods) with
    | Some items =>
        match last (filter (fun pm => MetricsCollector.pod_metrics_key pm = k) items.*2) with
        | Some pm => Some (MetricsCollector.pod_metrics pm)
        | None => TypedStore.Get k c.(MetricsCollector.metricsStore).(MetricsStore.PodMetrics)
        end
    | None => TypedStore.Get k c.(MetricsCollector.metricsStore).(MetricsStore.PodMetrics)
    end.
Proof.
  destruct a as [s0 [ns|] [ps|] f0]; cbn [MetricsCollector.pods]; try reflexivity;
    exact (Get_set_all MetricsCollector.pod_metrics_key MetricsCollector.pod_metrics ps _ k).
Qed.

Lemma poll_calls a c :
  MetricsCollector.APICallStats (MetricsCollector.poll a c) =
    (add64 (add64 c.(MetricsCollector.pollTotal) 1) 1,
     let f1 := match a.(MetricsCollector.nodes) with
               | Some _ => c.(MetricsCollector.pollFailed)
               | None => add64 c.(MetricsCollector.pollFailed) 1
               end in
     match a.(MetricsCollector.pods) with Some _ => f1 | None => add64 f1 1 end).
Proof. by destruct a as [s0 [ns|] [ps|] f0]. Qed.

Lemma history_nodes as_ k :
  TypedStore.Get k (after_polls as_).(MetricsCollector.metricsStore).(MetricsStore.NodeMetrics) =
    MetricsCollector.node_metrics
      <$> last (filter (fun nm => nm.(NodeUsage.Name) = k) (listed (nodes_of as_))).
Proof.
  induction as_ as [|a as_ IH] using rev_ind; [apply lookup_empty|].
  rewrite after_polls_snoc, poll_nodes, nodes_of_snoc, listed_snoc, filter_app.
  destruct (MetricsCollector.nodes a) as [items|]; [|by rewrite filter_nil, app_nil_r].
  rewrite last_app. destruct (last (filter _ items.*2)); [done|exact IH].
Qed.

Lemma history_pods as_ k :
  TypedStore.Get k (after_polls as_).(MetricsCollector.metricsStore).(MetricsStore.PodMetrics) =
    MetricsCollector.pod_metrics
      <$> last (filter (fun pm => pm.(PodUsage.Namespace) +:+ "/" +:+ pm.(PodUsage.Name) = k) (listed (pods_of_polls as_))).
Proof.
  induction as_ as [|a as_ IH] using rev_ind; [apply lookup_empty|].
  rewrite after_polls_snoc, poll_pods, pods_of_polls_snoc, listed_snoc, filter_app.
  destruct (MetricsCollector.pods a) as [items|]; [|by rewrite filter_nil, app_nil_r].
  rewrite last_app. destruct (last (filter _ items.*2)); [done|exact IH].
Qed.

Lemma history_calls as_ :
  MetricsCollector.APICallStats (after_polls as_) =
    (wrap64 (2 * Z.of_nat (length as_)), wrap64 (failures (nodes_of as_) + failures (pods_of_polls as_))).
Proof.
  induction as_ as [|a as_ IH] using rev_ind; [done|].
  rewrite after_polls_snoc, poll_calls. injection IH as Ht Hf. rewrite nodes_of_snoc, pods_of_polls_snoc.
  unfold failures in *. rewrite !sumZ_app, length_app, Ht, Hf. cbn [length sumZ foldr].
  unfold add64. f_equal.
  - rewrite wrap64_add_l, <- Z.add_assoc, wrap64_add_l. f_equal. lia.
  - destruct (MetricsCollector.nodes a), (MetricsCollector.pods a);
      rewrite ?wrap64_add_l, <- ?Z.add_assoc, ?wrap64_add_l; f_equal; lia.
Qed.
End History.

(** ** Properties *)

(** C28 In every run of the metrics-server collector its stores are the history of
    the lists it got: under a node's or pod's key is the usage of the last item
    of that key in any list so far.  A failed call leaves everything as it was,
    and so does being absent from a list: nothing is ever removed.  Two calls are
    counted per poll, and each failure as one. *)
Theorem metrics_store_history now evs (s : Polling.t MetricsCollector.t) :
  run (new_poller (new_metrics now)) evs s ->
  let c := s.(Polling.data) in
  (forall k, TypedStore.Get k c.(MetricsCollector.metricsStore).(MetricsStore.NodeMetrics) =
     MetricsCollector.node_metrics
       <$> last (filter (fun nm => nm.(NodeUsage.Name) = k) (listed (nodes_of (polled evs))))) /\
  (forall k, TypedStore.Get k c.(MetricsCollector.metricsStore).(MetricsStore.PodMetrics) =
     MetricsCollector.pod_metrics
       <$> last (filter (fun pm => pm.(PodUsage.Namespace) +:+ "/" +:+ pm.(PodUsage.Name) = k) (listed (pods_of_polls (polled evs))))) /\
  MetricsCollector.APICallStats c =
    (wrap64 (2 * Z.of_nat (length (polled evs))),
     wrap64 (failures (nodes_of (polled evs)) + failures (pods_of_polls (polled evs)))).
Proof.
  intros Hr c. pose proof (run_data _ _ _ Hr) as Hd. fold c in Hd. cbn in Hd.
  change (foldl _ (new_metrics now) _) with (after_polls now (polled evs)) in Hd. rewrite Hd.
  split_and!; [intros k; apply history_nodes|intros k; apply history_pods|apply history_calls].
Qed.

(** ** Witnesses *)

Definition ex_quantity (z : Z) : Quantity.t := Quantity.mk z (f64_of_Z z) (itoa z).

Definition ex_usage (cpu mem : Z) : ResourceList := Some {[ "cpu" := ex_quantity cpu; "memory" := ex_quantity mem ]}.

(** Two nodes are listed, then one is gone and the pod list fails. *)
Definition ex_answers1 : MetricsCollector.answers :=
  MetricsCollector.mkAnswers 0 (Some [(1, NodeUsage.mk "n1" 0 (ex_usage 2 100)); (2, NodeUsage.mk "n2" 0 (ex_usage 1 50))])
    (Some []) 5000000.

Definition ex_answers2 : MetricsCollector.answers :=
  MetricsCollector.mkAnswers 10 (Some [(11, NodeUsage.mk "n1" 10000000 (ex_usage 3 120))]) None 12.

Definition ex_poll_events : list (poll_event MetricsCollector.answers) :=
  [CallStart; DoPoll ex_answers1; DoPoll ex_answers2; CallStop].

Definition ex_polled : Polling.t MetricsCollector.t :=
  Polling.mk Selecting true true false false (after_polls 0 [ex_answers1; ex_answers2]).

Lemma ex_poll_run : run (new_poller (new_metrics 0)) ex_poll_events ex_polled.
Proof.
  unfold ex_poll_events.
  repeat (eapply run_cons; [apply step_exec; reflexivity|]). constructor.
Qed.

Lemma metrics_store_history_witness :
  let ms := (after_polls 0 [ex_answers1; ex_answers2]).(MetricsCollector.metricsStore) in
  NodeMetrics.MemoryUsageBytes <$> TypedStore.Get "n1" ms.(MetricsStore.NodeMetrics) = Some 120 /\
  NodeMetrics.MemoryUsageBytes <$> TypedStore.Get "n2" ms.(MetricsStore.NodeMetrics) = Some 50 /\
  MetricsCollector.APICallStats (after_polls 0 [ex_answers1; ex_answers2]) = (4, 1).
Proof.
  destruct (metrics_store_history 0 ex_poll_events ex_polled ex_poll_run) as (Hn & _ & Hc).
  cbv zeta. split_and!.
  - etrans; [exact (f_equal (fmap NodeMetrics.MemoryUsageBytes) (Hn "n1"))|]. vm_compute. reflexivity.
  - etrans; [exact (f_equal (fmap NodeMetrics.MemoryUsageBytes) (Hn "n2"))|]. vm_compute. reflexivity.
  - etrans; [exact Hc|]. vm_compute. reflexivity.
Defined.

Lemma polling_reports_witness :
  (poller_healthy ex_polled).1 <> false /\ ex_polled.(Polling.synced) = true.
Proof.
  destruct (polling_reports (new_metrics 0) ex_poll_events ex_polled ex_poll_run) as (_ & Hs & Hh & _).
  split.
  - intros E. destruct (proj1 Hh E) as [E1 _]. discriminate E1.
  - apply Hs. discriminate.
Defined.

Lemma polling_stop_ends_witness :
  exists evs' s', run ex_polled evs' s' /\ s'.(Polling.at_) = Exited.
Proof.
  destruct (polling_stop_ends (new_metrics 0) ex_poll_events ex_polled ex_answers1 ex_poll_run eq_refl)
    as ((evs' & s' & Hr & _ & _ & Ha) & _); [discriminate|].
  by exists evs', s'.
Defined.
