(* ===== verification/Collectors.v ===== *)
(** * The resource collectors: internal/collector/resource

    Every collector registers the same three handlers with a client-go informer:
    they convert the object and set or delete one key of one typed store, count
    the event and update the store's size gauge.  The handlers are defined once,
    against the interface [InformedResource] that says what a collector knows of
    its resource; an instance per collector discharges the interface's law. *)

From S2P Require Import Prelude GoNum GoStrings Model Store K8s.
From S2P Require Import ConvertHelpers ConvertNode ConvertPod ConvertWorkload.
From S2P Require Import ConvertCluster ConvertNetwork ConvertAutoscaling ConvertDynamic Registry.
Open Scope string_scope.
Open Scope list_scope.
Open Scope Z_scope.

(** ** Events *)

(** What a handler is called with: an object of the collector's type, the
    tombstone of a deletion that was missed (with an object of the type or
    something else), or anything else. *)
Inductive object (K : Type) : Type :=
  | Typed (o : K)
  | DeletedFinalStateUnknown (o : option K)
  | Foreign.
Arguments Typed {K} _.
Arguments DeletedFinalStateUnknown {K} _.
Arguments Foreign {K}.

Inductive informer_event (K : Type) : Type :=
  | OnAdd (obj : object K)
  | OnUpdate (old new : object K)
  | OnDelete (obj : object K).
Arguments OnAdd {K} _.
Arguments OnUpdate {K} _ _.
Arguments OnDelete {K} _.

(** ** State *)

(** The two metrics the handlers write: the event counter by resource and event,
    and the size gauge by resource. *)
Module EventMetrics.
Record t := mk {
  InformerEventsTotal : gmap (string * string) Z;
  StoreItems : gmap string int }.

Definition zero : t := mk ∅ ∅.

Definition count (resource event : string) (size : int) (m : t) : t :=
  mk (<[(resource, event) := default 0 (m.(InformerEventsTotal) !! (resource, event)) + 1]>
        m.(InformerEventsTotal))
     (<[resource := size]> m.(StoreItems)).
End EventMetrics.

(** What the handlers share: the store and the metrics. *)
Module Shared.
Record t := mk { store : Store.t; metrics : EventMetrics.t }.
End Shared.

(** ** The interface *)

(** The store key of an object: its name, after its namespace if it has one. *)
Definition meta_key (namespaced : bool) (m : ObjectMeta.t) : string :=
  if namespaced then ns_name m.(ObjectMeta.Namespace) m.(ObjectMeta.Name) else m.(ObjectMeta.Name).

(** What a collector knows of its resource: the label it reports under, whether
    the resource is namespaced, the conversion, and the key it derives from a
    converted object, which has to be the key it deletes by. *)
Class InformedResource (K T : Type) := {
  ir_field :: StoreField T;
  label : string;
  namespaced : bool;
  meta_of : K -> ObjectMeta.t;
  toModel : K -> T;
  info_key : T -> string;
  info_key_law : forall o, info_key (toModel o) = meta_key namespaced (meta_of o) }.
#[export] Hint Mode InformedResource ! - : typeclass_instances.
#[export] Hint Mode InformedResource - ! : typeclass_instances.

(** The key an object is stored and deleted under. *)
Definition obj_key {K T} `{InformedResource K T} (o : K) : string :=
  meta_key (namespaced (K := K)) (meta_of o).

Section Handlers.
Context {K T : Type} `{InformedResource K T}.

(** [c.store.X], the typed store of the resource, and the write of it. *)
Definition resource_store (s : Shared.t) : TypedStore.t T := sf_get s.(Shared.store).

Definition write_store (event : string) (ts : TypedStore.t T) (s : Shared.t) : Shared.t :=
  Shared.mk (sf_set ts s.(Shared.store))
    (EventMetrics.count (label (K := K)) event (TypedStore.Len ts) s.(Shared.metrics)).

(** [c.store.X.Set(key(info), info)] and the metrics. *)
Definition upsert (event : string) (now : Time) (o : K) (s : Shared.t) : Shared.t :=
  let info := toModel o in
  write_store event (TypedStore.Set_ now (info_key info) info (resource_store s)) s.

Definition AddFunc (now : Time) (obj : object K) (s : Shared.t) : Shared.t :=
  match obj with Typed o => upsert "add" now o s | _ => s end.

Definition UpdateFunc (now : Time) (newObj : object K) (s : Shared.t) : Shared.t :=
  match newObj with Typed o => upsert "update" now o s | _ => s end.

Definition DeleteFunc (now : Time) (obj : object K) (s : Shared.t) : Shared.t :=
  match obj with
  | Typed o | DeletedFinalStateUnknown (Some o) =>
      write_store "delete" (TypedStore.Delete now (obj_key o) (resource_store s)) s
  | _ => s
  end.

Definition handle (now : Time) (ev : informer_event K) (s : Shared.t) : Shared.t :=
  match ev with
  | OnAdd obj => AddFunc now obj s
  | OnUpdate _ newObj => UpdateFunc now newObj s
  | OnDelete obj => DeleteFunc now obj s
  end.

(** The calls of an informer, one after the other. *)
Definition handle_all (evs : list (Time * informer_event K)) (s : Shared.t) : Shared.t :=
  foldl (fun s '(now, ev) => handle now ev s) s evs.

(** What the registry sees of such a collector: Start fails when the handlers
    cannot be added and launches the informer's goroutine otherwise, and only
    then is [done], which Stop waits for, ever closed. *)
Definition informer_collector (addHandlerErr : option string) (synced stop_closed done_closed : bool) :
    Collector.t := {|
  Collector.Name := label (K := K);
  Collector.Start := (fun e => label (K := K) +:+ ": add event handler: " +:+ e) <$> addHandlerErr;
  Collector.WaitForSync := if synced then None else Some (label (K := K) +:+ " informer cache sync failed");
  Collector.StopReturns := match addHandlerErr with Some _ => false | None => true end;
  Collector.IsHealthy := Some (informerHealthy stop_closed done_closed);
  Collector.APICallStats := None;
  Collector.DCGMTargetStats := None |}.
End Handlers.

(** ** The collectors *)

Definition podKey (namespace name : string) : string := ns_name namespace name.

Definition nsNameKey (namespace name : string) : string := ns_name namespace name.

Section Instances.
Local Obligation Tactic := idtac.

#[export] Program Instance PodCollector : InformedResource Pod.t PodInfo.t := {|
  label := "pods"; namespaced := true; meta_of := Pod.Meta; toModel := PodToModel;
  info_key := fun i => podKey i.(PodInfo.Namespace) i.(PodInfo.Name) |}.
Next Obligation. intros o. unfold podKey. by destruct (PodToModel_meta o) as (-> & -> & _). Qed.

#[export] Program Instance NodeCollector : InformedResource Node.t NodeInfo.t := {|
  label := "nodes"; namespaced := false; meta_of := Node.Meta; toModel := NodeToModel;
  info_key := NodeInfo.Name |}.
Next Obligation. intros o. by destruct (NodeToModel_meta o) as (-> & _). Qed.

#[export] Program Instance DeploymentCollector : InformedResource Deployment.t DeploymentInfo.t := {|
  label := "deployments"; namespaced := true; meta_of := Deployment.Meta; toModel := DeploymentToModel;
  info_key := fun i => nsNameKey i.(DeploymentInfo.Namespace) i.(DeploymentInfo.Name) |}.
Next Obligation. intros o. unfold nsNameKey. by destruct (DeploymentToModel_meta o) as (-> & -> & _). Qed.

#[export] Program Instance StatefulSetCollector : InformedResource StatefulSet.t StatefulSetInfo.t := {|
  label := "statefulsets"; namespaced := true; meta_of := StatefulSet.Meta; toModel := StatefulSetToModel;
  info_key := fun i => nsNameKey i.(StatefulSetInfo.Namespace) i.(StatefulSetInfo.Name) |}.
Next Obligation. done. Qed.

#[export] Program Instance DaemonSetCollector : InformedResource DaemonSet.t DaemonSetInfo.t := {|
  label := "daemonsets"; namespaced := true; meta_of := DaemonSet.Meta; toModel := DaemonSetToModel;
  info_key := fun i => nsNameKey i.(DaemonSetInfo.Namespace) i.(DaemonSetInfo.Name) |}.
Next Obligation. done. Qed.

#[export] Program Instance ReplicaSetCollector : InformedResource ReplicaSet.t ReplicaSetInfo.t := {|
  label := "replicasets"; namespaced := true; meta_of := ReplicaSet.Meta; toModel := ReplicaSetToModel;
  info_key := fun i => nsNameKey i.(ReplicaSetInfo.Namespace) i.(ReplicaSetInfo.Name) |}.
Next Obligation. intros o. unfold nsNameKey. by destruct (ReplicaSetToModel_meta o) as (-> & ->). Qed.
#[export] Program Instance NamespaceCollector : InformedResource Namespace.t NamespaceInfo.t := {|
  label := "namespaces"; namespaced := false; meta_of := Namespace.Meta; toModel := NamespaceToModel;
  info_key := NamespaceInfo.Name |}.
Next Obligation. done. Qed.

#[export] Program Instance JobCollector : InformedResource Job.t JobInfo.t := {|
  label := "jobs"; namespaced := true; meta_of := Job.Meta; toModel := JobToModel;
  info_key := fun i => nsNameKey i.(JobInfo.Namespace) i.(JobInfo.Name) |}.
Next Obligation. done. Qed.

#[export] Program Instance CronJobCollector : InformedResource CronJob.t CronJobInfo.t := {|
  label := "cronjobs"; namespaced := true; meta_of := CronJob.Meta; toModel := CronJobToModel;
  info_key := fun i => nsNameKey i.(CronJobInfo.Namespace) i.(CronJobInfo.Name) |}.
Next Obligation. done. Qed.

#[export] Program Instance HPACollector : InformedResource HorizontalPodAutoscaler.t HPAInfo.t := {|
  label := "hpas"; namespaced := true; meta_of := HorizontalPodAutoscaler.Meta; toModel := HPAToModel;
  info_key := fun i => nsNameKey i.(HPAInfo.Namespace) i.(HPAInfo.Name) |}.
Next Obligation. done. Qed.

#[export] Program Instance PDBCollector : InformedResource PodDisruptionBudget.t PDBInfo.t := {|
  label := "pdbs"; namespaced := true; meta_of := PodDisruptionBudget.Meta; toModel := PDBToModel;
  info_key := fun i => nsNameKey i.(PDBInfo.Namespace) i.(PDBInfo.Name) |}.
Next Obligation. intros o. unfold nsNameKey, PDBToModel. by destruct (default _ _). Qed.

#[export] Program Instance ServiceCollector : InformedResource Service.t ServiceInfo.t := {|
  label := "services"; namespaced := true; meta_of := Service.Meta; toModel := ServiceToModel;
  info_key := fun i => nsNameKey i.(ServiceInfo.Namespace) i.(ServiceInfo.Name) |}.
Next Obligation. done. Qed.

#[export] Program Instance IngressCollector : InformedResource Ingress.t IngressInfo.t := {|
  label := "ingresses"; namespaced := true; meta_of := Ingress.Meta; toModel := IngressToModel;
  info_key := fun i => nsNameKey i.(IngressInfo.Namespace) i.(IngressInfo.Name) |}.
Next Obligation. done. Qed.

#[export] Program Instance PVCollector : InformedResource PersistentVolume.t PVInfo.t := {|
  label := "pvs"; namespaced := false; meta_of := PersistentVolume.Meta; toModel := PVToModel;
  info_key := PVInfo.Name |}.
Next Obligation. done. Qed.

#[export] Program Instance PVCCollector : InformedResource PersistentVolumeClaim.t PVCInfo.t := {|
  label := "pvcs"; namespaced := true; meta_of := PersistentVolumeClaim.Meta; toModel := PVCToModel;
  info_key := fun i => nsNameKey i.(PVCInfo.Namespace) i.(PVCInfo.Name) |}.
Next Obligation. done. Qed.

#[export] Program Instance StorageClassCollector : InformedResource StorageClass.t StorageClassInfo.t := {|
  label := "storageclasses"; namespaced := false; meta_of := StorageClass.Meta; toModel := StorageClassToModel;
  info_key := StorageClassInfo.Name |}.
Next Obligation. done. Qed.

#[export] Program Instance PriorityClassCollector : InformedResource PriorityClass.t PriorityClassInfo.t := {|
  label := "priorityclasses"; namespaced := false; meta_of := PriorityClass.Meta; toModel := PriorityClassToModel;
  info_key := PriorityClassInfo.Name |}.
Next Obligation. done. Qed.

#[export] Program Instance LimitRangeCollector : InformedResource LimitRange.t LimitRangeInfo.t := {|
  label := "limitranges"; namespaced := true; meta_of := LimitRange.Meta; toModel := LimitRangeToModel;
  info_key := fun i => nsNameKey i.(LimitRangeInfo.Namespace) i.(LimitRangeInfo.Name) |}.
Next Obligation. done. Qed.

#[export] Program Instance ResourceQuotaCollector : InformedResource ResourceQuota.t ResourceQuotaInfo.t := {|
  label := "resourcequotas"; namespaced := true; meta_of := ResourceQuota.Meta; toModel := ResourceQuotaToModel;
  info_key := fun i => nsNameKey i.(ResourceQuotaInfo.Namespace) i.(ResourceQuotaInfo.Name) |}.
Next Obligation. done. Qed.

#[export] Program Instance NodePoolCollector : InformedResource NodePool.t NodePoolInfo.t := {|
  label := "nodepools"; namespaced := false; meta_of := NodePool.Meta;
  toModel := fun o => nodePoolToModel o.(NodePool.Obj); info_key := NodePoolInfo.Name |}.
Next Obligation. done. Qed.

(** Not an instance: it depends on the parser of quantities. *)
Program Definition VPACollector (parse : string -> option Quantity.t) :
    InformedResource VerticalPodAutoscaler.t VPAInfo.t := {|
  label := "vpas"; namespaced := true; meta_of := VerticalPodAutoscaler.Meta;
  toModel := fun o => VPAToModel parse o.(VerticalPodAutoscaler.Obj);
  info_key := fun i => nsNameKey i.(VPAInfo.Namespace) i.(VPAInfo.Name) |}.
Next Obligation. done. Qed.
End Instances.

(** ** The cluster an informer reports *)

(** The object an event is about, and whether it is present afterwards; a call
    with a foreign object is about none. *)
Definition observed {K} (ev : informer_event K) : option (K * bool) :=
  match ev with
  | OnAdd (Typed o) | OnUpdate _ (Typed o) => Some (o, true)
  | OnDelete (Typed o) | OnDelete (DeletedFinalStateUnknown (Some o)) => Some (o, false)
  | _ => None
  end.

(** The latest object the events leave under a key; the latest event comes
    first. *)
Fixpoint live {K} (key : K -> string) (k : string) (evs : list (Time * informer_event K)) : option K :=
  match evs with
  | [] => None
  | (_, ev) :: evs =>
      match observed ev with
      | Some (o, present) =>
          if decide (key o = k) then (if present : bool then Some o else None) else live key k evs
      | None => live key k evs
      end
  end.

(** ** Lemmas *)

Section Mirror.
Context {K T : Type} `{InformedResource K T}.
Implicit Types (evs : list (Time * informer_event K)) (ev : informer_event K) (s : Shared.t) (o : K).

Lemma handle_all_snoc evs now ev s :
  handle_all (evs ++ [(now, ev)]) s = handle now ev (handle_all evs s).
Proof. unfold handle_all. by rewrite foldl_app. Qed.

Lemma resource_store_write event (ts : TypedStore.t T) s : resource_store (write_store event ts s) = ts.
Proof. apply sf_get_set. Qed.

(** A handler writes the typed store of its resource and nothing else. *)
Lemma handle_frame now ev s :
  exists ts : TypedStore.t T, (handle now ev s).(Shared.store) = sf_set ts s.(Shared.store).
Proof.
  unfold handle, AddFunc, UpdateFunc, DeleteFunc, upsert, write_store.
  destruct ev as [[o| |]|old [o| |]|[o|[o|]|]]; cbn [Shared.store];
    (eexists; reflexivity) || (eexists; symmetry; apply sf_set_get).
Qed.

Lemma handle_all_frame evs s :
  exists ts : TypedStore.t T, (handle_all evs s).(Shared.store) = sf_set ts s.(Shared.store).
Proof.
  induction evs as [|[now ev] evs IH] using rev_ind; [eexists; symmetry; apply sf_set_get|].
  rewrite handle_all_snoc. destruct IH as [ts IH].
  destruct (handle_frame now ev (handle_all evs s)) as [ts' ->].
  exists ts'. by rewrite IH, sf_set_set.
Qed.

Lemma Get_handle now ev s k :
  TypedStore.Get k (resource_store (handle now ev s)) =
    match observed ev with
    | Some (o, present) =>
        if decide (obj_key o = k) then (if present : bool then Some (toModel o) else None)
        else TypedStore.Get k (resource_store s)
    | None => TypedStore.Get k (resource_store s)
    end.
Proof.
  unfold handle, AddFunc, UpdateFunc, DeleteFunc, upsert, obj_key.
  destruct ev as [[o| |]|old [o| |]|[o|[o|]|]]; cbn [observed]; try reflexivity;
    rewrite resource_store_write, ?Get_Set, ?Get_Delete, ?info_key_law; reflexivity.
Qed.

Lemma Get_handle_all evs s k :
  TypedStore.Get k (resource_store (T := T) s) = None ->
  TypedStore.Get k (resource_store (handle_all evs s)) = toModel <$> live obj_key k (reverse evs).
Proof.
  intros H0. induction evs as [|[now ev] evs IH] using rev_ind; [done|].
  rewrite handle_all_snoc, reverse_snoc, Get_handle. cbn [live].
  destruct (observed ev) as [[o present]|]; [|done]. case_decide; [|done]. by destruct present.
Qed.

(** Once an event has been handled the gauge is the size of the store. *)
Lemma gauge_handle now ev s :
  (handle now ev s).(Shared.metrics).(EventMetrics.StoreItems) !! label (K := K) =
    match observed ev with
    | Some _ => Some (TypedStore.Len (resource_store (T := T) (handle now ev s)))
    | None => s.(Shared.metrics).(EventMetrics.StoreItems) !! label (K := K)
    end.
Proof.
  unfold handle, AddFunc, UpdateFunc, DeleteFunc, upsert.
  destruct ev as [[o| |]|old [o| |]|[o|[o|]|]]; cbn [observed]; try reflexivity;
    rewrite resource_store_write; apply lookup_insert_eq.
Qed.

Lemma handle_unobserved now ev s : observed ev = None -> handle now ev s = s.
Proof. by destruct ev as [[o| |]|old [o| |]|[o|[o|]|]]. Qed.

Lemma gauge_handle_all evs s ev :
  ev ∈ evs.*2 -> observed ev ≠ None ->
  (handle_all evs s).(Shared.metrics).(EventMetrics.StoreItems) !! label (K := K) =
    Some (TypedStore.Len (resource_store (T := T) (handle_all evs s))).
Proof.
  induction evs as [|[now ev'] evs IH] using rev_ind; [by intros ?%not_elem_of_nil|].
  rewrite fmap_app, elem_of_app, handle_all_snoc, gauge_handle.
  intros Hev Hobs. destruct (observed ev') as [p|] eqn:E; [done|].
  rewrite handle_unobserved by done. destruct Hev as [Hev|Hev]; [by apply IH|].
  apply list_elem_of_singleton in Hev as ->. done.
Qed.

(** ** Properties *)

(** C9 A collector's store mirrors the cluster its informer reports: whatever
    events came, under every key it holds the conversion of the object last
    added or updated under it, unless a deletion (a tombstone included) came
    later; calls with objects of another type change nothing.  The other typed
    stores are untouched, and the size gauge is the size of the store as soon as
    one event counted. *)
Theorem collector_mirrors_cluster evs s :
  (forall k, TypedStore.Get k (resource_store (T := T) s) = None) ->
  let s' := handle_all evs s in
  (forall k, TypedStore.Get k (resource_store s') = toModel <$> live obj_key k (reverse evs)) /\
  (exists ts : TypedStore.t T, s'.(Shared.store) = sf_set ts s.(Shared.store)) /\
  (forall ev, ev ∈ evs.*2 -> observed ev ≠ None ->
     s'.(Shared.metrics).(EventMetrics.StoreItems) !! label (K := K) =
       Some (TypedStore.Len (resource_store (T := T) s'))).
Proof.
  intros H0 s'. split_and!.
  - intros k. by apply Get_handle_all.
  - apply handle_all_frame.
  - intros ev. apply gauge_handle_all.
Qed.
End Mirror.
