(* ===== verification/Informers.v ===== *)
(** * All informers together: internal/collector/resource

    The collectors of Collectors.v as one family, indexed by the kind of
    resource, and the calls of their handlers in any interleaving: every
    handler runs under the lock of the typed store it writes, so what the
    informers' goroutines do is a sequence of calls. *)

From S2P Require Import Prelude GoNum GoStrings Model Store K8s ConvertDynamic Collectors.
Open Scope string_scope.
Open Scope list_scope.
Open Scope Z_scope.

Inductive kind :=
  | KNode | KPod | KNamespace | KDeployment | KStatefulSet | KDaemonSet | KReplicaSet
  | KJob | KCronJob | KHPA | KPDB | KService | KIngress | KPV | KPVC | KStorageClass
  | KPriorityClass | KLimitRange | KResourceQuota | KVPA | KNodePool.

#[export] Instance kind_eq_dec : EqDecision kind.
Proof. solve_decision. Defined.

(** The type of the objects of a kind, and of what they are converted to. *)
Definition obj_of (k : kind) : Type :=
  match k with
  | KNode => Node.t | KPod => Pod.t | KNamespace => Namespace.t | KDeployment => Deployment.t
  | KStatefulSet => StatefulSet.t | KDaemonSet => DaemonSet.t | KReplicaSet => ReplicaSet.t
  | KJob => Job.t | KCronJob => CronJob.t | KHPA => HorizontalPodAutoscaler.t
  | KPDB => PodDisruptionBudget.t | KService => Service.t | KIngress => Ingress.t
  | KPV => PersistentVolume.t | KPVC => PersistentVolumeClaim.t | KStorageClass => StorageClass.t
  | KPriorityClass => PriorityClass.t | KLimitRange => LimitRange.t | KResourceQuota => ResourceQuota.t
  | KVPA => VerticalPodAutoscaler.t | KNodePool => NodePool.t
  end.

Definition info_of (k : kind) : Type :=
  match k with
  | KNode => NodeInfo.t | KPod => PodInfo.t | KNamespace => NamespaceInfo.t | KDeployment => DeploymentInfo.t
  | KStatefulSet => StatefulSetInfo.t | KDaemonSet => DaemonSetInfo.t | KReplicaSet => ReplicaSetInfo.t
  | KJob => JobInfo.t | KCronJob => CronJobInfo.t | KHPA => HPAInfo.t
  | KPDB => PDBInfo.t | KService => ServiceInfo.t | KIngress => IngressInfo.t
  | KPV => PVInfo.t | KPVC => PVCInfo.t | KStorageClass => StorageClassInfo.t
  | KPriorityClass => PriorityClassInfo.t | KLimitRange => LimitRangeInfo.t | KResourceQuota => ResourceQuotaInfo.t
  | KVPA => VPAInfo.t | KNodePool => NodePoolInfo.t
  end.

Section Informers.
Context (parse : string -> option Quantity.t).

Definition collector_of (k : kind) : InformedResource (obj_of k) (info_of k) :=
  match k with
  | KNode => NodeCollector | KPod => PodCollector | KNamespace => NamespaceCollector
  | KDeployment => DeploymentCollector | KStatefulSet => StatefulSetCollector
  | KDaemonSet => DaemonSetCollector | KReplicaSet => ReplicaSetCollector
  | KJob => JobCollector | KCronJob => CronJobCollector | KHPA => HPACollector
  | KPDB => PDBCollector | KService => ServiceCollector | KIngress => IngressCollector
  | KPV => PVCollector | KPVC => PVCCollector | KStorageClass => StorageClassCollector
  | KPriorityClass => PriorityClassCollector | KLimitRange => LimitRangeCollector
  | KResourceQuota => ResourceQuotaCollector | KVPA => VPACollector parse | KNodePool => NodePoolCollector
  end.

Definition label_of (k : kind) : string := label (InformedResource := collector_of k).

(** The typed store of a kind, and the write of it. *)
Definition store_of (k : kind) (st : Store.t) : TypedStore.t (info_of k) :=
  sf_get (StoreField := @ir_field _ _ (collector_of k)) st.

Definition set_store_of (k : kind) (ts : TypedStore.t (info_of k)) (st : Store.t) : Store.t :=
  sf_set (StoreField := @ir_field _ _ (collector_of k)) ts st.

(** ** Calls *)

(** A call of an informer's handler, at a time. *)
Inductive informer_call := Call (k : kind) (now : Time) (ev : informer_event (obj_of k)).

Definition call_kind (c : informer_call) : kind := match c with Call k _ _ => k end.

Definition call (c : informer_call) (s : Shared.t) : Shared.t :=
  match c with Call k now ev => handle (H := collector_of k) now ev s end.

Definition calls (cs : list informer_call) (s : Shared.t) : Shared.t := foldl (fun s c => call c s) s cs.

(** The calls of one informer, in order. *)
Definition event_of (k : kind) (c : informer_call) : option (Time * informer_event (obj_of k)) :=
  match c with
  | Call k' now ev =>
      match decide (k' = k) with
      | left e => Some (now, eq_rect k' (fun k => informer_event (obj_of k)) ev k e)
      | right _ => None
      end
  end.

Definition events_of (k : kind) (cs : list informer_call) : list (Time * informer_event (obj_of k)) :=
  omap (event_of k) cs.

(** The object of a kind that calls leave under a key, and its conversion. *)
Definition cluster_of (k : kind) (cs : list informer_call) (key : string) : option (obj_of k) :=
  live (obj_key (H := collector_of k)) key (reverse (events_of k cs)).

Definition model_of (k : kind) (o : obj_of k) : info_of k := toModel (InformedResource := collector_of k) o.

(** The store key of what is stored. *)
Definition key_of (k : kind) (i : info_of k) : string := info_key (InformedResource := collector_of k) i.

(** ** Lemmas *)

(** The typed stores of two kinds are different fields. *)
Lemma store_of_set_other k k' ts st : k <> k' -> store_of k (set_store_of k' ts st) = store_of k st.
Proof. by destruct k, k'. Qed.

Lemma store_of_set k ts st : store_of k (set_store_of k ts st) = ts.
Proof. apply sf_get_set. Qed.

Lemma call_frame c s : exists ts, (call c s).(Shared.store) = set_store_of (call_kind c) ts s.(Shared.store).
Proof. destruct c as [k now ev]. apply (handle_frame (H := collector_of k)). Qed.

Lemma event_of_self k now ev : event_of k (Call k now ev) = Some (now, ev).
Proof.
  unfold event_of. destruct (decide (k = k)) as [e|]; [|done].
  by rewrite (proof_irrel e eq_refl).
Qed.

Lemma event_of_other k c : call_kind c <> k -> event_of k c = None.
Proof. destruct c as [k' now ev]. cbn. intros Hk. by case_decide. Qed.

(** A call on another kind changes nothing of a kind's store, a call on the kind
    is its handler. *)
Lemma store_of_call k c s :
  store_of k (call c s).(Shared.store) =
    match event_of k c with
    | Some (now, ev) => resource_store (H := collector_of k) (handle (H := collector_of k) now ev s)
    | None => store_of k s.(Shared.store)
    end.
Proof.
  destruct (decide (call_kind c = k)) as [<-|Hk].
  - destruct c as [k now ev]. by rewrite event_of_self.
  - rewrite event_of_other by done. destruct (call_frame c s) as [ts ->].
    by apply store_of_set_other.
Qed.

Lemma calls_app cs cs' s : calls (cs ++ cs') s = calls cs' (calls cs s).
Proof. apply foldl_app. Qed.

Lemma store_of_calls_other k cs s :
  Forall (fun c => call_kind c <> k) cs ->
  store_of k (calls cs s).(Shared.store) = store_of k s.(Shared.store).
Proof.
  unfold calls. intros H. revert s. induction H as [|c cs Hc _ IH]; intros s; [done|].
  cbn [foldl]. by rewrite IH, store_of_call, event_of_other.
Qed.

(** No informer writes the custom workloads. *)
Lemma CustomWorkloads_calls cs s :
  (calls cs s).(Shared.store).(Store.CustomWorkloads) = s.(Shared.store).(Store.CustomWorkloads).
Proof.
  unfold calls. revert s. induction cs as [|c cs IH]; intros s; [done|].
  cbn [foldl]. rewrite IH. destruct (call_frame c s) as [ts ->]. by destruct (call_kind c).
Qed.

(** The object of a kind is filed under its own key. *)
Lemma cluster_of_key k cs key o : cluster_of k cs key = Some o -> key_of k (model_of k o) = key.
Proof.
  unfold cluster_of, key_of, model_of. rewrite info_key_law. fold (obj_key (H := collector_of k) o).
  generalize (reverse (events_of k cs)) as evs. intros evs. induction evs as [|[now ev] evs IH]; [done|].
  cbn [live]. destruct (observed ev) as [[o' present]|]; [|done]. case_decide as Hk; [|done].
  destruct present; [|done]. by intros [= <-].
Qed.

(** A call on a kind puts its object under its key, or removes it. *)
Lemma cluster_of_snoc k cs c key :
  cluster_of k (cs ++ [c]) key =
    match event_of k c with
    | Some (_, ev) =>
        match observed ev with
        | Some (o, present) =>
            if decide (obj_key (H := collector_of k) o = key) then (if present : bool then Some o else None)
            else cluster_of k cs key
        | None => cluster_of k cs key
        end
    | None => cluster_of k cs key
    end.
Proof.
  unfold cluster_of, events_of. rewrite omap_app. cbn [omap list_omap].
  destruct (event_of k c) as [[now ev]|]; [|by rewrite app_nil_r]. by rewrite reverse_snoc.
Qed.

(** ** The mirror *)

(** What a store keeps of an object, up to a relation per kind. *)
Section Mirror.
Context (R : forall k, relation (info_of k)) `{!forall k, Reflexive (R k)}.

Definition mirrored (cs : list informer_call) (s : Shared.t) : Prop :=
  forall k key, option_Forall2 (R k) (TypedStore.Get key (store_of k s.(Shared.store)))
                  (model_of k <$> cluster_of k cs key).

Lemma mirrored_call cs c s : mirrored cs s -> mirrored (cs ++ [c]) (call c s).
Proof.
  intros Hm k key. rewrite store_of_call, cluster_of_snoc.
  destruct (event_of k c) as [[now ev]|]; [|apply Hm]. rewrite (Get_handle (H := collector_of k)).
  destruct (observed ev) as [[o present]|]; [|apply Hm]. case_decide; [|apply Hm].
  destruct present; by constructor.
Qed.

(** Whatever order the informers' calls come in, every typed store mirrors its
    own resource. *)
Lemma mirrored_calls cs cs' s : mirrored cs s -> mirrored (cs ++ cs') (calls cs' s).
Proof.
  intros Hm. unfold calls. induction cs' as [|c cs' IH] using rev_ind; [by rewrite app_nil_r|].
  rewrite foldl_app, app_assoc. by apply mirrored_call.
Qed.

Lemma mirrored_empty s : (forall k key, TypedStore.Get key (store_of k s.(Shared.store)) = None) -> mirrored [] s.
Proof. intros Hn k key. rewrite Hn. constructor. Qed.
End Mirror.
End Informers.
