(* ===== verification/Cluster.v ===== *)
(** * From the cluster to the snapshot

    What the collectors promise the builder: a typed store mirrors the objects
    the informer reports ([mirrors]).  Against that interface, what a built
    snapshot says about the cluster: its totals are those of its own pods, and a
    pod of a Deployment is counted for that Deployment. *)

From S2P Require Import Prelude GoNum GoStrings Config Model Store K8s.
From S2P Require Import ConvertHelpers ConvertNode ConvertPod Ownership Aggregation ConvertWorkload.
From S2P Require Import Targets Pipeline Summary SnapshotBuilder PodEquiv Registry Collectors.
Open Scope string_scope.
Open Scope list_scope.
Open Scope Z_scope.

(** ** The interface between the collectors and the builder *)

Section Mirrors.
Context {K T : Type} `{InformedResource K T}.

(** The typed store of the resource in a store. *)
Definition typed_store (st : Store.t) : TypedStore.t T := sf_get st.

(** The store holds the conversions of the cluster's objects, by key. *)
Definition mirrors (st : Store.t) (cluster : string -> option K) : Prop :=
  forall k, TypedStore.Get k (typed_store st) = toModel <$> cluster k.

(** The same up to a relation on what is stored. *)
Definition mirrors_upto (R : relation T) (st : Store.t) (cluster : string -> option K) : Prop :=
  forall k, option_Forall2 R (TypedStore.Get k (typed_store st)) (toModel <$> cluster k).

(** Every object of the cluster is filed under its key. *)
Definition well_keyed (cluster : string -> option K) : Prop :=
  forall k o, cluster k = Some o -> obj_key o = k.

Lemma live_well_keyed (evs : list (Time * informer_event K)) :
  well_keyed (fun k => live obj_key k evs).
Proof.
  intros k o. induction evs as [|[now ev] evs IH]; [done|]. cbn [live].
  destruct (observed ev) as [[o' present]|]; [|done]. case_decide as Hk; [|done].
  destruct present; [|done]. by intros [= <-].
Qed.

(** A collector that starts with an empty store keeps it a mirror. *)
Lemma handle_all_mirrors (evs : list (Time * informer_event K)) s :
  (forall k, TypedStore.Get k (resource_store (T := T) s) = None) ->
  mirrors (handle_all evs s).(Shared.store)
    (fun k => live obj_key k (reverse evs)).
Proof. intros H0 k. by apply Get_handle_all. Qed.

Lemma mirrors_Values o st cluster k x :
  mirrors st cluster -> cluster k = Some x -> toModel x ∈ TypedStore.Values o (typed_store st).
Proof. intros Hm Hx. apply elem_of_Values. exists k. by rewrite Hm, Hx. Qed.

Lemma mirrors_upto_intro R `{!Reflexive R} st cluster : mirrors st cluster -> mirrors_upto R st cluster.
Proof. intros Hm k. rewrite Hm. destruct (_ <$> _); by constructor. Qed.

Lemma mirrors_upto_Values R o st cluster k x :
  mirrors_upto R st cluster -> cluster k = Some x ->
  exists y, y ∈ TypedStore.Values o (typed_store st) /\ R y (toModel x).
Proof.
  intros Hm Hx. specialize (Hm k). rewrite Hx in Hm. inversion Hm as [y ? HR Hy|]; subst.
  exists y. split; [|done]. apply elem_of_Values. by exists k.
Qed.

(** Indexing the values of a mirror by their keys gives the mirror back. *)
Lemma index_mirror o st cluster k :
  mirrors st cluster -> well_keyed cluster ->
  index_by info_key (TypedStore.Values o (typed_store st)) !! k = toModel <$> cluster k.
Proof.
  intros Hm Hk.
  assert (forall k v, TypedStore.Get k (typed_store st) = Some v -> info_key v = k) as Hkey.
  { intros k' v. rewrite Hm. intros (x & Hx & ->)%fmap_Some. rewrite info_key_law. by apply Hk. }
  destruct (cluster k) as [x|] eqn:Hx; simpl.
  - assert (info_key (toModel x) = k) as Hik by (rewrite info_key_law; by apply Hk).
    destruct (index_by_is_Some info_key _ _ (mirrors_Values o st cluster k x Hm Hx)) as [y Hy].
    rewrite Hik in Hy. rewrite Hy. apply index_by_Some in Hy as [Hy Hyk].
    apply elem_of_Values in Hy as [k' Hk']. pose proof (Hkey k' y Hk') as Hk1.
    rewrite <- Hk1, Hyk, Hm, Hx in Hk'. by rewrite <- Hk'.
  - apply index_by_None. intros (v & -> & Hv)%list_elem_of_fmap. apply elem_of_Values in Hv as [k' Hk'].
    rewrite (Hkey k' v Hk') in Hx. rewrite Hm, Hx in Hk'. done.
Qed.
End Mirrors.

(** ** Lemmas on built snapshots *)

Section Built.
Context (cfg : Config.t) (acct : string) (r : Reads.t).

Let o := r.(Reads.order).
Let st := r.(Reads.store).
Let snap := (Build cfg (Some agent_pipeline) acct r).(BuildResult.snapshot).

(** The owner maps a build resolves with. *)
Definition stored_owners : OwnerMaps :=
  mkOwnerMaps (buildReplicaSetMap (TypedStore.Values o st.(Store.ReplicaSets)))
    (buildJobMap (TypedStore.Values o st.(Store.Jobs)))
    (buildCronJobMap (TypedStore.Values o st.(Store.CronJobs))).

(** The pods, workloads and Services of a snapshot, from the stores. *)
Lemma built_lists :
  exists f,
    snap.(ClusterSnapshot.Pods) =
      (fun p => resolveOwner stored_owners (p <| PodInfo.Containers := f p |>))
        <$> TypedStore.Values o st.(Store.Pods) /\
    snap.(ClusterSnapshot.Deployments) =
      aggregate_deployment (pods_of snap.(ClusterSnapshot.Pods)) <$> TypedStore.Values o st.(Store.Deployments) /\
    snap.(ClusterSnapshot.StatefulSets) =
      aggregate_statefulset (pods_of snap.(ClusterSnapshot.Pods)) <$> TypedStore.Values o st.(Store.StatefulSets) /\
    snap.(ClusterSnapshot.DaemonSets) =
      aggregate_daemonset (pods_of snap.(ClusterSnapshot.Pods)) <$> TypedStore.Values o st.(Store.DaemonSets) /\
    snap.(ClusterSnapshot.Services) =
      target_service (byNamespace (collectWorkloads snap)) <$> TypedStore.Values o st.(Store.Services).
Proof.
  destruct (Build_lists cfg acct r) as (_ & _ & _ & Hl). fold o st snap in Hl.
  destruct (merge_pods_pointwise r) as [f Hf].
  set (pods := TypedStore.Values o st.(Store.Pods)) in *.
  set (l := read_lists _ _ _ _) in Hl.
  set (rss := TypedStore.Values o st.(Store.ReplicaSets)) in *.
  exists f.
  assert (snap.(ClusterSnapshot.Pods) = resolveOwner stored_owners <$> merge_pods r pods) as Hp
    by exact (f_equal Lists.Pods Hl).
  split_and!.
  - rewrite Hp, Hf. by rewrite <- list_fmap_compose.
  - rewrite Hp. exact (f_equal Lists.Deployments Hl).
  - rewrite Hp. exact (f_equal Lists.StatefulSets Hl).
  - rewrite Hp. exact (f_equal Lists.DaemonSets Hl).
  - exact (f_equal Lists.Services Hl).
Qed.
End Built.

(** What a stored pod and the API object agree on. *)
Lemma PodToModel_reported p q :
  q ≡ PodToModel p ->
  q.(PodInfo.Namespace) = p.(Pod.Meta).(ObjectMeta.Namespace) /\
  q.(PodInfo.UID) = p.(Pod.Meta).(ObjectMeta.UID) /\
  q.(PodInfo.Phase) = p.(Pod.Status).(PodStatus.Phase) /\
  match p.(Pod.Meta).(ObjectMeta.OwnerReferences) with
  | o :: _ => q.(PodInfo.OwnerKind) = o.(OwnerReference.Kind) /\ q.(PodInfo.OwnerName) = o.(OwnerReference.Name) /\
              q.(PodInfo.OwnerUID) = o.(OwnerReference.UID)
  | [] => True
  end.
Proof.
  intros H. rewrite H. pose proof (pod_owner_proper _ _ H) as Ho. injection Ho as -> -> ->.
  unfold PodToModel. by destruct (ObjectMeta.OwnerReferences _).
Qed.

Lemma owned_pods_elem (pods : list PodInfo.t) pod k :
  pod ∈ owned_pods pods k <-> owned_by k pod /\ pod ∈ pods.
Proof. apply list_elem_of_filter. Qed.

(** The totals of an aggregated workload, by its kind. *)
Lemma aggregate_deployment_totals pods d :
  let d' := aggregate_deployment (pods_of pods) d in
  mkPodSums d'.(DeploymentInfo.TotalCPURequest) d'.(DeploymentInfo.TotalMemoryRequest)
    d'.(DeploymentInfo.TotalCPULimit) d'.(DeploymentInfo.TotalMemoryLimit)
    d'.(DeploymentInfo.TotalCPUUsage) d'.(DeploymentInfo.TotalMemoryUsage) =
  workload_totals pods (d'.(DeploymentInfo.Namespace), "Deployment", d'.(DeploymentInfo.Name)).
Proof. cbv zeta. rewrite <- sumPodResources_pods_of. symmetry. apply PodSums_eta. Qed.

Lemma aggregate_statefulset_totals pods s :
  let s' := aggregate_statefulset (pods_of pods) s in
  mkPodSums s'.(StatefulSetInfo.TotalCPURequest) s'.(StatefulSetInfo.TotalMemoryRequest)
    s'.(StatefulSetInfo.TotalCPULimit) s'.(StatefulSetInfo.TotalMemoryLimit)
    s'.(StatefulSetInfo.TotalCPUUsage) s'.(StatefulSetInfo.TotalMemoryUsage) =
  workload_totals pods (s'.(StatefulSetInfo.Namespace), "StatefulSet", s'.(StatefulSetInfo.Name)).
Proof. cbv zeta. rewrite <- sumPodResources_pods_of. symmetry. apply PodSums_eta. Qed.

Lemma aggregate_daemonset_totals pods s :
  let s' := aggregate_daemonset (pods_of pods) s in
  mkPodSums s'.(DaemonSetInfo.TotalCPURequest) s'.(DaemonSetInfo.TotalMemoryRequest)
    s'.(DaemonSetInfo.TotalCPULimit) s'.(DaemonSetInfo.TotalMemoryLimit)
    s'.(DaemonSetInfo.TotalCPUUsage) s'.(DaemonSetInfo.TotalMemoryUsage) =
  workload_totals pods (s'.(DaemonSetInfo.Namespace), "DaemonSet", s'.(DaemonSetInfo.Name)).
Proof. cbv zeta. rewrite <- sumPodResources_pods_of. symmetry. apply PodSums_eta. Qed.

(** ** Properties *)

(** C10 A snapshot agrees with itself: the totals of every Deployment,
    StatefulSet and DaemonSet in it are those of the containers of the pods in
    the same snapshot that it owns, are not finished and live in its namespace,
    whatever the stores held and however the metrics merged. *)
Theorem snapshot_totals_consistent cfg acct r :
  let snap := (Build cfg (Some agent_pipeline) acct r).(BuildResult.snapshot) in
  let pods := snap.(ClusterSnapshot.Pods) in
  (forall d, d ∈ snap.(ClusterSnapshot.Deployments) ->
     mkPodSums d.(DeploymentInfo.TotalCPURequest) d.(DeploymentInfo.TotalMemoryRequest)
       d.(DeploymentInfo.TotalCPULimit) d.(DeploymentInfo.TotalMemoryLimit)
       d.(DeploymentInfo.TotalCPUUsage) d.(DeploymentInfo.TotalMemoryUsage) =
     workload_totals pods (d.(DeploymentInfo.Namespace), "Deployment", d.(DeploymentInfo.Name))) /\
  (forall s, s ∈ snap.(ClusterSnapshot.StatefulSets) ->
     mkPodSums s.(StatefulSetInfo.TotalCPURequest) s.(StatefulSetInfo.TotalMemoryRequest)
       s.(StatefulSetInfo.TotalCPULimit) s.(StatefulSetInfo.TotalMemoryLimit)
       s.(StatefulSetInfo.TotalCPUUsage) s.(StatefulSetInfo.TotalMemoryUsage) =
     workload_totals pods (s.(StatefulSetInfo.Namespace), "StatefulSet", s.(StatefulSetInfo.Name))) /\
  (forall s, s ∈ snap.(ClusterSnapshot.DaemonSets) ->
     mkPodSums s.(DaemonSetInfo.TotalCPURequest) s.(DaemonSetInfo.TotalMemoryRequest)
       s.(DaemonSetInfo.TotalCPULimit) s.(DaemonSetInfo.TotalMemoryLimit)
       s.(DaemonSetInfo.TotalCPUUsage) s.(DaemonSetInfo.TotalMemoryUsage) =
     workload_totals pods (s.(DaemonSetInfo.Namespace), "DaemonSet", s.(DaemonSetInfo.Name))).
Proof.
  intros snap pods. destruct (built_lists cfg acct r) as (f & _ & Hd & Hs & Hds & _).
  fold snap in Hd, Hs, Hds. fold pods in Hd, Hs, Hds. rewrite Hd, Hs, Hds.
  split_and!; intros w (w' & -> & _)%list_elem_of_fmap;
    [apply aggregate_deployment_totals|apply aggregate_statefulset_totals|apply aggregate_daemonset_totals].
Qed.

(** C3 From the cluster to the backend: when the stores mirror the cluster, the
    pods up to their measured usage, which builds write into the store, a
    pod whose first owner is a ReplicaSet that a Deployment owns is reported as
    that Deployment's, under the UID the ReplicaSet records, and, unless it has
    finished, is one of the pods the Deployment's totals are summed over. *)
Theorem pod_counted_for_deployment cfg acct r
  (pods : string -> option Pod.t) (rss : string -> option ReplicaSet.t)
  (deps : string -> option Deployment.t) kp p rs d o1 rest1 o2 rest2 :
  mirrors_upto (≡) r.(Reads.store) pods -> mirrors r.(Reads.store) rss -> mirrors r.(Reads.store) deps ->
  well_keyed rss ->
  pods kp = Some p ->
  p.(Pod.Meta).(ObjectMeta.OwnerReferences) = o1 :: rest1 -> o1.(OwnerReference.Kind) = "ReplicaSet" ->
  let ns := p.(Pod.Meta).(ObjectMeta.Namespace) in
  rss (ns_name ns o1.(OwnerReference.Name)) = Some rs ->
  rs.(ReplicaSet.Meta).(ObjectMeta.OwnerReferences) = o2 :: rest2 -> o2.(OwnerReference.Kind) = "Deployment" ->
  deps (ns_name ns o2.(OwnerReference.Name)) = Some d ->
  d.(Deployment.Meta).(ObjectMeta.Namespace) = ns ->
  d.(Deployment.Meta).(ObjectMeta.Name) = o2.(OwnerReference.Name) ->
  let snap := (Build cfg (Some agent_pipeline) acct r).(BuildResult.snapshot) in
  exists pod dep,
    pod ∈ snap.(ClusterSnapshot.Pods) /\ pod.(PodInfo.UID) = p.(Pod.Meta).(ObjectMeta.UID) /\
    pod.(PodInfo.OwnerKind) = "Deployment" /\ pod.(PodInfo.OwnerName) = o2.(OwnerReference.Name) /\
    pod.(PodInfo.OwnerUID) = o2.(OwnerReference.UID) /\
    dep ∈ snap.(ClusterSnapshot.Deployments) /\ dep.(DeploymentInfo.UID) = d.(Deployment.Meta).(ObjectMeta.UID) /\
    let key := (dep.(DeploymentInfo.Namespace), "Deployment", dep.(DeploymentInfo.Name)) in
    (~ p.(Pod.Status).(PodStatus.Phase) ∈ ["Succeeded"; "Failed"] ->
       pod ∈ owned_pods snap.(ClusterSnapshot.Pods) key) /\
    dep.(DeploymentInfo.TotalMemoryRequest) = (workload_totals snap.(ClusterSnapshot.Pods) key).(memReq).
Proof.
  intros Hmp Hmr Hmd Hwk Hp Ho1 Hk1 ns Hrs Ho2 Hk2 Hd Hdns Hdname snap.
  destruct (built_lists cfg acct r) as (f & HP & HD & _). fold snap in HP, HD.
  set (m := stored_owners r) in *.
  set (o := r.(Reads.order)) in *.
  destruct (mirrors_upto_Values _ o _ _ _ _ Hmp Hp) as (p' & Hpin & Heq).
  pose proof (mirrors_Values o _ _ _ _ Hmd Hd) as Hdin.
  pose proof (index_mirror o _ _ (ns_name ns o1.(OwnerReference.Name)) Hmr Hwk) as Hix.
  rewrite Hrs in Hix.
  set (q := p' <| PodInfo.Containers := f p' |>).
  destruct (PodToModel_reported p p' Heq) as (Hqns & Hquid & Hqph & Hqo).
  rewrite Ho1 in Hqo. destruct Hqo as (Hqk & Hqn & _). rewrite Hk1 in Hqk. fold ns in Hqns.
  change (PodInfo.Namespace p') with (PodInfo.Namespace q) in Hqns.
  change (PodInfo.Phase p') with (PodInfo.Phase q) in Hqph.
  change (PodInfo.OwnerKind p') with (PodInfo.OwnerKind q) in Hqk.
  change (PodInfo.OwnerName p') with (PodInfo.OwnerName q) in Hqn.
  assert (ReplicaSetInfo.OwnerKind (ReplicaSetToModel rs) = "Deployment" /\
          ReplicaSetInfo.OwnerName (ReplicaSetToModel rs) = o2.(OwnerReference.Name) /\
          ReplicaSetInfo.OwnerUID (ReplicaSetToModel rs) = o2.(OwnerReference.UID)) as (Hr1 & Hr2 & Hr3).
  { unfold ReplicaSetToModel. rewrite Ho2. split_and!; [exact Hk2|reflexivity..]. }
  assert (resolveOwner m q = q <| PodInfo.OwnerKind := "Deployment" |>
            <| PodInfo.OwnerName := o2.(OwnerReference.Name) |>
            <| PodInfo.OwnerUID := o2.(OwnerReference.UID) |>) as Hres.
  { rewrite <- Hr2, <- Hr3. apply resolveOwner_replicaset_deployment; [done| |done].
    rewrite Hqns, Hqn. exact Hix. }
  exists (resolveOwner m q), (aggregate_deployment (pods_of snap.(ClusterSnapshot.Pods)) (DeploymentToModel d)).
  assert (resolveOwner m q ∈ snap.(ClusterSnapshot.Pods)) as Hin.
  { rewrite HP. apply list_elem_of_fmap. by exists p'. }
  destruct (DeploymentToModel_meta d) as (Hdn & Hdn' & Hduid).
  change (DeploymentInfo.UID (aggregate_deployment ?l ?x)) with (DeploymentInfo.UID x).
  change (DeploymentInfo.Namespace (aggregate_deployment ?l ?x)) with (DeploymentInfo.Namespace x).
  change (DeploymentInfo.Name (aggregate_deployment ?l ?x)) with (DeploymentInfo.Name x).
  rewrite Hdn, Hdn', Hduid, Hdns, Hdname.
  cbv zeta. split_and!; [exact Hin|rewrite Hres; exact Hquid|rewrite Hres; reflexivity..| |reflexivity| |].
  - rewrite HD. by apply list_elem_of_fmap_2.
  - intros Hph. apply owned_pods_elem. split; [|exact Hin].
    rewrite Hres. split_and!; [rewrite <- Hqns; reflexivity|done|right].
    change (~ q.(PodInfo.Phase) ∈ ["Succeeded"; "Failed"]). by rewrite Hqph.
  - pose proof (f_equal memReq (aggregate_deployment_totals snap.(ClusterSnapshot.Pods) (DeploymentToModel d)))
      as Ht. cbn [memReq] in Ht. rewrite Ht.
    change (DeploymentInfo.Namespace (aggregate_deployment ?l ?x)) with (DeploymentInfo.Namespace x).
    change (DeploymentInfo.Name (aggregate_deployment ?l ?x)) with (DeploymentInfo.Name x).
    by rewrite Hdn, Hdn', Hdns, Hdname.
Qed.

(** ** Witnesses *)

(** Handling the events of one resource leaves the mirror of another alone, when
    their typed stores are different fields. *)
Lemma mirrors_frame {K T K' T'} `{InformedResource K T} `{InformedResource K' T'}
    (evs : list (Time * informer_event K)) (s : Shared.t) (cluster : string -> option K') :
  (forall (ts : TypedStore.t T) st, typed_store (K := K') (T := T') (sf_set ts st) = typed_store st) ->
  mirrors s.(Shared.store) cluster -> mirrors (handle_all evs s).(Shared.store) cluster.
Proof.
  intros Hind Hm k. destruct (handle_all_frame evs s) as [ts ->]. rewrite Hind. apply Hm.
Qed.

Definition ex_owner (kind name uid : string) : OwnerReference.t := OwnerReference.mk kind name uid (Some true).

Definition ex_deployment : Deployment.t := {|
  Deployment.Meta := ObjectMeta.mk "web" "shop" "u-web" None None 0 [];
  Deployment.Spec := DeploymentSpec.mk None None ex_template (DeploymentStrategy.mk "RollingUpdate" None) false;
  Deployment.Status := DeploymentStatus.mk 0 0 0 0 [] |}.

Definition ex_replicaset : ReplicaSet.t := {|
  ReplicaSet.Meta := ObjectMeta.mk "web-1" "shop" "u-rs" None None 0 [ex_owner "Deployment" "web" "u-web"];
  ReplicaSet.Replicas := Some 1;
  ReplicaSet.Selector := None;
  ReplicaSet.ReadyReplicas := 1 |}.

Definition ex_owned_pod : Pod.t := {|
  Pod.Meta := ObjectMeta.mk "web-1-x" "shop" "u-pod" None None 0 [ex_owner "ReplicaSet" "web-1" "u-rs"];
  Pod.Spec := PodSpec.mk [] [] ex_template "" "" false "" "" None;
  Pod.Status := PodStatus.mk "Running" [] "" "" "" [] [] "" |}.

(** The informers' calls: a pod is added, updated, a second one is added and its
    deletion missed. *)
Definition ex_pod_events : list (Time * informer_event Pod.t) := [
  (1, OnAdd (Typed ex_owned_pod));
  (2, OnUpdate (Typed ex_owned_pod) (Typed ex_owned_pod));
  (3, OnAdd (Typed (ex_k8s_pod "gone")));
  (4, OnAdd Foreign);
  (5, OnDelete (DeletedFinalStateUnknown (Some (ex_k8s_pod "gone")))) ].

Definition ex_shared0 : Shared.t := Shared.mk (Store.NewStore 0) EventMetrics.zero.
Definition ex_deployment_events : list (Time * informer_event Deployment.t) := [(1, OnAdd (Typed ex_deployment))].
Definition ex_replicaset_events : list (Time * informer_event ReplicaSet.t) := [(2, OnAdd (Typed ex_replicaset))].
Definition ex_shared1 : Shared.t := handle_all ex_deployment_events ex_shared0.
Definition ex_shared2 : Shared.t := handle_all ex_replicaset_events ex_shared1.
Definition ex_shared : Shared.t := handle_all ex_pod_events ex_shared2.

Lemma collector_mirrors_cluster_witness :
  PodInfo.UID <$> TypedStore.Get "shop/web-1-x" (resource_store (T := PodInfo.t) ex_shared) = Some "u-pod" /\
  TypedStore.Get "shop/gone" (resource_store (T := PodInfo.t) ex_shared) = None /\
  ex_shared.(Shared.metrics).(EventMetrics.StoreItems) !! "pods" = Some 1.
Proof.
  destruct (collector_mirrors_cluster ex_pod_events ex_shared2) as (HG & _ & Hg);
    [intros k; apply lookup_empty|].
  split_and!.
  - unfold ex_shared. rewrite HG. vm_compute. reflexivity.
  - unfold ex_shared. rewrite HG. vm_compute. reflexivity.
  - unfold ex_shared. change "pods" with (label (K := Pod.t)).
    rewrite (Hg (OnAdd (Typed ex_owned_pod))); [|by left|done]. vm_compute. reflexivity.
Defined.

Lemma pod_counted_for_deployment_witness :
  exists pod, pod ∈ (Build ex_config (Some agent_pipeline) ""
      (ex_reads ex_shared.(Shared.store) (TypedStore.NewTypedStore 0) ∅ 0)).(BuildResult.snapshot).(ClusterSnapshot.Pods) /\
    pod.(PodInfo.UID) = "u-pod" /\ pod.(PodInfo.OwnerUID) = "u-web".
Proof.
  assert (mirrors ex_shared.(Shared.store) (fun k =>
    live obj_key k (reverse ex_pod_events))) as Hp.
  { apply (handle_all_mirrors ex_pod_events ex_shared2). intros k. apply lookup_empty. }
  assert (mirrors ex_shared.(Shared.store) (fun k =>
    live obj_key k (reverse ex_replicaset_events))) as Hr.
  { apply (mirrors_frame ex_pod_events ex_shared2); [done|].
    apply (handle_all_mirrors ex_replicaset_events ex_shared1). intros k. apply lookup_empty. }
  assert (mirrors ex_shared.(Shared.store) (fun k =>
    live obj_key k (reverse ex_deployment_events))) as Hd.
  { apply (mirrors_frame ex_pod_events ex_shared2); [done|].
    apply (mirrors_frame ex_replicaset_events ex_shared1); [done|].
    apply (handle_all_mirrors ex_deployment_events ex_shared0). intros k. apply lookup_empty. }
  destruct (pod_counted_for_deployment ex_config ""
    (ex_reads ex_shared.(Shared.store) (TypedStore.NewTypedStore 0) ∅ 0)
    _ _ _ "shop/web-1-x" ex_owned_pod ex_replicaset ex_deployment
    (ex_owner "ReplicaSet" "web-1" "u-rs") [] (ex_owner "Deployment" "web" "u-web") []
    (mirrors_upto_intro (≡) _ _ Hp) Hr Hd)
    as (pod & dep & Hin & Huid & _ & _ & Hou & _); try reflexivity.
  - apply live_well_keyed.
  - exists pod. split; [exact Hin|]. by split.
Defined.
