(* ===== verification/ClusterLinks.v ===== *)
(** * Links between the cluster's objects, as a snapshot reports them

    Against the interface of Cluster.v ([mirrors]): the Deployments a Service of
    the cluster targets, and the CronJob that a Job's pods belong to. *)

From S2P Require Import Prelude GoNum GoStrings Config Model Store K8s.
From S2P Require Import ConvertHelpers ConvertNode ConvertPod Ownership Aggregation ConvertWorkload.
From S2P Require Import ConvertCluster ConvertNetwork ConvertAutoscaling.
From S2P Require Import Targets Pipeline Summary SnapshotBuilder PodEquiv Registry Collectors Cluster.
Open Scope string_scope.
Open Scope list_scope.
Open Scope Z_scope.

(** ** Lemmas *)

Definition deployment_entry (d : DeploymentInfo.t) : workloadEntry.t :=
  workloadEntry.mk "Deployment" d.(DeploymentInfo.Name) d.(DeploymentInfo.Namespace) d.(DeploymentInfo.Selector).

(** The entries of kind Deployment are the Deployments with a selector. *)
Lemma collectWorkloads_deployment s w :
  w.(workloadEntry.kind) = "Deployment" ->
  w ∈ collectWorkloads s <->
    exists d, d ∈ s.(ClusterSnapshot.Deployments) /\ 0 < mlen d.(DeploymentInfo.Selector) /\ w = deployment_entry d.
Proof.
  intros Hk. unfold collectWorkloads. rewrite !foldl_append_filter, !elem_of_app, !list_elem_of_fmap.
  split.
  - intros [[[?%not_elem_of_nil|(d & -> & Hd)]|(x & -> & _)]|(x & -> & _)]; try done.
    apply list_elem_of_filter in Hd as [Hl Hd]. exists d. split_and!; [done|by apply Z.ltb_lt|done].
  - intros (d & Hd & Hl & ->). left. left. right. exists d. split; [done|].
    apply list_elem_of_filter. split; [by apply Z.ltb_lt|done].
Qed.

Lemma elem_workload_ref_filter (P : workloadEntry.t -> Prop) `{forall w, Decision (P w)} ref (ws : list workloadEntry.t) :
  ref ∈ workload_ref <$> filter P ws <-> exists w, w ∈ ws /\ P w /\ ref = workload_ref w.
Proof.
  rewrite list_elem_of_fmap. setoid_rewrite list_elem_of_filter. naive_solver.
Qed.

(** A service with a selector gets the workloads it selects. *)
Lemma target_service_selected s svc :
  0 < mlen svc.(ServiceInfo.Selector) ->
  ServiceInfo.TargetWorkloads (target_service (byNamespace (collectWorkloads s)) svc) =
    workload_ref <$> filter (fun w => w.(workloadEntry.namespace) = svc.(ServiceInfo.Namespace) /\
                                      selects_go svc.(ServiceInfo.Selector) w.(workloadEntry.selector))
      (collectWorkloads s).
Proof.
  intros Hl. unfold target_service. rewrite (proj2 (Z.eqb_neq _ 0)) by lia.
  by rewrite <- matchWorkloads_byNamespace.
Qed.

Lemma target_service_meta ix svc :
  ServiceInfo.Name (target_service ix svc) = svc.(ServiceInfo.Name) /\
  ServiceInfo.Namespace (target_service ix svc) = svc.(ServiceInfo.Namespace).
Proof. unfold target_service. by destruct (_ =? _). Qed.

Lemma DeploymentToModel_selector d :
  DeploymentInfo.Selector (DeploymentToModel d) = selector_of d.(Deployment.Spec).(DeploymentSpec.Selector).
Proof. unfold DeploymentToModel. by destruct (DeploymentStrategy.RollingUpdate _). Qed.

(** The objects of a mirror, read back from the store's values. *)
Lemma mirrors_elem {K T} `{InformedResource K T} o st (cluster : string -> option K) x :
  mirrors st cluster ->
  x ∈ TypedStore.Values o (typed_store st) <-> exists k obj, cluster k = Some obj /\ x = toModel obj.
Proof.
  intros Hm. rewrite elem_of_Values. setoid_rewrite (Hm _). setoid_rewrite fmap_Some. naive_solver.
Qed.

Definition is_cronjob (o : OwnerReference.t) : bool := bool_decide (o.(OwnerReference.Kind) = "CronJob").

Lemma owner_cronjob_find refs :
  owner_cronjob refs = match List.find is_cronjob refs with Some o => o.(OwnerReference.Name) | None => "" end.
Proof.
  unfold is_cronjob. induction refs as [|o refs IH]; [done|]. cbn [owner_cronjob List.find].
  destruct (decide (OwnerReference.Kind o = "CronJob")) as [E|E].
  - by rewrite (bool_decide_eq_true_2 _ E).
  - by rewrite (bool_decide_eq_false_2 _ E).
Qed.

(** A pod of a Job that a CronJob owns. *)
Lemma resolveOwner_job_cronjob (m : OwnerMaps) (pod : PodInfo.t) (j : JobInfo.t) :
  pod.(PodInfo.OwnerKind) = "Job" ->
  m.(jobMap) !! ns_name pod.(PodInfo.Namespace) pod.(PodInfo.OwnerName) = Some j ->
  j.(JobInfo.OwnerCronJob) <> "" ->
  pod_owner (resolveOwner m pod) = mkOwner "CronJob" j.(JobInfo.OwnerCronJob)
    match m.(cronJobMap) !! ns_name pod.(PodInfo.Namespace) j.(JobInfo.OwnerCronJob) with
    | Some cj => cj.(CronJobInfo.UID)
    | None => pod.(PodInfo.OwnerUID)
    end.
Proof.
  intros Hk Hj Hc. rewrite pod_owner_resolveOwner by (rewrite Hk; discriminate).
  unfold maxOwnerDepth, pod_owner. rewrite Hk. cbn [resolve_loop]. unfold resolve_hop at 1.
  cbn [o_kind o_name o_uid]. rewrite decide_False by discriminate. rewrite decide_True by done.
  rewrite Hj, decide_False by done. reflexivity.
Qed.

(** ** Properties *)

(** C11 From the cluster to the backend, for Services: when the stores mirror the
    cluster, a Service with a selector is reported with exactly those
    Deployments of the cluster as targets that live in its namespace and whose
    own selector has every label of the Service's (an absent label reading as
    the empty string); a Deployment without selector is never one. *)
Theorem service_targets_deployments cfg acct r
  (svcs : string -> option Service.t) (deps : string -> option Deployment.t) ks svc :
  mirrors r.(Reads.store) svcs -> mirrors r.(Reads.store) deps -> svcs ks = Some svc ->
  let sel := svc.(Service.Spec).(ServiceSpec.Selector) in
  let ns := svc.(Service.Meta).(ObjectMeta.Namespace) in
  0 < mlen sel ->
  exists info,
    info ∈ (Build cfg (Some agent_pipeline) acct r).(BuildResult.snapshot).(ClusterSnapshot.Services) /\
    info.(ServiceInfo.Name) = svc.(Service.Meta).(ObjectMeta.Name) /\ info.(ServiceInfo.Namespace) = ns /\
    forall name, WorkloadReference.mk "Deployment" name ns ∈ info.(ServiceInfo.TargetWorkloads) <->
      exists kd d, deps kd = Some d /\ d.(Deployment.Meta).(ObjectMeta.Name) = name /\
        d.(Deployment.Meta).(ObjectMeta.Namespace) = ns /\
        let dsel := selector_of d.(Deployment.Spec).(DeploymentSpec.Selector) in
        0 < mlen dsel /\ selects_go sel dsel.
Proof.
  intros Hms Hmd Hsvc sel ns Hsel. destruct (built_lists cfg acct r) as (f & _ & HD & _ & _ & HS).
  set (snap := (Build cfg _ acct r).(BuildResult.snapshot)) in *.
  exists (target_service (byNamespace (collectWorkloads snap)) (ServiceToModel svc)).
  destruct (target_service_meta (byNamespace (collectWorkloads snap)) (ServiceToModel svc)) as [-> ->].
  split_and!; [|reflexivity..|].
  { rewrite HS. apply list_elem_of_fmap_2. by apply (mirrors_Values _ _ _ _ _ Hms Hsvc). }
  intros name. rewrite target_service_selected by exact Hsel. rewrite elem_workload_ref_filter.
  split.
  - intros ([k n ns' s] & Hw & [Hns Hgo] & [= <- <- <-]).
    apply collectWorkloads_deployment in Hw as (d & Hd & Hl & [= -> -> ->]); [|done].
    rewrite HD in Hd. apply list_elem_of_fmap in Hd as (d0 & -> & Hd).
    apply (mirrors_elem _ _ _ _ Hmd) in Hd as (kd & obj & Hobj & ->).
    exists kd, obj. destruct (DeploymentToModel_meta obj) as (Hn & Hn' & _).
    cbv zeta. split_and!; [exact Hobj|by rewrite <- Hn|by rewrite <- Hn'| |].
    + rewrite <- DeploymentToModel_selector. exact Hl.
    + rewrite <- DeploymentToModel_selector. exact Hgo.
  - intros (kd & d & Hd & <- & Hdns & Hl & Hgo).
    destruct (DeploymentToModel_meta d) as (Hn & Hn' & _).
    pose proof (DeploymentToModel_selector d) as Hs.
    exists (deployment_entry (DeploymentToModel d)). split_and!.
    + apply collectWorkloads_deployment; [done|].
      exists (aggregate_deployment (pods_of snap.(ClusterSnapshot.Pods)) (DeploymentToModel d)).
      split_and!; [|cbn; by rewrite Hs|reflexivity].
      rewrite HD. apply list_elem_of_fmap_2. by apply (mirrors_Values _ _ _ _ _ Hmd Hd).
    + cbn. by rewrite Hn', Hdns.
    + cbn. by rewrite Hs.
    + unfold workload_ref, deployment_entry. cbn. by rewrite Hn, Hn', Hdns.
Qed.

(** C12 From the cluster to the backend, for CronJobs: when the stores mirror the
    cluster, the pods up to their measured usage, a pod whose first owner is a
    Job that has a CronJob among its
    owners is reported as that CronJob's, under the CronJob's UID when the
    cluster has it in the namespace and under the Job's UID otherwise. *)
Theorem cronjob_pod_reported cfg acct r
  (pods : string -> option Pod.t) (jobs : string -> option Job.t) (crons : string -> option CronJob.t)
  kp p j o1 rest o2 :
  mirrors_upto (≡) r.(Reads.store) pods -> mirrors r.(Reads.store) jobs -> mirrors r.(Reads.store) crons ->
  well_keyed jobs -> well_keyed crons ->
  pods kp = Some p ->
  p.(Pod.Meta).(ObjectMeta.OwnerReferences) = o1 :: rest -> o1.(OwnerReference.Kind) = "Job" ->
  let ns := p.(Pod.Meta).(ObjectMeta.Namespace) in
  jobs (ns_name ns o1.(OwnerReference.Name)) = Some j ->
  List.find is_cronjob j.(Job.Meta).(ObjectMeta.OwnerReferences) = Some o2 ->
  o2.(OwnerReference.Name) <> "" ->
  exists pod,
    pod ∈ (Build cfg (Some agent_pipeline) acct r).(BuildResult.snapshot).(ClusterSnapshot.Pods) /\
    pod.(PodInfo.UID) = p.(Pod.Meta).(ObjectMeta.UID) /\
    pod_owner pod = mkOwner "CronJob" o2.(OwnerReference.Name)
      match crons (ns_name ns o2.(OwnerReference.Name)) with
      | Some cj => cj.(CronJob.Meta).(ObjectMeta.UID)
      | None => o1.(OwnerReference.UID)
      end.
Proof.
  intros Hmp Hmj Hmc Hwj Hwc Hp Ho Hk ns Hj Hf Hn.
  destruct (built_lists cfg acct r) as (f & HP & _). set (snap := BuildResult.snapshot _) in *.
  destruct (mirrors_upto_Values _ r.(Reads.order) _ _ _ _ Hmp Hp) as (p' & Hpin & Heq).
  set (q := p' <| PodInfo.Containers := f p' |>) in *.
  destruct (PodToModel_reported p p' Heq) as (Hqns & Hquid & _ & Hqo).
  rewrite Ho in Hqo. destruct Hqo as (Hqk & Hqn & Hqu). rewrite Hk in Hqk. fold ns in Hqns.
  change (PodInfo.Namespace p') with (PodInfo.Namespace q) in Hqns.
  change (PodInfo.UID p') with (PodInfo.UID q) in Hquid.
  change (PodInfo.OwnerKind p') with (PodInfo.OwnerKind q) in Hqk.
  change (PodInfo.OwnerName p') with (PodInfo.OwnerName q) in Hqn.
  change (PodInfo.OwnerUID p') with (PodInfo.OwnerUID q) in Hqu.
  assert (JobInfo.OwnerCronJob (JobToModel j) = o2.(OwnerReference.Name)) as Hcj.
  { change (owner_cronjob j.(Job.Meta).(ObjectMeta.OwnerReferences) = o2.(OwnerReference.Name)).
    by rewrite owner_cronjob_find, Hf. }
  set (o := r.(Reads.order)) in *.
  pose proof (index_mirror o _ _ (ns_name ns o1.(OwnerReference.Name)) Hmj Hwj) as Hjx. rewrite Hj in Hjx.
  pose proof (index_mirror o _ _ (ns_name ns o2.(OwnerReference.Name)) Hmc Hwc) as Hcx.
  exists (resolveOwner (stored_owners r) q). split_and!.
  - rewrite HP. apply list_elem_of_fmap. by exists p'.
  - rewrite <- Hquid. unfold resolveOwner. by repeat case_decide.
  - rewrite (resolveOwner_job_cronjob _ _ (JobToModel j) Hqk).
    + rewrite Hcj, Hqns, Hqu.
      assert (cronJobMap (stored_owners r) !! ns_name ns o2.(OwnerReference.Name) =
              CronJobToModel <$> crons (ns_name ns o2.(OwnerReference.Name))) as -> by exact Hcx.
      by destruct (crons _).
    + rewrite Hqns, Hqn. exact Hjx.
    + by rewrite Hcj.
Qed.

(** ** Witnesses *)

Definition ex_service : Service.t := {|
  Service.Meta := ObjectMeta.mk "front" "shop" "u-svc" None None 0 [];
  Service.Spec := ServiceSpec.mk [] (ex_labels [("app", "web")]) "" [] "ClusterIP" [] "None" None;
  Service.LoadBalancer := [] |}.

Definition ex_selected : Deployment.t := {|
  Deployment.Meta := ObjectMeta.mk "web" "shop" "u-web" None None 0 [];
  Deployment.Spec := DeploymentSpec.mk None (Some (LabelSelector.mk (ex_labels [("app", "web"); ("tier", "front")])))
    [] (DeploymentStrategy.mk "Recreate" None) false;
  Deployment.Status := DeploymentStatus.mk 0 0 0 0 [] |}.

Definition ex_service_events : list (Time * informer_event Service.t) := [(1, OnAdd (Typed ex_service))].
Definition ex_selected_events : list (Time * informer_event Deployment.t) := [(2, OnAdd (Typed ex_selected))].
Definition ex_links1 : Shared.t := handle_all ex_selected_events ex_shared0.
Definition ex_links : Shared.t := handle_all ex_service_events ex_links1.

Lemma service_targets_deployments_witness :
  exists info,
    info ∈ (Build ex_config (Some agent_pipeline) ""
      (ex_reads ex_links.(Shared.store) (TypedStore.NewTypedStore 0) ∅ 0)).(BuildResult.snapshot).(ClusterSnapshot.Services) /\
    WorkloadReference.mk "Deployment" "web" "shop" ∈ info.(ServiceInfo.TargetWorkloads) /\
    ~ WorkloadReference.mk "Deployment" "api" "shop" ∈ info.(ServiceInfo.TargetWorkloads).
Proof.
  assert (mirrors ex_links.(Shared.store) (fun k => live obj_key k (reverse ex_service_events))) as Hs.
  { apply (handle_all_mirrors ex_service_events ex_links1). intros k. apply lookup_empty. }
  assert (mirrors ex_links.(Shared.store) (fun k => live obj_key k (reverse ex_selected_events))) as Hd.
  { apply (mirrors_frame ex_service_events ex_links1); [done|].
    apply (handle_all_mirrors ex_selected_events ex_shared0). intros k. apply lookup_empty. }
  destruct (service_targets_deployments ex_config ""
    (ex_reads ex_links.(Shared.store) (TypedStore.NewTypedStore 0) ∅ 0) _ _ "shop/front" ex_service Hs Hd)
    as (info & Hin & _ & _ & Ht); [reflexivity|done|].
  exists info. split; [exact Hin|split].
  - apply Ht. exists "shop/web", ex_selected. cbv zeta. split_and!; try reflexivity.
    apply labelsMatch_spec. vm_compute. reflexivity.
  - intros (kd & d & Hl & Hname & _)%Ht. revert Hl. cbn [live reverse rev_append observed].
    unfold reverse. cbn. case_decide; [|done]. intros [= <-]. discriminate Hname.
Defined.

Definition ex_cronjob : CronJob.t :=
  CronJob.mk (ObjectMeta.mk "backup" "shop" "u-cj" None None 0 []) "0 3 * * *" "Forbid" None [] [] None None.

Definition ex_job_obj : Job.t := {|
  Job.Meta := ObjectMeta.mk "backup-1" "shop" "u-job" None None 0 [ex_owner "CronJob" "backup" "u-cj"];
  Job.Spec := JobSpec.mk None None None None [] None;
  Job.Status := JobStatus.mk [] None None 1 0 0 |}.

Definition ex_job_pod_obj : Pod.t := {|
  Pod.Meta := ObjectMeta.mk "backup-1-x" "shop" "u-pod" None None 0 [ex_owner "Job" "backup-1" "u-job"];
  Pod.Spec := PodSpec.mk [] [] [] "" "" false "" "" None;
  Pod.Status := PodStatus.mk "Running" [] "" "" "" [] [] "" |}.

Definition ex_cron_events : list (Time * informer_event CronJob.t) := [(1, OnAdd (Typed ex_cronjob))].
Definition ex_job_events : list (Time * informer_event Job.t) := [(2, OnAdd (Typed ex_job_obj))].
Definition ex_job_pod_events : list (Time * informer_event Pod.t) := [(3, OnAdd (Typed ex_job_pod_obj))].
Definition ex_cron1 : Shared.t := handle_all ex_cron_events ex_shared0.
Definition ex_cron2 : Shared.t := handle_all ex_job_events ex_cron1.
Definition ex_cron : Shared.t := handle_all ex_job_pod_events ex_cron2.

Lemma cronjob_pod_reported_witness :
  exists pod,
    pod ∈ (Build ex_config (Some agent_pipeline) ""
      (ex_reads ex_cron.(Shared.store) (TypedStore.NewTypedStore 0) ∅ 0)).(BuildResult.snapshot).(ClusterSnapshot.Pods) /\
    pod_owner pod = mkOwner "CronJob" "backup" "u-cj".
Proof.
  assert (mirrors ex_cron.(Shared.store) (fun k => live obj_key k (reverse ex_job_pod_events))) as Hp.
  { apply (handle_all_mirrors ex_job_pod_events ex_cron2). intros k. apply lookup_empty. }
  assert (mirrors ex_cron.(Shared.store) (fun k => live obj_key k (reverse ex_job_events))) as Hj.
  { apply (mirrors_frame ex_job_pod_events ex_cron2); [done|].
    apply (handle_all_mirrors ex_job_events ex_cron1). intros k. apply lookup_empty. }
  assert (mirrors ex_cron.(Shared.store) (fun k => live obj_key k (reverse ex_cron_events))) as Hc.
  { apply (mirrors_frame ex_job_pod_events ex_cron2); [done|].
    apply (mirrors_frame ex_job_events ex_cron1); [done|].
    apply (handle_all_mirrors ex_cron_events ex_shared0). intros k. apply lookup_empty. }
  destruct (cronjob_pod_reported ex_config ""
    (ex_reads ex_cron.(Shared.store) (TypedStore.NewTypedStore 0) ∅ 0) _ _ _ "shop/backup-1-x"
    ex_job_pod_obj ex_job_obj (ex_owner "Job" "backup-1" "u-job") [] (ex_owner "CronJob" "backup" "u-cj")
    (mirrors_upto_intro (≡) _ _ Hp) Hj Hc)
    as (pod & Hin & _ & Ho); try reflexivity; try apply live_well_keyed; [discriminate|].
  exists pod. split; [exact Hin|exact Ho].
Defined.
