(* ===== verification/Http.v ===== *)
(** * HTTP clients

    A client that sends one request after another is a finite tree: it returns,
    fails, or hands a request to [http.Client.Do] and goes on with the answer.
    It is run against a server, any function of the requests handed so far: what
    [Do] returns.  The redirections [Do] follows before it returns are the last
    part of the file: a transport, which answers single requests, and the server
    it makes of a client with the default policy. *)

From S2P Require Import Prelude GoNum GoStrings.
Open Scope string_scope.
Open Scope list_scope.
Open Scope Z_scope.

(** Headers are the keys and values given to [Header.Set]. *)
Module Request.
Record t := mk { Method : string; URL : string; Headers : list (string * string) }.
End Request.

#[export] Instance request_eq_dec : EqDecision Request.t.
Proof. solve_decision. Defined.

(** The bytes of a body, and the error that ends reading it, if one does. *)
Module HttpResponse.
Record t := mk { StatusCode : int; Body : string; ReadErr : option string }.
End HttpResponse.

Inductive http (A : Type) : Type :=
  | Ret (a : A)
  | Throw (e : string)
  | Do (req : Request.t) (k : string + HttpResponse.t -> http A).
Arguments Ret {A} _.
Arguments Throw {A} _.
Arguments Do {A} _ _.

#[export] Instance http_bind : MBind http := fun A B f =>
  fix bind m := match m with
                | Ret a => f a
                | Throw e => Throw e
                | Do req k => Do req (fun r => bind (k r))
                end.

#[export] Instance http_ret : MRet http := @Ret.

(** Go on with [q] when [p] fails. *)
Fixpoint or_else {A} (p q : http A) : http A :=
  match p with
  | Ret a => Ret a
  | Throw _ => q
  | Do req k => Do req (fun r => or_else (k r) q)
  end.

(** What [client.Do] answers to a request, after those handed to it before: an
    error, or a response. *)
Abbreviation server := (list Request.t -> Request.t -> string + HttpResponse.t) (only parsing).

(** The result and every request handed to the client, after those in [sent]. *)
Fixpoint interp {A} (srv : server) (sent : list Request.t) (p : http A) : (string + A) * list Request.t :=
  match p with
  | Ret a => (inr a, sent)
  | Throw e => (inl e, sent)
  | Do req k => interp srv (sent ++ [req]) (k (srv sent req))
  end.

Section Client.
(** The error of [http.NewRequestWithContext] for a URL that does not parse. *)
Context (url_err : string -> option string).

Definition do_request (method url : string) (headers : list (string * string)) : http HttpResponse.t :=
  match url_err url with
  | Some e => Throw e
  | None => Do (Request.mk method url headers)
              (fun r => match r with inl e => Throw e | inr resp => Ret resp end)
  end.
End Client.

(** [io.ReadAll(resp.Body)] *)
Definition read_all (resp : HttpResponse.t) : http string :=
  match resp.(HttpResponse.ReadErr) with Some e => Throw e | None => Ret resp.(HttpResponse.Body) end.

(** ** Redirections *)

(** The headers a redirection to another domain loses. *)
Definition sensitive : list string :=
  ["Authorization"; "Www-Authenticate"; "Cookie"; "Cookie2"; "Proxy-Authorization"; "Proxy-Authenticate"].

(** [redirectBehavior], of a request without a body: the method of the next
    request, when the status redirects. *)
Definition redirectBehavior (method : string) (status : int) : option string :=
  if decide (status ∈ [301; 302; 303]) then
    Some (if decide (method = "GET" \/ method = "HEAD") then method else "GET")
  else if decide (status ∈ [307; 308]) then Some method
  else None.

Section Redirects.
(** The functions of net/url the client calls: [Parse] of a Location against the
    URL of the request, whether two URLs are of one domain, and the referer one
    URL gives to another. *)
Context (url_parse : string -> string -> option string)
        (same_domain : string -> string -> bool)
        (refererForURL : string -> string -> string).
(** The transport: the answer to one request, with its Location header. *)
Context (transport : list Request.t -> Request.t -> string + (HttpResponse.t * string)).

(** Where an answer redirects a request: the method and the location. *)
Definition redirection (req : Request.t) (answer : string + (HttpResponse.t * string)) : option (string * string) :=
  match answer with
  | inr (resp, location) =>
      if decide (location = "") then None
      else (fun m => (m, location)) <$> redirectBehavior req.(Request.Method) resp.(HttpResponse.StatusCode)
  | inl _ => None
  end.

(** The request that follows a redirection to [url]: the headers of the first
    one, and the referer. *)
Definition redirected (first req : Request.t) (strip : bool) (method url : string) : Request.t :=
  let headers := filter (fun h => strip = false \/ h.1 ∉ sensitive) first.(Request.Headers) in
  let ref := refererForURL req.(Request.URL) url in
  Request.mk method url (headers ++ if decide (ref = "") then [] else [("Referer", ref)]).

(** The loop of [Client.do]: [hops] more redirections are followed; the sensitive
    headers are dropped once the domain of [first] has been left. *)
Fixpoint follow (hops : nat) (first req : Request.t) (strip : bool) (sent : list Request.t) :
    (string + HttpResponse.t) * list Request.t :=
  let answer := transport sent req in
  let sent := sent ++ [req] in
  match redirection req answer with
  | None => (match answer with inl e => inl e | inr (resp, _) => inr resp end, sent)
  | Some (method, location) =>
      match url_parse req.(Request.URL) location with
      | None => (inl ("failed to parse Location header " +:+ location), sent)
      | Some url =>
          let strip := strip || negb (same_domain first.(Request.URL) url) in
          match hops with
          | O => (inl "stopped after 10 redirects", sent)
          | S hops => follow hops first (redirected first req strip method url) strip sent
          end
      end
  end.

Definition client_do (sent : list Request.t) (req : Request.t) : (string + HttpResponse.t) * list Request.t :=
  follow 9 req req false sent.

(** The requests on the wire for those handed to the client, and the client as
    the server of a program. *)
Definition on_wire (handed : list Request.t) : list Request.t :=
  foldl (fun sent req => (client_do sent req).2) [] handed.

Definition client (handed : list Request.t) (req : Request.t) : string + HttpResponse.t :=
  (client_do (on_wire handed) req).1.

(** A request of the chain that starts with [first]: it has its headers but for
    the sensitive ones, and its method or GET. *)
Definition continues (first q : Request.t) : Prop :=
  (forall h, h ∈ first.(Request.Headers) -> h.1 ∉ sensitive -> h ∈ q.(Request.Headers)) /\
  (q.(Request.Method) = first.(Request.Method) \/ q.(Request.Method) = "GET").

Lemma redirection_method req answer m location :
  redirection req answer = Some (m, location) -> m = req.(Request.Method) \/ m = "GET".
Proof.
  unfold redirection, redirectBehavior. destruct answer as [e|[resp l]]; [done|]. case_decide; [done|].
  repeat case_decide; cbn; intros [= <- _]; by auto.
Qed.

Lemma redirected_continues first req strip m url :
  m = first.(Request.Method) \/ m = "GET" -> continues first (redirected first req strip m url).
Proof.
  intros Hm. split; [|done]. intros h Hh Hs. cbn. apply elem_of_app. left. apply list_elem_of_filter. by auto.
Qed.

(** What a call of the client sends: the request, and at most [hops] that
    continue it. *)
Lemma follow_sent hops first req strip sent :
  continues first req ->
  exists more, (follow hops first req strip sent).2 = sent ++ req :: more /\ (length more <= hops)%nat /\
    Forall (continues first) more.
Proof.
  revert req strip sent. induction hops as [|hops IH]; intros req strip sent Hreq; cbn [follow];
    destruct (redirection req _) as [[m location]|] eqn:Hr;
    try (exists []; split; [done|]; split; [cbn; lia|by constructor]);
    destruct (url_parse _ _) as [url|]; try (exists []; split; [done|]; split; [cbn; lia|by constructor]).
  set (strip' := strip || _). assert (continues first (redirected first req strip' m url)) as Hc.
  { apply redirected_continues. destruct (redirection_method _ _ _ _ Hr) as [->| ->]; [apply Hreq|by right]. }
  destruct (IH _ strip' (sent ++ [req]) Hc) as (more & -> & Hl & Hmore).
  exists (redirected first req strip' m url :: more). rewrite <- app_assoc. split; [done|].
  split; [cbn; lia|by constructor].
Qed.

(** The wire, request by request handed to the client. *)
Lemma on_wire_chains handed :
  exists chains, on_wire handed = concat (zip_with cons handed chains) /\
    Forall2 (fun req more => (length more <= 9)%nat /\ Forall (continues req) more) handed chains.
Proof.
  assert (forall sent, exists chains,
    foldl (fun sent req => (client_do sent req).2) sent handed = sent ++ concat (zip_with cons handed chains) /\
    Forall2 (fun req more => (length more <= 9)%nat /\ Forall (continues req) more) handed chains) as H; [|exact (H [])].
  induction handed as [|req handed IH]; intros sent; cbn [foldl]; [exists []; split; [by rewrite app_nil_r|constructor]|].
  destruct (follow_sent 9 req req false sent) as (more & Hs & Hl & Hmore); [by split; [|left]|].
  unfold client_do at 2. rewrite Hs. destruct (IH (sent ++ req :: more)) as (chains & -> & Hc).
  exists (more :: chains). split; [by cbn; rewrite <- app_assoc|]. by constructor.
Qed.

(** Without a redirection the wire has what is handed to the client. *)
Lemma on_wire_direct handed :
  (forall sent req, redirection req (transport sent req) = None) -> on_wire handed = handed.
Proof.
  intros Hno. unfold on_wire. assert (forall sent, foldl (fun sent req => (client_do sent req).2) sent handed = sent ++ handed) as H;
    [|exact (H [])].
  induction handed as [|req handed IH]; intros sent; cbn [foldl]; [by rewrite app_nil_r|].
  rewrite IH. unfold client_do. cbn [follow]. rewrite Hno. cbn [snd]. by rewrite <- app_assoc.
Qed.
End Redirects.

(** ** Lemmas *)

Section Interp.
Context (srv : server).

Lemma interp_bind {A B} sent (p : http A) (f : A -> http B) :
  interp srv sent (p ≫= f) =
    match interp srv sent p with
    | (inr a, sent') => interp srv sent' (f a)
    | (inl e, sent') => (inl e, sent')
    end.
Proof.
  revert sent. induction p as [a|e|req k IH]; intros sent; [done..|]. exact (IH (srv sent req) (sent ++ [req])).
Qed.

Lemma interp_or_else {A} sent (p q : http A) :
  interp srv sent (or_else p q) =
    match interp srv sent p with
    | (inr a, sent') => (inr a, sent')
    | (inl _, sent') => interp srv sent' q
    end.
Proof.
  revert sent. induction p as [a|e|req k IH]; intros sent; [done..|]. exact (IH (srv sent req) (sent ++ [req])).
Qed.

Lemma interp_do_request url_err sent method url headers :
  interp srv sent (do_request url_err method url headers) =
    match url_err url with
    | Some e => (inl e, sent)
    | None => let req := Request.mk method url headers in (srv sent req, sent ++ [req])
    end.
Proof. unfold do_request. destruct (url_err url); [done|]. cbn. by destruct (srv _ _). Qed.

Lemma interp_read_all sent resp :
  interp srv sent (read_all resp) =
    (match resp.(HttpResponse.ReadErr) with Some e => inl e | None => inr resp.(HttpResponse.Body) end, sent).
Proof. unfold read_all. by destruct (HttpResponse.ReadErr resp). Qed.

(** The requests already sent stay. *)
Lemma interp_sent {A} sent (p : http A) : exists new, (interp srv sent p).2 = sent ++ new.
Proof.
  revert sent. induction p as [a|e|req k IH]; intros sent; [exists []; by rewrite app_nil_r..|].
  destruct (IH (srv sent req) (sent ++ [req])) as [new Hn]. exists (req :: new). cbn. by rewrite Hn, <- app_assoc.
Qed.
End Interp.
