(* ===== verification/CloudMetadata.v ===== *)
(** * Cloud metadata: internal/cloud/metadata.go

    The metadata services of AWS, GCP and Azure are probed in this order; the
    first that answers gives the account, the region and the instance. *)

From S2P Require Import Prelude GoNum GoStrings Cloud Http.
Open Scope string_scope.
Open Scope list_scope.
Open Scope Z_scope.

Module CloudMetadata.
Record t := mk {
  AccountID : string;
  Region : string;
  Zone : string;
  InstanceType : string;
  InstanceID : string;
  Provider : string }.
Definition zero : t := mk "" "" "" "" "" "".
End CloudMetadata.

(** The two documents the decoders fill. *)
Module AWSDoc.
Record t := mk {
  AccountID : string;
  Region : string;
  AvailabilityZone : string;
  InstanceType : string;
  InstanceID : string }.
End AWSDoc.

Module AzureDoc.
Record t := mk { SubscriptionID : string; Location : string; VMSize : string; VMID : string }.
End AzureDoc.

Definition awsIMDSBase := "http://169.254.169.254".
Definition gcpMetadataBase := "http://metadata.google.internal/computeMetadata/v1".
Definition azureIMDSBase := "http://169.254.169.254".

(** [if resp.StatusCode != http.StatusOK { return ..., fmt.Errorf(...) }] *)
Definition expect_ok (what : string) (resp : HttpResponse.t) : http unit :=
  if resp.(HttpResponse.StatusCode) =? 200 then Ret ()
  else Throw (what +:+ " returned " +:+ itoa resp.(HttpResponse.StatusCode)).

(** [s[strings.LastIndex(s, "/")+1:]], the whole of [s] without a slash. *)
Definition last_segment (s : string) : string :=
  let idx := LastIndex s "/" in if 0 <=? idx then slice_from s (idx + 1) else s.

(** A zone without its last part. *)
Definition zone_region (zone : string) : string :=
  let idx := LastIndex zone "-" in if 0 <? idx then slice_to zone idx else zone.

Section Detect.
(** The URL parser and the two JSON decoders, of the bytes and the read error. *)
Context (url_err : string -> option string).
Context (decodeAWS : HttpResponse.t -> string + AWSDoc.t).
Context (decodeAzure : HttpResponse.t -> string + AzureDoc.t).

Definition decode {A} (d : string + A) : http A := match d with inl e => Throw e | inr a => Ret a end.

Definition aws_token_headers := [("X-aws-ec2-metadata-token-ttl-seconds", "60")].

Definition detectAWSURL (base : string) : http CloudMetadata.t :=
  tokenResp ← do_request url_err "PUT" (base +:+ "/latest/api/token") aws_token_headers;
  _ ← expect_ok "IMDS token request" tokenResp;
  token ← read_all tokenResp;
  docResp ← do_request url_err "GET" (base +:+ "/latest/dynamic/instance-identity/document")
              [("X-aws-ec2-metadata-token", token)];
  _ ← expect_ok "IMDS identity document" docResp;
  doc ← decode (decodeAWS docResp);
  Ret {| CloudMetadata.AccountID := doc.(AWSDoc.AccountID);
         CloudMetadata.Region := doc.(AWSDoc.Region);
         CloudMetadata.Zone := doc.(AWSDoc.AvailabilityZone);
         CloudMetadata.InstanceType := doc.(AWSDoc.InstanceType);
         CloudMetadata.InstanceID := doc.(AWSDoc.InstanceID);
         CloudMetadata.Provider := "aws" |}.

(** The closure [get] of [detectGCPURL]. *)
Definition gcp_get (base path : string) : http string :=
  resp ← do_request url_err "GET" (base +:+ path) [("Metadata-Flavor", "Google")];
  _ ← expect_ok ("GCP metadata " +:+ path) resp;
  read_all resp.

Definition detectGCPURL (base : string) : http CloudMetadata.t :=
  projectID ← gcp_get base "/project/project-id";
  zonePath ← gcp_get base "/instance/zone";
  machineTypePath ← gcp_get base "/instance/machine-type";
  let zone := last_segment zonePath in
  Ret {| CloudMetadata.AccountID := projectID;
         CloudMetadata.Region := zone_region zone;
         CloudMetadata.Zone := zone;
         CloudMetadata.InstanceType := last_segment machineTypePath;
         CloudMetadata.InstanceID := "";
         CloudMetadata.Provider := "gcp" |}.

Definition detectAzureURL (base : string) : http CloudMetadata.t :=
  resp ← do_request url_err "GET" (base +:+ "/metadata/instance?api-version=2021-02-01")
           [("Metadata", "true")];
  _ ← expect_ok "azure IMDS" resp;
  doc ← decode (decodeAzure resp);
  Ret {| CloudMetadata.AccountID := doc.(AzureDoc.SubscriptionID);
         CloudMetadata.Region := doc.(AzureDoc.Location);
         CloudMetadata.Zone := "";
         CloudMetadata.InstanceType := doc.(AzureDoc.VMSize);
         CloudMetadata.InstanceID := doc.(AzureDoc.VMID);
         CloudMetadata.Provider := "azure" |}.

Definition detectAWS := detectAWSURL awsIMDSBase.
Definition detectGCP := detectGCPURL gcpMetadataBase.
Definition detectAzure := detectAzureURL azureIMDSBase.

(** The loop over the providers: the first without an error. *)
Fixpoint detect_first (providers : list (http CloudMetadata.t)) : http CloudMetadata.t :=
  match providers with
  | [] => Ret CloudMetadata.zero
  | p :: providers => or_else p (detect_first providers)
  end.

Definition DetectCloudMetadata : http CloudMetadata.t := detect_first [detectAWS; detectGCP; detectAzure].

(** ** The requests *)

Definition aws_token_request : Request.t :=
  Request.mk "PUT" (awsIMDSBase +:+ "/latest/api/token") aws_token_headers.

Definition aws_requests (token : string) : list Request.t :=
  [aws_token_request;
   Request.mk "GET" (awsIMDSBase +:+ "/latest/dynamic/instance-identity/document")
     [("X-aws-ec2-metadata-token", token)]].

Definition gcp_request (path : string) : Request.t :=
  Request.mk "GET" (gcpMetadataBase +:+ path) [("Metadata-Flavor", "Google")].

Definition gcp_requests : list Request.t :=
  [gcp_request "/project/project-id"; gcp_request "/instance/zone"; gcp_request "/instance/machine-type"].

Definition azure_requests : list Request.t :=
  [Request.mk "GET" (azureIMDSBase +:+ "/metadata/instance?api-version=2021-02-01") [("Metadata", "true")]].

(** The token that the answer to the first request holds. *)
Definition answered_token (answer : string + HttpResponse.t) : string :=
  match answer with inr resp => resp.(HttpResponse.Body) | inl _ => "" end.

(** ** Lemmas *)

Section Runs.
Context (srv : server).

Lemma interp_expect_ok sent what resp :
  interp srv sent (expect_ok what resp) =
    (if resp.(HttpResponse.StatusCode) =? 200 then inr ()
     else inl (what +:+ " returned " +:+ itoa resp.(HttpResponse.StatusCode)), sent).
Proof. unfold expect_ok. by destruct (_ =? _). Qed.

Lemma interp_decode {A} sent (d : string + A) : interp srv sent (decode d) = (d, sent).
Proof. by destruct d. Qed.

(** A detector sends a beginning of its requests, all of them when it succeeds. *)
Definition sends (p : http CloudMetadata.t) (provider : string) (reqs : list Request.t) (sent : list Request.t) :
    Prop :=
  exists n, (interp srv sent p).2 = sent ++ take n reqs /\
    forall md, (interp srv sent p).1 = inr md -> n = length reqs /\ md.(CloudMetadata.Provider) = provider.

Lemma detectAWS_sends sent :
  sends detectAWS "aws" (aws_requests (answered_token (srv sent aws_token_request))) sent.
Proof.
  unfold sends, detectAWS, detectAWSURL. rewrite interp_bind, interp_do_request.
  destruct (url_err _); [by exists 0%nat; rewrite app_nil_r|]. cbv zeta. fold aws_token_request.
  destruct (srv sent aws_token_request) as [e|resp]; [by exists 1%nat|].
  rewrite interp_bind, interp_expect_ok. destruct (_ =? _); [|by exists 1%nat].
  rewrite interp_bind, interp_read_all. destruct (HttpResponse.ReadErr resp); [by exists 1%nat|].
  rewrite interp_bind, interp_do_request. destruct (url_err _); [by exists 1%nat|]. cbv zeta.
  rewrite <- app_assoc. exists 2%nat.
  destruct (srv _ _) as [e|resp2]; [done|].
  rewrite interp_bind, interp_expect_ok. destruct (_ =? _); [|done].
  rewrite interp_bind, interp_decode. destruct (decodeAWS resp2); [done|].
  split; [done|]. by intros md [= <-].
Qed.

Lemma interp_gcp_get sent path :
  (exists e n, interp srv sent (gcp_get gcpMetadataBase path) = (inl e, sent ++ take n [gcp_request path])) \/
  (exists body, interp srv sent (gcp_get gcpMetadataBase path) = (inr body, sent ++ [gcp_request path])).
Proof.
  unfold gcp_get. rewrite interp_bind, interp_do_request.
  destruct (url_err _) as [e|]; [left; exists e, 0%nat; by rewrite app_nil_r|]. cbv zeta. fold (gcp_request path).
  destruct (srv sent _) as [e|resp]; [left; by exists e, 1%nat|].
  rewrite interp_bind, interp_expect_ok. destruct (_ =? _); [|left; by eexists _, 1%nat].
  rewrite interp_read_all. destruct (HttpResponse.ReadErr resp); [left; by eexists _, 1%nat|right; by eexists].
Qed.

Lemma detectGCP_sends sent : sends detectGCP "gcp" gcp_requests sent.
Proof.
  unfold sends, detectGCP, detectGCPURL. rewrite interp_bind.
  destruct (interp_gcp_get sent "/project/project-id") as [(e & n & ->)|(b1 & ->)].
  { exists (min n 1). split; [|done]. by destruct n as [|[|n]]. }
  rewrite interp_bind.
  destruct (interp_gcp_get (sent ++ [gcp_request "/project/project-id"]) "/instance/zone")
    as [(e & n & ->)|(b2 & ->)].
  { exists (1 + min n 1)%nat. split; [|done]. cbn [snd]. rewrite <- app_assoc. by destruct n as [|[|n]]. }
  rewrite interp_bind.
  destruct (interp_gcp_get ((sent ++ [gcp_request "/project/project-id"]) ++ [gcp_request "/instance/zone"])
    "/instance/machine-type") as [(e & n & ->)|(b3 & ->)].
  { exists (2 + min n 1)%nat. split; [|done]. cbn [snd]. rewrite <- !app_assoc. by destruct n as [|[|n]]. }
  exists 3%nat. cbn. rewrite <- !app_assoc. split; [done|]. by intros md [= <-].
Qed.

Lemma detectAzure_sends sent : sends detectAzure "azure" azure_requests sent.
Proof.
  unfold sends, detectAzure, detectAzureURL. rewrite interp_bind, interp_do_request.
  destruct (url_err _); [by exists 0%nat; rewrite app_nil_r|]. cbv zeta. exists 1%nat.
  destruct (srv sent _) as [e|resp]; [done|].
  rewrite interp_bind, interp_expect_ok. destruct (_ =? _); [|done].
  rewrite interp_bind, interp_decode. destruct (decodeAzure resp); [done|].
  split; [done|]. by intros md [= <-].
Qed.
End Runs.

(** What the detection hands to the client and what it returns, whatever the
    client answers. *)
Lemma DetectCloudMetadata_handed (srv : server) :
  exists md n1 n2 n3,
    interp srv [] DetectCloudMetadata =
      (inr md, take n1 (aws_requests (answered_token (srv [] aws_token_request))) ++
               take n2 gcp_requests ++ take n3 azure_requests) /\
    ((md.(CloudMetadata.Provider) = "aws" /\ n1 = 2%nat /\ n2 = 0%nat /\ n3 = 0%nat) \/
     (md.(CloudMetadata.Provider) = "gcp" /\ n2 = 3%nat /\ n3 = 0%nat) \/
     (md.(CloudMetadata.Provider) = "azure" /\ n3 = 1%nat) \/
     md = CloudMetadata.zero).
Proof.
  unfold DetectCloudMetadata. cbn [detect_first].
  destruct (detectAWS_sends srv []) as (n1 & H1 & P1). set (reqs1 := aws_requests _) in *.
  rewrite interp_or_else. destruct (interp srv [] detectAWS) as [[e1|md] s1]; cbn [fst snd] in *; subst s1.
  2: { destruct (P1 md eq_refl) as [-> Hp]. exists md, 2%nat, 0%nat, 0%nat. split; [done|]. by left. }
  destruct (detectGCP_sends srv ([] ++ take n1 reqs1)) as (n2 & H2 & P2).
  rewrite interp_or_else. destruct (interp srv _ detectGCP) as [[e2|md] s2]; cbn [fst snd] in *; subst s2.
  2: { destruct (P2 md eq_refl) as [-> Hp]. exists md, n1, 3%nat, 0%nat. split; [done|]. right; by left. }
  destruct (detectAzure_sends srv (([] ++ take n1 reqs1) ++ take n2 gcp_requests)) as (n3 & H3 & P3).
  rewrite interp_or_else. destruct (interp srv _ detectAzure) as [[e3|md] s3]; cbn [fst snd] in *; subst s3.
  2: { destruct (P3 md eq_refl) as [-> Hp]. exists md, n1, n2, 1%nat.
       split; [by rewrite <- app_assoc|]. right; right; by left. }
  exists CloudMetadata.zero, n1, n2, n3. split; [cbn; by rewrite <- app_assoc|]. by repeat right.
Qed.

(** None of the requests has a header that a redirection drops. *)
Lemma handed_headers token n1 n2 n3 :
  Forall (fun req => Forall (fun h => h.1 ∉ sensitive) req.(Request.Headers))
    (take n1 (aws_requests token) ++ take n2 gcp_requests ++ take n3 azure_requests).
Proof.
  rewrite !Forall_app. split_and!; apply Forall_take; repeat constructor; cbn; set_solver.
Qed.

(** ** Properties *)

(** C35 Whatever answers, the detection ends, never fails, and hands the HTTP client
    only the six well-known requests, in their order, each provider's only when
    the ones before it failed: the session token, the body of the answer to the
    first, is handed over in the second AWS request and nowhere else.  The
    metadata is of the provider whose requests were all answered, and empty when
    there is none.  On the wire each of them can be followed by at most nine
    redirections; the client follows them by default, and every one carries the
    headers of the request that was redirected, the token too, wherever it leads.
    When nothing redirects, the wire has the six requests only. *)
Theorem DetectCloudMetadata_requests url_parse same_domain refererForURL
    (transport : list Request.t -> Request.t -> string + (HttpResponse.t * string)) :
  let srv := client url_parse same_domain refererForURL transport in
  let wire := on_wire url_parse same_domain refererForURL transport in
  exists md n1 n2 n3,
    let handed := take n1 (aws_requests (answered_token (srv [] aws_token_request))) ++
                  take n2 gcp_requests ++ take n3 azure_requests in
    interp srv [] DetectCloudMetadata = (inr md, handed) /\
    ((md.(CloudMetadata.Provider) = "aws" /\ n1 = 2%nat /\ n2 = 0%nat /\ n3 = 0%nat) \/
     (md.(CloudMetadata.Provider) = "gcp" /\ n2 = 3%nat /\ n3 = 0%nat) \/
     (md.(CloudMetadata.Provider) = "azure" /\ n3 = 1%nat) \/
     md = CloudMetadata.zero) /\
    (exists chains, wire handed = concat (zip_with cons handed chains) /\
       Forall2 (fun req more => (length more <= 9)%nat /\
         Forall (fun q => (forall h, h ∈ req.(Request.Headers) -> h ∈ q.(Request.Headers)) /\
                          (q.(Request.Method) = req.(Request.Method) \/ q.(Request.Method) = "GET")) more) handed chains) /\
    ((forall sent req, redirection req (transport sent req) = None) -> wire handed = handed).
Proof.
  intros srv wire. destruct (DetectCloudMetadata_handed srv) as (md & n1 & n2 & n3 & Hi & Hp).
  exists md, n1, n2, n3. intros handed. split; [exact Hi|]. split; [exact Hp|]. split; [|by apply on_wire_direct].
  destruct (on_wire_chains url_parse same_domain refererForURL transport handed) as (chains & Hw & Hc).
  exists chains. split; [exact Hw|]. pose proof (handed_headers (answered_token (srv [] aws_token_request)) n1 n2 n3) as Hs.
  fold handed in Hs. clearbody handed. clear Hw Hi. induction Hc as [|req more handed chains [Hl Hm] _ IH]; constructor.
  - split; [done|]. apply (Forall_impl _ _ _ Hm). intros q [Hq Hqm]. split; [|done]. intros h Hh.
    apply Hq; [done|]. by apply (proj1 (Forall_forall _ _) (Forall_inv Hs)).
  - by apply IH, (Forall_inv_tail Hs).
Qed.

(** On GCP the metadata service and the nodes agree: when the service answers
    the project, the zone and the machine type under any path, the metadata has
    the zone, the zone without its last part as the region and the bare machine
    type, and the provider id of a node of that project and zone is parsed to
    the same zone and region. *)
Theorem gcp_metadata_agrees (srv : server) sent project region part p1 p2 machine instance :
  (forall url, url_err url = None) ->
  IndexByte (region +:+ "-" +:+ part) "/" = -1 -> IndexByte part "-" = -1 -> region <> "" ->
  IndexByte machine "/" = -1 -> IndexByte project "/" = -1 -> IndexByte instance "/" = -1 ->
  let zone := region +:+ "-" +:+ part in
  let ok body := inr (HttpResponse.mk 200 body None) in
  (forall sent', srv sent' (gcp_request "/project/project-id") = ok project) ->
  (forall sent', srv sent' (gcp_request "/instance/zone") = ok (p1 +:+ "/" +:+ zone)) ->
  (forall sent', srv sent' (gcp_request "/instance/machine-type") = ok (p2 +:+ "/" +:+ machine)) ->
  let md := CloudMetadata.mk project region zone machine "" "gcp" in
  (interp srv sent detectGCP).1 = inr md /\
  ParseProviderID ("gce://" +:+ project +:+ "/" +:+ zone +:+ "/" +:+ instance) =
    (instance, md.(CloudMetadata.Zone), md.(CloudMetadata.Region)).
Proof.
  intros Hurl Hz Hpart Hr Hm Hp Hi zone ok A1 A2 A3 md. split; [|by apply ParseProviderID_gce].
  assert (forall sent path body, srv sent (gcp_request path) = ok body ->
    interp srv sent (gcp_get gcpMetadataBase path) = (inr body, sent ++ [gcp_request path])) as Hget.
  { intros sent' path body HA. unfold gcp_get. rewrite interp_bind, interp_do_request, Hurl. cbv zeta.
    fold (gcp_request path). by rewrite HA. }
  assert (forall p s, IndexByte s "/" = -1 -> last_segment (p +:+ "/" +:+ s) = s) as Hlast.
  { intros p s Hs. unfold last_segment. change ("/" +:+ s) with (String "/" s).
    rewrite LastIndex_app, slice_from_app by done. by rewrite (proj2 (Z.leb_le _ _)) by apply strlen_nonneg. }
  assert (zone_region zone = region) as Hreg.
  { unfold zone_region, zone. change ("-" +:+ part) with (String "-" part).
    rewrite LastIndex_app, slice_to_app by done. rewrite (proj2 (Z.ltb_lt _ _)); [done|].
    unfold strlen. destruct region; [done|]. cbn [String.length]. lia. }
  unfold detectGCP, detectGCPURL.
  rewrite interp_bind, (Hget _ _ _ (A1 _)), interp_bind, (Hget _ _ _ (A2 _)), interp_bind, (Hget _ _ _ (A3 _)).
  cbn. by rewrite !Hlast, Hreg by done.
Qed.
End Detect.

(** ** Witness *)

(** A server that answers the three GCP requests and nothing else. *)
Definition ex_gcp_server (sent : list Request.t) (req : Request.t) : string + HttpResponse.t :=
  let ok body := inr (HttpResponse.mk 200 body None) in
  if decide (req.(Request.URL) = gcpMetadataBase +:+ "/project/project-id") then ok "shop"
  else if decide (req.(Request.URL) = gcpMetadataBase +:+ "/instance/zone") then ok "projects/1/zones/us-central1-a"
  else if decide (req.(Request.URL) = gcpMetadataBase +:+ "/instance/machine-type")
  then ok "projects/1/machineTypes/e2-standard-4"
  else inl "connection refused".

Lemma gcp_metadata_agrees_witness :
  (interp ex_gcp_server [] (detectGCP (fun _ => None))).1 =
    inr (CloudMetadata.mk "shop" "us-central1" "us-central1-a" "e2-standard-4" "" "gcp") /\
  ParseProviderID "gce://shop/us-central1-a/gke-1" = ("gke-1", "us-central1-a", "us-central1").
Proof.
  apply (gcp_metadata_agrees (fun _ => None) ex_gcp_server [] "shop" "us-central1" "a"
    "projects/1/zones" "projects/1/machineTypes" "e2-standard-4" "gke-1"); try reflexivity; discriminate.
Defined.

(** A metadata service that answers the token request and redirects the next one
    to another host. *)
Definition ex_redirecting (sent : list Request.t) (req : Request.t) : string + (HttpResponse.t * string) :=
  if decide (req = aws_token_request) then inr (HttpResponse.mk 200 "secret" None, "")
  else if decide (req.(Request.URL) = awsIMDSBase +:+ "/latest/dynamic/instance-identity/document")
  then inr (HttpResponse.mk 307 "" None, "http://elsewhere.example/")
  else inl "connection refused".

Lemma DetectCloudMetadata_requests_witness :
  let do_client := client (fun _ loc => Some loc) (fun _ _ => false) (fun _ _ => "") ex_redirecting in
  let wire := on_wire (fun _ loc => Some loc) (fun _ _ => false) (fun _ _ => "") ex_redirecting in
  exists md handed,
    interp do_client [] (DetectCloudMetadata (fun _ => None) (fun _ => inl "") (fun _ => inl "")) = (inr md, handed) /\
    Request.mk "GET" "http://elsewhere.example/" [("X-aws-ec2-metadata-token", "secret")] ∈ wire handed.
Proof.
  intros do_client wire.
  destruct (DetectCloudMetadata_requests (fun _ => None) (fun _ => inl "") (fun _ => inl "") (fun _ loc => Some loc)
    (fun _ _ => false) (fun _ _ => "") ex_redirecting) as (md & n1 & n2 & n3 & Hi & _).
  eexists md, _. split; [exact Hi|].
  apply (f_equal (fun x => bool_decide (Request.mk "GET" "http://elsewhere.example/" [("X-aws-ec2-metadata-token", "secret")] ∈ wire x.2))) in Hi.
  eapply bool_decide_eq_true_1. etransitivity; [exact (eq_sym Hi)|]. vm_compute. reflexivity.
Defined.
