(* ===== verification/Discovery.v ===== *)
(** * Capability discovery: internal/discovery

    The cloud provider from a node (provider.go), the optional features of the
    cluster (capabilities.go) and the access check of a resource (rbac.go).  The
    API server is a record of what it answers to each call. *)

From S2P Require Import Prelude GoNum GoStrings K8s SnapshotBuilder.
Open Scope string_scope.
Open Scope list_scope.
Open Scope Z_scope.

(** ** provider.go *)

Definition providerAWS := "aws".
Definition providerGCP := "gcp".
Definition providerAzure := "azure".
Definition providerUnknown := "unknown".

Definition labelEKSNodeGroup := "eks.amazonaws.com/nodegroup".
Definition labelEKSCapacity := "eks.amazonaws.com/capacityType".
Definition labelGKENodePool := "cloud.google.com/gke-nodepool".
Definition labelAKSNodepoolName := "kubernetes.azure.com/agentpool".

Definition providerFromID (providerID : string) : string :=
  if HasPrefix providerID "aws://" then providerAWS
  else if HasPrefix providerID "gce://" then providerGCP
  else if HasPrefix providerID "azure://" then providerAzure
  else "".

Definition providerFromLabels (labels : gomap string) : string :=
  match labels with
  | None => ""
  | Some labels =>
      match labels !! labelEKSNodeGroup, labels !! labelEKSCapacity,
            labels !! labelGKENodePool, labels !! labelAKSNodepoolName with
      | Some _, _, _, _ => providerAWS
      | None, Some _, _, _ => providerAWS
      | None, None, Some _, _ => providerGCP
      | None, None, None, Some _ => providerAzure
      | None, None, None, None => ""
      end
  end.

Definition DetectProvider (nodes : list Node.t) : string :=
  match nodes with
  | [] => providerUnknown
  | node :: _ =>
      let provider := providerFromID node.(Node.Spec).(NodeSpec.ProviderID) in
      if decide (provider <> "") then provider
      else
        let provider := providerFromLabels node.(Node.Meta).(ObjectMeta.Labels) in
        if decide (provider <> "") then provider else providerUnknown
  end.

(** ** The API server *)

(** What a call of the discovery, list and review APIs answers: an error or the
    data.  [ListNodes] takes the limit of the request, if it has one, [ListPods]
    the label selector, [Review] the group, the resource and the verb. *)
Module API.
Record t := mk {
  ServerGroups : string + list string;
  ServerResourcesForGroupVersion : string -> string + list string;
  ListNodes : option Z -> string + list Node.t;
  ListPods : string -> string + list Pod.t;
  Review : string -> string -> string -> string + bool }.
End API.

(** ** capabilities.go *)

Definition apiGroupMetrics := "metrics.k8s.io".
Definition apiGroupVPA := "autoscaling.k8s.io".
Definition apiGroupKarpenter := "karpenter.sh".

Module Capabilities.
Record t := mk {
  MetricsServer : bool;
  VPA : bool;
  Karpenter : bool;
  Provider : string;
  DCGMExporter : bool;
  DCGMExporterEndpoints : list string }.
End Capabilities.

(** The errors, for their text: a call that failed, with its cause, and the
    phase of [CheckResource] it failed in, with what was checked. *)
Inductive err :=
  | ListGroupsFailed (cause : string)
  | ReviewFailed (group resource verb cause : string)
  | PhaseFailed (phase : Z) (subject : string) (cause : err).

Section Detect.
Context (api : API.t).

(** [groupSet[g.Name] = true] *)
Definition groupSet (groups : list string) : gmap string bool :=
  foldl (fun m g => <[g := true]> m) ∅ groups.

(** Whether a node offers GPUs, whole or in MIG slices. *)
Definition node_has_gpu (node : Node.t) : bool :=
  let allocatable := node.(Node.Status).(NodeStatus.Allocatable) in
  match mlookup allocatable "nvidia.com/gpu" with
  | Some q => 0 <? q.(Quantity.Value)
  | None => false
  end
  || existsb (fun '(rName, _) => HasPrefix rName "nvidia.com/mig-") (map_to_list (mentries allocatable)).

(** The pod IPs of a list of pods that have one. *)
Definition pod_ips (pods : list Pod.t) : list string :=
  foldl (fun endpoints pod =>
           if decide (pod.(Pod.Status).(PodStatus.PodIP) <> "")
           then endpoints ++ [pod.(Pod.Status).(PodStatus.PodIP)] else endpoints) [] pods.

(** The loop over the selectors. *)
Fixpoint try_selectors (selectors : list string) : bool * list string :=
  match selectors with
  | [] => (false, [])
  | sel :: selectors =>
      match api.(API.ListPods) sel with
      | inl _ => try_selectors selectors
      | inr pods =>
          let endpoints := pod_ips pods in
          if 0 <? golen endpoints then (true, endpoints) else try_selectors selectors
      end
  end.

Definition dcgm_selectors := ["app=nvidia-dcgm-exporter"; "app.kubernetes.io/name=dcgm-exporter"].

Definition detectDCGMExporter : bool * list string :=
  match api.(API.ListNodes) None with
  | inl _ => (false, [])
  | inr nodes => if existsb node_has_gpu nodes then try_selectors dcgm_selectors else (false, [])
  end.

Definition DetectDCGMEndpoints : bool * list string := detectDCGMExporter.

Definition Detect : err + Capabilities.t :=
  match api.(API.ServerGroups) with
  | inl e => inl (ListGroupsFailed e)
  | inr groups =>
      let set := groupSet groups in
      let provider := match api.(API.ListNodes) (Some 1) with
                      | inr (node :: _) => DetectProvider [node]
                      | _ => "unknown"
                      end in
      let '(exporter, endpoints) := detectDCGMExporter in
      inr {| Capabilities.MetricsServer := default false (set !! apiGroupMetrics);
             Capabilities.VPA := default false (set !! apiGroupVPA);
             Capabilities.Karpenter := default false (set !! apiGroupKarpenter);
             Capabilities.Provider := provider;
             Capabilities.DCGMExporter := exporter;
             Capabilities.DCGMExporterEndpoints := endpoints |}
  end.

Definition HasAPIGroup (group : string) : err + bool :=
  match api.(API.ServerGroups) with
  | inl e => inl (ListGroupsFailed e)
  | inr groups => inr (existsb (fun g => bool_decide (g = group)) groups)
  end.

(** ** rbac.go *)

Definition hasResource (group version resource : string) : err + bool :=
  let groupVersion := if decide (group <> "") then group +:+ "/" +:+ version else version in
  match api.(API.ServerResourcesForGroupVersion) groupVersion with
  | inl _ => inr false
  | inr resources => inr (existsb (fun r => bool_decide (r = resource)) resources)
  end.

Definition checkAccess (group resource verb : string) : err + bool :=
  match api.(API.Review) group resource verb with
  | inl e => inl (ReviewFailed group resource verb e)
  | inr allowed => inr allowed
  end.

(** The loop over the verbs. *)
Fixpoint check_verbs (group resource : string) (verbs : list string) : err + bool :=
  match verbs with
  | [] => inr true
  | verb :: verbs =>
      match checkAccess group resource verb with
      | inl e => inl e
      | inr false => inr false
      | inr true => check_verbs group resource verbs
      end
  end.

Definition CanListWatch (group resource : string) : err + bool :=
  check_verbs group resource ["list"; "watch"].

Definition CheckResource (group version resource : string) : err + bool :=
  match HasAPIGroup group with
  | inl e => inl (PhaseFailed 1 group e)
  | inr false => inr false
  | inr true =>
      match hasResource group version resource with
      | inl e => inl (PhaseFailed 2 resource e)
      | inr false => inr false
      | inr true =>
          match CanListWatch group resource with
          | inl e => inl (PhaseFailed 3 resource e)
          | inr canAccess => inr canAccess
          end
      end
  end.

(** ** Lemmas *)

Lemma groupSet_lookup groups x : default false (groupSet groups !! x) = bool_decide (x ∈ groups).
Proof.
  unfold groupSet. induction groups as [|g groups IH] using rev_ind; [done|].
  rewrite foldl_app. cbn [foldl]. destruct (decide (g = x)) as [->|Hg].
  - rewrite lookup_insert_eq. symmetry. apply bool_decide_eq_true. set_solver.
  - rewrite lookup_insert_ne by done. rewrite IH. apply bool_decide_ext. set_solver.
Qed.

Lemma existsb_eq (l : list string) x : existsb (fun y => bool_decide (y = x)) l = bool_decide (x ∈ l).
Proof.
  induction l as [|y l IH]; [done|]. cbn [existsb]. rewrite IH. symmetry.
  destruct (decide (y = x)) as [->|Hn].
  - rewrite (bool_decide_eq_true_2 (x = x)) by done. by rewrite bool_decide_eq_true_2 by (by left).
  - rewrite (bool_decide_eq_false_2 _ Hn). apply bool_decide_ext. set_solver.
Qed.

Lemma pod_ips_filter pods :
  pod_ips pods = filter (fun ip => ip <> "") ((fun p => p.(Pod.Status).(PodStatus.PodIP)) <$> pods).
Proof.
  unfold pod_ips. induction pods as [|p pods IH] using rev_ind; [done|].
  rewrite foldl_app, fmap_app, filter_app, <- IH. cbn [foldl fmap list_fmap].
  rewrite filter_cons, filter_nil. case_decide; [done|by rewrite app_nil_r].
Qed.

(** The exporter is reported exactly with endpoints, none of them empty. *)
Lemma try_selectors_spec selectors :
  let '(found, endpoints) := try_selectors selectors in
  (found = true <-> endpoints <> []) /\
  (found = true -> exists sel pods, sel ∈ selectors /\ api.(API.ListPods) sel = inr pods /\
     endpoints = filter (fun ip => ip <> "") ((fun p => p.(Pod.Status).(PodStatus.PodIP)) <$> pods)).
Proof.
  induction selectors as [|sel selectors IH]; [by split|]. cbn [try_selectors].
  assert (let '(found, endpoints) := try_selectors selectors in
    (found = true <-> endpoints <> []) /\
    (found = true -> exists sel0 pods, sel0 ∈ sel :: selectors /\ api.(API.ListPods) sel0 = inr pods /\
       endpoints = filter (fun ip => ip <> "") ((fun p => p.(Pod.Status).(PodStatus.PodIP)) <$> pods))) as IH'.
  { destruct (try_selectors selectors) as [found endpoints]. destruct IH as [Hi Hf]. split; [done|].
    intros (s & ps & Hs & Hr)%Hf. exists s, ps. split; [by right|done]. }
  destruct (API.ListPods api sel) as [e|pods] eqn:E; [exact IH'|].
  destruct (Z.ltb_spec 0 (golen (pod_ips pods))) as [Hl|Hl]; [|exact IH'].
  split.
  - split; [|done]. intros _ Hn. rewrite Hn in Hl. cbv in Hl. done.
  - intros _. exists sel, pods. rewrite pod_ips_filter. split_and!; [by left|done|done].
Qed.

(** ** Properties *)

(** A resource is usable exactly when its API group exists, the group's
    version has the resource and both list and watch are allowed; a group
    version that cannot be read counts as without the resource, and the only
    errors are those of listing the groups and of the access reviews, in this
    order. *)
Theorem CheckResource_phases group version resource :
  let gv := if decide (group <> "") then group +:+ "/" +:+ version else version in
  (CheckResource group version resource = inr true <->
     exists groups resources, api.(API.ServerGroups) = inr groups /\ group ∈ groups /\
       api.(API.ServerResourcesForGroupVersion) gv = inr resources /\ resource ∈ resources /\
       api.(API.Review) group resource "list" = inr true /\ api.(API.Review) group resource "watch" = inr true) /\
  (forall e, CheckResource group version resource = inl e ->
     (exists cause, api.(API.ServerGroups) = inl cause /\ e = PhaseFailed 1 group (ListGroupsFailed cause)) \/
     (exists verb cause, verb ∈ ["list"; "watch"] /\ api.(API.Review) group resource verb = inl cause /\
        e = PhaseFailed 3 resource (ReviewFailed group resource verb cause))).
Proof.
  intros gv. unfold CheckResource, HasAPIGroup, hasResource, CanListWatch, check_verbs, checkAccess. fold gv.
  destruct (API.ServerGroups api) as [e|groups].
  { split; [split; [done|by intros (? & ? & ? & _)]|]. intros e' [= <-]. left. by exists e. }
  rewrite existsb_eq. case_bool_decide as Hg.
  2: { split; [split; [done|]|done]. by intros (? & ? & [= <-] & ? & _). }
  destruct (API.ServerResourcesForGroupVersion api gv) as [e|resources].
  { split; [split; [done|]|done]. by intros (? & ? & _ & _ & ? & _). }
  rewrite existsb_eq. case_bool_decide as Hres.
  2: { split; [split; [done|]|done]. by intros (? & ? & _ & _ & [= <-] & ? & _). }
  destruct (API.Review api group resource "list") as [e|[]] eqn:El.
  { split; [split; [done|]|]. { by intros (? & ? & _ & _ & _ & _ & ? & _). }
    intros e' [= <-]. right. exists "list", e. split_and!; [by left|done|done]. }
  2: { split; [split; [done|]|done]. by intros (? & ? & _ & _ & _ & _ & ? & _). }
  destruct (API.Review api group resource "watch") as [e|[]] eqn:Ew.
  { split; [split; [done|]|]. { by intros (? & ? & _ & _ & _ & _ & _ & ?). }
    intros e' [= <-]. right. exists "watch", e. split_and!; [by right; left|done|done]. }
  - split; [|done]. split; [|done]. intros _. by exists groups, resources.
  - split; [split; [done|]|done]. by intros (? & ? & _ & _ & _ & _ & _ & ?).
Qed.

(** Detection fails only when the API groups cannot be listed.  Otherwise a
    feature is on exactly when its group is listed; the provider is that of the
    snapshot builder for the first node's provider id, where it knows it, and is
    "unknown" without nodes or when they cannot be read; an exporter is reported
    exactly together with endpoints, which are the addresses of the pods of one
    of the selectors, and only if a node offers GPUs. *)
Theorem Detect_capabilities :
  (forall e, Detect = inl e <-> exists cause, api.(API.ServerGroups) = inl cause /\ e = ListGroupsFailed cause) /\
  (forall groups caps, api.(API.ServerGroups) = inr groups -> Detect = inr caps ->
     (caps.(Capabilities.MetricsServer) = true <-> "metrics.k8s.io" ∈ groups) /\
     (caps.(Capabilities.VPA) = true <-> "autoscaling.k8s.io" ∈ groups) /\
     (caps.(Capabilities.Karpenter) = true <-> "karpenter.sh" ∈ groups) /\
     (forall node nodes, api.(API.ListNodes) (Some 1) = inr (node :: nodes) ->
        let p := deriveProvider node.(Node.Spec).(NodeSpec.ProviderID) in
        p <> "" -> caps.(Capabilities.Provider) = p) /\
     ((exists e, api.(API.ListNodes) (Some 1) = inl e) \/ api.(API.ListNodes) (Some 1) = inr [] ->
        caps.(Capabilities.Provider) = "unknown") /\
     (caps.(Capabilities.DCGMExporter) = true <-> caps.(Capabilities.DCGMExporterEndpoints) <> []) /\
     (caps.(Capabilities.DCGMExporter) = true ->
        (exists nodes node, api.(API.ListNodes) None = inr nodes /\ node ∈ nodes /\ node_has_gpu node = true) /\
        exists sel pods, sel ∈ dcgm_selectors /\ api.(API.ListPods) sel = inr pods /\
          caps.(Capabilities.DCGMExporterEndpoints) =
            filter (fun ip => ip <> "") ((fun p => p.(Pod.Status).(PodStatus.PodIP)) <$> pods))).
Proof.
  unfold Detect. split.
  { intros e. destruct (API.ServerGroups api) as [c|groups].
    - split; [intros [= <-]; by exists c|by intros (? & [= <-] & ->)].
    - split; [|by intros (? & ? & _)]. destruct detectDCGMExporter. done. }
  intros groups caps ->. destruct detectDCGMExporter as [found endpoints] eqn:Ed. intros [= <-].
  cbn [Capabilities.MetricsServer Capabilities.VPA Capabilities.Karpenter Capabilities.Provider
    Capabilities.DCGMExporter Capabilities.DCGMExporterEndpoints].
  rewrite !groupSet_lookup, !bool_decide_eq_true.
  assert ((found = true <-> endpoints <> []) /\
    (found = true -> (exists nodes node, api.(API.ListNodes) None = inr nodes /\ node ∈ nodes /\ node_has_gpu node = true) /\
      exists sel pods, sel ∈ dcgm_selectors /\ api.(API.ListPods) sel = inr pods /\
        endpoints = filter (fun ip => ip <> "") ((fun p => p.(Pod.Status).(PodStatus.PodIP)) <$> pods))) as [Hd1 Hd2].
  { unfold detectDCGMExporter in Ed. destruct (API.ListNodes api None) as [e|nodes]; [by injection Ed as <- <-|].
    destruct (existsb node_has_gpu nodes) eqn:Eg; [|by injection Ed as <- <-].
    pose proof (try_selectors_spec dcgm_selectors) as Hs. rewrite Ed in Hs. destruct Hs as [H1 H2].
    split; [done|]. intros Hf. split; [|by apply H2].
    apply existsb_exists in Eg as (node & Hin & Hn). exists nodes, node. by rewrite list_elem_of_In. }
  do 3 (split; [reflexivity|]). split; [|split; [|by split]].
  - intros node nodes -> Hp.
    change (providerFromID ?x) with (deriveProvider x). by rewrite decide_True.
  - by intros [[e ->]| ->].
Qed.
End Detect.

(** ** Witnesses *)

Definition ex_gpu_node : Node.t := {|
  Node.Meta := ObjectMeta.mk "gpu-1" "" "u1" None None 0 [];
  Node.Spec := NodeSpec.mk "" [] "aws:///us-east-1a/i-1" false [];
  Node.Status := NodeStatus.mk None (Some {[ "nvidia.com/mig-1g.5gb" := Quantity.mk 7 (f64_of_Z 7) "7" ]}) []
    (NodeSystemInfo.mk "" "" "" "" "") |}.

Definition ex_exporter (ip : string) : Pod.t := {|
  Pod.Meta := ObjectMeta.mk "dcgm" "gpu" "u2" None None 0 [];
  Pod.Spec := PodSpec.mk [] [] [] "" "gpu-1" false "" "" None;
  Pod.Status := PodStatus.mk "Running" [] "" "" ip [] [] "" |}.

Definition ex_api : API.t := {|
  API.ServerGroups := inr ["apps"; "metrics.k8s.io"; "karpenter.sh"];
  API.ServerResourcesForGroupVersion := fun gv => if decide (gv = "karpenter.sh/v1") then inr ["nodepools"] else inl "404";
  API.ListNodes := fun _ => inr [ex_gpu_node];
  API.ListPods := fun sel =>
    if decide (sel = "app=nvidia-dcgm-exporter") then inr [] else inr [ex_exporter ""; ex_exporter "10.0.0.5"];
  API.Review := fun _ _ verb => if decide (verb = "delete") then inr false else inr true |}.

Lemma Detect_capabilities_witness :
  exists caps, Detect ex_api = inr caps /\ caps.(Capabilities.Karpenter) = true /\
    caps.(Capabilities.Provider) = "aws" /\ caps.(Capabilities.DCGMExporterEndpoints) = ["10.0.0.5"].
Proof.
  eexists. split; [vm_compute; reflexivity|].
  destruct (proj2 (Detect_capabilities ex_api) ["apps"; "metrics.k8s.io"; "karpenter.sh"]
    (Capabilities.mk true false true "aws" true ["10.0.0.5"]) eq_refl eq_refl) as (_ & _ & Hk & Hp & _).
  split_and!; [apply Hk; by right; right; left|by apply (Hp ex_gpu_node [])|reflexivity].
Defined.
