(* ===== verification/Scraper.v ===== *)
(** * Scraping an exporter: internal/collector/gpu/scraper.go

    One GET per endpoint.  The GPU poll of Dcgm.v takes the scrape as a
    parameter; it is this function run against a server. *)

From S2P Require Import Prelude GoNum GoStrings Dcgm Http Store.
Open Scope string_scope.
Open Scope list_scope.
Open Scope Z_scope.

(** [strings.TrimRight(s, string(c))] *)
Fixpoint TrimRight (s : string) (c : ascii) : string :=
  match s with
  | EmptyString => EmptyString
  | String d s =>
      match TrimRight s c with
      | EmptyString => if decide (d = c) then EmptyString else String d EmptyString
      | t => String d t
      end
  end.

Section Scrape.
Context (url_err : string -> option string).

Definition scrape_url (endpoint : string) : string := TrimRight endpoint "/" +:+ "/metrics".

Definition scrapeEndpoint (endpoint : string) : http string :=
  let url := scrape_url endpoint in
  match url_err url with
  | Some e => Throw ("creating request for " +:+ url +:+ ": " +:+ e)
  | None =>
      Do (Request.mk "GET" url []) (fun r =>
        match r with
        | inl e => Throw ("scraping " +:+ url +:+ ": " +:+ e)
        | inr resp =>
            if resp.(HttpResponse.StatusCode) =? 200 then
              match resp.(HttpResponse.ReadErr) with
              | Some e => Throw ("reading response from " +:+ url +:+ ": " +:+ e)
              | None => Ret resp.(HttpResponse.Body)
              end
            else Throw ("unexpected status " +:+ itoa resp.(HttpResponse.StatusCode) +:+ " from " +:+ url)
        end)
  end.

(** What a server makes of the scrape of an endpoint, for the GPU poll. *)
Definition scraped (srv : server) (endpoint : string) : option string :=
  match (interp srv [] (scrapeEndpoint endpoint)).1 with inr body => Some body | inl _ => None end.

(** ** Lemmas *)

Lemma TrimRight_slash s c : TrimRight (s +:+ String c "") c = TrimRight s c.
Proof.
  induction s as [|d s IH].
  - change (TrimRight (String c "") c = ""). cbn [TrimRight]. by rewrite decide_True.
  - change (String d s +:+ String c "") with (String d (s +:+ String c "")). cbn [TrimRight]. by rewrite IH.
Qed.

(** A scrape succeeds exactly on a complete answer with status 200, whose body
    it gives. *)
Lemma scraped_Some srv endpoint body :
  scraped srv endpoint = Some body <->
    url_err (scrape_url endpoint) = None /\
    srv [] (Request.mk "GET" (scrape_url endpoint) []) = inr (HttpResponse.mk 200 body None).
Proof.
  unfold scraped, scrapeEndpoint. destruct (url_err (scrape_url endpoint)) as [e|]; [by split; [|intros [? _]]|].
  cbn [interp]. cbn [app]. destruct (srv [] _) as [e|[status b re]]; [by split; [|intros [_ ?]]|].
  cbn [HttpResponse.StatusCode HttpResponse.ReadErr HttpResponse.Body].
  destruct (Z.eqb_spec status 200) as [->|Hne].
  - destruct re; cbn; [by split; [|intros [_ ?]]|]. split; [by intros [= ->]|by intros [_ [= ->]]].
  - split; [done|]. intros [_ [= ? _ _]]. done.
Qed.

(** A slash at the end of an endpoint does not matter. *)
Lemma scrape_url_slash endpoint : scrape_url (endpoint +:+ "/") = scrape_url endpoint.
Proof. unfold scrape_url. by rewrite TrimRight_slash. Qed.

(** The scrape of a list of endpoints, as a concatenation. *)
Lemma ScrapeGPUMetrics_concat (scrape : string -> option string) o endpoints :
  ScrapeGPUMetrics scrape o endpoints =
    Some (concat ((fun e => match scrape e with Some b => ParseDCGMMetrics o b | None => [] end) <$> endpoints)).
Proof.
  unfold ScrapeGPUMetrics. f_equal. induction endpoints as [|e endpoints IH] using rev_ind; [done|].
  rewrite foldl_app, fmap_app, concat_app, <- IH. cbn. destruct (scrape e); by rewrite ?app_nil_r.
Qed.

(** ** Properties *)

(** C33 A GPU poll keeps what the exporters that answered have: the devices of every
    endpoint whose /metrics answers 200 with a complete body, parsed, in the
    order of the endpoints and with the time of the poll; an endpoint that
    fails in any other way contributes nothing and stops nothing.  The
    target statistics count every endpoint, and count every endpoint as up. *)
Theorem gpu_poll_collects (srv : server) o endpoints now c :
  endpoints <> [] ->
  let c' := GPUMetricsCollector.poll (ScrapeGPUMetrics (scraped srv) o) endpoints now c in
  GPUMetricsCollector.GetGPUMetrics c' =
    (fun m => m <| GPUDeviceMetrics.Timestamp := unix_milli now |>) <$>
      concat ((fun e => match scraped srv e with Some body => ParseDCGMMetrics o body | None => [] end) <$> endpoints) /\
  (forall e body, scraped srv e = Some body <->
     url_err (scrape_url e) = None /\
     srv [] (Request.mk "GET" (scrape_url e) []) = inr (HttpResponse.mk 200 body None)) /\
  GPUMetricsCollector.DCGMTargetStats c' = (golen endpoints, golen endpoints).
Proof.
  intros Hne c'. unfold c', GPUMetricsCollector.poll. rewrite ScrapeGPUMetrics_concat.
  assert ((golen endpoints =? 0) = false) as ->.
  { apply Z.eqb_neq. destruct endpoints; [done|]. unfold golen. simpl. lia. }
  split_and!; [reflexivity| |reflexivity]. apply scraped_Some.
Qed.
End Scrape.

(** ** Witness *)

Definition ex_scrape_server (sent : list Request.t) (req : Request.t) : string + HttpResponse.t :=
  if decide (req.(Request.URL) = "http://10.0.0.5:9400/metrics")
  then inr (HttpResponse.mk 200 "" None) else inl "connection refused".

Lemma gpu_poll_collects_witness :
  let c := GPUMetricsCollector.poll (ScrapeGPUMetrics (scraped (fun _ => None) ex_scrape_server) canonical_order)
             ["http://10.0.0.5:9400/"; "http://10.0.0.6:9400"] 0 GPUMetricsCollector.NewGPUMetricsCollector in
  GPUMetricsCollector.GetGPUMetrics c = [] /\ GPUMetricsCollector.DCGMTargetStats c = (2, 2) /\
  scraped (fun _ => None) ex_scrape_server "http://10.0.0.5:9400/" = Some "".
Proof.
  destruct (gpu_poll_collects (fun _ => None) ex_scrape_server canonical_order
    ["http://10.0.0.5:9400/"; "http://10.0.0.6:9400"] 0 GPUMetricsCollector.NewGPUMetricsCollector)
    as (Hm & Hs & Ht); [discriminate|].
  cbv zeta. split_and!; [exact (eq_trans Hm eq_refl)|exact Ht|by apply Hs].
Defined.
