(* ===== verification/StateMachine.v ===== *)
(** * The agent's state machine and memory monitor: internal/agent/{state,memorypressure}.go

    Every method holds the lock: an operation is a function of the state and,
    where it reads it, the clock. *)

From S2P Require Import Prelude GoNum GoStrings.
Open Scope string_scope.
Open Scope list_scope.
Open Scope Z_scope.

Inductive AgentState := StateStarting | StateRunning | StateBackoff | StateStopped | StateExiting.

#[export] Instance AgentState_eq_dec : EqDecision AgentState.
Proof. solve_decision. Defined.

(** [string(state)] *)
Definition AgentState_string (s : AgentState) : string :=
  match s with
  | StateStarting => "starting"
  | StateRunning => "running"
  | StateBackoff => "backoff"
  | StateStopped => "stopped"
  | StateExiting => "exiting"
  end.

Module StateMachine.
(** [cancelFunc] is whether one is set. *)
Record t := mk {
  state : AgentState;
  stateReason : string;
  backoffUntil : Time;
  cancelFunc : bool }.
#[export] Instance eta : Eta t := fun r => mk r.(state) r.(stateReason) r.(backoffUntil) r.(cancelFunc).

(** The zero [time.Time], year 1, in nanoseconds since the epoch. *)
Definition zero_time : Time := - 62135596800 * Second.

Definition NewStateMachine : t := mk StateStarting "" zero_time false.

Definition State (sm : t) : AgentState := sm.(state).

Definition StateReason (sm : t) : string := sm.(stateReason).

Definition SetCancelFunc (sm : t) : t := sm <| cancelFunc := true |>.

Definition TransitionTo (s : AgentState) (reason : string) (sm : t) : t :=
  sm <| state := s |> <| stateReason := reason |>.

(** [backoff := time.Duration(retryAfterSeconds) * time.Second], or the default. *)
Definition backoff_of (retryAfterSeconds : int) (default_ : Duration) : Duration :=
  let backoff := mul64 retryAfterSeconds Second in
  if backoff =? 0 then default_ else backoff.

(** The state afterwards, and whether the cancel function is called. *)
Definition HandleHTTPStatus (now : Time) (statusCode retryAfterSeconds : int) (sm : t) : t * bool :=
  if statusCode =? 200 then
    (sm <| state := StateRunning |> <| stateReason := "" |>, false)
  else if (statusCode =? 401) || (statusCode =? 403) then
    (sm <| state := StateStopped |> <| stateReason := "authentication failed" |>, false)
  else if statusCode =? 402 then
    (sm <| state := StateBackoff |> <| stateReason := "quota exceeded" |>
        <| backoffUntil := time_add now (backoff_of retryAfterSeconds (5 * Minute)) |>, false)
  else if statusCode =? 410 then
    (sm <| state := StateExiting |> <| stateReason := "agent deprecated" |>, sm.(cancelFunc))
  else if statusCode =? 429 then
    (sm <| state := StateBackoff |> <| stateReason := "rate limited" |>
        <| backoffUntil := time_add now (backoff_of retryAfterSeconds (30 * Second)) |>, false)
  else if 500 <=? statusCode then
    (sm <| stateReason := "server error: " +:+ itoa statusCode |>, false)
  else (sm, false).

Definition IsBackoffExpired (now : Time) (sm : t) : bool := time_after now sm.(backoffUntil).

Definition BackoffRemaining (now : Time) (sm : t) : Duration :=
  let remaining := time_sub sm.(backoffUntil) now in
  if remaining <? 0 then 0 else remaining.
End StateMachine.
Export (hints) StateMachine.

(** ** MemoryPressureMonitor *)

(** [check]: [limit] is what debug.SetMemoryLimit(-1) returns, [sys] and
    [released] the MemStats fields. *)
Definition memory_check (threshold : float64) (limit : int64) (sys released : uint64) : bool :=
  if limit <=? 0 then false else
  let usage := uwrap64 (sys - released) in
  let ratio := f64_div (f64_of_Z usage) (f64_of_Z limit) in
  f64_ltb threshold ratio.

(** The select of one round of [run]: [stopCh] closed, or a tick. *)
Inductive monitor_event := MonitorStop | MonitorTick (limit : int64) (sys released : uint64).

(** The number of callbacks before the goroutine returns. *)
Fixpoint monitor_run (threshold : float64) (evs : list monitor_event) : nat :=
  match evs with
  | [] | MonitorStop :: _ => 0
  | MonitorTick limit sys released :: evs =>
      ((if memory_check threshold limit sys released then 1 else 0) + monitor_run threshold evs)%nat
  end.

Example check_over : memory_check (f64_div (f64_of_Z 4) (f64_of_Z 5)) 100 90 0 = true.
Proof. vm_compute. reflexivity. Qed.

Example check_unset : memory_check (f64_div (f64_of_Z 4) (f64_of_Z 5)) max_int64 1000 0 = false.
Proof. vm_compute. reflexivity. Qed.

(** ** Properties *)

(** What a status does to the state: 200 resumes, 401 and 403 stop, 410 exits
    and cancels once a cancel function is set, 402 and 429 back off, 5xx only
    records a reason; any other status changes nothing. *)
Theorem HandleHTTPStatus_transitions now code retry sm :
  let '(sm', cancelled) := StateMachine.HandleHTTPStatus now code retry sm in
  StateMachine.State sm' =
    (if decide (code = 200) then StateRunning
     else if decide (code ∈ [401; 403]) then StateStopped
     else if decide (code ∈ [402; 429]) then StateBackoff
     else if decide (code = 410) then StateExiting
     else StateMachine.State sm) /\
  cancelled = bool_decide (code = 410) && sm.(StateMachine.cancelFunc) /\
  (~ code ∈ [200; 401; 403; 402; 429; 410] -> code < 500 -> sm' = sm) /\
  (~ code ∈ [402; 429] -> sm'.(StateMachine.backoffUntil) = sm.(StateMachine.backoffUntil)).
Proof.
  unfold StateMachine.HandleHTTPStatus, StateMachine.State.
  destruct (code =? 200) eqn:E1; [|destruct ((code =? 401) || (code =? 403)) eqn:E2;
    [|destruct (code =? 402) eqn:E3; [|destruct (code =? 410) eqn:E4;
      [|destruct (code =? 429) eqn:E5; [|destruct (500 <=? code) eqn:E6]]]]].
  all: rewrite ?orb_true_iff, ?orb_false_iff in *.
  all: repeat case_decide; case_bool_decide; rewrite ?elem_of_cons, ?elem_of_nil in *; try lia.
  all: split_and!; try reflexivity; intros; lia.
Qed.

(** C29 The backoff after a 402 or 429 lasts exactly the server's delay, or the
    default of 5 minutes (402) or 30 seconds (429) when it gives none; it has
    expired once the clock is past that moment, and nothing remains of it from
    that moment on. *)
Theorem backoff_window now now' code retry sm :
  code = 402 \/ code = 429 -> 0 <= retry -> retry * Second <= max_int64 ->
  - 2 ^ 62 <= now < 2 ^ 62 -> - 2 ^ 62 <= now' < 2 ^ 62 ->
  let sm' := (StateMachine.HandleHTTPStatus now code retry sm).1 in
  let delay := if retry =? 0 then (if code =? 402 then 5 * Minute else 30 * Second) else retry * Second in
  StateMachine.IsBackoffExpired now' sm' = (now + delay <? now') /\
  StateMachine.BackoffRemaining now' sm' = Z.max 0 (Z.min max_int64 (now + delay - now')).
Proof.
  intros Hc Hr Hb Hn Hn' sm' delay.
  assert (StateMachine.backoffUntil sm' = now + delay) as Hu.
  { unfold sm', delay, StateMachine.HandleHTTPStatus, StateMachine.backoff_of, mul64.
    rewrite wrap64_id by (unfold in_int64, max_int64, Second in *; lia).
    destruct Hc as [-> | ->]; cbn; unfold time_add; f_equal;
      destruct (Z.eqb_spec retry 0) as [->|]; try reflexivity;
      rewrite (proj2 (Z.eqb_neq _ _)); try reflexivity; unfold Second; lia. }
  unfold StateMachine.IsBackoffExpired, StateMachine.BackoffRemaining, time_after, time_sub.
  rewrite Hu. split; [done|].
  assert (0 <= delay) by (unfold delay, Minute, Second; repeat case_match; lia).
  unfold min_int64, max_int64 in *. destruct (_ <? 0) eqn:E; lia.
Qed.

Lemma backoff_window_witness :
  let sm := (StateMachine.HandleHTTPStatus 0 429 10 StateMachine.NewStateMachine).1 in
  StateMachine.IsBackoffExpired (5 * Second) sm = false /\
  StateMachine.BackoffRemaining (5 * Second) sm = 5 * Second.
Proof.
  apply (backoff_window 0 (5 * Second) 429 10 StateMachine.NewStateMachine);
    [by right|done|by vm_compute|by vm_compute|by vm_compute].
Defined.
