(* ===== verification/Monitor.v ===== *)
(** * The memory pressure monitor: internal/agent/memorypressure.go

    [memory_check] is in StateMachine.v; here are the monitor and its goroutine,
    a step relation: [select] takes the stop or a tick when both are ready. *)

From S2P Require Import Prelude GoNum StateMachine.
Open Scope string_scope.
Open Scope list_scope.
Open Scope Z_scope.

Inductive monitor_at := MonIdle | MonSelecting | MonExited.

(** [callbacks] is how often the callback has run. *)
Module MemoryPressureMonitor.
Record t := mk {
  threshold : float64;
  interval : Duration;
  stopCh : bool;
  at_ : monitor_at;
  callbacks : nat }.
#[export] Instance eta : Eta t := fun r => mk r.(threshold) r.(interval) r.(stopCh) r.(at_) r.(callbacks).

Definition NewMemoryPressureMonitor (threshold : float64) (interval : Duration) : t :=
  mk threshold interval false MonIdle 0.

(** [Start] launches the goroutine. *)
Definition Start (m : t) : t := m <| at_ := MonSelecting |>.

(** [Stop] closes [stopCh] once. *)
Definition Stop (m : t) : t := m <| stopCh := true |>.

Inductive monitor_step : t -> option (int64 * uint64 * uint64) -> t -> Prop :=
  | monitor_tick m limit sys released :
      m.(at_) = MonSelecting ->
      monitor_step m (Some (limit, sys, released))
        (m <| callbacks := (m.(callbacks) + if memory_check m.(threshold) limit sys released then 1 else 0)%nat |>)
  | monitor_return m :
      m.(at_) = MonSelecting -> m.(stopCh) = true -> monitor_step m None (m <| at_ := MonExited |>).
End MemoryPressureMonitor.
Export (hints) MemoryPressureMonitor.

(** A run of the goroutine: its ticks, or its return. *)
Inductive monitor_steps : MemoryPressureMonitor.t -> list (option (int64 * uint64 * uint64)) -> MemoryPressureMonitor.t -> Prop :=
  | mon_nil m : monitor_steps m [] m
  | mon_cons m ev m' evs m'' :
      MemoryPressureMonitor.monitor_step m ev m' -> monitor_steps m' evs m'' -> monitor_steps m (ev :: evs) m''.

(** What the goroutine receives, for [monitor_run]. *)
Definition received (ev : option (int64 * uint64 * uint64)) : monitor_event :=
  match ev with
  | Some (limit, sys, released) => MonitorTick limit sys released
  | None => MonitorStop
  end.

(** A goroutine that has returned does nothing more. *)
Lemma monitor_exited m evs m' :
  m.(MemoryPressureMonitor.at_) = MonExited -> monitor_steps m evs m' -> evs = [] /\ m' = m.
Proof. intros He. destruct 1 as [|m ev m' evs m'' Hs _]; [done|]. destruct Hs; congruence. Qed.

Lemma monitor_returned m evs m' : monitor_steps (m <| MemoryPressureMonitor.at_ := MonExited |>) evs m' ->
  evs = [] /\ m' = m <| MemoryPressureMonitor.at_ := MonExited |>.
Proof. by apply monitor_exited. Qed.

(** The steps of the goroutine run the callback as often as [monitor_run] of
    StateMachine.v says. *)
Lemma monitor_steps_run m evs m' :
  monitor_steps m evs m' ->
  m'.(MemoryPressureMonitor.callbacks) =
    (m.(MemoryPressureMonitor.callbacks) + monitor_run m.(MemoryPressureMonitor.threshold) (received <$> evs))%nat.
Proof.
  induction 1 as [m|m ev m' evs m'' Hs Hr IH]; [simpl; lia|].
  destruct Hs as [m limit sys released E|m E E'].
  - rewrite IH. cbn [fmap list_fmap received monitor_run]. destruct m; cbn. lia.
  - destruct (monitor_returned _ _ _ Hr) as [-> ->].
    destruct m; cbn. lia.
Qed.

(** ** Properties *)

(** The callback runs at the ticks that find the memory in use over the
    threshold, and no other time; Stop can be called again; after it the
    goroutine can return, and then the callback never runs again. *)
Theorem monitor_spec threshold interval evs m :
  monitor_steps (MemoryPressureMonitor.Start (MemoryPressureMonitor.NewMemoryPressureMonitor threshold interval)) evs m ->
  m.(MemoryPressureMonitor.callbacks) = monitor_run threshold (received <$> evs) /\
  MemoryPressureMonitor.Stop (MemoryPressureMonitor.Stop m) = MemoryPressureMonitor.Stop m /\
  (m.(MemoryPressureMonitor.at_) = MonSelecting ->
     exists m', MemoryPressureMonitor.monitor_step (MemoryPressureMonitor.Stop m) None m' /\
       forall evs' m'', monitor_steps m' evs' m'' -> m''.(MemoryPressureMonitor.callbacks) = m.(MemoryPressureMonitor.callbacks)).
Proof.
  intros Hr. split_and!; [exact (monitor_steps_run _ _ _ Hr)|reflexivity|].
  intros Hs. eexists. split; [by apply MemoryPressureMonitor.monitor_return|].
  intros evs' m'' H. by destruct (monitor_returned _ _ _ H) as [_ ->].
Qed.

Definition ex_monitor : MemoryPressureMonitor.t :=
  MemoryPressureMonitor.NewMemoryPressureMonitor (f64_div (f64_of_Z 4) (f64_of_Z 5)) (30 * Second).

Lemma monitor_spec_witness :
  exists m, monitor_steps (MemoryPressureMonitor.Start ex_monitor) [Some (100, 90, 0); Some (100, 10, 0)] m /\
    m.(MemoryPressureMonitor.callbacks) = 1%nat.
Proof.
  assert (exists m, monitor_steps (MemoryPressureMonitor.Start ex_monitor) [Some (100, 90, 0); Some (100, 10, 0)] m)
    as [m Hm] by (eexists; repeat (econstructor; [by constructor|]); constructor).
  exists m. split; [exact Hm|].
  destruct (monitor_spec _ _ _ m Hm) as (-> & _). by vm_compute.
Defined.
