(* ===== verification/Agent.v ===== *)
(** * The agent's main loop: internal/agent/agent.go

    [Run] starts the collectors, waits for their caches, builds and sends a
    snapshot at once and then on every tick.  The agent's own state is a record;
    what happens around it (what the build reads, how the network answers, the
    clock, the collectors' reports) is the input of each step.  The loop is a
    step relation over those inputs, so its properties hold for every run. *)

From S2P Require Import Prelude GoNum GoStrings Config Model Store AgentErrors Transport.
From S2P Require Import Pipeline Summary SnapshotBuilder Registry StateMachine.
Open Scope string_scope.
Open Scope list_scope.
Open Scope Z_scope.

Module Agent.
Record t := mk {
  transport : Client.t;
  stateMachine : StateMachine.t;
  errorCollector : ErrorCollector.t;
  latestSnapshot : option ClusterSnapshot.t;
  ready : bool;
  startedAt : Time;
  snapshotsSent : uint64;
  snapshotsFailed : uint64;
  snapshotsTotal : uint64;
  prevSnapshotsSent : uint64;
  prevSnapshotsFailed : uint64;
  lastBuildMs : int64;
  lastSendMs : int64 }.
#[export] Instance eta : Eta t := fun r => mk r.(transport) r.(stateMachine) r.(errorCollector)
  r.(latestSnapshot) r.(ready) r.(startedAt) r.(snapshotsSent) r.(snapshotsFailed)
  r.(snapshotsTotal) r.(prevSnapshotsSent) r.(prevSnapshotsFailed) r.(lastBuildMs) r.(lastSendMs).

Definition NewAgent (cfg : Config.t) (now : Time) : t :=
  mk (Client.NewClient cfg) StateMachine.NewStateMachine ErrorCollector.NewErrorCollector None false
    now 0 0 0 0 0 0 0.

Definition IsReady (a : t) : bool := a.(ready).

Definition LatestSnapshot (a : t) : option ClusterSnapshot.t := a.(latestSnapshot).
End Agent.
Export (hints) Agent.

(** What one snapshot meets. *)
Module Round.
Record t := mk {
  reads : Reads.t;                  (* the build's reads *)
  buildMs : int64;                  (* measured durations *)
  encodeMs : int64;
  sendMs : int64;
  metricsCollectMs : int64;         (* the metrics collector's last duration *)
  registry : Registry.t;            (* the collectors' reports *)
  errorsOrder : RangeOrder;         (* the two ranges over the error map *)
  codesOrder : RangeOrder;
  errorsNow : Time;                 (* the clock, in the order it is read *)
  codesNow : Time;
  uptimeNow : Time;
  collectedNow : Time;
  sendNow : Time;
  world : World.t }.                (* the network *)
End Round.

Section Loop.
Context (cfg : Config.t) (pipeline : option Pipeline) (cloudAccountID : string).
Context (json : ClusterSnapshot.t -> string + string) (zstd : Zstd.t).
Context (decodeResponse : string -> option SnapshotResponse.t)
        (decodeErrorResponse : string -> option SnapshotErrorResponse.t)
        (decodeErrorText : string -> string).

(** [populateHealth]: the agent and the snapshot with its health filled in. *)
Definition populateHealth (r : Round.t) (a : Agent.t) (snap : ClusterSnapshot.t) :
    Agent.t * ClusterSnapshot.t :=
  let s := snap.(ClusterSnapshot.Summary) in
  let stats := Client.LastSendStats a.(Agent.transport) in
  let '(targets, upTargets) := Registry.DCGMTargetReport r.(Round.registry) in
  let '(healthy, total, stale) := Registry.HealthReport r.(Round.registry) in
  let '(apiTotal, apiFailed) := Registry.APICallReport r.(Round.registry) in
  let '(activeErrors, ec) :=
    ErrorCollector.GetActiveErrors r.(Round.errorsOrder) r.(Round.errorsNow) a.(Agent.errorCollector) in
  let '(codes, ec) := ErrorCollector.GetActiveErrorCodes r.(Round.codesOrder) r.(Round.codesNow) ec in
  let h := {|
    AgentHealth.SnapshotsSentTotal := a.(Agent.snapshotsSent);
    AgentHealth.SnapshotsFailedTotal := a.(Agent.snapshotsFailed);
    AgentHealth.SnapshotsTotalCount := a.(Agent.snapshotsTotal);
    AgentHealth.SnapshotsSentDelta := uwrap64 (a.(Agent.snapshotsSent) - a.(Agent.prevSnapshotsSent));
    AgentHealth.SnapshotsFailedDelta := uwrap64 (a.(Agent.snapshotsFailed) - a.(Agent.prevSnapshotsFailed));
    AgentHealth.State := AgentState_string (StateMachine.State a.(Agent.stateMachine));
    AgentHealth.StateReason := StateMachine.StateReason a.(Agent.stateMachine);
    AgentHealth.LastBuildDurationMs := a.(Agent.lastBuildMs);
    AgentHealth.LastMetricsCollectDurationMs := r.(Round.metricsCollectMs);
    AgentHealth.LastSendDurationMs := a.(Agent.lastSendMs);
    AgentHealth.EncodeDurationMs := stats.(SendStats.EncodeDurationMs);
    AgentHealth.OriginalSizeBytes := stats.(SendStats.OriginalBytes);
    AgentHealth.CompressedSizeBytes := stats.(SendStats.CompressedBytes);
    AgentHealth.CompressionFactor :=
      if 0 <? stats.(SendStats.CompressedBytes)
      then f64_div (f64_of_Z stats.(SendStats.OriginalBytes)) (f64_of_Z stats.(SendStats.CompressedBytes))
      else snap.(ClusterSnapshot.Health).(AgentHealth.CompressionFactor);
    AgentHealth.NodeCount := s.(ClusterSummary.NodeCount);
    AgentHealth.PodCount := s.(ClusterSummary.PodCount);
    AgentHealth.ContainerCount := s.(ClusterSummary.ContainerCount);
    AgentHealth.WorkloadCount :=
      add64 (add64 (add64 (add64 (add64 s.(ClusterSummary.DeploymentCount) s.(ClusterSummary.StatefulSetCount))
        s.(ClusterSummary.DaemonSetCount)) s.(ClusterSummary.JobCount)) s.(ClusterSummary.CronJobCount))
        s.(ClusterSummary.CustomWorkloadCount);
    AgentHealth.ServiceCount := s.(ClusterSummary.ServiceCount);
    AgentHealth.HPACount := s.(ClusterSummary.HPACount);
    AgentHealth.PDBCount := golen snap.(ClusterSnapshot.PDBs);
    AgentHealth.PVCount := s.(ClusterSummary.PVCount);
    AgentHealth.MetricsServerAvailable := s.(ClusterSummary.MetricsAvailable);
    AgentHealth.VPAAvailable := 0 <? golen snap.(ClusterSnapshot.VPAs);
    AgentHealth.KarpenterAvailable := 0 <? golen snap.(ClusterSnapshot.NodePools);
    AgentHealth.GPUMetricsAvailable := s.(ClusterSummary.GPUMetricsAvailable);
    AgentHealth.DCGMExporterTargets := targets;
    AgentHealth.DCGMExporterUpTargets := upTargets;
    AgentHealth.InformersSynced := a.(Agent.ready);
    AgentHealth.InformersHealthy := healthy;
    AgentHealth.InformersTotal := total;
    AgentHealth.StaleResources := stale;
    AgentHealth.APICallsTotal := apiTotal;
    AgentHealth.APICallsFailedCount := apiFailed;
    AgentHealth.ActiveErrorsCount := golen activeErrors;
    AgentHealth.ErrorCodes := codes;
    AgentHealth.UptimeSeconds := time_sub r.(Round.uptimeNow) a.(Agent.startedAt) ÷ Second;
    AgentHealth.StartedAt := unix_milli a.(Agent.startedAt);
    AgentHealth.CollectedAt := unix_milli r.(Round.collectedNow);
    AgentHealth.ChartVersion := cfg.(Config.ChartVersion);
    AgentHealth.HelmReleaseName := cfg.(Config.HelmReleaseName);
    AgentHealth.PodName := cfg.(Config.PodName);
    AgentHealth.PodNamespace := cfg.(Config.PodNamespace);
    AgentHealth.NodeName := cfg.(Config.NodeName) |} in
  (a <| Agent.prevSnapshotsSent := a.(Agent.snapshotsSent) |>
     <| Agent.prevSnapshotsFailed := a.(Agent.snapshotsFailed) |>
     <| Agent.errorCollector := ec |>,
   snap <| ClusterSnapshot.Health := h |>).

(** [doSnapshot]: the events of the send, the snapshot built, and the agent. *)
Definition doSnapshot (r : Round.t) (a : Agent.t) : list event * ClusterSnapshot.t * Agent.t :=
  let snap := (Build cfg pipeline cloudAccountID r.(Round.reads)).(BuildResult.snapshot) in
  let a := a <| Agent.lastBuildMs := r.(Round.buildMs) |> in
  let '(a, snap) := populateHealth r a snap in
  let a := a <| Agent.latestSnapshot := Some snap |> in
  let '(evs, (resp, err), client, ec) :=
    Send decodeResponse decodeErrorResponse decodeErrorText json zstd r.(Round.world)
      r.(Round.encodeMs) r.(Round.sendNow) snap a.(Agent.transport) a.(Agent.errorCollector) in
  let a := a <| Agent.transport := client |> <| Agent.errorCollector := ec |>
             <| Agent.lastSendMs := r.(Round.sendMs) |>
             <| Agent.snapshotsTotal := uwrap64 (a.(Agent.snapshotsTotal) + 1) |> in
  match err with
  | Some _ => (evs, snap, a <| Agent.snapshotsFailed := uwrap64 (a.(Agent.snapshotsFailed) + 1) |>)
  | None =>
      let a := a <| Agent.snapshotsSent := uwrap64 (a.(Agent.snapshotsSent) + 1) |> in
      let state := StateMachine.State a.(Agent.stateMachine) in
      if decide (state = StateStopped \/ state = StateExiting) then (evs, snap, a)
      else
        let '(sm, _) := StateMachine.HandleHTTPStatus r.(Round.sendNow) 200 0 a.(Agent.stateMachine) in
        (evs, snap, a <| Agent.stateMachine := sm |>)
  end.

(** ** Run *)

(** What [Run] returns: nil, or the context's or the start's error. *)
Inductive outcome := Returned (err : option string).

(** Step 3 and the beginning of step 4: the agent after the wait for the caches,
    which sync or time out ([timeoutText] is the configured timeout as the message
    prints it). *)
Definition synced_agent (syncErr : option string) (timeoutText : string) (now : Time) (a : Agent.t) : Agent.t :=
  let a := match syncErr with
    | Some e =>
        a <| Agent.errorCollector := ErrorCollector.Report now
          (AgentError.mk ErrInformerSyncTimeout ("informer sync timed out after " +:+ timeoutText +:+ ": " +:+ e) "agent"
             (unix_milli now) (Some e)) a.(Agent.errorCollector) |>
    | None => a
    end in
  a <| Agent.stateMachine := StateMachine.TransitionTo StateRunning "informers synced" a.(Agent.stateMachine) |> <| Agent.ready := true |>.

(** Steps 1 to 4 up to the loop: the collectors start, their caches sync or time
    out, and the first snapshot is taken.  The build that only logs the store
    counts changes nothing of the agent; what it leaves in the stores is part of
    the first round's reads.  The deferred [StopAll] is [Registry.StopAll]. *)
Definition run_start (startErr : option StartError) (syncErr : option string) (timeoutText : string) (now : Time)
    (first : Round.t) (a : Agent.t) : Agent.t + outcome :=
  let a := a <| Agent.stateMachine := StateMachine.SetCancelFunc a.(Agent.stateMachine) |> in
  match startErr with
  | Some (AllFailed n) =>
      inr (Returned (Some ("failed to start collectors: " +:+ StartError_text (AllFailed n))))
  | _ => inl (doSnapshot first (synced_agent syncErr timeoutText now a)).2
  end.

(** What the select of the loop receives. *)
Inductive loop_event :=
  | Cancelled (err : string)
  | Tick (now : Time) (r : Round.t).

(** The body of the loop. *)
Definition loop_body (ev : loop_event) (a : Agent.t) : Agent.t + outcome :=
  match ev with
  | Cancelled err => inr (Returned (Some err))
  | Tick now r =>
      let a' :=
        match StateMachine.State a.(Agent.stateMachine) with
        | StateRunning => Some (doSnapshot r a).2
        | StateBackoff =>
            if StateMachine.IsBackoffExpired now a.(Agent.stateMachine) then
              let a := a <| Agent.stateMachine :=
                StateMachine.TransitionTo StateRunning "backoff expired" a.(Agent.stateMachine) |> in
              Some (doSnapshot r a).2
            else Some a
        | StateStopped | StateExiting => None
        | StateStarting => Some a
        end in
      match a' with
      | None => inr (Returned None)
      | Some a' =>
          let s := StateMachine.State a'.(Agent.stateMachine) in
          if decide (s = StateStopped \/ s = StateExiting) then inr (Returned None) else inl a'
      end
  end.

(** The agents the loop can be in, from one that has started. *)
Inductive reachable (a0 : Agent.t) : Agent.t -> Prop :=
  | reach_init : reachable a0 a0
  | reach_step a ev a' : reachable a0 a -> loop_body ev a = inl a' -> reachable a0 a'.

(** ** Lemmas *)

Implicit Types (a : Agent.t) (r : Round.t).

(** The agent and the snapshot [populateHealth] gives, field by field. *)
Lemma populateHealth_spec r a snap a' snap' :
  (a', snap') = populateHealth r a snap ->
  let h := snap'.(ClusterSnapshot.Health) in
  snap' = snap <| ClusterSnapshot.Health := h |> /\
  a' = a <| Agent.prevSnapshotsSent := a.(Agent.snapshotsSent) |>
         <| Agent.prevSnapshotsFailed := a.(Agent.snapshotsFailed) |>
         <| Agent.errorCollector := a'.(Agent.errorCollector) |> /\
  h.(AgentHealth.SnapshotsSentDelta) = uwrap64 (a.(Agent.snapshotsSent) - a.(Agent.prevSnapshotsSent)) /\
  h.(AgentHealth.SnapshotsFailedDelta) = uwrap64 (a.(Agent.snapshotsFailed) - a.(Agent.prevSnapshotsFailed)) /\
  h.(AgentHealth.SnapshotsSentTotal) = a.(Agent.snapshotsSent) /\
  h.(AgentHealth.SnapshotsFailedTotal) = a.(Agent.snapshotsFailed) /\
  h.(AgentHealth.SnapshotsTotalCount) = a.(Agent.snapshotsTotal) /\
  h.(AgentHealth.StaleResources) = (Registry.HealthReport r.(Round.registry)).2 /\
  (forall code, code ∈ h.(AgentHealth.ErrorCodes) <->
     exists k e, a.(Agent.errorCollector).(ErrorCollector.entries) !! k = Some e /\
       ErrorCollector.expired r.(Round.errorsNow) e = false /\
       ErrorCollector.expired r.(Round.codesNow) e = false /\
       e.(ErrorCollector.err).(AgentError.Code_) = code).
Proof.
  unfold populateHealth.
  destruct (Registry.DCGMTargetReport _) as [targets up].
  destruct (Registry.HealthReport _) as [[healthy total] stale].
  destruct (Registry.APICallReport _) as [apiT apiF].
  rewrite GetActiveErrors_spec.
  pose proof (GetActiveErrorCodes_spec r.(Round.codesOrder) r.(Round.codesNow)
    (ErrorCollector.mk (purge r.(Round.errorsNow) a.(Agent.errorCollector).(ErrorCollector.entries)))) as H.
  destruct (ErrorCollector.GetActiveErrorCodes _ _ _) as [codes ec]. destruct H as (_ & Hin & _).
  intros [= -> ->]. split_and!; try reflexivity. intros code. change (code ∈ codes <->
     exists k e, a.(Agent.errorCollector).(ErrorCollector.entries) !! k = Some e /\
       ErrorCollector.expired r.(Round.errorsNow) e = false /\
       ErrorCollector.expired r.(Round.codesNow) e = false /\
       e.(ErrorCollector.err).(AgentError.Code_) = code).
  rewrite Hin. cbn [ErrorCollector.entries]. split.
  - intros (k & e & He & Hx & Hc). exists k, e. rewrite purge_lookup in He.
    apply bind_Some in He as (e' & He' & He). case_match eqn:E; [done|]. by injection He as <-.
  - intros (k & e & He & Hx & Hx' & Hc). exists k, e. by rewrite purge_lookup, He; cbn; rewrite Hx.
Qed.

(** What it says of the collectors is the registry's report. *)
Lemma populateHealth_collectors r a snap :
  let h := (populateHealth r a snap).2.(ClusterSnapshot.Health) in
  (h.(AgentHealth.InformersHealthy), h.(AgentHealth.InformersTotal), h.(AgentHealth.StaleResources)) =
    Registry.HealthReport r.(Round.registry).
Proof.
  unfold populateHealth.
  destruct (Registry.DCGMTargetReport _) as [targets up].
  destruct (Registry.HealthReport _) as [[healthy total] stale].
  destruct (Registry.APICallReport _) as [apiT apiF].
  rewrite GetActiveErrors_spec. by destruct (ErrorCollector.GetActiveErrorCodes _ _ _) as [codes ec].
Qed.

(** A round: what it sends, and what it leaves of the agent.  The state machine
    moves to Running when the send succeeds and does not move when it fails. *)
Lemma doSnapshot_spec r a :
  let '(evs, snap, a') := doSnapshot r a in
  exists a1 err, (a1, snap) = populateHealth r (a <| Agent.lastBuildMs := r.(Round.buildMs) |>)
      (Build cfg pipeline cloudAccountID r.(Round.reads)).(BuildResult.snapshot) /\
    (Send decodeResponse decodeErrorResponse decodeErrorText json zstd r.(Round.world)
       r.(Round.encodeMs) r.(Round.sendNow) snap a.(Agent.transport) a1.(Agent.errorCollector)).1.1.2.2 = err /\
    a'.(Agent.errorCollector) =
      (Send decodeResponse decodeErrorResponse decodeErrorText json zstd r.(Round.world)
       r.(Round.encodeMs) r.(Round.sendNow) snap a.(Agent.transport) a1.(Agent.errorCollector)).2 /\
    a'.(Agent.snapshotsTotal) = uwrap64 (a.(Agent.snapshotsTotal) + 1) /\
    a'.(Agent.prevSnapshotsSent) = a.(Agent.snapshotsSent) /\
    a'.(Agent.prevSnapshotsFailed) = a.(Agent.snapshotsFailed) /\
    a'.(Agent.latestSnapshot) = Some snap /\
    match err with
    | Some _ => a'.(Agent.snapshotsSent) = a.(Agent.snapshotsSent) /\
                a'.(Agent.snapshotsFailed) = uwrap64 (a.(Agent.snapshotsFailed) + 1) /\
                a'.(Agent.stateMachine) = a.(Agent.stateMachine)
    | None => a'.(Agent.snapshotsSent) = uwrap64 (a.(Agent.snapshotsSent) + 1) /\
              a'.(Agent.snapshotsFailed) = a.(Agent.snapshotsFailed) /\
              (StateMachine.State a.(Agent.stateMachine) = StateRunning ->
               StateMachine.State a'.(Agent.stateMachine) = StateRunning)
    end.
Proof.
  unfold doSnapshot.
  destruct (populateHealth r _ _) as [a1 snap] eqn:Hp.
  destruct (populateHealth_spec _ _ _ _ _ (eq_sym Hp)) as (_ & Ha & _).
  assert (Agent.transport a1 = Agent.transport a) as Ht by (rewrite Ha; reflexivity).
  change (Agent.transport (a1 <| Agent.latestSnapshot := Some snap |>)) with (Agent.transport a1).
  change (Agent.errorCollector (a1 <| Agent.latestSnapshot := Some snap |>)) with (Agent.errorCollector a1).
  rewrite Ht. destruct (Send _ _ _ _ _ _ _ _ _ _ _) as [[[evs [resp err]] client] ec] eqn:Hs.
  destruct err as [e|].
  - exists a1, (Some e). rewrite Hs. split_and!; try reflexivity; rewrite Ha; reflexivity.
  - set (state := StateMachine.State _).
    assert (state = StateMachine.State a.(Agent.stateMachine)) as Hst
      by (unfold state; rewrite Ha; reflexivity).
    case_decide as Hd.
    + exists a1, None. rewrite Hs. split_and!; try reflexivity; try (rewrite Ha; reflexivity).
      intros Hr. rewrite Hst, Hr in Hd. destruct Hd; discriminate.
    + destruct (StateMachine.HandleHTTPStatus _ _ _ _) as [sm b] eqn:Hh.
      exists a1, None. rewrite Hs. split_and!; try reflexivity; try (rewrite Ha; reflexivity).
      intros _. injection Hh as <- <-. reflexivity.
Qed.

(** The client after a round is the one its send leaves. *)
Lemma doSnapshot_transport r a :
  exists ec, (doSnapshot r a).2.(Agent.transport) =
    (Send decodeResponse decodeErrorResponse decodeErrorText json zstd r.(Round.world)
       r.(Round.encodeMs) r.(Round.sendNow) (doSnapshot r a).1.2 a.(Agent.transport) ec).1.2.
Proof.
  unfold doSnapshot. destruct (populateHealth r _ _) as [a1 snap] eqn:Hp.
  destruct (populateHealth_spec _ _ _ _ _ (eq_sym Hp)) as (_ & Ha & _).
  assert (Agent.transport a1 = Agent.transport a) as Ht by (rewrite Ha; reflexivity).
  exists a1.(Agent.errorCollector).
  change (Agent.transport (a1 <| Agent.latestSnapshot := Some snap |>)) with (Agent.transport a1).
  change (Agent.errorCollector (a1 <| Agent.latestSnapshot := Some snap |>)) with (Agent.errorCollector a1).
  rewrite Ht. destruct (Send _ _ _ _ _ _ _ _ _ _ _) as [[[evs [resp err]] client] ec] eqn:Hs.
  destruct err as [e|]; [cbn [fst snd]; by rewrite Hs|]. case_decide; [cbn [fst snd]; by rewrite Hs|].
  destruct (StateMachine.HandleHTTPStatus _ _ _ _). cbn [fst snd]. by rewrite Hs.
Qed.

Lemma doSnapshot_health r a :
  let h := (doSnapshot r a).1.2.(ClusterSnapshot.Health) in
  (h.(AgentHealth.InformersHealthy), h.(AgentHealth.InformersTotal), h.(AgentHealth.StaleResources)) =
    Registry.HealthReport r.(Round.registry).
Proof.
  pose proof (doSnapshot_spec r a) as H. destruct (doSnapshot r a) as [[evs snap] a'].
  destruct H as (b & err & Hp & _). cbn [fst snd]. rewrite <- (populateHealth_collectors r (a <| Agent.lastBuildMs := r.(Round.buildMs) |>)
    (Build cfg pipeline cloudAccountID r.(Round.reads)).(BuildResult.snapshot)). by rewrite <- Hp.
Qed.

(** The counters a snapshot carries are the agent's before its round. *)
Lemma doSnapshot_counters r a :
  let h := (doSnapshot r a).1.2.(ClusterSnapshot.Health) in
  h.(AgentHealth.SnapshotsSentTotal) = a.(Agent.snapshotsSent) /\
  h.(AgentHealth.SnapshotsFailedTotal) = a.(Agent.snapshotsFailed) /\
  h.(AgentHealth.SnapshotsTotalCount) = a.(Agent.snapshotsTotal) /\
  h.(AgentHealth.SnapshotsSentDelta) = uwrap64 (a.(Agent.snapshotsSent) - a.(Agent.prevSnapshotsSent)) /\
  h.(AgentHealth.SnapshotsFailedDelta) = uwrap64 (a.(Agent.snapshotsFailed) - a.(Agent.prevSnapshotsFailed)).
Proof.
  pose proof (doSnapshot_spec r a) as H. destruct (doSnapshot r a) as [[evs snap] a'].
  destruct H as (b & err & Hp & _). cbv zeta. cbn [fst snd].
  destruct (populateHealth_spec _ _ _ _ _ Hp) as (_ & _ & H1 & H2 & H3 & H4 & H5 & _).
  by rewrite H1, H2, H3, H4, H5.
Qed.

Lemma doSnapshot_running r a :
  StateMachine.State a.(Agent.stateMachine) = StateRunning ->
  StateMachine.State (doSnapshot r a).2.(Agent.stateMachine) = StateRunning.
Proof.
  intros Ha. pose proof (doSnapshot_spec r a) as H. destruct (doSnapshot r a) as [[evs snap] a'].
  destruct H as (b & err & _ & _ & _ & _ & _ & _ & _ & H).
  destruct err; destruct H as (_ & _ & H); [by rewrite <- Ha, <- H|by apply H].
Qed.

(** A round does not touch [ready], and its snapshot is the latest one. *)
Lemma doSnapshot_ready r a :
  (doSnapshot r a).2.(Agent.ready) = a.(Agent.ready) /\
  (doSnapshot r a).2.(Agent.latestSnapshot) = Some (doSnapshot r a).1.2.
Proof.
  unfold doSnapshot. destruct (populateHealth r _ _) as [a1 snap] eqn:Hp.
  destruct (populateHealth_spec _ _ _ _ _ (eq_sym Hp)) as (_ & -> & _).
  destruct (Send _ _ _ _ _ _ _ _ _ _ _) as [[[evs [resp err]] client] ec].
  destruct err as [e|]; [done|]. case_decide; [done|].
  by destruct (StateMachine.HandleHTTPStatus _ _ _ _).
Qed.

(** A tick of a running agent is a round. *)
Lemma loop_body_running now r a :
  StateMachine.State a.(Agent.stateMachine) = StateRunning ->
  loop_body (Tick now r) a = inl (doSnapshot r a).2.
Proof.
  intros Ha. unfold loop_body. rewrite Ha, (doSnapshot_running r a Ha).
  rewrite decide_False by (intros [?|?]; discriminate). done.
Qed.

(** What holds of an agent from its start on. *)
Lemma started_invariant startErr syncErr timeoutText now first a0 a1 a :
  run_start startErr syncErr timeoutText now first a0 = inl a1 -> reachable a1 a ->
  StateMachine.State a.(Agent.stateMachine) = StateRunning /\ a.(Agent.ready) = true /\
  is_Some a.(Agent.latestSnapshot).
Proof.
  intros Hs Hr.
  assert (Hrun : forall r b,
    StateMachine.State b.(Agent.stateMachine) = StateRunning -> Agent.ready b = true ->
    StateMachine.State (doSnapshot r b).2.(Agent.stateMachine) = StateRunning /\
    Agent.ready (doSnapshot r b).2 = true /\ is_Some (Agent.latestSnapshot (doSnapshot r b).2)).
  { intros r b Hb Hy. destruct (doSnapshot_ready r b) as [Hy' Hl].
    split_and!; [by apply doSnapshot_running|by rewrite Hy'|by rewrite Hl; eexists]. }
  induction Hr as [|b ev b' _ IH Hb].
  - unfold run_start in Hs. destruct startErr as [[n|failed total]|]; [done| |];
      injection Hs as <-; (apply Hrun; by destruct syncErr).
  - destruct IH as (Hst & Hy & _). destruct ev as [e|nw r]; [done|].
    rewrite loop_body_running in Hb by done. injection Hb as <-. by apply Hrun.
Qed.

(** ** Properties *)

(** C24 Once started, the agent never leaves Running and never returns on its own:
    whatever the backend answers, 401, 402, 403, 410 and 429 included, no status
    but 200 reaches the state machine, so the backoff, stop and exit states
    cannot be reached from the loop and only the context ends it. *)
Theorem agent_never_leaves_running startErr syncErr timeoutText now first a0 a1 a :
  run_start startErr syncErr timeoutText now first a0 = inl a1 -> reachable a1 a ->
  StateMachine.State a.(Agent.stateMachine) = StateRunning /\
  (forall ev, loop_body ev a ≠ inr (Returned None)) /\
  (forall now r, exists a', loop_body (Tick now r) a = inl a').
Proof.
  intros Hs Hr. destruct (started_invariant _ _ _ _ _ _ _ _ Hs Hr) as (Ha & _ & _).
  split_and!; [done| |].
  - intros [e|nw r]; [done|]. by rewrite loop_body_running.
  - intros nw r. rewrite loop_body_running by done. eauto.
Qed.

(** C36 Every snapshot is counted once, as what its send came to.  The snapshot of
    a round says how many were sent and failed before it, in total and since the
    one before; the next snapshot adds exactly the outcome of that round's send:
    one sent when it returned no error, one failed when it returned one, and
    nothing else (64-bit counters, wrap-around included).  The total is their
    sum, and stays it. *)
Theorem health_deltas r1 r2 a :
  a.(Agent.snapshotsTotal) = uwrap64 (a.(Agent.snapshotsSent) + a.(Agent.snapshotsFailed)) ->
  0 <= a.(Agent.snapshotsSent) < 2 ^ 64 -> 0 <= a.(Agent.snapshotsFailed) < 2 ^ 64 ->
  let a1 := (doSnapshot r1 a).2 in
  let snap1 := (doSnapshot r1 a).1.2 in
  let h1 := snap1.(ClusterSnapshot.Health) in
  let h2 := (doSnapshot r2 a1).1.2.(ClusterSnapshot.Health) in
  let error := (Send decodeResponse decodeErrorResponse decodeErrorText json zstd r1.(Round.world) r1.(Round.encodeMs)
    r1.(Round.sendNow) snap1 a.(Agent.transport) a.(Agent.errorCollector)).1.1.2.2 in
  h1.(AgentHealth.SnapshotsSentTotal) = a.(Agent.snapshotsSent) /\
  h1.(AgentHealth.SnapshotsFailedTotal) = a.(Agent.snapshotsFailed) /\
  h1.(AgentHealth.SnapshotsTotalCount) = uwrap64 (a.(Agent.snapshotsSent) + a.(Agent.snapshotsFailed)) /\
  h1.(AgentHealth.SnapshotsSentDelta) = uwrap64 (a.(Agent.snapshotsSent) - a.(Agent.prevSnapshotsSent)) /\
  h1.(AgentHealth.SnapshotsFailedDelta) = uwrap64 (a.(Agent.snapshotsFailed) - a.(Agent.prevSnapshotsFailed)) /\
  match error with
  | None =>
      h2.(AgentHealth.SnapshotsSentDelta) = 1 /\ h2.(AgentHealth.SnapshotsFailedDelta) = 0 /\
      h2.(AgentHealth.SnapshotsSentTotal) = uwrap64 (a.(Agent.snapshotsSent) + 1) /\
      h2.(AgentHealth.SnapshotsFailedTotal) = a.(Agent.snapshotsFailed)
  | Some _ =>
      h2.(AgentHealth.SnapshotsSentDelta) = 0 /\ h2.(AgentHealth.SnapshotsFailedDelta) = 1 /\
      h2.(AgentHealth.SnapshotsSentTotal) = a.(Agent.snapshotsSent) /\
      h2.(AgentHealth.SnapshotsFailedTotal) = uwrap64 (a.(Agent.snapshotsFailed) + 1)
  end /\
  h2.(AgentHealth.SnapshotsTotalCount) =
    uwrap64 (h2.(AgentHealth.SnapshotsSentTotal) + h2.(AgentHealth.SnapshotsFailedTotal)) /\
  a1.(Agent.snapshotsTotal) = uwrap64 (a1.(Agent.snapshotsSent) + a1.(Agent.snapshotsFailed)).
Proof.
  intros Ht Hs Hf a1 snap1 h1 h2 error.
  pose proof (doSnapshot_counters r1 a) as H1. pose proof (doSnapshot_counters r2 a1) as H2.
  pose proof (doSnapshot_spec r1 a) as Hsp. cbv zeta in H1, H2. fold snap1 h1 in H1. fold h2 in H2. fold a1 in Hsp.
  subst a1 snap1. destruct (doSnapshot r1 a) as [[evs1 snap1] a1]. cbn [fst snd] in *.
  destruct Hsp as (b & err & _ & He & _ & Htot & Hps & Hpf & _ & Herr).
  assert (error = err) as -> by (unfold error; rewrite <- He; apply Send_error_ec). clear He.
  destruct H1 as (-> & -> & -> & -> & ->). destruct H2 as (-> & -> & -> & -> & ->).
  rewrite Htot, Hps, Hpf, Ht. do 5 (split; [done|]).
  destruct err as [e|]; destruct Herr as (-> & -> & _);
    rewrite uwrap64_diff_1, Z.sub_diag by done; change (uwrap64 0) with 0;
    rewrite ?uwrap64_add_l, ?uwrap64_add_r; split_and!; try done; f_equal; lia.
Qed.

(** The staleness a build finds never reaches the backend: the health of the
    snapshot that is sent lists the unhealthy collectors and nothing else,
    whatever list the build put there. *)
Theorem build_staleness_lost r a x :
  x ∈ (Build cfg pipeline cloudAccountID r.(Round.reads)).(BuildResult.snapshot)
        .(ClusterSnapshot.Health).(AgentHealth.StaleResources) ->
  Forall (fun c => fst <$> c.(Collector.IsHealthy) ≠ Some false) r.(Round.registry).(Registry.collectors) ->
  let snap := (doSnapshot r a).1.2 in
  snap.(ClusterSnapshot.Health).(AgentHealth.StaleResources) = [] /\
  (doSnapshot r a).2.(Agent.latestSnapshot) = Some snap.
Proof.
  intros _ Hh snap. pose proof (doSnapshot_spec r a) as H. subst snap.
  destruct (doSnapshot r a) as [[evs snap] a']. cbn [fst snd].
  destruct H as (a1 & err & Hpop & _ & _ & _ & _ & _ & Hlatest & _).
  destruct (populateHealth_spec _ _ _ _ _ Hpop) as (_ & _ & _ & _ & _ & _ & _ & Hst & _).
  split; [|exact Hlatest]. rewrite Hst. unfold Registry.HealthReport.
  change 0 with (wrap64 0). rewrite health_loop. cbn [snd]. rewrite app_nil_l.
  by rewrite filter_none.
Qed.

(** C37 A failed send is visible to the backend: when posting a snapshot fails, every
    snapshot built within the next five minutes that is the next to be sent
    carries BACKEND_UNREACHABLE among its error codes. *)
Theorem send_failure_reported r1 r2 a compressed orig :
  let snap1 := (doSnapshot r1 a).1.2 in
  let a1 := (doSnapshot r1 a).2 in
  encodeSnapshot json zstd snap1 = inl (compressed, orig) ->
  strlen compressed <= a.(Agent.transport).(Client.maxCompressedBodyBytes) ->
  a1.(Agent.snapshotsSent) = a.(Agent.snapshotsSent) -> 0 <= a.(Agent.snapshotsSent) < 2 ^ 64 ->
  r2.(Round.errorsNow) - r1.(Round.sendNow) <= defaultTTL ->
  r2.(Round.codesNow) - r1.(Round.sendNow) <= defaultTTL ->
  ErrBackendUnreachable ∈
    (doSnapshot r2 a1).1.2.(ClusterSnapshot.Health).(AgentHealth.ErrorCodes).
Proof.
  intros snap1 a1 He Hcap Hsent Hrange Hnow Hnow'.
  pose proof (doSnapshot_spec r1 a) as H1. subst snap1 a1.
  destruct (doSnapshot r1 a) as [[evs1 snap1] a1]. cbn [fst snd] in *.
  destruct H1 as (b1 & err & _ & Herr & Hec & _ & _ & _ & _ & Hcase).
  destruct err as [e|].
  2: { destruct Hcase as (Hs & _). exfalso. rewrite Hs in Hsent. revert Hsent. unfold uwrap64.
       destruct (Z.eq_dec (Agent.snapshotsSent a + 1) (2 ^ 64)) as [E|];
         [rewrite E, Z_mod_same_full|rewrite Z.mod_small]; lia. }
  destruct (Send_failure_reports decodeResponse decodeErrorResponse decodeErrorText json zstd
    (Round.world r1) (Round.encodeMs r1) (Round.sendNow r1) snap1 (Agent.transport a)
    (Agent.errorCollector b1) compressed orig e He Hcap Herr) as (ae & Hrep & Hcode & Hcomp).
  pose proof (doSnapshot_spec r2 a1) as H2.
  destruct (doSnapshot r2 a1) as [[evs2 snap2] a2]. cbn [fst snd].
  destruct H2 as (b2 & err2 & Hpop & _).
  destruct (populateHealth_spec _ _ _ _ _ Hpop) as (_ & _ & _ & _ & _ & _ & _ & _ & Hcodes).
  apply Hcodes. change (Agent.errorCollector (a1 <| Agent.lastBuildMs := _ |>)) with (Agent.errorCollector a1).
  rewrite Hec, Hrep. unfold ErrorCollector.Report. cbn [ErrorCollector.entries].
  eexists _, _. split; [apply lookup_insert_eq|]. by split_and!; [apply expired_iff..|].
Qed.
End Loop.

(** ** Witnesses *)

(** A round over [reads] in which the backend answers every post with [status]. *)
Definition ex_round (reads : Reads.t) (status : int) (now : Time) : Round.t :=
  Round.mk reads 1 1 1 1 ex_registry canonical_order canonical_order now now now now now
    (World.mk (fun _ => None) (fun _ => None)
       (fun _ _ => inr (Response.mk status "" (Some "{}")))).

Definition ex_empty_reads : Reads.t :=
  ex_reads (Store.NewStore 0) (TypedStore.NewTypedStore 0) {[ "pods" := 0 ]} (10 * Minute).

Definition ex_started : Agent.t + outcome :=
  run_start sample_config (Some agent_pipeline) "" empty_json stored_zstd accept_all no_codec (fun _ => "")
    None None "5m0s" 0 (ex_round ex_empty_reads 410 0) (Agent.NewAgent sample_config 0).

Lemma agent_never_leaves_running_witness :
  match ex_started with
  | inl a => StateMachine.State a.(Agent.stateMachine) = StateRunning
  | inr _ => False
  end.
Proof.
  destruct ex_started as [a|] eqn:E.
  - exact (proj1 (agent_never_leaves_running sample_config (Some agent_pipeline) "" empty_json stored_zstd
      accept_all no_codec (fun _ => "") None None "5m0s" 0 (ex_round ex_empty_reads 410 0)
      (Agent.NewAgent sample_config 0) a a E (reach_init _ _ _ _ _ _ _ _ a))).
  - discriminate E.
Defined.

Definition ex_do (r : Round.t) (a : Agent.t) : list event * ClusterSnapshot.t * Agent.t :=
  doSnapshot sample_config (Some agent_pipeline) "" empty_json stored_zstd accept_all no_codec (fun _ => "") r a.

Lemma health_deltas_witness :
  let r := ex_round ex_empty_reads 403 0 in
  let h := (ex_do r (ex_do r (Agent.NewAgent sample_config 0)).2).1.2.(ClusterSnapshot.Health) in
  h.(AgentHealth.SnapshotsSentDelta) = 0 /\ h.(AgentHealth.SnapshotsFailedDelta) = 1.
Proof.
  destruct (health_deltas sample_config (Some agent_pipeline) "" empty_json stored_zstd accept_all no_codec
    (fun _ => "") (ex_round ex_empty_reads 403 0) (ex_round ex_empty_reads 403 0)
    (Agent.NewAgent sample_config 0)) as (_ & _ & _ & _ & _ & H & _); [by vm_compute..|].
  match type of H with match ?e with Some _ => _ | None => _ end => destruct e eqn:E end.
  - destruct H as (H1 & H2 & _). split; [exact H1|exact H2].
  - vm_compute in E. discriminate E.
Defined.

Lemma build_staleness_lost_witness :
  let r := ex_round ex_empty_reads 200 (10 * Minute) in
  let built := (Build sample_config (Some agent_pipeline) "" r.(Round.reads)).(BuildResult.snapshot) in
  built.(ClusterSnapshot.Health).(AgentHealth.StaleResources) = ["pods"] /\
  (ex_do r (Agent.NewAgent sample_config 0)).1.2.(ClusterSnapshot.Health).(AgentHealth.StaleResources) = [].
Proof.
  split; [by vm_compute|].
  apply (build_staleness_lost sample_config (Some agent_pipeline) "" empty_json stored_zstd accept_all no_codec
    (fun _ => "") (ex_round ex_empty_reads 200 (10 * Minute)) (Agent.NewAgent sample_config 0) "pods").
  - replace (AgentHealth.StaleResources _) with ["pods"] by (by vm_compute). by left.
  - repeat constructor; discriminate.
Defined.

Lemma send_failure_reported_witness :
  let r := ex_round ex_empty_reads 403 0 in
  ErrBackendUnreachable ∈
    (ex_do r (ex_do r (Agent.NewAgent sample_config 0)).2).1.2.(ClusterSnapshot.Health).(AgentHealth.ErrorCodes).
Proof.
  apply (send_failure_reported sample_config (Some agent_pipeline) "" empty_json stored_zstd accept_all no_codec
    (fun _ => "") (ex_round ex_empty_reads 403 0) (ex_round ex_empty_reads 403 0)
    (Agent.NewAgent sample_config 0) "{}" 2); try reflexivity; by vm_compute.
Defined.
