(* ===== verification/HealthServer.v ===== *)
(** * The health server: internal/health/server.go

    The server asks an agent whether it is ready and for its latest snapshot,
    and a store for its sizes, through three interfaces, which are classes here;
    the agent of Agent.v and the store of Store.v implement them.  A handler
    gives a reply; the multiplexer of net/http cleans the path of a request and
    looks it up among the registered patterns. *)

From S2P Require Import Prelude GoNum GoStrings Config Model Store Transport.
From S2P Require Import Pipeline SnapshotBuilder Registry StateMachine Agent.
Open Scope string_scope.
Open Scope list_scope.
Open Scope Z_scope.

(** ** The interfaces *)

Class ReadinessChecker (A : Type) := { IsReady : A -> bool }.
Class SnapshotProvider (A : Type) := { LatestSnapshot : A -> option ClusterSnapshot.t }.
Class StoreStats (A : Type) := { ItemCounts : A -> gmap string int }.

#[export] Instance agent_readiness : ReadinessChecker Agent.t := {| IsReady := Agent.IsReady |}.
#[export] Instance agent_snapshot : SnapshotProvider Agent.t := {| LatestSnapshot := Agent.LatestSnapshot |}.
#[export] Instance store_stats : StoreStats Store.t := {| ItemCounts := Store.ItemCounts |}.

(** ** Replies *)

(** The handlers registered, and what a reply carries: nothing, or the value
    that is encoded as JSON. *)
Inductive handler :=
  | Healthz | Readyz | Metrics
  | PprofIndex | PprofCmdline | PprofProfile | PprofSymbol | PprofTrace
  | DebugSnapshot | DebugStore.

#[export] Instance handler_eq_dec : EqDecision handler.
Proof. solve_decision. Defined.

Inductive body :=
  | NoBody
  | Strings (m : gmap string string)
  | Bools (m : gmap string bool)
  | Counts (m : gmap string int)
  | Snapshot (s : ClusterSnapshot.t).

Module Reply.
Record t := mk { Status : int; ContentType : option string; Body : body }.
End Reply.

Definition json_reply (status : int) (b : body) : Reply.t := Reply.mk status (Some "application/json") b.

(** What answers a request: a handler of this package, one of the packages
    promhttp and pprof, a redirection of the multiplexer to another path (its
    status is net/http's), or no handler. *)
Inductive answer :=
  | Replied (r : Reply.t)
  | Delegated (h : handler)
  | Redirected (path : string)
  | NotFound.

(** ** The server *)

Module HealthServer.
Record t := mk {
  Addr : string;
  mux : list (string * handler);      (* the patterns, in order of registration *)
  listening : bool }.

Definition debug_patterns : list (string * handler) := [
  ("/debug/pprof/", PprofIndex);
  ("/debug/pprof/cmdline", PprofCmdline);
  ("/debug/pprof/profile", PprofProfile);
  ("/debug/pprof/symbol", PprofSymbol);
  ("/debug/pprof/trace", PprofTrace);
  ("/debug/snapshot", DebugSnapshot);
  ("/debug/store", DebugStore)].

Definition NewServer (port : int) (enableDebug : bool) : t := {|
  Addr := ":" +:+ itoa port;
  mux := [("/healthz", Healthz); ("/readyz", Readyz); ("/metrics", Metrics)] ++
         (if enableDebug then debug_patterns else []);
  listening := false |}.

(** [listen] is [net.Listen]: an error, or the address listened on. *)
Definition Start (listen : string -> string + string) (s : t) : option string * t :=
  match listen s.(Addr) with
  | inl e => (Some ("health server listen: " +:+ e), s)
  | inr addr => (None, mk addr s.(mux) true)
  end.

(** [Shutdown] closes the listener first, whatever its result. *)
Definition Stop (s : t) : t := mk s.(Addr) s.(mux) false.
End HealthServer.

(** Whether a string ends in a slash. *)
Fixpoint final_slash (s : string) : bool :=
  match s with
  | EmptyString => false
  | String c EmptyString => bool_decide (c = "/"%char)
  | String _ s => final_slash s
  end.

(** [cleanPath] of net/http: the path from the root without empty, dot and
    dot-dot elements, with the final slash it had. *)
Definition clean_elements (path : string) : list string :=
  foldl (fun es e => if decide (e = "" \/ e = ".") then es
                     else if decide (e = "..") then take (length es - 1) es else es ++ [e])
    [] (Split path "/").

Definition cleanPath (path : string) : string :=
  let path := if HasPrefix path "/" then path else "/" +:+ path in
  let np := "/" +:+ String.concat "/" (clean_elements path) in
  if final_slash path && bool_decide (np <> "/") then np +:+ "/" else np.

(** A pattern that ends in a slash matches the paths it is a prefix of, any
    other one only itself; of two patterns the longer wins.  [path] is clean. *)
Definition matches (path : string) (p : string * handler) : bool :=
  bool_decide (p.1 = path) || final_slash p.1 && HasPrefix path p.1.

Definition longest (best : option (string * handler)) (p : string * handler) : option (string * handler) :=
  match best with
  | Some q => if strlen q.1 <? strlen p.1 then Some p else best
  | None => Some p
  end.

Definition route (mux : list (string * handler)) (path : string) : option (string * handler) :=
  foldl longest None (filter (fun p => matches path p = true) mux).

Section Handlers.
Context {A S : Type} `{ReadinessChecker A} `{SnapshotProvider A} `{StoreStats S}.

Definition handleHealthz : Reply.t := json_reply 200 (Strings {[ "status" := "ok" ]}).

Definition handleReadyz (a : A) : Reply.t :=
  let ready := IsReady a in
  json_reply (if ready : bool then 200 else 503) (Bools {[ "ready" := ready ]}).

Definition handleDebugSnapshot (a : A) : Reply.t :=
  match LatestSnapshot a with
  | None => Reply.mk 204 None NoBody
  | Some snap => json_reply 200 (Snapshot snap)
  end.

Definition handleDebugStore (st : S) : Reply.t := json_reply 200 (Counts (ItemCounts st)).

Definition serve_handler (a : A) (st : S) (h : handler) : answer :=
  match h with
  | Healthz => Replied handleHealthz
  | Readyz => Replied (handleReadyz a)
  | DebugSnapshot => Replied (handleDebugSnapshot a)
  | DebugStore => Replied (handleDebugStore st)
  | h => Delegated h
  end.

(** The answer to a request, of any method but CONNECT; [None] when nothing
    listens.  [path] is the escaped path of its URL: without percent escapes, the
    path itself; an element with escapes, which the multiplexer compares
    unescaped, is not modelled.  A path that is no pattern but is one with a slash
    at its end is redirected there, any other one that is not clean to the clean
    path. *)
Definition serve (s : HealthServer.t) (a : A) (st : S) (path : string) : option answer :=
  if s.(HealthServer.listening) then
    let clean := cleanPath path in
    let patterns := s.(HealthServer.mux).*1 in
    Some (if decide (clean ∉ patterns /\ final_slash clean = false /\ clean +:+ "/" ∈ patterns)
          then Redirected (clean +:+ "/")
          else if decide (clean = path) then
            match route s.(HealthServer.mux) path with
            | Some (_, h) => serve_handler a st h
            | None => NotFound
            end
          else Redirected clean)
  else None.
End Handlers.

(** ** Lemmas *)

Lemma final_slash_app path : final_slash (path +:+ "/") = true.
Proof.
  induction path as [|c p IH]; [done|]. change (String c p +:+ "/") with (String c (p +:+ "/")).
  cbn [final_slash]. destruct (p +:+ "/") eqn:E; [by destruct p|done].
Qed.

(** Every registered pattern is served by its own handler. *)
Lemma route_registered debug port path h :
  (path, h) ∈ (HealthServer.NewServer port debug).(HealthServer.mux) ->
  route (HealthServer.NewServer port debug).(HealthServer.mux) path = Some (path, h).
Proof.
  assert (forall p, p ∈ (HealthServer.NewServer port debug).(HealthServer.mux) ->
    route (HealthServer.NewServer port debug).(HealthServer.mux) p.1 = Some p) as H.
  { apply Forall_forall. destruct debug; repeat constructor; reflexivity. }
  apply (H (path, h)).
Qed.

(** Without the debug endpoints nothing but the three paths is routed. *)
Lemma route_plain port path :
  path ∉ ["/healthz"; "/readyz"; "/metrics"] ->
  route (HealthServer.NewServer port false).(HealthServer.mux) path = None.
Proof.
  intros Hp. unfold route. cbn [HealthServer.mux HealthServer.NewServer]. rewrite app_nil_r.
  assert (forall q h, q ∈ ["/healthz"; "/readyz"; "/metrics"] -> final_slash q = false -> matches path (q, h) = false) as Hm.
  { intros q h Hq Hs. unfold matches. cbn [fst]. rewrite Hs, andb_false_l, orb_false_r.
    apply bool_decide_eq_false. by intros <-. }
  rewrite !filter_cons, filter_nil, !Hm by (set_solver || reflexivity).
  rewrite !decide_False by discriminate. done.
Qed.

(** The registered patterns are clean. *)
Lemma registered_clean debug port path h :
  (path, h) ∈ (HealthServer.NewServer port debug).(HealthServer.mux) -> cleanPath path = path.
Proof.
  assert (forall p, p ∈ (HealthServer.NewServer port debug).(HealthServer.mux) -> cleanPath p.1 = p.1) as H.
  { apply Forall_forall. destruct debug; repeat constructor; vm_compute; reflexivity. }
  apply (H (path, h)).
Qed.

(** The server that listens serves a registered pattern by its handler. *)
Lemma serve_registered listen port debug addr (a : Agent.t) (st : Store.t) path h :
  listen (":" +:+ itoa port) = inr addr ->
  (path, h) ∈ (HealthServer.NewServer port debug).(HealthServer.mux) ->
  serve (HealthServer.Start listen (HealthServer.NewServer port debug)).2 a st path =
    Some (serve_handler a st h).
Proof.
  intros Hl Hp. unfold HealthServer.Start.
  change (HealthServer.Addr (HealthServer.NewServer port debug)) with (":" +:+ itoa port). rewrite Hl.
  unfold serve. cbn [snd HealthServer.listening HealthServer.mux]. cbv zeta.
  rewrite (registered_clean _ _ _ _ Hp), (route_registered _ _ _ _ Hp), decide_False, decide_True; [done..|].
  intros [Hno _]. by apply Hno, (list_elem_of_fmap_2 fst _ (path, h)).
Qed.

Lemma serve_unregistered listen port addr (a : Agent.t) (st : Store.t) path :
  listen (":" +:+ itoa port) = inr addr -> path ∉ ["/healthz"; "/readyz"; "/metrics"] ->
  serve (HealthServer.Start listen (HealthServer.NewServer port false)).2 a st path =
    Some (if decide (cleanPath path = path) then NotFound else Redirected (cleanPath path)).
Proof.
  intros Hl Hp. unfold HealthServer.Start.
  change (HealthServer.Addr (HealthServer.NewServer port false)) with (":" +:+ itoa port). rewrite Hl.
  unfold serve. cbn [snd HealthServer.listening HealthServer.mux]. cbv zeta. rewrite (route_plain _ _ Hp).
  rewrite decide_False; [done|]. cbn [HealthServer.mux HealthServer.NewServer]. rewrite app_nil_r.
  cbn [fmap list_fmap fst]. intros (_ & _ & Hq). rewrite !elem_of_cons in Hq. pose proof (final_slash_app (cleanPath path)) as Hs.
  destruct Hq as [Hq|[Hq|[Hq|Hq%elem_of_nil]]]; [rewrite Hq in Hs; discriminate Hs..|done].
Qed.

(** ** Properties *)

Section Probes.
Context (cfg : Config.t) (pipeline : option Pipeline) (cloudAccountID : string).
Context (json : ClusterSnapshot.t -> string + string) (zstd : Zstd.t).
Context (decodeResponse : string -> option SnapshotResponse.t)
        (decodeErrorResponse : string -> option SnapshotErrorResponse.t)
        (decodeErrorText : string -> string).
Abbreviation start := (run_start cfg pipeline cloudAccountID json zstd decodeResponse decodeErrorResponse decodeErrorText).
Abbreviation body := (loop_body cfg pipeline cloudAccountID json zstd decodeResponse decodeErrorResponse decodeErrorText).
Abbreviation reached := (reachable cfg pipeline cloudAccountID json zstd decodeResponse decodeErrorResponse decodeErrorText).
Abbreviation round := (doSnapshot cfg pipeline cloudAccountID json zstd decodeResponse decodeErrorResponse decodeErrorText).

(** C25 What the probes say of an agent: /healthz is 200 in every state; /readyz is
    503 before the agent starts and 200 in every state the loop can reach from
    its start, even when the initial sync timed out and whatever the backend
    answered since.  With the debug endpoints, /debug/snapshot is empty before
    the first round and after each tick the snapshot of that tick, and
    /debug/store is the sizes of the stores.  Without them every other path (from
    the root, without percent escapes) is not found when it is clean, and
    redirected to its clean path by the multiplexer when it has empty, dot or
    dot-dot elements. *)
Theorem probes_follow_agent listen port debug addr (st : Store.t) startErr syncErr timeoutText created now first a1 a :
  listen (":" +:+ itoa port) = inr addr ->
  start startErr syncErr timeoutText now first (Agent.NewAgent cfg created) = inl a1 -> reached a1 a ->
  let a0 := Agent.NewAgent cfg created in
  let get a path := serve (HealthServer.Start listen (HealthServer.NewServer port debug)).2 a st path in
  (forall b, get b "/healthz" = Some (Replied (json_reply 200 (Strings {[ "status" := "ok" ]})))) /\
  get a0 "/readyz" = Some (Replied (json_reply 503 (Bools {[ "ready" := false ]}))) /\
  get a "/readyz" = Some (Replied (json_reply 200 (Bools {[ "ready" := true ]}))) /\
  (debug = true ->
     get a0 "/debug/snapshot" = Some (Replied (Reply.mk 204 None NoBody)) /\
     (forall now r, exists a', body (Tick now r) a = inl a' /\
        get a' "/debug/snapshot" = Some (Replied (json_reply 200 (Snapshot (round r a).1.2)))) /\
     get a "/debug/store" = Some (Replied (json_reply 200 (Counts (Store.ItemCounts st))))) /\
  (debug = false -> forall path, HasPrefix path "/" = true -> IndexByte path "%" = -1 ->
     path ∉ ["/healthz"; "/readyz"; "/metrics"] ->
     get a path = Some (if decide (cleanPath path = path) then NotFound else Redirected (cleanPath path))).
Proof.
  intros Hl Hs Hr a0 get.
  destruct (started_invariant _ _ _ _ _ _ _ _ _ _ _ _ _ _ _ _ Hs Hr) as (Hrun & Hready & _).
  assert (forall b path h, (path, h) ∈ (HealthServer.NewServer port debug).(HealthServer.mux) ->
    get b path = Some (serve_handler b st h)) as Hget by (intros b path h; by apply (serve_registered _ _ _ addr)).
  split_and!.
  - intros b. rewrite (Hget b _ Healthz) by (left; reflexivity). done.
  - rewrite (Hget a0 _ Readyz) by (right; left; reflexivity). done.
  - rewrite (Hget a _ Readyz) by (right; left; reflexivity). cbn [serve_handler]. unfold handleReadyz.
    cbn [IsReady agent_readiness]. unfold Agent.IsReady. by rewrite Hready.
  - intros ->. split_and!.
    + rewrite (Hget a0 _ DebugSnapshot) by (do 8 right; left; reflexivity). done.
    + intros nw r. eexists. split; [by apply loop_body_running|].
      rewrite (Hget _ _ DebugSnapshot) by (do 8 right; left; reflexivity). cbn [serve_handler].
      unfold handleDebugSnapshot. cbn [LatestSnapshot agent_snapshot]. unfold Agent.LatestSnapshot.
      by rewrite (proj2 (doSnapshot_ready _ _ _ _ _ _ _ _ _ _)).
    + rewrite (Hget a _ DebugStore) by (do 9 right; left; reflexivity). done.
  - intros -> path _ _ Hp. by apply (serve_unregistered _ _ addr).
Qed.
End Probes.

(** ** Witness *)

Example cleanPath_ex :
  cleanPath <$> ["//healthz"; "/a/../healthz"; "/healthz/"; "/"; "/.."; "/a/./b/"] =
    ["/healthz"; "/healthz"; "/healthz/"; "/"; "/"; "/a/b/"].
Proof. vm_compute. reflexivity. Qed.

Definition ex_listen (addr : string) : string + string := inr ("[::]" +:+ addr).

Lemma probes_follow_agent_witness :
  match ex_started with
  | inl a => serve (HealthServer.Start ex_listen (HealthServer.NewServer 8080 true)).2 a (Store.NewStore 0) "/readyz" =
      Some (Replied (json_reply 200 (Bools {[ "ready" := true ]})))
  | inr _ => False
  end.
Proof.
  destruct ex_started as [a|] eqn:E.
  - destruct (probes_follow_agent sample_config (Some agent_pipeline) "" empty_json stored_zstd
      accept_all no_codec (fun _ => "") ex_listen 8080 true "[::]:8080" (Store.NewStore 0) None None "5m0s" 0 0
      (ex_round ex_empty_reads 410 0) a a eq_refl E (reach_init _ _ _ _ _ _ _ _ a)) as (_ & _ & H & _).
    exact H.
  - discriminate E.
Defined.
