(* ===== verification/Main.v ===== *)
(** * The process: cmd/agent/main.go

    [startup] is [main] up to [ag.Run]: the configuration, the clients of
    Kubernetes, the capabilities of the cluster, the cloud metadata, the
    collectors registered, the pipeline, the agent, the health server and the
    memory monitor.  Every failure on the way is the reason the process exits
    with code 1, or panics.  What runs from there to the end of [main] is in
    System.v. *)

From S2P Require Import Prelude GoNum GoStrings Config Model Store K8s Transport AgentErrors.
From S2P Require Import ConvertHelpers ConvertDynamic Pipeline SnapshotBuilder Registry Polling Pollers Collectors Informers.
From S2P Require Import Http CloudMetadata Discovery StateMachine Monitor Agent HealthServer.
Open Scope string_scope.
Open Scope list_scope.
Open Scope Z_scope.

(** ** Step 6: the collectors *)

(** A collector that is registered: the informer of a resource, or one of the
    two that poll, with its interval. *)
Inductive registered :=
  | InformerOf (k : kind)
  | MetricsPolling (interval : Duration)
  | GPUPolling (interval : Duration).

#[export] Instance registered_eq_dec : EqDecision registered.
Proof. solve_decision. Defined.

Definition reg_name (parse : string -> option Quantity.t) (c : registered) : string :=
  match c with
  | InformerOf k => label_of parse k
  | MetricsPolling _ => poller_name (Poller := MetricsPoller)
  | GPUPolling _ => poller_name (Poller := GPUPoller)
  end.

(** The condition of the GPU collector. *)
Definition gpu_wanted (cfg : Config.t) (caps : Capabilities.t) : bool :=
  (caps.(Capabilities.DCGMExporter) || (0 <? golen cfg.(Config.DCGMExporterEndpoints)))
  && cfg.(Config.GPUMetricsEnabled).

(** The collectors without a condition. *)
Definition always_registered : list registered := InformerOf <$> [
  KNode; KPod; KNamespace; KDeployment; KStatefulSet; KDaemonSet; KReplicaSet; KJob; KCronJob; KHPA; KPDB;
  KService; KIngress; KPV; KPVC; KStorageClass; KPriorityClass; KLimitRange; KResourceQuota].

Definition register_collectors (cfg : Config.t) (caps : Capabilities.t) : list registered :=
  always_registered ++
  (if caps.(Capabilities.VPA) then [InformerOf KVPA] else []) ++
  (if caps.(Capabilities.Karpenter) then [InformerOf KNodePool] else []) ++
  (if caps.(Capabilities.MetricsServer) then [MetricsPolling cfg.(Config.MetricsInterval)] else []) ++
  (if gpu_wanted cfg caps then [GPUPolling cfg.(Config.GPUMetricsInterval)] else []).

(** The loop over the addresses. *)
Definition endpoint_urls (port : int) (ips : list string) : list string :=
  foldl (fun urls ip => urls ++ ["http://" +:+ ip +:+ ":" +:+ itoa port]) [] ips.

(** [endpointsFn], called by a poll while the API server answers [api]: the
    endpoints configured, or the exporters found now. *)
Definition endpointsFn (cfg : Config.t) (api : API.t) : list string :=
  if 0 <? golen cfg.(Config.DCGMExporterEndpoints)
  then endpoint_urls cfg.(Config.DCGMExporterPort) cfg.(Config.DCGMExporterEndpoints)
  else endpoint_urls cfg.(Config.DCGMExporterPort) (DetectDCGMEndpoints api).2.

(** ** main *)

(** What reading the configuration of Kubernetes meets: the in-cluster
    configuration, the default path, the parser of a kubeconfig file, and the
    panic, if any, of each client made from a configuration. *)
Inductive kube_client := TypedClient | DynamicClient | MetricsClient.

Module Kube.
Record t (R : Type) := mk {
  InClusterConfig : string + R;
  RecommendedHomeFile : string;
  BuildConfigFromFlags : string -> string + R;
  NewForConfigOrDie : kube_client -> R -> option string }.
Arguments mk {R} _ _ _ _.
Arguments InClusterConfig {R} _.
Arguments RecommendedHomeFile {R} _.
Arguments BuildConfigFromFlags {R} _ _.
Arguments NewForConfigOrDie {R} _ _ _.
End Kube.

(** The configuration of the cluster the process runs in, or that of the file
    [$KUBECONFIG] or the default one names. *)
Definition buildKubeConfig {R} (Getenv : string -> string) (kube : Kube.t R) : string + R :=
  match kube.(Kube.InClusterConfig) with
  | inr cfg => inr cfg
  | inl _ =>
      let kubeconfig := Getenv "KUBECONFIG" in
      let kubeconfig := if decide (kubeconfig = "") then kube.(Kube.RecommendedHomeFile) else kubeconfig in
      kube.(Kube.BuildConfigFromFlags) kubeconfig
  end.

(** The panic of the first of the three clients that cannot be made. *)
Definition clients_panic {R} (kube : Kube.t R) (rest : R) : option string :=
  head (omap (fun c => kube.(Kube.NewForConfigOrDie) c rest) [TypedClient; DynamicClient; MetricsClient]).

(** The monitor of step 10, started. *)
Definition memory_monitor : MemoryPressureMonitor.t :=
  MemoryPressureMonitor.Start
    (MemoryPressureMonitor.NewMemoryPressureMonitor (f64_div (f64_of_Z 4) (f64_of_Z 5)) (30 * Second)).

Inductive exit_reason :=
  | InvalidConfiguration (e : Config.error)
  | KubeConfigFailed (e : string)
  | ClientPanicked (e : string)
  | DetectionFailed (e : err)
  | HealthServerFailed (e : string).

Module Process.
Record t := mk {
  config : Config.t;
  store : Store.t;
  metricsStore : MetricsStore.t;
  registry : list registered;
  gpuProvider : bool;               (* whether the builder has a GPU provider *)
  pipeline : Pipeline;
  cloudAccountID : string;
  agent : Agent.t;
  health : HealthServer.t }.
End Process.

Section Main.
Context (Getenv : string -> string) (Version : string).
Context {RestConfig : Type} (kube : Kube.t RestConfig).
Context (api : API.t) (ServerVersion : string + string).
Context (url_err : string -> option string).
Context (decodeAWS : HttpResponse.t -> string + AWSDoc.t) (decodeAzure : HttpResponse.t -> string + AzureDoc.t).
Context (listen : string -> string + string).

(** Step 1. *)
Definition load_config : Config.t :=
  let cfg := Config.Load Getenv in
  cfg <| Config.AgentVersion := Config.ResolveAgentVersion Getenv Version |>.

(** Step 5, after the capabilities: the version, when the API server tells it. *)
Definition with_kubernetes_version (cfg : Config.t) : Config.t :=
  match ServerVersion with
  | inl _ => cfg
  | inr v => cfg <| Config.KubernetesVersion := v |>
  end.

(** The steps 1 to 9; [now] is the clock.  The cloud metadata is asked for over
    HTTP. *)
Definition startup (now : Time) : http (exit_reason + Process.t) :=
  let cfg := load_config in
  match Config.Validate cfg with
  | Some e => Ret (inl (InvalidConfiguration e))
  | None =>
      let st := Store.NewStore now in
      let ms := MetricsStore.NewMetricsStore now in
      match buildKubeConfig Getenv kube with
      | inl e => Ret (inl (KubeConfigFailed e))
      | inr rest =>
      match clients_panic kube rest with
      | Some e => Ret (inl (ClientPanicked e))
      | None =>
      match Detect api with
      | inl e => Ret (inl (DetectionFailed e))
      | inr caps =>
          let cfg := with_kubernetes_version cfg in
          cloudMeta ← DetectCloudMetadata url_err decodeAWS decodeAzure;
          let registry := register_collectors cfg caps in
          let ag := Agent.NewAgent cfg now in
          let '(e, healthSrv) :=
            HealthServer.Start listen
              (HealthServer.NewServer cfg.(Config.HealthPort) cfg.(Config.DebugEndpoints)) in
          match e with
          | Some e => Ret (inl (HealthServerFailed e))
          | None =>
              Ret (inr {| Process.config := cfg; Process.store := st; Process.metricsStore := ms;
                          Process.registry := registry; Process.gpuProvider := gpu_wanted cfg caps;
                          Process.pipeline := agent_pipeline;
                          Process.cloudAccountID := cloudMeta.(CloudMetadata.AccountID);
                          Process.agent := ag; Process.health := healthSrv |})
          end
      end
      end
      end
  end.
End Main.

(** A call of an informer's handler is of a collector in the registry. *)
Definition of_registry (registry : list registered) (c : informer_call) : Prop :=
  InformerOf (call_kind c) ∈ registry.

(** ** Lemmas *)

Lemma endpoint_urls_fmap port ips :
  endpoint_urls port ips = (fun ip => "http://" +:+ ip +:+ ":" +:+ itoa port) <$> ips.
Proof.
  unfold endpoint_urls. induction ips as [|ip ips IH] using rev_ind; [done|].
  by rewrite foldl_app, fmap_app, IH.
Qed.

(** The lists no enricher touches are the stores'. *)
Lemma built_plain cfg acct r :
  let st := r.(Reads.store) in
  let snap := (Build cfg (Some agent_pipeline) acct r).(BuildResult.snapshot) in
  snap.(ClusterSnapshot.CustomWorkloads) = TypedStore.Values r.(Reads.order) st.(Store.CustomWorkloads) /\
  snap.(ClusterSnapshot.VPAs) = TypedStore.Values r.(Reads.order) st.(Store.VPAs) /\
  snap.(ClusterSnapshot.NodePools) = TypedStore.Values r.(Reads.order) st.(Store.NodePools).
Proof.
  intros st snap. destruct (Build_lists cfg acct r) as (_ & _ & _ & Hl). fold snap in Hl.
  split_and!; [exact (f_equal Lists.CustomWorkloads Hl)|exact (f_equal Lists.VPAs Hl)|exact (f_equal Lists.NodePools Hl)].
Qed.

(** The kinds that are registered: all but the two of a capability always. *)
Lemma registered_kind cfg caps k :
  InformerOf k ∈ register_collectors cfg caps <->
    (k = KVPA -> caps.(Capabilities.VPA) = true) /\ (k = KNodePool -> caps.(Capabilities.Karpenter) = true).
Proof.
  unfold register_collectors.
  destruct (Capabilities.VPA caps), (Capabilities.Karpenter caps), (Capabilities.MetricsServer caps),
    (gpu_wanted cfg caps), k; apply (bool_decide_unpack _); by vm_compute.
Qed.

(** No two collectors of a process share a name. *)
Lemma registered_names parse cfg caps : NoDup (reg_name parse <$> register_collectors cfg caps).
Proof.
  unfold register_collectors. apply (bool_decide_unpack _).
  destruct (Capabilities.VPA caps), (Capabilities.Karpenter caps), (Capabilities.MetricsServer caps),
    (gpu_wanted cfg caps); by vm_compute.
Qed.

(** The intervals of the two that poll. *)
Lemma registered_intervals cfg caps :
  (forall i, MetricsPolling i ∈ register_collectors cfg caps -> i = cfg.(Config.MetricsInterval)) /\
  (forall i, GPUPolling i ∈ register_collectors cfg caps -> i = cfg.(Config.GPUMetricsInterval)).
Proof.
  unfold register_collectors.
  split; intros i; rewrite !elem_of_app; intros Hin;
    (destruct Hin as [Hin|Hin]; [unfold always_registered in Hin; apply list_elem_of_fmap in Hin as (? & ? & _); done|]);
    destruct (Capabilities.VPA caps), (Capabilities.Karpenter caps), (Capabilities.MetricsServer caps),
      (gpu_wanted cfg caps); rewrite ?list_elem_of_singleton, ?elem_of_nil in Hin; naive_solver.
Qed.

Lemma Forall_app_3 {A} (P : A -> Prop) l1 l2 l3 : Forall P (l1 ++ l2 ++ l3) -> Forall P l1 /\ Forall P l2 /\ Forall P l3.
Proof. by rewrite !Forall_app. Qed.

(** The capabilities a group that is absent does not give. *)
Lemma Detect_groups api groups caps :
  api.(API.ServerGroups) = inr groups -> Detect api = inr caps ->
  (apiGroupVPA ∉ groups -> caps.(Capabilities.VPA) = false) /\
  (apiGroupKarpenter ∉ groups -> caps.(Capabilities.Karpenter) = false).
Proof.
  unfold Detect. intros ->. destruct (detectDCGMExporter api). intros [= <-].
  cbn [Capabilities.VPA Capabilities.Karpenter]. rewrite !groupSet_lookup.
  split; intros H; by apply bool_decide_eq_false.
Qed.

Lemma clients_panic_Some {R} (kube : Kube.t R) rest e :
  clients_panic kube rest = Some e -> exists c, kube.(Kube.NewForConfigOrDie) c rest = Some e.
Proof.
  unfold clients_panic. intros He%head_Some_elem_of%list_elem_of_omap. destruct He as (c & _ & Hc). by exists c.
Qed.

Lemma Values_empty {T} o now : TypedStore.Values o (TypedStore.NewTypedStore (T := T) now) = [].
Proof. apply Permutation_nil_r. by rewrite Values_perm. Qed.

(** ** Properties *)

(** C27 The registry of a process and its store fit: no two collectors share a
    name, each informer reports under the name the store counts and dates the
    typed store it writes by, and of the names the store counts exactly the
    custom workloads, and the VPAs or the node pools when the cluster has none,
    have no collector. *)
Theorem registry_fits_store parse cfg caps :
  let registry := register_collectors cfg caps in
  let names := reg_name parse <$> registry in
  NoDup names /\
  (forall k st, InformerOf k ∈ registry ->
     Store.ItemCounts st !! label_of parse k = Some (TypedStore.Len (store_of parse k st)) /\
     Store.LastUpdatedTimes st !! label_of parse k = Some (TypedStore.LastUpdated (store_of parse k st))) /\
  (forall st name, name ∈ (Store.ItemCounts_entries st).*1 ->
     (name ∉ names <->
        name = "custom_workloads" \/ (name = "vpas" /\ caps.(Capabilities.VPA) = false) \/
        (name = "nodepools" /\ caps.(Capabilities.Karpenter) = false))).
Proof.
  intros registry names. split_and!.
  - apply registered_names.
  - intros k st _. by destruct k.
  - intros st name. assert (forall st', (Store.ItemCounts_entries st').*1 = (Store.ItemCounts_entries (Store.NewStore 0)).*1)
      as -> by reflexivity.
    revert name. apply Forall_forall. unfold names, registry, register_collectors.
    destruct (Capabilities.VPA caps), (Capabilities.Karpenter caps), (Capabilities.MetricsServer caps),
      (gpu_wanted cfg caps); apply (bool_decide_unpack _); by vm_compute.
Qed.

Section Startup.
Context (Getenv : string -> string) (Version : string).
Context {RestConfig : Type} (kube : Kube.t RestConfig).
Context (api : API.t) (ServerVersion : string + string).
Context (url_err : string -> option string).
Context (decodeAWS : HttpResponse.t -> string + AWSDoc.t) (decodeAzure : HttpResponse.t -> string + AzureDoc.t).
Context (listen : string -> string + string).
Context (srv : server).

Lemma with_kubernetes_version_valid cfg :
  Config.valid cfg -> Config.valid (with_kubernetes_version ServerVersion cfg).
Proof. intros []. unfold with_kubernetes_version. destruct ServerVersion; by constructor. Qed.

(** The detection of the cloud metadata does not fail. *)
Lemma DetectCloudMetadata_total sent :
  exists md, (interp srv sent (DetectCloudMetadata url_err decodeAWS decodeAzure)).1 = inr md.
Proof.
  unfold DetectCloudMetadata. cbn [detect_first]. rewrite interp_or_else.
  destruct (interp srv sent _) as [[e|md] s1]; [|by exists md]. rewrite interp_or_else.
  destruct (interp srv s1 _) as [[e2|md] s2]; [|by exists md]. rewrite interp_or_else.
  destruct (interp srv s2 _) as [[e3|md] s3]; by eexists.
Qed.

(** C26 The process exits or comes up, and says which: an invalid configuration,
    a kubeconfig that cannot be read (outside a cluster, the file $KUBECONFIG or the
    default one names), a client that cannot be made and a failed detection end it
    before anything is asked of a metadata service, a failure to listen ends it
    with its cause, and otherwise it is up with a valid
    configuration, the collectors of the detected capabilities, a GPU provider
    exactly when it polls GPUs, the detected account, and a readiness probe that
    answers 503. *)
Theorem startup_outcomes now :
  match interp srv []
      (startup Getenv Version kube api ServerVersion url_err decodeAWS decodeAzure listen now) with
  | (inr (inl (InvalidConfiguration e)), sent) =>
      Config.Validate (load_config Getenv Version) = Some e /\ sent = []
  | (inr (inl (KubeConfigFailed e)), sent) =>
      Config.valid (load_config Getenv Version) /\ sent = [] /\
      (exists e', kube.(Kube.InClusterConfig) = inl e') /\
      kube.(Kube.BuildConfigFromFlags)
        (if decide (Getenv "KUBECONFIG" = "") then kube.(Kube.RecommendedHomeFile) else Getenv "KUBECONFIG") = inl e
  | (inr (inl (ClientPanicked e)), sent) =>
      Config.valid (load_config Getenv Version) /\ sent = [] /\
      exists c rest, buildKubeConfig Getenv kube = inr rest /\ kube.(Kube.NewForConfigOrDie) c rest = Some e
  | (inr (inl (DetectionFailed e)), sent) =>
      Config.valid (load_config Getenv Version) /\ Detect api = inl e /\ sent = []
  | (inr (inl (HealthServerFailed e)), _) =>
      Config.valid (load_config Getenv Version) /\
      exists cause, listen (":" +:+ itoa (load_config Getenv Version).(Config.HealthPort)) = inl cause /\
        e = "health server listen: " +:+ cause
  | (inr (inr p), sent) =>
      Config.valid p.(Process.config) /\
      (exists caps, Detect api = inr caps /\
         p.(Process.registry) = register_collectors p.(Process.config) caps) /\
      (p.(Process.gpuProvider) = true <->
         GPUPolling p.(Process.config).(Config.GPUMetricsInterval) ∈ p.(Process.registry)) /\
      (exists md, interp srv [] (DetectCloudMetadata url_err decodeAWS decodeAzure) = (inr md, sent) /\
         p.(Process.cloudAccountID) = md.(CloudMetadata.AccountID)) /\
      (forall st : Store.t, serve p.(Process.health) p.(Process.agent) st "/readyz" =
         Some (Replied (json_reply 503 (Bools {[ "ready" := false ]}))))
  | (inl _, _) => False
  end.
Proof.
  unfold startup. destruct (Config.Validate (load_config Getenv Version)) as [e|] eqn:Hv; [done|].
  apply Validate_valid in Hv. destruct (buildKubeConfig Getenv kube) as [e|rest] eqn:Hk.
  { split; [done|]. split; [done|]. unfold buildKubeConfig in Hk.
    destruct (Kube.InClusterConfig kube) as [e'|]; [|done]. split; [by exists e'|exact Hk]. }
  destruct (clients_panic kube rest) as [e|] eqn:Hc.
  { split; [done|]. split; [done|]. destruct (clients_panic_Some _ _ _ Hc) as [c H]. by exists c, rest. }
  destruct (Detect api) as [e|caps]; [done|].
  rewrite interp_bind. destruct (DetectCloudMetadata_total []) as [md Hmd].
  destruct (interp srv [] _) as [r sent] eqn:Ei. cbn [fst] in Hmd. subst r.
  set (cfg := with_kubernetes_version ServerVersion (load_config Getenv Version)).
  assert (Config.HealthPort cfg = Config.HealthPort (load_config Getenv Version)) as Hport
    by (unfold cfg, with_kubernetes_version; by destruct ServerVersion).
  unfold HealthServer.Start.
  change (HealthServer.Addr (HealthServer.NewServer ?port ?debug)) with (":" +:+ itoa port). rewrite Hport.
  destruct (listen _) as [cause|addr] eqn:El; cbn [interp].
  { split; [done|]. by exists cause. }
  cbn [Process.config Process.registry Process.gpuProvider Process.health Process.agent].
  split_and!; [by apply with_kubernetes_version_valid|by exists caps| |by exists md|].
  - unfold register_collectors. rewrite !elem_of_app. split; [intros ->; right; right; right; right; by left|].
    assert (GPUPolling (Config.GPUMetricsInterval cfg) ∉ always_registered) as Ha.
    { unfold always_registered. intros H. repeat (apply elem_of_cons in H as [H|H]; [done|]). by apply elem_of_nil in H. }
    destruct (Capabilities.VPA caps), (Capabilities.Karpenter caps), (Capabilities.MetricsServer caps),
      (gpu_wanted cfg caps); try done; rewrite ?list_elem_of_singleton, ?elem_of_nil; naive_solver.
  - intros st. unfold serve. cbn [HealthServer.listening HealthServer.mux].
    rewrite (route_registered _ _ "/readyz" Readyz) by (right; left; reflexivity). done.
Qed.

(** What a process that comes up has, for the lemmas below. *)
Lemma startup_up now p sent :
  interp srv [] (startup Getenv Version kube api ServerVersion url_err decodeAWS decodeAzure listen now) = (inr (inr p), sent) ->
  exists caps, Detect api = inr caps /\
    p.(Process.registry) = register_collectors p.(Process.config) caps /\
    p.(Process.store) = Store.NewStore now /\ p.(Process.pipeline) = agent_pipeline /\
    p.(Process.metricsStore) = MetricsStore.NewMetricsStore now /\
    p.(Process.agent) = Agent.NewAgent p.(Process.config) now.
Proof.
  unfold startup. destruct (Config.Validate _); [done|].
  destruct (buildKubeConfig Getenv kube) as [|rest]; [done|]. destruct (clients_panic kube rest); [done|].
  destruct (Detect api) as [|caps]; [done|].
  rewrite interp_bind. destruct (DetectCloudMetadata_total []) as [md Hmd].
  destruct (interp srv [] _) as [r s]. cbn [fst] in Hmd. subst r.
  destruct (HealthServer.Start _ _) as [[e|] hs]; cbn [interp]; [done|]. intros [= <- _]. by exists caps.
Qed.

Lemma startup_valid now p sent :
  interp srv [] (startup Getenv Version kube api ServerVersion url_err decodeAWS decodeAzure listen now) = (inr (inr p), sent) ->
  Config.valid p.(Process.config).
Proof.
  unfold startup. destruct (Config.Validate _) eqn:Hv; [done|]. apply Validate_valid in Hv.
  destruct (buildKubeConfig Getenv kube) as [|rest]; [done|]. destruct (clients_panic kube rest); [done|].
  destruct (Detect api) as [|caps]; [done|].
  rewrite interp_bind. destruct (DetectCloudMetadata_total []) as [md Hmd].
  destruct (interp srv [] _) as [r s]. cbn [fst] in Hmd. subst r.
  destruct (HealthServer.Start _ _) as [[e|] hs]; cbn [interp]; [done|]. intros [= <- _].
  by apply with_kubernetes_version_valid.
Qed.

(** C13 What no collector feeds stays empty: whatever the informers of a process
    that came up report, its snapshots have no custom workload, and no VPA or
    node pool unless the API group was there when the process started; a CRD
    installed later is not seen. *)
Theorem unfed_lists_empty parse now p sent groups cs1 cs2 cs3 m r :
  interp srv [] (startup Getenv Version kube api ServerVersion url_err decodeAWS decodeAzure listen now) = (inr (inr p), sent) ->
  api.(API.ServerGroups) = inr groups ->
  Forall (of_registry p.(Process.registry)) (cs1 ++ cs2 ++ cs3) ->
  let after cs := (calls parse cs (Shared.mk p.(Process.store) m)).(Shared.store) in
  r.(Reads.store).(Store.CustomWorkloads) = (after cs1).(Store.CustomWorkloads) ->
  r.(Reads.store).(Store.VPAs) = (after cs2).(Store.VPAs) ->
  r.(Reads.store).(Store.NodePools) = (after cs3).(Store.NodePools) ->
  let snap := (Build p.(Process.config) (Some p.(Process.pipeline)) p.(Process.cloudAccountID) r).(BuildResult.snapshot) in
  snap.(ClusterSnapshot.CustomWorkloads) = [] /\
  ("autoscaling.k8s.io" ∉ groups -> snap.(ClusterSnapshot.VPAs) = []) /\
  ("karpenter.sh" ∉ groups -> snap.(ClusterSnapshot.NodePools) = []).
Proof.
  intros Hp Hg (Hc1 & Hc2 & Hc3)%Forall_app_3 after H1 H2 H3 snap.
  destruct (startup_up _ _ _ Hp) as (caps & Hd & Hreg & Hst & Hpipe & _).
  destruct (Detect_groups api groups caps Hg Hd) as [Hv Hk].
  unfold snap. rewrite Hpipe. destruct (built_plain p.(Process.config) p.(Process.cloudAccountID) r) as (-> & -> & ->).
  rewrite H1, H2, H3. unfold after. rewrite Hreg in Hc1, Hc2, Hc3.
  assert (forall k cs, InformerOf k ∉ register_collectors p.(Process.config) caps ->
    Forall (of_registry (register_collectors p.(Process.config) caps)) cs -> Forall (fun c => call_kind c <> k) cs) as Hno.
  { intros k cs Hk' Hcs. apply (Forall_impl _ _ _ Hcs). by intros c Hc <-. }
  split_and!.
  - rewrite CustomWorkloads_calls. cbn [Shared.store]. rewrite Hst. apply Values_empty.
  - intros Hn. change (Store.VPAs ?st) with (store_of parse KVPA st).
    rewrite store_of_calls_other; [cbn [Shared.store]; rewrite Hst; apply Values_empty|].
    apply Hno; [|done]. intros [Hin _]%registered_kind. by rewrite Hv in Hin by done; specialize (Hin eq_refl).
  - intros Hn. change (Store.NodePools ?st) with (store_of parse KNodePool st).
    rewrite store_of_calls_other; [cbn [Shared.store]; rewrite Hst; apply Values_empty|].
    apply Hno; [|done]. intros [_ Hin]%registered_kind. by rewrite Hk in Hin by done; specialize (Hin eq_refl).
Qed.
End Startup.

(** ** Witnesses *)

Definition ex_env (k : string) : string := if decide (k = "KUBEADAPT_API_KEY") then "tok" else "".

(** A process in a cluster, whose clients can be made. *)
Definition ex_kube : Kube.t unit :=
  Kube.mk (inr tt) "~/.kube/config" (fun _ => inl "no such file") (fun _ _ => None).

Definition ex_process : (string + (exit_reason + Process.t)) * list Request.t :=
  interp (fun _ _ => inl "no route to host") []
    (startup ex_env "1.2.3" ex_kube ex_api (inr "v1.31.0") (fun _ => None) (fun _ => inl "") (fun _ => inl "")
       ex_listen 0).

Definition ex_nodepool_call : informer_call :=
  Call KNodePool 5 (OnAdd (Typed (NodePool.mk (Unstructured.mk (ObjectMeta.mk "default" "" "u1" None None 0 []) [])))).

Lemma ex_process_up : match ex_process.1 with inr (inr _) => True | _ => False end.
Proof. vm_compute. exact I. Qed.

Lemma ex_nodepool_call_registered p sent :
  ex_process = (inr (inr p), sent) -> of_registry p.(Process.registry) ex_nodepool_call.
Proof.
  intros (caps & Hd & -> & _)%startup_up.
  assert (Capabilities.Karpenter caps = true) as Hk.
  { apply (f_equal (fun r => match r with inr c => Capabilities.Karpenter c | inl _ => false end)) in Hd.
    etransitivity; [exact (eq_sym Hd)|by vm_compute]. }
  apply registered_kind. by split.
Qed.

Lemma unfed_lists_empty_witness :
  match ex_process with
  | (inr (inr p), _) =>
      let r := ex_reads (calls (fun _ => None) [ex_nodepool_call] (Shared.mk p.(Process.store) EventMetrics.zero)).(Shared.store)
                 (TypedStore.NewTypedStore 0) ∅ 0 in
      let snap := (Build p.(Process.config) (Some p.(Process.pipeline)) p.(Process.cloudAccountID) r).(BuildResult.snapshot) in
      snap.(ClusterSnapshot.CustomWorkloads) = [] /\ snap.(ClusterSnapshot.VPAs) = []
  | _ => False
  end.
Proof.
  pose proof ex_process_up as Hup. destruct ex_process as [[e|[e|p]] sent] eqn:E; [destruct Hup..|]. cbv zeta.
  pose proof (ex_nodepool_call_registered p sent E) as Hin.
  destruct (unfed_lists_empty ex_env "1.2.3" ex_kube ex_api (inr "v1.31.0") (fun _ => None) (fun _ => inl "") (fun _ => inl "")
    ex_listen (fun _ _ => inl "no route to host") (fun _ => None) 0 p sent ["apps"; "metrics.k8s.io"; "karpenter.sh"]
    [ex_nodepool_call] [ex_nodepool_call] [ex_nodepool_call] EventMetrics.zero
    (ex_reads (calls (fun _ => None) [ex_nodepool_call] (Shared.mk p.(Process.store) EventMetrics.zero)).(Shared.store)
       (TypedStore.NewTypedStore 0) ∅ 0) E eq_refl) as (Hc & Hv & _); try reflexivity.
  - by repeat constructor.
  - split; [exact Hc|]. apply Hv. vm_compute. intros H. repeat (apply elem_of_cons in H as [H|H]; [discriminate H|]).
    by apply elem_of_nil in H.
Defined.

(** ** The documented endpoints *)

(** The endpoints of the configuration are addresses without a port: with the
    value the documentation gives as its example, each URL has two ports. *)
Lemma documented_dcgm_endpoints api :
  let env k := if decide (k = "KUBEADAPT_DCGM_ENDPOINTS") then "10.0.0.1:9400,10.0.0.2:9400" else "" in
  endpointsFn (Config.Load env) api = ["http://10.0.0.1:9400:9400"; "http://10.0.0.2:9400:9400"].
Proof. by vm_compute. Qed.
