(* ===== verification/System.v ===== *)
(** * The running process

    Everything that runs after [main] has come up, to its end, as one step
    relation: the start of the collectors, the informers' goroutines and their
    handlers, the two polling goroutines, the memory monitor, the build that logs
    the store counts, the start of the agent and the ticks of its loop, the
    signal, the collectors stopped one after the other, the rest of [main].
    [StartAll] starts the collectors side by side and is one step: what an
    informer calls while another collector still starts is a call after it.  A
    build reads the typed stores one after the other while informers go on writing, so
    a step with a build takes the calls that arrive while it reads, and each
    store is read at its own instant among them; the usage it merges is written
    into the pods it read before the rest of the calls arrive.  A poll of the
    metrics API is one step. *)

From S2P Require Import Prelude GoNum GoStrings Config Model Store K8s Transport AgentErrors.
From S2P Require Import ConvertHelpers ConvertPod Ownership Aggregation Targets Pipeline SnapshotBuilder PodEquiv Built.
From S2P Require Import Registry Recovery Polling Pollers Dcgm Collectors Informers StateMachine Monitor Agent Http CloudMetadata Discovery HealthServer Main Cluster.
Open Scope string_scope.
Open Scope list_scope.
Open Scope Z_scope.

(** ** State *)

(** Where [main] is: about to call [ag.Run]; [Run] waits for the caches, after
    the start of the collectors; in the loop; in [StopAll], with the collectors
    left to stop and whether the first of them has been told; after [Run]; ended;
    or a goroutine has panicked, which ends the process. *)
Inductive stage :=
  | Booted
  | Waiting (startErr : option StartError)
  | Looping
  | Stopping (todo : list registered) (told : bool)
  | Closing
  | Ended
  | Panicked.

(** [StopAll] with these collectors left. *)
Definition stop_next (todo : list registered) : stage :=
  match todo with [] => Closing | _ => Stopping todo false end.

Module System.
Record t := mk {
  shared : Shared.t;                                 (* the store and the handlers' metrics *)
  metrics : Polling.t MetricsCollector.t;
  gpu : Polling.t GPUMetricsCollector.t;
  informers : kind -> Informer.t;
  agent : Agent.t;
  monitor : MemoryPressureMonitor.t;
  health : HealthServer.t;
  cancelled : bool;                                  (* the context, by a signal *)
  at_ : stage }.
#[export] Instance eta : Eta t := fun r => mk r.(shared) r.(metrics) r.(gpu) r.(informers) r.(agent)
  r.(monitor) r.(health) r.(cancelled) r.(at_).
End System.
Export (hints) System.

(** The process as [main] leaves it to [ag.Run]. *)
Definition boot (p : Process.t) : System.t := {|
  System.shared := Shared.mk p.(Process.store) EventMetrics.zero;
  System.metrics := new_poller (MetricsCollector.NewMetricsCollector p.(Process.metricsStore));
  System.gpu := new_poller GPUMetricsCollector.NewGPUMetricsCollector;
  System.informers := fun _ => new_informer;
  System.agent := p.(Process.agent);
  System.monitor := memory_monitor;
  System.health := p.(Process.health);
  System.cancelled := false;
  System.at_ := Booted |}.

Definition set_informer (k : kind) (i : Informer.t) (s : System.t) : System.t :=
  s <| System.informers := fun k' => if decide (k' = k) then i else s.(System.informers) k' |>.

(** What a build meets: the calls that arrive while it reads, and how many of
    them the read of the pods comes after. *)
Module Meanwhile.
Record t := mk { arriving : list informer_call; pods_read : nat }.
End Meanwhile.

Inductive sys_event :=
  | StartAll (fails : registered -> option string) (finished : list registered)
  | InformerCall (c : informer_call)
  | InformerGo (k : kind) (ev : informer_go)
  | MetricsPoll (ev : poll_event MetricsCollector.answers)
  | GPUPoll (ev : poll_event ((list string -> option (list GPUDeviceMetrics.t)) * list string * Time))
  | LogStoreCounts (w : Meanwhile.t) (r : Reads.t)
  | RunStart (syncErr : option string) (timeoutText : string) (now : Time) (w : Meanwhile.t) (r : Round.t)
  | AgentTick (now : Time) (w : Meanwhile.t) (r : Round.t)
  | MemoryMonitor (ev : option (int64 * uint64 * uint64))
  | Signal
  | LoopEnds (err : string)
  | StopCalled
  | StopReturns
  | ShutDown
  | NewTickerPanics.

(** The informers' calls of an event, and of a run. *)
Definition calls_of (ev : sys_event) : list informer_call :=
  match ev with
  | InformerCall c => [c]
  | LogStoreCounts w _ | RunStart _ _ _ w _ | AgentTick _ w _ => w.(Meanwhile.arriving)
  | _ => []
  end.

Definition history (evs : list sys_event) : list informer_call := evs ≫= calls_of.

(** ** The collectors *)

Section Fleet.
Context (parse : string -> option Quantity.t).

(** What the goroutine of a collector has come to: launched by its Start, told
    to stop, returned. *)
Definition launched (s : System.t) (c : registered) : Prop :=
  match c with
  | InformerOf k => (s.(System.informers) k).(Informer.at_) <> InfIdle
  | MetricsPolling _ => s.(System.metrics).(Polling.at_) <> NotStarted
  | GPUPolling _ => s.(System.gpu).(Polling.at_) <> NotStarted
  end.

Definition stop_closed (s : System.t) (c : registered) : bool :=
  match c with
  | InformerOf k => (s.(System.informers) k).(Informer.stopCh)
  | MetricsPolling _ => s.(System.metrics).(Polling.stopCh)
  | GPUPolling _ => s.(System.gpu).(Polling.stopCh)
  end.

Definition done_closed (s : System.t) (c : registered) : bool :=
  match c with
  | InformerOf k => (s.(System.informers) k).(Informer.done)
  | MetricsPolling _ => s.(System.metrics).(Polling.done)
  | GPUPolling _ => s.(System.gpu).(Polling.done)
  end.

(** A collector as the registry sees it now; [fails] and [waits] are what Start
    and WaitForSync return. *)
Definition collector_at (fails waits : registered -> option string) (s : System.t) (c : registered) : Collector.t := {|
  Collector.Name := reg_name parse c;
  Collector.Start := fails c;
  Collector.WaitForSync := waits c;
  Collector.StopReturns := done_closed s c;
  Collector.IsHealthy := Some
    match c with
    | InformerOf k => informerHealthy (s.(System.informers) k).(Informer.stopCh) (s.(System.informers) k).(Informer.done)
    | MetricsPolling _ => poller_healthy s.(System.metrics)
    | GPUPolling _ => poller_healthy s.(System.gpu)
    end;
  Collector.APICallStats :=
    match c with
    | InformerOf _ => None
    | MetricsPolling _ => Some (call_stats s.(System.metrics).(Polling.data))
    | GPUPolling _ => Some (call_stats s.(System.gpu).(Polling.data))
    end;
  Collector.DCGMTargetStats :=
    match c with
    | GPUPolling _ => target_stats s.(System.gpu).(Polling.data)
    | _ => None
    end |}.

Definition registry_at (started : bool) (registry : list registered) (s : System.t) : Registry.t :=
  Registry.mk (collector_at (fun _ => None) (fun _ => None) s <$> registry) started.

(** [Start] of a collector that does not fail. *)
Definition started_collector (s : System.t) (c : registered) : System.t :=
  match c with
  | InformerOf k => set_informer k ((s.(System.informers) k) <| Informer.at_ := InfRunning 0 |>) s
  | MetricsPolling _ => s <| System.metrics := (s.(System.metrics)) <| Polling.at_ := Launched |> |>
  | GPUPolling _ => s <| System.gpu := (s.(System.gpu)) <| Polling.at_ := Launched |> |>
  end.

Definition start_collectors (fails : registered -> option string) (registry : list registered) (s : System.t) : System.t :=
  foldl (fun s c => match fails c with Some _ => s | None => started_collector s c end) s registry.

(** [Stop] of a collector, up to its wait. *)
Definition told_to_stop (s : System.t) (c : registered) : System.t :=
  match c with
  | InformerOf k => set_informer k ((s.(System.informers) k) <| Informer.stopCh := true |>) s
  | MetricsPolling _ => s <| System.metrics := (s.(System.metrics)) <| Polling.stopCh := true |> |>
  | GPUPolling _ => s <| System.gpu := (s.(System.gpu)) <| Polling.stopCh := true |> |>
  end.
End Fleet.

Section Steps.
Context (parse : string -> option Quantity.t) (p : Process.t).
Context (json : ClusterSnapshot.t -> string + string) (zstd : Zstd.t).
Context (decodeResponse : string -> option SnapshotResponse.t)
        (decodeErrorResponse : string -> option SnapshotErrorResponse.t)
        (decodeErrorText : string -> string).

Abbreviation pbuild := (Build p.(Process.config) (Some p.(Process.pipeline)) p.(Process.cloudAccountID)).
Abbreviation pstart := (run_start p.(Process.config) (Some p.(Process.pipeline)) p.(Process.cloudAccountID) json zstd
  decodeResponse decodeErrorResponse decodeErrorText).
Abbreviation pbody := (loop_body p.(Process.config) (Some p.(Process.pipeline)) p.(Process.cloudAccountID) json zstd
  decodeResponse decodeErrorResponse decodeErrorText).

(** The store after the first calls that arrive. *)
Definition store_after (w : Meanwhile.t) (n : nat) (s : System.t) : Store.t :=
  (calls parse (take n w.(Meanwhile.arriving)) s.(System.shared)).(Shared.store).

(** A build's reads are of this system: each typed store at an instant, the
    metrics stores and the GPU devices as the pollers left them. *)
Record reads_of (s : System.t) (w : Meanwhile.t) (r : Reads.t) : Prop := {
  read_stores : forall k, exists n, store_of parse k r.(Reads.store) = store_of parse k (store_after w n s);
  read_pods : r.(Reads.store).(Store.Pods) = (store_after w w.(Meanwhile.pods_read) s).(Store.Pods);
  read_custom : r.(Reads.store).(Store.CustomWorkloads) = s.(System.shared).(Shared.store).(Store.CustomWorkloads);
  read_later : exists n, r.(Reads.laterNodes) = (store_after w n s).(Store.Nodes);
  read_nodeMetrics : r.(Reads.nodeMetrics) =
    s.(System.metrics).(Polling.data).(MetricsCollector.metricsStore).(MetricsStore.NodeMetrics);
  read_podMetrics : r.(Reads.podMetrics) =
    s.(System.metrics).(Polling.data).(MetricsCollector.metricsStore).(MetricsStore.PodMetrics);
  read_gpu : r.(Reads.gpu) =
    if p.(Process.gpuProvider) then Some (GPUMetricsCollector.GetGPUMetrics s.(System.gpu).(Polling.data)) else None }.

(** A round is of this system: the reads of its build, the collectors' reports
    and the duration of the last poll. *)
Record round_of (s : System.t) (w : Meanwhile.t) (r : Round.t) : Prop := {
  round_reads : reads_of s w r.(Round.reads);
  round_registry : r.(Round.registry) = registry_at parse true p.(Process.registry) s;
  round_collectMs : r.(Round.metricsCollectMs) =
    s.(System.metrics).(Polling.data).(MetricsCollector.LastMetricsCollectMs) }.

(** The informers whose handlers can be called: those whose [informer.Run] runs. *)
Definition informer_up (s : System.t) (c : informer_call) : Prop :=
  InformerOf (call_kind c) ∈ p.(Process.registry) /\
  exists n, (s.(System.informers) (call_kind c)).(Informer.at_) = InfRunning n.

(** What a build leaves of the store: the pods it read with what it merged into
    them, then the rest of the calls. *)
Definition after_build (w : Meanwhile.t) (r : Reads.t) (sh : Shared.t) : Shared.t :=
  let sh := calls parse (take w.(Meanwhile.pods_read) w.(Meanwhile.arriving)) sh in
  let st := sh.(Shared.store) <| Store.Pods := (pbuild r).(BuildResult.store).(Store.Pods) |> in
  calls parse (drop w.(Meanwhile.pods_read) w.(Meanwhile.arriving)) (Shared.mk st sh.(Shared.metrics)).

(** The goroutine of a poller with this interval: its first poll, then its ticks
    and its return, which need the ticker. *)
Definition poller_moves {S A} `{Poller S A} (i : Duration) (s : Polling.t S) (ev : poll_event A) : Prop :=
  goroutine_event ev = true /\ (s.(Polling.at_) = Launched \/ 0 < i).

(** [time.NewTicker] panics on an interval that is not positive: a poller after
    its first poll, or [Run] before its first snapshot. *)
Definition ticker_panics (s : System.t) : Prop :=
  (exists i, MetricsPolling i ∈ p.(Process.registry) /\ s.(System.metrics).(Polling.at_) = Selecting /\ i <= 0) \/
  (exists i, GPUPolling i ∈ p.(Process.registry) /\ s.(System.gpu).(Polling.at_) = Selecting /\ i <= 0) \/
  (exists e, s.(System.at_) = Waiting e /\ p.(Process.config).(Config.SnapshotInterval) <= 0).

(** Whether the WaitForSync of a collector can have returned nil: an informer has
    been run, a poller has polled. *)
Definition can_sync (s : System.t) (c : registered) : Prop :=
  match c with
  | InformerOf k => (s.(System.informers) k).(Informer.at_) <> InfIdle
  | MetricsPolling _ => s.(System.metrics).(Polling.synced) = true
  | GPUPolling _ => s.(System.gpu).(Polling.synced) = true
  end.

(** The moves.  A poller's Stop closes its channel without a guard, an informer's
    does it once. *)
Inductive move : System.t -> sys_event -> System.t -> Prop :=
  | sys_start_all s fails finished startErr :
      s.(System.at_) = Booted -> finished ≡ₚ p.(Process.registry) ->
      (forall c, (forall k, c <> InformerOf k) -> fails c = None) ->
      startErr = (Registry.StartAll (collector_at parse fails (fun _ => None) s <$> finished)
                    (Registry.mk (collector_at parse fails (fun _ => None) s <$> p.(Process.registry)) false)).1 ->
      move s (StartAll fails finished)
        ((start_collectors fails p.(Process.registry) s) <| System.at_ :=
           match startErr with Some (AllFailed _) => Closing | _ => Waiting startErr end |>)
  | sys_informer s c :
      informer_up s c ->
      move s (InformerCall c) (s <| System.shared := call parse c s.(System.shared) |>)
  | sys_informer_go s k ev i :
      InformerOf k ∈ p.(Process.registry) -> goroutine_go ev = true -> informer_step (s.(System.informers) k) ev i ->
      move s (InformerGo k ev) (set_informer k i s)
  | sys_metrics s ev m i :
      MetricsPolling i ∈ p.(Process.registry) -> poller_moves i s.(System.metrics) ev -> step s.(System.metrics) ev m ->
      move s (MetricsPoll ev) (s <| System.metrics := m |>)
  | sys_gpu s ev g i :
      GPUPolling i ∈ p.(Process.registry) -> poller_moves i s.(System.gpu) ev -> step s.(System.gpu) ev g ->
      move s (GPUPoll ev) (s <| System.gpu := g |>)
  | sys_log s e w r :
      s.(System.at_) = Waiting e -> Forall (informer_up s) w.(Meanwhile.arriving) -> reads_of s w r ->
      move s (LogStoreCounts w r) (s <| System.shared := after_build w r s.(System.shared) |>)
  | sys_start s startErr syncErr timeoutText now w r a :
      s.(System.at_) = Waiting startErr -> 0 < p.(Process.config).(Config.SnapshotInterval) ->
      Forall (informer_up s) w.(Meanwhile.arriving) -> round_of s w r ->
      (syncErr = None -> forall c, c ∈ p.(Process.registry) -> can_sync s c) ->
      pstart startErr syncErr timeoutText now r s.(System.agent) = inl a ->
      move s (RunStart syncErr timeoutText now w r)
        (s <| System.shared := after_build w r.(Round.reads) s.(System.shared) |>
           <| System.agent := a |> <| System.at_ := Looping |>)
  | sys_tick s now w r a :
      s.(System.at_) = Looping -> Forall (informer_up s) w.(Meanwhile.arriving) ->
      round_of s w r -> pbody (Tick now r) s.(System.agent) = inl a ->
      move s (AgentTick now w r)
        (s <| System.shared := after_build w r.(Round.reads) s.(System.shared) |> <| System.agent := a |>)
  | sys_monitor s ev m :
      MemoryPressureMonitor.monitor_step s.(System.monitor) ev m ->
      move s (MemoryMonitor ev) (s <| System.monitor := m |>)
  | sys_signal s :
      s.(System.cancelled) = false ->
      move s Signal (s <| System.cancelled := true |>
                       <| System.metrics := (s.(System.metrics)) <| Polling.ctx_done := true |> |>
                       <| System.gpu := (s.(System.gpu)) <| Polling.ctx_done := true |> |>)
  | sys_loop_ends s err :
      s.(System.at_) = Looping -> s.(System.cancelled) = true ->
      pbody (Cancelled err) s.(System.agent) = inr (Returned (Some err)) ->
      move s (LoopEnds err) (s <| System.at_ := stop_next p.(Process.registry) |>)
  | sys_call_stop s c todo :
      s.(System.at_) = Stopping (c :: todo) false -> ((forall k, c <> InformerOf k) -> stop_closed s c = false) ->
      move s StopCalled ((told_to_stop s c) <| System.at_ := Stopping (c :: todo) true |>)
  | sys_stop_returns s c todo :
      s.(System.at_) = Stopping (c :: todo) true -> done_closed s c = true ->
      move s StopReturns (s <| System.at_ := stop_next todo |>)
  | sys_shut_down s :
      s.(System.at_) = Closing ->
      move s ShutDown (s <| System.monitor := MemoryPressureMonitor.Stop s.(System.monitor) |>
                         <| System.health := HealthServer.Stop s.(System.health) |> <| System.at_ := Ended |>)
  | sys_panic s :
      ticker_panics s -> move s NewTickerPanics (s <| System.at_ := Panicked |>).

Definition alive (s : System.t) : Prop := s.(System.at_) <> Ended /\ s.(System.at_) <> Panicked.

Definition sys_step (s : System.t) (ev : sys_event) (s' : System.t) : Prop := alive s /\ move s ev s'.

(** A run from the boot, the latest event last. *)
Inductive sys_run : list sys_event -> System.t -> Prop :=
  | sys_boot : sys_run [] (boot p)
  | sys_snoc evs s ev s' : sys_run evs s -> sys_step s ev s' -> sys_run (evs ++ [ev]) s'.
End Steps.

(** ** What a snapshot reports *)

(** The list of a kind in a snapshot; replica sets are only read. *)
Definition reported (k : kind) (snap : ClusterSnapshot.t) : list (info_of k) :=
  match k return list (info_of k) with
  | KNode => snap.(ClusterSnapshot.Nodes) | KPod => snap.(ClusterSnapshot.Pods)
  | KNamespace => snap.(ClusterSnapshot.Namespaces) | KDeployment => snap.(ClusterSnapshot.Deployments)
  | KStatefulSet => snap.(ClusterSnapshot.StatefulSets) | KDaemonSet => snap.(ClusterSnapshot.DaemonSets)
  | KReplicaSet => [] | KJob => snap.(ClusterSnapshot.Jobs) | KCronJob => snap.(ClusterSnapshot.CronJobs)
  | KHPA => snap.(ClusterSnapshot.HPAs) | KPDB => snap.(ClusterSnapshot.PDBs)
  | KService => snap.(ClusterSnapshot.Services) | KIngress => snap.(ClusterSnapshot.Ingresses)
  | KPV => snap.(ClusterSnapshot.PVs) | KPVC => snap.(ClusterSnapshot.PVCs)
  | KStorageClass => snap.(ClusterSnapshot.StorageClasses) | KPriorityClass => snap.(ClusterSnapshot.PriorityClasses)
  | KLimitRange => snap.(ClusterSnapshot.LimitRanges) | KResourceQuota => snap.(ClusterSnapshot.ResourceQuotas)
  | KVPA => snap.(ClusterSnapshot.VPAs) | KNodePool => snap.(ClusterSnapshot.NodePools)
  end.

(** What a store keeps of an object: pods up to their measurements, everything
    else as it is converted. *)
Definition kept (k : kind) : relation (info_of k) :=
  match k return relation (info_of k) with
  | KPod => (≡)
  | _ => eq
  end.

#[export] Instance kept_reflexive k : Reflexive (kept k).
Proof. destruct k; apply _. Qed.

(** What an entry keeps of the conversion of its object: everything but what the
    merges and the enrichers set. *)
Definition converted (k : kind) : info_of k -> info_of k :=
  match k return info_of k -> info_of k with
  | KNode => bare_node
  | KPod => bare_pod
  | KDeployment => bare_deployment
  | KStatefulSet => bare_statefulset
  | KDaemonSet => bare_daemonset
  | KJob => bare_job
  | KPDB => bare_pdb
  | KService => bare_service
  | _ => fun x => x
  end.

(** The events that send a snapshot. *)
Definition snapshot_event (ev : sys_event) : option (Meanwhile.t * Round.t) :=
  match ev with
  | RunStart _ _ _ w r | AgentTick _ w r => Some (w, r)
  | _ => None
  end.

(** The agent a round begins with: in the first, after the wait for the caches. *)
Definition round_agent (ev : sys_event) (a : Agent.t) : Agent.t :=
  match ev with
  | RunStart syncErr timeoutText now _ _ =>
      synced_agent syncErr timeoutText now
        (a <| Agent.stateMachine := StateMachine.SetCancelFunc a.(Agent.stateMachine) |>)
  | _ => a
  end.

(** ** Lemmas *)

(** The start and the stop of collectors change their goroutines and nothing
    else. *)
Record fleet_only (s s' : System.t) : Prop := {
  fleet_shared : s'.(System.shared) = s.(System.shared);
  fleet_agent : s'.(System.agent) = s.(System.agent);
  fleet_cancelled : s'.(System.cancelled) = s.(System.cancelled);
  fleet_metrics : s'.(System.metrics).(Polling.data) = s.(System.metrics).(Polling.data);
  fleet_gpu : s'.(System.gpu).(Polling.data) = s.(System.gpu).(Polling.data);
  fleet_at : s'.(System.at_) = s.(System.at_) }.

Lemma started_collector_frame s c : fleet_only s (started_collector s c).
Proof. by destruct c. Qed.

Lemma start_collectors_frame fails registry s : fleet_only s (start_collectors fails registry s).
Proof.
  unfold start_collectors. revert s. induction registry as [|c registry IH]; intros s; [done|].
  cbn [foldl]. destruct (fails c); [apply IH|].
  destruct (started_collector_frame s c), (IH (started_collector s c)). split; congruence.
Qed.

(** A collector whose Start did not fail is launched; an informer runs. *)
Lemma start_collectors_running fails registry s k :
  InformerOf k ∈ registry -> fails (InformerOf k) = None ->
  ((start_collectors fails registry s).(System.informers) k).(Informer.at_) = InfRunning 0.
Proof.
  unfold start_collectors. intros Hin Hf. apply list_elem_of_split in Hin as (l1 & l2 & ->).
  rewrite foldl_app. cbn [foldl]. rewrite Hf.
  assert (forall s', (s'.(System.informers) k).(Informer.at_) = InfRunning 0 ->
    ((foldl (fun s c => match fails c with Some _ => s | None => started_collector s c end) s' l2).(System.informers) k)
      .(Informer.at_) = InfRunning 0) as Hkeep.
  { induction l2 as [|c l2 IH]; intros s' Hs'; [done|]. cbn [foldl]. apply IH.
    destruct (fails c); [done|]. destruct c as [k'| |]; cbn; [|done..]. by case_decide. }
  apply Hkeep. cbn. by rewrite decide_True.
Qed.

Lemma started_collector_launched s c c' : launched s c -> launched (started_collector s c') c.
Proof. destruct c, c'; cbn; try done. by case_decide. Qed.

Lemma start_collectors_launched fails registry s c :
  c ∈ registry -> fails c = None -> launched (start_collectors fails registry s) c.
Proof.
  unfold start_collectors. intros Hin Hf. apply list_elem_of_split in Hin as (l1 & l2 & ->).
  rewrite foldl_app. cbn [foldl]. rewrite Hf.
  assert (forall s', launched s' c ->
    launched (foldl (fun s c => match fails c with Some _ => s | None => started_collector s c end) s' l2) c) as Hkeep.
  { induction l2 as [|c' l2 IH]; intros s' Hs'; [done|]. cbn [foldl]. apply IH.
    destruct (fails c'); [done|]. by apply started_collector_launched. }
  apply Hkeep. destruct c; cbn; [by rewrite decide_True|done..].
Qed.

(** A poller is left alone or launched. *)
Lemma start_collectors_pollers fails registry s :
  let s' := start_collectors fails registry s in
  (s'.(System.metrics) = s.(System.metrics) \/
   s'.(System.metrics) = s.(System.metrics) <| Polling.at_ := Launched |>) /\
  (s'.(System.gpu) = s.(System.gpu) \/ s'.(System.gpu) = s.(System.gpu) <| Polling.at_ := Launched |>).
Proof.
  cbv zeta. unfold start_collectors.
  induction registry as [|c registry IH] using rev_ind; [by split; left|].
  rewrite foldl_app. cbn [foldl]. set (s' := foldl _ s registry) in *. destruct (fails c); [exact IH|].
  destruct IH as [IHm IHg], c; cbn; [by split..|split; [|exact IHg]|split; [exact IHm|]]; right.
  - by destruct IHm as [->| ->].
  - by destruct IHg as [->| ->].
Qed.

Lemma told_to_stop_frame s c : fleet_only s (told_to_stop s c).
Proof. by destruct c. Qed.

Section Keys.
Context (parse : string -> option Quantity.t).

Lemma kept_key k (x y : info_of k) : kept k x y -> key_of parse k x = key_of parse k y.
Proof. destruct k; cbn; by intros ->. Qed.

Lemma kept_converted k (x y : info_of k) : kept k x y -> converted k x = converted k y.
Proof.
  destruct k; cbn; try by intros ->. apply bare_pod_equiv.
Qed.

Lemma converted_key k (x : info_of k) : key_of parse k (converted k x) = key_of parse k x.
Proof. by destruct k. Qed.

(** The values of a mirror are the conversions of the cluster's objects, one
    under each key. *)
Lemma mirrored_values o cs s k :
  mirrored parse kept cs s ->
  let vs := TypedStore.Values o (store_of parse k s.(Shared.store)) in
  NoDup (key_of parse k <$> vs) /\
  forall key y, (exists x, x ∈ vs /\ key_of parse k x = key /\ converted k x = y) <->
    converted k <$> (model_of parse k <$> cluster_of parse k cs key) = Some y.
Proof.
  intros Hm. cbv zeta. set (ts := store_of parse k _).
  assert (forall key v, TypedStore.Get key ts = Some v -> key_of parse k v = key /\
    converted k <$> (model_of parse k <$> cluster_of parse k cs key) = Some (converted k v)) as Hkey.
  { intros key v Hv. specialize (Hm k key). fold ts in Hm. rewrite Hv in Hm.
    inversion Hm as [v' y Hk Hv' Hy|]; subst v'. cbn [fmap option_fmap option_map].
    rewrite (kept_converted _ _ _ Hk). split; [|done].
    symmetry in Hy. apply fmap_Some in Hy as (x & Hx & ->).
    rewrite (kept_key _ _ _ Hk). by apply (cluster_of_key _ _ _ _ _ Hx). }
  assert (forall x, x ∈ TypedStore.Values o ts <-> exists key, TypedStore.Get key ts = Some x) as Hin.
  { intros x. rewrite Values_perm, list_elem_of_fmap. split.
    - intros ([key v] & -> & Hin%elem_of_map_to_list). by exists key.
    - intros [key Hx]. exists (key, x). by rewrite elem_of_map_to_list. }
  split.
  - assert (key_of parse k <$> TypedStore.Values o ts ≡ₚ (map_to_list (TypedStore.items ts)).*1) as ->.
    { rewrite Values_perm, <- list_fmap_compose. apply reflexive_eq, Forall_fmap_ext_1, Forall_forall.
      intros [key v] Hkv%elem_of_map_to_list. by destruct (Hkey key v Hkv). }
    apply NoDup_fst_map_to_list.
  - intros key y. split.
    + intros (x & (key' & Hx)%Hin & <- & <-). by destruct (Hkey key' x Hx) as [-> ?].
    + intros Hy. destruct (TypedStore.Get key ts) as [v|] eqn:Hv.
      * destruct (Hkey key v Hv) as [Hk Hc]. exists v. rewrite Hc in Hy. injection Hy as Hy.
        split; [|done]. apply Hin. by exists key.
      * specialize (Hm k key). fold ts in Hm. rewrite Hv in Hm.
        inversion Hm as [|Hn Hc]. by rewrite <- Hc in Hy.
Qed.

(** A list of the snapshot converts the list read when it is that list, or that
    list with fields set that the conversion does not set. *)
Ltac list_read P Hl :=
  match goal with |- converted ?k <$> _ = _ =>
      exact (f_equal (fun l => @fmap list list_fmap (info_of k) (info_of k) (converted k) (P l)) Hl) end.

Ltac list_enriched P g Hl :=
  match goal with
  | |- converted ?k <$> _ = converted ?k <$> ?ts =>
      transitivity (@fmap list list_fmap (info_of k) (info_of k) (converted k) (@fmap list list_fmap (info_of k) (info_of k) g ts)); [list_read P Hl|];
      apply (fmap_kept g (converted k)); intros x;
      unfold aggregate_deployment, aggregate_statefulset, aggregate_daemonset, aggregate_job,
        target_pdb, target_service; cbv zeta; repeat case_match; reflexivity
  end.

(** A build keeps the conversions of what it read. *)
Lemma built_converted cfg acct r k :
  let snap := (Build cfg (Some agent_pipeline) acct r).(BuildResult.snapshot) in
  k <> KReplicaSet -> k <> KNode ->
  converted k <$> reported k snap =
    converted k <$> TypedStore.Values r.(Reads.order) (store_of parse k r.(Reads.store)).
Proof.
  intros snap Hrs Hn. destruct (Build_lists cfg acct r) as (_ & _ & _ & Hl).
  fold snap in Hl. set (ix := byNamespace _) in Hl. unfold enriched_lists in Hl. cbv zeta in Hl.
  set (m := read_owner_maps _ _) in Hl. set (look := pods_of _) in Hl.
  destruct k; try done.
  - transitivity (@fmap list list_fmap (info_of KPod) (info_of KPod) (converted KPod) (resolveOwner m <$>
      merge_pods r (TypedStore.Values r.(Reads.order) (store_of parse KPod r.(Reads.store)))));
      [list_read Lists.Pods Hl|].
    rewrite merge_pods_merged, !fmap_kept; [done| |]; intros x.
    + exact (kept_converted KPod _ _ (merged_equiv r x)).
    + unfold resolveOwner. repeat case_decide; reflexivity.
  - list_read Lists.Namespaces Hl.
  - list_enriched Lists.Deployments (aggregate_deployment look) Hl.
  - list_enriched Lists.StatefulSets (aggregate_statefulset look) Hl.
  - list_enriched Lists.DaemonSets (aggregate_daemonset look) Hl.
  - list_enriched Lists.Jobs (aggregate_job look) Hl.
  - list_read Lists.CronJobs Hl.
  - list_read Lists.HPAs Hl.
  - list_enriched Lists.PDBs (target_pdb ix) Hl.
  - list_enriched Lists.Services (target_service ix) Hl.
  - list_read Lists.Ingresses Hl.
  - list_read Lists.PVs Hl.
  - list_read Lists.PVCs Hl.
  - list_read Lists.StorageClasses Hl.
  - list_read Lists.PriorityClasses Hl.
  - list_read Lists.LimitRanges Hl.
  - list_read Lists.ResourceQuotas Hl.
  - list_read Lists.VPAs Hl.
  - list_read Lists.NodePools Hl.
Qed.

(** The nodes are those read and nodes read later. *)
Lemma built_nodes cfg acct r :
  let snap := (Build cfg (Some agent_pipeline) acct r).(BuildResult.snapshot) in
  exists extra, converted KNode <$> reported KNode snap =
      (converted KNode <$> TypedStore.Values r.(Reads.order) r.(Reads.store).(Store.Nodes)) ++ (converted KNode <$> extra) /\
    forall n, n ∈ extra -> n ∈ TypedStore.Values r.(Reads.order) r.(Reads.laterNodes).
Proof.
  intros snap. eexists. split.
  - unfold snap. cbn [reported converted]. by rewrite built_nodes_eq, fmap_app, merge_nodes_bare.
  - intros n Hn. by apply backfill_extra in Hn as [? _].
Qed.
End Keys.

Lemma option_Forall2_fmap_l {A B} (R : A -> B -> Prop) (f : A -> A) o o' :
  (forall x y, R x y -> R (f x) y) -> option_Forall2 R o o' -> option_Forall2 R (f <$> o) o'.
Proof. intros Hf [x y Hxy|]; constructor. by apply Hf. Qed.

Section Runs.
Context (parse : string -> option Quantity.t) (p : Process.t).
Context (json : ClusterSnapshot.t -> string + string) (zstd : Zstd.t).
Context (decodeResponse : string -> option SnapshotResponse.t)
        (decodeErrorResponse : string -> option SnapshotErrorResponse.t)
        (decodeErrorText : string -> string).
Context (created : Time) (Hstore : p.(Process.store) = Store.NewStore created)
        (Hpipeline : p.(Process.pipeline) = agent_pipeline).

Abbreviation pstep := (sys_step parse p json zstd decodeResponse decodeErrorResponse decodeErrorText).
Abbreviation prun := (sys_run parse p json zstd decodeResponse decodeErrorResponse decodeErrorText).
Abbreviation pround := (doSnapshot p.(Process.config) (Some p.(Process.pipeline)) p.(Process.cloudAccountID) json zstd
  decodeResponse decodeErrorResponse decodeErrorText).

(** A build leaves every store as it was but for the pods it merged into. *)
Lemma after_build_mirrored h s w r :
  reads_of parse p s w r -> mirrored parse kept h s.(System.shared) ->
  mirrored parse kept (h ++ w.(Meanwhile.arriving)) (after_build parse p w r s.(System.shared)).
Proof.
  intros Hr Hm. unfold after_build. cbv zeta.
  set (n := w.(Meanwhile.pods_read)). set (cs := w.(Meanwhile.arriving)).
  rewrite <- (take_drop n cs) at 1. rewrite app_assoc. apply mirrored_calls; [apply _|].
  pose proof (mirrored_calls parse kept h (take n cs) _ Hm) as Hm'.
  set (sh := calls parse (take n cs) s.(System.shared)) in *.
  intros k key. specialize (Hm' k key). destruct (decide (k = KPod)) as [->|Hk]; [|by destruct k].
  change (store_of parse KPod _) with (Build p.(Process.config) (Some p.(Process.pipeline)) p.(Process.cloudAccountID) r)
    .(BuildResult.store).(Store.Pods).
  rewrite Build_store, Get_write_through, (read_pods _ _ _ _ _ Hr).
  change (store_after parse w w.(Meanwhile.pods_read) s) with sh.(Shared.store).
  change (store_of parse KPod sh.(Shared.store)) with sh.(Shared.store).(Store.Pods) in Hm'.
  apply option_Forall2_fmap_l; [|exact Hm']. intros x y Hxy. cbn in Hxy |- *. by rewrite merged_equiv.
Qed.

Lemma run_mirrored evs s : prun evs s -> mirrored parse kept (history evs) s.(System.shared).
Proof.
  induction 1 as [|evs s ev s' _ IH [_ Hmove]].
  - apply mirrored_empty. intros k key. unfold boot. cbn [System.shared Shared.store]. rewrite Hstore.
    destruct k; apply lookup_empty.
  - unfold history. rewrite bind_app. cbn [mbind list_bind]. rewrite app_nil_r. fold (history evs).
    inversion Hmove; subst; cbn [calls_of]; rewrite ?app_nil_r; try exact IH.
    + change (mirrored parse kept (history evs) (start_collectors fails p.(Process.registry) s).(System.shared)).
      by rewrite (fleet_shared _ _ (start_collectors_frame _ _ _)).
    + apply mirrored_call; [apply _|exact IH].
    + by apply after_build_mirrored.
    + apply after_build_mirrored; [by eapply round_reads|exact IH].
    + apply after_build_mirrored; [by eapply round_reads|exact IH].
    + change (mirrored parse kept (history evs) (told_to_stop s c).(System.shared)).
      by rewrite (fleet_shared _ _ (told_to_stop_frame _ _)).
Qed.

(** Before the start of the collectors none of them runs. *)
Lemma run_booted evs s :
  prun evs s -> s.(System.at_) = Booted ->
  s.(System.metrics).(Polling.at_) = NotStarted /\ s.(System.gpu).(Polling.at_) = NotStarted /\
  forall k, (s.(System.informers) k).(Informer.at_) = InfIdle.
Proof.
  induction 1 as [|evs s ev s' _ IH [_ Hmove]]; [done|].
  inversion Hmove; subst; intros Ha; try exact (IH Ha); try discriminate Ha.
  - by destruct (Registry.StartAll _ _).1 as [[]|].
  - destruct (IH Ha) as (Hm & Hg & Hi). split_and!; [done..|]. intros k'. cbn. case_decide as Hk; [|done]. subst k'.
    eapply informer_idle; [apply Hi|eassumption|by intros ->].
  - destruct (IH Ha) as (Hm & Hg & Hi). cbn. split_and!; [|done..].
    destruct H0 as [Hgo _]. destruct H1; try done; congruence.
  - destruct (IH Ha) as (Hm & Hg & Hi). cbn. split_and!; [done| |done].
    destruct H0 as [Hgo _]. destruct H1; try done; congruence.
  - by destruct (Process.registry p).
  - by destruct todo.
Qed.

(** The agent in the loop is running. *)
Lemma run_agent evs s :
  prun evs s -> s.(System.at_) = Looping ->
  StateMachine.State s.(System.agent).(Agent.stateMachine) = StateRunning.
Proof.
  induction 1 as [|evs s ev s' _ IH [_ Hmove]]; [done|].
  inversion Hmove; subst; try exact IH; intros Ha.
  - by destruct (Registry.StartAll _ _).1 as [[]|].
  - eapply (started_invariant _ _ _ _ _ _ _ _); [eassumption|apply reach_init].
  - match goal with Hb : loop_body _ _ _ _ _ _ _ _ _ _ = inl _ |- _ =>
      rewrite loop_body_running in Hb by auto; injection Hb as <- end. apply doSnapshot_running. auto.
  - by destruct (Process.registry p).
  - discriminate Ha.
  - by destruct todo.
  - discriminate Ha.
  - discriminate Ha.
Qed.

(** Events that send no snapshot leave the agent alone. *)
Lemma agent_kept s ev s' : pstep s ev s' -> snapshot_event ev = None -> s'.(System.agent) = s.(System.agent).
Proof.
  intros [_ Hmove] Hev. inversion Hmove; subst; try discriminate Hev; try reflexivity.
  - by rewrite <- (fleet_agent _ _ (start_collectors_frame fails p.(Process.registry) s)).
  - by rewrite <- (fleet_agent _ _ (told_to_stop_frame s c)).
Qed.

(** An event that sends a snapshot is a round of the agent, and its snapshot stays
    the latest. *)
Lemma event_round evs s ev s' w r :
  prun evs s -> pstep s ev s' -> snapshot_event ev = Some (w, r) ->
  let a := round_agent ev s.(System.agent) in
  round_of parse p s w r /\ s'.(System.agent) = (pround r a).2 /\
  Agent.LatestSnapshot s'.(System.agent) = Some (pround r a).1.2.
Proof.
  intros Hrun [_ Hstep] Hev. cbv zeta.
  assert (forall a, s'.(System.agent) = (pround r a).2 ->
    s'.(System.agent) = (pround r a).2 /\ Agent.LatestSnapshot s'.(System.agent) = Some (pround r a).1.2) as Hlast
    by (intros a Ha; split; [done|]; rewrite Ha; apply (proj2 (doSnapshot_ready _ _ _ _ _ _ _ _ r a))).
  inversion Hstep; subst; try discriminate Hev; injection Hev as -> ->; (split; [done|]); apply Hlast.
  - match goal with Hs : run_start _ _ _ _ _ _ _ _ ?e _ _ _ _ _ = inl _ |- _ => unfold run_start in Hs;
      destruct e as [[n|failed total]|]; [discriminate Hs| |]; injection Hs as <- end; reflexivity.
  - match goal with Hb : loop_body _ _ _ _ _ _ _ _ _ _ = inl _ |- _ =>
      rewrite loop_body_running in Hb by (by eapply run_agent); injection Hb as <- end. reflexivity.
Qed.

(** It is the build of its reads, with its health filled in. *)
Lemma event_snapshot evs s ev s' w r :
  prun evs s -> pstep s ev s' -> snapshot_event ev = Some (w, r) ->
  exists snap, Agent.LatestSnapshot s'.(System.agent) = Some snap /\
    lists_of snap = lists_of (Build p.(Process.config) (Some p.(Process.pipeline)) p.(Process.cloudAccountID)
                                r.(Round.reads)).(BuildResult.snapshot) /\
    round_of parse p s w r.
Proof.
  intros Hrun Hstep Hev. destruct (event_round _ _ _ _ _ _ Hrun Hstep Hev) as (Hr & _ & Ha). set (a := round_agent ev _) in Ha.
  eexists. split_and!; [exact Ha| |exact Hr].
  pose proof (doSnapshot_spec p.(Process.config) (Some p.(Process.pipeline)) p.(Process.cloudAccountID)
    json zstd decodeResponse decodeErrorResponse decodeErrorText r a) as Hs.
  destruct (pround r a) as [[evs' snap] a']. cbn [fst snd]. destruct Hs as (a1 & err & Hp & _).
  by destruct (populateHealth_spec _ _ _ _ _ _ Hp) as (-> & _).
Qed.
End Runs.

(** ** What the process reports *)

Section Reports.
Context (parse : string -> option Quantity.t).

(** A snapshot has, under a key, an entry that converts to this. *)
Definition reports (k : kind) (snap : ClusterSnapshot.t) (key : string) (y : info_of k) : Prop :=
  exists x, x ∈ reported k snap /\ key_of parse k x = key /\ converted k x = y.

(** The conversion of the object the informers have left under a key. *)
Definition observed_at (k : kind) (cs : list informer_call) (key : string) : option (info_of k) :=
  converted k <$> (model_of parse k <$> cluster_of parse k cs key).

Lemma reports_intro k snap l key y :
  converted k <$> reported k snap = converted k <$> l ->
  reports k snap key y <-> exists x, x ∈ l /\ key_of parse k x = key /\ converted k x = y.
Proof.
  assert (forall l' : list (info_of k), (exists x, x ∈ l' /\ key_of parse k x = key /\ converted k x = y) <->
    y ∈ converted k <$> l' /\ key_of parse k y = key) as H.
  { intros l'. rewrite list_elem_of_fmap. split.
    - intros (x & Hin & <- & <-). rewrite converted_key. by eauto.
    - intros ((x & -> & Hin) & <-). exists x. by rewrite converted_key. }
  intros Hl. unfold reports. by rewrite !H, Hl.
Qed.

Lemma converted_keys k (l l' : list (info_of k)) :
  converted k <$> l = converted k <$> l' -> key_of parse k <$> l = key_of parse k <$> l'.
Proof.
  intros H. apply (f_equal (fmap (key_of parse k))) in H. rewrite <- !list_fmap_compose in H.
  assert (forall l0, key_of parse k ∘ converted k <$> l0 = key_of parse k <$> l0) as Hk
    by (intros l0; apply list_fmap_ext; intros i x _; apply converted_key).
  by rewrite !Hk in H.
Qed.

Lemma lists_of_reported k snap snap' : lists_of snap = lists_of snap' -> reported k snap = reported k snap'.
Proof.
  intros H. destruct k; [exact (f_equal Lists.Nodes H)|exact (f_equal Lists.Pods H)|exact (f_equal Lists.Namespaces H)
    |exact (f_equal Lists.Deployments H)|exact (f_equal Lists.StatefulSets H)|exact (f_equal Lists.DaemonSets H)
    |done|exact (f_equal Lists.Jobs H)|exact (f_equal Lists.CronJobs H)|exact (f_equal Lists.HPAs H)
    |exact (f_equal Lists.PDBs H)|exact (f_equal Lists.Services H)|exact (f_equal Lists.Ingresses H)
    |exact (f_equal Lists.PVs H)|exact (f_equal Lists.PVCs H)|exact (f_equal Lists.StorageClasses H)
    |exact (f_equal Lists.PriorityClasses H)|exact (f_equal Lists.LimitRanges H)
    |exact (f_equal Lists.ResourceQuotas H)|exact (f_equal Lists.VPAs H)|exact (f_equal Lists.NodePools H)].
Qed.

(** A build with the same lists, of entries that convert to those of [l]. *)
Lemma reports_of_lists k snap snap' l key y :
  lists_of snap = lists_of snap' -> converted k <$> reported k snap' = converted k <$> l ->
  reports k snap key y <-> exists x, x ∈ l /\ key_of parse k x = key /\ converted k x = y.
Proof. intros H Hl. apply reports_intro. by rewrite (lists_of_reported k _ _ H). Qed.
End Reports.

Section Whole.
Context (Getenv : string -> string) (Version : string).
Context {RestConfig : Type} (kube : Kube.t RestConfig).
Context (api : API.t) (ServerVersion : string + string).
Context (url_err : string -> option string).
Context (decodeAWS : HttpResponse.t -> string + AWSDoc.t) (decodeAzure : HttpResponse.t -> string + AzureDoc.t).
Context (listen : string -> string + string).
Context (srv : server).
Context (parse : string -> option Quantity.t).
Context (json : ClusterSnapshot.t -> string + string) (zstd : Zstd.t).
Context (decodeResponse : string -> option SnapshotResponse.t)
        (decodeErrorResponse : string -> option SnapshotErrorResponse.t)
        (decodeErrorText : string -> string).

(** C1 What the process sends is the cluster as its informers told it, whatever
    the interleaving: after any run from the start of [main], a round of the
    agent leaves as its latest snapshot one in which, for every kind but the
    nodes and the replica sets, there is an instant of the build at which the
    entries are exactly the conversions of the objects live then, one under each
    key, up to the fields the merges and the enrichers set; every node live at
    its instant is there, and a node that is there was live at that instant or
    at a later reading of the same build. *)
Theorem system_reports now p sent evs s ev s' w r :
  interp srv [] (startup Getenv Version kube api ServerVersion url_err decodeAWS decodeAzure listen now) = (inr (inr p), sent) ->
  sys_run parse p json zstd decodeResponse decodeErrorResponse decodeErrorText evs s ->
  sys_step parse p json zstd decodeResponse decodeErrorResponse decodeErrorText s ev s' ->
  snapshot_event ev = Some (w, r) ->
  let seen n := history evs ++ take n w.(Meanwhile.arriving) in
  exists snap, Agent.LatestSnapshot s'.(System.agent) = Some snap /\
    (forall k, k <> KReplicaSet -> k <> KNode ->
       NoDup (key_of parse k <$> reported k snap) /\
       exists n, forall key y, reports parse k snap key y <-> observed_at parse k (seen n) key = Some y) /\
    (exists n m, forall key y,
       (observed_at parse KNode (seen n) key = Some y -> reports parse KNode snap key y) /\
       (reports parse KNode snap key y ->
          observed_at parse KNode (seen n) key = Some y \/ observed_at parse KNode (seen m) key = Some y)).
Proof.
  intros (caps & _ & _ & Hst & Hpipe & _)%startup_up Hrun Hstep Hev seen.
  destruct (event_snapshot _ _ _ _ _ _ _ _ _ _ _ _ _ Hrun Hstep Hev) as (snap & Hlast & Hl & [Hr _ _]).
  exists snap. split; [done|]. rewrite Hpipe in Hl.
  pose proof (run_mirrored _ _ _ _ _ _ _ now Hst _ _ Hrun) as Hm.
  assert (forall n, mirrored parse kept (seen n)
    (calls parse (take n w.(Meanwhile.arriving)) s.(System.shared))) as Hseen.
  { intros n. by apply mirrored_calls; [apply _|]. }
  split.
  - intros k Hrs Hn. rewrite (lists_of_reported k _ _ Hl).
    pose proof (built_converted parse p.(Process.config) p.(Process.cloudAccountID) r.(Round.reads) k Hrs Hn) as Hc.
    destruct (read_stores _ _ _ _ _ Hr k) as [n Hread]. rewrite Hread in Hc.
    destruct (mirrored_values parse r.(Round.reads).(Reads.order) _ _ k (Hseen n)) as [Hnd Hv].
    split; [by rewrite (converted_keys _ _ _ _ Hc)|].
    exists n. intros key y. rewrite (reports_of_lists _ _ _ _ _ _ _ Hl Hc). apply Hv.
  - destruct (built_nodes p.(Process.config) p.(Process.cloudAccountID) r.(Round.reads)) as (extra & Hc & Hextra).
    rewrite <- fmap_app in Hc.
    destruct (read_stores _ _ _ _ _ Hr KNode) as [n Hread].
    destruct (read_later _ _ _ _ _ Hr) as [m Hlater]. rewrite Hlater in Hextra.
    change (Store.Nodes ?st) with (store_of parse KNode st) in Hc, Hextra. rewrite Hread in Hc.
    destruct (mirrored_values parse r.(Round.reads).(Reads.order) _ _ KNode (Hseen n)) as [_ Hvn].
    destruct (mirrored_values parse r.(Round.reads).(Reads.order) _ _ KNode (Hseen m)) as [_ Hvm].
    exists n, m. intros key y.
    rewrite (reports_of_lists _ _ _ _ _ _ _ Hl Hc). unfold observed_at. rewrite <- Hvn, <- Hvm.
    split; [intros (x & Hx & ?); exists x; split; [by apply elem_of_app; left|done]|].
    intros (x & [Hx|Hx%Hextra]%elem_of_app & ?); [left|right]; by exists x.
Qed.
End Whole.

(** ** A quiet process *)

(** The reads of a build while nothing arrives, and a round of it in which the
    backend answers every post with [status]. *)
Definition reads_at (p : Process.t) (s : System.t) : Reads.t :=
  let st := s.(System.shared).(Shared.store) in
  let ms := s.(System.metrics).(Polling.data).(MetricsCollector.metricsStore) in
  {| Reads.store := st; Reads.order := canonical_order;
     Reads.nodeMetrics := ms.(MetricsStore.NodeMetrics); Reads.podMetrics := ms.(MetricsStore.PodMetrics);
     Reads.gpu := if p.(Process.gpuProvider)
                  then Some (GPUMetricsCollector.GetGPUMetrics s.(System.gpu).(Polling.data)) else None;
     Reads.laterNodes := st.(Store.Nodes); Reads.uuid := "id"; Reads.now := 10; Reads.lastUpdated := ∅;
     Reads.staleNow := 10 |}.

Definition round_at (parse : string -> option Quantity.t) (p : Process.t) (s : System.t) (status : int) (now : Time) : Round.t :=
  Round.mk (reads_at p s) 1 1 1 s.(System.metrics).(Polling.data).(MetricsCollector.LastMetricsCollectMs)
    (registry_at parse true p.(Process.registry) s) canonical_order canonical_order now now now now now
    (World.mk (fun _ => None) (fun _ => None) (fun _ _ => inr (Response.mk status "" (Some "{}")))).

Section Quiet.
Context (parse : string -> option Quantity.t) (p : Process.t).
Context (json : ClusterSnapshot.t -> string + string) (zstd : Zstd.t).
Context (decodeResponse : string -> option SnapshotResponse.t)
        (decodeErrorResponse : string -> option SnapshotErrorResponse.t)
        (decodeErrorText : string -> string).

Abbreviation pstep := (sys_step parse p json zstd decodeResponse decodeErrorResponse decodeErrorText).

Definition all_started (s : System.t) : System.t :=
  (start_collectors (fun _ => None) p.(Process.registry) s) <| System.at_ := Waiting None |>.

Lemma all_started_metrics s i :
  MetricsPolling i ∈ p.(Process.registry) -> s.(System.metrics).(Polling.at_) = NotStarted ->
  (all_started s).(System.metrics).(Polling.at_) = Launched.
Proof.
  intros Hin Hn. change (Polling.at_ (System.metrics (start_collectors (fun _ => None) p.(Process.registry) s)) = Launched).
  pose proof (start_collectors_launched (fun _ => None) _ s _ Hin eq_refl) as Hl. unfold launched in Hl.
  destruct (start_collectors_pollers (fun _ => None) p.(Process.registry) s) as [[Hm|Hm] _]; rewrite Hm in *; [done|reflexivity].
Qed.

Lemma all_started_gpu s i :
  GPUPolling i ∈ p.(Process.registry) -> s.(System.gpu).(Polling.at_) = NotStarted ->
  (all_started s).(System.gpu).(Polling.at_) = Launched.
Proof.
  intros Hin Hn. change (Polling.at_ (System.gpu (start_collectors (fun _ => None) p.(Process.registry) s)) = Launched).
  pose proof (start_collectors_launched (fun _ => None) _ s _ Hin eq_refl) as Hl. unfold launched in Hl.
  destruct (start_collectors_pollers (fun _ => None) p.(Process.registry) s) as [_ [Hm|Hm]]; rewrite Hm in *; [done|reflexivity].
Qed.

(** The collectors can all start. *)
Lemma all_start s :
  s.(System.at_) = Booted -> p.(Process.registry) <> [] ->
  pstep s (StartAll (fun _ => None) p.(Process.registry)) (all_started s).
Proof.
  intros Hs Hne. split; [split; by rewrite Hs|].
  set (startErr := (Registry.StartAll (collector_at parse (fun _ => None) (fun _ => None) s <$> p.(Process.registry))
    (Registry.mk (collector_at parse (fun _ => None) (fun _ => None) s <$> p.(Process.registry)) false)).1).
  assert (startErr = None) as He.
  { apply StartAll_none; [by intros c (x & -> & _)%list_elem_of_fmap|]. cbn. by intros ?%fmap_nil_inv. }
  pose proof (sys_start_all parse p json zstd decodeResponse decodeErrorResponse decodeErrorText s (fun _ => None)
    p.(Process.registry) startErr Hs (reflexivity _) (fun _ _ => eq_refl) eq_refl) as H.
  rewrite He in H. exact H.
Qed.

Lemma quiet_round s status now : round_of parse p s (Meanwhile.mk [] 0) (round_at parse p s status now).
Proof. split; [|done..]. split; try done; [intros k|]; by exists 0%nat. Qed.

(** After the start of the collectors the loop can begin. *)
Lemma quiet_start s startErr syncErr timeoutText now status t :
  s.(System.at_) = Waiting startErr -> 0 < p.(Process.config).(Config.SnapshotInterval) ->
  (forall n, startErr <> Some (AllFailed n)) ->
  exists s', pstep s (RunStart (Some syncErr) timeoutText now (Meanwhile.mk [] 0) (round_at parse p s status t)) s' /\
    s'.(System.at_) = Looping.
Proof.
  intros Hs Hi He. eexists. split; [split; [split; by rewrite Hs|]|].
  - eapply sys_start; [exact Hs|done|constructor|apply quiet_round|done|].
    destruct startErr as [[n|failed total]|]; [by destruct (He n)|reflexivity..].
  - done.
Qed.
End Quiet.

(** ** Witness *)

Definition ex_pod_call : informer_call := Call KPod 5 (OnAdd (Typed ex_owned_pod)).

(** The collectors start, the pod comes in, then the loop starts and builds. *)
Definition ex_seen (p : Process.t) : System.t :=
  let s := all_started p (boot p) in s <| System.shared := call (fun _ => None) ex_pod_call (System.shared s) |>.

Definition ex_events (p : Process.t) : list sys_event :=
  [StartAll (fun _ => None) p.(Process.registry); InformerCall ex_pod_call].

Lemma ex_pod_call_registered p sent : ex_process = (inr (inr p), sent) -> of_registry p.(Process.registry) ex_pod_call.
Proof. intros (caps & _ & -> & _)%startup_up. by apply registered_kind. Qed.

Lemma ex_interval p sent : ex_process = (inr (inr p), sent) -> 0 < p.(Process.config).(Config.SnapshotInterval).
Proof. intros Hp. destruct (startup_valid _ _ _ _ _ _ _ _ _ _ _ _ _ Hp). unfold Second in *. lia. Qed.

Lemma ex_run json p sent :
  ex_process = (inr (inr p), sent) ->
  sys_run (fun _ => None) p json stored_zstd accept_all no_codec (fun _ => "") (ex_events p) (ex_seen p).
Proof.
  intros E. pose proof (ex_pod_call_registered p sent E) as Hpod.
  assert (p.(Process.registry) <> []) as Hne by (intros H; unfold of_registry in Hpod; rewrite H in Hpod; by apply elem_of_nil in Hpod).
  apply (sys_snoc _ _ _ _ _ _ _ [StartAll (fun _ => None) p.(Process.registry)] (all_started p (boot p))).
  - apply (sys_snoc _ _ _ _ _ _ _ [] (boot p)); [constructor|]. by apply all_start.
  - split; [by split|]. constructor. split; [done|]. exists 0%nat. by apply start_collectors_running.
Qed.

Lemma system_reports_witness :
  match ex_process with
  | (inr (inr p), _) =>
      exists s' snap, sys_run (fun _ => None) p empty_json stored_zstd accept_all no_codec (fun _ => "")
          (ex_events p ++ [RunStart (Some "timeout") "5m0s" 6 (Meanwhile.mk [] 0)
             (round_at (fun _ => None) p (ex_seen p) 200 10)]) s' /\
        Agent.LatestSnapshot s'.(System.agent) = Some snap /\
        exists pod, pod ∈ snap.(ClusterSnapshot.Pods) /\ pod.(PodInfo.UID) = "u-pod"
  | _ => False
  end.
Proof.
  pose proof ex_process_up as Hup. destruct ex_process as [[e|[e|p]] sent] eqn:E; [destruct Hup..|].
  pose proof (ex_run empty_json p sent E) as Hrun.
  destruct (quiet_start (fun _ => None) p empty_json stored_zstd accept_all no_codec (fun _ => "") (ex_seen p) None
    "timeout" "5m0s" 6 200 10 eq_refl (ex_interval p sent E)) as (s' & Hstep & _); [done|].
  destruct (system_reports ex_env "1.2.3" ex_kube ex_api (inr "v1.31.0") (fun _ => None) (fun _ => inl "") (fun _ => inl "")
    ex_listen (fun _ _ => inl "no route to host") (fun _ => None) empty_json stored_zstd accept_all no_codec
    (fun _ => "") 0 p sent _ _ _ _ _ _ E Hrun Hstep eq_refl) as (snap & Hlast & Hk & _).
  exists s', snap. split; [exact (sys_snoc _ _ _ _ _ _ _ _ _ _ _ Hrun Hstep)|]. split; [exact Hlast|].
  destruct (Hk KPod) as (_ & n & Hn); [done..|].
  specialize (Hn "shop/web-1-x" (converted KPod (model_of (fun _ => None) KPod ex_owned_pod))).
  destruct (proj2 Hn) as (pod & Hin & _ & Hc).
  - cbn [Meanwhile.arriving]. rewrite take_nil. vm_compute. reflexivity.
  - exists pod. split; [exact Hin|]. exact (f_equal PodInfo.UID Hc).
Defined.
