(* ===== verification/Usage.v ===== *)
(** * Where a reported usage comes from

    The metrics-server's answers pass through two stores before they are sent:
    the poller keeps the last usage it heard of for each pod, and a build writes
    what it finds there into the containers of the pods it read.  Neither forgets,
    so what a snapshot says of a container can be old; here is that it is never
    anything else than what the API answered for a container of that name in a
    pod of that name. *)

From S2P Require Import Prelude GoNum GoStrings Config Model Store K8s Transport AgentErrors.
From S2P Require Import ConvertHelpers ConvertPod Ownership Aggregation Targets Pipeline SnapshotBuilder PodEquiv.
From S2P Require Import Registry Polling Pollers Dcgm Collectors Informers StateMachine Agent Http CloudMetadata.
From S2P Require Import Discovery HealthServer Main Cluster System.
Open Scope string_scope.
Open Scope list_scope.
Open Scope Z_scope.

(** The answers to the polls of the metrics API in a run, oldest first. *)
Definition metrics_events (evs : list sys_event) : list (poll_event MetricsCollector.answers) :=
  omap (fun ev => match ev with MetricsPoll e => Some e | _ => None end) evs.

Definition answered (evs : list sys_event) : list PodUsage.t := listed (pods_of_polls (polled (metrics_events evs))).

(** A container of a pod with this key has no usage, or that of its namesake in
    one of these answers. *)
Definition usage_from (answers : list PodUsage.t) (key : string) (c : ContainerInfo.t) : Prop :=
  (c.(ContainerInfo.CPUUsageCores) = None /\ c.(ContainerInfo.MemoryUsageBytes) = None) \/
  exists pu cu, pu ∈ answers /\ MetricsCollector.pod_metrics_key pu = key /\
    cu ∈ pu.(PodUsage.Containers) /\ cu.(ContainerUsage.Name) = c.(ContainerInfo.Name) /\
    let m := MetricsCollector.container_metrics cu in
    c.(ContainerInfo.CPUUsageCores) = Some m.(ContainerMetrics.CPUUsageCores) /\
    c.(ContainerInfo.MemoryUsageBytes) = Some m.(ContainerMetrics.MemoryUsageBytes).

Definition usage_key (p : PodInfo.t) : string := ns_name p.(PodInfo.Namespace) p.(PodInfo.Name).

Definition measured (answers : list PodUsage.t) (p : PodInfo.t) : Prop :=
  Forall (usage_from answers (usage_key p)) p.(PodInfo.Containers).

(** ** One build *)

Lemma usage_from_mono a a' key c : (forall x, x ∈ a -> x ∈ a') -> usage_from a key c -> usage_from a' key c.
Proof. intros H [?|(pu & cu & ? & ?)]; [by left|right]. exists pu, cu. by split; [apply H|]. Qed.

Lemma measured_mono a a' p : (forall x, x ∈ a -> x ∈ a') -> measured a p -> measured a' p.
Proof. intros H Hp. apply (Forall_impl _ _ _ Hp). intros c. by apply usage_from_mono. Qed.

Lemma containerToModel_usage status spec hasStatus :
  let c := containerToModel status spec hasStatus in
  c.(ContainerInfo.CPUUsageCores) = None /\ c.(ContainerInfo.MemoryUsageBytes) = None.
Proof. by destruct (containerToModel_resources status spec hasStatus) as (_ & _ & _ & ?). Qed.

Lemma PodToModel_measured a pod : measured a (PodToModel pod).
Proof.
  unfold measured. rewrite PodToModel_containers. unfold convertContainers. apply Forall_fmap, Forall_true.
  intros spec. left. cbn beta.
  destruct (_ !! _) as [st|]; [exact (containerToModel_usage st spec true)|
    exact (containerToModel_usage ContainerStatus.zero spec false)].
Qed.

Lemma merge_container_usage a pu c :
  pu ∈ a -> usage_from a (MetricsCollector.pod_metrics_key pu) c ->
  usage_from a (MetricsCollector.pod_metrics_key pu)
    (merge_container (index_by ContainerMetrics.Name (MetricsCollector.pod_metrics pu).(PodMetrics.Containers)) c).
Proof.
  intros Hpu Hc. unfold merge_container. destruct (_ !! _) as [cm|] eqn:E; [|done].
  apply index_by_Some in E as [(cu & -> & Hcu)%list_elem_of_fmap Hn].
  right. by exists pu, cu.
Qed.

Lemma mergePodMetrics_measured a ms p :
  (forall m, m ∈ ms -> exists pu, pu ∈ a /\ m = MetricsCollector.pod_metrics pu) ->
  measured a p -> Forall (measured a) (mergePodMetrics [p] ms).
Proof.
  intros Hms Hp. unfold mergePodMetrics. destruct (_ =? 0); [by repeat constructor|]. constructor; [|constructor].
  unfold merge_pod. destruct (_ !! _) as [m|] eqn:E; [|done].
  apply index_by_Some in E as [(pu & Hpu & ->)%Hms Hk]. symmetry in Hk.
  change (usage_key p = MetricsCollector.pod_metrics_key pu) in Hk.
  unfold measured in *. change (usage_key (p <| PodInfo.Containers := _ |>)) with (usage_key p). rewrite Hk in *.
  apply Forall_fmap, (Forall_impl _ _ _ Hp). intros c Hc. by apply merge_container_usage.
Qed.

Lemma mergeGPU_measured a ps g : Forall (measured a) ps -> Forall (measured a) (mergeGPUContainerMetrics ps g).
Proof.
  intros Hps. unfold mergeGPUContainerMetrics. destruct (_ =? 0); [done|].
  apply Forall_fmap, (Forall_impl _ _ _ Hps). intros p Hp. cbn.
  apply Forall_fmap, (Forall_impl _ _ _ Hp). intros c Hc. cbn. unfold merge_gpu_container. by destruct (_ !! _).
Qed.

Lemma merged_measured a r p :
  (forall m, m ∈ TypedStore.Values r.(Reads.order) r.(Reads.podMetrics) ->
     exists pu, pu ∈ a /\ m = MetricsCollector.pod_metrics pu) ->
  measured a p -> measured a (merged r p).
Proof.
  intros Hms Hp. apply Forall_singleton. change [merged r p] with (merged r <$> [p]).
  rewrite <- merge_pods_merged. unfold merge_pods.
  destruct (Reads.gpu r); [apply mergeGPU_measured|]; by apply mergePodMetrics_measured.
Qed.

(** The pods of a build are those read, merged, with their owners resolved. *)
Lemma built_pods cfg acct r :
  exists m, (Build cfg (Some agent_pipeline) acct r).(BuildResult.snapshot).(ClusterSnapshot.Pods) =
    resolveOwner m <$> (merged r <$> TypedStore.Values r.(Reads.order) r.(Reads.store).(Store.Pods)).
Proof.
  destruct (Build_lists cfg acct r) as (_ & _ & _ & Hl). eexists. rewrite <- merge_pods_merged.
  exact (f_equal Lists.Pods Hl).
Qed.

Lemma resolveOwner_measured a m p : measured a p -> measured a (resolveOwner m p).
Proof. intros Hp. unfold resolveOwner. by repeat case_decide. Qed.

(** ** Runs *)

Lemma answered_mono evs ev x : x ∈ answered evs -> x ∈ answered (evs ++ [ev]).
Proof.
  unfold answered, metrics_events, polled, pods_of_polls, listed.
  rewrite !omap_app, fmap_app, omap_app, concat_app, fmap_app. intros. apply elem_of_app. by left.
Qed.

Section Calls.
Context (parse : string -> option Quantity.t) (a : list PodUsage.t).

(** All stored pods are measured by these answers. *)
Definition pods_measured (sh : Shared.t) : Prop :=
  forall key p, TypedStore.Get key sh.(Shared.store).(Store.Pods) = Some p -> measured a p.

Lemma call_measured c sh : pods_measured sh -> pods_measured (call parse c sh).
Proof.
  intros Hm key p. change (Store.Pods ?st) with (store_of parse KPod st). rewrite store_of_call.
  destruct (event_of KPod c) as [[now ev]|]; [|apply Hm]. rewrite (Get_handle (H := collector_of parse KPod)).
  destruct (observed ev) as [[o present]|]; [|apply Hm]. case_decide; [|apply Hm].
  destruct present; [|done]. intros [= <-]. apply PodToModel_measured.
Qed.

Lemma calls_measured cs sh : pods_measured sh -> pods_measured (calls parse cs sh).
Proof.
  unfold calls. revert sh. induction cs as [|c cs IH]; intros sh Hm; [done|]. by apply IH, call_measured.
Qed.
End Calls.

Section Measured.
Context (parse : string -> option Quantity.t) (p : Process.t).
Context (json : ClusterSnapshot.t -> string + string) (zstd : Zstd.t).
Context (decodeResponse : string -> option SnapshotResponse.t)
        (decodeErrorResponse : string -> option SnapshotErrorResponse.t)
        (decodeErrorText : string -> string).
Context (created : Time) (Hstore : p.(Process.store) = Store.NewStore created)
        (Hmetrics : p.(Process.metricsStore) = MetricsStore.NewMetricsStore created).

Abbreviation prun := (sys_run parse p json zstd decodeResponse decodeErrorResponse decodeErrorText).

(** The metrics poller runs: its polls are those of the run. *)
Lemma metrics_run evs s :
  prun evs s ->
  exists mevs, run (new_poller (new_metrics created)) mevs s.(System.metrics) /\ polled mevs = polled (metrics_events evs).
Proof.
  assert (forall (m : Polling.t MetricsCollector.t) mevs ev m' evs,
    run (new_poller (new_metrics created)) mevs m -> step m ev m' ->
    polled mevs = polled (metrics_events evs) -> polled [ev] = [] ->
    exists mevs', run (new_poller (new_metrics created)) mevs' m' /\ polled mevs' = polled (metrics_events evs)) as Hsilent.
  { intros m mevs ev m' evs' Hr Hs Hp He. exists (mevs ++ [ev]). split; [by eapply run_snoc|].
    unfold polled in *. rewrite omap_app, He, app_nil_r. exact Hp. }
  induction 1 as [|evs s ev s' Hsys (mevs & Hrun & Hp) [Halive Hmove]].
  - exists []. cbn. rewrite Hmetrics. by split; [constructor|].
  - unfold metrics_events. rewrite omap_app. fold (metrics_events evs).
    inversion Hmove; subst; cbn [omap list_omap]; rewrite ?app_nil_r; try by exists mevs.
    + destruct (start_collectors_pollers fails p.(Process.registry) s) as [[Hm|Hm] _].
      * exists mevs. split; [|done]. cbn. by rewrite Hm.
      * change (exists mevs', run (new_poller (new_metrics created)) mevs'
          (start_collectors fails p.(Process.registry) s).(System.metrics) /\ polled mevs' = polled (metrics_events evs)).
        rewrite Hm. apply (Hsilent s.(System.metrics) mevs CallStart _ evs); [done| |done|done]. constructor.
        eapply run_booted; eassumption.
    + exists (mevs ++ [ev0]). split; [by eapply run_snoc|]. unfold polled in *. by rewrite !omap_app, Hp.
    + apply (Hsilent s.(System.metrics) mevs ContextDone _ evs); [done|constructor|done|done].
    + destruct c; [by exists mevs| |by exists mevs].
      apply (Hsilent s.(System.metrics) mevs CallStop _ evs); [done| |done|done]. constructor.
      match goal with H : _ -> stop_closed _ _ = false |- _ => apply H; intros k; discriminate end.
Qed.

(** What the poller keeps was answered. *)
Lemma kept_answered evs s w r m :
  prun evs s -> reads_of parse p s w r -> m ∈ TypedStore.Values r.(Reads.order) r.(Reads.podMetrics) ->
  exists pu, pu ∈ answered evs /\ m = MetricsCollector.pod_metrics pu.
Proof.
  intros Hrun Hr Hm. rewrite (read_podMetrics _ _ _ _ _ Hr), Values_perm, list_elem_of_fmap in Hm.
  destruct Hm as ([key m'] & -> & Hin%elem_of_map_to_list).
  destruct (metrics_run _ _ Hrun) as (mevs & Hmr & Hp).
  pose proof (run_data _ _ _ Hmr) as Hd. rewrite Hd, Hp in Hin.
  pose proof (history_pods created (polled (metrics_events evs)) key) as Hh.
  assert (Some m' = MetricsCollector.pod_metrics <$> last (filter
    (fun pm => pm.(PodUsage.Namespace) +:+ "/" +:+ pm.(PodUsage.Name) = key) (answered evs))) as Hl
    by exact (eq_trans (eq_sym Hin) Hh).
  symmetry in Hl. apply fmap_Some in Hl as (pu & Hl & ->). exists pu. split; [|done].
  apply last_Some_elem_of, list_elem_of_filter in Hl. apply Hl.
Qed.

Lemma after_build_measured evs s w r :
  prun evs s -> reads_of parse p s w r -> pods_measured (answered evs) s.(System.shared) ->
  pods_measured (answered evs) (after_build parse p w r s.(System.shared)).
Proof.
  intros Hrun Hr Hm. unfold after_build. cbv zeta. apply calls_measured. intros key pod.
  change (Store.Pods _) with (Build p.(Process.config) (Some p.(Process.pipeline)) p.(Process.cloudAccountID) r)
    .(BuildResult.store).(Store.Pods).
  rewrite Build_store, Get_write_through, (read_pods _ _ _ _ _ Hr).
  intros (q & Hq & ->)%fmap_Some. apply merged_measured.
  - intros m. by apply (kept_answered _ s w).
  - exact (calls_measured parse _ _ _ Hm key q Hq).
Qed.

Lemma run_measured evs s : prun evs s -> pods_measured (answered evs) s.(System.shared).
Proof.
  induction 1 as [|evs s ev s' Hrun IH [_ Hstep]].
  - intros key q Hq. change (System.shared (boot p)) with (Shared.mk p.(Process.store) EventMetrics.zero) in Hq.
    rewrite Hstore in Hq. assert (TypedStore.Get key (Store.NewStore created).(Store.Pods) = None) as Hn
      by apply lookup_empty. discriminate (eq_trans (eq_sym Hn) Hq).
  - assert (pods_measured (answered evs) s'.(System.shared)) as H.
    { inversion Hstep; subst; cbn [System.shared]; try exact IH; [|by apply call_measured|by apply after_build_measured|
        by apply after_build_measured; [|eapply round_reads|]..|].
      - change (pods_measured (answered evs) (start_collectors fails p.(Process.registry) s).(System.shared)).
        by rewrite (fleet_shared _ _ (start_collectors_frame _ _ _)).
      - change (pods_measured (answered evs) (told_to_stop s c).(System.shared)).
        by rewrite (fleet_shared _ _ (told_to_stop_frame _ _)). }
    intros key q Hq. apply (measured_mono (answered evs)); [intros x; apply answered_mono|]. by apply (H key).
Qed.
End Measured.

(** ** What is reported *)

Section Whole.
Context (Getenv : string -> string) (Version : string).
Context {RestConfig : Type} (kube : Kube.t RestConfig).
Context (api : API.t) (ServerVersion : string + string).
Context (url_err : string -> option string).
Context (decodeAWS : HttpResponse.t -> string + AWSDoc.t) (decodeAzure : HttpResponse.t -> string + AzureDoc.t).
Context (listen : string -> string + string).
Context (srv : server).
Context (parse : string -> option Quantity.t).
Context (json : ClusterSnapshot.t -> string + string) (zstd : Zstd.t).
Context (decodeResponse : string -> option SnapshotResponse.t)
        (decodeErrorResponse : string -> option SnapshotErrorResponse.t)
        (decodeErrorText : string -> string).

(** C5 No usage is made up: in every snapshot the process sends, whatever the
    interleaving of informers, polls and builds, a container either has no CPU
    and no memory usage or has both from one container of its name in a pod of
    the same namespace/name key, in a list the metrics API answered to an earlier
    poll of this run. *)
Theorem reported_usage_answered now p sent evs s ev s' w r :
  interp srv [] (startup Getenv Version kube api ServerVersion url_err decodeAWS decodeAzure listen now) = (inr (inr p), sent) ->
  sys_run parse p json zstd decodeResponse decodeErrorResponse decodeErrorText evs s ->
  sys_step parse p json zstd decodeResponse decodeErrorResponse decodeErrorText s ev s' ->
  snapshot_event ev = Some (w, r) ->
  exists snap, Agent.LatestSnapshot s'.(System.agent) = Some snap /\
    forall pod c, pod ∈ snap.(ClusterSnapshot.Pods) -> c ∈ pod.(PodInfo.Containers) ->
      usage_from (answered evs) (usage_key pod) c.
Proof.
  intros (caps & _ & _ & Hst & Hpipe & Hms & _)%startup_up Hrun Hstep Hev.
  destruct (event_snapshot _ _ _ _ _ _ _ _ _ _ _ _ _ Hrun Hstep Hev) as (snap & Hlast & Hl & [Hr _ _]).
  exists snap. split; [done|]. rewrite Hpipe in Hl.
  destruct (built_pods p.(Process.config) p.(Process.cloudAccountID) r.(Round.reads)) as [m Hb].
  assert (snap.(ClusterSnapshot.Pods) = resolveOwner m <$> (merged r.(Round.reads) <$>
    TypedStore.Values r.(Round.reads).(Reads.order) r.(Round.reads).(Reads.store).(Store.Pods))) as ->
    by exact (eq_trans (f_equal Lists.Pods Hl) Hb).
  intros pod c (q1 & -> & (q & -> & Hq)%list_elem_of_fmap)%list_elem_of_fmap. revert c.
  apply Forall_forall, resolveOwner_measured, merged_measured.
  - intros x Hx. exact (kept_answered _ _ _ _ _ _ _ now Hms evs s w _ x Hrun Hr Hx).
  - rewrite Values_perm, list_elem_of_fmap in Hq. destruct Hq as ([key q'] & -> & Hq%elem_of_map_to_list).
    change (TypedStore.Get key r.(Round.reads).(Reads.store).(Store.Pods) = Some q') in Hq.
    rewrite (read_pods _ _ _ _ _ Hr) in Hq.
    exact (calls_measured parse _ _ _ (run_measured _ _ _ _ _ _ _ now Hst Hms _ _ Hrun) key q' Hq).
Qed.
End Whole.

(** ** Witness *)

(** The metrics API answers one poll, the pod comes in, the loop starts. *)
Definition ex_pod_answers : MetricsCollector.answers :=
  MetricsCollector.mkAnswers 0 (Some [])
    (Some [(1, PodUsage.mk "web-1-x" "shop" 0 [ContainerUsage.mk "app" (ex_usage 2 100)])]) 2.

Definition ex_usage_events (p : Process.t) : list sys_event :=
  [StartAll (fun _ => None) p.(Process.registry); MetricsPoll (DoPoll ex_pod_answers); InformerCall ex_pod_call].

Definition ex_usage_polled (p : Process.t) : System.t :=
  let s := all_started p (boot p) in
  let m := System.metrics s in
  s <| System.metrics := m <| Polling.data := poll ex_pod_answers (Polling.data m) |>
                           <| Polling.synced := true |> <| Polling.at_ := Selecting |> |>.

Definition ex_usage_system (p : Process.t) : System.t :=
  let s := ex_usage_polled p in s <| System.shared := call (fun _ => None) ex_pod_call (System.shared s) |>.

Lemma ex_metrics_registered p sent :
  ex_process = (inr (inr p), sent) -> MetricsPolling p.(Process.config).(Config.MetricsInterval) ∈ p.(Process.registry).
Proof.
  intros (caps & Hd & -> & _)%startup_up.
  assert (Capabilities.MetricsServer caps = true) as Hm.
  { apply (f_equal (fun r => match r with inr c => Capabilities.MetricsServer c | inl _ => false end)) in Hd.
    etransitivity; [exact (eq_sym Hd)|by vm_compute]. }
  unfold register_collectors. rewrite Hm, !elem_of_app. right; right; right; left. by left.
Qed.

Lemma ex_usage_run p sent :
  ex_process = (inr (inr p), sent) ->
  sys_run (fun _ => None) p empty_json stored_zstd accept_all no_codec (fun _ => "") (ex_usage_events p) (ex_usage_system p).
Proof.
  intros E. pose proof (ex_pod_call_registered p sent E) as Hpod. pose proof (ex_metrics_registered p sent E) as Hreg.
  assert (p.(Process.registry) <> []) as Hne by (intros H; rewrite H in Hreg; by apply elem_of_nil in Hreg).
  assert ((all_started p (boot p)).(System.metrics).(Polling.at_) = Launched) as Hl.
  { by eapply all_started_metrics. }
  apply (sys_snoc _ _ _ _ _ _ _ [StartAll (fun _ => None) p.(Process.registry); MetricsPoll (DoPoll ex_pod_answers)]
    (ex_usage_polled p)).
  - apply (sys_snoc _ _ _ _ _ _ _ [StartAll (fun _ => None) p.(Process.registry)] (all_started p (boot p))).
    + apply (sys_snoc _ _ _ _ _ _ _ [] (boot p)); [constructor|]. by apply all_start.
    + split; [by split|]. eapply sys_metrics; [exact Hreg|split; [done|by left]|]. by constructor.
  - split; [by split|]. constructor. split; [done|]. exists 0%nat. by apply start_collectors_running.
Qed.

Lemma reported_usage_answered_witness :
  match ex_process with
  | (inr (inr p), _) =>
      exists s' snap, Agent.LatestSnapshot s'.(System.agent) = Some snap /\
        sys_run (fun _ => None) p empty_json stored_zstd accept_all no_codec (fun _ => "")
          (ex_usage_events p ++ [RunStart (Some "timeout") "5m0s" 6 (Meanwhile.mk [] 0)
             (round_at (fun _ => None) p (ex_usage_system p) 200 10)]) s' /\
        forall pod c, pod ∈ snap.(ClusterSnapshot.Pods) -> c ∈ pod.(PodInfo.Containers) ->
          c.(ContainerInfo.MemoryUsageBytes) = None \/ c.(ContainerInfo.MemoryUsageBytes) = Some 100
  | _ => False
  end.
Proof.
  pose proof ex_process_up as Hup. destruct ex_process as [[e|[e|p]] sent] eqn:E; [destruct Hup..|].
  pose proof (ex_usage_run p sent E) as Hrun.
  destruct (quiet_start (fun _ => None) p empty_json stored_zstd accept_all no_codec (fun _ => "") (ex_usage_system p) None
    "timeout" "5m0s" 6 200 10 eq_refl (ex_interval p sent E)) as (s' & Hstep & _); [done|].
  destruct (reported_usage_answered ex_env "1.2.3" ex_kube ex_api (inr "v1.31.0") (fun _ => None) (fun _ => inl "")
    (fun _ => inl "") ex_listen (fun _ _ => inl "no route to host") (fun _ => None) empty_json stored_zstd accept_all
    no_codec (fun _ => "") 0 p sent _ _ _ _ _ _ E Hrun Hstep eq_refl) as (snap & Hlast & Hall).
  exists s', snap. split; [exact Hlast|]. split; [exact (sys_snoc _ _ _ _ _ _ _ _ _ _ _ Hrun Hstep)|].
  intros pod c Hp Hc. destruct (Hall pod c Hp Hc) as [[_ H]|(pu & cu & Hpu & _ & Hcu & _ & _ & Hm)]; [by left|right].
  rewrite Hm. apply list_elem_of_singleton in Hpu as ->. apply list_elem_of_singleton in Hcu as ->. reflexivity.
Defined.
