(* ===== verification/Lifecycle.v ===== *)
(** * The life of the process: its health reports, its panics, its end

    What holds of every run of System.v besides the snapshot's contents: what a
    snapshot says of the collectors, which ticker can panic, and whether the
    process ends when it is told to.  The liveness is stated as what is left
    reachable: from every state the process can still come to its end, so it is
    never stuck before it. *)

From S2P Require Import Prelude GoNum GoStrings Config Model Store K8s Transport AgentErrors.
From S2P Require Import ConvertHelpers ConvertPod Ownership Aggregation Targets Pipeline SnapshotBuilder PodEquiv.
From S2P Require Import Registry Recovery Polling Pollers Dcgm Collectors Informers StateMachine Monitor Agent.
From S2P Require Import Http CloudMetadata Discovery HealthServer Main Cluster System.
Open Scope string_scope.
Open Scope list_scope.
Open Scope Z_scope.

(** ** Steps *)

Section Invariants.
Context (parse : string -> option Quantity.t) (p : Process.t).
Context (json : ClusterSnapshot.t -> string + string) (zstd : Zstd.t).
Context (decodeResponse : string -> option SnapshotResponse.t)
        (decodeErrorResponse : string -> option SnapshotErrorResponse.t)
        (decodeErrorText : string -> string).

Abbreviation pmove := (move parse p json zstd decodeResponse decodeErrorResponse decodeErrorText).
Abbreviation pstep := (sys_step parse p json zstd decodeResponse decodeErrorResponse decodeErrorText).
Abbreviation prun := (sys_run parse p json zstd decodeResponse decodeErrorResponse decodeErrorText).

(** Steps from a state, the first event first. *)
Inductive sys_steps : System.t -> list sys_event -> System.t -> Prop :=
  | steps_nil s : sys_steps s [] s
  | steps_cons s ev s' evs s'' : pstep s ev s' -> sys_steps s' evs s'' -> sys_steps s (ev :: evs) s''.

(** Steps in which an informer returns only when it is told to: none crashes. *)
Definition uncrashed (s : System.t) (ev : sys_event) : Prop :=
  match ev with
  | InformerGo k RunReturns => (s.(System.informers) k).(Informer.stopCh) = true
  | _ => True
  end.

Inductive orderly : System.t -> list sys_event -> System.t -> Prop :=
  | orderly_nil s : orderly s [] s
  | orderly_cons s ev s' evs s'' :
      pstep s ev s' -> uncrashed s ev -> orderly s' evs s'' -> orderly s (ev :: evs) s''.

Lemma orderly_steps s evs s' : orderly s evs s' -> sys_steps s evs s'.
Proof. induction 1; econstructor; eauto. Qed.

Lemma orderly_trans s evs s' evs' s'' : orderly s evs s' -> orderly s' evs' s'' -> orderly s (evs ++ evs') s''.
Proof. induction 1; [done|]. intros. cbn. econstructor; eauto. Qed.

Lemma orderly_one s ev s' : pstep s ev s' -> uncrashed s ev -> orderly s [ev] s'.
Proof. intros. econstructor; [eassumption|done|constructor]. Qed.

Lemma steps_trans s evs s' evs' s'' : sys_steps s evs s' -> sys_steps s' evs' s'' -> sys_steps s (evs ++ evs') s''.
Proof. induction 1; [done|]. intros. cbn. econstructor; eauto. Qed.

Lemma steps_one s ev s' : pstep s ev s' -> sys_steps s [ev] s'.
Proof. intros. econstructor; [eassumption|constructor]. Qed.

Lemma run_steps evs s evs' s' : prun evs s -> sys_steps s evs' s' -> prun (evs ++ evs') s'.
Proof.
  intros Hrun Hs. revert evs Hrun. induction Hs as [s|s ev s' evs' s'' Hstep _ IH]; intros evs Hrun.
  - by rewrite app_nil_r.
  - specialize (IH (evs ++ [ev]) (sys_snoc _ _ _ _ _ _ _ _ _ _ _ Hrun Hstep)). by rewrite <- app_assoc in IH.
Qed.

(** ** What the moves keep *)

Lemma go_stopCh s ev s' : informer_step s ev s' -> goroutine_go ev = true -> s'.(Informer.stopCh) = s.(Informer.stopCh).
Proof. by destruct 1. Qed.

Lemma go_idle s ev s' :
  informer_step s ev s' -> goroutine_go ev = true -> s.(Informer.at_) <> InfIdle /\ s'.(Informer.at_) <> InfIdle.
Proof. destruct 1 as [s E|s n E|s n E|s n E|s n E|s]; intros Hg; try done; by rewrite E. Qed.

Lemma start_collectors_stops fails registry s c :
  stop_closed (start_collectors fails registry s) c = stop_closed s c.
Proof.
  unfold start_collectors. revert s. induction registry as [|c' registry IH]; intros s; [done|].
  cbn [foldl]. rewrite IH. destruct (fails c'); [done|]. destruct c', c; cbn; try done. by case_decide as Hk; [subst|].
Qed.

(** Only the call of Stop closes a channel. *)
Lemma move_stop_closed s ev s' c : pmove s ev s' -> ev <> StopCalled -> stop_closed s' c = stop_closed s c.
Proof.
  intros Hm Hev. destruct Hm; try done; try (by destruct c).
  - exact (start_collectors_stops fails p.(Process.registry) s c).
  - destruct c as [k'| |]; cbn; [|done..]. case_decide; [subst; by eapply go_stopCh|done].
  - destruct c; cbn; [done| |done]. match goal with Hp : poller_moves _ _ _ |- _ => destruct Hp end.
    by eapply goroutine_step.
  - destruct c; cbn; [done|done|]. match goal with Hp : poller_moves _ _ _ |- _ => destruct Hp end.
    by eapply goroutine_step.
Qed.

(** A collector stays launched, and none is launched but by [StartAll]. *)
Lemma start_collectors_keep fails registry s c : launched s c -> launched (start_collectors fails registry s) c.
Proof.
  unfold start_collectors. revert s. induction registry as [|c' registry IH]; intros s Hl; [done|].
  cbn [foldl]. apply IH. destruct (fails c'); [done|]. by apply started_collector_launched.
Qed.

Lemma goroutine_context {S A} `{Poller S A} (q : Polling.t S) ev q' :
  step q ev q' -> goroutine_event ev = true -> q'.(Polling.ctx_done) = q.(Polling.ctx_done).
Proof. by destruct 1. Qed.

Lemma told_launched s c c' : launched (told_to_stop s c) c' <-> launched s c'.
Proof. destruct c, c'; cbn; try done. case_decide as Hk; [subst|]; done. Qed.

(** The moves of a goroutine do not launch one. *)
Lemma move_launched s ev s' c :
  pmove s ev s' -> s.(System.at_) <> Booted -> launched s' c <-> launched s c.
Proof.
  intros Hm Hb. destruct Hm; try done; try (by destruct c).
  - destruct c as [k'| |]; cbn; [|done..]. case_decide; [subst|done].
    match goal with Hi : informer_step _ _ _ |- _ => destruct (go_idle _ _ _ Hi) end; done.
  - destruct c; cbn; [done| |done].
    match goal with Hp : poller_moves _ _ _, Hs : step _ _ _ |- _ => destruct Hp, (goroutine_step _ _ _ Hs) as (_ & ? & ?) end; done.
  - destruct c; cbn; [done|done|].
    match goal with Hp : poller_moves _ _ _, Hs : step _ _ _ |- _ => destruct Hp, (goroutine_step _ _ _ Hs) as (_ & ? & ?) end; done.
  - exact (told_launched s c0 c).
Qed.

Lemma move_booted s ev s' : pmove s ev s' -> s.(System.at_) <> Booted -> s'.(System.at_) <> Booted.
Proof.
  intros Hm Hb. destruct Hm; try exact Hb; try done.
  - by destruct p.(Process.registry).
  - by destruct todo.
Qed.

Lemma steps_launched s evs s' c :
  sys_steps s evs s' -> s.(System.at_) <> Booted -> launched s' c <-> launched s c.
Proof.
  induction 1 as [|s ev s1 evs s' [_ Hm] _ IH]; intros Hb; [done|].
  rewrite IH by (by eapply move_booted). by eapply move_launched.
Qed.

Lemma start_collectors_informers fails registry s k :
  let s' := start_collectors fails registry s in
  s'.(System.informers) k = s.(System.informers) k \/
  s'.(System.informers) k = (s.(System.informers) k) <| Informer.at_ := InfRunning 0 |>.
Proof.
  cbv zeta. unfold start_collectors.
  induction registry as [|c registry IH] using rev_ind; [by left|].
  rewrite foldl_app. cbn [foldl]. set (s' := foldl _ s registry) in *. destruct (fails c); [exact IH|].
  destruct c as [k'| |]; cbn; [|exact IH..]. case_decide as Hk; [subst k'; right|exact IH]. by destruct IH as [->| ->].
Qed.

(** An informer whose Start failed is left alone. *)
Lemma start_collectors_failed fails registry s k e :
  fails (InformerOf k) = Some e -> (start_collectors fails registry s).(System.informers) k = s.(System.informers) k.
Proof.
  intros Hf. unfold start_collectors. revert s. induction registry as [|c registry IH]; intros s; [done|].
  cbn [foldl]. rewrite IH. destruct (fails c) eqn:Hc; [done|]. destruct c as [k'| |]; cbn; [|done..].
  case_decide as Hk; [subst; congruence|done].
Qed.

(** ** What holds in every run *)

(** Which collectors have been told to stop: none before [StopAll], the ones
    before its turn in it, and the one whose turn it is once it is told. *)
Definition stops_in_order (s : System.t) : Prop :=
  match s.(System.at_) with
  | Booted | Waiting _ | Looping => forall c, stop_closed s c = false
  | Stopping [] _ => False
  | Stopping (c :: todo) told =>
      (exists pre, p.(Process.registry) = pre ++ c :: todo) /\
      stop_closed s c = told /\ forall c', c' ∈ todo -> stop_closed s c' = false
  | _ => True
  end.

(** The goroutines are where their channels say, and the pollers' context ends
    with the signal. *)
Record fleet_sound (s : System.t) : Prop := {
  sound_informers : forall k, informer_inv (s.(System.informers) k);
  sound_metrics : poll_inv s.(System.metrics);
  sound_gpu : poll_inv s.(System.gpu);
  sound_metrics_ctx : s.(System.metrics).(Polling.ctx_done) = s.(System.cancelled);
  sound_gpu_ctx : s.(System.gpu).(Polling.ctx_done) = s.(System.cancelled) }.

(** [Run] does not go on when every start failed, and the end has stopped the
    monitor and the health server. *)
Definition stage_sound (s : System.t) : Prop :=
  match s.(System.at_) with
  | Waiting (Some (AllFailed _)) => False
  | Ended => s.(System.monitor).(MemoryPressureMonitor.stopCh) = true /\ s.(System.health).(HealthServer.listening) = false
  | _ => True
  end.

Lemma stops_frame s s' :
  (forall c, stop_closed s' c = stop_closed s c) -> s'.(System.at_) = s.(System.at_) ->
  stops_in_order s -> stops_in_order s'.
Proof.
  intros Hc Ha. unfold stops_in_order. rewrite Ha.
  destruct (System.at_ s) as [|e| |[|c todo] told| | |]; try done; try (intros H c; rewrite Hc; apply H).
  intros (Hp & Ht & Hr). split_and!; [done|by rewrite Hc|intros; rewrite Hc; auto].
Qed.

Lemma told_other s c c' :
  reg_name parse c <> reg_name parse c' -> stop_closed (told_to_stop s c) c' = stop_closed s c'.
Proof. destruct c, c'; cbn; try done. intros. case_decide as Hk; [by subst|done]. Qed.

Lemma told_closed s c : stop_closed (told_to_stop s c) c = true.
Proof. destruct c; cbn; [by rewrite decide_True|done..]. Qed.

Lemma stop_next_stops s (pre todo : list registered) :
  p.(Process.registry) = pre ++ todo -> (forall c, c ∈ todo -> stop_closed s c = false) ->
  s.(System.at_) = stop_next todo -> stops_in_order s.
Proof.
  intros Hp Hs Ha. unfold stops_in_order. rewrite Ha. destruct todo as [|c todo]; [done|]. cbn [stop_next].
  split_and!; [by exists pre|apply Hs; by left|intros; apply Hs; by right].
Qed.

Context (Hnames : NoDup (reg_name parse <$> p.(Process.registry))).

Lemma other_names pre c todo c' :
  p.(Process.registry) = pre ++ c :: todo -> c' ∈ todo -> reg_name parse c <> reg_name parse c'.
Proof using Hnames.
  intros Hp Hin. rewrite Hp, fmap_app, fmap_cons in Hnames.
  apply NoDup_app in Hnames as (_ & _ & [Hn _]%NoDup_cons).
  intros He. apply Hn. rewrite He. by apply list_elem_of_fmap_2.
Qed.

Lemma move_stops s ev s' : pmove s ev s' -> stops_in_order s -> stops_in_order s'.
Proof using Hnames.
  intros Hm Hs. assert (ev <> StopCalled -> forall c, stop_closed s' c = stop_closed s c) as Hc
    by (intros; by eapply move_stop_closed).
  destruct Hm; try (apply (stops_frame s); [exact (Hc ltac:(done))|reflexivity|exact Hs]);
    try specialize (Hc ltac:(done)); try exact I.
  - unfold stops_in_order in *. rewrite H in Hs. cbn [System.at_].
    destruct startErr as [[]|]; try done; intros c; by rewrite Hc, Hs.
  - unfold stops_in_order in *. rewrite H in Hs. intros c. by rewrite Hc, Hs.
  - unfold stops_in_order in Hs. rewrite H in Hs.
    eapply (stop_next_stops _ []); [reflexivity|intros; rewrite Hc; apply Hs|reflexivity].
  - unfold stops_in_order in *. rewrite H in Hs. destruct Hs as ([pre Hp] & Hf & Hr). cbn [System.at_].
    split_and!; [by exists pre|exact (told_closed s c)|]. intros c' Hin.
    transitivity (stop_closed (told_to_stop s c) c'); [by destruct c'|].
    rewrite told_other; [by apply Hr|by eapply other_names].
  - unfold stops_in_order in Hs. rewrite H in Hs. destruct Hs as ([pre Hp] & Ht & Hr).
    eapply (stop_next_stops _ (pre ++ [c]) todo); [by rewrite <- app_assoc|intros; rewrite Hc; by apply Hr|reflexivity].
Qed.

(** A new goroutine launched. *)
Lemma informer_launched i : informer_inv i -> i.(Informer.at_) = InfIdle -> informer_inv (i <| Informer.at_ := InfRunning 0 |>).
Proof. intros Hi E. eapply informer_inv_step; [exact Hi|by apply inf_launch]. Qed.

Lemma poller_launched {S A} `{Poller S A} (q : Polling.t S) :
  poll_inv q -> q.(Polling.at_) = NotStarted -> poll_inv (q <| Polling.at_ := Launched |>).
Proof. intros Hi E. eapply poll_inv_step; [exact Hi|by apply step_start]. Qed.

Lemma started_fleet fails registry s :
  fleet_sound s -> s.(System.metrics).(Polling.at_) = NotStarted -> s.(System.gpu).(Polling.at_) = NotStarted ->
  (forall k, (s.(System.informers) k).(Informer.at_) = InfIdle) ->
  fleet_sound (start_collectors fails registry s).
Proof.
  intros [Hi Hm Hg Hmc Hgc] Em Eg Ei.
  destruct (start_collectors_pollers fails registry s) as [Sm Sg].
  split.
  - intros k. destruct (start_collectors_informers fails registry s k) as [->| ->]; [done|by apply informer_launched].
  - destruct Sm as [->| ->]; [done|by apply poller_launched].
  - destruct Sg as [->| ->]; [done|by apply poller_launched].
  - rewrite (fleet_cancelled _ _ (start_collectors_frame fails registry s)). by destruct Sm as [->| ->].
  - rewrite (fleet_cancelled _ _ (start_collectors_frame fails registry s)). by destruct Sg as [->| ->].
Qed.

Lemma informer_fleet k i s : fleet_sound s -> informer_inv i -> fleet_sound (set_informer k i s).
Proof. intros [Hi Hm Hg Hmc Hgc] Hk. split; try done. intros k'. cbn. by case_decide. Qed.

Lemma told_fleet s c :
  fleet_sound s -> ((forall k, c <> InformerOf k) -> stop_closed s c = false) -> fleet_sound (told_to_stop s c).
Proof.
  intros Hs Hc. destruct c as [k|i|i].
  - apply informer_fleet; [done|]. eapply informer_inv_step; [apply Hs|apply inf_stop].
  - destruct Hs as [Hi Hm Hg Hmc Hgc]. split; try done.
    eapply poll_inv_step; [exact Hm|apply (step_stop (H := MetricsPoller)), Hc; done].
  - destruct Hs as [Hi Hm Hg Hmc Hgc]. split; try done.
    eapply poll_inv_step; [exact Hg|apply (step_stop (H := GPUPoller)), Hc; done].
Qed.

Lemma run_fleet evs s : prun evs s -> fleet_sound s.
Proof.
  induction 1 as [|evs s ev s' Hrun IH [_ Hmove]]; [split; try done; apply poll_inv_new|].
  assert (forall s', s'.(System.informers) = s.(System.informers) -> s'.(System.metrics) = s.(System.metrics) ->
    s'.(System.gpu) = s.(System.gpu) -> s'.(System.cancelled) = s.(System.cancelled) -> fleet_sound s') as Hframe.
  { intros t Hi Hm Hg Hc. destruct IH. split; by rewrite ?Hi, ?Hm, ?Hg, ?Hc. }
  inversion Hmove; subst; try (apply Hframe; reflexivity).
  - pose proof (run_booted _ _ _ _ _ _ _ _ _ Hrun H) as (Em & Eg & Ei).
    destruct (started_fleet fails p.(Process.registry) s IH Em Eg Ei). by split.
  - apply informer_fleet; [done|]. eapply informer_inv_step; [apply IH|eassumption].
  - destruct IH as [Hi Hm Hg Hmc Hgc]. split; try done; [by eapply poll_inv_step|].
    etransitivity; [|exact Hmc]. match goal with Hp : poller_moves _ _ _ |- _ => destruct Hp end. by eapply goroutine_context.
  - destruct IH as [Hi Hm Hg Hmc Hgc]. split; try done; [by eapply poll_inv_step|].
    etransitivity; [|exact Hgc]. match goal with Hp : poller_moves _ _ _ |- _ => destruct Hp end. by eapply goroutine_context.
  - destruct IH as [Hi Hm Hg Hmc Hgc]. split; try done.
    + eapply poll_inv_step; [exact Hm|apply (step_context (H := MetricsPoller))].
    + eapply poll_inv_step; [exact Hg|apply (step_context (H := GPUPoller))].
  - by destruct (told_fleet s c IH).
Qed.

Lemma run_stages evs s : prun evs s -> stops_in_order s /\ stage_sound s.
Proof using Hnames.
  induction 1 as [|evs s ev s' Hrun [Hs Hst] [[He _] Hmove]].
  { split; [|exact I]. intros c; by destruct c. }
  split; [by eapply move_stops|].
  unfold stage_sound in *. inversion Hmove; subst; try exact Hst; try done.
  - by destruct (Registry.StartAll _ _).1 as [[]|].
  - change (System.at_ (s <| System.monitor := m |>)) with (System.at_ s). by destruct (System.at_ s).
  - by destruct p.(Process.registry).
  - by destruct todo.
Qed.

(** A collector whose goroutine was not launched has not returned. *)
Lemma unlaunched_not_done evs s c : prun evs s -> ~ launched s c -> done_closed s c = false.
Proof.
  intros [Hi (Hm & _) (Hg & _) _ _]%run_fleet Hl. destruct c as [k|i|i]; cbn in *.
  - apply not_true_iff_false. intros E%Hi. apply Hl. by rewrite E.
  - rewrite Hm. apply bool_decide_eq_false. intros E. apply Hl. by rewrite E.
  - rewrite Hg. apply bool_decide_eq_false. intros E. apply Hl. by rewrite E.
Qed.

#[local] Instance launched_dec s c : Decision (launched s c).
Proof. destruct c; apply _. Defined.

(** ** What the health reports *)

(** The moves of the goroutine of an informer in a run. *)
Definition moves_in (k : kind) (evs : list sys_event) : list informer_go :=
  omap (fun ev => match ev with InformerGo k' go => if decide (k' = k) then Some go else None | _ => None end) evs.

Lemma moves_in_snoc k evs ev : moves_in k (evs ++ [ev]) = moves_in k evs ++ moves_in k [ev].
Proof. unfold moves_in. by rewrite omap_app. Qed.

Lemma moves_in_one k go : moves_in k [InformerGo k go] = [go].
Proof. unfold moves_in. cbn. by rewrite decide_True. Qed.

(** Until [StopAll], the goroutine of an informer that was launched has run as in
    Recovery.v. *)
Definition informer_history (k : kind) (evs : list sys_event) (s : System.t) : Prop :=
  match s.(System.at_) with
  | Booted => moves_in k evs = []
  | Waiting _ | Looping =>
      ((s.(System.informers) k).(Informer.at_) = InfIdle /\ moves_in k evs = []) \/
      exists tr, informer_run (Launch :: moves_in k evs) tr (s.(System.informers) k)
  | _ => True
  end.

Lemma history_frame k evs ev s s' :
  s'.(System.at_) = s.(System.at_) -> s'.(System.informers) k = s.(System.informers) k -> moves_in k [ev] = [] ->
  informer_history k evs s -> informer_history k (evs ++ [ev]) s'.
Proof. intros Ha Hi He. unfold informer_history. by rewrite Ha, Hi, moves_in_snoc, He, app_nil_r. Qed.

Lemma run_informer_history k evs s : prun evs s -> informer_history k evs s.
Proof using Hnames.
  induction 1 as [|evs s ev s' Hrun IH [_ Hmove]]; [done|].
  inversion Hmove; subst; try (apply (history_frame k evs _ s); [reflexivity|reflexivity|reflexivity|exact IH]);
    try exact I; try (destruct p.(Process.registry); exact I).
  - destruct (run_booted _ _ _ _ _ _ _ _ _ Hrun H) as (_ & _ & Hi). specialize (Hi k).
    destruct (run_stages _ _ Hrun) as [Hst _]. unfold stops_in_order in Hst. rewrite H in Hst.
    destruct (sound_informers _ (run_fleet _ _ Hrun) k) as [Hd _].
    assert (s.(System.informers) k = new_informer) as Hnew.
    { specialize (Hst (InformerOf k)). cbn in Hst. destruct (System.informers s k) as [a st d]. cbn in *. subst.
      f_equal. by destruct d; [destruct Hd as [Hd _]; specialize (Hd eq_refl)|]. }
    unfold informer_history in *. rewrite H in IH. rewrite moves_in_snoc, IH.
    assert (let i := (start_collectors fails p.(Process.registry) s).(System.informers) k in
      (i.(Informer.at_) = InfIdle /\ [] ++ moves_in k [StartAll fails finished] = []) \/
      exists tr, informer_run (Launch :: [] ++ moves_in k [StartAll fails finished]) tr i) as Hgoal.
    { cbv zeta. destruct (start_collectors_informers fails p.(Process.registry) s k) as [->| ->]; [by left|].
      right. rewrite Hnew. eexists. apply (inf_snoc [] []); [constructor|by apply inf_launch]. }
    by destruct (Registry.StartAll _ _).1 as [[]|].
  - match goal with Hs : informer_step _ _ i |- _ => pose proof (go_idle _ _ _ Hs) as Hgo; rename Hs into Hstep end.
    destruct (decide (k0 = k)) as [->|Hk].
    + specialize (Hgo ltac:(done)) as [Hgo _]. unfold informer_history in *.
      rewrite moves_in_snoc, moves_in_one. change (System.at_ (set_informer k i s)) with (System.at_ s).
      replace ((set_informer k i s).(System.informers) k) with i by (cbn; by rewrite decide_True).
      destruct (System.at_ s) eqn:E; try exact I.
      * destruct (run_booted _ _ _ _ _ _ _ _ _ Hrun E) as (_ & _ & Hi). by destruct Hgo.
      * destruct IH as [[? _]|[tr IH]]; [done|]. right. eexists. exact (inf_snoc _ _ _ _ _ IH Hstep).
      * destruct IH as [[? _]|[tr IH]]; [done|]. right. eexists. exact (inf_snoc _ _ _ _ _ IH Hstep).
    + apply (history_frame k evs _ s); [reflexivity| | |exact IH].
      * cbn. by rewrite decide_False by congruence.
      * unfold moves_in. cbn. by rewrite decide_False.
  - unfold informer_history in *. rewrite H in IH. rewrite moves_in_snoc, app_nil_r. exact IH.
  - by destruct todo.
Qed.

(** Four runs of an informer that end, with the three sleeps between. *)
Definition crashes : list informer_go := [RunReturns; Wakes; RunReturns; Wakes; RunReturns; Wakes; RunReturns].

(** A collector reported stale before [StopAll]. *)
Lemma stale_collector evs s c :
  prun evs s -> (exists e, s.(System.at_) = Waiting e) \/ s.(System.at_) = Looping -> done_closed s c = true ->
  launched s c /\
  match c with
  | InformerOf k => goes (moves_in k evs) = crashes
  | _ => s.(System.cancelled) = true
  end.
Proof using Hnames.
  intros Hrun Hat Hd. split; [apply dec_stable; intros Hn; by rewrite (unlaunched_not_done _ _ _ Hrun Hn) in Hd|].
  destruct (run_fleet _ _ Hrun) as [Hi (Hm & _ & Hmx) (Hg & _ & Hgx) Hmc Hgc].
  destruct (run_stages _ _ Hrun) as [Hst _].
  assert (forall c, stop_closed s c = false) as Hs
    by (unfold stops_in_order in Hst; by destruct Hat as [[e E]|E]; rewrite E in Hst).
  specialize (Hs c). destruct c as [k|i|i]; cbn in *.
  - pose proof (run_informer_history k _ _ Hrun) as Hh. apply Hi in Hd.
    assert (exists tr, informer_run (Launch :: moves_in k evs) tr (System.informers s k)) as [tr Hr].
    { unfold informer_history in Hh. destruct Hat as [[e E]|E]; rewrite E in Hh;
        destruct Hh as [[Hx _]|Hh]; try done; by rewrite Hx in Hd. }
    destruct (informer_run_inv _ _ _ Hr) as [_ Hdone]. unfold done_so_far in Hdone. rewrite Hd in Hdone.
    destruct Hdone as (n & _ & _ & Hmv & [Hx|Hn]); [congruence|].
    pose proof (informer_run_turns _ _ _ Hr) as Ht. rewrite Hmv in Ht. unfold informerMaxRetries in Hn.
    assert (n = 3)%nat as -> by lia. exact Ht.
  - rewrite <- Hmc. rewrite Hm in Hd. apply bool_decide_eq_true in Hd. specialize (Hmx Hd). by rewrite Hs in Hmx.
  - rewrite <- Hgc. rewrite Hg in Hd. apply bool_decide_eq_true in Hd. specialize (Hgx Hd). by rewrite Hs in Hgx.
Qed.
(** ** The end *)

(** The collectors whose Stop is still to return. *)
Definition left_to_stop (s : System.t) (c : registered) : Prop :=
  match s.(System.at_) with
  | Waiting _ | Looping => True
  | Stopping todo _ => c ∈ todo
  | _ => False
  end.

(** A collector left to stop whose Start failed: its Stop never returns. *)
Definition stuck (s : System.t) : Prop :=
  exists c, c ∈ p.(Process.registry) /\ left_to_stop s c /\ ~ launched s c.

Lemma stuck_step evs s ev s' : prun evs s -> pstep s ev s' -> stuck s -> stuck s' \/ s'.(System.at_) = Panicked.
Proof.
  intros Hrun [Ha Hm] (c & Hin & Hl & Hn).
  assert (s.(System.at_) <> Booted) as Hb by (intros Hb; unfold left_to_stop in Hl; by rewrite Hb in Hl).
  pose proof (unlaunched_not_done _ _ _ Hrun Hn) as Hd.
  assert (~ launched s' c) as Hn' by (by rewrite (move_launched _ _ _ c Hm Hb)).
  assert (left_to_stop s' c \/ s'.(System.at_) = Panicked) as [Hl'|]; [|left; by exists c|by right].
  clear Hb Hn Hn' Hrun. unfold left_to_stop in *.
  destruct Hm; try (left; exact Hl); try (rewrite H in Hl); try done; try (by left); try (by right).
  - left. destruct p.(Process.registry); [by apply elem_of_nil in Hin|exact Hin].
  - left. apply elem_of_cons in Hl as [->|Hl]; [congruence|]. destruct todo; [by apply elem_of_nil in Hl|exact Hl].
Qed.

Lemma stuck_steps evs s evs' s' : prun evs s -> stuck s -> sys_steps s evs' s' -> s'.(System.at_) <> Ended.
Proof.
  intros Hrun Hs Hsteps. revert evs Hrun Hs.
  induction Hsteps as [s|s ev s' evs' s'' Hstep Hsteps IH]; intros evs Hrun Hs.
  - destruct Hs as (c & _ & Hl & _). intros E. unfold left_to_stop in Hl. by rewrite E in Hl.
  - destruct (stuck_step _ _ _ _ Hrun Hstep Hs) as [Hs'|Hp].
    + eapply IH; [|exact Hs']. by eapply sys_snoc.
    + destruct Hsteps as [|s' ev' ? ? ? [[_ Ha] _] _]; [by rewrite Hp|by rewrite Hp in Ha].
Qed.

(** A process that has ended had launched every collector it had left to stop. *)
Lemma ended_launched evs s evs' s' c :
  prun evs s -> sys_steps s evs' s' -> s'.(System.at_) = Ended -> c ∈ p.(Process.registry) -> left_to_stop s c -> launched s c.
Proof.
  intros Hrun Hs E Hin Hl. apply dec_stable. intros Hn. eapply stuck_steps; [exact Hrun| |exact Hs|exact E]. by exists c.
Qed.

(** The process can still come to its end without a crash. *)
Definition can_end (s : System.t) : Prop := exists evs s', orderly s evs s' /\ s'.(System.at_) = Ended.

Lemma can_end_step s ev s' : pstep s ev s' -> uncrashed s ev -> can_end s' -> can_end s.
Proof. intros Hstep Hu (evs & t & Hs & Ht). exists (ev :: evs), t. split; [by econstructor|done]. Qed.

Lemma can_end_steps s evs s' : orderly s evs s' -> can_end s' -> can_end s.
Proof. intros Hs (evs' & t & Hs' & Ht). exists (evs ++ evs'), t. split; [by eapply orderly_trans|done]. Qed.

Lemma closing_ends s : s.(System.at_) = Closing -> can_end s.
Proof.
  intros E. eapply can_end_step; [split; [split; by rewrite E|by apply sys_shut_down]|exact I|].
  exists [], (s <| System.monitor := MemoryPressureMonitor.Stop s.(System.monitor) |>
    <| System.health := HealthServer.Stop s.(System.health) |> <| System.at_ := Ended |>).
  split; [constructor|reflexivity].
Qed.

(** A path of a poller's goroutine is one of the process. *)
Lemma poller_path {S A} `{Poller S A} (get : System.t -> Polling.t S) (wrap : poll_event A -> sys_event) q evs q' s :
  (forall t ev q1, alive t -> goroutine_event ev = true -> step (get t) ev q1 ->
     exists t', pstep t (wrap ev) t' /\ uncrashed t (wrap ev) /\ t'.(System.at_) = t.(System.at_) /\ get t' = q1) ->
  run q evs q' -> forallb goroutine_event evs = true -> get s = q -> alive s ->
  exists s', orderly s (wrap <$> evs) s' /\ s'.(System.at_) = s.(System.at_) /\ get s' = q'.
Proof.
  intros Hlift Hr. revert s. induction Hr as [q|q ev q1 evs q' Hstep _ IH]; intros s Hg <- Ha.
  { exists s. by split; [constructor|]. }
  cbn [forallb] in Hg. apply andb_true_iff in Hg as [He Hg].
  destruct (Hlift s ev q1 Ha He Hstep) as (t & Ht & Hu & Hat & Hq).
  destruct (IH t Hg Hq) as (s' & Hs & Hat' & Hq'); [unfold alive; by rewrite Hat|].
  exists s'. split_and!; [by econstructor|congruence|done].
Qed.

(** The goroutine of a collector that is told to stop returns. *)
Context (Hmetrics : forall i, MetricsPolling i ∈ p.(Process.registry) -> 0 < i)
        (Hgpu : forall i, GPUPolling i ∈ p.(Process.registry) -> 0 < i).

Lemma worker_returns evs s c todo :
  prun evs s -> s.(System.at_) = Stopping (c :: todo) true -> launched s c ->
  exists evs' s', orderly s evs' s' /\ s'.(System.at_) = Stopping (c :: todo) true /\ done_closed s' c = true.
Proof using Hgpu Hmetrics Hnames.
  intros Hrun E Hl. destruct (run_stages _ _ Hrun) as [Hst _]. destruct (run_fleet _ _ Hrun) as [Hi Hpm Hpg _ _].
  unfold stops_in_order in Hst. rewrite E in Hst. destruct Hst as ([pre Hp] & Hs & _).
  assert (c ∈ p.(Process.registry)) as Hin by (rewrite Hp; apply elem_of_app; right; by left).
  assert (alive s) as Ha by (split; by rewrite E).
  destruct c as [k|i|i]; cbn [launched stop_closed done_closed] in *.
  - assert (forall ev i t, t.(System.at_) = s.(System.at_) -> goroutine_go ev = true ->
      informer_step (t.(System.informers) k) ev i -> pstep t (InformerGo k ev) (set_informer k i t)) as Hgo.
    { intros ev i t Et Hg Hstep. split; [split; by rewrite Et, E|by constructor]. }
    assert (forall i t, (set_informer k i t).(System.informers) k = i) as Hset
      by (intros; cbn; by rewrite decide_True).
    destruct (informer_returns _ (Hi k) Hs Hl) as [Hd|[(i & Hstep & Hd)|(i1 & i & H1 & H2 & Hd)]].
    + exists [], s. by split; [constructor|].
    + eexists _, _. split; [apply orderly_one; [apply Hgo; [done|..|exact Hstep]; done|exact Hs]|]. by rewrite Hset.
    + exists [InformerGo k Wakes; InformerGo k RunReturns], (set_informer k i (set_informer k i1 s)).
      split; [|split; [exact E|]].
      * econstructor; [apply Hgo; [done|..|exact H1]; done|exact I|].
        apply orderly_one; [apply Hgo; [done|done|rewrite Hset; exact H2]|]. cbn [uncrashed]. rewrite Hset.
        by rewrite (go_stopCh _ _ _ H1).
      * by rewrite Hset.
  - destruct (stop_path s.(System.metrics) (MetricsCollector.mkAnswers 0 None None 0) Hs Hl) as (evs' & q & Hr & _ & Hg & Hx).
    destruct (poller_path System.metrics MetricsPoll s.(System.metrics) evs' q s) as (s' & Hsteps & Hat & Hm); [|done..|].
    { intros t ev q1 Hta Hgo Hstep. exists (t <| System.metrics := q1 |>). split_and!; [|done..]. split; [done|].
      eapply sys_metrics; [exact Hin|split; [done|right; by apply Hmetrics]|done]. }
    eexists _, s'. split_and!; [exact Hsteps|by rewrite Hat|]. rewrite Hm.
    destruct (poll_inv_run _ _ _ Hpm Hr) as [-> _]. by rewrite Hx.
  - destruct (stop_path s.(System.gpu) (fun _ => None, [], 0) Hs Hl) as (evs' & q & Hr & _ & Hg & Hx).
    destruct (poller_path System.gpu GPUPoll s.(System.gpu) evs' q s) as (s' & Hsteps & Hat & Hm); [|done..|].
    { intros t ev q1 Hta Hgo Hstep. exists (t <| System.gpu := q1 |>). split_and!; [|done..]. split; [done|].
      eapply sys_gpu; [exact Hin|split; [done|right; by apply Hgpu]|done]. }
    eexists _, s'. split_and!; [exact Hsteps|by rewrite Hat|]. rewrite Hm.
    destruct (poll_inv_run _ _ _ Hpg Hr) as [-> _]. by rewrite Hx.
Qed.

(** [StopAll] comes to its end when the collectors left were launched. *)
Lemma stopping_ends todo : forall evs s told,
  prun evs s -> s.(System.at_) = Stopping todo told -> (forall c, c ∈ todo -> launched s c) -> can_end s.
Proof using Hgpu Hmetrics Hnames.
  induction todo as [|c todo IH]; intros evs s told Hrun E Hl;
    destruct (run_stages _ _ Hrun) as [Hst _]; unfold stops_in_order in Hst; rewrite E in Hst; [done|].
  assert (forall evs s, prun evs s -> s.(System.at_) = Stopping (c :: todo) true ->
    (forall c', c' ∈ c :: todo -> launched s c') -> can_end s) as Htold.
  { clear evs s told Hrun E Hl Hst. intros evs s Hrun E Hl.
    destruct (worker_returns evs s c todo Hrun E) as (evs' & s1 & Hs1 & E1 & Hd); [apply Hl; by left|].
    assert (pstep s1 StopReturns (s1 <| System.at_ := stop_next todo |>)) as Hret.
    { split; [split; by rewrite E1|by eapply sys_stop_returns]. }
    apply (can_end_steps _ _ _ Hs1), (can_end_step _ _ _ Hret I).
    destruct todo as [|c' todo]; [by apply closing_ends|].
    eapply IH; [eapply sys_snoc; [eapply run_steps; [exact Hrun|by apply orderly_steps]|exact Hret]|reflexivity|]. intros c'' Hin.
    assert (launched s1 c'') as Hl1 by (eapply steps_launched; [by apply orderly_steps|by rewrite E|apply Hl; by right]).
    by destruct c''. }
  destruct told; [by eapply Htold|].
  assert (pstep s StopCalled ((told_to_stop s c) <| System.at_ := Stopping (c :: todo) true |>)) as Hcall.
  { split; [split; by rewrite E|]. apply sys_call_stop; [done|]. intros _. exact (proj1 (proj2 Hst)). }
  apply (can_end_step _ _ _ Hcall I). eapply Htold; [by eapply sys_snoc|done|]. intros c' Hin.
  assert (launched (told_to_stop s c) c') as Hl1 by (apply told_launched; auto). by destruct c'.
Qed.

Context (Hinterval : 0 < p.(Process.config).(Config.SnapshotInterval)) (Hregistry : p.(Process.registry) <> []).

Lemma looping_ends evs s :
  prun evs s -> s.(System.at_) = Looping -> (forall c, c ∈ p.(Process.registry) -> launched s c) -> can_end s.
Proof using Hgpu Hmetrics Hnames Hregistry.
  assert (forall evs s, prun evs s -> s.(System.at_) = Looping -> (forall c, c ∈ p.(Process.registry) -> launched s c) ->
    s.(System.cancelled) = true -> can_end s) as Hc.
  { clear evs s. intros evs s Hrun E Hl Hc.
    assert (pstep s (LoopEnds "context canceled") (s <| System.at_ := stop_next p.(Process.registry) |>)) as Hends.
    { split; [split; by rewrite E|by apply sys_loop_ends]. }
    apply (can_end_step _ _ _ Hends I).
    eapply (stopping_ends p.(Process.registry) _ _ false); [by eapply sys_snoc| |].
    - change (stop_next p.(Process.registry) = Stopping p.(Process.registry) false). by destruct p.(Process.registry).
    - intros c Hin. specialize (Hl c Hin). by destruct c. }
  intros Hrun E Hl. destruct (System.cancelled s) eqn:Ec; [by eapply Hc|].
  pose proof (sys_signal parse p json zstd decodeResponse decodeErrorResponse decodeErrorText s Ec) as Hm.
  eapply can_end_step; [split; [split; by rewrite E|exact Hm]|exact I|].
  eapply Hc; [eapply sys_snoc; [exact Hrun|split; [split; by rewrite E|exact Hm]]|exact E| |reflexivity].
  intros c Hin. specialize (Hl c Hin). by destruct c.
Qed.

Lemma waiting_ends evs s e :
  prun evs s -> s.(System.at_) = Waiting e -> (forall c, c ∈ p.(Process.registry) -> launched s c) -> can_end s.
Proof using Hgpu Hmetrics Hnames Hregistry Hinterval.
  intros Hrun E Hl. destruct (run_stages _ _ Hrun) as [_ Hst]. unfold stage_sound in Hst. rewrite E in Hst.
  destruct (quiet_start parse p json zstd decodeResponse decodeErrorResponse decodeErrorText s e
    "timeout" "" 0 200 0 E Hinterval) as (s' & Hstep & E'); [by intros n ->|].
  apply (can_end_step _ _ _ Hstep I). eapply looping_ends; [by eapply sys_snoc|exact E'|].
  intros c Hin. eapply steps_launched; [by apply steps_one|by rewrite E|by apply Hl].
Qed.

Lemma booted_ends evs s : prun evs s -> s.(System.at_) = Booted -> can_end s.
Proof using Hgpu Hmetrics Hnames Hregistry Hinterval.
  intros Hrun E. pose proof (all_start parse p json zstd decodeResponse decodeErrorResponse decodeErrorText s E Hregistry) as Hstep.
  apply (can_end_step _ _ _ Hstep I). eapply (waiting_ends _ _ None); [by eapply sys_snoc|reflexivity|].
  intros c Hin. assert (launched (start_collectors (fun _ => None) p.(Process.registry) s) c) as Hl
    by (by apply start_collectors_launched). by destruct c.
Qed.

(** It does, when no collector it has left to stop failed to start. *)
Lemma end_reachable evs s :
  prun evs s -> alive s -> (forall c, c ∈ p.(Process.registry) -> left_to_stop s c -> launched s c) -> can_end s.
Proof using Hgpu Hmetrics Hnames Hregistry Hinterval.
  intros Hrun [He Hp]. unfold left_to_stop. destruct (System.at_ s) as [|e| |todo told| | |] eqn:E; intros Hl; try done.
  - by eapply booted_ends.
  - eapply waiting_ends; eauto.
  - eapply looping_ends; eauto.
  - eapply stopping_ends; [done|exact E|]. intros c Hin. apply Hl; [|done].
    destruct (run_stages _ _ Hrun) as [Hst _]. unfold stops_in_order in Hst. rewrite E in Hst.
    destruct todo as [|c' todo]; [done|]. destruct Hst as ([pre ->] & _). apply elem_of_app. by right.
  - by apply closing_ends.
Qed.
End Invariants.

(** A collector that is not told to stop is unhealthy when its goroutine returned. *)
Lemma collector_unhealthy parse fails waits s c :
  stop_closed s c = false ->
  fst <$> (collector_at parse fails waits s c).(Collector.IsHealthy) = Some false <-> done_closed s c = true.
Proof.
  destruct c; cbn; unfold informerHealthy, poller_healthy; intros ->;
    match goal with |- context[if ?d then _ else _] => destruct d end; cbn; split; congruence.
Qed.

Lemma filter_names {A B C} (f : A -> B) (g : B -> C) (h : A -> C) (P : B -> Prop) (Q : A -> Prop)
    `{!forall x, Decision (P x)} `{!forall x, Decision (Q x)} (l : list A) :
  (forall x, P (f x) <-> Q x) -> (forall x, g (f x) = h x) -> g <$> filter P (f <$> l) = h <$> filter Q l.
Proof.
  intros HP Hg. induction l as [|x l IH]; [done|]. rewrite fmap_cons, !filter_cons.
  destruct (decide (Q x)) as [Hq|Hq].
  - rewrite decide_True by (by apply HP). by rewrite !fmap_cons, Hg, IH.
  - by rewrite decide_False by (by rewrite HP).
Qed.

(** ** The tickers *)

Section Tickers.
Context (parse : string -> option Quantity.t) (p : Process.t).
Context (json : ClusterSnapshot.t -> string + string) (zstd : Zstd.t).
Context (decodeResponse : string -> option SnapshotResponse.t)
        (decodeErrorResponse : string -> option SnapshotErrorResponse.t)
        (decodeErrorText : string -> string).

Abbreviation prun := (sys_run parse p json zstd decodeResponse decodeErrorResponse decodeErrorText).

Lemma panicked_ticker evs s :
  prun evs s -> s.(System.at_) = Panicked ->
  (exists i, MetricsPolling i ∈ p.(Process.registry) /\ i <= 0) \/
  (exists i, GPUPolling i ∈ p.(Process.registry) /\ i <= 0) \/
  p.(Process.config).(Config.SnapshotInterval) <= 0.
Proof.
  destruct 1 as [|evs s ev s' _ [[_ Ha] Hmove]]; [done|].
  inversion Hmove; subst; intros E; try done.
  - by destruct (Registry.StartAll _ _).1 as [[]|].
  - by destruct p.(Process.registry).
  - by destruct todo.
  - match goal with Ht : ticker_panics _ _ |- _ =>
      destruct Ht as [(i & ? & _ & ?)|[(i & ? & _ & ?)|(e & _ & ?)]]; eauto end.
Qed.

(** A GPU poller with such an interval: it starts, polls once and panics. *)
Lemma panics i :
  GPUPolling i ∈ p.(Process.registry) -> i <= 0 -> exists evs s, prun evs s /\ s.(System.at_) = Panicked.
Proof.
  intros Hin Hle. assert (p.(Process.registry) <> []) as Hne by (intros H; rewrite H in Hin; by apply elem_of_nil in Hin).
  pose proof (all_start parse p json zstd decodeResponse decodeErrorResponse decodeErrorText (boot p) eq_refl Hne) as H1.
  pose proof (all_started_gpu p (boot p) i Hin eq_refl) as Hg. set (s1 := all_started p (boot p)) in *.
  assert (alive s1) as Ha by (by split).
  set (g := (s1.(System.gpu)) <| Polling.data := poll (fun _ => None, [], 0) s1.(System.gpu).(Polling.data) |>
              <| Polling.synced := true |> <| Polling.at_ := Selecting |>).
  assert (move parse p json zstd decodeResponse decodeErrorResponse decodeErrorText s1
    (GPUPoll (DoPoll (fun _ => None, [], 0))) (s1 <| System.gpu := g |>)) as H2.
  { eapply sys_gpu; [exact Hin|split; [done|by left]|by apply step_first]. }
  assert (move parse p json zstd decodeResponse decodeErrorResponse decodeErrorText (s1 <| System.gpu := g |>)
    NewTickerPanics (s1 <| System.gpu := g |> <| System.at_ := Panicked |>)) as H3.
  { apply sys_panic. right; left. by exists i. }
  assert (alive (s1 <| System.gpu := g |>)) as Ha' by exact Ha.
  pose proof (sys_snoc _ _ _ _ _ _ _ _ _ _ _ (sys_boot _ _ _ _ _ _ _) H1) as R1.
  pose proof (sys_snoc _ _ _ _ _ _ _ _ _ _ _ R1 (conj Ha H2)) as R2.
  pose proof (sys_snoc _ _ _ _ _ _ _ _ _ _ _ R2 (conj Ha' H3)) as R3.
  by eexists _, _.
Qed.
End Tickers.

(** ** The process *)

Section Life.
Context (Getenv : string -> string) (Version : string).
Context {RestConfig : Type} (kube : Kube.t RestConfig).
Context (api : API.t) (ServerVersion : string + string).
Context (url_err : string -> option string).
Context (decodeAWS : HttpResponse.t -> string + AWSDoc.t) (decodeAzure : HttpResponse.t -> string + AzureDoc.t).
Context (listen : string -> string + string).
Context (srv : server).
Context (parse : string -> option Quantity.t).
Context (json : ClusterSnapshot.t -> string + string) (zstd : Zstd.t).
Context (decodeResponse : string -> option SnapshotResponse.t)
        (decodeErrorResponse : string -> option SnapshotErrorResponse.t)
        (decodeErrorText : string -> string).

(** What the lemmas above need of a process that came up. *)
Lemma startup_fleet now p sent :
  interp srv [] (startup Getenv Version kube api ServerVersion url_err decodeAWS decodeAzure listen now) = (inr (inr p), sent) ->
  NoDup (reg_name parse <$> p.(Process.registry)) /\ p.(Process.registry) <> [] /\
  golen p.(Process.registry) < 2 ^ 63 /\ 0 < p.(Process.config).(Config.SnapshotInterval) /\
  (forall i, MetricsPolling i ∈ p.(Process.registry) -> 0 < i) /\
  (forall i, GPUPolling i ∈ p.(Process.registry) -> i = p.(Process.config).(Config.GPUMetricsInterval)).
Proof.
  intros Hp. destruct (startup_valid _ _ _ _ _ _ _ _ _ _ _ _ _ Hp) as [_ _ Hs Hm _ _ _].
  destruct (startup_up _ _ _ _ _ _ _ _ _ _ _ _ _ Hp) as (caps & _ & Hr & _). rewrite Hr.
  destruct (registered_intervals p.(Process.config) caps) as [Hmi Hgi].
  assert (0 < 10 * Second) as Hsec by reflexivity.
  split_and!; [apply registered_names|done| |lia| |exact Hgi].
  - unfold register_collectors, golen. rewrite !length_app.
    destruct (Capabilities.VPA caps), (Capabilities.Karpenter caps), (Capabilities.MetricsServer caps),
      (gpu_wanted _ caps); by vm_compute.
  - intros i ->%Hmi. lia.
Qed.

(** C2 The process ends when it is told to, unless a collector failed to start:
    with a positive interval for the GPU polls, a process that runs can, from
    wherever it is and without the help of a crash, come to its end, with the
    memory monitor stopped and the health server closed, when every collector it
    has left to stop was launched; and no continuation at all ends when one was
    not.  The goroutine of a collector whose Start failed is never launched, and
    its Stop waits for it forever. *)
Theorem process_can_end now p sent evs s :
  interp srv [] (startup Getenv Version kube api ServerVersion url_err decodeAWS decodeAzure listen now) = (inr (inr p), sent) ->
  sys_run parse p json zstd decodeResponse decodeErrorResponse decodeErrorText evs s -> alive s ->
  (GPUPolling p.(Process.config).(Config.GPUMetricsInterval) ∈ p.(Process.registry) ->
     0 < p.(Process.config).(Config.GPUMetricsInterval)) ->
  let all_launched := forall c, c ∈ p.(Process.registry) -> left_to_stop s c -> launched s c in
  (all_launched ->
   exists evs' s', orderly parse p json zstd decodeResponse decodeErrorResponse decodeErrorText s evs' s' /\
     s'.(System.at_) = Ended /\ s'.(System.monitor).(MemoryPressureMonitor.stopCh) = true /\
     s'.(System.health).(HealthServer.listening) = false) /\
  (forall evs' s', sys_steps parse p json zstd decodeResponse decodeErrorResponse decodeErrorText s evs' s' ->
     s'.(System.at_) = Ended -> all_launched).
Proof.
  intros Hp Hrun Ha Hgpu. destruct (startup_fleet _ _ _ Hp) as (Hnd & Hne & _ & Hi & Hm & Hg). split.
  - intros Hl. edestruct (end_reachable parse p json zstd decodeResponse decodeErrorResponse decodeErrorText Hnd Hm)
      as (evs' & s' & Hs & E); [|done..|exact Hl|]; [intros i Hin; pose proof (Hg i Hin); subst i; by apply Hgpu|].
    exists evs', s'. split; [done|]. split; [done|].
    destruct (run_stages _ _ _ _ _ _ _ Hnd _ _ (run_steps _ _ _ _ _ _ _ _ _ _ _ Hrun (orderly_steps _ _ _ _ _ _ _ _ _ _ Hs))) as [_ Hst].
    unfold stage_sound in Hst. by rewrite E in Hst.
  - intros evs' s' Hs E c Hin Hl. by eapply ended_launched.
Qed.

(** C6 What a snapshot says of the collectors: it counts all of them, and names
    as stale exactly those whose goroutine has returned.  Such a collector was
    launched, and is either an informer that crashed four times, with the three
    pauses between, or one that polls, after a signal.  A collector whose Start
    failed is counted as healthy. *)
Theorem reported_health now p sent evs s ev s' w r :
  interp srv [] (startup Getenv Version kube api ServerVersion url_err decodeAWS decodeAzure listen now) = (inr (inr p), sent) ->
  sys_run parse p json zstd decodeResponse decodeErrorResponse decodeErrorText evs s ->
  sys_step parse p json zstd decodeResponse decodeErrorResponse decodeErrorText s ev s' ->
  snapshot_event ev = Some (w, r) ->
  exists snap, Agent.LatestSnapshot s'.(System.agent) = Some snap /\
    let h := snap.(ClusterSnapshot.Health) in
    h.(AgentHealth.InformersTotal) = golen p.(Process.registry) /\
    h.(AgentHealth.InformersHealthy) + golen h.(AgentHealth.StaleResources) = golen p.(Process.registry) /\
    h.(AgentHealth.StaleResources) =
      reg_name parse <$> filter (fun c => done_closed s c = true) p.(Process.registry) /\
    (forall c, done_closed s c = true -> launched s c /\
       match c with
       | InformerOf k => goes (moves_in k evs) = crashes
       | _ => s.(System.cancelled) = true
       end).
Proof.
  intros Hp Hrun Hstep Hev. destruct (startup_fleet _ _ _ Hp) as (Hnd & _ & Hlen & _).
  destruct (event_round _ _ _ _ _ _ _ _ _ _ _ _ _ Hrun Hstep Hev) as ([_ Hreg _] & _ & Hlast).
  set (a := round_agent ev _) in Hlast.
  assert ((exists e, s.(System.at_) = Waiting e) \/ s.(System.at_) = Looping) as Hat.
  { destruct Hstep as [_ Hmove]. inversion Hmove; subst; try discriminate Hev; eauto. }
  eexists. split; [exact Hlast|]. cbv zeta.
  pose proof (doSnapshot_health p.(Process.config) (Some p.(Process.pipeline)) p.(Process.cloudAccountID)
    json zstd decodeResponse decodeErrorResponse decodeErrorText r a) as Hh. cbv zeta in Hh.
  destruct (run_stages _ _ _ _ _ _ _ Hnd _ _ Hrun) as [Hst _].
  assert (forall c, stop_closed s c = false) as Hs
    by (unfold stops_in_order in Hst; by destruct Hat as [[e E]|E]; rewrite E in Hst).
  rewrite Hreg in Hh. pose proof (HealthReport_partition (registry_at parse true p.(Process.registry) s)) as Hpart.
  rewrite <- Hh in Hpart. cbn [Registry.collectors registry_at] in Hpart.
  assert (golen (collector_at parse (fun _ => None) (fun _ => None) s <$> p.(Process.registry)) = golen p.(Process.registry)) as Hl
    by (unfold golen; by rewrite length_fmap).
  rewrite Hl in Hpart. destruct (Hpart Hlen) as (Ht & Hsum & Hstale).
  split_and!; [done|congruence| |intros c Hd; by eapply stale_collector].
  rewrite Hstale. apply filter_names; intros c; [|done]. apply collector_unhealthy, Hs.
Qed.

(** C14 The intervals: a run can end in the panic of [time.NewTicker] exactly when
    the GPU metrics are polled with an interval that is not positive, which the
    validation of the configuration lets through; the interval of the snapshots
    and of the metrics API, which it checks, cannot. *)
Theorem ticker_panics_reachable now p sent :
  interp srv [] (startup Getenv Version kube api ServerVersion url_err decodeAWS decodeAzure listen now) = (inr (inr p), sent) ->
  (exists evs s, sys_run parse p json zstd decodeResponse decodeErrorResponse decodeErrorText evs s /\
     s.(System.at_) = Panicked) <->
  GPUPolling p.(Process.config).(Config.GPUMetricsInterval) ∈ p.(Process.registry) /\
  p.(Process.config).(Config.GPUMetricsInterval) <= 0.
Proof.
  intros Hp. destruct (startup_fleet _ _ _ Hp) as (_ & Hne & _ & Hi & Hm & Hg). split.
  - intros (evs & s & Hrun & E).
    destruct (panicked_ticker parse p json zstd decodeResponse decodeErrorResponse decodeErrorText _ _ Hrun E)
      as [(i & Hin & Hle)|[(i & Hin & Hle)|Hle]].
    + specialize (Hm i Hin). lia.
    + by destruct (Hg i Hin).
    + lia.
  - intros [Hin Hle]. by eapply panics.
Qed.
End Life.

(** ** Witnesses *)

Abbreviation ex_sys_run p := (sys_run (fun _ => None) p empty_json stored_zstd accept_all no_codec (fun _ => "")).
Abbreviation ex_sys_steps p := (sys_steps (fun _ => None) p empty_json stored_zstd accept_all no_codec (fun _ => "")).

(** The start of the collectors when that of the pods fails. *)
Definition pods_fail (c : registered) : option string :=
  if decide (c = InformerOf KPod) then Some "add event handler" else None.

Definition ex_start_error (p : Process.t) : option StartError :=
  (Registry.StartAll (collector_at (fun _ => None) pods_fail (fun _ => None) (boot p) <$> p.(Process.registry))
     (Registry.mk (collector_at (fun _ => None) pods_fail (fun _ => None) (boot p) <$> p.(Process.registry)) false)).1.

Definition ex_failed (p : Process.t) : System.t :=
  (start_collectors pods_fail p.(Process.registry) (boot p)) <| System.at_ :=
     match ex_start_error p with Some (AllFailed _) => Closing | _ => Waiting (ex_start_error p) end |>.

(** What the witnesses read off the process. *)
Lemma ex_process_facts :
  match ex_process with
  | (inr (inr p), _) =>
      match ex_start_error p with Some (PartialStartError ["pods"] 22) => True | _ => False end /\
      0 < p.(Process.config).(Config.GPUMetricsInterval)
  | _ => False
  end.
Proof. vm_compute. split; [exact I|reflexivity]. Qed.

Lemma ex_seen_launched p c : c ∈ p.(Process.registry) -> launched (ex_seen p) c.
Proof.
  intros Hin. assert (launched (start_collectors (fun _ => None) p.(Process.registry) (boot p)) c) as Hl
    by (by apply start_collectors_launched). by destruct c.
Qed.

Lemma ex_failed_run p : ex_sys_run p [StartAll pods_fail p.(Process.registry)] (ex_failed p).
Proof.
  eapply (sys_snoc _ _ _ _ _ _ _ []); [constructor|]. split; [done|].
  apply (sys_start_all (fun _ => None) p empty_json stored_zstd accept_all no_codec (fun _ => "") (boot p) pods_fail
    p.(Process.registry) (ex_start_error p)); [done|done| |done].
  intros c Hc. unfold pods_fail. by rewrite decide_False by (intros ->; by apply (Hc KPod)).
Qed.

Lemma ex_failed_at p :
  match ex_start_error p with Some (PartialStartError ["pods"] 22) => True | _ => False end ->
  (ex_failed p).(System.at_) = Waiting (ex_start_error p).
Proof. unfold ex_failed. by destruct (ex_start_error p) as [[n|failed total]|]. Qed.

(** The process ends after a start that does not fail, and not after one in
    which the pods fail. *)
Lemma process_can_end_witness :
  match ex_process with
  | (inr (inr p), _) =>
      (exists evs s', orderly (fun _ => None) p empty_json stored_zstd accept_all no_codec (fun _ => "") (ex_seen p) evs s' /\
         s'.(System.at_) = Ended) /\
      ~ (exists evs s', ex_sys_steps p (ex_failed p) evs s' /\ s'.(System.at_) = Ended)
  | _ => False
  end.
Proof.
  pose proof ex_process_facts as Hfacts. pose proof ex_process_up as Hup.
  destruct ex_process as [[e|[e|p]] sent] eqn:E; [destruct Hup..|]. destruct Hfacts as [Hstart Hi]. clear Hup.
  pose proof (ex_failed_at p Hstart) as Hat. pose proof (ex_run empty_json p sent E) as Hrun.
  pose proof (ex_pod_call_registered p sent E) as Hpod.
  pose proof (fun evs s => process_can_end ex_env "1.2.3" ex_kube ex_api (inr "v1.31.0") (fun _ => None) (fun _ => inl "")
    (fun _ => inl "") ex_listen (fun _ _ => inl "no route to host") (fun _ => None) empty_json stored_zstd accept_all no_codec
    (fun _ => "") 0 p sent evs s E) as H. clear E.
  split.
  - destruct (proj1 (H (ex_events p) (ex_seen p) Hrun ltac:(by split) (fun _ => Hi)))
      as (evs & s' & Hs & E' & _); [|by exists evs, s'].
    intros c Hin _. by apply ex_seen_launched.
  - intros (evs & s' & Hs & E').
    pose proof (proj2 (H _ (ex_failed p) (ex_failed_run p) ltac:(split; by rewrite Hat) (fun _ => Hi)) evs s' Hs E'
      (InformerOf KPod) Hpod) as Hl.
    apply Hl; [unfold left_to_stop; by rewrite Hat|].
    change (Informer.at_ ((start_collectors pods_fail p.(Process.registry) (boot p)).(System.informers) KPod) = InfIdle).
    rewrite (start_collectors_failed pods_fail p.(Process.registry) (boot p) KPod "add event handler"); reflexivity.
Defined.

(** The first snapshot after a start in which the pods fail. *)
Lemma reported_health_witness :
  match ex_process with
  | (inr (inr p), _) =>
      exists s' snap, ex_sys_steps p (ex_failed p)
          [RunStart (Some "timeout") "5m0s" 6 (Meanwhile.mk [] 0) (round_at (fun _ => None) p (ex_failed p) 200 10)] s' /\
        Agent.LatestSnapshot s'.(System.agent) = Some snap /\
        snap.(ClusterSnapshot.Health).(AgentHealth.InformersHealthy) = golen p.(Process.registry) /\
        snap.(ClusterSnapshot.Health).(AgentHealth.StaleResources) = []
  | _ => False
  end.
Proof.
  pose proof ex_process_facts as Hfacts. pose proof ex_process_up as Hup.
  destruct ex_process as [[e|[e|p]] sent] eqn:E; [destruct Hup..|]. destruct Hfacts as [Hstart _]. clear Hup.
  pose proof (fun evs s ev s' w r => reported_health ex_env "1.2.3" ex_kube ex_api (inr "v1.31.0") (fun _ => None) (fun _ => inl "")
    (fun _ => inl "") ex_listen (fun _ _ => inl "no route to host") (fun _ => None) empty_json stored_zstd accept_all no_codec
    (fun _ => "") 0 p sent evs s ev s' w r E) as H.
  pose proof (ex_interval p sent E) as Hi. clear E.
  pose proof (ex_failed_at p Hstart) as Hat.
  destruct (quiet_start (fun _ => None) p empty_json stored_zstd accept_all no_codec (fun _ => "") (ex_failed p)
    (ex_start_error p) "timeout" "5m0s" 6 200 10 Hat Hi) as (s' & Hstep & _).
  { intros n En. by rewrite En in Hstart. }
  destruct (H _ _ _ _ _ _ (ex_failed_run p) Hstep eq_refl) as (snap & Hlast & _ & Hsum & Hstale & Hdone). clear H.
  assert (filter (fun c => done_closed (ex_failed p) c = true) p.(Process.registry) = []) as Hnone.
  { destruct (filter _ _) as [|c l] eqn:El; [done|].
    assert (c ∈ filter (fun c => done_closed (ex_failed p) c = true) p.(Process.registry)) as [Hc _]%list_elem_of_filter
      by (rewrite El; by left).
    destruct (Hdone c Hc) as [_ Hx]. destruct c as [k|i|i]; [discriminate Hx|..];
      change ((start_collectors pods_fail p.(Process.registry) (boot p)).(System.cancelled) = true) in Hx;
      by rewrite (fleet_cancelled _ _ (start_collectors_frame _ _ _)) in Hx. }
  rewrite Hnone in Hstale. exists s', snap. split; [by apply steps_one|]. split; [exact Hlast|].
  split; [|exact Hstale]. rewrite Hstale in Hsum. etransitivity; [|exact Hsum]. symmetry. apply Z.add_0_r.
Defined.

(** A process whose GPU interval is 0. *)
Definition ex_zero_env (k : string) : string := if decide (k = "KUBEADAPT_GPU_METRICS_INTERVAL") then "0" else ex_env k.

Definition ex_zero_process : (string + (exit_reason + Process.t)) * list Request.t :=
  interp (fun _ _ => inl "no route to host") []
    (startup ex_zero_env "1.2.3" ex_kube ex_api (inr "v1.31.0") (fun _ => None) (fun _ => inl "") (fun _ => inl "")
       ex_listen 0).

Lemma ex_zero_process_facts :
  match ex_zero_process with
  | (inr (inr p), _) =>
      bool_decide (GPUPolling p.(Process.config).(Config.GPUMetricsInterval) ∈ p.(Process.registry)) = true /\
      p.(Process.config).(Config.GPUMetricsInterval) = 0
  | _ => False
  end.
Proof. vm_compute. by split. Qed.

Lemma ticker_panics_reachable_witness :
  match ex_zero_process with
  | (inr (inr p), _) => exists evs s, ex_sys_run p evs s /\ s.(System.at_) = Panicked
  | _ => False
  end.
Proof.
  pose proof ex_zero_process_facts as Hfacts.
  destruct ex_zero_process as [[e|[e|p]] sent] eqn:E; [destruct Hfacts..|]. destruct Hfacts as [Hin Hi].
  apply (ticker_panics_reachable ex_zero_env "1.2.3" ex_kube ex_api (inr "v1.31.0") (fun _ => None) (fun _ => inl "")
    (fun _ => inl "") ex_listen (fun _ _ => inl "no route to host") (fun _ => None) empty_json stored_zstd accept_all no_codec
    (fun _ => "") 0 p sent E).
  split; [exact (bool_decide_eq_true_1 _ Hin)|]. rewrite Hi. reflexivity.
Defined.
