(* ===== verification/ReportedErrors.v ===== *)
(** * The error codes of a running process

    The path of an error from its report to the health of a snapshot, along every
    run of the process: the two places of the program that report one
    (agent.go, the wait for the caches; client.go, a send that failed), the
    collector that keeps it and [populateHealth], which reads it. *)

From S2P Require Import Prelude GoNum GoStrings Config Model Store K8s Transport AgentErrors.
From S2P Require Import Pipeline SnapshotBuilder Registry StateMachine Agent Http CloudMetadata Discovery HealthServer Main System.
Open Scope string_scope.
Open Scope list_scope.
Open Scope Z_scope.

(** ** What a round does to the errors *)

(** A send leaves the errors or reports one of its own, and then it has failed. *)
Lemma Send_errors dec decE errText json zstd w ms now snap c ec :
  let '(_, (_, err), _, ec') := Send dec decE errText json zstd w ms now snap c ec in
  ec' = ec \/ is_Some err /\ exists ae, ae.(AgentError.Code_) = ErrBackendUnreachable /\ ec' = ErrorCollector.Report now ae ec.
Proof.
  unfold Send. destruct (encodeSnapshot json zstd snap) as [[compressed orig]|e]; [|by left].
  destruct ((0 <? _) && _); [by left|].
  destruct (send_loop _ _ _ _ _ _ _ _ _ _) as [evs [result [e|]]]; [right|by left].
  split; [by eexists|]. eexists. split; [|reflexivity]. reflexivity.
Qed.

Lemma Report_lookup now ae ec k e :
  (ErrorCollector.Report now ae ec).(ErrorCollector.entries) !! k = Some e ->
  ec.(ErrorCollector.entries) !! k = Some e \/ e = ErrorCollector.mk_entry ae now.
Proof.
  change (<[ErrorCollector.key ae.(AgentError.Code_) ae.(AgentError.Component) := ErrorCollector.mk_entry ae now]>
    ec.(ErrorCollector.entries) !! k = Some e -> ec.(ErrorCollector.entries) !! k = Some e \/ e = ErrorCollector.mk_entry ae now).
  rewrite lookup_insert. case_decide; [intros [= <-]; by right|by left].
Qed.

Section Rounds.
Context (cfg : Config.t) (pipeline : option Pipeline) (cloudAccountID : string).
Context (json : ClusterSnapshot.t -> string + string) (zstd : Zstd.t).
Context (decodeResponse : string -> option SnapshotResponse.t)
        (decodeErrorResponse : string -> option SnapshotErrorResponse.t)
        (decodeErrorText : string -> string).

Abbreviation round := (doSnapshot cfg pipeline cloudAccountID json zstd decodeResponse decodeErrorResponse decodeErrorText).

(** [populateHealth] reads the errors, and purges some. *)
Lemma populateHealth_errors r a snap k e :
  (populateHealth cfg r a snap).1.(Agent.errorCollector).(ErrorCollector.entries) !! k = Some e ->
  a.(Agent.errorCollector).(ErrorCollector.entries) !! k = Some e.
Proof.
  unfold populateHealth.
  destruct (Registry.DCGMTargetReport _) as [targets up].
  destruct (Registry.HealthReport _) as [[healthy total] stale].
  destruct (Registry.APICallReport _) as [apiT apiF]. rewrite GetActiveErrors_spec.
  pose proof (GetActiveErrorCodes_spec r.(Round.codesOrder) r.(Round.codesNow)
    (ErrorCollector.mk (purge r.(Round.errorsNow) a.(Agent.errorCollector).(ErrorCollector.entries)))) as H.
  destruct (ErrorCollector.GetActiveErrorCodes _ _ _) as [codes ec]. destruct H as (_ & _ & ->).
  change (purge r.(Round.codesNow) (purge r.(Round.errorsNow) a.(Agent.errorCollector).(ErrorCollector.entries)) !! k = Some e ->
    a.(Agent.errorCollector).(ErrorCollector.entries) !! k = Some e).
  intros He. rewrite purge_lookup in He. apply bind_Some in He as (e' & He & Hx). case_match; [done|]. injection Hx as ->.
  rewrite purge_lookup in He. apply bind_Some in He as (e' & He & Hx'). case_match; [done|]. by injection Hx' as ->.
Qed.

(** What a round adds to the errors is a failure of its own send, which it counts. *)
Lemma doSnapshot_errors r a k e :
  (round r a).2.(Agent.errorCollector).(ErrorCollector.entries) !! k = Some e ->
  a.(Agent.errorCollector).(ErrorCollector.entries) !! k = Some e \/
  e.(ErrorCollector.err).(AgentError.Code_) = ErrBackendUnreachable /\ e.(ErrorCollector.lastReport) = r.(Round.sendNow) /\
  (round r a).2.(Agent.snapshotsFailed) = uwrap64 (a.(Agent.snapshotsFailed) + 1).
Proof.
  pose proof (doSnapshot_spec cfg pipeline cloudAccountID json zstd decodeResponse decodeErrorResponse decodeErrorText r a) as H.
  destruct (round r a) as [[evs snap] a']. cbn [snd]. destruct H as (a1 & err & Hp & Herr & Hec & _ & _ & _ & _ & Hcase).
  assert (forall k e, a1.(Agent.errorCollector).(ErrorCollector.entries) !! k = Some e ->
    a.(Agent.errorCollector).(ErrorCollector.entries) !! k = Some e) as Hpop.
  { intros k' e' He. apply (f_equal fst) in Hp. cbn [fst] in Hp. subst a1. exact (populateHealth_errors _ _ _ _ _ He). }
  rewrite Hec. clear Hec.
  pose proof (Send_errors decodeResponse decodeErrorResponse decodeErrorText json zstd r.(Round.world) r.(Round.encodeMs)
    r.(Round.sendNow) snap a.(Agent.transport) a1.(Agent.errorCollector)) as Hs.
  destruct (Send decodeResponse decodeErrorResponse decodeErrorText json zstd r.(Round.world) r.(Round.encodeMs)
    r.(Round.sendNow) snap a.(Agent.transport) a1.(Agent.errorCollector)) as [[[evs' [resp err']] client] ec].
  cbn [fst snd] in *. subst err'. destruct Hs as [->|[[x ->] (ae & Hc & ->)]]; [left; by apply Hpop|].
  intros [He| ->]%Report_lookup; [left; by apply Hpop|right]. by destruct Hcase as (_ & Hf & _).
Qed.
End Rounds.

(** ** Along a run *)

Section Runs.
Context (parse : string -> option Quantity.t) (p : Process.t).
Context (json : ClusterSnapshot.t -> string + string) (zstd : Zstd.t).
Context (decodeResponse : string -> option SnapshotResponse.t)
        (decodeErrorResponse : string -> option SnapshotErrorResponse.t)
        (decodeErrorText : string -> string).

Abbreviation prun := (sys_run parse p json zstd decodeResponse decodeErrorResponse decodeErrorText).
Abbreviation pstep := (sys_step parse p json zstd decodeResponse decodeErrorResponse decodeErrorText).

(** The wait for the caches failed at this time of the run. *)
Definition sync_timed_out (evs : list sys_event) (t : Time) : Prop :=
  exists e timeoutText w r, RunStart (Some e) timeoutText t w r ∈ evs.

(** A send of the run failed, at this time. *)
Definition send_failed (evs : list sys_event) (t : Time) : Prop :=
  exists before ev after s s' w r, evs = before ++ ev :: after /\ prun before s /\ pstep s ev s' /\
    snapshot_event ev = Some (w, r) /\ r.(Round.sendNow) = t /\
    s'.(System.agent).(Agent.snapshotsFailed) = uwrap64 (s.(System.agent).(Agent.snapshotsFailed) + 1).

(** Where an entry of the collector comes from. *)
Definition explained (evs : list sys_event) (e : ErrorCollector.entry) : Prop :=
  e.(ErrorCollector.err).(AgentError.Code_) = ErrInformerSyncTimeout /\ sync_timed_out evs e.(ErrorCollector.lastReport) \/
  e.(ErrorCollector.err).(AgentError.Code_) = ErrBackendUnreachable /\ send_failed evs e.(ErrorCollector.lastReport).

Lemma sync_timed_out_snoc evs ev t : sync_timed_out evs t -> sync_timed_out (evs ++ [ev]) t.
Proof. intros (x & txt & w & r & Hin). exists x, txt, w, r. rewrite elem_of_app. by left. Qed.

Lemma send_failed_snoc evs ev t : send_failed evs t -> send_failed (evs ++ [ev]) t.
Proof.
  intros (before & ev0 & after & s & s' & w & r & -> & H).
  exists before, ev0, (after ++ [ev]), s, s', w, r. split; [|done]. by rewrite <- (assoc_L (++)).
Qed.

Lemma explained_snoc evs ev e : explained evs e -> explained (evs ++ [ev]) e.
Proof.
  intros [[Hc H]|[Hc H]]; [left|right]; (split; [done|]); [by apply sync_timed_out_snoc|by apply send_failed_snoc].
Qed.

(** The errors a round begins with: those of the sends before it, and of the wait. *)
Lemma round_agent_errors evs ev s k e :
  (forall k e, s.(System.agent).(Agent.errorCollector).(ErrorCollector.entries) !! k = Some e -> explained evs e) ->
  (round_agent ev s.(System.agent)).(Agent.errorCollector).(ErrorCollector.entries) !! k = Some e ->
  e.(ErrorCollector.err).(AgentError.Code_) = ErrInformerSyncTimeout /\ sync_timed_out (evs ++ [ev]) e.(ErrorCollector.lastReport) \/
  e.(ErrorCollector.err).(AgentError.Code_) = ErrBackendUnreachable /\ send_failed evs e.(ErrorCollector.lastReport).
Proof.
  intros IH He.
  assert (explained evs e -> e.(ErrorCollector.err).(AgentError.Code_) = ErrInformerSyncTimeout /\
      sync_timed_out (evs ++ [ev]) e.(ErrorCollector.lastReport) \/
    e.(ErrorCollector.err).(AgentError.Code_) = ErrBackendUnreachable /\ send_failed evs e.(ErrorCollector.lastReport)) as Hold.
  { intros [[Hc Ht]|Hs]; [left; split; [done|by apply sync_timed_out_snoc]|by right]. }
  destruct ev as [| | | | | |[x|] timeoutText now w r| | | | | | | |]; try (by apply Hold, (IH k)).
  apply Report_lookup in He as [He| ->]; [by apply Hold, (IH k)|].
  left. split; [done|]. exists x, timeoutText, w, r. apply elem_of_app. right. by left.
Qed.

Lemma run_errors now evs s k e :
  p.(Process.agent) = Agent.NewAgent p.(Process.config) now -> prun evs s ->
  s.(System.agent).(Agent.errorCollector).(ErrorCollector.entries) !! k = Some e -> explained evs e.
Proof.
  intros Hp Hrun. revert k e. induction Hrun as [|evs s ev s' Hrun IH Hstep]; intros k e.
  { unfold boot. cbn [System.agent]. rewrite Hp. intros He. destruct (lookup_empty_Some (M := gmap string) k e He). }
  destruct (snapshot_event ev) as [[w r]|] eqn:Hev.
  - destruct (event_round _ _ _ _ _ _ _ _ _ _ _ _ _ Hrun Hstep Hev) as (_ & Ha & _).
    rewrite Ha. intros [He|(Hc & Ht & Hf)]%doSnapshot_errors.
    { destruct (round_agent_errors _ _ _ _ _ IH He) as [H|[Hc H]]; [by left|right]. split; [done|by apply send_failed_snoc]. }
    right. split; [done|]. exists evs, ev, [], s, s', w, r. split_and!; try done; rewrite Ha, Hf. by destruct ev as [| | | | | |[]| | | | | | | |].
  - rewrite (agent_kept _ _ _ _ _ _ _ _ _ _ Hstep Hev). intros He. by eapply explained_snoc, IH.
Qed.
End Runs.

(** ** Properties *)

Section Whole.
Context (Getenv : string -> string) (Version : string).
Context {RestConfig : Type} (kube : Kube.t RestConfig).
Context (api : API.t) (ServerVersion : string + string).
Context (url_err : string -> option string).
Context (decodeAWS : HttpResponse.t -> string + AWSDoc.t) (decodeAzure : HttpResponse.t -> string + AzureDoc.t).
Context (listen : string -> string + string).
Context (srv : server).
Context (parse : string -> option Quantity.t).
Context (json : ClusterSnapshot.t -> string + string) (zstd : Zstd.t).
Context (decodeResponse : string -> option SnapshotResponse.t)
        (decodeErrorResponse : string -> option SnapshotErrorResponse.t)
        (decodeErrorText : string -> string).

(** C7 The error codes the backend sees: a code in a snapshot is that of a wait for
    the caches that failed, or that of an earlier send that failed, at most five
    minutes before the snapshot reads the errors; and a wait that fails is in
    the first snapshot when that reads them within the five minutes.  None of
    the ten other codes the program declares is ever reported. *)
Theorem reported_errors now p sent evs s ev s' w r :
  interp srv [] (startup Getenv Version kube api ServerVersion url_err decodeAWS decodeAzure listen now) = (inr (inr p), sent) ->
  sys_run parse p json zstd decodeResponse decodeErrorResponse decodeErrorText evs s ->
  sys_step parse p json zstd decodeResponse decodeErrorResponse decodeErrorText s ev s' ->
  snapshot_event ev = Some (w, r) ->
  exists snap, Agent.LatestSnapshot s'.(System.agent) = Some snap /\
    let codes := snap.(ClusterSnapshot.Health).(AgentHealth.ErrorCodes) in
    let fresh t := r.(Round.errorsNow) - t <= defaultTTL /\ r.(Round.codesNow) - t <= defaultTTL in
    (forall code, code ∈ codes -> exists t, fresh t /\
       (code = ErrInformerSyncTimeout /\ sync_timed_out (evs ++ [ev]) t \/
        code = ErrBackendUnreachable /\
          send_failed parse p json zstd decodeResponse decodeErrorResponse decodeErrorText evs t)) /\
    (forall e timeoutText t, ev = RunStart (Some e) timeoutText t w r -> fresh t -> ErrInformerSyncTimeout ∈ codes) /\
    (forall code, code ∈ Codes -> code ∉ [ErrInformerSyncTimeout; ErrBackendUnreachable] -> code ∉ codes).
Proof.
  intros (caps & _ & _ & _ & _ & _ & Hagent)%startup_up Hrun Hstep Hev.
  destruct (event_round _ _ _ _ _ _ _ _ _ _ _ _ _ Hrun Hstep Hev) as (_ & _ & Hlast).
  set (a := round_agent ev s.(System.agent)) in Hlast. eexists. split; [exact Hlast|]. cbv zeta.
  pose proof (doSnapshot_spec p.(Process.config) (Some p.(Process.pipeline)) p.(Process.cloudAccountID)
    json zstd decodeResponse decodeErrorResponse decodeErrorText r a) as Hs.
  destruct (doSnapshot _ _ _ _ _ _ _ _ r a) as [[evs' snap] a']. cbn [fst snd]. destruct Hs as (a1 & err & Hp & _).
  destruct (populateHealth_spec _ _ _ _ _ _ Hp) as (_ & _ & _ & _ & _ & _ & _ & _ & Hcodes).
  change (Agent.errorCollector (a <| Agent.lastBuildMs := _ |>)) with (Agent.errorCollector a) in Hcodes.
  assert (forall code, code ∈ snap.(ClusterSnapshot.Health).(AgentHealth.ErrorCodes) -> exists t,
    (r.(Round.errorsNow) - t <= defaultTTL /\ r.(Round.codesNow) - t <= defaultTTL) /\
    (code = ErrInformerSyncTimeout /\ sync_timed_out (evs ++ [ev]) t \/
     code = ErrBackendUnreachable /\
       send_failed parse p json zstd decodeResponse decodeErrorResponse decodeErrorText evs t)) as Hin.
  { intros code (k & e & He & Hx & Hx' & <-)%Hcodes. exists e.(ErrorCollector.lastReport).
    split; [split; by apply expired_iff|]. eapply round_agent_errors; [|exact He].
    intros k' e'. by eapply run_errors. }
  split_and!; [exact Hin| |].
  - intros e timeoutText t -> [Ht Ht']. apply Hcodes. eexists _, _.
    split; [apply lookup_insert_eq|]. by split_and!; [apply expired_iff..|].
  - intros code _ Hno (t & _ & [[-> _]|[-> _]])%Hin; apply Hno; set_solver.
Qed.
End Whole.

(** ** Witness *)

Lemma reported_errors_witness :
  match ex_process with
  | (inr (inr p), _) =>
      exists s' snap, sys_run (fun _ => None) p empty_json stored_zstd accept_all no_codec (fun _ => "")
          (ex_events p ++ [RunStart (Some "timeout") "5m0s" 6 (Meanwhile.mk [] 0)
             (round_at (fun _ => None) p (ex_seen p) 200 10)]) s' /\
        Agent.LatestSnapshot s'.(System.agent) = Some snap /\
        ErrInformerSyncTimeout ∈ snap.(ClusterSnapshot.Health).(AgentHealth.ErrorCodes) /\
        ErrPartialData ∉ snap.(ClusterSnapshot.Health).(AgentHealth.ErrorCodes)
  | _ => False
  end.
Proof.
  pose proof ex_process_up as Hup. destruct ex_process as [[e|[e|p]] sent] eqn:E; [destruct Hup..|].
  pose proof (ex_run empty_json p sent E) as Hrun.
  destruct (quiet_start (fun _ => None) p empty_json stored_zstd accept_all no_codec (fun _ => "") (ex_seen p) None
    "timeout" "5m0s" 6 200 10 eq_refl (ex_interval p sent E)) as (s' & Hstep & _); [clear E; done|].
  destruct (reported_errors ex_env "1.2.3" ex_kube ex_api (inr "v1.31.0") (fun _ => None) (fun _ => inl "") (fun _ => inl "")
    ex_listen (fun _ _ => inl "no route to host") (fun _ => None) empty_json stored_zstd accept_all no_codec
    (fun _ => "") 0 p sent _ _ _ _ _ _ E Hrun Hstep eq_refl) as (snap & Hlast & _ & Hsync & Hno). clear E.
  exists s', snap. split; [exact (sys_snoc _ _ _ _ _ _ _ _ _ _ _ Hrun Hstep)|]. split; [exact Hlast|]. split.
  - apply (Hsync "timeout" "5m0s" 6 eq_refl). by vm_compute.
  - apply Hno; vm_compute; set_solver.
Defined.
