(* ===== verification/Metrics.v ===== *)
(** * The agent's own metrics: internal/observability/metrics.go and its users

    The fourteen metrics as they are described to Prometheus, and every call the
    agent makes on them: by the handlers of the informers, a build, a send and a
    poll of the metrics API.  Prometheus itself is not modelled: it is told what
    to register and is called, and two of its documented rules are stated, that
    the registration of valid descriptors with distinct names succeeds, and that
    a call has to fit its descriptor. *)

From S2P Require Import Prelude GoNum GoStrings Config Model Store K8s Transport AgentErrors.
From S2P Require Import ConvertHelpers ConvertPod Ownership Aggregation Targets Pipeline SnapshotBuilder PodEquiv.
From S2P Require Import Registry Recovery Polling Pollers Dcgm Collectors Informers StateMachine Monitor Agent.
From S2P Require Import Http CloudMetadata Discovery HealthServer Main Cluster System.
Open Scope string_scope.
Open Scope list_scope.
Open Scope Z_scope.

(** ** The descriptors *)

Inductive metric_kind := CounterMetric | GaugeMetric | HistogramMetric.

#[export] Instance metric_kind_eq_dec : EqDecision metric_kind.
Proof. solve_decision. Defined.

(** The options a metric is made with. *)
Module Opts.
Record t := mk {
  Name : string;
  Help : string;
  Kind : metric_kind;
  Labels : list string;
  Buckets : list float64 }.
End Opts.

Module Metrics.
(** The fields of [Metrics]; [LastMetricsCollectMs], which is not a metric of
    Prometheus, is in Pollers.v. *)
Inductive t :=
  | SnapshotBuildDuration | SnapshotSendDuration | SnapshotSizeBytes | SnapshotSendTotal | OrphanPodNodeRefs
  | InformerEventsTotal | StoreItems | EnricherDuration | TransportRetries | TransportBufferBytes | AgentState
  | MetricsAPIDuration | CompressionRatio | CompressionDuration.

#[export] Instance eq_dec : EqDecision t.
Proof. solve_decision. Defined.

(** The order of the registration. *)
Definition all : list t := [
  SnapshotBuildDuration; SnapshotSendDuration; SnapshotSizeBytes; SnapshotSendTotal; OrphanPodNodeRefs;
  InformerEventsTotal; StoreItems; EnricherDuration; TransportRetries; TransportBufferBytes; AgentState;
  MetricsAPIDuration; CompressionRatio; CompressionDuration].

(** [DefBuckets] and [ExponentialBuckets] are Prometheus's. *)
Section NewMetrics.
Context (DefBuckets : list float64) (ExponentialBuckets : float64 -> float64 -> int -> list float64).

Definition opts (m : t) : Opts.t :=
  let sizeBuckets := ExponentialBuckets (f64_of_Z 1024) (f64_of_Z 4) 10 in
  match m with
  | SnapshotBuildDuration => Opts.mk "kubeadapt_agent_snapshot_build_duration_seconds"
      "Duration of snapshot build operations in seconds." HistogramMetric [] DefBuckets
  | SnapshotSendDuration => Opts.mk "kubeadapt_agent_snapshot_send_duration_seconds"
      "Duration of snapshot send operations in seconds." HistogramMetric [] DefBuckets
  | SnapshotSizeBytes => Opts.mk "kubeadapt_agent_snapshot_size_bytes"
      "Size of snapshots in bytes." HistogramMetric ["type"] sizeBuckets
  | SnapshotSendTotal => Opts.mk "kubeadapt_agent_snapshot_send_total"
      "Total number of snapshot send attempts." CounterMetric ["status"] []
  | OrphanPodNodeRefs => Opts.mk "kubeadapt_agent_orphan_pod_node_refs_total"
      "Total pod-to-node references where the node was missing from the snapshot after backfill." CounterMetric [] []
  | InformerEventsTotal => Opts.mk "kubeadapt_agent_informer_events_total"
      "Total number of informer events received." CounterMetric ["resource"; "event"] []
  | StoreItems => Opts.mk "kubeadapt_agent_store_items"
      "Current number of items in the store." GaugeMetric ["resource"] []
  | EnricherDuration => Opts.mk "kubeadapt_agent_enricher_duration_seconds"
      "Duration of enricher operations in seconds." HistogramMetric ["enricher"] DefBuckets
  | TransportRetries => Opts.mk "kubeadapt_agent_transport_retries_total"
      "Total number of transport retry attempts." CounterMetric [] []
  | TransportBufferBytes => Opts.mk "kubeadapt_agent_transport_buffer_bytes"
      "Current size of the transport buffer in bytes." GaugeMetric [] []
  | AgentState => Opts.mk "kubeadapt_agent_state"
      "Current agent state (1 = active, 0 = inactive)." GaugeMetric ["state"] []
  | MetricsAPIDuration => Opts.mk "kubeadapt_agent_metrics_api_duration_seconds"
      "Duration of metrics API calls in seconds." HistogramMetric [] DefBuckets
  | CompressionRatio => Opts.mk "kubeadapt_agent_compression_ratio"
      "Current compression ratio (compressed/original)." GaugeMetric [] []
  | CompressionDuration => Opts.mk "kubeadapt_agent_compression_duration_seconds"
      "Duration of compression operations in seconds." HistogramMetric [] DefBuckets
  end.

(** [MustRegister] is Prometheus's: the panic, if any. *)
Definition NewMetrics (MustRegister : list Opts.t -> option string) : option string :=
  MustRegister (opts <$> all).
End NewMetrics.
End Metrics.

Export (hints) Metrics.

(** What Prometheus calls a valid name, and a valid label: letters, digits and
    underscores, not first a digit, and for a label neither the prefix of two
    underscores nor the label of the buckets. *)
Definition name_char (c : ascii) : bool :=
  in_range 97 122 c || in_range 65 90 c || is_digit c || bool_decide (c = "_"%char).

Definition valid_name (s : string) : bool :=
  match String.list_ascii_of_string s with
  | [] => false
  | c :: cs => negb (is_digit c) && forallb name_char (c :: cs)
  end.

Definition valid_opts (o : Opts.t) : bool :=
  valid_name o.(Opts.Name) &&
  forallb (fun l => valid_name l && negb (HasPrefix l "__") && negb (bool_decide (l = "le"))) o.(Opts.Labels) &&
  bool_decide (NoDup o.(Opts.Labels)).

(** ** The calls *)

Inductive metric_op := Inc | Add (v : float64) | SetTo (v : float64) | Observe (v : float64).

(** [m.WithLabelValues(values...).op], or [m.op] of a metric without labels. *)
Module MetricCall.
Record t := mk { target : Metrics.t; values : list string; op : metric_op }.
End MetricCall.

(** What a metric of a kind can be called with; a counter cannot decrease. *)
Definition op_fits (k : metric_kind) (op : metric_op) : bool :=
  match k, op with
  | CounterMetric, Inc => true
  | CounterMetric, Add v => negb (SFltb v f64_zero)
  | GaugeMetric, SetTo _ | GaugeMetric, Inc | GaugeMetric, Add _ => true
  | HistogramMetric, Observe _ => true
  | _, _ => false
  end.

Definition fits (o : Opts.t) (c : MetricCall.t) : bool :=
  op_fits o.(Opts.Kind) c.(MetricCall.op) && (golen c.(MetricCall.values) =? golen o.(Opts.Labels)).

(** [Duration.Seconds]. *)
Definition seconds (d : Duration) : float64 :=
  f64_add (f64_of_Z (d ÷ Second)) (f64_div (f64_of_Z (Z.rem d Second)) (f64_of_Z Second)).

(** The label of the event a handler counts; a handler that is given something
    else than an object counts nothing. *)
Definition event_label {K} (ev : informer_event K) : option string :=
  match ev with
  | OnAdd (Typed _) => Some "add"
  | OnUpdate _ (Typed _) => Some "update"
  | OnDelete (Typed _) | OnDelete (DeletedFinalStateUnknown (Some _)) => Some "delete"
  | _ => None
  end.

Section Emitted.
Context (parse : string -> option Quantity.t).

(** A handler, called on these stores. *)
Definition handler_metrics (c : informer_call) (s : Shared.t) : list MetricCall.t :=
  match c with
  | Call k now ev =>
      match event_label ev with
      | Some e =>
          [MetricCall.mk Metrics.InformerEventsTotal [label_of parse k; e] Inc;
           MetricCall.mk Metrics.StoreItems [label_of parse k]
             (SetTo (f64_of_Z (TypedStore.Len (store_of parse k (call parse c s).(Shared.store)))))]
      | None => []
      end
  end.

(** The calls of handlers, one after the other. *)
Fixpoint handlers_metrics (cs : list informer_call) (s : Shared.t) : list MetricCall.t :=
  match cs with
  | [] => []
  | c :: cs => handler_metrics c s ++ handlers_metrics cs (call parse c s)
  end.
End Emitted.

(** How long what is timed took. *)
Module Timings.
Record t := mk { enrich : string -> Duration; build : Duration; send : Duration }.
End Timings.

(** The enrichers a pipeline times. *)
Definition timed (p : Pipeline) : list string := if p.(has_metrics) then Name <$> p.(enrichers) else [].

(** A build that leaves these names orphan. *)
Definition build_metrics (p : Pipeline) (orphans : list string) (d : Timings.t) : list MetricCall.t :=
  (if 0 <? golen orphans then [MetricCall.mk Metrics.OrphanPodNodeRefs [] (Add (f64_of_Z (golen orphans)))] else []) ++
  ((fun n => MetricCall.mk Metrics.EnricherDuration [n] (Observe (seconds (d.(Timings.enrich) n)))) <$> timed p) ++
  [MetricCall.mk Metrics.SnapshotBuildDuration [] (Observe (seconds d.(Timings.build)))].

(** A poll of the metrics API. *)
Definition poll_metrics (a : MetricsCollector.answers) : list MetricCall.t :=
  [MetricCall.mk Metrics.MetricsAPIDuration []
     (Observe (seconds (time_sub a.(MetricsCollector.finish) a.(MetricsCollector.start))))].

Section Sends.
Context (decodeResponse : string -> option SnapshotResponse.t)
        (decodeErrorResponse : string -> option SnapshotErrorResponse.t)
        (decodeErrorText : string -> string).
Context (json : ClusterSnapshot.t -> string + string) (zstd : Zstd.t).

Abbreviation psend := (send_loop decodeResponse decodeErrorResponse decodeErrorText).

Definition retry_metrics (evs : list event) : list MetricCall.t :=
  evs ≫= fun ev => match ev with EvRetry => [MetricCall.mk Metrics.TransportRetries [] Inc] | _ => [] end.

(** A send: nothing is recorded when the snapshot is refused before the first
    attempt. *)
Definition Send_metrics (w : World.t) (elapsed : Duration) (snapshot : ClusterSnapshot.t) (c : Client.t) : list MetricCall.t :=
  match encodeSnapshot json zstd snapshot with
  | inr _ => []
  | inl (compressed, _) =>
      let compressedBytes := strlen compressed in
      let cap := c.(Client.maxCompressedBodyBytes) in
      if (0 <? cap) && (cap <? compressedBytes) then [] else
      let '(evs, (_, lastErr)) :=
        psend c w snapshot.(ClusterSnapshot.SnapshotID) compressed (Z.to_nat (maxAttempts c.(Client.config))) 0 None in
      retry_metrics evs ++
      [MetricCall.mk Metrics.SnapshotSendDuration [] (Observe (seconds elapsed))] ++
      (if 0 <? compressedBytes
       then [MetricCall.mk Metrics.SnapshotSizeBytes ["compressed"] (Observe (f64_of_Z compressedBytes))] else []) ++
      [MetricCall.mk Metrics.SnapshotSendTotal [match lastErr with Some _ => "error" | None => "success" end] Inc]
  end.
End Sends.

(** ** The calls of the process *)

(** The agent a tick takes a snapshot with, if it takes one. *)
Definition snapshot_agent (now : Time) (a : Agent.t) : option Agent.t :=
  match StateMachine.State a.(Agent.stateMachine) with
  | StateRunning => Some a
  | StateBackoff =>
      if StateMachine.IsBackoffExpired now a.(Agent.stateMachine)
      then Some (a <| Agent.stateMachine :=
             StateMachine.TransitionTo StateRunning "backoff expired" a.(Agent.stateMachine) |>)
      else None
  | _ => None
  end.

Section Process.
Context (parse : string -> option Quantity.t) (p : Process.t).
Context (json : ClusterSnapshot.t -> string + string) (zstd : Zstd.t).
Context (decodeResponse : string -> option SnapshotResponse.t)
        (decodeErrorResponse : string -> option SnapshotErrorResponse.t)
        (decodeErrorText : string -> string).

Abbreviation pbuild := (Build p.(Process.config) (Some p.(Process.pipeline)) p.(Process.cloudAccountID)).
Abbreviation pround := (doSnapshot p.(Process.config) (Some p.(Process.pipeline)) p.(Process.cloudAccountID) json zstd
  decodeResponse decodeErrorResponse decodeErrorText).
Abbreviation pstep := (sys_step parse p json zstd decodeResponse decodeErrorResponse decodeErrorText).

(** The handlers called while a build reads. *)
Definition arriving_metrics (w : Meanwhile.t) (r : Reads.t) (sh : Shared.t) : list MetricCall.t :=
  let cs := w.(Meanwhile.arriving) in
  let n := w.(Meanwhile.pods_read) in
  let read := calls parse (take n cs) sh in
  handlers_metrics parse (take n cs) sh ++
  handlers_metrics parse (drop n cs)
    (Shared.mk (read.(Shared.store) <| Store.Pods := (pbuild r).(BuildResult.store).(Store.Pods) |>) read.(Shared.metrics)).

(** A round of the agent: its build, then its send. *)
Definition round_metrics (d : Timings.t) (r : Round.t) (a : Agent.t) : list MetricCall.t :=
  build_metrics p.(Process.pipeline) (pbuild r.(Round.reads)).(BuildResult.orphans) d ++
  Send_metrics decodeResponse decodeErrorResponse decodeErrorText json zstd r.(Round.world) d.(Timings.send)
    (pround r a).1.2 a.(Agent.transport).

(** The calls of an event; those of goroutines side by side come in some order. *)
Definition emitted (d : Timings.t) (s : System.t) (ev : sys_event) : list MetricCall.t :=
  match ev with
  | InformerCall c => handler_metrics parse c s.(System.shared)
  | MetricsPoll (DoPoll a) => poll_metrics a
  | LogStoreCounts w r =>
      arriving_metrics w r s.(System.shared) ++ build_metrics p.(Process.pipeline) (pbuild r).(BuildResult.orphans) d
  | RunStart syncErr timeoutText now w r =>
      arriving_metrics w r.(Round.reads) s.(System.shared) ++
      round_metrics d r (synced_agent syncErr timeoutText now
        (s.(System.agent) <| Agent.stateMachine := StateMachine.SetCancelFunc s.(System.agent).(Agent.stateMachine) |>))
  | AgentTick now w r =>
      arriving_metrics w r.(Round.reads) s.(System.shared) ++
      match snapshot_agent now s.(System.agent) with
      | Some a => round_metrics d r a
      | None => []
      end
  | _ => []
  end.

(** The snapshot an event leaves as the latest, if it sends one. *)
Definition taken (ev : sys_event) (s' : System.t) : list ClusterSnapshot.t :=
  match snapshot_event ev with
  | Some _ => from_option (fun snap => [snap]) [] (Agent.LatestSnapshot s'.(System.agent))
  | None => []
  end.

(** A run from the boot, the calls it makes and the snapshots it sends or tries to. *)
Inductive metered : list sys_event -> list MetricCall.t -> list ClusterSnapshot.t -> System.t -> Prop :=
  | met_boot : metered [] [] [] (boot p)
  | met_snoc evs cs snaps s ev s' d :
      metered evs cs snaps s -> pstep s ev s' ->
      metered (evs ++ [ev]) (cs ++ emitted d s ev) (snaps ++ taken ev s') s'.

(** The series a process can write: with the informers it has registered. *)
Definition series : list (Metrics.t * list string) :=
  [(Metrics.SnapshotBuildDuration, []); (Metrics.SnapshotSendDuration, []); (Metrics.SnapshotSizeBytes, ["compressed"]);
   (Metrics.SnapshotSendTotal, ["success"]); (Metrics.SnapshotSendTotal, ["error"]); (Metrics.OrphanPodNodeRefs, []);
   (Metrics.TransportRetries, []); (Metrics.MetricsAPIDuration, [])] ++
  ((fun n => (Metrics.EnricherDuration, [n])) <$> timed p.(Process.pipeline)) ++
  (p.(Process.registry) ≫= fun c =>
     match c with
     | InformerOf k =>
         (Metrics.StoreItems, [label_of parse k]) ::
         ((fun e => (Metrics.InformerEventsTotal, [label_of parse k; e])) <$> ["add"; "update"; "delete"])
     | _ => []
     end).
End Process.

(** How often a counter is incremented. *)
Definition counts (m : Metrics.t) (values : list string) (c : MetricCall.t) : bool :=
  bool_decide (c.(MetricCall.target) = m) && bool_decide (c.(MetricCall.values) = values) &&
  match c.(MetricCall.op) with Inc => true | _ => false end.

Definition counted (m : Metrics.t) (values : list string) (cs : list MetricCall.t) : nat :=
  length (filter (fun c => counts m values c = true) cs).

(** Whether a snapshot is refused before the first attempt, by a client with
    this limit. *)
Definition refused (json : ClusterSnapshot.t -> string + string) (zstd : Zstd.t) (cap : int64) (snap : ClusterSnapshot.t) : bool :=
  match encodeSnapshot json zstd snap with
  | inr _ => true
  | inl (compressed, _) => (0 <? cap) && (cap <? strlen compressed)
  end.

(** The informer calls that tell of an object of a kind added, updated or deleted:
    a deletion can come as a tombstone that holds the object. *)
Definition told (k : kind) (what : string) (c : informer_call) : bool :=
  match c with
  | Call k' _ ev =>
      bool_decide (k' = k) &&
      match ev with
      | OnAdd (Typed _) => bool_decide (what = "add")
      | OnUpdate _ (Typed _) => bool_decide (what = "update")
      | OnDelete (Typed _) => bool_decide (what = "delete")
      | OnDelete (DeletedFinalStateUnknown (Some _)) => bool_decide (what = "delete")
      | _ => false
      end
  end.

(** ** Lemmas *)

Lemma counted_app m vs cs cs' : counted m vs (cs ++ cs') = (counted m vs cs + counted m vs cs')%nat.
Proof. unfold counted. by rewrite filter_app, length_app. Qed.

Lemma counted_other m vs cs : Forall (fun c => c.(MetricCall.target) <> m) cs -> counted m vs cs = 0%nat.
Proof.
  intros H. unfold counted. induction H as [|c cs Hc _ IH]; [done|]. rewrite filter_cons, decide_False; [done|].
  unfold counts. by rewrite bool_decide_eq_false_2.
Qed.

(** The enrichers a run of the pipeline times. *)
Lemma Run_timed pl s : (Run pl s).(Pipeline.observed) = timed pl.
Proof. unfold Run, timed. by destruct (Run_foldl pl.(has_metrics) pl.(enrichers) (mkRunResult s [] [])) as [_ ->]. Qed.

Lemma handlers_targets parse cs s :
  Forall (fun c => c.(MetricCall.target) = Metrics.InformerEventsTotal \/ c.(MetricCall.target) = Metrics.StoreItems)
    (handlers_metrics parse cs s).
Proof.
  revert s. induction cs as [|[k now ev] cs IH]; intros s; [constructor|].
  apply Forall_app. split; [|apply IH]. cbn [handler_metrics].
  destruct (event_label ev); [|constructor]. constructor; [by left|]. constructor; [by right|constructor].
Qed.

Section Fits.
Context (DefBuckets : list float64) (ExponentialBuckets : float64 -> float64 -> int -> list float64).
Context (parse : string -> option Quantity.t) (p : Process.t).
Context (json : ClusterSnapshot.t -> string + string) (zstd : Zstd.t).
Context (decodeResponse : string -> option SnapshotResponse.t)
        (decodeErrorResponse : string -> option SnapshotErrorResponse.t)
        (decodeErrorText : string -> string).

(** A call that fits its descriptor and writes one of the series. *)
Definition good_call (c : MetricCall.t) : Prop :=
  fits (Metrics.opts DefBuckets ExponentialBuckets c.(MetricCall.target)) c = true /\
  (c.(MetricCall.target), c.(MetricCall.values)) ∈ series parse p.

Lemma good_plain m vs op :
  fits (Metrics.opts DefBuckets ExponentialBuckets m) (MetricCall.mk m vs op) = true ->
  (m, vs) ∈ take 8 (series parse p) -> good_call (MetricCall.mk m vs op).
Proof. intros Hf Hin. split; [done|]. unfold series in *. apply elem_of_app. by left. Qed.

Lemma good_handler c s : InformerOf (call_kind c) ∈ p.(Process.registry) -> Forall good_call (handler_metrics parse c s).
Proof.
  intros Hin. destruct c as [k now ev]. cbn [call_kind] in Hin. unfold handler_metrics.
  destruct (event_label ev) as [e|] eqn:He; [|constructor].
  assert (forall x, x ∈ (Metrics.StoreItems, [label_of parse k]) ::
    ((fun e => (Metrics.InformerEventsTotal, [label_of parse k; e])) <$> ["add"; "update"; "delete"]) -> x ∈ series parse p) as Hs.
  { intros x Hx. unfold series. rewrite !elem_of_app. right; right. apply list_elem_of_bind. by exists (InformerOf k). }
  assert (e ∈ ["add"; "update"; "delete"]) as Hel.
  { destruct ev as [[o| |]|old [o| |]|[o|[o|]|]]; try discriminate He; injection He as <-; set_solver. }
  constructor; [split; [done|]|constructor; [split; [done|]|constructor]]; apply Hs.
  - right. apply list_elem_of_fmap. by exists e.
  - left.
Qed.

Lemma good_handlers cs s :
  Forall (fun c => InformerOf (call_kind c) ∈ p.(Process.registry)) cs -> Forall good_call (handlers_metrics parse cs s).
Proof.
  intros H. revert s. induction H as [|c cs Hc _ IH]; intros s; [constructor|].
  cbn [handlers_metrics]. apply Forall_app. split; [by apply good_handler|apply IH].
Qed.

Lemma good_arriving w r sh :
  Forall (fun c => InformerOf (call_kind c) ∈ p.(Process.registry)) w.(Meanwhile.arriving) ->
  Forall good_call (arriving_metrics parse p w r sh).
Proof.
  intros H. rewrite <- (take_drop w.(Meanwhile.pods_read) w.(Meanwhile.arriving)) in H.
  apply Forall_app in H as [Ht Hd]. unfold arriving_metrics. cbv zeta. apply Forall_app. by split; apply good_handlers.
Qed.

Lemma good_build orphans d : Forall good_call (build_metrics p.(Process.pipeline) orphans d).
Proof.
  unfold build_metrics. rewrite !Forall_app. split_and!.
  - destruct (0 <? golen orphans) eqn:E; [|constructor]. apply Z.ltb_lt in E.
    constructor; [apply good_plain|constructor].
    + unfold fits, op_fits. cbn. change (SFltb ?a ?b) with (f64_ltb a b). rewrite f64_of_nonneg by lia. reflexivity.
    + cbn. set_solver.
  - apply Forall_fmap, Forall_forall. intros n Hn. split; [done|].
    unfold series. rewrite !elem_of_app. right; left. apply list_elem_of_fmap. by exists n.
  - constructor; [apply good_plain; [done|cbn; set_solver]|constructor].
Qed.

Lemma good_send w elapsed snap c :
  Forall good_call (Send_metrics decodeResponse decodeErrorResponse decodeErrorText json zstd w elapsed snap c).
Proof.
  unfold Send_metrics. destruct (encodeSnapshot _ _ _) as [[compressed orig]|]; [|constructor]. cbv zeta.
  destruct (_ && _); [constructor|]. destruct (send_loop _ _ _ _ _ _ _ _ _ _) as [evs [result err]].
  rewrite !Forall_app. split_and!.
  - unfold retry_metrics. rewrite Forall_bind, Forall_forall. intros [req| |dur] _; cbn; constructor; [|constructor].
    apply good_plain; [done|cbn; set_solver].
  - constructor; [apply good_plain; [done|cbn; set_solver]|constructor].
  - destruct (0 <? _); [|constructor]. constructor; [apply good_plain; [done|cbn; set_solver]|constructor].
  - constructor; [|constructor]. destruct err; (apply good_plain; [done|cbn; set_solver]).
Qed.

Lemma good_round d r a :
  Forall good_call (round_metrics p json zstd decodeResponse decodeErrorResponse decodeErrorText d r a).
Proof. apply Forall_app. split; [apply good_build|apply good_send]. Qed.

Lemma good_emitted d s ev s' :
  sys_step parse p json zstd decodeResponse decodeErrorResponse decodeErrorText s ev s' ->
  Forall good_call (emitted parse p json zstd decodeResponse decodeErrorResponse decodeErrorText d s ev).
Proof.
  assert (forall cs, Forall (informer_up p s) cs -> Forall (fun c => InformerOf (call_kind c) ∈ p.(Process.registry)) cs) as Hup
    by (intros cs Hcs; apply (Forall_impl _ _ _ Hcs); by intros c [? _]).
  intros [_ Hmove]. inversion Hmove; subst; cbn [emitted]; try constructor.
  - apply good_handler. by destruct H.
  - destruct ev0; try constructor. apply good_plain; [done|cbn; set_solver]. constructor.
  - apply Forall_app. split; [apply good_arriving; auto|apply good_build].
  - apply Forall_app. split; [apply good_arriving; auto|apply good_round].
  - apply Forall_app. split; [apply good_arriving; auto|]. destruct (snapshot_agent _ _); [apply good_round|constructor].
Qed.
End Fits.

Section Counters.
Context (parse : string -> option Quantity.t) (p : Process.t).
Context (json : ClusterSnapshot.t -> string + string) (zstd : Zstd.t).
Context (decodeResponse : string -> option SnapshotResponse.t)
        (decodeErrorResponse : string -> option SnapshotErrorResponse.t)
        (decodeErrorText : string -> string).

Abbreviation pround := (doSnapshot p.(Process.config) (Some p.(Process.pipeline)) p.(Process.cloudAccountID) json zstd
  decodeResponse decodeErrorResponse decodeErrorText).
Abbreviation pmetered := (metered parse p json zstd decodeResponse decodeErrorResponse decodeErrorText).
Abbreviation sent cs := (counted Metrics.SnapshotSendTotal ["success"] cs).
Abbreviation failed cs := (counted Metrics.SnapshotSendTotal ["error"] cs).

(** The outcome a send counts: none when it is refused. *)
Lemma send_counted w elapsed ms now snap c ec :
  let cs := Send_metrics decodeResponse decodeErrorResponse decodeErrorText json zstd w elapsed snap c in
  let '(_, (_, err), c', _) := Send decodeResponse decodeErrorResponse decodeErrorText json zstd w ms now snap c ec in
  c'.(Client.maxCompressedBodyBytes) = c.(Client.maxCompressedBodyBytes) /\
  match err with
  | None => sent cs = 1%nat /\ failed cs = 0%nat /\ refused json zstd c.(Client.maxCompressedBodyBytes) snap = false
  | Some _ => sent cs = 0%nat /\
      failed cs = (if refused json zstd c.(Client.maxCompressedBodyBytes) snap then 0 else 1)%nat
  end.
Proof.
  unfold Send_metrics, Send, refused. destruct (encodeSnapshot _ _ _) as [[compressed orig]|e]; [|done]. cbv zeta.
  destruct (_ && _); [done|]. destruct (send_loop _ _ _ _ _ _ _ _ _ _) as [evs [result err]].
  assert (forall vs, counted Metrics.SnapshotSendTotal vs (retry_metrics evs ++
      [MetricCall.mk Metrics.SnapshotSendDuration [] (Observe (seconds elapsed))] ++
      (if 0 <? strlen compressed
       then [MetricCall.mk Metrics.SnapshotSizeBytes ["compressed"] (Observe (f64_of_Z (strlen compressed)))] else []) ++
      [MetricCall.mk Metrics.SnapshotSendTotal [match err with Some _ => "error" | None => "success" end] Inc]) =
    counted Metrics.SnapshotSendTotal vs
      [MetricCall.mk Metrics.SnapshotSendTotal [match err with Some _ => "error" | None => "success" end] Inc]) as Hc.
  { intros vs. rewrite !counted_app, (counted_other _ _ (retry_metrics evs)).
    - by destruct (0 <? strlen compressed).
    - unfold retry_metrics. rewrite Forall_bind, Forall_forall. intros [] _; repeat constructor. done. }
  by destruct err; rewrite !Hc.
Qed.

Lemma build_counted vs orphans d : counted Metrics.SnapshotSendTotal vs (build_metrics p.(Process.pipeline) orphans d) = 0%nat.
Proof.
  apply counted_other. unfold build_metrics. rewrite !Forall_app. split_and!.
  - by destruct (0 <? golen orphans); repeat constructor.
  - by apply Forall_fmap, Forall_true.
  - by repeat constructor.
Qed.

Lemma arriving_counted vs w r sh : counted Metrics.SnapshotSendTotal vs (arriving_metrics parse p w r sh) = 0%nat.
Proof.
  unfold arriving_metrics. cbv zeta. rewrite counted_app, !counted_other; [done|..];
    (eapply Forall_impl; [apply handlers_targets|by intros c [->| ->]]).
Qed.

(** What a round counts, and what it does to the agent's own counters. *)
Lemma round_counted d r a :
  let cs := round_metrics p json zstd decodeResponse decodeErrorResponse decodeErrorText d r a in
  let a' := (pround r a).2 in
  let cap := a.(Agent.transport).(Client.maxCompressedBodyBytes) in
  a'.(Agent.transport).(Client.maxCompressedBodyBytes) = cap /\
  a'.(Agent.snapshotsTotal) = uwrap64 (a.(Agent.snapshotsTotal) + 1) /\
  ((sent cs = 1%nat /\ failed cs = 0%nat /\ a'.(Agent.snapshotsSent) = uwrap64 (a.(Agent.snapshotsSent) + 1) /\
    a'.(Agent.snapshotsFailed) = a.(Agent.snapshotsFailed) /\ refused json zstd cap (pround r a).1.2 = false) \/
   (sent cs = 0%nat /\ a'.(Agent.snapshotsSent) = a.(Agent.snapshotsSent) /\
    a'.(Agent.snapshotsFailed) = uwrap64 (a.(Agent.snapshotsFailed) + 1) /\
    failed cs = (if refused json zstd cap (pround r a).1.2 then 0 else 1)%nat)).
Proof.
  cbv zeta. unfold round_metrics. rewrite !counted_app, !build_counted, !Nat.add_0_l.
  destruct (doSnapshot_transport p.(Process.config) (Some p.(Process.pipeline)) p.(Process.cloudAccountID)
    json zstd decodeResponse decodeErrorResponse decodeErrorText r a) as [ec0 Ht].
  pose proof (doSnapshot_spec p.(Process.config) (Some p.(Process.pipeline)) p.(Process.cloudAccountID)
    json zstd decodeResponse decodeErrorResponse decodeErrorText r a) as Hs.
  destruct (pround r a) as [[evs snap] a']. cbn [fst snd] in *.
  destruct Hs as (a1 & err & _ & He & _ & Htot & _ & _ & _ & Herr).
  pose proof (fun ec => send_counted r.(Round.world) d.(Timings.send) r.(Round.encodeMs) r.(Round.sendNow) snap
    a.(Agent.transport) ec) as Hc. cbv zeta in Hc.
  split; [|split; [exact Htot|]].
  - rewrite Ht. specialize (Hc ec0). destruct (Send _ _ _ _ _ _ _ _ _ _ _) as [[[? [? ?]] ?] ?]. apply Hc.
  - specialize (Hc a1.(Agent.errorCollector)).
    destruct (Send decodeResponse decodeErrorResponse decodeErrorText json zstd r.(Round.world) r.(Round.encodeMs)
      r.(Round.sendNow) snap a.(Agent.transport) a1.(Agent.errorCollector)) as [[[? [? err']] ?] ?].
    cbn [fst snd] in He. subst err'. destruct Hc as [_ Hc].
    destruct err; [right|left].
    + destruct Hc as [-> ->], Herr as (? & ? & _). done.
    + destruct Hc as (-> & -> & ?), Herr as (? & ? & _). done.
Qed.

(** An event that sends no snapshot counts no send. *)
Lemma quiet_counted d s ev vs :
  snapshot_event ev = None ->
  counted Metrics.SnapshotSendTotal vs (emitted parse p json zstd decodeResponse decodeErrorResponse decodeErrorText d s ev) = 0%nat.
Proof.
  destruct ev as [| | |[]| | | | | | | | | | |]; try done; intros _; cbn [emitted].
  - destruct c as [k now e]. cbn. by destruct (event_label e).
  - by rewrite counted_app, arriving_counted, build_counted.
Qed.

(** The agent's counters, the calls of a run and its snapshots. *)
Definition agrees (cs : list MetricCall.t) (snaps : list ClusterSnapshot.t) (a : Agent.t) : Prop :=
  let cap := p.(Process.agent).(Agent.transport).(Client.maxCompressedBodyBytes) in
  let refusals := length (filter (fun snap => refused json zstd cap snap = true) snaps) in
  a.(Agent.transport).(Client.maxCompressedBodyBytes) = cap /\
  a.(Agent.snapshotsSent) = uwrap64 (Z.of_nat (sent cs)) /\
  a.(Agent.snapshotsFailed) = uwrap64 (Z.of_nat (failed cs + refusals)) /\
  a.(Agent.snapshotsTotal) = uwrap64 (Z.of_nat (length snaps)) /\
  length snaps = (sent cs + failed cs + refusals)%nat.

Lemma agrees_round cs0 cs1 snaps d r a :
  agrees cs0 snaps a -> sent cs1 = 0%nat -> failed cs1 = 0%nat ->
  agrees (cs0 ++ cs1 ++ round_metrics p json zstd decodeResponse decodeErrorResponse decodeErrorText d r a)
    (snaps ++ [(pround r a).1.2]) (pround r a).2.
Proof.
  intros (Hcap & Hs & Hf & Ht & Hn) Hs1 Hf1. unfold agrees. cbv zeta. rewrite !counted_app, Hs1, Hf1, !Nat.add_0_l.
  destruct (round_counted d r a) as (Hcap' & Ht' & Hr). cbv zeta in *. rewrite Hcap in Hcap', Hr.
  split; [exact Hcap'|]. rewrite Ht', Ht, filter_app, !length_app, filter_cons, filter_nil. cbn [length].
  destruct Hr as [(-> & -> & -> & -> & ->)|(-> & -> & -> & ->)]; rewrite Hs, Hf, ?uwrap64_add_l.
  - rewrite decide_False by done. cbn [length]. split_and!; try (f_equal; lia); lia.
  - case_decide as Hd; [rewrite Hd|apply not_true_is_false in Hd; rewrite Hd]; cbn [length];
      split_and!; try (f_equal; lia); lia.
Qed.

Lemma metered_run evs cs snaps s :
  pmetered evs cs snaps s -> sys_run parse p json zstd decodeResponse decodeErrorResponse decodeErrorText evs s.
Proof. induction 1; econstructor; eauto. Qed.

Lemma snapshot_agent_running now a :
  StateMachine.State a.(Agent.stateMachine) = StateRunning -> snapshot_agent now a = Some a.
Proof. intros E. unfold snapshot_agent. by rewrite E. Qed.

Lemma agrees_app cs cs' snaps a :
  agrees cs snaps a -> (forall vs, counted Metrics.SnapshotSendTotal vs cs' = 0%nat) -> agrees (cs ++ cs') (snaps ++ []) a.
Proof. intros Ha H0. unfold agrees in *. by rewrite !counted_app, !H0, !Nat.add_0_r, app_nil_r. Qed.

Lemma metered_agrees evs cs snaps s :
  p.(Process.agent).(Agent.snapshotsSent) = 0 -> p.(Process.agent).(Agent.snapshotsFailed) = 0 ->
  p.(Process.agent).(Agent.snapshotsTotal) = 0 ->
  pmetered evs cs snaps s -> agrees cs snaps s.(System.agent).
Proof.
  intros Hs Hf Ht. induction 1 as [|evs cs snaps s ev s' d Hm IH Hstep].
  { unfold agrees. cbn. by rewrite Hs, Hf, Ht. }
  destruct (snapshot_event ev) as [[w r]|] eqn:Hev.
  - destruct (event_round _ _ _ _ _ _ _ _ _ _ _ _ _ (metered_run _ _ _ _ Hm) Hstep Hev) as (_ & Ha & Hlast).
    assert (taken ev s' = [(pround r (round_agent ev s.(System.agent))).1.2]) as ->
      by (unfold taken; rewrite Hev, Hlast; reflexivity).
    assert (agrees cs snaps (round_agent ev s.(System.agent))) as IH'
      by (destruct ev as [| | | | | |[x|] ? ? ? ?| | | | | | | |]; exact IH).
    rewrite Ha. destruct Hstep as [_ Hmove].
    inversion Hmove; subst; try discriminate Hev; injection Hev as -> ->; cbn [emitted].
    + by apply agrees_round; [|apply arriving_counted..].
    + rewrite snapshot_agent_running by (by eapply run_agent; [eapply metered_run|]).
      by apply agrees_round; [|apply arriving_counted..].
  - rewrite (agent_kept _ _ _ _ _ _ _ _ _ _ Hstep Hev).
    assert (taken ev s' = []) as -> by (unfold taken; by rewrite Hev).
    apply agrees_app; [exact IH|]. intros vs. by eapply quiet_counted.
Qed.

(** The labels tell the kinds apart. *)
Lemma label_of_inj k k' : label_of parse k = label_of parse k' -> k = k'.
Proof. destruct k, k'; try reflexivity; intros H; discriminate H. Qed.

Lemma handler_events k what c sh :
  counted Metrics.InformerEventsTotal [label_of parse k; what] (handler_metrics parse c sh) =
    length (filter (fun c => told k what c = true) [c]).
Proof.
  destruct c as [k' now ev]. rewrite filter_cons, filter_nil. unfold handler_metrics, told.
  assert (forall e, counted Metrics.InformerEventsTotal [label_of parse k; what]
    [MetricCall.mk Metrics.InformerEventsTotal [label_of parse k'; e] Inc;
     MetricCall.mk Metrics.StoreItems [label_of parse k']
       (SetTo (f64_of_Z (TypedStore.Len (store_of parse k' (call parse (Call k' now ev) sh).(Shared.store)))))] =
    length (if decide (bool_decide (k' = k) && bool_decide (what = e) = true) then [Call k' now ev] else [])) as H.
  { intros e. unfold counted. rewrite !filter_cons, filter_nil. unfold counts.
    cbn [MetricCall.target MetricCall.values MetricCall.op].
    rewrite (bool_decide_eq_false_2 (Metrics.StoreItems = _)) by done.
    rewrite (bool_decide_eq_true_2 (Metrics.InformerEventsTotal = _)) by done.
    cbn [andb]. rewrite andb_true_r. rewrite (decide_False (P := false = true)) by done.
    assert (bool_decide ([label_of parse k'; e] = [label_of parse k; what]) = bool_decide (k' = k) && bool_decide (what = e)) as ->.
    { destruct (decide (k' = k /\ what = e)) as [[-> ->]|Hne].
      - by rewrite !bool_decide_eq_true_2.
      - rewrite bool_decide_eq_false_2 by (intros [= Hl ->]; apply Hne; split; [by apply label_of_inj|done]).
        symmetry. apply andb_false_iff. rewrite !bool_decide_eq_false. by destruct (decide (k' = k)); [right|left]; tauto. }
    by case_decide. }
  destruct ev as [[o| |]|old [o| |]|[o|[o|]|]]; cbn [event_label]; rewrite ?H; try done;
    rewrite decide_False; try done; by rewrite andb_false_r.
Qed.

Lemma handlers_events k what cs sh :
  counted Metrics.InformerEventsTotal [label_of parse k; what] (handlers_metrics parse cs sh) =
    length (filter (fun c => told k what c = true) cs).
Proof.
  revert sh. induction cs as [|c cs IH]; intros sh; [done|]. cbn [handlers_metrics].
  change (c :: cs) with ([c] ++ cs). by rewrite counted_app, handler_events, IH, filter_app, length_app.
Qed.

Lemma arriving_events k what w r sh :
  counted Metrics.InformerEventsTotal [label_of parse k; what] (arriving_metrics parse p w r sh) =
    length (filter (fun c => told k what c = true) w.(Meanwhile.arriving)).
Proof.
  unfold arriving_metrics. cbv zeta.
  by rewrite counted_app, !handlers_events, <- length_app, <- filter_app, take_drop.
Qed.

Lemma round_events l e d r a :
  counted Metrics.InformerEventsTotal [l; e]
    (round_metrics p json zstd decodeResponse decodeErrorResponse decodeErrorText d r a) = 0%nat.
Proof.
  apply counted_other. unfold round_metrics, build_metrics, Send_metrics. rewrite !Forall_app. split_and!.
  - by destruct (0 <? golen _); repeat constructor.
  - by apply Forall_fmap, Forall_true.
  - by repeat constructor.
  - destruct (encodeSnapshot _ _ _) as [[compressed orig]|]; [|constructor]. cbv zeta.
    destruct (_ && _); [constructor|]. destruct (send_loop _ _ _ _ _ _ _ _ _ _) as [evs [result err]].
    rewrite !Forall_app. split_and!; [|by repeat constructor| |by repeat constructor].
    + unfold retry_metrics. rewrite Forall_bind, Forall_forall. intros [] _; repeat constructor. done.
    + by destruct (0 <? strlen compressed); repeat constructor.
Qed.

Lemma build_events l e orphans d :
  counted Metrics.InformerEventsTotal [l; e] (build_metrics p.(Process.pipeline) orphans d) = 0%nat.
Proof.
  apply counted_other. unfold build_metrics. rewrite !Forall_app. split_and!.
  - by destruct (0 <? golen orphans); repeat constructor.
  - by apply Forall_fmap, Forall_true.
  - by repeat constructor.
Qed.

Lemma metered_events k what evs cs snaps s :
  pmetered evs cs snaps s ->
  counted Metrics.InformerEventsTotal [label_of parse k; what] cs =
    length (filter (fun c => told k what c = true) (history evs)).
Proof.
  induction 1 as [|evs cs snaps s ev s' d _ IH _]; [done|].
  unfold history. rewrite bind_app, filter_app, length_app, counted_app. fold (history evs). rewrite IH. f_equal.
  cbn [mbind list_bind]. rewrite app_nil_r.
  destruct ev as [| | |[]| |w r|syncErr t now w r|now w r| | | | | | |]; cbn [emitted calls_of]; try done.
  - apply handler_events.
  - by rewrite counted_app, build_events, Nat.add_0_r, arriving_events.
  - by rewrite counted_app, round_events, Nat.add_0_r, arriving_events.
  - rewrite counted_app, arriving_events.
    destruct (snapshot_agent _ _); [by rewrite round_events, Nat.add_0_r|by rewrite Nat.add_0_r].
Qed.
End Counters.

(** ** Properties *)

(** The registration succeeds, so [NewMetrics] does not panic: the descriptors are
    valid and no two share a name. *)
Theorem NewMetrics_registers DefBuckets ExponentialBuckets MustRegister :
  (forall os, Forall (fun o => valid_opts o = true) os -> NoDup (Opts.Name <$> os) -> MustRegister os = None) ->
  Metrics.NewMetrics DefBuckets ExponentialBuckets MustRegister = None.
Proof.
  intros H. apply H.
  - unfold Metrics.all. repeat constructor.
  - apply (bool_decide_unpack _). by vm_compute.
Qed.

Section Told.
Context (Getenv : string -> string) (Version : string).
Context {RestConfig : Type} (kube : Kube.t RestConfig).
Context (api : API.t) (ServerVersion : string + string).
Context (url_err : string -> option string).
Context (decodeAWS : HttpResponse.t -> string + AWSDoc.t) (decodeAzure : HttpResponse.t -> string + AzureDoc.t).
Context (listen : string -> string + string).
Context (srv : server).
Context (parse : string -> option Quantity.t).
Context (json : ClusterSnapshot.t -> string + string) (zstd : Zstd.t).
Context (decodeResponse : string -> option SnapshotResponse.t)
        (decodeErrorResponse : string -> option SnapshotErrorResponse.t)
        (decodeErrorText : string -> string).

(** C31 What the agent tells Prometheus: every call of a run fits the descriptor of
    its metric (the kind, the number of labels, and no counter decreases), so none
    panics, and writes one of a fixed number of series, whatever the cluster does:
    eleven and four for each informer registered.  Four of the fourteen metrics,
    the agent's state among them, are registered and never written. *)
Theorem metric_calls_fit DefBuckets ExponentialBuckets now p sent evs cs snaps s :
  interp srv [] (startup Getenv Version kube api ServerVersion url_err decodeAWS decodeAzure listen now) = (inr (inr p), sent) ->
  metered parse p json zstd decodeResponse decodeErrorResponse decodeErrorText evs cs snaps s ->
  Forall (fun c =>
    fits (Metrics.opts DefBuckets ExponentialBuckets c.(MetricCall.target)) c = true /\
    (c.(MetricCall.target), c.(MetricCall.values)) ∈ series parse p /\
    c.(MetricCall.target) ∉ [Metrics.TransportBufferBytes; Metrics.AgentState; Metrics.CompressionRatio;
                             Metrics.CompressionDuration]) cs /\
  length (series parse p) =
    (11 + 4 * length (filter (fun c => match c with InformerOf _ => true | _ => false end = true) p.(Process.registry)))%nat.
Proof.
  intros Hp Hm. destruct (startup_up _ _ _ _ _ _ _ _ _ _ _ _ _ Hp) as (caps & _ & Hr & _ & Hpipe & _). split.
  - assert (Forall (good_call DefBuckets ExponentialBuckets parse p) cs) as Hgood.
    { clear Hp Hr Hpipe. induction Hm as [|evs cs snaps s ev s' d _ IH Hstep]; [constructor|].
      apply Forall_app. split; [exact IH|by eapply good_emitted]. }
    apply (Forall_impl _ _ _ Hgood). intros c [Hf Hin]. split_and!; [done..|].
    assert (forall x, x ∈ series parse p -> x.1 ∉ [Metrics.TransportBufferBytes; Metrics.AgentState; Metrics.CompressionRatio;
      Metrics.CompressionDuration]) as Hs; [|exact (Hs _ Hin)].
    intros x. unfold series. rewrite !elem_of_app, list_elem_of_fmap, list_elem_of_bind.
    intros [Hx|[(n & -> & _)|(c' & Hx & _)]]; [| |destruct c'; cbn in Hx]; set_solver.
  - unfold series. rewrite !length_app, Hpipe. unfold timed. cbn [has_metrics agent_pipeline]. rewrite length_fmap.
    generalize p.(Process.registry). intros l. cbn [length].
    change (length (Name <$> enrichers agent_pipeline)) with 3%nat.
    assert (length (l ≫= fun c => match c with
       | InformerOf k => (Metrics.StoreItems, [label_of parse k]) ::
           ((fun e => (Metrics.InformerEventsTotal, [label_of parse k; e])) <$> ["add"; "update"; "delete"])
       | _ => [] end) =
      (4 * length (filter (fun c => match c with InformerOf _ => true | _ => false end = true) l))%nat) as ->; [|lia].
    induction l as [|c l IH]; [done|]. cbn [mbind list_bind]. rewrite length_app, IH, filter_cons.
    destruct c; case_decide; cbn [length fmap list_fmap]; try done; lia.
Qed.

(** C8 The metrics agree with what the process keeps and with what it is told: in
    every run the snapshots split into the successes counted, which are those the
    agent counts as sent, the errors counted, and the ones refused before the
    first attempt (an encoding that fails, or a size over the limit), which the
    agent counts as failed with the errors and which no metric shows.  The events
    counted for a kind of resource are the calls of its informer that tell of an
    object added, updated or deleted. *)
Theorem counters_agree now p sent evs cs snaps s :
  interp srv [] (startup Getenv Version kube api ServerVersion url_err decodeAWS decodeAzure listen now) = (inr (inr p), sent) ->
  metered parse p json zstd decodeResponse decodeErrorResponse decodeErrorText evs cs snaps s ->
  let succeeded := counted Metrics.SnapshotSendTotal ["success"] cs in
  let failed := counted Metrics.SnapshotSendTotal ["error"] cs in
  let limit := p.(Process.agent).(Agent.transport).(Client.maxCompressedBodyBytes) in
  let refusals := length (filter (fun snap => refused json zstd limit snap = true) snaps) in
  let a := s.(System.agent) in
  length snaps = (succeeded + failed + refusals)%nat /\
  a.(Agent.snapshotsSent) = uwrap64 (Z.of_nat succeeded) /\
  a.(Agent.snapshotsFailed) = uwrap64 (Z.of_nat (failed + refusals)) /\
  a.(Agent.snapshotsTotal) = uwrap64 (Z.of_nat (length snaps)) /\
  (forall k what, counted Metrics.InformerEventsTotal [label_of parse k; what] cs =
     length (filter (fun c => told k what c = true) (history evs))).
Proof.
  intros Hp Hm. destruct (startup_up _ _ _ _ _ _ _ _ _ _ _ _ _ Hp) as (caps & _ & _ & _ & _ & _ & Ha).
  destruct (metered_agrees parse p json zstd decodeResponse decodeErrorResponse decodeErrorText evs cs snaps s)
    as (_ & Hs & Hf & Ht & Hl); [by rewrite Ha..|exact Hm|].
  split_and!; [exact Hl|exact Hs|exact Hf|exact Ht|]. intros k what. by eapply metered_events.
Qed.
End Told.

(** ** Witnesses *)

Lemma NewMetrics_registers_witness :
  Metrics.NewMetrics [] (fun _ _ _ => [])
    (fun os => if decide (Forall (fun o => valid_opts o = true) os /\ NoDup (Opts.Name <$> os)) then None else Some "panic") = None.
Proof. apply NewMetrics_registers. intros os H1 H2. by rewrite decide_True. Defined.

(** Every run makes some calls. *)
Lemma run_metered parse p json zstd dec decE errText evs s :
  sys_run parse p json zstd dec decE errText evs s ->
  exists cs snaps, metered parse p json zstd dec decE errText evs cs snaps s.
Proof.
  induction 1 as [|evs s ev s' _ (cs & snaps & IH) Hstep]; [eexists _, _; constructor|].
  eexists _, _. apply (met_snoc _ _ _ _ _ _ _ _ _ _ _ _ _ (Timings.mk (fun _ => 1) Second (2 * Second)) IH Hstep).
Qed.

(** As many snapshots as events that send one. *)
Lemma metered_snaps parse p json zstd dec decE errText evs cs snaps s :
  metered parse p json zstd dec decE errText evs cs snaps s ->
  length snaps = length (filter (fun ev => is_Some (snapshot_event ev)) evs).
Proof.
  induction 1 as [|evs cs snaps s ev s' d Hm IH Hstep]; [done|].
  rewrite filter_app, !length_app, IH, filter_cons, filter_nil. f_equal. unfold taken.
  destruct (snapshot_event ev) as [[w r]|] eqn:Hev; [|by rewrite decide_False by by intros []].
  rewrite decide_True by by eexists.
  destruct (event_round _ _ _ _ _ _ _ _ _ _ _ _ _ (metered_run _ _ _ _ _ _ _ _ _ _ _ Hm) Hstep Hev) as (_ & _ & Hlast).
  by rewrite Hlast.
Qed.

(** The pod of System.v is counted once, and a first snapshot that cannot be
    encoded is a failure that no metric counts. *)
Lemma counters_agree_witness :
  match ex_process with
  | (inr (inr p), _) =>
      exists evs cs snaps s,
        metered (fun _ => None) p (fun _ => inr "unsupported value") stored_zstd accept_all no_codec (fun _ => "") evs cs snaps s /\
        counted Metrics.InformerEventsTotal ["pods"; "add"] cs = 1%nat /\
        counted Metrics.SnapshotSendTotal ["error"] cs = 0%nat /\
        s.(System.agent).(Agent.snapshotsFailed) = 1
  | _ => False
  end.
Proof.
  pose proof ex_process_up as Hup. destruct ex_process as [[e|[e|p]] sent] eqn:E; [destruct Hup..|]. clear Hup.
  pose proof (ex_run (fun _ => inr "unsupported value") p sent E) as Hrun.
  destruct (quiet_start (fun _ => None) p (fun _ => inr "unsupported value") stored_zstd accept_all no_codec (fun _ => "")
    (ex_seen p) None "timeout" "5m0s" 6 200 10 eq_refl (ex_interval p sent E)) as (s' & Hstep & _); [clear E; done|].
  destruct (run_metered _ _ _ _ _ _ _ _ _ Hrun) as (cs & snaps & Hcs).
  pose proof (met_snoc _ _ _ _ _ _ _ _ _ _ _ _ _ (Timings.mk (fun _ => 1) Second (2 * Second)) Hcs Hstep) as Hcs'.
  destruct (counters_agree ex_env "1.2.3" ex_kube ex_api (inr "v1.31.0") (fun _ => None) (fun _ => inl "") (fun _ => inl "")
    ex_listen (fun _ _ => inl "no route to host") (fun _ => None) (fun _ => inr "unsupported value") stored_zstd accept_all
    no_codec (fun _ => "") 0 p sent _ _ _ _ E Hcs') as (Hl & _ & Hf & _ & Hev). clear E.
  eexists _, _, _, s'. split; [exact Hcs'|]. split; [exact (Hev KPod "add")|].
  assert (forall l : list ClusterSnapshot.t, filter (fun snap => refused (fun _ => inr "unsupported value") stored_zstd
    p.(Process.agent).(Agent.transport).(Client.maxCompressedBodyBytes) snap = true) l = l) as Hall.
  { intros l. induction l as [|x l IH]; [done|]. rewrite filter_cons, decide_True by reflexivity. by rewrite IH. }
  rewrite Hall in Hl, Hf.
  pose proof (eq_trans (metered_snaps _ _ _ _ _ _ _ _ _ _ _ Hcs') (eq_refl 1%nat)) as Hn. rewrite Hn in Hl, Hf.
  match goal with |- ?y = 0%nat /\ _ => assert (y = 0%nat) as Hy by (clear - Hl; lia) end.
  split; [exact Hy|]. rewrite Hf, Hy. reflexivity.
Defined.

Lemma metric_calls_fit_witness :
  match ex_process with
  | (inr (inr p), _) =>
      exists cs snaps, metered (fun _ => None) p empty_json stored_zstd accept_all no_codec (fun _ => "") (ex_events p) cs snaps (ex_seen p) /\
        Forall (fun c => fits (Metrics.opts [] (fun _ _ _ => []) c.(MetricCall.target)) c = true) cs
  | _ => False
  end.
Proof.
  pose proof ex_process_up as Hup. destruct ex_process as [[e|[e|p]] sent] eqn:E; [destruct Hup..|]. clear Hup.
  destruct (run_metered _ _ _ _ _ _ _ _ _ (ex_run empty_json p sent E)) as (cs & snaps & Hcs). exists cs, snaps. split; [exact Hcs|].
  destruct (metric_calls_fit ex_env "1.2.3" ex_kube ex_api (inr "v1.31.0") (fun _ => None) (fun _ => inl "") (fun _ => inl "")
    ex_listen (fun _ _ => inl "no route to host") (fun _ => None) empty_json stored_zstd accept_all no_codec
    (fun _ => "") [] (fun _ _ _ => []) 0 p sent _ _ _ _ E Hcs) as [H _]. clear E.
  apply (Forall_impl _ _ _ H). intros c Hc. exact (proj1 Hc).
Defined.
